(* ===== verification/_CoqProject ===== *)
-Q . S2P
Prelude.v
PyFloat.v
FloatOrder.v
FloatRound.v
PyStr.v
PyVal.v
PySort.v
PyPath.v
Digest.v
Disk.v
Regex.v
VllmEvents.v
VllmEventsFacts.v
VllmHash.v
PromParse.v
PromParseFacts.v
Schemas.v
VllmAdapter.v
SglangAdapter.v
Adapter.v
Derive.v
BackendState.v
PromWriter.v
App.v
Service.v
WindowMetrics.v
Journal.v
Policy.v
Envelope.v
Calibrator.v
Percentile.v
Solve.v
Predictor.v
TtftValidation.v
Random.v
PolicyEval.v
Gather.v
LoadRunner.v
Experiment.v
Sweep.v
PyUrl.v
Stream.v
Stage2Config.v
Stage2.v
Stage2Run.v
CacheFidelity.v
Gateway.v
Threshold.v
Figures.v
Artifacts.v
SweepArtifact.v
Reuse.v
Stage2Report.v
FinalReport.v
Bundle.v
Scripts.v
Written.v
Commands.v
SweepScript.v
CurveScript.v
Replay.v
GatewayReport.v
