(* ===== verification/Prelude.v ===== *)
(** * Kavora: a verification library for the Python control plane

    Kavora routes requests of large language models by evidence on their key-value
    caches.  Its Python half observes the serving engines (vLLM, SGLang), turns what it
    sees into backend state and cache events for the gateway, runs reproducible
    experiments, and plans: rates, thresholds, concurrency, promotion of a policy.  This
    library is a shallow embedding of that half: every modelled function is
    a definition with its name, its guards and its exceptions, and the theorems say what
    makes it correct.

    ** How the parts interact

    - Evidence: [engine_events] subscribes to an engine's cache events and posts them to
      the gateway in sequence, with a checkpoint for restarts; it also computes the block
      keys of a request, which must equal the engine's.
    - Observation: the [exporter] polls an engine's metrics page, parses it, adapts it to
      a snapshot, derives residency signals, publishes gauges and a backend-state
      document, and answers readiness.
    - Measurement: [benchmark] sends load, takes the difference of two scrapes around it
      as the evidence of a run, and grades that evidence; the Stage 2 evaluation rotates
      strategies over repetitions and aggregates them.
    - Planning: [planner] reads the documents of the measurements and the gateway's
      decision and outcome journals: rates, operating envelope, calibration, a time to
      first token predictor, and the gates of a policy experiment.
    - Scripts: [scripts] run the reuse experiment and the capacity sweep, draw the
      threshold curve, check a finished artifact, and write the final report.

    The components meet in documents and files, so several theorems cross files: a
    finished sweep keeps what it measured and passes the artifact check
    ([SweepScript.sweep_keeps_measurements]), is calibrated to the calibration it already
    holds, and is always blocked by the operating envelope ([SweepScript.sweep_to_plan]);
    a finished reuse experiment carries through to the baseline comparison and the
    threshold curve ([CurveScript.reuse_to_curve]); the validation reads every fitted
    predictor and counts the samples that the fit uses ([Artifacts.fit_validation_agree]);
    and the report bundle can be written from whatever the pipeline produced
    ([Bundle.bundle_complete]).  The exporter is proved
    against the interface of its adapters ([Adapter.MetricsAdapter]), the load runners
    against a bounded pool ([Gather]), the elimination against a class of arithmetic
    ([Solve.Arith]).

    ** The files

    Foundations.  [Prelude]: exceptions ([exn]), the error monad ([res], [x <-! c ;; k]),
    monadic map, fold and filter, computations that keep their state when they raise
    ([stateful]), list lemmas, tactics.  [PyFloat], [FloatOrder],
    [FloatRound]: floats as executable binary64, their order, and bounds of rounded
    results.  [PyStr], [PyVal], [PySort], [PyPath], [PyUrl]: strings and number texts,
    JSON values and coercions, stable sorts, paths, URLs.  [Disk]: the files a script reads
    and the operations it performs, figures among them.  [Digest]: canonical JSON and
    SHA-256.  [Regex]: backtracking matching.  [Random]: the Mersenne Twister.
    [Gather]: a bounded pool of requests as a step relation, generic in the request, used
    by every load runner.

    Components, with the source each one models:
    - [VllmEvents], [VllmEventsFacts]: engine_events/vllm.py.  The adapter's state is its
      generation and the last sequence and time stamp it committed; the subscriber adds
      the checkpoint documents written, the events the gateway accepted, and the replies
      and replay sessions to come; a run is a loop over live messages.
    - [VllmHash]: engine_events/vllm_hash.py.
    - [Schemas], [VllmAdapter], [SglangAdapter], [Adapter], [Derive], [BackendState], [PromParse],
      [PromParseFacts], [PromWriter], [App]: exporter/.  The writer's state is its dictionary
      of gauges with the trace of registry calls; the application's state is the
      scrape state, the writer and the two published documents.
    - [Service]: the event loop of exporter/app.py as a step relation: the poll task, the
      requests between its steps, and the shutdown.
    - [WindowMetrics], [LoadRunner], [Experiment]: benchmark/window_metrics.py, runner.py,
      experiment.py and collect.py.
    - [Stream], [Gateway], [GatewayReport]: benchmark/gateway_runner.py and gateway_report.py.
    - [Stage2Config], [Stage2], [Stage2Run], [Stage2Report]: benchmark/stage2_evaluation.py,
      stage2_report.py and paper_report.py.
    - [CacheFidelity]: benchmark/cache_fidelity.py and its report.
    - [Policy], [Envelope], [Calibrator], [Journal], [Percentile], [Solve], [Predictor],
      [TtftValidation], [PolicyEval]: planner/policy.py, operating_envelope.py,
      auto_calibrator.py, ttft_predictor.py, ttft_validation.py, policy_evaluation.py.
    - [Threshold]: planner/compare_baseline.py and scripts/plot_threshold_curve.py.
    - [Sweep], [SweepArtifact], [Reuse], [FinalReport], [Bundle], [Scripts], [Replay]: scripts/ and
      the two document mergers of planner/.
    - [Artifacts], [Written]: the records of the planner and the benchmarks as the JSON objects
      they are written to; every document of the pipeline has a JSON text.
    - [Figures]: the figures and the table that scripts/run_capacity_sweep.py and
      scripts/plot_threshold_curve.py draw.
    - [Commands], [SweepScript], [CurveScript]: the [main] functions of planner/, benchmark/
      and scripts/ over a disk, from the options to the files.

    ** What the theorems show

    - Delivery ([VllmEventsFacts]): batches are committed in sequence, each after the
      gateway accepted all its events ([run_delivers_in_order]); a stop at any point
      resumes from the checkpoint ([run_resumes_from_checkpoint]); a failed delivery
      changes nothing ([failed_delivery_is_retryable]); a live batch is never skipped
      silently ([run_step_handles], a lemma); event ids are unique ([prepare_event_ids_unique]);
      and [prepare] refines a specification on decoded batches ([prepare_refines_spec]).
    - Alignment: two requests share a block key exactly when they share the tokens of the
      block and of all before it ([VllmHash.shared_keys_iff_shared_tokens]).
    - The service: readiness after any history of rounds ([App.readyz_history]), what each
      round publishes ([App.poll_round_spec]), recovery after one good round
      ([App.one_round_recovers]), the registry's contract ([PromWriter.writer_history]), and
      what a client sees between the rounds and at the shutdown ([Service.service_answers]).
    - Evidence: ratios stay in [0, 1] ([Derive.compute_derived_ratios],
      [WindowMetrics.window_metrics_sound]), a missing counter is never turned into a number
      ([Stage2.window_not_imputed], [Stage2Report.report_never_imputes],
      [SglangAdapter.sglang_snapshot]), a failed scrape is seen
      ([Experiment.windowed_evidence]; [Stage2Run.failed_scrape_seen]).
    - Load: concurrency bounds, termination, progress and accounting of every batch
      ([LoadRunner.batch_spec], [Stage2Run.repetition_spec]).
    - Stage 2: what an accepted configuration guarantees ([Stage2Config.config_valid]),
      balanced rotation and completeness of an evaluation ([Stage2Run]).
    - Planning: optimality of the recommended points and the Pareto list ([Envelope],
      [Calibrator], [Policy]), accounting and gates of a promotion ([PolicyEval]),
      elimination against linear algebra over the rationals ([Solve.solve_correct]),
      termination of the fit ([Predictor]), its agreement with the validation ([Artifacts]),
      the ends of the ablation ([CacheFidelity]).
    - Commands: a command of the planner or the benchmarks either raises before it touches
      the disk or writes all its documents ([Commands.command_delivers]).
    - Documents: round trip of label sets ([PromParseFacts.relaxed_labels_roundtrip]),
      ranking of a sweep, and readers and writers of artifacts that fit each other
      ([Sweep], [SweepScript], [CurveScript], [Bundle.bundle_complete]).

    Further theorems state the behaviour of the remaining operations (the advice rules,
    the percentiles, the held-out verdict, the two languages of the report, the restart of
    the stack, the order in which failed requests are replayed) and, as examples, inputs on which the code does less than it means to.

    ** Modelling choices

    - Exceptions are values of [exn]; a message is kept where the source writes one.
    - Floats are [spec_float] at binary64 with the rounding CPython performs; [dec m e] is
      the literal m * 10^e.  Integers are [Z], as Python's are unbounded.
    - A JSON value is a [val], a dictionary an association list in insertion order.  Where
      the sources mutate a shared dictionary, the state is passed on explicitly.
    - Strings are sequences of code points below 256; the report of [FinalReport] is UTF-8,
      which is only concatenated there.  JSON texts are written by [Digest]; reading is the disk's:
      a theorem on a file that is read back has the document it was written from.
    - Concurrent requests are steps of [Gather.step]; a theorem on a batch holds for every
      interleaving and every answer of the server.
    - A script's run leaves the list of the disk operations that succeeded, in order, also
      when it ends in an exception; a figure is what is handed to matplotlib.

    ** Fuel and bounds

    - [Regex.star_loop], [PromParse.parse_labels_loop] and [Digest.sha_blocks] consume
      input in every round and get its length as fuel.  [PyStr.small_decpt] gets 400
      rounds, and no positive double is below 10^-324; [PyStr.shortest] tries 17 digits,
      which always suffice for binary64.
    - [Random.randbelow] draws at most [draws] = 4096 times, each failing with probability
      below one half; an exhausted run is an exception of its own and never a result.
    - [Threshold.frange] returns [None] while the loop has not ended:
      [Threshold.default_range] gives the range of the defaults, [Threshold.zero_step_hangs]
      shows that a zero step never ends.
    - The loops of the subscriber and of the poll task are unbounded in the source; here
      they run over a finite history of inputs, and the theorems hold for every history.

    ** Parameters

    Third-party code and the world are arguments: MessagePack and YAML decoding, the
    engine's hash functions and tokenizer, the Prometheus client's parser, HTTP servers,
    clocks, [json.loads] on journal lines, [datetime] conversion, [math.exp], the iteration
    order of sets, the image library, process and file-system calls.  What a theorem needs
    of one is a hypothesis, and its witness gives a concrete function.

    ** Not modelled

    - The parsing of command lines by argparse (the options are records of the given
      values), printing and logging; the FastAPI, uvicorn and ZeroMQ wiring; what
      matplotlib makes of a figure.
    - The Go gateway, the Rust policy engine, the protocol definitions and the web
      interface, which are other languages behind HTTP and gRPC. *)

From stdpp Require Export prelude strings.
From Stdlib Require Export ZArith Lia.

(** ** Python exceptions and the error monad

    A Python call either returns a value or raises.  [exn] has one constructor
    per exception class the modelled code raises or catches; the message is
    kept where the source writes one. *)

Inductive exn : Type :=
| TypeError
| ValueError (msg : string)
| KeyError (key : string)
| IndexError
| AttributeError
| ZeroDivisionError
| OverflowError
| OSError
| CalledProcessError                   (* subprocess: a checked command failed *)
| RuntimeError (msg : string)
| StatisticsError
| StopIteration
| DecodeError                          (* a third-party decoder rejected its input *)
| HTTPError                            (* httpx: transport failure or bad status *)
| ZMQError                             (* zmq: receive timeout *)
| NameError (name : string)
| SystemExit (status : Z)               (* argparse's [parser.error]: status 2 *)
| SequenceGap (expected received : Z). (* engine_events.vllm.SequenceGap *)

Inductive res (A : Type) : Type :=
| Ok (a : A)
| Err (e : exn).
Arguments Ok {A} a.
Arguments Err {A} e.

Declare Scope py_scope.
Delimit Scope py_scope with py.

(** Sequencing: the binds expand to a [match], so [destruct] and [simpl] see the
    control flow of the source. *)
Notation "x <-! c ;; k" :=
  (match c with Ok x => k | Err e => Err e end)
  (at level 20, c at level 99, k at level 200) : py_scope.
Notation "' pat <-! c ;; k" :=
  (match c with Ok pat => k | Err e => Err e end)
  (at level 20, pat pattern, c at level 99, k at level 200) : py_scope.
(** [if cond: raise e], followed by the rest of the body. *)
Notation "'raise_if' b 'with' e ;; k" :=
  (if (b : bool) then Err e else k)
  (at level 20, b at level 100, e at level 99, k at level 200) : py_scope.
#[export] Set Warnings "-notation-overridden,-clear-no-such-hyp,-register-all".
Open Scope py_scope.
Open Scope Z_scope.

(** ** Stateful computations that may raise

    A [try] body or a script changes its state before it raises, so the state of a
    raising computation is kept. *)

Definition stateful (S A : Type) : Type := S -> S * res A.
Definition st_lift {S A} (r : res A) : stateful S A := fun st => (st, r).
Definition st_mod {S} (f : S -> S) : stateful S unit := fun st => (f st, Ok tt).
Definition st_get {S A} (f : S -> A) : stateful S A := fun st => (st, Ok (f st)).
Definition st_bind {S A B} (m : stateful S A) (k : A -> stateful S B) : stateful S B := fun st =>
  match m st with
  | (st', Ok a) => k a st'
  | (st', Err e) => (st', Err e)
  end.
Notation "x <~ m ;; k" := (st_bind m (fun x => k)) (at level 20, m at level 99, k at level 200) : py_scope.
Notation "m ;;; k" := (st_bind m (fun _ : unit => k)) (at level 20, k at level 200) : py_scope.
(** [for x in l: body] *)
Fixpoint st_for {S A} (body : A -> stateful S unit) (l : list A) : stateful S unit :=
  match l with
  | [] => st_lift (Ok tt)
  | x :: l' => body x ;;; st_for body l'
  end.

Section stateful.
Context {S : Type}.

Lemma st_bind_ok {A B} (m : stateful S A) (k : A -> stateful S B) st st' b :
  st_bind m k st = (st', Ok b) -> exists a st1, m st = (st1, Ok a) /\ k a st1 = (st', Ok b).
Proof. unfold st_bind. destruct (m st) as [st1 [a|e]]; [eauto|discriminate]. Qed.
Lemma st_lift_ok {A} (r : res A) (st st' : S) a : st_lift r st = (st', Ok a) -> st' = st /\ r = Ok a.
Proof. unfold st_lift. intros [= -> ->]. done. Qed.
Lemma run_bind {A B} (m : stateful S A) (k : A -> stateful S B) st st' a :
  m st = (st', Ok a) -> st_bind m k st = k a st'.
Proof. intros H. unfold st_bind. by rewrite H. Qed.
Lemma run_bind_err {A B} (m : stateful S A) (k : A -> stateful S B) st st' e :
  m st = (st', Err e) -> st_bind m k st = (st', Err e).
Proof. intros H. unfold st_bind. by rewrite H. Qed.
Lemma run_lift {A B} (r : res A) (k : A -> stateful S B) st a : r = Ok a -> st_bind (st_lift r) k st = k a st.
Proof. by intros ->. Qed.

(** [P] before; [Q] after a return, [P] still after an exception. *)
Definition keeps {A} (P : S -> Prop) (m : stateful S A) (Q : A -> S -> Prop) : Prop :=
  forall st, P st -> match m st with
                     | (st', Ok a) => Q a st'
                     | (st', Err _) => P st'
                     end.
Lemma keeps_bind {A B} P (m : stateful S A) (k : A -> stateful S B) Q :
  keeps P m (fun _ => P) -> (forall a, keeps P (k a) Q) -> keeps P (st_bind m k) Q.
Proof.
  intros Hm Hk st Hst. unfold st_bind. specialize (Hm st Hst).
  destruct (m st) as [st' [a|e]]; [by apply Hk|done].
Qed.
Lemma keeps_lift {A} P (r : res A) : keeps P (st_lift r) (fun _ => P).
Proof. intros st Hst. unfold st_lift. by destruct r. Qed.
Lemma keeps_get {A} P (f : S -> A) : keeps P (st_get f) (fun _ => P).
Proof. by intros st Hst. Qed.
Lemma keeps_mod P f : (forall st, P st -> P (f st)) -> keeps P (st_mod f) (fun _ => P).
Proof. intros H st Hst. by apply H. Qed.
End stateful.

#[global] Instance exn_eq_dec : EqDecision exn.
Proof. solve_decision. Defined.

Definition is_ok {A} (r : res A) : bool :=
  match r with Ok _ => true | Err _ => false end.

Fixpoint res_map {A B} (f : A -> res B) (l : list A) : res (list B) :=
  match l with
  | [] => Ok []
  | x :: l' => y <-! f x ;; ys <-! res_map f l' ;; Ok (y :: ys)
  end.

Fixpoint res_fold {A S} (f : S -> A -> res S) (s : S) (l : list A) : res S :=
  match l with
  | [] => Ok s
  | x :: l' => s' <-! f s x ;; res_fold f s' l'
  end.

(** [all(...)] and [any(...)] over a generator whose test can raise. *)
Fixpoint res_existsb {A} (f : A -> res bool) (l : list A) : res bool :=
  match l with
  | [] => Ok false
  | x :: l' => b <-! f x ;; if b : bool then Ok true else res_existsb f l'
  end.

Fixpoint res_filter {A} (f : A -> res bool) (l : list A) : res (list A) :=
  match l with
  | [] => Ok []
  | x :: l' => b <-! f x ;; ys <-! res_filter f l' ;;
               Ok (if b : bool then x :: ys else ys)
  end.

(** ** Automation *)

(** Break the binds of a hypothesis that says a computation returned. *)
Ltac inv_ok H :=
  repeat match type of H with
  | context [match ?c with Ok _ => _ | Err _ => _ end] =>
      let E := fresh "E" in destruct c eqn:E; [|discriminate H]
  | (if ?b then Err _ else _) = Ok _ =>
      let E := fresh "E" in destruct b eqn:E; [discriminate H|]
  | (if ?b then _ else Err _) = Ok _ =>
      let E := fresh "E" in destruct b eqn:E; [|discriminate H]
  | Ok _ = Ok _ => injection H as H
  end.

(** Reduce boolean connectives in the context to propositions. *)
Ltac bool_hyps :=
  repeat match goal with
  | H : _ && _ = true |- _ => apply andb_prop in H; destruct H
  | H : _ || _ = false |- _ => apply orb_false_elim in H; destruct H
  | H : negb _ = true |- _ => apply negb_true_iff in H
  | H : negb _ = false |- _ => apply negb_false_iff in H
  | H : (_ =? _)%Z = true |- _ => apply Z.eqb_eq in H
  | H : (_ =? _)%Z = false |- _ => apply Z.eqb_neq in H
  | H : (_ <=? _)%Z = true |- _ => apply Z.leb_le in H
  | H : (_ <=? _)%Z = false |- _ => apply Z.leb_gt in H
  | H : (_ <? _)%Z = true |- _ => apply Z.ltb_lt in H
  | H : (_ <? _)%Z = false |- _ => apply Z.ltb_ge in H
  | H : String.eqb _ _ = true |- _ => apply String.eqb_eq in H
  | H : String.eqb _ _ = false |- _ => apply String.eqb_neq in H
  end.

(** Case analysis on the innermost [match] or [if] of the goal. *)
Ltac case_goal :=
  match goal with
  | |- context [match ?x with _ => _ end] =>
      lazymatch x with
      | context [match _ with _ => _ end] => fail
      | _ => let E := fresh "E" in destruct x eqn:E
      end
  end.

Create HintDb pydb discriminated.

(** ** Lemmas on lists and on the error monad shared by the components *)

Section res_lemmas.
Context {A B S : Type}.

Lemma res_map_length (f : A -> res B) l ys :
  res_map f l = Ok ys -> length ys = length l.
Proof.
  revert ys; induction l as [|x l IH]; simpl; intros ys H.
  - by injection H as <-.
  - inv_ok H. subst ys. simpl. by rewrite (IH _ eq_refl).
Qed.

Lemma res_map_Forall2 (f : A -> res B) l ys :
  res_map f l = Ok ys <-> Forall2 (fun x y => f x = Ok y) l ys.
Proof.
  split.
  - revert ys; induction l as [|x l IH]; simpl; intros ys H.
    + by injection H as <-.
    + inv_ok H. subst ys. constructor; [done|by apply IH].
  - induction 1 as [|x y l ys Hx _ IH]; simpl; [done|]. by rewrite Hx, IH.
Qed.

Lemma res_map_app (f : A -> res B) l1 l2 :
  res_map f (l1 ++ l2) =
  (ys1 <-! res_map f l1 ;; ys2 <-! res_map f l2 ;; Ok (ys1 ++ ys2)).
Proof.
  induction l1 as [|x l1 IH]; simpl.
  - by destruct (res_map f l2).
  - destruct (f x); [|done]. rewrite IH.
    destruct (res_map f l1); [|done]. by destruct (res_map f l2).
Qed.

Lemma res_fold_app (f : S -> A -> res S) l1 l2 s :
  res_fold f s (l1 ++ l2) = (s' <-! res_fold f s l1 ;; res_fold f s' l2).
Proof.
  revert s; induction l1 as [|x l1 IH]; simpl; intros s; [done|].
  destruct (f s x); [apply IH|done].
Qed.

(** An invariant of the step is an invariant of the fold. *)
Lemma res_fold_inv (P : S -> Prop) (f : S -> A -> res S) l s s' :
  (forall s x s', x ∈ l -> P s -> f s x = Ok s' -> P s') ->
  P s -> res_fold f s l = Ok s' -> P s'.
Proof.
  revert s; induction l as [|x l IH]; simpl; intros s Hstep Hs H.
  - by injection H as <-.
  - inv_ok H. eapply IH; [|eapply Hstep; eauto; by left|exact H].
    intros; eapply Hstep; eauto; by right.
Qed.
End res_lemmas.

Section list_lemmas.
Context {A : Type}.

Lemma existsb_elem (f : A -> bool) l :
  existsb f l = true <-> exists x, x ∈ l /\ f x = true.
Proof.
  rewrite existsb_exists. setoid_rewrite list_elem_of_In. done.
Qed.

Lemma forallb_elem (f : A -> bool) l :
  forallb f l = true <-> forall x, x ∈ l -> f x = true.
Proof. rewrite forallb_forall. setoid_rewrite list_elem_of_In. done. Qed.

Lemma elem_of_filterb (f : A -> bool) l x :
  x ∈ List.filter f l <-> x ∈ l /\ f x = true.
Proof. rewrite !list_elem_of_In. apply filter_In. Qed.

Lemma filterb_length_le (f : A -> bool) l :
  (length (List.filter f l) <= length l)%nat.
Proof. induction l as [|x l IH]; simpl; [lia|]. destruct (f x); simpl; lia. Qed.
End list_lemmas.

(** [find] in list order, as [next(x for x in l if f x)]. *)
Lemma find_some_elem {A} (f : A -> bool) l x :
  List.find f l = Some x -> x ∈ l /\ f x = true.
Proof. intros H. apply find_some in H. by rewrite list_elem_of_In. Qed.

(** ** [len(l)] as an integer *)

Definition zlen {A} (l : list A) : Z := Z.of_nat (length l).
Lemma zlen_cons {A} (x : A) l : zlen (x :: l) = 1 + zlen l.
Proof. unfold zlen. simpl. lia. Qed.

(** How many elements pass a test. *)
Definition zcount {A} (p : A -> bool) (l : list A) : Z := zlen (List.filter p l).
Lemma zcount_cons {A} (p : A -> bool) x l : zcount p (x :: l) = (if p x then 1 else 0) + zcount p l.
Proof. unfold zcount. cbn [List.filter]. destruct (p x); rewrite ?zlen_cons; lia. Qed.
Lemma zlen_map {A B} (f : A -> B) l : zlen (map f l) = zlen l.
Proof. unfold zlen. by rewrite length_map. Qed.
Lemma zlen_app {A} (l m : list A) : zlen (l ++ m) = zlen l + zlen m.
Proof. unfold zlen. rewrite length_app. lia. Qed.
Lemma zlen_nonneg {A} (l : list A) : 0 <= zlen l.
Proof. unfold zlen. lia. Qed.
Lemma res_map_zlen {A B} (f : A -> res B) l ys : res_map f l = Ok ys -> zlen ys = zlen l.
Proof. intros H. unfold zlen. by rewrite (res_map_length f l ys H). Qed.

(** [zip(a, b, strict=True)] *)
Definition zip_strict {A B} (a : list A) (b : list B) : res (list (A * B)) :=
  if Nat.eqb (length a) (length b) then Ok (combine a b)
  else Err (ValueError "zip() arguments have different lengths").

Lemma res_map_ext {A B} (f g : A -> res B) l : (forall x, x ∈ l -> f x = g x) -> res_map f l = res_map g l.
Proof.
  induction l as [|x l IH]; intros H; simpl; [done|]. rewrite (H x) by (by left).
  rewrite IH; [done|]. intros y Hy. apply H. by right.
Qed.

(** ** Positions: the elements of a list of objects, told apart by where they are *)

Definition indexed {A} (l : list A) : list (nat * A) := combine (seq 0 (length l)) l.

Lemma indexed_lookup {A} (l : list A) i : indexed l !! i = (fun x => (i, x)) <$> l !! i.
Proof.
  unfold indexed.
  assert (H : forall k, combine (seq k (length l)) l !! i = (fun x => ((k + i)%nat, x)) <$> l !! i).
  { revert i. induction l as [|x l IH]; intros i k; [done|]. destruct i as [|i]; simpl.
    - do 2 f_equal. lia.
    - rewrite IH. destruct (l !! i); simpl; [do 2 f_equal; lia|done]. }
  by rewrite H.
Qed.
Lemma indexed_elem {A} (l : list A) i x : (i, x) ∈ indexed l <-> l !! i = Some x.
Proof.
  unfold indexed.
  assert (H : forall k, (i, x) ∈ combine (seq k (length l)) l <-> exists j, i = (k + j)%nat /\ l !! j = Some x).
  { induction l as [|y l IH]; intros k; simpl.
    - split; [set_solver|]. intros (j & _ & Hj). by rewrite lookup_nil in Hj.
    - rewrite elem_of_cons, IH. split.
      + intros [[= -> ->]|(j & -> & Hj)]; [exists 0%nat; split; [lia|done]|exists (S j); split; [lia|done]].
      + intros ([|j] & -> & Hj); [left; simpl in Hj; f_equal; [lia|congruence]|right; exists j; split; [lia|done]]. }
  rewrite H. split; [by intros (j & -> & Hj)|]. intros. by exists i.
Qed.
Lemma indexed_snd {A} (l : list A) : map snd (indexed l) = l.
Proof.
  unfold indexed. generalize 0%nat. induction l as [|x l IH]; intros k; simpl; [done|]. by rewrite IH.
Qed.

(** ** Tests that never raise on the elements at hand *)

Lemma res_existsb_pure {A} (f : A -> res bool) (g : A -> bool) l :
  (forall x, x ∈ l -> f x = Ok (g x)) -> res_existsb f l = Ok (existsb g l).
Proof.
  induction l as [|x l IH]; intros H; simpl; [done|]. rewrite (H x) by (by left).
  destruct (g x); [done|]. apply IH. intros y Hy. apply H. by right.
Qed.
Lemma res_filter_pure {A} (f : A -> res bool) (g : A -> bool) l :
  (forall x, x ∈ l -> f x = Ok (g x)) -> res_filter f l = Ok (List.filter g l).
Proof.
  induction l as [|x l IH]; intros H; simpl; [done|]. rewrite (H x) by (by left).
  rewrite IH; [by destruct (g x)|]. intros y Hy. apply H. by right.
Qed.
Lemma res_map_ok {A B} (f : A -> res B) l : (forall x, x ∈ l -> is_ok (f x) = true) -> is_ok (res_map f l) = true.
Proof.
  induction l as [|x l IH]; intros H; cbn [res_map]; [done|].
  pose proof (H x (list_elem_of_here _ _)) as Hx. destruct (f x); [|done].
  assert (Hl : is_ok (res_map f l) = true) by (apply IH; intros y Hy; apply H; by right).
  by destruct (res_map f l).
Qed.
Lemma res_map_elem_ok {A B} (f : A -> res B) l ys x : res_map f l = Ok ys -> x ∈ l -> exists y, f x = Ok y.
Proof.
  intros H Hx. apply res_map_Forall2 in H. apply list_elem_of_lookup in Hx as [i Hi].
  destruct (Forall2_lookup_l _ _ _ _ _ H Hi) as (y & _ & Hy). by exists y.
Qed.
Lemma res_map_elem {A B} (f : A -> res B) l ys y : res_map f l = Ok ys -> y ∈ ys -> exists x, x ∈ l /\ f x = Ok y.
Proof.
  intros H Hy. apply res_map_Forall2 in H. apply list_elem_of_lookup in Hy as [i Hi].
  destruct (Forall2_lookup_r _ _ _ _ _ H Hi) as (x & Hx & Hf). apply list_elem_of_lookup_2 in Hx. by exists x.
Qed.
Lemma res_filter_elem {A} (f : A -> res bool) l ys y : res_filter f l = Ok ys -> y ∈ ys -> y ∈ l.
Proof.
  revert ys. induction l as [|x l IH]; intros ys H Hy; simpl in H; [injection H as <-; by apply elem_of_nil in Hy|].
  inv_ok H. subst ys. match goal with b : bool |- _ => destruct b end.
  - apply elem_of_cons in Hy as [->|Hy]; [by left|right; by eapply IH].
  - right. by eapply IH.
Qed.
