(* ===== verification/PyFloat.v ===== *)
(** * Python floats: binary64 values, comparisons, arithmetic and conversions

    A Python [float] is an IEEE-754 binary64 value.  It is modelled by the
    Standard Library's executable specification [spec_float] at precision 53 and
    maximal exponent 1024, so every rounding is the one CPython performs.  The
    file gives the operations the Python sources use (comparisons, [min]/[max],
    arithmetic, conversions from and to unbounded integers, [sum], and
    [statistics.mean]/[stdev]) and the order theory of the comparisons. *)

From S2P Require Import Prelude.
From Stdlib Require Export SpecFloat.

Abbreviation float := spec_float.

Definition prec : Z := 53.
Definition emax : Z := 1024.

#[global] Instance float_eq_dec : EqDecision float.
Proof. solve_decision. Defined.

(** ** Classification *)

Definition is_nan (x : float) : bool :=
  match x with S754_nan => true | _ => false end.

(** [math.isfinite] *)
Definition isfinite (x : float) : bool :=
  match x with S754_zero _ | S754_finite _ _ _ => true | _ => false end.

Definition is_zero (x : float) : bool :=
  match x with S754_zero _ => true | _ => false end.

(** ** Comparisons: [<], [<=], [==], [>], [>=] *)

Definition fltb (x y : float) : bool := SFltb x y.
Definition fleb (x y : float) : bool := SFleb x y.
Definition feqb (x y : float) : bool := SFeqb x y.
Notation "x <?. y" := (fltb x y) (at level 70, no associativity) : py_scope.
Notation "x <=?. y" := (fleb x y) (at level 70, no associativity) : py_scope.
Notation "x >?. y" := (fltb y x) (at level 70, no associativity, only parsing) : py_scope.
Notation "x >=?. y" := (fleb y x) (at level 70, no associativity, only parsing) : py_scope.
Notation "x =?. y" := (feqb x y) (at level 70, no associativity) : py_scope.

(** [max(a, b)] keeps [a] unless [b > a]; [min(a, b)] keeps [a] unless [b < a]. *)
Definition fmax (a b : float) : float := if fltb a b then b else a.
Definition fmin (a b : float) : float := if fltb b a then b else a.

(** [max(xs)] and [min(xs)] of a non-empty list: the first extremal element. *)
Fixpoint fmax_from (m : float) (l : list float) : float :=
  match l with [] => m | x :: l' => fmax_from (fmax m x) l' end.
Fixpoint fmin_from (m : float) (l : list float) : float :=
  match l with [] => m | x :: l' => fmin_from (fmin m x) l' end.
Definition fmax_list (l : list float) : res float :=
  match l with [] => Err (ValueError "max() arg is an empty sequence") | x :: l' => Ok (fmax_from x l') end.
Definition fmin_list (l : list float) : res float :=
  match l with [] => Err (ValueError "min() arg is an empty sequence") | x :: l' => Ok (fmin_from x l') end.

(** ** Arithmetic *)

Definition fadd (x y : float) : float := SFadd prec emax x y.
Definition fsub (x y : float) : float := SFsub prec emax x y.
Definition fmul (x y : float) : float := SFmul prec emax x y.
Definition fopp (x : float) : float := SFopp x.
Definition fabs (x : float) : float := SFabs x.
(** [x / y] on floats raises when the divisor is zero. *)
Definition fdiv (x y : float) : res float :=
  if is_zero y then Err ZeroDivisionError else Ok (SFdiv prec emax x y).
(** [math.sqrt] raises on a negative argument. *)
Definition fsqrt (x : float) : res float :=
  match x with
  | S754_infinity true | S754_finite true _ _ => Err (ValueError "math domain error")
  | _ => Ok (SFsqrt prec emax x)
  end.

Notation "x ⊕ y" := (fadd x y) (at level 50, left associativity) : py_scope.
Notation "x ⊖ y" := (fsub x y) (at level 50, left associativity) : py_scope.
Notation "x ⊗ y" := (fmul x y) (at level 40, left associativity) : py_scope.

(** ** Integers and floats *)

(** The float nearest to an integer (infinite when out of range). *)
Definition of_Z (z : Z) : float := binary_normalize prec emax z 0 false.

(** [float(z)] for an int: raises when the result would be infinite. *)
Definition float_of_int (z : Z) : res float :=
  match of_Z z with
  | S754_infinity _ => Err OverflowError
  | f => Ok f
  end.

(** The correctly rounded quotient of two integers. *)
Definition ratio (n : Z) (d : positive) : float :=
  match n with
  | Z0 => S754_zero false
  | Zpos p => SFdiv prec emax (S754_finite false p 0) (S754_finite false d 0)
  | Zneg p => SFdiv prec emax (S754_finite true p 0) (S754_finite false d 0)
  end.

(** [n / d] on ints: correctly rounded, unlike [float(n) / float(d)]. *)
Definition int_truediv (n d : Z) : res float :=
  match d with
  | Z0 => Err ZeroDivisionError
  | Zpos p =>
      match ratio n p with S754_infinity _ => Err OverflowError | f => Ok f end
  | Zneg p =>
      match fopp (ratio n p) with S754_infinity _ => Err OverflowError | f => Ok f end
  end.

(** A decimal literal [m * 10 ^ e] of the source, correctly rounded. *)
Definition dec (m e : Z) : float :=
  match e with
  | Zneg p => ratio m (Pos.pow 10 p)
  | _ => of_Z (m * 10 ^ e)
  end.

Definition f0 : float := S754_zero false.
Definition f1 : float := Eval vm_compute in of_Z 1.
Definition finf : float := S754_infinity false.

(** [math.floor], [math.ceil] and [int]: they raise on infinities and NaN. *)
Definition to_Z_with (r : bool -> positive -> Z -> Z) (x : float) : res Z :=
  match x with
  | S754_zero _ => Ok 0
  | S754_infinity _ => Err OverflowError
  | S754_nan => Err (ValueError "cannot convert float NaN to integer")
  | S754_finite s m e => Ok (r s m e)
  end.
Definition math_floor : float -> res Z :=
  to_Z_with (fun s m e => Z.shiftl (cond_Zopp s (Zpos m)) e).
Definition math_ceil : float -> res Z :=
  to_Z_with (fun s m e => - Z.shiftl (cond_Zopp (negb s) (Zpos m)) e).
Definition int_of_float : float -> res Z :=
  to_Z_with (fun s m e => cond_Zopp s (Z.shiftl (Zpos m) e)).

(** A finite double is an integer multiple of [2 ^ -1074]. *)
Definition scale : Z := 1074.
Definition scaled (x : float) : Z :=
  match x with
  | S754_finite s m e => cond_Zopp s (Z.shiftl (Zpos m) (e + scale))
  | _ => 0
  end.

(** ** [sum], [statistics.mean], [statistics.stdev] *)

(** [sum(xs)] over floats in CPython 3.12: Neumaier's compensated summation. *)
Definition fsum_step (acc : float * float) (x : float) : float * float :=
  let '(s, c) := acc in
  let t := s ⊕ x in
  let c' := if fabs x <=?. fabs s then c ⊕ ((s ⊖ t) ⊕ x) else c ⊕ ((x ⊖ t) ⊕ s) in
  (t, c').
Definition fsum (l : list float) : float :=
  match l with
  | [] => f0   (* the int 0, which every use converts *)
  | x :: l' =>
      let '(s, c) := foldl fsum_step (f0 ⊕ x, f0) l' in
      if negb (c =?. f0) && isfinite c then s ⊕ c else s
  end.

Definition nonfinite_sum (l : list float) : float :=
  foldl fadd f0 (List.filter (fun x => negb (isfinite x)) l).
Definition scaled_sum (l : list float) : Z := foldr (fun x a => scaled x + a) 0 l.

(** [statistics.mean] over floats: the exact rational mean, rounded once. *)
Definition mean (l : list float) : res float :=
  if Nat.eqb (length l) 0 then Err StatisticsError
  else if forallb isfinite l
  then Ok (ratio (scaled_sum l) (Z.to_pos (Z.of_nat (length l) * 2 ^ scale)))
  else Ok (nonfinite_sum l).

(** [statistics._integer_sqrt_of_frac_rto] and [statistics._float_sqrt_of_frac]. *)
Definition bit_length (z : Z) : Z := if z =? 0 then 0 else Z.log2 (Z.abs z) + 1.
Definition integer_sqrt_of_frac_rto (n m : Z) : Z :=
  let a := Z.sqrt (n / m) in
  Z.lor a (if a * a * m =? n then 0 else 1).
Definition float_sqrt_of_frac (n m : Z) : res float :=
  let q := (bit_length n - bit_length m - 109) / 2 in
  if 0 <=? q
  then int_truediv (Z.shiftl (integer_sqrt_of_frac_rto n (Z.shiftl m (2 * q))) q) 1
  else int_truediv (integer_sqrt_of_frac_rto (Z.shiftl n (- (2 * q))) m) (Z.shiftl 1 (- q)).

(** [statistics.stdev]: the exact sum of squared deviations as a rational. *)
Definition stdev (l : list float) : res float :=
  let k := Z.of_nat (length l) in
  if k <? 2 then Err StatisticsError
  else if forallb isfinite l then
    let sx := scaled_sum l in
    let sxx := foldr (fun x a => scaled x * scaled x + a) 0 l in
    float_sqrt_of_frac (k * sxx - sx * sx) (k * (k - 1) * 2 ^ (2 * scale))
  else Err AttributeError.

Arguments fltb : simpl never.
Arguments fleb : simpl never.
Arguments feqb : simpl never.
Arguments fadd : simpl never.
Arguments fsub : simpl never.
Arguments fmul : simpl never.
Arguments of_Z : simpl never.
Arguments dec : simpl never.
Arguments ratio : simpl never.
Arguments mean : simpl never.
Arguments stdev : simpl never.
Arguments fsum : simpl never.

(** Known answers (CPython 3.12). *)
Example sum_of_tenths : fsum (replicate 10 (dec 1 (-1))) = f1.
Proof. vm_compute. reflexivity. Qed.
Example mean_of_three : mean [dec 1 (-1); dec 2 (-1); dec 3 (-1)] = Ok (dec 2 (-1)).
Proof. vm_compute. reflexivity. Qed.
Example stdev_known : stdev [of_Z 2; of_Z 4; of_Z 4; of_Z 4; of_Z 5; of_Z 5; of_Z 7; of_Z 9]
  = Ok (dec 21380899352993952 (-16)).
Proof. vm_compute. reflexivity. Qed.
