(* ===== verification/FloatOrder.v ===== *)
(** * The order of Python floats

    [fltb]/[fleb] compare floats as IEEE-754 does: a total preorder on the values
    that are not NaN, with [-0.0 == 0.0], and false on NaN.  Every lemma here
    follows from one fact: on non-NaN values the comparison is the lexicographic
    comparison of three integers ([key]). *)

From S2P Require Import Prelude PyFloat.

(** The position of a non-NaN value in the order. *)
Definition key (x : float) : Z * Z * Z :=
  match x with
  | S754_nan => (0, 0, 0)
  | S754_infinity true => (-2, 0, 0)
  | S754_infinity false => (2, 0, 0)
  | S754_zero _ => (0, 0, 0)
  | S754_finite true m e => (-1, - e, Zneg m)
  | S754_finite false m e => (1, e, Zpos m)
  end.

Definition lex (a b : Z * Z * Z) : Prop :=
  let '(a1, a2, a3) := a in
  let '(b1, b2, b3) := b in
  a1 < b1 \/ a1 = b1 /\ (a2 < b2 \/ a2 = b2 /\ a3 < b3).

Lemma compare_key x y :
  is_nan x = false -> is_nan y = false ->
  match SFcompare x y with
  | Some Lt => lex (key x) (key y)
  | Some Eq => key x = key y
  | Some Gt => lex (key y) (key x)
  | None => False
  end.
Proof.
  destruct x as [sx|[]| |[] mx ex], y as [sy|[]| |[] my ey]; simpl; try done;
    try (intros; lia).
  all: intros _ _; destruct (Z.compare_spec ex ey) as [->|?|?]; try lia.
  all: change (Pos.compare_cont Eq mx my) with (Pos.compare mx my);
    destruct (Pos.compare_spec mx my) as [->|?|?]; simpl; try done; lia.
Qed.

Lemma compare_nan x y : is_nan x || is_nan y = true -> SFcompare x y = None.
Proof. destruct x as [?|[]| |? ? ?], y as [?|[]| |? ? ?]; done. Qed.

Lemma fltb_spec x y :
  fltb x y = true <-> is_nan x = false /\ is_nan y = false /\ lex (key x) (key y).
Proof.
  unfold fltb, SFltb.
  destruct (is_nan x) eqn:Ex; [rewrite compare_nan by (by rewrite Ex); clear; naive_solver|].
  destruct (is_nan y) eqn:Ey;
    [rewrite compare_nan by (by rewrite Ey, orb_true_r); clear; naive_solver|].
  pose proof (compare_key x y Ex Ey) as H.
  destruct (key x) as [[a1 a2] a3], (key y) as [[b1 b2] b3]; simpl in *.
  destruct (SFcompare x y) as [[]|]; simplify_eq;
    (split; [intros ?; try discriminate; repeat split; lia
            |intros (_ & _ & ?); try done; exfalso; lia]).
Qed.

Lemma fleb_spec x y :
  fleb x y = true <-> is_nan x = false /\ is_nan y = false /\ ~ lex (key y) (key x).
Proof.
  unfold fleb, SFleb.
  destruct (is_nan x) eqn:Ex; [rewrite compare_nan by (by rewrite Ex); clear; naive_solver|].
  destruct (is_nan y) eqn:Ey;
    [rewrite compare_nan by (by rewrite Ey, orb_true_r); clear; naive_solver|].
  pose proof (compare_key x y Ex Ey) as H.
  destruct (key x) as [[a1 a2] a3], (key y) as [[b1 b2] b3]; simpl in *.
  destruct (SFcompare x y) as [[]|]; simplify_eq;
    (split; [intros ?; try discriminate; repeat split; lia
            |intros (_ & _ & ?); try done; exfalso; lia]).
Qed.

(** Solve order goals by moving to keys. *)
Ltac float_order :=
  repeat match goal with
  | H : fltb _ _ = true |- _ => apply fltb_spec in H; destruct H as (? & ? & ?)
  | H : fleb _ _ = true |- _ => apply fleb_spec in H; destruct H as (? & ? & ?)
  end;
  repeat match goal with
  | |- fltb _ _ = true => apply fltb_spec; repeat split; try done
  | |- fleb _ _ = true => apply fleb_spec; repeat split; try done
  | x : spec_float |- _ =>
      lazymatch goal with
      | |- context [key x] => destruct (key x) as [[? ?] ?]; simpl in *
      | _ : context [key x] |- _ => destruct (key x) as [[? ?] ?]; simpl in *
      end
  end; try lia.

Lemma fleb_refl x : is_nan x = false -> fleb x x = true.
Proof. intros. float_order. Qed.
Lemma fltb_irrefl x : fltb x x = false.
Proof. apply not_true_is_false. intros H. float_order. Qed.
Lemma fleb_trans x y z : fleb x y = true -> fleb y z = true -> fleb x z = true.
Proof. intros. float_order. Qed.
Lemma fltb_trans x y z : fltb x y = true -> fltb y z = true -> fltb x z = true.
Proof. intros. float_order. Qed.
Lemma fltb_fleb_trans x y z : fltb x y = true -> fleb y z = true -> fltb x z = true.
Proof. intros. float_order. Qed.
Lemma fleb_fltb_trans x y z : fleb x y = true -> fltb y z = true -> fltb x z = true.
Proof. intros. float_order. Qed.
Lemma fltb_fleb x y : fltb x y = true -> fleb x y = true.
Proof. intros. float_order. Qed.
Lemma fltb_asym x y : fltb x y = true -> fltb y x = false.
Proof. intros. apply not_true_is_false. intros ?. float_order. Qed.

Lemma fltb_false x y :
  is_nan x = false -> is_nan y = false -> fltb x y = false -> fleb y x = true.
Proof.
  intros Hx Hy H. apply fleb_spec. repeat split; try done.
  intros ?. assert (fltb x y = true) by (by apply fltb_spec). congruence.
Qed.
Lemma fleb_false x y :
  is_nan x = false -> is_nan y = false -> fleb x y = false -> fltb y x = true.
Proof.
  intros Hx Hy H. apply fltb_spec. repeat split; try done.
  destruct (fleb y x) eqn:E.
  - enough (~ ~ lex (key y) (key x)) by
      (destruct (key x) as [[? ?] ?], (key y) as [[? ?] ?]; simpl in *; lia).
    intros ?. assert (fleb x y = true) by (by apply fleb_spec). congruence.
  - enough (~ ~ lex (key y) (key x)) by
      (destruct (key x) as [[? ?] ?], (key y) as [[? ?] ?]; simpl in *; lia).
    intros ?. assert (fleb x y = true) by (by apply fleb_spec). congruence.
Qed.
Lemma fltb_fleb_false x y : fltb x y = true -> fleb y x = false.
Proof. intros. apply not_true_is_false. intros ?. float_order. Qed.

Lemma fltb_not_nan x y : fltb x y = true -> is_nan x = false /\ is_nan y = false.
Proof. rewrite fltb_spec. naive_solver. Qed.
Lemma fleb_not_nan x y : fleb x y = true -> is_nan x = false /\ is_nan y = false.
Proof. rewrite fleb_spec. naive_solver. Qed.
Lemma isfinite_not_nan x : isfinite x = true -> is_nan x = false.
Proof. by destruct x. Qed.

#[export] Hint Resolve fleb_refl fltb_fleb isfinite_not_nan : pydb.

(** ** [max], [min] and the clamp *)

Lemma fmax_cases a b : fmax a b = a \/ fmax a b = b.
Proof. unfold fmax. destruct (fltb a b); auto. Qed.
Lemma fmin_cases a b : fmin a b = a \/ fmin a b = b.
Proof. unfold fmin. destruct (fltb b a); auto. Qed.

(** [max(a, b)] is at least [a] as soon as [a] is a number: a NaN [b] is dropped. *)
Lemma fmax_ge_l a b : is_nan a = false -> fleb a (fmax a b) = true.
Proof.
  intros Ha. unfold fmax. destruct (fltb a b) eqn:E; [by apply fltb_fleb|by apply fleb_refl].
Qed.
Lemma fmax_ge_r a b :
  is_nan a = false -> is_nan b = false -> fleb b (fmax a b) = true.
Proof.
  intros Ha Hb. unfold fmax. destruct (fltb a b) eqn:E; [by apply fleb_refl|].
  by apply fltb_false.
Qed.
Lemma fmin_le_l a b : is_nan a = false -> fleb (fmin a b) a = true.
Proof.
  intros Ha. unfold fmin. destruct (fltb b a) eqn:E; [by apply fltb_fleb|by apply fleb_refl].
Qed.
Lemma fmax_le a b c : fleb a c = true -> fleb b c = true -> fleb (fmax a b) c = true.
Proof. intros. by destruct (fmax_cases a b) as [-> | ->]. Qed.
Lemma fmin_ge a b c : fleb c a = true -> fleb c b = true -> fleb c (fmin a b) = true.
Proof. intros. by destruct (fmin_cases a b) as [-> | ->]. Qed.
Lemma fmax_not_nan a b : is_nan a = false -> is_nan (fmax a b) = false.
Proof. intros Ha. apply (fmax_ge_l a b) in Ha. by apply fleb_not_nan in Ha as [_ ?]. Qed.

(** [max(xs)] is a member of [xs] and, without NaN, an upper bound. *)
Lemma fmax_from_elem m l : fmax_from m l ∈ m :: l.
Proof.
  revert m; induction l as [|x l IH]; intros m; simpl; [set_solver|].
  destruct (fmax_cases m x) as [E|E]; rewrite E; specialize (IH (fmax m x));
    rewrite E in IH; set_solver.
Qed.
Lemma fmax_from_ge m l x :
  is_nan m = false -> Forall (fun y => is_nan y = false) l ->
  x ∈ m :: l -> fleb x (fmax_from m l) = true.
Proof.
  revert m x; induction l as [|y l IH]; simpl; intros m x Hm Hl Hx.
  - apply list_elem_of_singleton in Hx as ->. by apply fleb_refl.
  - inversion Hl as [|? ? Hy Hl']; subst.
    assert (is_nan (fmax m y) = false) as Hmy by (by apply fmax_not_nan).
    apply elem_of_cons in Hx as [-> |Hx].
    + apply (fleb_trans _ (fmax m y)); [by apply fmax_ge_l|]. apply IH; [done..|by left].
    + apply elem_of_cons in Hx as [-> |Hx]; [|apply IH; [done..|by right]].
      apply (fleb_trans _ (fmax m y)); [by apply fmax_ge_r|]. apply IH; [done..|by left].
Qed.

(** ** Equality *)

Lemma feqb_spec x y :
  is_nan x = false -> is_nan y = false -> feqb x y = true <-> key x = key y.
Proof.
  intros Hx Hy. unfold feqb, SFeqb. pose proof (compare_key x y Hx Hy) as H.
  destruct (key x) as [[a1 a2] a3], (key y) as [[b1 b2] b3]; simpl in *.
  destruct (SFcompare x y) as [[]|]; simplify_eq;
    (split; [intros ?; try done; congruence|intros ?; simplify_eq; try done; exfalso; lia]).
Qed.
Lemma feqb_false x y :
  is_nan x = false -> is_nan y = false -> feqb x y = false <-> key x <> key y.
Proof. intros. rewrite <- feqb_spec by done. by destruct (feqb x y). Qed.

(** Equal, smaller or larger: the three outcomes of a comparison without NaN. *)
Lemma float_trichotomy x y :
  is_nan x = false -> is_nan y = false ->
  feqb x y = true /\ fltb x y = false /\ fltb y x = false \/
  feqb x y = false /\ fltb x y = true /\ fltb y x = false \/
  feqb x y = false /\ fltb x y = false /\ fltb y x = true.
Proof.
  intros Hx Hy.
  assert (Hl : forall a b, is_nan a = false -> is_nan b = false ->
            fltb a b = false <-> ~ lex (key a) (key b)).
  { intros a b Ha Hb. rewrite <- not_true_iff_false, fltb_spec. tauto. }
  destruct (decide (key x = key y)) as [E|E].
  - left. split; [by apply feqb_spec|]. rewrite !Hl, E by done.
    destruct (key y) as [[? ?] ?]. simpl. lia.
  - assert (Hd : lex (key x) (key y) \/ lex (key y) (key x)).
    { destruct (key x) as [[a1 a2] a3], (key y) as [[b1 b2] b3]. simpl.
      destruct (decide (a1 = b1)) as [->|]; [|lia].
      destruct (decide (a2 = b2)) as [->|]; [|lia].
      destruct (decide (a3 = b3)) as [->|]; [done|lia]. }
    right. apply feqb_false in E; [|done..]. rewrite E.
    destruct Hd as [H|H]; [left|right]; split_and!; try done;
      rewrite ?fltb_spec, ?Hl by done; try done;
      destruct (key x) as [[? ?] ?], (key y) as [[? ?] ?]; simpl in *; lia.
Qed.

Lemma feqb_antisym x y : fleb x y = true -> fleb y x = true -> feqb x y = true.
Proof.
  intros H1 H2. destruct (fleb_not_nan _ _ H1) as [Hx Hy].
  destruct (float_trichotomy x y Hx Hy) as [[? _]|[[_ [H _]]|[_ [_ H]]]]; [done|..];
    apply fltb_fleb_false in H; congruence.
Qed.
Lemma feqb_fleb x y : feqb x y = true -> fleb x y = true.
Proof. unfold feqb, fleb, SFeqb, SFleb. by destruct (SFcompare x y) as [[]|]. Qed.
Lemma feqb_refl x : is_nan x = false -> feqb x x = true.
Proof. intros H. by apply feqb_spec. Qed.

(** ** Ratios *)

(** A proper ratio: a number between 0 and 1 (so not a NaN). *)
Definition in01 (x : float) : bool := (f0 <=?. x) && (x <=?. f1).
#[global] Arguments in01 : simpl never.

(** [max(0.0, min(1.0, v))] always is one, NaN included. *)
Lemma clamp_in01 v : in01 (fmax f0 (fmin f1 v)) = true.
Proof.
  unfold in01, fmax, fmin.
  destruct (fltb v f1) eqn:E1; [|by vm_compute].
  destruct (fltb f0 v) eqn:E0; [|by vm_compute].
  apply andb_true_intro. split; by apply fltb_fleb.
Qed.
Lemma clamp_id v : in01 v = true -> feqb (fmax f0 (fmin f1 v)) v = true.
Proof.
  unfold in01, fmax, fmin. intros H. apply andb_prop in H as [H0 H1].
  pose proof (fleb_not_nan _ _ H0) as [_ Hn].
  destruct (fltb v f1) eqn:E1.
  - destruct (fltb f0 v) eqn:E0; [by apply feqb_refl|].
    apply feqb_antisym; [done|]. by apply fltb_false.
  - apply fltb_false in E1; [|done..]. by apply feqb_antisym.
Qed.
