(* ===== verification/FloatRound.v ===== *)
(** * Rounding to binary64 against exact bounds

    A rounded result never crosses a representable number: if the exact value of an
    operation is at most (at least) a double [y], so is the rounded one.  From this
    follow the bounds the components need: an integer of 1 or more converts to a
    double of 1.0 or more, a fraction of an index stays within the list, a quotient
    of positive numbers is not negative. *)

From S2P Require Import Prelude PyFloat FloatOrder.

#[local] Abbreviation emin := (SpecFloat.emin prec emax).
#[local] Abbreviation fexp := (SpecFloat.fexp prec emax).

Lemma fexp_max e : fexp e = Z.max (e - 53) (-1074).
Proof. reflexivity. Qed.

(** ** Digits *)

Lemma digits_log2 m : Zpos (digits2_pos m) = Z.log2 (Zpos m) + 1.
Proof.
  induction m as [m IH|m IH|]; [| |done]; cbn [digits2_pos];
    rewrite Pos2Z.inj_succ, IH.
  - rewrite Pos2Z.inj_xI. rewrite Z.log2_succ_double by lia. lia.
  - rewrite Pos2Z.inj_xO. rewrite Z.log2_double by lia. lia.
Qed.
Lemma Zdigits2_bounds m : 0 <= m ->
  m < 2 ^ Zdigits2 m /\ (0 < m -> 2 ^ (Zdigits2 m - 1) <= m) /\ 0 <= Zdigits2 m.
Proof.
  intros Hm. destruct m as [|p|p]; [split_and!; simpl; lia| |lia].
  cbn [Zdigits2]. rewrite digits_log2.
  pose proof (Z.log2_spec (Zpos p) ltac:(lia)) as [H1 H2].
  pose proof (Z.log2_nonneg (Zpos p)).
  split_and!; [by rewrite Z.add_1_r|intros _; by rewrite Z.add_simpl_r|lia].
Qed.
Lemma Zdigits2_le m k : 0 <= m -> 0 <= k -> m < 2 ^ k -> Zdigits2 m <= k.
Proof.
  intros Hm Hk H. destruct (Zdigits2_bounds m Hm) as (_ & Hl & _).
  destruct (decide (m = 0)) as [->|]; [done|]. specialize (Hl ltac:(lia)).
  assert (Hp : 2 ^ (Zdigits2 m - 1) < 2 ^ k) by lia.
  apply Z.pow_lt_mono_r_iff in Hp; lia.
Qed.

(** ** Shifting right *)

Lemma iter_pos_iter {A} (f : A -> A) p x : iter_pos f p x = Pos.iter f x p.
Proof.
  revert x; induction p as [p IH|p IH|]; intros x; simpl; rewrite ?IH; [|done..].
  by rewrite !Pos.iter_swap.
Qed.

Definition exact (r : shr_record) : bool := negb (shr_r r || shr_s r).

Lemma shr_1_spec r : 0 <= shr_m r ->
  shr_m (shr_1 r) = shr_m r / 2 /\ exact (shr_1 r) = exact r && (shr_m r mod 2 =? 0).
Proof.
  destruct r as [m r s]; simpl. intros Hm. unfold exact.
  destruct m as [|[p|p|]|]; [| | | |lia]; simpl shr_m; simpl shr_r; simpl shr_s.
  - by destruct r, s.
  - split; [rewrite Pos2Z.inj_xI, Z.mul_comm, Z.div_add_l by lia; change (1 / 2) with 0; by rewrite Z.add_0_r|].
    rewrite Pos2Z.inj_xI, Z.mul_comm, Z.add_comm, Z.mod_add by lia. by destruct r, s.
  - split; [rewrite Pos2Z.inj_xO, Z.mul_comm, Z.div_mul by lia; done|].
    rewrite Pos2Z.inj_xO, Z.mul_comm, Z.mod_mul by lia. by destruct r, s.
  - by destruct r, s.
Qed.
Lemma shr_iter_spec r p : 0 <= shr_m r ->
  let r' := iter_pos shr_1 p r in
  shr_m r' = shr_m r / 2 ^ Zpos p /\
  exact r' = exact r && (shr_m r mod 2 ^ Zpos p =? 0).
Proof.
  intros Hm. cbn zeta. rewrite iter_pos_iter. revert p. apply Pos.peano_ind.
  - change (2 ^ Zpos 1) with 2. by apply shr_1_spec.
  - intros p [IH1 IH2]. rewrite Pos.iter_succ.
    assert (H2 : 0 < 2 ^ Zpos p) by (apply Z.pow_pos_nonneg; lia).
    destruct (shr_1_spec (Pos.iter shr_1 r p)) as [E1 E2].
    { rewrite IH1. apply Z.div_pos; lia. }
    rewrite E1, E2, IH1, IH2, Pos2Z.inj_succ, Z.pow_succ_r by lia.
    rewrite (Z.mul_comm 2), Z.div_div by lia. split; [done|].
    rewrite <- andb_assoc. f_equal.
    rewrite (Z.rem_mul_r _ (2 ^ Zpos p) 2) by lia.
    pose proof (Z.mod_pos_bound (shr_m r) (2 ^ Zpos p) H2).
    pose proof (Z.mod_pos_bound (shr_m r / 2 ^ Zpos p) 2 ltac:(lia)).
    destruct (Z.eqb_spec (shr_m r mod 2 ^ Zpos p) 0), (Z.eqb_spec ((shr_m r / 2 ^ Zpos p) mod 2) 0);
      simpl; symmetry; apply Z.eqb_eq || apply Z.eqb_neq; nia.
Qed.

Definition exact_loc (l : location) : bool := match l with loc_Exact => true | _ => false end.

Lemma shr_spec m e l k r e' : 0 <= m -> shr (shr_record_of_loc m l) e k = (r, e') ->
  e' = e + Z.max 0 k /\ shr_m r = m / 2 ^ Z.max 0 k /\
  exact r = exact_loc l && (m mod 2 ^ Z.max 0 k =? 0).
Proof.
  intros Hm. assert (Hl : shr_m (shr_record_of_loc m l) = m /\
                         exact (shr_record_of_loc m l) = exact_loc l) by (destruct l as [|[]]; done).
  destruct Hl as [Hl1 Hl2]. unfold shr. destruct k as [|p|p]; intros [= <- <-].
  2: { destruct (shr_iter_spec (shr_record_of_loc m l) p) as [H1 H2]; [by rewrite Hl1|].
       rewrite H1, H2, Hl1, Hl2. split_and!; [lia|done..]. }
  all: change (2 ^ Z.max 0 _) with 1; rewrite Hl1, Hl2, Z.div_1_r, Z.mod_1_r, andb_true_r;
    split_and!; [lia|done..].
Qed.

Lemma nearest_cases r :
  let m1 := round_nearest_even (shr_m r) (loc_of_shr_record r) in
  m1 = shr_m r \/ m1 = shr_m r + 1 /\ exact r = false.
Proof.
  destruct r as [m [] []]; simpl; auto. destruct (Z.even m); auto.
Qed.

(** The value of a rounding: the quotient at the final exponent or one more, in a
    canonical form. *)
Lemma round_aux_shape s m e l : 0 <= m -> e <= fexp (Zdigits2 m + e) ->
  let e1 := fexp (Zdigits2 m + e) in
  exists m1,
    (m1 = m / 2 ^ (e1 - e) \/
     m1 = m / 2 ^ (e1 - e) + 1 /\ exact_loc l && (m mod 2 ^ (e1 - e) =? 0) = false) /\
    0 <= m1 /\
    (m1 = 0 /\ binary_round_aux prec emax s m e l = S754_zero s \/
     exists m2 e2, Zpos m2 * 2 ^ (e2 - e1) = m1 /\ e1 <= e2 /\
       fexp (Zpos (digits2_pos m2) + e2) = e2 /\
       binary_round_aux prec emax s m e l =
         if e2 <=? 971 then S754_finite s m2 e2 else S754_infinity s).
Proof.
  intros Hm He e1. unfold binary_round_aux, shr_fexp. fold e1.
  destruct (shr (shr_record_of_loc m l) e (e1 - e)) as [r e'] eqn:E1.
  apply shr_spec in E1 as (He' & Hr & Hex); [|done].
  rewrite Z.max_r in * by lia. replace (e + (e1 - e)) with e1 in He' by lia. subst e'.
  pose proof (nearest_cases r) as Hc. rewrite Hr, Hex in Hc.
  set (q := m / 2 ^ (e1 - e)) in *.
  set (m1 := round_nearest_even q (loc_of_shr_record r)) in *. rewrite Hr. fold q. fold m1.
  assert (Hp : 0 < 2 ^ (e1 - e)) by (apply Z.pow_pos_nonneg; lia).
  assert (Hq : 0 <= q < 2 ^ 53).
  { split; [apply Z.div_pos; lia|]. apply Z.div_lt_upper_bound; [lia|].
    destruct (Zdigits2_bounds m Hm) as (Hlt & _ & Hd). rewrite <- Z.pow_add_r by lia.
    eapply Z.lt_le_trans; [exact Hlt|]. apply Z.pow_le_mono_r; [lia|].
    unfold e1. rewrite fexp_max in *. lia. }
  assert (Hm1 : 0 <= m1 <= 2 ^ 53) by (cbn zeta in Hc; lia).
  exists m1. split; [exact Hc|]. split; [lia|].
  destruct (shr (shr_record_of_loc m1 loc_Exact) e1 (fexp (Zdigits2 m1 + e1) - e1)) as [r2 e2] eqn:E2.
  apply shr_spec in E2 as (He2 & Hr2 & _); [|lia].
  assert (He1 : -1074 <= e1) by (unfold e1; rewrite fexp_max; lia).
  destruct (decide (m1 = 2 ^ 53)) as [Hb|Hb].
  - rewrite Hb in *. change (Zdigits2 (2 ^ 53)) with 54 in *.
    replace (Z.max 0 (fexp (54 + e1) - e1)) with 1 in * by (rewrite fexp_max; lia).
    change (2 ^ 53 / 2 ^ 1) with (Zpos (2 ^ 52)) in Hr2. rewrite Hr2. right.
    exists (2 ^ 52)%positive, e2. split_and!; [|lia| |done].
    + replace (e2 - e1) with 1 by lia. done.
    + change (Zpos (digits2_pos (2 ^ 52))) with 53. rewrite fexp_max. lia.
  - assert (Hd1 : Zdigits2 m1 <= 53) by (apply Zdigits2_le; lia).
    assert (Hz : Z.max 0 (fexp (Zdigits2 m1 + e1) - e1) = 0) by (rewrite fexp_max; lia).
    rewrite Hz in *. rewrite Z.div_1_r in Hr2. rewrite Z.add_0_r in He2. subst e2. rewrite Hr2.
    destruct m1 as [|m2|]; [by left| |lia]. right. exists m2, e1.
    split_and!; [rewrite Z.sub_diag; lia|lia| |done].
    change (Zdigits2 (Zpos m2)) with (Zpos (digits2_pos m2)) in *.
    (* the quotient keeps all its digits unless it is subnormal *)
    cut (fexp (Zpos (digits2_pos m2) + e1) >= e1); [rewrite fexp_max in *; lia|].
    rewrite fexp_max. destruct (decide (e1 = -1074)) as [->|Hn]; [lia|].
    assert (Hd : e1 = Zdigits2 m + e - 53) by (unfold e1 in *; rewrite fexp_max in *; lia).
    assert (Hbig : 2 ^ 52 <= Zpos m2).
    { cbn zeta in Hc. assert (2 ^ 52 <= q); [|lia]. apply Z.div_le_lower_bound; [lia|].
      destruct (Zdigits2_bounds m Hm) as (_ & Hl & Hnn). rewrite <- Z.pow_add_r by lia.
      replace (e1 - e + 52) with (Zdigits2 m - 1) by lia. apply Hl.
      destruct (decide (m = 0)) as [Hm0|]; [|lia].
      assert (Hz0 : Zdigits2 m = 0) by (by rewrite Hm0).
      rewrite Hz0 in Hd, He. rewrite fexp_max in He. lia. }
    assert (52 < Zpos (digits2_pos m2)); [|lia].
    rewrite digits_log2. assert (52 <= Z.log2 (Zpos m2)); [|lia].
    apply Z.log2_le_pow2; lia.
Qed.

(** ** Exact bounds *)

(** Canonical forms are ordered by exponent first. *)
Lemma canonical_le d m1 e1 m2 e2 :
  d <= e1 -> d <= e2 ->
  fexp (Zpos (digits2_pos m1) + e1) = e1 -> fexp (Zpos (digits2_pos m2) + e2) = e2 ->
  Zpos m1 * 2 ^ (e1 - d) <= Zpos m2 * 2 ^ (e2 - d) ->
  e1 < e2 \/ e1 = e2 /\ Zpos m1 <= Zpos m2.
Proof.
  intros Hd1 Hd2 Hc1 Hc2 H. rewrite fexp_max in *.
  destruct (Z.lt_trichotomy e1 e2) as [?|[->|Hgt]]; [by left| |].
  - right. split; [done|]. assert (0 < 2 ^ (e2 - d)) by (apply Z.pow_pos_nonneg; lia). nia.
  - exfalso.
    pose proof (Zdigits2_bounds (Zpos m1) ltac:(lia)) as (_ & Hl & _).
    pose proof (Zdigits2_bounds (Zpos m2) ltac:(lia)) as (Hu & _ & _).
    specialize (Hl ltac:(lia)). cbn [Zdigits2] in *.
    assert (H1 : 2 ^ (Zpos (digits2_pos m1) - 1 + (e1 - d)) <= Zpos m1 * 2 ^ (e1 - d)).
    { rewrite Z.pow_add_r by lia. apply Z.mul_le_mono_nonneg_r; [apply Z.pow_nonneg; lia|done]. }
    assert (H2 : Zpos m2 * 2 ^ (e2 - d) < 2 ^ (Zpos (digits2_pos m2) + (e2 - d))).
    { rewrite Z.pow_add_r by lia. apply Z.mul_lt_mono_pos_r; [apply Z.pow_pos_nonneg; lia|done]. }
    assert (H3 : 2 ^ (Zpos (digits2_pos m1) - 1 + (e1 - d)) < 2 ^ (Zpos (digits2_pos m2) + (e2 - d))) by lia.
    apply Z.pow_lt_mono_r_iff in H3; lia.
Qed.

(** A positive double [my * 2 ^ ey]. *)
Definition canonical (m : positive) (e : Z) : Prop := bounded prec emax m e = true.
Lemma canonical_spec m e : canonical m e -> fexp (Zpos (digits2_pos m) + e) = e /\ -1074 <= e <= 971.
Proof.
  unfold canonical, bounded, canonical_mantissa. intros H. apply andb_prop in H as [H1 H2].
  apply Z.eqb_eq in H1. apply Z.leb_le in H2. split; [done|]. rewrite fexp_max in H1.
  change (emax - prec) with 971 in H2. lia.
Qed.

Lemma finite_le m1 e1 m2 e2 :
  e1 < e2 \/ e1 = e2 /\ Zpos m1 <= Zpos m2 ->
  fleb (S754_finite false m1 e1) (S754_finite false m2 e2) = true.
Proof. intros H. apply fleb_spec. split_and!; [done..|]. simpl. lia. Qed.

(** The comparison of a quotient with a canonical double, at a common exponent. *)
Section bounds.
Context (m e : Z) (l : location) (my : positive) (ey d : Z).
Hypothesis Hm : 0 <= m.
Hypothesis He : e <= fexp (Zdigits2 m + e).
Hypothesis Hy : canonical my ey.
Hypothesis Hd : d <= e /\ d <= ey.
Let e1 := fexp (Zdigits2 m + e).
Let Y := Zpos my * 2 ^ (ey - d).

(** When [y] has a smaller exponent than the result, it is below the result. *)
Lemma small_exponent : ey < e1 -> Y < m / 2 ^ (e1 - e) * 2 ^ (e1 - d) /\ 2 ^ 52 <= m / 2 ^ (e1 - e).
Proof.
  intros Hlt. destruct (canonical_spec _ _ Hy) as [Hc Hr]. rewrite fexp_max in Hc.
  assert (He1 : e1 = Zdigits2 m + e - 53) by (unfold e1 in *; rewrite fexp_max in *; lia).
  destruct (Zdigits2_bounds m Hm) as (Hu & Hl & Hn).
  assert (Hm0 : 0 < m).
  { destruct (decide (m = 0)) as [E|]; [|lia]. rewrite E in He1, He. simpl in *.
    rewrite fexp_max in He. unfold e1 in *. lia. }
  specialize (Hl Hm0).
  assert (H52 : 2 ^ 52 <= m / 2 ^ (e1 - e)).
  { apply Z.div_le_lower_bound; [apply Z.pow_pos_nonneg; unfold e1; lia|].
    rewrite <- Z.pow_add_r by (unfold e1; lia). by replace (e1 - e + 52) with (Zdigits2 m - 1) by lia. }
  split; [|done].
  pose proof (Zdigits2_bounds (Zpos my) ltac:(lia)) as (Hyu & _ & _). cbn [Zdigits2] in *.
  apply Z.lt_le_trans with (2 ^ (Zpos (digits2_pos my) + (ey - d))).
  { unfold Y. rewrite Z.pow_add_r by lia. apply Z.mul_lt_mono_pos_r; [apply Z.pow_pos_nonneg; lia|done]. }
  apply Z.le_trans with (2 ^ (52 + (e1 - d))); [apply Z.pow_le_mono_r; unfold e1 in *; lia|].
  rewrite Z.pow_add_r by (unfold e1 in *; lia).
  apply Z.mul_le_mono_nonneg_r; [apply Z.pow_nonneg; lia|done].
Qed.

Lemma scale_down : e1 <= ey -> Y = Zpos my * 2 ^ (ey - e1) * 2 ^ (e1 - d).
Proof.
  intros H. unfold Y. rewrite <- Z.mul_assoc, <- Z.pow_add_r by (unfold e1 in *; lia).
  do 2 f_equal. lia.
Qed.
Lemma quotient_value :
  m * 2 ^ (e - d) = (m / 2 ^ (e1 - e)) * 2 ^ (e1 - d) + (m mod 2 ^ (e1 - e)) * 2 ^ (e - d).
Proof.
  assert (0 < 2 ^ (e1 - e)) by (apply Z.pow_pos_nonneg; unfold e1; lia).
  rewrite (Z.div_mod m (2 ^ (e1 - e))) at 1 by lia.
  replace (e1 - d) with ((e1 - e) + (e - d)) by lia. rewrite Z.pow_add_r by (unfold e1; lia). ring.
Qed.

(** Not above [y], strictly below when the location says there is a remainder. *)
Lemma round_aux_le :
  (if exact_loc l then m * 2 ^ (e - d) <= Y else m * 2 ^ (e - d) < Y) ->
  fleb (binary_round_aux prec emax false m e l) (S754_finite false my ey) = true.
Proof.
  intros HU. destruct (canonical_spec _ _ Hy) as [Hc Hr].
  destruct (round_aux_shape false m e l Hm He) as (m1 & Hm1 & Hm1n & Hres). fold e1 in Hm1, Hres.
  assert (Hpe : 0 < 2 ^ (e - d)) by (apply Z.pow_pos_nonneg; lia).
  assert (Hpe1 : 0 < 2 ^ (e1 - d)) by (apply Z.pow_pos_nonneg; unfold e1; lia).
  assert (Hpk : 0 < 2 ^ (e1 - e)) by (apply Z.pow_pos_nonneg; unfold e1; lia).
  pose proof quotient_value as Hq. pose proof (Z.mod_pos_bound m (2 ^ (e1 - e)) Hpk) as Hmod.
  assert (Hle : m1 * 2 ^ (e1 - d) <= Y).
  { destruct (decide (ey < e1)) as [Hlt|Hge].
    { destruct (small_exponent Hlt). destruct (exact_loc l); nia. }
    pose proof (scale_down ltac:(lia)) as HY.
    destruct Hm1 as [->|[-> Hin]]; [destruct (exact_loc l); nia|].
    assert (Hs : m / 2 ^ (e1 - e) * 2 ^ (e1 - d) < Y).
    { destruct (exact_loc l); simpl in Hin; [apply Z.eqb_neq in Hin; nia|nia]. }
    rewrite HY in *. apply Z.mul_lt_mono_pos_r in Hs; [|lia].
    apply Z.mul_le_mono_nonneg_r; lia. }
  destruct Hres as [[_ ->]|(m2 & e2 & Hv & He2 & Hc2 & ->)]; [done|].
  assert (Hcmp : e2 < ey \/ e2 = ey /\ Zpos m2 <= Zpos my).
  { apply (canonical_le d); [unfold e1 in *; lia|lia|done|done|].
    fold Y. eapply Z.le_trans; [|exact Hle]. rewrite <- Hv, <- Z.mul_assoc, <- Z.pow_add_r by (unfold e1 in *; lia).
    apply Z.eq_le_incl. do 2 f_equal. lia. }
  replace (e2 <=? 971) with true by (symmetry; apply Z.leb_le; lia). by apply finite_le.
Qed.

(** Not below [y]. *)
Lemma round_aux_ge :
  Y <= m * 2 ^ (e - d) ->
  fleb (S754_finite false my ey) (binary_round_aux prec emax false m e l) = true.
Proof.
  intros HL. destruct (canonical_spec _ _ Hy) as [Hc Hr].
  destruct (round_aux_shape false m e l Hm He) as (m1 & Hm1 & Hm1n & Hres). fold e1 in Hm1, Hres.
  assert (Hpe : 0 < 2 ^ (e - d)) by (apply Z.pow_pos_nonneg; lia).
  assert (Hpe1 : 0 < 2 ^ (e1 - d)) by (apply Z.pow_pos_nonneg; unfold e1; lia).
  assert (Hpk : 0 < 2 ^ (e1 - e)) by (apply Z.pow_pos_nonneg; unfold e1; lia).
  pose proof quotient_value as Hq. pose proof (Z.mod_pos_bound m (2 ^ (e1 - e)) Hpk) as Hmod.
  assert (Hle : Y <= m1 * 2 ^ (e1 - d)).
  { destruct (decide (ey < e1)) as [Hlt|Hge]; [destruct (small_exponent Hlt); nia|].
    assert (Hlt : Y < (m / 2 ^ (e1 - e) + 1) * 2 ^ (e1 - d)).
    { assert (He1 : 2 ^ (e1 - d) = 2 ^ (e1 - e) * 2 ^ (e - d)).
      { rewrite <- Z.pow_add_r by (unfold e1; lia). f_equal. lia. }
      nia. }
    rewrite (scale_down ltac:(lia)) in *. apply Z.mul_lt_mono_pos_r in Hlt; [|lia].
    apply Z.mul_le_mono_nonneg_r; lia. }
  assert (HYpos : 0 < Y) by (unfold Y; assert (0 < 2 ^ (ey - d)) by (apply Z.pow_pos_nonneg; lia); nia).
  destruct Hres as [[-> _]|(m2 & e2 & Hv & He2 & Hc2 & ->)]; [lia|].
  destruct (e2 <=? 971); [|done]. apply finite_le.
  apply (canonical_le d); [lia|unfold e1 in *; lia|done|done|].
  fold Y. eapply Z.le_trans; [exact Hle|]. rewrite <- Hv, <- Z.mul_assoc, <- Z.pow_add_r by (unfold e1 in *; lia).
  apply Z.eq_le_incl. do 2 f_equal. lia.
Qed.
End bounds.

(** ** Conversions of integers *)

Lemma iter_xO m d : Zpos (Pos.iter xO m d) = Zpos m * 2 ^ Zpos d.
Proof.
  revert d. apply Pos.peano_ind; [change (2 ^ Zpos 1) with 2; simpl; lia|].
  intros d IH. rewrite Pos.iter_succ, Pos2Z.inj_succ, Z.pow_succ_r, Pos2Z.inj_xO, IH by lia. lia.
Qed.
(** Shifting left keeps the value and the magnitude, and reaches the exponent the
    rounding wants. *)
Lemma shl_align_spec m e e' mz ez : shl_align m e e' = (mz, ez) ->
  ez = Z.min e e' /\ Zpos mz = Zpos m * 2 ^ (e - ez).
Proof.
  unfold shl_align. destruct (e' - e) as [|p|p] eqn:E; intros [= <- <-].
  1,2: split; [lia|]; rewrite Z.sub_diag; lia.
  split; [lia|]. rewrite iter_xO. do 2 f_equal. lia.
Qed.
Lemma Zdigits2_shift p mz k : 0 <= k -> Zpos mz = Zpos p * 2 ^ k ->
  Zpos (digits2_pos mz) = Zpos (digits2_pos p) + k.
Proof. intros Hk H. rewrite !digits_log2, H, Z.log2_mul_pow2 by lia. lia. Qed.

(** [binary_round] of [m * 2 ^ e] against a canonical double. *)
Lemma binary_round_bounds m e my ey d :
  canonical my ey -> d <= e -> d <= ey -> d <= fexp (Zpos (digits2_pos m) + e) ->
  (Zpos m * 2 ^ (e - d) <= Zpos my * 2 ^ (ey - d) ->
     fleb (binary_round prec emax false m e) (S754_finite false my ey) = true) /\
  (Zpos my * 2 ^ (ey - d) <= Zpos m * 2 ^ (e - d) ->
     fleb (S754_finite false my ey) (binary_round prec emax false m e) = true).
Proof.
  intros Hy Hd1 Hd2 Hd3. unfold binary_round.
  destruct (shl_align m e (fexp (Zpos (digits2_pos m) + e))) as [mz ez] eqn:E.
  apply shl_align_spec in E as [-> Hmz].
  set (ez := Z.min e (fexp (Zpos (digits2_pos m) + e))) in *.
  assert (Hdig := Zdigits2_shift m mz (e - ez) ltac:(lia) Hmz).
  assert (Hval : Zpos mz * 2 ^ (ez - d) = Zpos m * 2 ^ (e - d)).
  { rewrite Hmz, <- Z.mul_assoc, <- Z.pow_add_r by lia. do 2 f_equal. lia. }
  assert (He : ez <= fexp (Zdigits2 (Zpos mz) + ez)).
  { cbn [Zdigits2]. rewrite Hdig. replace (Zpos (digits2_pos m) + (e - ez) + ez)
      with (Zpos (digits2_pos m) + e) by lia. lia. }
  split; intros H; [eapply (round_aux_le _ _ _ _ _ d)|eapply (round_aux_ge _ _ _ _ _ d)];
    rewrite ?Hval; try done; lia.
Qed.

Lemma of_Z_ge1 z : 1 <= z -> fleb f1 (of_Z z) = true.
Proof.
  intros Hz. destruct z as [|p|p]; try lia. unfold of_Z, binary_normalize.
  change f1 with (S754_finite false (2 ^ 52) (-52)).
  apply (binary_round_bounds p 0 (2 ^ 52) (-52) (-2000)); [done|lia|lia| |].
  { rewrite fexp_max. lia. }
  change (0 - -2000) with 2000. change (-52 - -2000) with (2000 - 52).
  change (Zpos (2 ^ 52)) with (2 ^ 52). rewrite <- Z.pow_add_r by lia.
  change (52 + (2000 - 52)) with 2000.
  pose proof (Z.pow_pos_nonneg 2 2000). nia.
Qed.
Lemma binary_round_not_nan_inf m e my ey :
  fleb (binary_round prec emax false m e) (S754_finite false my ey) = true ->
  forall s, binary_round prec emax false m e <> S754_infinity s.
Proof.
  intros H s E. rewrite E in H. destruct s; [|done].
  (* a positive mantissa never rounds to a negative infinity *)
  unfold binary_round in E.
  destruct (shl_align m e (fexp (Zpos (digits2_pos m) + e))) as [mz ez].
  unfold binary_round_aux in E. repeat case_match; congruence.
Qed.
(** [float(n)] does not raise on an int of ordinary size. *)
Lemma float_of_int_ok n : 0 <= n <= 2 ^ 1000 -> is_ok (float_of_int n) = true.
Proof.
  intros Hn. unfold float_of_int, of_Z. destruct n as [|p|p]; [done| |lia]. cbn [binary_normalize].
  assert (H : fleb (binary_round prec emax false p 0) (S754_finite false (2 ^ 52) 948) = true).
  { apply (binary_round_bounds p 0 (2 ^ 52) 948 (-2000)); [done|lia|lia| |].
    { rewrite fexp_max. lia. }
    change (0 - -2000) with 2000. change (948 - -2000) with 2948. change (Zpos (2 ^ 52)) with (2 ^ 52).
    rewrite <- Z.pow_add_r by lia. change (52 + 2948) with (1000 + 2000). rewrite Z.pow_add_r by lia.
    apply Z.mul_le_mono_nonneg_r; [apply Z.pow_nonneg; lia|lia]. }
  pose proof (binary_round_not_nan_inf _ _ _ _ H) as Hni.
  destruct (binary_round prec emax false p 0) as [s|s| |s m e]; try done. by destruct (Hni s).
Qed.

(** ** Positions in a list: [quantile * (len - 1)] *)

(** The converse of [canonical_le]. *)
Lemma canonical_value_le d m1 e1 m2 e2 :
  d <= e1 -> d <= e2 ->
  fexp (Zpos (digits2_pos m1) + e1) = e1 -> fexp (Zpos (digits2_pos m2) + e2) = e2 ->
  e1 < e2 \/ e1 = e2 /\ Zpos m1 <= Zpos m2 ->
  Zpos m1 * 2 ^ (e1 - d) <= Zpos m2 * 2 ^ (e2 - d).
Proof.
  intros Hd1 Hd2 Hc1 Hc2 [Hlt|[-> Hle]].
  - rewrite fexp_max in *.
    pose proof (Zdigits2_bounds (Zpos m1) ltac:(lia)) as (Hu & _ & _).
    pose proof (Zdigits2_bounds (Zpos m2) ltac:(lia)) as (_ & Hl & _).
    specialize (Hl ltac:(lia)). cbn [Zdigits2] in *.
    apply Z.le_trans with (2 ^ (Zpos (digits2_pos m1) + (e1 - d))).
    + rewrite Z.pow_add_r by lia. apply Z.mul_le_mono_nonneg_r; [apply Z.pow_nonneg; lia|lia].
    + apply Z.le_trans with (2 ^ (Zpos (digits2_pos m2) - 1 + (e2 - d))).
      * apply Z.pow_le_mono_r; lia.
      * rewrite Z.pow_add_r by lia. apply Z.mul_le_mono_nonneg_r; [apply Z.pow_nonneg; lia|done].
  - apply Z.mul_le_mono_nonneg_r; [apply Z.pow_nonneg; lia|done].
Qed.

Lemma fleb_finite_inv m1 e1 m2 e2 :
  fleb (S754_finite false m1 e1) (S754_finite false m2 e2) = true ->
  e1 < e2 \/ e1 = e2 /\ Zpos m1 <= Zpos m2.
Proof. intros H. apply fleb_spec in H as (_ & _ & H). simpl in H. lia. Qed.

(** Small positive integers are exact. *)
Lemma of_Z_exact z : 0 < z < 2 ^ 53 ->
  exists m e, of_Z z = S754_finite false m e /\ canonical m e /\ e <= 0 /\
    Zpos m = z * 2 ^ (- e) /\ 2 ^ 52 <= Zpos m.
Proof.
  intros Hz. destruct (Zdigits2_bounds z ltac:(lia)) as (Hu & Hl & Hn). specialize (Hl ltac:(lia)).
  assert (Hd : Zdigits2 z <= 53) by (apply Zdigits2_le; lia).
  assert (Hd1 : 1 <= Zdigits2 z).
  { destruct (decide (Zdigits2 z = 0)) as [E0|]; [rewrite E0 in Hu; simpl in Hu; lia|lia]. }
  set (e := Zdigits2 z - 53). set (M := z * 2 ^ (- e)).
  assert (HM : 2 ^ 52 <= M < 2 ^ 53).
  { unfold M, e. replace (- (Zdigits2 z - 53)) with (53 - Zdigits2 z) by lia. split.
    - replace 52 with (Zdigits2 z - 1 + (53 - Zdigits2 z)) by lia. rewrite Z.pow_add_r by lia.
      apply Z.mul_le_mono_nonneg_r; [apply Z.pow_nonneg; lia|done].
    - replace 53 with (Zdigits2 z + (53 - Zdigits2 z)) at 2 by lia. rewrite Z.pow_add_r by lia.
      apply Z.mul_lt_mono_pos_r; [apply Z.pow_pos_nonneg; lia|done]. }
  destruct M as [|m|m] eqn:EM; try lia.
  assert (Hdm : Zpos (digits2_pos m) = 53).
  { rewrite digits_log2. assert (Z.log2 (Zpos m) = 52); [|lia]. apply Z.log2_unique; lia. }
  assert (Hcan : canonical m e).
  { unfold canonical, bounded, canonical_mantissa. rewrite Hdm, fexp_max. apply andb_true_intro.
    split; [apply Z.eqb_eq|apply Z.leb_le]; unfold e, emax, prec; lia. }
  destruct z as [|p|p]; try lia. unfold of_Z. cbn [binary_normalize].
  assert (Hv : Zpos p * 2 ^ (0 - -2000) = Zpos m * 2 ^ (e - -2000)).
  { rewrite <- EM. unfold M. rewrite <- Z.mul_assoc, <- Z.pow_add_r by (unfold e; lia).
    do 2 f_equal. lia. }
  destruct (binary_round_bounds p 0 m e (-2000) Hcan) as [H1 H2];
    [lia|unfold e; lia|rewrite fexp_max; unfold e in *; cbn [Zdigits2] in *; lia|].
  specialize (H1 ltac:(lia)). specialize (H2 ltac:(lia)).
  exists m, e. split; [|split_and!; [done|unfold e; lia|by rewrite <- EM|lia]].
  destruct (binary_round prec emax false p 0) as [s|s| |s m' e'].
  - done.
  - by destruct s.
  - done.
  - destruct s; [done|]. apply fleb_finite_inv in H1, H2.
    assert (e' = e) as -> by lia. assert (m' = m) as -> by lia. done.
Qed.

(** A fraction of a positive double stays below it. *)
Lemma fmul_fraction mx ex my ey :
  canonical mx ex -> canonical my ey -> 2 ^ 52 <= Zpos my ->
  fleb (S754_finite false mx ex) f1 = true ->
  let p := fmul (S754_finite false mx ex) (S754_finite false my ey) in
  p = S754_zero false \/
  exists m e, p = S754_finite false m e /\ fexp (Zpos (digits2_pos m) + e) = e /\ -1074 <= e /\
    fleb p (S754_finite false my ey) = true.
Proof.
  intros Hx Hy Hbig H1 p. destruct (canonical_spec _ _ Hx) as [Hcx Hrx].
  destruct (canonical_spec _ _ Hy) as [Hcy Hry].
  assert (Hdig : 53 <= Zdigits2 (Zpos (mx * my))).
  { cbn [Zdigits2]. rewrite digits_log2. assert (52 <= Z.log2 (Zpos (mx * my))); [|lia].
    apply Z.log2_le_pow2; lia. }
  assert (He : ex + ey <= fexp (Zdigits2 (Zpos (mx * my)) + (ex + ey))) by (rewrite fexp_max; lia).
  assert (Hle : fleb p (S754_finite false my ey) = true).
  { apply (round_aux_le (Zpos (mx * my)) (ex + ey) loc_Exact my ey (-4000)); [lia|exact He|exact Hy|lia|].
    cbn [exact_loc]. change f1 with (S754_finite false (2 ^ 52) (-52)) in H1.
    apply fleb_finite_inv in H1.
    pose proof (canonical_value_le (-2000) mx ex (2 ^ 52) (-52) ltac:(lia) ltac:(lia) Hcx eq_refl H1) as Hv.
    rewrite Pos2Z.inj_mul. 
    replace (ex + ey - -4000) with ((ex - -2000) + (ey - -2000)) by lia. rewrite Z.pow_add_r by lia.
    replace (ey - -4000) with (2000 + (ey - -2000)) by lia. rewrite (Z.pow_add_r 2 2000) by lia.
    change (Zpos (2 ^ 52) * 2 ^ (-52 - -2000)) with (2 ^ 52 * 2 ^ (2000 - 52)) in Hv.
    rewrite <- Z.pow_add_r in Hv by lia. change (52 + (2000 - 52)) with 2000 in Hv.
    assert (0 < 2 ^ (ey - -2000)) by (apply Z.pow_pos_nonneg; lia).
    replace (Zpos mx * Zpos my * (2 ^ (ex - -2000) * 2 ^ (ey - -2000)))
      with ((Zpos mx * 2 ^ (ex - -2000)) * (Zpos my * 2 ^ (ey - -2000))) by ring.
    replace (Zpos my * (2 ^ 2000 * 2 ^ (ey - -2000))) with (2 ^ 2000 * (Zpos my * 2 ^ (ey - -2000))) by ring.
    apply Z.mul_le_mono_nonneg_r; [|done].
    apply Z.mul_nonneg_nonneg; [lia|apply Z.pow_nonneg; lia]. }
  destruct (round_aux_shape false (Zpos (mx * my)) (ex + ey) loc_Exact ltac:(lia) He)
    as (m1 & _ & _ & [[_ Hz]|(m2 & e2 & _ & He2 & Hc2 & Hr)]).
  - left. exact Hz.
  - right. exists m2, e2.
    assert (Hp : p = if e2 <=? 971 then S754_finite false m2 e2 else S754_infinity false) by exact Hr.
    destruct (e2 <=? 971); [|rewrite Hp in Hle; done].
    rewrite fexp_max in He2. split_and!; [done|done|lia|done].
Qed.

(** Floor and ceiling of a canonical positive double below an integer. *)
Lemma floor_ceil_bounds m e my ey n :
  fexp (Zpos (digits2_pos m) + e) = e -> -1074 <= e -> canonical my ey -> ey <= 0 ->
  Zpos my = n * 2 ^ (- ey) ->
  fleb (S754_finite false m e) (S754_finite false my ey) = true ->
  let lo := Z.shiftl (Zpos m) e in let hi := - Z.shiftl (- Zpos m) e in
  0 <= lo /\ lo <= hi /\ hi <= n.
Proof.
  intros Hc He Hy Hey Hn Hle. destruct (canonical_spec _ _ Hy) as [Hcy Hry].
  apply fleb_finite_inv in Hle.
  pose proof (canonical_value_le (-2000) m e my ey ltac:(lia) ltac:(lia) Hc Hcy Hle) as Hv.
  rewrite Hn, <- Z.mul_assoc, <- Z.pow_add_r in Hv by lia.
  replace (- ey + (ey - -2000)) with 2000 in Hv by lia. cbn zeta.
  destruct (Z.le_gt_cases 0 e) as [Hpos|Hneg].
  - rewrite !Z.shiftl_mul_pow2 by done. replace (e - -2000) with (e + 2000) in Hv by lia.
    rewrite Z.pow_add_r, Z.mul_assoc in Hv by lia.
    assert (0 < 2 ^ 2000) by (apply Z.pow_pos_nonneg; lia).
    apply Z.mul_le_mono_pos_r in Hv; [|lia]. assert (0 < 2 ^ e) by (apply Z.pow_pos_nonneg; lia). nia.
  - rewrite !Z.shiftl_div_pow2 by lia.
    assert (Hp : 0 < 2 ^ (- e)) by (apply Z.pow_pos_nonneg; lia).
    assert (Hv' : Zpos m <= n * 2 ^ (- e)).
    { assert (HE : 2 ^ 2000 = 2 ^ (- e) * 2 ^ (e - -2000)).
      { rewrite <- Z.pow_add_r by lia. f_equal. lia. }
      rewrite HE, Z.mul_assoc in Hv.
      apply Z.mul_le_mono_pos_r in Hv; [done|apply Z.pow_pos_nonneg; lia]. }
    pose proof (Z.div_mod (Zpos m) (2 ^ (- e)) ltac:(lia)).
    pose proof (Z.mod_pos_bound (Zpos m) (2 ^ (- e)) Hp).
    pose proof (Z.div_mod (- Zpos m) (2 ^ (- e)) ltac:(lia)).
    pose proof (Z.mod_pos_bound (- Zpos m) (2 ^ (- e)) Hp).
    split_and!; nia.
Qed.

(** [quantile * n] for a quantile in [0, 1]: its floor and ceiling are positions. *)
Lemma position_bounds q n :
  valid_binary prec emax q = true -> fleb f0 q = true -> fleb q f1 = true -> 0 <= n < 2 ^ 53 ->
  exists lo hi, math_floor (q ⊗ of_Z n) = Ok lo /\ math_ceil (q ⊗ of_Z n) = Ok hi /\
    int_of_float (q ⊗ of_Z n) = Ok lo /\ 0 <= lo /\ lo <= hi /\ hi <= n.
Proof.
  intros Hv H0 H1 Hn.
  destruct (decide (n = 0)) as [->|].
  { exists 0, 0. change (of_Z 0) with (S754_zero false).
    destruct q as [s|[]| |[] m e]; try done; by split_and!. }
  destruct (of_Z_exact n ltac:(lia)) as (my & ey & -> & Hy & Hey & Hmy & Hbig).
  destruct q as [s|[]| |[] m e]; try done.
  { exists 0, 0. split_and!; try done; lia. }
  destruct (fmul_fraction m e my ey Hv Hy Hbig H1) as [->|(mp & ep & Hp & Hc & He & Hle)].
  { exists 0, 0. split_and!; try done; lia. }
  rewrite Hp in *. destruct (floor_ceil_bounds mp ep my ey n Hc He Hy Hey Hmy Hle) as (? & ? & ?).
  eexists _, _. split_and!; try reflexivity; done.
Qed.

(** ** Operations on numbers give numbers *)

Lemma round_aux_not_nan s m e l : 0 <= m -> is_nan (binary_round_aux prec emax s m e l) = false.
Proof.
  intros Hm. unfold binary_round_aux, shr_fexp.
  destruct (shr (shr_record_of_loc m l) e _) as [r e'] eqn:E1. apply shr_spec in E1 as (_ & Hr & _); [|done].
  assert (H0 : 0 <= shr_m r) by (rewrite Hr; apply Z.div_pos; [done|apply Z.pow_pos_nonneg; lia]).
  assert (H1 : 0 <= round_nearest_even (shr_m r) (loc_of_shr_record r)).
  { destruct (nearest_cases r) as [->|[-> _]]; lia. }
  destruct (shr (shr_record_of_loc _ loc_Exact) e' _) as [r2 e2] eqn:E2. apply shr_spec in E2 as (_ & Hr2 & _); [|done].
  assert (H2 : 0 <= shr_m r2) by (rewrite Hr2; apply Z.div_pos; [done|apply Z.pow_pos_nonneg; lia]).
  destruct (shr_m r2); [done| |lia]. by destruct (_ <=? _).
Qed.
Lemma binary_round_not_nan s m e : is_nan (binary_round prec emax s m e) = false.
Proof. unfold binary_round. destruct (shl_align _ _ _). by apply round_aux_not_nan. Qed.
Lemma fsub_not_nan x y : isfinite x = true -> isfinite y = true -> is_nan (x ⊖ y) = false.
Proof.
  unfold fsub. destruct x as [[]|[]| |sx mx ex], y as [[]|[]| |sy my ey]; try done. intros _ _. cbn [SFsub].
  unfold binary_normalize. destruct (_ - _); [done|apply binary_round_not_nan..].
Qed.
Lemma ratio_not_nan n d : is_nan (ratio n d) = false.
Proof.
  destruct n as [|p|p]; [done|..]; unfold ratio, SFdiv;
    destruct (SFdiv_core_binary prec emax (Zpos p) 0 (Zpos d) 0) as [[q e'] l] eqn:E;
    apply round_aux_not_nan; unfold SFdiv_core_binary in E.
  all: match type of E with (let '(_, _) := Z.div_eucl ?m _ in _) = _ => assert (Hm : 0 <= m) end;
    [destruct (_ - _ - _); [done| |done]; apply Z.shiftl_nonneg; done|].
  all: match type of E with (let '(_, _) := Z.div_eucl ?m ?k in _) = _ =>
    pose proof (Z.div_pos m k Hm ltac:(lia)) as Hq; unfold Z.div in Hq; destruct (Z.div_eucl m k) end;
    by injection E as <- _ _.
Qed.
(** An exact quotient of ints is a finite number. *)
Lemma int_truediv_finite n d q : 0 <= d -> int_truediv n d = Ok q -> isfinite q = true.
Proof.
  destruct d as [|p|p]; [done| |lia]. intros _. cbn [int_truediv]. pose proof (ratio_not_nan n p) as Hn.
  destruct (ratio n p); try done; intros H; by injection H as <-.
Qed.
