(* ===== verification/PyStr.v ===== *)
(** * Python strings, and numbers as text

    Strings are sequences of code points below 256 ([string] over [ascii]), which
    covers the ASCII the sources manipulate.  The file gives the [str] methods in
    use, decimal conversion of ints and floats in both directions, and the
    [".Nf"] format. *)

From S2P Require Import Prelude PyFloat.
From stdpp Require Export pretty.
From Stdlib Require Export Ascii.

Open Scope string_scope.
Open Scope list_scope.
Open Scope Z_scope.

Definition chars (s : string) : list ascii := String.list_ascii_of_string s.
Definition str (l : list ascii) : string := String.string_of_list_ascii l.
Definition code (c : ascii) : Z := Z.of_N (N_of_ascii c).
Definition chr (z : Z) : ascii := ascii_of_N (Z.to_N z).

Infix "+:+" := String.append (at level 60, right associativity) : py_scope.

Lemma str_chars s : str (chars s) = s.
Proof. apply String.string_of_list_ascii_of_string. Qed.
Lemma chars_str l : chars (str l) = l.
Proof. apply String.list_ascii_of_string_of_list_ascii. Qed.
Lemma chars_app a b : chars (a +:+ b) = chars a ++ chars b.
Proof. induction a as [|c a IH]; simpl; [done|]. unfold chars in *. simpl. by rewrite IH. Qed.
Lemma str_app a b : str (a ++ b) = str a +:+ str b.
Proof. induction a as [|c a IH]; simpl; [done|]. unfold str in *. simpl. by rewrite IH. Qed.
Lemma chars_inj a b : chars a = chars b -> a = b.
Proof. intros H. by rewrite <- (str_chars a), <- (str_chars b), H. Qed.
Lemma append_inj_l (a b c : string) : a +:+ b = a +:+ c -> b = c.
Proof. induction a as [|x a IH]; simpl; [done|]. intros H. injection H. done. Qed.
Create Rewrite HintDb pystr.
#[export] Hint Rewrite chars_app chars_str str_chars str_app : pystr.

(** ** Character classes *)

Definition is_digit (c : ascii) : bool := (48 <=? code c) && (code c <=? 57).
Definition is_upper (c : ascii) : bool := (65 <=? code c) && (code c <=? 90).
Definition is_lower (c : ascii) : bool := (97 <=? code c) && (code c <=? 122).
Definition is_alpha (c : ascii) : bool := is_upper c || is_lower c.
(** [str.isspace] below 256, which is also the regular expression class [\s]. *)
Definition is_space (c : ascii) : bool :=
  let z := code c in
  (9 <=? z) && (z <=? 13) || (28 <=? z) && (z <=? 32) || (z =? 133) || (z =? 160).
(** The line boundaries of [str.splitlines] other than [\n] and [\r]. *)
Definition is_linebreak (c : ascii) : bool :=
  let z := code c in
  (z =? 11) || (z =? 12) || (28 <=? z) && (z <=? 30) || (z =? 133).

(** ** Methods of [str] *)

Fixpoint lstrip_with (f : ascii -> bool) (l : list ascii) : list ascii :=
  match l with
  | c :: l' => if f c then lstrip_with f l' else l
  | [] => []
  end.
Definition rstrip_with (f : ascii -> bool) (l : list ascii) : list ascii :=
  rev (lstrip_with f (rev l)).
Definition strip (s : string) : string :=
  str (rstrip_with is_space (lstrip_with is_space (chars s))).
(** [s.rstrip(c)] for a one-character argument. *)
Definition rstrip_char (c : ascii) (s : string) : string :=
  str (rstrip_with (fun d => Ascii.eqb d c) (chars s)).
Definition lower_char (c : ascii) : ascii := if is_upper c then chr (code c + 32) else c.
Definition lower (s : string) : string := str (map lower_char (chars s)).
Definition startswith (p s : string) : bool := String.prefix p s.

(** [s.split(c)]: split on every occurrence, keeping empty fields. *)
Fixpoint split_on (c : ascii) (l : list ascii) : list (list ascii) :=
  match l with
  | [] => [[]]
  | d :: l' =>
      let r := split_on c l' in
      if Ascii.eqb d c then [] :: r
      else match r with
           | w :: ws => (d :: w) :: ws
           | [] => [[d]]
           end
  end.
Definition split (c : ascii) (s : string) : list string := map str (split_on c (chars s)).

(** [s.partition(c)]: the text before the first [c], whether [c] occurs, the rest. *)
Fixpoint partition_on (c : ascii) (l : list ascii) : list ascii * bool * list ascii :=
  match l with
  | [] => ([], false, [])
  | d :: l' =>
      if Ascii.eqb d c then ([], true, l')
      else let '(a, b, r) := partition_on c l' in (d :: a, b, r)
  end.
Definition partition (c : ascii) (s : string) : string * bool * string :=
  let '(a, b, r) := partition_on c (chars s) in (str a, b, str r).

(** [p in s] on strings. *)
Fixpoint has_prefix (p l : list ascii) : bool :=
  match p, l with
  | [], _ => true
  | a :: p', b :: l' => Ascii.eqb a b && has_prefix p' l'
  | _, [] => false
  end.
Fixpoint has_infix (p l : list ascii) : bool :=
  has_prefix p l || match l with [] => false | _ :: l' => has_infix p l' end.

Lemma has_prefix_app p b : has_prefix p (p ++ b) = true.
Proof. induction p as [|c p IH]; [by destruct b|]. cbn. by rewrite Ascii.eqb_refl, IH. Qed.
Lemma has_infix_prefix p b : has_infix p (p ++ b) = true.
Proof. pose proof (has_prefix_app p b) as H. destruct (p ++ b); cbn [has_infix]; by rewrite H. Qed.
Lemma has_infix_app a p b : has_infix p (a ++ p ++ b) = true.
Proof. induction a as [|c a IH]; [exact (has_infix_prefix p b)|]. cbn [app has_infix]. by rewrite IH, orb_true_r. Qed.
Lemma split_on_app c a b : split_on c (a ++ c :: b) = split_on c a ++ split_on c b.
Proof.
  induction a as [|d a IH]; cbn [app split_on]; [by rewrite Ascii.eqb_refl|]. rewrite IH.
  destruct (Ascii.eqb d c); [done|]. destruct (split_on c a) as [|w ws] eqn:E; [|done].
  by destruct a as [|x a]; cbn in E; [|destruct (Ascii.eqb x c); [|destruct (split_on c a)]].
Qed.

(** [s.splitlines()] *)
Fixpoint splitlines_aux (cur : list ascii) (l : list ascii) : list (list ascii) :=
  match l with
  | [] => match cur with [] => [] | _ => [rev cur] end
  | c :: l' =>
      if code c =? 13 then
        match l' with
        | d :: l'' => if code d =? 10 then rev cur :: splitlines_aux [] l''
                      else rev cur :: splitlines_aux [] l'
        | [] => [rev cur]
        end
      else if (code c =? 10) || is_linebreak c then rev cur :: splitlines_aux [] l'
      else splitlines_aux (c :: cur) l'
  end.
Definition splitlines (s : string) : list string := map str (splitlines_aux [] (chars s)).

(** [sep.join(l)] *)
Fixpoint join (sep : string) (l : list string) : string :=
  match l with
  | [] => ""
  | [s] => s
  | s :: l' => s +:+ sep +:+ join sep l'
  end.

(** ** Integers as text *)

(** [str(z)] *)
Definition str_of_Z (z : Z) : string := pretty z.

Lemma str_of_Z_inj a b : str_of_Z a = str_of_Z b -> a = b.
Proof. apply (inj pretty). Qed.

Definition digit_val (c : ascii) : Z := code c - 48.
Definition digits_val (l : list ascii) : Z :=
  foldl (fun a c => 10 * a + digit_val c) 0 l.

(** Underscores are allowed between two digits only. *)
Fixpoint drop_underscores (prev_digit : bool) (l : list ascii) : option (list ascii) :=
  match l with
  | [] => Some []
  | c :: l' =>
      if Ascii.eqb c "_"%char then
        match l' with
        | d :: _ => if prev_digit && is_digit d then drop_underscores false l' else None
        | [] => None
        end
      else r ← drop_underscores (is_digit c) l'; Some (c :: r)
  end.

Fixpoint span (f : ascii -> bool) (l : list ascii) : list ascii * list ascii :=
  match l with
  | c :: l' => if f c then let '(a, b) := span f l' in (c :: a, b) else ([], l)
  | [] => ([], [])
  end.

Definition take_sign (l : list ascii) : bool * list ascii :=
  match l with
  | c :: l' => if Ascii.eqb c "-"%char then (true, l')
               else if Ascii.eqb c "+"%char then (false, l') else (false, l)
  | [] => (false, [])
  end.

Definition with_sign (neg : bool) (z : Z) : Z := if neg then - z else z.

(** [int(s)] in base 10. *)
Definition parse_int (s : string) : option Z :=
  let '(neg, body) := take_sign (chars (strip s)) in
  ds ← drop_underscores false body;
  let '(a, r) := span is_digit ds in
  match a, r with
  | _ :: _, [] => Some (with_sign neg (digits_val a))
  | _, _ => None
  end.

(** ** Floats from text: [float(s)] *)

Definition parse_exponent (l : list ascii) : option Z :=
  match l with
  | [] => Some 0
  | c :: l' =>
      if Ascii.eqb c "e"%char || Ascii.eqb c "E"%char then
        let '(neg, ds) := take_sign l' in
        let '(a, r) := span is_digit ds in
        match a, r with
        | _ :: _, [] => Some (with_sign neg (digits_val a))
        | _, _ => None
        end
      else None
  end.

(** A decimal [m * 10^e]; far exponents are cut off where the result is already
    zero or infinite whatever the mantissa's digits. *)
Definition dec_clipped (digits : Z) (m e : Z) : float :=
  if m =? 0 then f0
  else if e + digits <? -400 then f0
  else if 400 <? e then finf
  else dec m e.

Definition parse_unsigned (l : list ascii) : option float :=
  let w := str (map lower_char l) in
  if String.eqb w "inf" || String.eqb w "infinity" then Some finf
  else if String.eqb w "nan" then Some S754_nan
  else
    let '(ip, r) := span is_digit l in
    let '(fp, r') :=
      match r with
      | c :: r1 => if Ascii.eqb c "."%char then span is_digit r1 else ([], r)
      | [] => ([], [])
      end in
    match ip ++ fp with
    | [] => None
    | ds => e ← parse_exponent r';
            Some (dec_clipped (Z.of_nat (length ds)) (digits_val ds) (e - Z.of_nat (length fp)))
    end.

Definition parse_float (s : string) : option float :=
  l ← drop_underscores false (chars (strip s));
  let '(neg, body) := take_sign l in
  x ← parse_unsigned body;
  Some (if neg then fopp x else x).

(** ** Floats as text *)

(** Round [n / d] to an integer, ties to even. *)
Definition round_half_even (n d : Z) : Z :=
  let q := n / d in
  let r := n - q * d in
  if 2 * r <? d then q else if d <? 2 * r then q + 1 else if Z.even q then q else q + 1.

(** |x| as a fraction. *)
Definition abs_frac (x : float) : Z * Z :=
  match x with
  | S754_finite _ m e => if 0 <=? e then (Z.shiftl (Zpos m) e, 1) else (Zpos m, Z.shiftl 1 (- e))
  | _ => (0, 1)
  end.
Definition sign_of (x : float) : bool :=
  match x with
  | S754_zero s | S754_infinity s | S754_finite s _ _ => s
  | S754_nan => false
  end.

Definition zeros (n : nat) : string := str (replicate n "0"%char).
Definition pad_left (n : nat) (s : string) : string :=
  zeros (n - String.length s) +:+ s.

(** [f"{x:.nf}"] *)
Definition fmt_fixed (n : nat) (x : float) : string :=
  match x with
  | S754_nan => "nan"
  | S754_infinity s => if s then "-inf" else "inf"
  | _ =>
      let '(num, den) := abs_frac x in
      let q := round_half_even (num * 10 ^ Z.of_nat n) den in
      let ds := chars (pad_left (S n) (str_of_Z q)) in
      let k := (length ds - n)%nat in
      (if sign_of x then "-" else "") +:+ str (take k ds) +:+
      match n with O => "" | _ => "." +:+ str (drop k ds) end
  end.

(** [round(x, n)]: the decimal rounding, read back as a float. *)
Definition py_round (n : nat) (x : float) : res float :=
  if isfinite x then
    let '(num, den) := abs_frac x in
    let q := round_half_even (num * 10 ^ Z.of_nat n) den in
    let r := ratio q (Z.to_pos (10 ^ Z.of_nat n)) in
    Ok (if sign_of x then fopp r else r)
  else Ok x.

(** The decimal point position [k] with [10^(k-1) <= n/d < 10^k]. *)
Fixpoint small_decpt (fuel : nat) (n d : Z) : Z :=
  match fuel with
  | O => 0
  | S f => if d <=? 10 * n then 0 else small_decpt f (10 * n) d - 1
  end.
Definition decpt (n d : Z) : Z :=
  if d <=? n then Z.of_nat (String.length (str_of_Z (n / d))) else small_decpt 400 n d.

(** The closest [p]-digit decimals around [n/d], nearest first. *)
Definition candidates (p k n d : Z) : list Z :=
  let '(n', d') := if 0 <=? p - k then (n * 10 ^ (p - k), d) else (n, d * 10 ^ (k - p)) in
  let q := n' / d' in
  if round_half_even n' d' =? q then [q; q + 1] else [q + 1; q].

(** The shortest decimal that reads back as [x]. *)
Fixpoint shortest (fuel : nat) (p k : Z) (x : float) (n d : Z) : Z * Z :=
  let here := List.find (fun c => feqb (dec c (k - p)) x) (candidates p k n d) in
  match here, fuel with
  | Some c, _ => (c, k - p)
  | None, S f => shortest f (p + 1) k x n d
  | None, O => (0, 0)
  end.

Definition rstrip_zeros (l : list ascii) : list ascii := lstrip_with (fun c => Ascii.eqb c "0"%char) l.

(** [repr(x)], which is also [str(x)]. *)
Definition repr_float (x : float) : string :=
  match x with
  | S754_nan => "nan"
  | S754_infinity s => if s then "-inf" else "inf"
  | S754_zero s => if s then "-0.0" else "0.0"
  | S754_finite s _ _ =>
      let '(n, d) := abs_frac x in
      let k := decpt n d in
      let '(c, e) := shortest 17 1 k (fabs x) n d in
      let all := chars (str_of_Z c) in
      let ds := rev (rstrip_zeros (rev all)) in
      let point := Z.of_nat (length all) + e in
      (if s then "-" else "") +:+
      if (-4 <? point) && (point <=? 16) then
        if point <=? 0 then "0." +:+ zeros (Z.to_nat (- point)) +:+ str ds
        else let kp := Z.to_nat point in
             if (length ds <=? kp)%nat
             then str ds +:+ zeros (kp - length ds) +:+ ".0"
             else str (take kp ds) +:+ "." +:+ str (drop kp ds)
      else
        let ex := point - 1 in
        str (take 1 ds) +:+ (if (length ds =? 1)%nat then "" else "." +:+ str (drop 1 ds)) +:+
        "e" +:+ (if ex <? 0 then "-" else "+") +:+ pad_left 2 (str_of_Z (Z.abs ex))
  end.

(** [f"{x:.pg}"]: [p] significant digits, trailing zeros dropped. *)
Definition fmt_g (p : nat) (x : float) : string :=
  match x with
  | S754_nan => "nan"
  | S754_infinity s => if s then "-inf" else "inf"
  | S754_zero s => if s then "-0" else "0"
  | S754_finite s _ _ =>
      let '(n, d) := abs_frac x in
      let w := Z.of_nat p - decpt n d in
      let q := if 0 <=? w then round_half_even (n * 10 ^ w) d else round_half_even n (d * 10 ^ (- w)) in
      let all := chars (str_of_Z q) in
      let ds := rev (rstrip_zeros (rev all)) in
      let ex := Z.of_nat (length all) - w - 1 in   (* rounding up to 10^p adds a digit *)
      (if s then "-" else "") +:+
      if (-4 <=? ex) && (ex <? Z.of_nat p) then
        if ex <? 0 then "0." +:+ zeros (Z.to_nat (- ex - 1)) +:+ str ds
        else let kp := Z.to_nat (ex + 1) in
             if (length ds <=? kp)%nat then str ds +:+ zeros (kp - length ds)
             else str (take kp ds) +:+ "." +:+ str (drop kp ds)
      else
        str (take 1 ds) +:+ (if (length ds =? 1)%nat then "" else "." +:+ str (drop 1 ds)) +:+
        "e" +:+ (if ex <? 0 then "-" else "+") +:+ pad_left 2 (str_of_Z (Z.abs ex))
  end.

(** [s.encode("utf-8")] of a string of code points below 256, as bytes. *)
Definition utf8_char (c : ascii) : list ascii :=
  let z := code c in if z <? 128 then [c] else [chr (192 + z / 64); chr (128 + z mod 64)].
Definition utf8 (s : string) : string := str (mjoin (map utf8_char (chars s))).

(** Known answers (CPython 3.12). *)
Example repr_tenth : repr_float (dec 1 (-1)) = "0.1". Proof. vm_compute. reflexivity. Qed.
Example repr_third : repr_float (ratio 1 3) = "0.3333333333333333". Proof. vm_compute. reflexivity. Qed.
Example repr_big : repr_float (dec 1 22) = "1e+22". Proof. vm_compute. reflexivity. Qed.
Example repr_small : repr_float (dec 123 (-7)) = "1.23e-05". Proof. vm_compute. reflexivity. Qed.
Example repr_int : repr_float (of_Z 1200) = "1200.0". Proof. vm_compute. reflexivity. Qed.
Example repr_edge : repr_float (S754_finite false 4503599627370496 (-96)) = "5.684341886080802e-14".
Proof. vm_compute. reflexivity. Qed.
Example fmt_half : fmt_fixed 2 (dec 2675 (-3)) = "2.67". Proof. vm_compute. reflexivity. Qed.
Example fmt_neg : fmt_fixed 3 (dec (-5) (-4)) = "-0.001". Proof. vm_compute. reflexivity. Qed.
Example parse_sci : parse_float " -1_0.5e1 " = Some (of_Z (-105)). Proof. vm_compute. reflexivity. Qed.
Example parse_bad : parse_float "1__0" = None. Proof. vm_compute. reflexivity. Qed.
Example round_known : py_round 2 (dec 2675 (-3)) = Ok (dec 267 (-2)). Proof. vm_compute. reflexivity. Qed.
Example g_known : map (fmt_g 12) [dec 1 (-1); ratio 1 3; dec 123 (-7); dec 1 22; of_Z 1200; dec 999999999999999 0; dec 25 (-1)] =
  ["0.1"; "0.333333333333"; "1.23e-05"; "1e+22"; "1200"; "1e+15"; "2.5"]%string.
Proof. vm_compute. reflexivity. Qed.
