(* ===== verification/PyVal.v ===== *)
(** * Python values and dictionaries

    The sources pass JSON documents around as [dict[str, Any]].  [val] is the type
    of such a value; a dictionary is an association list in insertion order, which
    is the order Python iterates in.  The coercions ([float(v)], [int(v)],
    [bool(v)], [str(v)]) and the accessors ([d.get(k, x)], [d[k]]) raise the
    exceptions Python raises. *)

From S2P Require Import Prelude PyFloat FloatOrder PyStr.



Inductive val : Type :=
| VNone
| VBool (b : bool)
| VInt (z : Z)
| VFloat (f : float)
| VStr (s : string)
| VBytes (s : string)
| VList (l : list val)
| VDict (d : list (string * val)).

(** ** Ordered dictionaries *)

Section dict.
Context {A : Type}.
Implicit Types (d : list (string * A)) (k : string) (v : A).

(** [d.get(k)]; [k in d] is [dmem]. *)
Fixpoint dget d k : option A :=
  match d with
  | [] => None
  | (k', v) :: d' => if String.eqb k k' then Some v else dget d' k
  end.
Definition dmem d k : bool := match dget d k with Some _ => true | None => false end.
(** [d[k] = v]: replace in place, or append. *)
Fixpoint dset d k v : list (string * A) :=
  match d with
  | [] => [(k, v)]
  | (k', v') :: d' => if String.eqb k k' then (k, v) :: d' else (k', v') :: dset d' k v
  end.
(** [d.get(k, x)] *)
Definition dget_or d k v : A := default v (dget d k).
Definition dkeys d : list string := map fst d.
(** [d.update(e)] *)
Definition dupdate d (e : list (string * A)) : list (string * A) :=
  foldl (fun acc kv => dset acc kv.1 kv.2) d e.

Lemma dget_dset_eq d k v : dget (dset d k v) k = Some v.
Proof.
  induction d as [|[k' v'] d IH]; simpl; [by rewrite String.eqb_refl|].
  destruct (String.eqb_spec k k') as [->|Hk]; simpl; [by rewrite String.eqb_refl|].
  by apply String.eqb_neq in Hk; rewrite Hk.
Qed.
Lemma dget_dset_ne d k k' v : k <> k' -> dget (dset d k v) k' = dget d k'.
Proof.
  intros Hne. induction d as [|[k1 v1] d IH]; simpl.
  - destruct (String.eqb_spec k' k); congruence.
  - destruct (String.eqb_spec k k1) as [<-|Hk]; simpl.
    + destruct (String.eqb_spec k' k); congruence.
    + by rewrite IH.
Qed.
Lemma dget_dset d k k' v :
  dget (dset d k v) k' = if String.eqb k k' then Some v else dget d k'.
Proof.
  destruct (String.eqb_spec k k') as [<-|Hne]; [apply dget_dset_eq|by apply dget_dset_ne].
Qed.
Lemma dget_None d k : dget d k = None <-> k ∉ dkeys d.
Proof.
  induction d as [|[k' v'] d IH]; simpl; [set_solver|].
  destruct (String.eqb_spec k k') as [<-|Hk]; [set_solver|]. rewrite IH. set_solver.
Qed.
Lemma dget_Some_elem d k v : dget d k = Some v -> (k, v) ∈ d.
Proof.
  induction d as [|[k' v'] d IH]; simpl; [done|].
  destruct (String.eqb_spec k k') as [<-|Hk]; [|set_solver].
  intros [= ->]. by left.
Qed.
Lemma dkeys_dset d k v :
  dkeys (dset d k v) = if dmem d k then dkeys d else dkeys d ++ [k].
Proof.
  unfold dmem. induction d as [|[k' v'] d IH]; simpl; [done|].
  destruct (String.eqb_spec k k') as [<-|Hk]; simpl; [done|].
  rewrite IH. by destruct (dget d k).
Qed.
(** Keys stay unique. *)
Lemma dset_NoDup d k v : NoDup (dkeys d) -> NoDup (dkeys (dset d k v)).
Proof.
  intros H. rewrite dkeys_dset. unfold dmem. destruct (dget d k) eqn:E; [done|].
  apply dget_None in E. apply NoDup_app. split; [done|]. split; [set_solver|].
  apply NoDup_singleton.
Qed.
End dict.
Create Rewrite HintDb pydict.
#[export] Hint Rewrite @dget_dset_eq : pydict.

(** ** Coercions *)

(** [bool(v)] *)
Definition truthy (v : val) : bool :=
  match v with
  | VNone => false
  | VBool b => b
  | VInt z => negb (z =? 0)
  | VFloat f => negb (is_zero f)
  | VStr s | VBytes s => negb (String.eqb s "")
  | VList l => negb (Nat.eqb (length l) 0)
  | VDict d => negb (Nat.eqb (length d) 0)
  end.

(** [a or b] on values. *)
Definition py_or (a b : val) : val := if truthy a then a else b.

Definition bad_float : exn := ValueError "could not convert string to float".
Definition bad_int : exn := ValueError "invalid literal for int() with base 10".

(** [float(v)] *)
Definition float_of_val (v : val) : res float :=
  match v with
  | VFloat f => Ok f
  | VInt z => float_of_int z
  | VBool b => Ok (if b then f1 else f0)
  | VStr s | VBytes s => match parse_float s with Some f => Ok f | None => Err bad_float end
  | VNone | VList _ | VDict _ => Err TypeError
  end.

(** [int(v)] *)
Definition int_of_val (v : val) : res Z :=
  match v with
  | VInt z => Ok z
  | VBool b => Ok (if b then 1 else 0)
  | VFloat f => int_of_float f
  | VStr s | VBytes s => match parse_int s with Some z => Ok z | None => Err bad_int end
  | VNone | VList _ | VDict _ => Err TypeError
  end.

(** Exact comparison of two numbers of either type. *)
Definition num_cmp (a b : val) : option comparison :=
  let z_of v := match v with VBool b => Some (if b then 1 else 0) | VInt z => Some z | _ => None end in
  match a, b with
  | VFloat x, VFloat y => SFcompare x y
  | VFloat x, _ =>
      z ← z_of b;
      match x with
      | S754_nan => None
      | S754_infinity s => Some (if s then Lt else Gt)
      | _ => Some (Z.compare (scaled x) (z * 2 ^ scale))
      end
  | _, VFloat y =>
      z ← z_of a;
      match y with
      | S754_nan => None
      | S754_infinity s => Some (if s then Gt else Lt)
      | _ => Some (Z.compare (z * 2 ^ scale) (scaled y))
      end
  | _, _ => za ← z_of a; zb ← z_of b; Some (Z.compare za zb)
  end.

(** [a == b] *)
Fixpoint py_eq (a b : val) {struct a} : bool :=
  match a, b with
  | VNone, VNone => true
  | VStr s, VStr t | VBytes s, VBytes t => String.eqb s t
  | VList l, VList m =>
      (fix eql (l m : list val) : bool :=
         match l, m with
         | [], [] => true
         | x :: l', y :: m' => py_eq x y && eql l' m'
         | _, _ => false
         end) l m
  | VDict d, VDict e =>
      Nat.eqb (length d) (length e) &&
      (fix eqd (d : list (string * val)) : bool :=
         match d with
         | [] => true
         | (k, x) :: d' => match dget e k with Some y => py_eq x y | None => false end && eqd d'
         end) d
  | (VBool _ | VInt _ | VFloat _), (VBool _ | VInt _ | VFloat _) =>
      match num_cmp a b with Some Eq => true | _ => false end
  | _, _ => false
  end.

Definition is_vstr (v : val) (s : string) : bool :=
  match v with VStr t => String.eqb s t | _ => false end.
Definition is_dict (v : val) : bool := match v with VDict _ => true | _ => false end.
Definition is_none (v : val) : bool := match v with VNone => true | _ => false end.

(** ** [str(v)] *)

Definition hex_digit (z : Z) : ascii := chr (if z <? 10 then 48 + z else 87 + z).
(** [b.hex()] *)
Definition hex (s : string) : string :=
  str (mjoin (map (fun c => [hex_digit (code c / 16); hex_digit (code c mod 16)]) (chars s))).

(** The escapes of [repr] on one character; [bytes] escapes everything above 126. *)
Definition repr_char (q : ascii) (bytes : bool) (c : ascii) : string :=
  let z := code c in
  if Ascii.eqb c q || (z =? 92) then str [chr 92; c]
  else if z =? 9 then str [chr 92; "t"%char]
  else if z =? 10 then str [chr 92; "n"%char]
  else if z =? 13 then str [chr 92; "r"%char]
  else if (z <? 32) || (127 <=? z) && (bytes || (z <=? 160) || (z =? 173))
  then str [chr 92; "x"%char; hex_digit (z / 16); hex_digit (z mod 16)]
  else str [c].
Definition repr_str (bytes : bool) (s : string) : string :=
  let has c := existsb (Ascii.eqb c) (chars s) in
  let q := if has (chr 39) && negb (has (chr 34)) then chr 34 else chr 39 in
  str [q] +:+ join "" (map (repr_char q bytes) (chars s)) +:+ str [q].

Definition bool_name (b : bool) : string := if b then "True" else "False".

Fixpoint py_repr (v : val) : string :=
  match v with
  | VNone => "None"
  | VBool b => bool_name b
  | VInt z => str_of_Z z
  | VFloat f => repr_float f
  | VStr s => repr_str false s
  | VBytes s => "b" +:+ repr_str true s
  | VList l => "[" +:+ join ", " (map py_repr l) +:+ "]"
  | VDict d => "{" +:+ join ", " (map (fun kv => repr_str false kv.1 +:+ ": " +:+ py_repr kv.2) d) +:+ "}"
  end.
Definition py_str (v : val) : string := match v with VStr s => s | _ => py_repr v end.

(** ** Accessors on values: [v.get(k, x)], [v[k]], [k in v] *)

Definition vget (v : val) (k : string) (x : val) : res val :=
  match v with VDict d => Ok (dget_or d k x) | _ => Err AttributeError end.
Definition vitem (v : val) (k : string) : res val :=
  match v with
  | VDict d => match dget d k with Some x => Ok x | None => Err (KeyError k) end
  | _ => Err TypeError
  end.
(** Iterating a value: lists yield their elements, dictionaries their keys,
    strings their characters. *)
Definition viter (v : val) : res (list val) :=
  match v with
  | VList l => Ok l
  | VDict d => Ok (map VStr (dkeys d))
  | VStr s => Ok (map (fun c => VStr (str [c])) (chars s))
  | VBytes s => Ok (map (fun c => VInt (code c)) (chars s))
  | _ => Err TypeError
  end.

(** [float(v or 0)], used for optional numbers. *)
Definition float_or_zero (v : val) : res float := float_of_val (py_or v (VInt 0)).

(** A value of an optional float. *)
Definition opt_float (o : option float) : val :=
  match o with Some f => VFloat f | None => VNone end.
