(* ===== verification/PySort.v ===== *)
(** * Sorting and selection

    [sorted(l, key=...)] is a stable sort by [<] on the keys; with [reverse=True]
    CPython reverses, sorts and reverses again, which keeps equal elements in their
    original order.  [ltb] is the strict order on the elements' keys. *)

From S2P Require Import Prelude PyFloat FloatOrder PyStr.
From Stdlib Require Export Permutation Sorted.

Section sort.
Context {A : Type} (ltb : A -> A -> bool).

Fixpoint insert_sorted (x : A) (l : list A) : list A :=
  match l with
  | [] => [x]
  | y :: l' => if ltb y x then y :: insert_sorted x l' else x :: y :: l'
  end.
Definition py_sort (l : list A) : list A := foldr insert_sorted [] l.
Definition py_sort_reverse (l : list A) : list A := rev (py_sort (rev l)).

Lemma insert_sorted_perm x l : insert_sorted x l ≡ₚ x :: l.
Proof.
  induction l as [|y l IH]; simpl; [done|]. destruct (ltb y x); [|done].
  rewrite IH. apply Permutation_swap.
Qed.
Lemma py_sort_perm l : py_sort l ≡ₚ l.
Proof. induction l as [|x l IH]; simpl; [done|]. by rewrite insert_sorted_perm, IH. Qed.
Lemma py_sort_reverse_perm l : py_sort_reverse l ≡ₚ l.
Proof. unfold py_sort_reverse. rewrite <- !Permutation_rev, py_sort_perm. by rewrite <- Permutation_rev. Qed.

(** A strict weak order on the elements satisfying [P]. *)
Context (P : A -> Prop)
        (asym : forall x y, P x -> P y -> ltb x y = true -> ltb y x = false)
        (ge_trans : forall x y z, P x -> P y -> P z ->
           ltb y x = false -> ltb z y = false -> ltb z x = false).

Definition ordered : list A -> Prop := StronglySorted (fun x y => ltb y x = false).

Lemma insert_sorted_ordered x l :
  P x -> Forall P l -> ordered l -> ordered (insert_sorted x l).
Proof using asym ge_trans.
  intros Hx Hl Ho. induction Ho as [|y l Ho IH Hy]; simpl; [repeat constructor|].
  inversion Hl as [|? ? Py Pl]; subst.
  destruct (ltb y x) eqn:E.
  - constructor; [by apply IH|].
    rewrite insert_sorted_perm. constructor; [by apply asym|done].
  - constructor; [by constructor|]. constructor; [done|].
    rewrite Forall_forall in *. intros z Hz. apply (ge_trans x y z); auto.
Qed.

Lemma py_sort_ordered l : Forall P l -> ordered (py_sort l).
Proof using asym ge_trans.
  induction 1 as [|x l Hx Hl IH]; simpl; [constructor|].
  apply insert_sorted_ordered; [done| |done]. by rewrite py_sort_perm.
Qed.

(** The first element of a descending sort is a maximum. *)
Lemma py_sort_reverse_head x r l :
  Forall P l -> py_sort_reverse l = x :: r ->
  x ∈ l /\ forall y, y ∈ l -> P y -> ltb x y = false.
Proof using asym ge_trans.
  unfold py_sort_reverse. intros Hl H.
  assert (Hp : x :: r ≡ₚ l) by (rewrite <- H; apply py_sort_reverse_perm).
  split; [rewrite <- Hp; by left|]. intros y Hy Py.
  assert (Hs : ordered (py_sort (rev l))) by (apply py_sort_ordered; by rewrite <- Permutation_rev).
  apply (f_equal (@rev A)) in H. rewrite rev_involutive in H. simpl in H. rewrite H in Hs.
  rewrite <- Hp in Hy. apply elem_of_cons in Hy as [-> |Hy].
  - destruct (ltb x x) eqn:E; [|done]. pose proof (asym x x Py Py E). congruence.
  - assert (Hin : y ∈ rev r) by (rewrite list_elem_of_In, <- in_rev, <- list_elem_of_In; done).
    clear -Hs Hin. induction (rev r) as [|z l' IH]; [set_solver|]. simpl in Hs.
    apply StronglySorted_inv in Hs as [Hs Hall].
    apply elem_of_cons in Hin as [-> |Hin]; [|by apply IH].
    rewrite Forall_forall in Hall. apply Hall. set_solver.
Qed.
Lemma py_sort_reverse_nil l : py_sort_reverse l = [] -> l = [].
Proof.
  intros H. apply Permutation_nil. rewrite <- H. by rewrite py_sort_reverse_perm.
Qed.
Lemma strongly_sorted_app_end {B} (R : B -> B -> Prop) l x :
  StronglySorted R l -> Forall (fun y => R y x) l -> StronglySorted R (l ++ [x]).
Proof.
  induction 1 as [|y l Hl IH Hy]; simpl; intros Hx; [repeat constructor|].
  apply Forall_cons in Hx as [Hyx Hx]. constructor; [by apply IH|]. apply Forall_app. by repeat constructor.
Qed.
Lemma strongly_sorted_rev {B} (R : B -> B -> Prop) l :
  StronglySorted R l -> StronglySorted (fun x y => R y x) (rev l).
Proof.
  induction 1 as [|x l Hl IH Hx]; simpl; [constructor|].
  apply strongly_sorted_app_end; [done|]. by rewrite <- Permutation_rev.
Qed.
Lemma py_sort_reverse_ordered l :
  Forall P l -> StronglySorted (fun x y => ltb x y = false) (py_sort_reverse l).
Proof using asym ge_trans.
  intros Hl. unfold py_sort_reverse. apply (strongly_sorted_rev (fun x y => ltb y x = false)), py_sort_ordered.
  by rewrite <- Permutation_rev.
Qed.
End sort.

(** The first element of a selection from an ordered list comes before the others selected. *)
Lemma head_selected {A} (R : A -> A -> Prop) (f : A -> bool) l :
  StronglySorted R l -> (forall x, x ∈ l -> R x x) ->
  match head (List.filter f l) with
  | None => forall x, x ∈ l -> f x = false
  | Some b => b ∈ l /\ f b = true /\ forall x, x ∈ l -> f x = true -> R b x
  end.
Proof.
  intros Hs Hr. induction Hs as [|x l Hs IH Hx]; simpl; [set_solver|].
  destruct (f x) eqn:E; simpl.
  - split_and!; [by left|done|]. intros y [-> |Hy]%elem_of_cons Hf; [apply Hr; by left|].
    rewrite Forall_forall in Hx. by apply Hx.
  - specialize (IH (fun y Hy => Hr y (list_elem_of_further _ _ _ Hy))). destruct (head (List.filter f l)) as [b|].
    + destruct IH as (Hb & Hfb & Hall). split_and!; [by right|done|].
      intros y [-> |Hy]%elem_of_cons Hf; [congruence|by apply Hall].
    + intros y [-> |Hy]%elem_of_cons; [done|by apply IH].
Qed.

(** [sorted(xs)] of floats and of strings. *)
Definition fsorted (l : list float) : list float := py_sort fltb l.
Definition str_ltb (a b : string) : bool :=
  match String.compare a b with Lt => true | _ => false end.
Definition strsorted (l : list string) : list string := py_sort str_ltb l.

Lemma fltb_ge_trans x y z :
  is_nan x = false -> is_nan y = false -> is_nan z = false ->
  fltb y x = false -> fltb z y = false -> fltb z x = false.
Proof.
  intros Hx Hy Hz Hyx Hzy. apply fltb_false in Hyx, Hzy; [|done..].
  destruct (fltb z x) eqn:E; [|done]. apply fltb_fleb_false in E.
  rewrite (fleb_trans x y z) in E by done. done.
Qed.
Lemma fltb_asym_on x y : is_nan x = false -> is_nan y = false -> fltb x y = true -> fltb y x = false.
Proof. intros _ _. apply fltb_asym. Qed.

Lemma fsorted_ordered l :
  Forall (fun x => is_nan x = false) l -> StronglySorted (fun x y => fltb y x = false) (fsorted l).
Proof. apply py_sort_ordered; [apply fltb_asym_on|apply fltb_ge_trans]. Qed.

(** ** Tuples of numbers as sort keys, compared lexicographically *)

Inductive kpart : Type :=
| KF (f : float)
| KI (z : Z).

Definition part_cmp (a b : kpart) : comparison :=
  match a, b with
  | KF x, KF y => if feqb x y then Eq else if fltb x y then Lt else Gt
  | KI x, KI y => Z.compare x y
  | KF _, KI _ => Lt
  | KI _, KF _ => Gt
  end.
Fixpoint kltb (a b : list kpart) : bool :=
  match a, b with
  | [], _ :: _ => true
  | x :: a', y :: b' => match part_cmp x y with Eq => kltb a' b' | Lt => true | Gt => false end
  | _, [] => false
  end.

(** The order of integer lists, of which [kltb] is the image. *)
Fixpoint zltb (a b : list Z) : bool :=
  match a, b with
  | [], _ :: _ => true
  | x :: a', y :: b' => match Z.compare x y with Eq => zltb a' b' | Lt => true | Gt => false end
  | _, [] => false
  end.
Lemma zltb_asym a b : zltb a b = true -> zltb b a = false.
Proof.
  revert b; induction a as [|x a IH]; intros [|y b]; simpl; try done.
  rewrite (Z.compare_antisym x y). destruct (x ?= y); simpl; auto; done.
Qed.
Lemma zltb_ge_trans a b c : zltb b a = false -> zltb c b = false -> zltb c a = false.
Proof.
  revert b c; induction a as [|x a IH]; intros [|y b] [|z c]; simpl; try done.
  destruct (Z.compare_spec y x), (Z.compare_spec z y), (Z.compare_spec z x); subst; try done; try lia;
    eauto.
Qed.

Definition part_key (p : kpart) : list Z :=
  match p with
  | KF f => let '(a, b, c) := key f in [a; b; c]
  | KI z => [z]
  end.
Definition flat_key (k : list kpart) : list Z := mjoin (map part_key k).
(** A key of a given shape ([true] for a float) without NaN. *)
Definition shaped (sh : list bool) (k : list kpart) : Prop :=
  Forall2 (fun (isf : bool) p => match p with KF f => isf = true /\ is_nan f = false | KI _ => isf = false end) sh k.

Lemma kltb_flat sh a b : shaped sh a -> shaped sh b -> kltb a b = zltb (flat_key a) (flat_key b).
Proof.
  intros Ha. revert b. induction Ha as [|s p sh a Hp _ IH]; intros b Hb; inversion Hb as [|? q ? b' Hq Hb']; subst; [done|].
  unfold flat_key; simpl. destruct p as [x|x], q as [y|y]; simpl;
    [|destruct Hp; congruence|destruct Hq; congruence|].
  - destruct Hp as [_ Hx], Hq as [_ Hy].
    pose proof (feqb_spec x y Hx Hy) as He. pose proof (fltb_spec x y) as Hl.
    destruct (key x) as [[a1 a2] a3], (key y) as [[b1 b2] b3]. simpl in *.
    destruct (feqb x y).
    + injection (proj1 He eq_refl) as -> -> ->. rewrite !Z.compare_refl. by apply IH.
    + destruct (fltb x y).
      * destruct (proj1 Hl eq_refl) as (_ & _ & H).
        destruct (Z.compare_spec a1 b1), (Z.compare_spec a2 b2), (Z.compare_spec a3 b3); try done; lia.
      * destruct (Z.compare_spec a1 b1); [|exfalso; assert (false = true) by (apply Hl; split_and!; [done..|lia]); done|done].
        destruct (Z.compare_spec a2 b2); [|exfalso; assert (false = true) by (apply Hl; split_and!; [done..|lia]); done|done].
        destruct (Z.compare_spec a3 b3); [|exfalso; assert (false = true) by (apply Hl; split_and!; [done..|lia]); done|done].
        exfalso. assert (false = true) by (apply He; congruence). done.
  - destruct (x ?= y); [by apply IH|done..].
Qed.
Lemma kltb_asym sh a b : shaped sh a -> shaped sh b -> kltb a b = true -> kltb b a = false.
Proof. intros Ha Hb. rewrite !(kltb_flat sh) by done. apply zltb_asym. Qed.
Lemma kltb_ge_trans sh a b c : shaped sh a -> shaped sh b -> shaped sh c ->
  kltb b a = false -> kltb c b = false -> kltb c a = false.
Proof. intros Ha Hb Hc. rewrite !(kltb_flat sh) by done. apply zltb_ge_trans. Qed.

(** The order starts with the first component. *)
Lemma kltb_head sh a r b r' :
  shaped (true :: sh) (KF a :: r) -> shaped (true :: sh) (KF b :: r') ->
  kltb (KF a :: r) (KF b :: r') = false -> fleb b a = true.
Proof.
  intros Ha Hb H. apply Forall2_cons in Ha as [[_ Ha] _]. apply Forall2_cons in Hb as [[_ Hb] _].
  simpl in H. destruct (feqb a b) eqn:Eq.
  - apply feqb_spec in Eq; [|done..]. apply feqb_fleb. by apply feqb_spec.
  - destruct (fltb a b) eqn:Elt; [done|]. by apply fltb_false in Elt.
Qed.

Definition no_nan (l : list float) : Prop := Forall (fun x => is_nan x = false) l.

(** [max(l, key=...)]: the first element no later one exceeds. *)
Fixpoint max_by_from {A} (ltb : A -> A -> bool) (m : A) (l : list A) : A :=
  match l with [] => m | x :: l' => max_by_from ltb (if ltb m x then x else m) l' end.
