(* ===== verification/PyPath.v ===== *)
(** * POSIX paths ([pathlib.PurePosixPath])

    What the scripts use of [pathlib]: the normal form that [str] gives a path, its last
    part and that part without its suffix. *)

From S2P Require Import Prelude PyFloat PyStr.

Definition path_parts (path : string) : list (list ascii) :=
  List.filter (fun part => match part with [] => false | [c] => negb (Ascii.eqb c "."%char) | _ => true end)
    (split_on "/"%char (chars path)).
Definition path_root (path : string) : string :=
  match chars path with
  | "/"%char :: "/"%char :: "/"%char :: _ => "/"
  | "/"%char :: "/"%char :: _ => "//"
  | "/"%char :: _ => "/"
  | _ => ""
  end.
(** [str(Path(path))] *)
Definition path_str (path : string) : string :=
  match path_root path, path_parts path with
  | "", [] => "."
  | root, parts => root +:+ join "/" (map str parts)
  end.
(** [Path(a) / b]: [posixpath.join], then the normal form. *)
Definition slash_first (l : list ascii) : bool := match l with c :: _ => Ascii.eqb c "/"%char | [] => false end.
Definition posix_join (a b : string) : string :=
  if slash_first (chars b) then b
  else if String.eqb a "" || slash_first (rev (chars a)) then a +:+ b
  else a +:+ "/" +:+ b.
Definition path_join (a b : string) : string := path_str (posix_join a b).
(** [Path(path).name] *)
Definition path_name (path : string) : list ascii := List.last (path_parts path) [].
(** [Path(path).stem] *)
Definition stem (path : string) : string :=
  let name := path_name path in
  match split_on "."%char name with
  | [] | [_] => str name
  | parts =>
      match List.last parts [], removelast parts with
      | [], _ => str name
      | _, [[]] => str name
      | _, init => join "." (map str init)
      end
  end.

Example path_known : map path_str ["a//b/./c/"; "./x"; "/"; "//h/y"; "///z"; ""]%string =
  ["a/b/c"; "x"; "/"; "//h/y"; "/z"; "."]%string.
Proof. vm_compute. reflexivity. Qed.
Example join_known :
  [path_join "results/state/" "a.json"; path_join "" "a"; path_join "/" "a"; path_join "." "a"; path_join "x" "/a"]%string =
  ["results/state/a.json"; "a"; "/a"; "a"; "/a"]%string.
Proof. vm_compute. reflexivity. Qed.
Example stem_known : map stem ["out/curve.tar.gz"; ".png"; "a."; "dir/"]%string = ["curve.tar"; ".png"; "a."; "dir"]%string.
Proof. vm_compute. reflexivity. Qed.

(** ** Normal forms *)

(** The name of a file in a directory. *)
Definition plain_name (part : list ascii) : Prop :=
  ("/"%char ∉ part) /\ (match part with [] => false | [c] => negb (Ascii.eqb c "."%char) | _ => true end = true).
#[global] Instance plain_name_dec part : Decision (plain_name part).
Proof. unfold plain_name. apply _. Defined.

Lemma split_on_free c l : c ∉ l -> split_on c l = [l].
Proof.
  induction l as [|d l IH]; intros H; [done|]. apply not_elem_of_cons in H as [Hd Hl]. cbn [split_on].
  rewrite (IH Hl). by destruct (Ascii.eqb_spec d c) as [->|].
Qed.
Lemma split_on_pieces c l : Forall (fun piece => c ∉ piece) (split_on c l).
Proof.
  induction l as [|d l IH]; cbn [split_on]; [by constructor; [apply not_elem_of_nil|]|].
  destruct (Ascii.eqb_spec d c) as [->|Hd]; [by constructor; [apply not_elem_of_nil|]|].
  assert (Hcons : forall w, c ∉ w -> c ∉ d :: w) by (intros w Hw; apply not_elem_of_cons; split; [congruence|done]).
  destruct IH as [|w ws Hw Hws]; constructor; auto using not_elem_of_nil.
Qed.
Lemma path_parts_plain path : Forall plain_name (path_parts path).
Proof.
  apply Forall_forall. intros p Hp. unfold path_parts in Hp. apply elem_of_filterb in Hp as [Hp Hk].
  split; [|done]. pose proof (split_on_pieces "/"%char (chars path)) as H. rewrite Forall_forall in H. by apply H.
Qed.

(** The parts of a text with a slash are the parts on both sides. *)
Definition parts_of (l : list ascii) : list (list ascii) :=
  List.filter (fun part => match part with [] => false | [c] => negb (Ascii.eqb c "."%char) | _ => true end) (split_on "/"%char l).
Lemma parts_of_app a b : parts_of (a ++ "/"%char :: b) = parts_of a ++ parts_of b.
Proof. unfold parts_of. by rewrite split_on_app, List.filter_app. Qed.
Lemma parts_of_plain n : plain_name n -> parts_of n = [n].
Proof. intros [Hs Hk]. unfold parts_of. rewrite (split_on_free _ _ Hs). cbn [List.filter]. by rewrite Hk. Qed.
Lemma parts_of_join parts : Forall plain_name parts -> parts_of (chars (join "/" (map str parts))) = parts.
Proof.
  induction 1 as [|p parts Hp Hps IH]; [done|]. destruct parts as [|q parts].
  - cbn [map join]. rewrite chars_str. by apply parts_of_plain.
  - cbn [map join] in *. rewrite !chars_app, chars_str. change (chars "/" ++ ?l) with ("/"%char :: l).
    rewrite parts_of_app, IH. by rewrite (parts_of_plain _ Hp).
Qed.

Lemma path_parts_str path : path_parts (path_str path) = path_parts path.
Proof.
  unfold path_str. pose proof (path_parts_plain path) as Hp. change (path_parts ?x) with (parts_of (chars x)) at 1.
  assert (Hroot : path_root path = "" \/ path_root path = "/" \/ path_root path = "//").
  { unfold path_root. repeat case_match; auto. }
  assert (Hj : forall root, root = "" \/ root = "/" \/ root = "//" ->
    parts_of (chars (root +:+ join "/" (map str (path_parts path)))) = path_parts path).
  { intros root Hr. rewrite chars_app. destruct Hr as [->|[-> | ->]].
    - by apply parts_of_join.
    - change (chars "/" ++ ?l) with ([] ++ "/"%char :: l). rewrite parts_of_app. by rewrite parts_of_join.
    - change (chars "//" ++ ?l) with ([] ++ "/"%char :: [] ++ "/"%char :: l). rewrite !parts_of_app. by rewrite parts_of_join. }
  destruct Hroot as [E|[E|E]]; rewrite E.
  - destruct (path_parts path) eqn:Ep; [done|]. by apply (Hj ""); left.
  - apply Hj; auto.
  - apply Hj; auto.
Qed.

Lemma slash_first_join parts : Forall plain_name parts -> slash_first (chars (join "/" (map str parts))) = false.
Proof.
  intros H. destruct H as [|p parts Hp Hps]; [done|].
  destruct Hp as [Hs Hk]. destruct p as [|c p]; [done|]. apply not_elem_of_cons in Hs as [Hc _].
  destruct parts; cbn [map join]; rewrite ?chars_app, chars_str; cbn; by apply Ascii.eqb_neq.
Qed.
Lemma path_root_app root l : root = "" \/ root = "/" \/ root = "//" -> slash_first (chars l) = false ->
  path_root (root +:+ l) = root.
Proof.
  intros Hr Hl. unfold path_root. rewrite chars_app. destruct (chars l) as [|c m]; [by destruct Hr as [->|[-> | ->]]|].
  cbn in Hl. apply Ascii.eqb_neq in Hl. destruct c as [[] [] [] [] [] [] [] []]; by destruct Hr as [->|[-> | ->]].
Qed.
(** [str(Path(str(path)))] is [str(Path(path))]. *)
Lemma path_str_idem path : path_str (path_str path) = path_str path.
Proof.
  assert (Hr : path_root path = "" \/ path_root path = "/" \/ path_root path = "//")
    by (unfold path_root; repeat case_match; auto).
  unfold path_str at 1. rewrite path_parts_str.
  assert (Hroot : path_root (path_str path) = path_root path).
  { unfold path_str. pose proof (slash_first_join _ (path_parts_plain path)) as Hs.
    destruct (path_root path) eqn:E; [|rewrite <- E in *; by apply path_root_app].
    destruct (path_parts path); [done|]. apply path_root_app; auto. }
  rewrite Hroot. done.
Qed.

(** Joining appends the parts, and a file placed in a directory keeps its name. *)
Lemma path_parts_join directory name : slash_first (chars name) = false ->
  path_parts (path_join directory name) = path_parts directory ++ path_parts name.
Proof.
  intros Hs. unfold path_join. rewrite path_parts_str. unfold posix_join. rewrite Hs.
  change (path_parts ?x) with (parts_of (chars x)).
  destruct (String.eqb_spec directory "") as [->|Hne]; [done|]. cbn [orb].
  destruct (slash_first (rev (chars directory))) eqn:E.
  - destruct (rev (chars directory)) as [|c r] eqn:Er; [done|]. cbn in E. apply Ascii.eqb_eq in E as ->.
    rewrite chars_app. apply (f_equal (@rev ascii)) in Er. rewrite rev_involutive in Er. rewrite Er. cbn [rev].
    rewrite <- app_assoc. cbn [app]. rewrite !parts_of_app. by rewrite app_nil_r.
  - rewrite !chars_app. change (chars "/" ++ ?l) with ("/"%char :: l). by rewrite parts_of_app.
Qed.
Lemma plain_name_first part : plain_name part -> slash_first part = false.
Proof.
  intros [Hs _]. destruct part as [|c l]; [done|]. apply not_elem_of_cons in Hs as [Hc _]. cbn. by apply Ascii.eqb_neq.
Qed.
Lemma path_name_join directory name : plain_name (chars name) -> str (path_name (path_join directory name)) = name.
Proof.
  intros Hn. unfold path_name. rewrite path_parts_join by (by apply plain_name_first).
  change (path_parts name) with (parts_of (chars name)). rewrite (parts_of_plain _ Hn), List.last_last. apply str_chars.
Qed.

(** [Path(path).suffix]: what [stem] leaves of the name. *)
Definition suffix (path : string) : string := str (drop (String.length (stem path)) (path_name path)).
(** [Path(path).parent] *)
Definition path_parent (path : string) : string :=
  path_str (path_root path +:+ join "/" (map str (removelast (path_parts path)))).
(** [Path(path).with_name(name)] *)
Definition with_name (path name : string) : res string :=
  match path_name path with
  | [] => Err (ValueError (path_str path +:+ " has an empty name"))
  | _ => Ok (path_join (path_parent path) name)
  end.
Example sibling_known :
  (map suffix ["out/curve.tar.gz"; ".png"; "a."; "dir/"]%string, with_name "out/a.png" "a_zh.png", with_name "a.png" "b", with_name "/" "b") =
  ([".gz"; ""; ""; ""]%string, Ok "out/a_zh.png"%string, Ok "b"%string, Err (ValueError "/ has an empty name")).
Proof. vm_compute. reflexivity. Qed.
