(* ===== verification/Digest.v ===== *)
(** * Canonical JSON and SHA-256

    [json.dumps(v, sort_keys=True, separators=(",", ":"))] and
    [hashlib.sha256(text).hexdigest()], as used for the hashes the artifacts
    carry.  Both are executable and checked against known answers. *)

From S2P Require Import Prelude PyFloat PyStr PyVal PySort.

(** ** JSON text *)

(** With [ensure_ascii] everything outside printable ASCII is escaped, without it only
    the control characters. *)
Definition json_char (ensure_ascii : bool) (c : ascii) : string :=
  let z := code c in
  if (z =? 34) || (z =? 92) then str [chr 92; c]
  else if z =? 10 then str [chr 92; "n"%char]
  else if z =? 13 then str [chr 92; "r"%char]
  else if z =? 9 then str [chr 92; "t"%char]
  else if z =? 8 then str [chr 92; "b"%char]
  else if z =? 12 then str [chr 92; "f"%char]
  else if (z <? 32) || (ensure_ascii && (126 <? z))
  then str [chr 92; "u"%char; "0"%char; "0"%char; hex_digit (z / 16); hex_digit (z mod 16)]
  else str [c].
Definition json_string (ensure_ascii : bool) (s : string) : string :=
  str [chr 34] +:+ join "" (map (json_char ensure_ascii) (chars s)) +:+ str [chr 34].
Definition json_float (f : float) : string :=
  match f with
  | S754_nan => "NaN"
  | S754_infinity s => if s then "-Infinity" else "Infinity"
  | _ => repr_float f
  end.

(** The keyword arguments of [json.dumps] the sources use. *)
Record json_style := {
  js_indent : option nat;
  js_item : string;
  js_colon : string;
  js_sort : bool;
  js_ensure_ascii : bool
}.
Definition js_newline (st : json_style) (depth : nat) : string :=
  match js_indent st with
  | Some n => str (chr 10 :: repeat " "%char (n * depth))
  | None => ""
  end.
Definition js_layout (st : json_style) (depth : nat) (o c : string) (items : list string) : string :=
  match items with
  | [] => o +:+ c
  | _ => o +:+ js_newline st (S depth) +:+
         join (js_item st +:+ js_newline st (S depth)) items +:+ js_newline st depth +:+ c
  end.

(** [json.dumps(v, ...)]; [bytes] are not serializable. *)
Fixpoint json_text (st : json_style) (depth : nat) (v : val) : res string :=
  match v with
  | VNone => Ok "null"%string
  | VBool b => Ok (if b then "true" else "false")%string
  | VInt z => Ok (str_of_Z z)
  | VFloat f => Ok (json_float f)
  | VStr s => Ok (json_string (js_ensure_ascii st) s)
  | VBytes _ => Err TypeError
  | VList l =>
      items <-! (fix go (l : list val) : res (list string) :=
                   match l with
                   | [] => Ok []
                   | x :: l' => t <-! json_text st (S depth) x ;; ts <-! go l' ;; Ok (t :: ts)
                   end) l ;;
      Ok (js_layout st depth "[" "]" items)
  | VDict d =>
      items <-! (fix go (d : list (string * val)) : res (list (string * string)) :=
                   match d with
                   | [] => Ok []
                   | (k, x) :: d' => t <-! json_text st (S depth) x ;; ts <-! go d' ;; Ok ((k, t) :: ts)
                   end) d ;;
      let items := if js_sort st then py_sort (fun a b => str_ltb a.1 b.1) items else items in
      Ok (js_layout st depth "{" "}" (map (fun kt => json_string (js_ensure_ascii st) kt.1 +:+ js_colon st +:+ kt.2) items))
  end.

(** [separators=(",", ":"), sort_keys=True], the form that is hashed; the default
    separators; [indent=2]; [ensure_ascii=False, indent=2]. *)
Definition compact : json_style :=
  {| js_indent := None; js_item := ","; js_colon := ":"; js_sort := true; js_ensure_ascii := true |}.
Definition plain (sort : bool) : json_style :=
  {| js_indent := None; js_item := ", "; js_colon := ": "; js_sort := sort; js_ensure_ascii := true |}.
Definition indented (sort : bool) : json_style :=
  {| js_indent := Some 2%nat; js_item := ","; js_colon := ": "; js_sort := sort; js_ensure_ascii := true |}.
Definition unescaped : json_style :=
  {| js_indent := Some 2%nat; js_item := ","; js_colon := ": "; js_sort := false; js_ensure_ascii := false |}.
Definition json_dumps (v : val) : res string := json_text compact 0 v.

(** ** SHA-256 *)

Definition w32 (z : Z) : Z := Z.land z 4294967295.
Definition rotr (n x : Z) : Z := Z.lor (Z.shiftr x n) (w32 (Z.shiftl x (32 - n))).
Definition add32 (l : list Z) : Z := w32 (foldr Z.add 0 l).

Definition sha_k : list Z :=
  [1116352408; 1899447441; 3049323471; 3921009573; 961987163; 1508970993; 2453635748; 2870763221;
   3624381080; 310598401; 607225278; 1426881987; 1925078388; 2162078206; 2614888103; 3248222580;
   3835390401; 4022224774; 264347078; 604807628; 770255983; 1249150122; 1555081692; 1996064986;
   2554220882; 2821834349; 2952996808; 3210313671; 3336571891; 3584528711; 113926993; 338241895;
   666307205; 773529912; 1294757372; 1396182291; 1695183700; 1986661051; 2177026350; 2456956037;
   2730485921; 2820302411; 3259730800; 3345764771; 3516065817; 3600352804; 4094571909; 275423344;
   430227734; 506948616; 659060556; 883997877; 958139571; 1322822218; 1537002063; 1747873779;
   1955562222; 2024104815; 2227730452; 2361852424; 2428436474; 2756734187; 3204031479; 3329325298].
Definition sha_init : list Z :=
  [1779033703; 3144134277; 1013904242; 2773480762; 1359893119; 2600822924; 528734635; 1541459225].

(** Big-endian bytes of a number, and padding to whole 64-byte blocks. *)
Fixpoint be_bytes (n : nat) (z : Z) : list Z :=
  match n with O => [] | S n' => Z.shiftr z (8 * Z.of_nat n') mod 256 :: be_bytes n' z end.
Definition sha_pad (l : list Z) : list Z :=
  let n := length l in
  let zeros := ((64 - (n + 9) mod 64) mod 64)%nat in
  l ++ 128 :: replicate zeros 0 ++ be_bytes 8 (8 * Z.of_nat n).

Fixpoint words (l : list Z) : list Z :=
  match l with
  | a :: b :: c :: d :: l' => ((a * 256 + b) * 256 + c) * 256 + d :: words l'
  | _ => []
  end.

(** The message schedule, latest word first. *)
Fixpoint schedule (n : nat) (w : list Z) : list Z :=
  match n with
  | O => w
  | S n' =>
      let x15 := nth 14 w 0 in
      let x2 := nth 1 w 0 in
      let s0 := Z.lxor (Z.lxor (rotr 7 x15) (rotr 18 x15)) (Z.shiftr x15 3) in
      let s1 := Z.lxor (Z.lxor (rotr 17 x2) (rotr 19 x2)) (Z.shiftr x2 10) in
      schedule n' (add32 [nth 15 w 0; s0; nth 6 w 0; s1] :: w)
  end.

Definition sha_round (h : list Z) (kw : Z * Z) : list Z :=
  match h with
  | [a; b; c; d; e; f; g; hh] =>
      let s1 := Z.lxor (Z.lxor (rotr 6 e) (rotr 11 e)) (rotr 25 e) in
      let ch := Z.lxor (Z.land e f) (Z.land (Z.lxor e 4294967295) g) in
      let t1 := add32 [hh; s1; ch; kw.1; kw.2] in
      let s0 := Z.lxor (Z.lxor (rotr 2 a) (rotr 13 a)) (rotr 22 a) in
      let maj := Z.lxor (Z.lxor (Z.land a b) (Z.land a c)) (Z.land b c) in
      [add32 [t1; s0; maj]; a; b; c; add32 [d; t1]; e; f; g]
  | _ => h
  end.

Fixpoint sha_blocks (fuel : nat) (l : list Z) (h : list Z) : list Z :=
  match fuel, l with
  | S fuel', _ :: _ =>
      let w := rev (schedule 48 (rev (words (take 64 l)))) in
      let h' := foldl sha_round h (combine sha_k w) in
      sha_blocks fuel' (drop 64 l) (map (fun ab => add32 [ab.1; ab.2]) (combine h h'))
  | _, _ => h
  end.

Definition sha256 (s : string) : list Z :=
  let l := sha_pad (map code (chars s)) in
  mjoin (map (be_bytes 4) (sha_blocks (length l) l sha_init)).
Definition hex_bytes (l : list Z) : string := hex (str (map chr l)).
(** [hashlib.sha256(s.encode()).hexdigest()] for ASCII text. *)
Definition sha256_hex (s : string) : string := hex_bytes (sha256 s).

Example sha256_known : sha256_hex "abc" =
  "ba7816bf8f01cfea414140de5dae2223b00361a396177a9cb410ff61f20015ad"%string.
Proof. vm_compute. reflexivity. Qed.
Example json_known :
  json_dumps (VDict [("b"%string, VList [VNone; VBool true]); ("a"%string, VFloat (dec 15 (-1)))]) =
  Ok (str (chars "{" ++ [chr 34] ++ chars "a" ++ [chr 34] ++ chars ":1.5," ++ [chr 34] ++ chars "b"
           ++ [chr 34] ++ chars ":[null,true]}")).
Proof. vm_compute. reflexivity. Qed.

(** Values without [bytes], the JSON values: these always serialize. *)
Fixpoint jsonable (v : val) : bool :=
  match v with
  | VBytes _ => false
  | VList l => forallb jsonable l
  | VDict d => forallb (fun kv => jsonable kv.2) d
  | _ => true
  end.
Lemma json_text_ok st v depth : jsonable v = true -> exists t, json_text st depth v = Ok t.
Proof.
  revert v depth. fix IH 1. intros v depth. destruct v as [| | | | |b|l|d]; cbn [json_text jsonable]; eauto.
  - done.
  - intros H. enough (exists ts, (fix go (l : list val) : res (list string) :=
        match l with
        | [] => Ok []
        | x :: l' => t <-! json_text st (S depth) x ;; ts <-! go l' ;; Ok (t :: ts)
        end) l = Ok ts) as [ts ->] by eauto.
    induction l as [|x l IHl]; [eauto|]. apply andb_prop in H as [Hx Hl].
    destruct (IH x (S depth) Hx) as [t ->]. destruct (IHl Hl) as [ts ->]. eauto.
  - intros H. enough (exists ts, (fix go (d : list (string * val)) : res (list (string * string)) :=
        match d with
        | [] => Ok []
        | (k, x) :: d' => t <-! json_text st (S depth) x ;; ts <-! go d' ;; Ok ((k, t) :: ts)
        end) d = Ok ts) as [ts ->] by eauto.
    induction d as [|[k x] d IHd]; [eauto|]. apply andb_prop in H as [Hx Hd].
    destruct (IH x (S depth) Hx) as [t ->]. destruct (IHd Hd) as [ts ->]. eauto.
Qed.
Lemma jsonable_dget d k v : jsonable (VDict d) = true -> dget d k = Some v -> jsonable v = true.
Proof.
  induction d as [|[k' v'] d IH]; [done|]. cbn [jsonable forallb dget snd]. intros [Hv Hd]%andb_prop.
  destruct (String.eqb _ _); [by intros [= <-]|by apply IH].
Qed.
Lemma jsonable_dget_or d k x : jsonable (VDict d) = true -> jsonable x = true -> jsonable (dget_or d k x) = true.
Proof. unfold dget_or. intros Hd Hx. destruct (dget d k) eqn:E; [by eapply jsonable_dget|done]. Qed.
Lemma jsonable_vget v k x y : jsonable v = true -> jsonable x = true -> vget v k x = Ok y -> jsonable y = true.
Proof. destruct v; try done. intros Hd Hx [= <-]. by apply jsonable_dget_or. Qed.
Lemma jsonable_vitem v k x : jsonable v = true -> vitem v k = Ok x -> jsonable x = true.
Proof.
  destruct v; try done. cbn [vitem]. intros Hd H. destruct (dget _ k) eqn:E; [|done]. injection H as <-. by eapply jsonable_dget.
Qed.
Lemma jsonable_viter v l : jsonable v = true -> viter v = Ok l -> Forall (fun x => jsonable x = true) l.
Proof.
  destruct v as [| | | |s|s|l'|d]; try done; intros H [= <-]; apply Forall_forall; intros x Hx.
  - apply list_elem_of_fmap in Hx as (c & -> & _). done.
  - cbn [jsonable] in H. rewrite forallb_elem in H. by apply H.
  - apply list_elem_of_fmap in Hx as (c & -> & _). done.
Qed.

Lemma jsonable_dset d k v : jsonable (VDict d) = true -> jsonable v = true -> jsonable (VDict (dset d k v)) = true.
Proof.
  intros Hd Hv. induction d as [|[k' v'] d IH]; cbn [dset jsonable forallb snd] in *; [by rewrite Hv|].
  apply andb_prop in Hd as [H1 H2]. destruct (String.eqb _ _); cbn [forallb snd]; [by rewrite Hv|]. rewrite H1. by apply IH.
Qed.
Lemma jsonable_dupdate d e : jsonable (VDict d) = true -> jsonable (VDict e) = true -> jsonable (VDict (dupdate d e)) = true.
Proof.
  unfold dupdate. revert d. induction e as [|[k v] e IH]; intros d Hd He; [done|]. cbn [foldl fst snd].
  cbn [jsonable forallb snd] in He. apply andb_prop in He as [Hv He]. apply IH; [by apply jsonable_dset|done].
Qed.

(** ** Literal documents *)

Lemma jsonable_list {A} (f : A -> val) l : (forall x, x ∈ l -> jsonable (f x) = true) -> jsonable (VList (map f l)) = true.
Proof. intros H. cbn [jsonable]. apply forallb_forall. intros v Hv%list_elem_of_In%list_elem_of_fmap. destruct Hv as (x & -> & Hx). by apply H. Qed.
Lemma jsonable_pairs {A} (f : A -> string * val) l : (forall x, x ∈ l -> jsonable (f x).2 = true) ->
  jsonable (VDict (map f l)) = true.
Proof.
  intros H. cbn [jsonable]. apply forallb_forall. intros kv Hv%list_elem_of_In%list_elem_of_fmap.
  destruct Hv as (x & -> & Hx). by apply H.
Qed.
Lemma jsonable_opt o : jsonable (opt_float o) = true.
Proof. by destruct o. Qed.
Lemma jsonable_cons k v d : jsonable (VDict ((k, v) :: d)) = jsonable v && jsonable (VDict d).
Proof. done. Qed.
Lemma jsonable_nil : jsonable (VDict []) = true.
Proof. done. Qed.
Create Rewrite HintDb jsonable.
#[export] Hint Rewrite jsonable_opt jsonable_cons jsonable_nil : jsonable.
Create HintDb jsonable_db.
#[export] Hint Resolve jsonable_list jsonable_pairs : jsonable_db.
(** A literal document: entry by entry. *)
Ltac jsonable_doc :=
  autorewrite with jsonable; rewrite ?andb_true_iff; split_and?; try reflexivity; auto with jsonable_db.
