(* ===== verification/Disk.v ===== *)
(** * The disk of a script

    The scripts read JSON documents, make directories, copy files, write texts and save
    figures.  The disk is the environment; what is left of a run is the list of the
    operations that succeeded, also when it ends in an exception. *)

From S2P Require Import Prelude PyFloat PyStr PyVal PyPath Digest.

(** ** Figures *)

(** What is passed to matplotlib; what it draws is the library's. *)
Inductive artist : Type :=
| Line (xs ys : list val) (fmt : string) (options : list (string * val))
| Scatter (xs ys : list val) (options : list (string * val)).
(** An empty label or title is not set. *)
Record axes := {
  ax_artists : list artist;
  ax_title : string;
  ax_xlabel : string;
  ax_ylabel : string;
  ax_xticks : option (list val);
  ax_legend : bool
}.
Record figure := {
  fg_width : float;
  fg_height : float;
  fg_sharey : bool;
  fg_axes : list axes;
  fg_suptitle : string;
  fg_font : string
}.

(** ** Operations *)

Record Disk := {
  is_file : string -> bool;
  resolve : string -> string;               (* [str(Path(p).resolve())] *)
  read_json : string -> res val;
  mkdir : string -> res unit;               (* with [parents=True, exist_ok=True] *)
  copy2 : string -> string -> res unit;
  write_text : string -> string -> res unit;
  savefig : string -> figure -> res unit
}.

Inductive disk_op : Type :=
| OMkdir (path : string)
| OCopy (source destination : string)
| OWrite (path text : string)
| OFigure (path : string) (f : figure).

Definition D (A : Type) := stateful (list disk_op) A.
(** An operation is recorded when it succeeds. *)
Definition perform (r : res unit) (op : disk_op) : D unit :=
  st_lift r ;;; st_mod (fun ops => ops ++ [op]).
Definition if_given {A B} (o : option A) (k : A -> D B) : D (option B) :=
  match o with None => st_lift (Ok None) | Some a => b <~ k a ;; st_lift (Ok (Some b)) end.

Section operations.
Context (disk : Disk).

(** [json.loads(Path(path).read_text(encoding="utf-8"))] *)
Definition _read_json (path : string) : D val := st_lift (read_json disk (path_str path)).
Definition make_dir (path : string) : D unit := perform (mkdir disk path) (OMkdir path).
Definition make_parent (path : string) : D unit := make_dir (path_parent path).
(** [path.write_text(text)], whose text is computed first and may raise. *)
Definition write_file (path : string) (text : res string) : D unit :=
  content <~ st_lift text ;; perform (write_text disk path content) (OWrite path content).
Definition save_figure (path : string) (f : figure) : D unit := perform (savefig disk path f) (OFigure path f).
End operations.

(** ** Disks that work *)

(** A copy onto itself is refused, as [shutil.copy2] does. *)
Record working (disk : Disk) : Prop := {
  wo_mkdir path : mkdir disk path = Ok tt;
  wo_write path text : write_text disk path text = Ok tt;
  wo_figure path f : savefig disk path f = Ok tt;
  wo_copy a b : is_file disk a = true -> a <> b -> copy2 disk a b = Ok tt;
  wo_same a : copy2 disk a a = Err OSError
}.
(** [json.loads] returns JSON. *)
Definition json_disk (disk : Disk) : Prop := forall path v, read_json disk path = Ok v -> jsonable v = true.

Lemma perform_ok r op ops : r = Ok tt -> perform r op ops = (ops ++ [op], Ok tt).
Proof. by intros ->. Qed.
Lemma perform_err r op ops e : r = Err e -> perform r op ops = (ops, Err e).
Proof. by intros ->. Qed.

Section working.
Context (disk : Disk) (Hw : working disk).

Lemma run_perform {B} r op (k : unit -> D B) ops : r = Ok tt -> st_bind (perform r op) k ops = k tt (ops ++ [op]).
Proof. intros H. apply run_bind. by apply perform_ok. Qed.
Lemma run_make_dir {B} path (k : unit -> D B) ops :
  st_bind (make_dir disk path) k ops = k tt (ops ++ [OMkdir path]).
Proof. apply run_perform, (wo_mkdir _ Hw). Qed.
Lemma run_make_parent {B} path (k : unit -> D B) ops :
  st_bind (make_parent disk path) k ops = k tt (ops ++ [OMkdir (path_parent path)]).
Proof. apply run_make_dir. Qed.
Lemma write_file_ok path text content ops : text = Ok content -> write_file disk path text ops = (ops ++ [OWrite path content], Ok tt).
Proof. intros ->. apply perform_ok, (wo_write _ Hw). Qed.
Lemma run_write_file {B} path text content (k : unit -> D B) ops : text = Ok content ->
  st_bind (write_file disk path text) k ops = k tt (ops ++ [OWrite path content]).
Proof. intros H. apply run_bind. by apply write_file_ok. Qed.
Lemma run_figure {B} path f (k : unit -> D B) ops :
  st_bind (save_figure disk path f) k ops = k tt (ops ++ [OFigure path f]).
Proof. apply run_perform, (wo_figure _ Hw). Qed.
End working.
