(* ===== verification/Regex.v ===== *)
(** * Backtracking regular expressions, as Python's [re] matches them

    The fragment the sources use: character classes, concatenation, ordered
    alternation, greedy repetition, capture groups and [$].  [m] is the usual
    backtracking matcher in continuation-passing style. *)

From S2P Require Import Prelude PyFloat PyStr.

Inductive regex :=
| Chr (f : ascii -> bool)
| Seq (a b : regex)
| Alt (a b : regex)
| Star (a : regex)
| Group (n : nat) (a : regex)
| Eps
| End.

Definition Plus (a : regex) : regex := Seq a (Star a).
Definition Opt (a : regex) : regex := Alt a Eps.
Definition Lit (c : ascii) : regex := Chr (Ascii.eqb c).
Fixpoint Word (l : list ascii) : regex :=
  match l with [] => Eps | c :: l' => Seq (Lit c) (Word l') end.

(** Remaining input and the captures so far, latest first. *)
Record mstate := { rest : list ascii; caps : list (nat * list ascii) }.
Definition advance (s : mstate) (l : list ascii) : mstate := {| rest := l; caps := caps s |}.

(** Greedy repetition of a matcher: try one more round (which must consume input)
    before the continuation. *)
Fixpoint star_loop (ma : (mstate -> option mstate) -> mstate -> option mstate)
    (k : mstate -> option mstate) (fuel : nat) (s : mstate) : option mstate :=
  match fuel with
  | O => k s
  | S fuel' =>
      match ma (fun s' => if (length (rest s') <? length (rest s))%nat
                          then star_loop ma k fuel' s' else None) s with
      | Some x => Some x
      | None => k s
      end
  end.

Fixpoint m (r : regex) (k : mstate -> option mstate) (s : mstate) {struct r} : option mstate :=
  match r with
  | Chr f => match rest s with
             | c :: l => if f c then k (advance s l) else None
             | [] => None
             end
  | Seq a b => m a (m b k) s
  | Alt a b => match m a k s with Some x => Some x | None => m b k s end
  | Star a => star_loop (m a) k (S (length (rest s))) s
  | Group n a =>
      m a (fun s' => k {| rest := rest s';
                          caps := (n, take (length (rest s) - length (rest s')) (rest s)) :: caps s' |}) s
  | Eps => k s
  | End => match rest s with
           | [] => k s
           | [c] => if code c =? 10 then k s else None
           | _ => None
           end
  end.

(** [re.match(text)]: the state after a match that starts at the first character. *)
Definition re_match (r : regex) (l : list ascii) : option mstate :=
  m r Some {| rest := l; caps := [] |}.

(** [match.group(n)]: [None] for a group that did not take part. *)
Fixpoint group (cs : list (nat * list ascii)) (n : nat) : option (list ascii) :=
  match cs with
  | [] => None
  | (n', t) :: cs' => if Nat.eqb n n' then Some t else group cs' n
  end.

(** ** Lemmas: the longest match wins when its continuation succeeds *)

Lemma star_loop_chr f p q k cs x fuel :
  forallb f p = true -> match q with c :: _ => f c = false | [] => True end ->
  k {| rest := q; caps := cs |} = Some x ->
  (length p <= fuel)%nat ->
  star_loop (m (Chr f)) k fuel {| rest := p ++ q; caps := cs |} = Some x.
Proof.
  intros Hp Hq Hk. revert fuel; induction p as [|c p IH]; intros fuel Hf; simpl in *.
  - destruct fuel as [|fuel]; simpl; [done|]. destruct q as [|c q]; [done|]. by rewrite Hq.
  - bool_hyps. destruct fuel as [|fuel]; simpl in *; [lia|]. rewrite H.
    rewrite (proj2 (Nat.ltb_lt _ _)) by lia. unfold advance; simpl.
    by rewrite IH by (done || lia).
Qed.

(** A repeated class takes a maximal run of its characters. *)
Lemma m_star_chr f p q k cs x :
  forallb f p = true -> match q with c :: _ => f c = false | [] => True end ->
  k {| rest := q; caps := cs |} = Some x ->
  m (Star (Chr f)) k {| rest := p ++ q; caps := cs |} = Some x.
Proof.
  intros. apply star_loop_chr; [done..|]. simpl. rewrite length_app. lia.
Qed.

Lemma m_plus_chr f p q k cs x :
  p <> [] -> forallb f p = true -> match q with c :: _ => f c = false | [] => True end ->
  k {| rest := q; caps := cs |} = Some x ->
  m (Plus (Chr f)) k {| rest := p ++ q; caps := cs |} = Some x.
Proof.
  intros Hne Hp Hq Hk. destruct p as [|c p]; [done|]. simpl in Hp. bool_hyps.
  cbn [m Plus app rest]. rewrite H. unfold advance; cbn [rest caps]. by apply m_star_chr.
Qed.

(** ** Composition: one lemma per construct at the head of a sequence *)

Lemma take_diff {A} (p q : list A) : take (length (p ++ q) - length q) (p ++ q) = p.
Proof.
  rewrite length_app. replace (length p + length q - length q)%nat with (length p) by lia.
  apply take_app_length.
Qed.

Section seq.
Context (r : regex) (k : mstate -> option mstate) (q : list ascii)
        (cs : list (nat * list ascii)) (x : mstate).

Lemma m_seq_lit c :
  m r k {| rest := q; caps := cs |} = Some x ->
  m (Seq (Lit c) r) k {| rest := c :: q; caps := cs |} = Some x.
Proof. cbn [m Lit rest]. by rewrite Ascii.eqb_refl. Qed.

Lemma m_seq_star f p :
  forallb f p = true -> match q with c :: _ => f c = false | [] => True end ->
  m r k {| rest := q; caps := cs |} = Some x ->
  m (Seq (Star (Chr f)) r) k {| rest := p ++ q; caps := cs |} = Some x.
Proof. intros. by apply m_star_chr. Qed.

(** A class with an empty run is skipped. *)
Lemma m_seq_star_empty f :
  match q with c :: _ => f c = false | [] => True end ->
  m r k {| rest := q; caps := cs |} = Some x ->
  m (Seq (Star (Chr f)) r) k {| rest := q; caps := cs |} = Some x.
Proof. intros. by apply (m_star_chr f []). Qed.

(** A group records exactly the text its expression consumed. *)
Lemma m_seq_group n a p :
  (forall k', k' {| rest := q; caps := cs |} = Some x ->
              m a k' {| rest := p ++ q; caps := cs |} = Some x) ->
  m r k {| rest := q; caps := (n, p) :: cs |} = Some x ->
  m (Seq (Group n a) r) k {| rest := p ++ q; caps := cs |} = Some x.
Proof. intros Ha Hk. cbn [m]. apply Ha. cbn [rest caps]. by rewrite take_diff. Qed.
End seq.

(** An identifier: one first character and a maximal run of the others. *)
Lemma m_name f g c p q cs k x :
  f c = true -> forallb g p = true -> match q with d :: _ => g d = false | [] => True end ->
  k {| rest := q; caps := cs |} = Some x ->
  m (Seq (Chr f) (Star (Chr g))) k {| rest := (c :: p) ++ q; caps := cs |} = Some x.
Proof.
  intros Hc Hp Hq Hk. cbn [m rest app]. rewrite Hc. by apply m_star_chr.
Qed.
