(* ===== verification/VllmEvents.v ===== *)
(** * The native vLLM KV-event adapter and subscriber (engine_events/vllm.py)

    [VLLMEventAdapter] turns sequence-numbered MessagePack batches into gateway
    cache events and remembers, in memory and in a checkpoint file, the last batch
    it committed.  [VLLMSubscriber] delivers live and replayed batches in order:
    every event of a batch is posted before the batch is committed.

    MessagePack decoding ([msgspec]) is a parameter.  The checkpoint file is
    modelled by the documents written to it, oldest first; a JSON text and its
    document tree are identified.  Every [POST] consumes one reply of an arbitrary
    script, and every replay session and live message is an arbitrary input. *)

From S2P Require Import Prelude PyFloat FloatOrder PyStr PyVal.

(** ** Time stamps: [_rfc3339] *)

(** The proleptic Gregorian date of a day count since 1970-01-01. *)
Definition civil_of_days (days : Z) : Z * Z * Z :=
  let z := days + 719468 in
  let era := z / 146097 in
  let doe := z - era * 146097 in
  let yoe := (doe - doe / 1460 + doe / 36524 - doe / 146096) / 365 in
  let doy := doe - (365 * yoe + yoe / 4 - yoe / 100) in
  let mp := (5 * doy + 2) / 153 in
  let d := doy - (153 * mp + 2) / 5 + 1 in
  let m := if mp <? 10 then mp + 3 else mp - 9 in
  (yoe + era * 400 + (if m <=? 2 then 1 else 0), m, d).

(** [time.strftime("%Y-%m-%dT%H:%M:%S", time.gmtime(t))] *)
Definition gmtime_text (t : float) : res string :=
  secs <-! math_floor t ;;
  raise_if (secs <? - 2 ^ 63) || (2 ^ 63 <=? secs) with OverflowError ;;
  let '(y, m, d) := civil_of_days (secs / 86400) in
  raise_if 2 ^ 31 <=? y - 1900 with OSError ;;
  let sod := secs mod 86400 in
  let two z := pad_left 2 (str_of_Z z) in
  Ok (str_of_Z y +:+ "-" +:+ two m +:+ "-" +:+ two d +:+ "T" +:+
      two (sod / 3600) +:+ ":" +:+ two (sod / 60 mod 60) +:+ ":" +:+ two (sod mod 60)).

Definition _rfc3339 (timestamp : float) : res string :=
  seconds <-! gmtime_text timestamp ;;
  whole <-! int_of_float timestamp ;;
  whole_f <-! float_of_int whole ;;
  milliseconds <-! int_of_float ((timestamp ⊖ whole_f) ⊗ of_Z 1000) ;;
  Ok (seconds +:+ "." +:+ pad_left 3 (str_of_Z milliseconds) +:+ "Z").

Example rfc3339_known : _rfc3339 (dec 17672256005 (-1)) = Ok "2026-01-01T00:00:00.500Z"%string.
Proof. vm_compute. reflexivity. Qed.

(** ** Data *)

Record Event := {
  operation : string;
  ev_backend_id : string;
  cache_key : string;
  matched_tokens : Z;
  total_tokens : Z;
  ev_sequence : Z;
  has_sequence : bool;
  ev_generation : string;
  engine_event_id : string;
  observed_at : string;
  quality : string
}.

Record PreparedBatch := {
  sequence : Z;
  timestamp : float;
  pb_generation : string;
  events : list Event;
  duplicate : bool
}.

Record VLLMEventAdapter := {
  backend_id : string;
  configured_generation : string;
  generation : string;
  last_sequence : option Z;
  last_timestamp : float
}.

(** The checkpoint file: absent, not JSON, or a document. *)
Inductive file := Absent | Corrupt | Document (v : val).

(** ** The adapter *)

Definition _cache_key (value : val) : res string :=
  encoded <-!
    match value with
    | VBytes b => Ok (hex b)
    | VInt z => if 0 <=? z then Ok (str_of_Z z)
                else Err (ValueError "vLLM block hash must be bytes or a non-negative integer")
    | VBool b => Ok (bool_name b)   (* bool is a subclass of int *)
    | _ => Err (ValueError "vLLM block hash must be bytes or a non-negative integer")
    end ;;
  Ok ("vllm:block:" +:+ encoded).

Definition _load_checkpoint (self : VLLMEventAdapter) (f : file) : res VLLMEventAdapter :=
  match f with
  | Absent => Ok self
  | Corrupt => Err (ValueError "invalid JSON")
  | Document value =>
      b <-! vget value "backend_id" VNone ;;
      g <-! vget value "generation" VNone ;;
      cg <-! vget value "configured_generation" g ;;
      if negb (is_vstr b (backend_id self)) || negb (is_vstr cg (configured_generation self))
      then Ok self
      else
        gen <-! vget value "generation" (VStr (configured_generation self)) ;;
        ls <-! vitem value "last_sequence" ;;
        ls <-! int_of_val ls ;;
        lt <-! vget value "last_timestamp" (VInt 0) ;;
        lt <-! float_of_val lt ;;
        Ok {| backend_id := backend_id self;
              configured_generation := configured_generation self;
              generation := py_str gen;
              last_sequence := Some ls;
              last_timestamp := lt |}
  end.

Definition VLLMEventAdapter_init (bid gen : string) (f : file) : res VLLMEventAdapter :=
  raise_if String.eqb bid "" || String.eqb gen "" with
    ValueError "backend_id and generation are required" ;;
  _load_checkpoint
    {| backend_id := bid; configured_generation := gen; generation := gen;
       last_sequence := None; last_timestamp := f0 |} f.

(** The document [_save_checkpoint] writes. *)
Definition checkpoint_document (self : VLLMEventAdapter) : val :=
  VDict [("backend_id", VStr (backend_id self));
         ("configured_generation", VStr (configured_generation self));
         ("generation", VStr (generation self));
         ("last_sequence", match last_sequence self with Some z => VInt z | None => VNone end);
         ("last_timestamp", VFloat (last_timestamp self))].

Definition _save_checkpoint (self : VLLMEventAdapter) : file := Document (checkpoint_document self).

Definition _event (self : VLLMEventAdapter) (op : string) (seq : Z) (gen : string)
    (event_index : Z) (ts : float) (key : string) (matched total : Z) : res Event :=
  at_ <-! _rfc3339 ts ;;
  Ok {| operation := op;
        ev_backend_id := backend_id self;
        cache_key := key;
        matched_tokens := matched;
        total_tokens := total;
        ev_sequence := seq;
        has_sequence := true;
        ev_generation := gen;
        engine_event_id := gen +:+ ":" +:+ str_of_Z seq +:+ ":" +:+ str_of_Z event_index;
        observed_at := at_;
        quality := "fresh" |}.

(** [enumerate(l, start=n)] *)
Fixpoint enumerate {A} (n : Z) (l : list A) : list (Z * A) :=
  match l with [] => [] | x :: l' => (n, x) :: enumerate (n + 1) l' end.

(** The body of the event loop of [prepare], for one raw event. *)
Definition prepare_event (self : VLLMEventAdapter) (seq : Z) (gen : string) (ts : float)
    (indexed : Z * val) : res (list Event) :=
  let '(event_index, raw_event) := indexed in
  match raw_event with
  | VList (event_type :: args) =>
      if is_vstr event_type "BlockStored" then
        match args with
        | VList hashes :: _ :: _ :: bs :: _ =>
            block_size <-! int_of_val bs ;;
            raise_if block_size <=? 0 with ValueError "BlockStored block_size must be positive" ;;
            res_map (fun '(block_index, block_hash) =>
                key <-! _cache_key block_hash ;;
                _event self "store" seq gen (event_index * 1000000 + block_index) ts
                  key block_size block_size)
              (enumerate 0 hashes)
        | _ => Err (ValueError "invalid BlockStored event")
        end
      else if is_vstr event_type "BlockRemoved" then
        match args with
        | VList hashes :: _ =>
            res_map (fun '(block_index, block_hash) =>
                key <-! _cache_key block_hash ;;
                _event self "remove" seq gen (event_index * 1000000 + block_index) ts key 0 0)
              (enumerate 0 hashes)
        | _ => Err (ValueError "invalid BlockRemoved event")
        end
      else if is_vstr event_type "AllBlocksCleared" then
        e <-! _event self "clear" seq gen (event_index * 1000000) ts "" 0 0 ;;
        Ok [e]
      else Err (ValueError ("unsupported vLLM KV event type " +:+ py_repr event_type))
  | _ => Err (ValueError "invalid vLLM KV event")
  end.

Section adapter.
(** [msgspec.msgpack.decode]; its [DecodeError] is a [ValueError]. *)
Context (msgpack_decode : string -> res val).

Definition prepare (self : VLLMEventAdapter) (seq : Z) (payload : string) : res PreparedBatch :=
  batch <-! msgpack_decode payload ;;
  match batch with
  | VList (b0 :: VList raw_events :: _) =>
      ts <-! float_of_val b0 ;;
      raise_if negb ((0 <=? seq) && (seq <? 2 ^ 64)) || negb (f0 <=?. ts) with
        ValueError "invalid vLLM sequence or timestamp" ;;
      let restart :=
        match last_sequence self with
        | Some _ => (seq =? 0) && (last_timestamp self <?. ts)
        | None => false
        end in
      let build gen (first : list Event) :=
        evs <-! res_map (prepare_event self seq gen ts) (enumerate 1 raw_events) ;;
        Ok {| sequence := seq; timestamp := ts; pb_generation := gen;
              events := first ++ mjoin evs; duplicate := false |} in
      if restart then
        millis <-! int_of_float (ts ⊗ of_Z 1000) ;;
        let gen := "auto-" +:+ str_of_Z millis in
        clear <-! _event self "clear" seq gen 0 ts "" 0 0 ;;
        build gen [clear]
      else
        match last_sequence self with
        | Some last =>
            if seq <=? last then
              Ok {| sequence := seq; timestamp := ts; pb_generation := generation self;
                    events := []; duplicate := true |}
            else if negb (seq =? last + 1) then Err (SequenceGap (last + 1) seq)
            else build (generation self) []
        | None => build (generation self) []
        end
  | _ => Err (ValueError "invalid vLLM KV EventBatch payload")
  end.

(** [commit]: the new adapter and, when it writes, the new checkpoint. *)
Definition commit (self : VLLMEventAdapter) (p : PreparedBatch) : VLLMEventAdapter * option file :=
  if duplicate p then (self, None)
  else
    let self' := {| backend_id := backend_id self;
                    configured_generation := configured_generation self;
                    generation := pb_generation p;
                    last_sequence := Some (sequence p);
                    last_timestamp := timestamp p |} in
    (self', Some (_save_checkpoint self')).

Definition process (self : VLLMEventAdapter) (seq : Z) (payload : string)
  : res (list Event * (VLLMEventAdapter * option file)) :=
  prepared <-! prepare self seq payload ;;
  Ok (events prepared, commit self prepared).
End adapter.

(** ** The subscriber *)

(** What the gateway does with one [POST]: accept it, refuse it, or accept it and
    lose the response. *)
Inductive reply := Accepted | Refused | LostReply.

(** One multipart receive: frames, or the receive timeout of the socket. *)
Inductive recv := Frames (l : list string) | RecvTimeout.

Record VLLMSubscriber := {
  adapter : VLLMEventAdapter;
  writes : list val;            (* checkpoint documents written, oldest first *)
  gateway_log : list Event;     (* events the gateway accepted, oldest first *)
  replies : list reply;         (* replies to come; [Accepted] when exhausted *)
  replays : list (list recv)    (* replay sessions to come *)
}.

Definition with_adapter (s : VLLMSubscriber) (a : VLLMEventAdapter) (w : list val) : VLLMSubscriber :=
  {| adapter := a; writes := w; gateway_log := gateway_log s;
     replies := replies s; replays := replays s |}.

(** [_post]: the event reaches the log unless refused; anything but an accepted
    reply raises. *)
Definition _post (s : VLLMSubscriber) (e : Event) : res unit * VLLMSubscriber :=
  let r := default Accepted (head (replies s)) in
  (match r with Accepted => Ok tt | _ => Err HTTPError end,
   {| adapter := adapter s; writes := writes s;
      gateway_log := match r with Refused => gateway_log s | _ => gateway_log s ++ [e] end;
      replies := tail (replies s); replays := replays s |}).

Fixpoint post_all (s : VLLMSubscriber) (l : list Event) : res unit * VLLMSubscriber :=
  match l with
  | [] => (Ok tt, s)
  | e :: l' =>
      match _post s e with
      | (Ok _, s') => post_all s' l'
      | (Err x, s') => (Err x, s')
      end
  end.

(** [int.from_bytes(b, "big", signed=...)] *)
Definition from_bytes (signed : bool) (b : string) : Z :=
  let u := foldl (fun a c => 256 * a + code c) 0 (chars b) in
  let n := Z.of_nat (String.length b) in
  if signed && (2 ^ (8 * n - 1) <=? u) then u - 2 ^ (8 * n) else u.

Section subscriber.
Context (msgpack_decode : string -> res val).
(** Constructor arguments: [topic] and whether a replay endpoint is configured. *)
Context (topic : string) (has_replay_endpoint : bool).

Definition _deliver (s : VLLMSubscriber) (seq : Z) (payload : string) : res unit * VLLMSubscriber :=
  match prepare msgpack_decode (adapter s) seq payload with
  | Err e => (Err e, s)
  | Ok prepared =>
      match post_all s (events prepared) with
      | (Err e, s') => (Err e, s')
      | (Ok _, s') =>
          let '(a, w) := commit (adapter s') prepared in
          (Ok tt, with_adapter s' a
                    (match w with Some (Document d) => writes s' ++ [d] | _ => writes s' end))
      end
  end.

(** The receive loop of [_replay]; the script of frames ends in a timeout. *)
Fixpoint replay_loop (start_sequence : Z) (first_sequence : option Z)
    (frames : list recv) (s : VLLMSubscriber) : res unit * VLLMSubscriber :=
  match frames with
  | [] | RecvTimeout :: _ => (Err ZMQError, s)
  | Frames [e; n; payload] :: rest =>
      if negb (String.eqb e "") || negb (Nat.eqb (String.length n) 8)
      then (Err (RuntimeError "invalid vLLM replay response"), s)
      else
        let seq := from_bytes true n in
        if seq =? -1 then (Ok tt, s)
        else if match first_sequence with None => start_sequence <? seq | Some _ => false end
        then (Err (RuntimeError "vLLM replay buffer starts after the requested sequence"), s)
        else match _deliver s seq payload with
             | (Err x, s') => (Err x, s')
             | (Ok _, s') =>
                 replay_loop start_sequence
                   (Some (match first_sequence with None => seq | Some f => f end)) rest s'
             end
  | Frames _ :: _ => (Err (RuntimeError "invalid vLLM replay response"), s)
  end.

Definition _replay (s : VLLMSubscriber) (start_sequence : Z) : res unit * VLLMSubscriber :=
  if negb has_replay_endpoint
  then (Err (RuntimeError "sequence gap detected but replay_endpoint is not configured"), s)
  else if negb ((0 <=? start_sequence) && (start_sequence <? 2 ^ 64))
  then (Err OverflowError, s)   (* start_sequence.to_bytes(8, "big") *)
  else
    replay_loop start_sequence None (default [] (head (replays s)))
      {| adapter := adapter s; writes := writes s; gateway_log := gateway_log s;
         replies := replies s; replays := tail (replays s) |}.

(** One iteration of the live loop of [run]. *)
Definition run_step (s : VLLMSubscriber) (m : list string) : res unit * VLLMSubscriber :=
  match m with
  | [t; n; payload] =>
      if negb (String.eqb t topic) || negb (Nat.eqb (String.length n) 8) then (Ok tt, s)
      else
        let seq := from_bytes false n in
        match _deliver s seq payload with
        | (Err (SequenceGap expected _), s') =>
            match _replay s' expected with
            | (Ok _, s'') => _deliver s'' seq payload
            | r => r
            end
        | r => r
        end
  | _ => (Ok tt, s)
  end.

Fixpoint run_loop (s : VLLMSubscriber) (live : list (list string)) : res unit * VLLMSubscriber :=
  match live with
  | [] => (Ok tt, s)
  | m :: rest =>
      match run_step s m with
      | (Ok _, s') => run_loop s' rest
      | r => r
      end
  end.

(** [run], over the live messages received so far. *)
Definition run (s : VLLMSubscriber) (live : list (list string)) : res unit * VLLMSubscriber :=
  if negb has_replay_endpoint
  then (Err (RuntimeError "replay_endpoint is required for strict native KV evidence"), s)
  else
    match _replay s (match last_sequence (adapter s) with None => 0 | Some n => n + 1 end) with
    | (Ok _, s') => run_loop s' live
    | r => r
    end.
End subscriber.
