(* ===== verification/VllmEventsFacts.v ===== *)
(** * Correctness of the KV-event adapter and subscriber

    The contract: batches are committed in sequence, without gaps, each one after
    all its events were accepted by the gateway, and the checkpoint file always
    resumes exactly where the process stopped. *)

From S2P Require Import Prelude PyFloat FloatOrder PyStr PyVal VllmEvents.

(** ** Specification *)

Definition wf (a : VLLMEventAdapter) : Prop :=
  backend_id a <> "" /\ configured_generation a <> "".

(** The batches an adapter may commit next: the first one after start, the
    successor in the same generation, or batch 0 of a restarted engine. *)
Definition successor (a : VLLMEventAdapter) (p : PreparedBatch) : Prop :=
  0 <= sequence p < 2 ^ 64 /\ duplicate p = false /\
  match last_sequence a with
  | None => pb_generation p = generation a
  | Some n =>
      sequence p = n + 1 /\ pb_generation p = generation a \/
      sequence p = 0 /\ fltb (last_timestamp a) (timestamp p) = true
  end.

(** [commits a ps ds a']: committing [ps] in order leads from [a] to [a'] and
    writes the checkpoint documents [ds]. *)
Inductive commits : VLLMEventAdapter -> list PreparedBatch -> list val -> VLLMEventAdapter -> Prop :=
| commits_nil a : commits a [] [] a
| commits_cons a p a1 ps ds a' :
    successor a p ->
    (commit a p).1 = a1 ->
    commits a1 ps ds a' ->
    commits a (p :: ps) (checkpoint_document a1 :: ds) a'.

(** What one run of the subscriber may do, with result [r]. *)
Definition delivered (s : VLLMSubscriber) (r : res unit) (s' : VLLMSubscriber) : Prop :=
  exists ps ds partial,
    commits (adapter s) ps ds (adapter s') /\
    writes s' = writes s ++ ds /\
    gateway_log s' = gateway_log s ++ mjoin (map events ps) ++ partial /\
    (is_ok r = true -> partial = []).

(** The file on disk: the last document written, else what was there at start. *)
Definition current_file (start : file) (s : VLLMSubscriber) : file :=
  match last (writes s) with Some d => Document d | None => start end.

(** ** The checkpoint *)

Lemma load_save_checkpoint a b n :
  backend_id b = backend_id a -> configured_generation b = configured_generation a ->
  last_sequence a = Some n ->
  _load_checkpoint b (_save_checkpoint a) = Ok a.
Proof.
  destruct a as [bid cg g ls lt], b as [bid' cg' ? ? ?]; simpl. intros -> -> ->.
  unfold _load_checkpoint, _save_checkpoint, checkpoint_document, is_vstr. simpl.
  by rewrite !String.eqb_refl.
Qed.

Lemma init_wf bid gen f a : VLLMEventAdapter_init bid gen f = Ok a ->
  wf a /\ backend_id a = bid /\ configured_generation a = gen.
Proof.
  unfold VLLMEventAdapter_init, _load_checkpoint, wf. intros H. inv_ok H. bool_hyps.
  destruct f as [| |v]; [by injection H as <-|done|].
  inv_ok H. case_match; inv_ok H; by subst.
Qed.

(** ** [prepare] and [commit] *)

Lemma event_fields a op seq gen i ts key m t e :
  _event a op seq gen i ts key m t = Ok e ->
  operation e = op /\ ev_backend_id e = backend_id a /\ ev_sequence e = seq /\
  ev_generation e = gen /\ cache_key e = key /\
  engine_event_id e = gen +:+ ":" +:+ str_of_Z seq +:+ ":" +:+ str_of_Z i.
Proof. unfold _event. intros H. inv_ok H. by subst. Qed.

Section prepare_facts.
Context (decode : string -> res val).

Lemma prepare_successor a seq payload p :
  prepare decode a seq payload = Ok p -> duplicate p = false ->
  successor a p /\ sequence p = seq.
Proof.
  unfold prepare, successor. intros H Hdup. inv_ok H.
  repeat (case_match; try done; []). simplify_eq.
  inv_ok H. bool_hyps. destruct (last_sequence a) as [n|] eqn:El.
  - destruct ((seq =? 0) && fltb _ _) eqn:Er.
    + bool_hyps. inv_ok H. subst p; simpl. repeat split; try lia. right. subst. done.
    + case_match; [by injection H as <-|]. case_match; [done|].
      inv_ok H. subst p; simpl in *. bool_hyps. repeat split; try lia. by left.
  - inv_ok H. subst p; simpl. repeat split; lia.
Qed.

Lemma prepare_duplicate a seq payload p :
  prepare decode a seq payload = Ok p -> duplicate p = true ->
  events p = [] /\ exists n, last_sequence a = Some n /\ seq <= n.
Proof.
  unfold prepare. intros H Hdup. inv_ok H.
  repeat (case_match; try done; []). simplify_eq.
  inv_ok H. bool_hyps. destruct (last_sequence a) as [n|] eqn:El.
  - destruct ((seq =? 0) && fltb _ _); [inv_ok H; by subst|].
    case_match; [injection H as <-; bool_hyps; eauto|].
    case_match; [done|]. inv_ok H. by subst.
  - inv_ok H. by subst.
Qed.
End prepare_facts.

(** ** Posting a batch *)

Lemma post_all_spec s l :
  match post_all s l with
  | (Ok _, s') => gateway_log s' = gateway_log s ++ l /\ adapter s' = adapter s /\ writes s' = writes s
  | (Err e, s') =>
      e = HTTPError /\ adapter s' = adapter s /\ writes s' = writes s /\
      exists l', l' `prefix_of` l /\ gateway_log s' = gateway_log s ++ l'
  end.
Proof.
  revert s; induction l as [|e l IH]; intros s; simpl; [by rewrite app_nil_r|].
  unfold _post. destruct (default Accepted (head (replies s))).
  - match goal with |- context [post_all ?s1 l] => specialize (IH s1) end.
    destruct (post_all _ l) as [[|e'] s']; simpl in *.
    + destruct IH as (-> & -> & ->). by rewrite <- app_assoc.
    + destruct IH as (-> & -> & -> & l' & Hpre & ->). repeat split; [done..|].
      exists (e :: l'). rewrite <- app_assoc. split; [by apply prefix_cons|done].
  - simpl. repeat split. exists []. rewrite app_nil_r. split; [apply prefix_nil|done].
  - simpl. repeat split. exists [e]. split; [apply (prefix_cons_alt e e [] l); [done|apply prefix_nil]|done].
Qed.

(** ** Composition of deliveries *)

Lemma commits_app a ps ds b ps' ds' c :
  commits a ps ds b -> commits b ps' ds' c -> commits a (ps ++ ps') (ds ++ ds') c.
Proof. induction 1; simpl; [done|]. intros. econstructor; eauto. Qed.

Lemma delivered_refl s r : delivered s r s.
Proof. exists [], [], []. rewrite !app_nil_r. repeat split. constructor. Qed.

Lemma delivered_trans s s1 s2 r :
  delivered s (Ok tt) s1 -> delivered s1 r s2 -> delivered s r s2.
Proof.
  intros (ps & ds & pa & Hc & Hw & Hl & Hpa) (ps' & ds' & pa' & Hc' & Hw' & Hl' & Hpa').
  exists (ps ++ ps'), (ds ++ ds'), pa'. rewrite (Hpa eq_refl), app_nil_r in Hl.
  repeat split.
  - by eapply commits_app.
  - by rewrite Hw', Hw, app_assoc.
  - by rewrite Hl', Hl, map_app, join_app, !app_assoc.
  - done.
Qed.

(** States that differ in the scripts only. *)
Lemma delivered_same s s0 r s' :
  adapter s0 = adapter s -> writes s0 = writes s -> gateway_log s0 = gateway_log s ->
  delivered s0 r s' -> delivered s r s'.
Proof. unfold delivered. by intros -> -> ->. Qed.

Lemma backend_id_commit a p : backend_id (commit a p).1 = backend_id a /\
  configured_generation (commit a p).1 = configured_generation a.
Proof. unfold commit. by destruct (duplicate p). Qed.

Section deliver_facts.
Context (decode : string -> res val) (topic : string) (has_replay_endpoint : bool).

Lemma deliver_spec s seq payload :
  match _deliver decode s seq payload with
  | (Ok _, s') =>
      exists p, prepare decode (adapter s) seq payload = Ok p /\
        gateway_log s' = gateway_log s ++ events p /\
        adapter s' = (commit (adapter s) p).1 /\
        (duplicate p = true /\ writes s' = writes s \/
         duplicate p = false /\ writes s' = writes s ++ [checkpoint_document (adapter s')])
  | (Err e, s') =>
      adapter s' = adapter s /\ writes s' = writes s /\
      (prepare decode (adapter s) seq payload = Err e /\ s' = s \/
       e = HTTPError /\ exists p l', prepare decode (adapter s) seq payload = Ok p /\
         l' `prefix_of` events p /\ gateway_log s' = gateway_log s ++ l')
  end.
Proof.
  unfold _deliver. destruct (prepare _ _ _ _) as [p|e] eqn:Ep; [|by repeat split; [left..]].
  pose proof (post_all_spec s (events p)) as H.
  destruct (post_all s (events p)) as [[u|e] s1].
  - destruct H as (Hl & Ha & Hw). unfold commit. rewrite Ha.
    destruct (duplicate p) eqn:Ed; simpl; exists p; rewrite Ed; repeat split; auto.
    right. by rewrite Hw.
  - destruct H as (-> & Ha & Hw & l' & Hpre & Hl). repeat split; [done..|].
    right. split; [done|]. by exists p, l'.
Qed.

Lemma deliver_delivered s seq payload r s' :
  _deliver decode s seq payload = (r, s') -> delivered s r s'.
Proof.
  intros H. pose proof (deliver_spec s seq payload) as Hs. rewrite H in Hs.
  destruct r as [u|e].
  - destruct Hs as (p & Hp & Hl & Ha & [[Hd Hw]|[Hd Hw]]).
    + exists [], [], []. rewrite Hl, Hw, Ha, !app_nil_r.
      destruct (prepare_duplicate _ _ _ _ _ Hp Hd) as [-> _]. rewrite app_nil_r.
      unfold commit. rewrite Hd. repeat split. constructor.
    + exists [p], [checkpoint_document (adapter s')], []. rewrite Hl, Hw. simpl.
      rewrite !app_nil_r. repeat split. rewrite Ha. econstructor; [|done|constructor].
      by eapply prepare_successor.
  - destruct Hs as (Ha & Hw & [[_ ->]|(_ & p & l' & _ & _ & Hl)]); [apply delivered_refl|].
    exists [], [], l'. rewrite Ha, Hw, Hl, app_nil_r. repeat split; [constructor|done].
Qed.

Lemma replay_loop_delivered start frames first s r s' :
  replay_loop decode start first frames s = (r, s') -> delivered s r s'.
Proof.
  revert first s; induction frames as [|fr frames IH]; intros first s H; simpl in H.
  - injection H as <- <-. apply delivered_refl.
  - destruct fr as [[|e [|n [|payload [|]]]]|];
      try (injection H as <- <-; apply delivered_refl).
    do 3 (case_match; [injection H as <- <-; apply delivered_refl|]).
    destruct (_deliver decode s _ _) as [[u|x] s1] eqn:Ed; apply deliver_delivered in Ed.
    + destruct u. eapply delivered_trans; [done|by eapply IH].
    + by injection H as <- <-.
Qed.

Lemma replay_delivered start s r s' :
  _replay decode has_replay_endpoint s start = (r, s') -> delivered s r s'.
Proof.
  unfold _replay. intros H.
  do 2 (case_match; [injection H as <- <-; apply delivered_refl|]).
  apply replay_loop_delivered in H. by eapply delivered_same; [..|exact H].
Qed.

(** A sequence gap is detected before anything is posted. *)
Lemma deliver_gap s seq payload e g s' :
  _deliver decode s seq payload = (Err (SequenceGap e g), s') -> s' = s.
Proof.
  intros H. pose proof (deliver_spec s seq payload) as Hs. rewrite H in Hs.
  by destruct Hs as (_ & _ & [[_ ->]|[? _]]).
Qed.

Lemma run_step_delivered s m r s' :
  run_step decode topic has_replay_endpoint s m = (r, s') -> delivered s r s'.
Proof.
  unfold run_step. intros H.
  destruct m as [|t [|n [|payload [|]]]]; try (injection H as <- <-; apply delivered_refl).
  case_match; [injection H as <- <-; apply delivered_refl|].
  destruct (_deliver decode s _ _) as [[u|e] s1] eqn:Ed.
  { injection H as <- <-. by eapply deliver_delivered. }
  destruct e; try (injection H as <- <-; by eapply deliver_delivered).
  apply deliver_gap in Ed as ->.
  destruct (_replay _ _ _ _) as [[u|e] s2] eqn:Er; apply replay_delivered in Er.
  - destruct u. eapply delivered_trans; [done|by eapply deliver_delivered].
  - by injection H as <- <-.
Qed.

Lemma run_loop_delivered s live r s' :
  run_loop decode topic has_replay_endpoint s live = (r, s') -> delivered s r s'.
Proof.
  revert s; induction live as [|m live IH]; intros s H; simpl in H.
  - injection H as <- <-. apply delivered_refl.
  - destruct (run_step _ _ _ _ _) as [[u|e] s1] eqn:Es; apply run_step_delivered in Es.
    + destruct u. eapply delivered_trans; [done|by eapply IH].
    + by injection H as <- <-.
Qed.

Lemma run_delivered s live r s' :
  run decode topic has_replay_endpoint s live = (r, s') -> delivered s r s'.
Proof.
  unfold run. case_match; [intros [= <- <-]; apply delivered_refl|].
  destruct (_replay _ _ _ _) as [[u|e] s1] eqn:Er; apply replay_delivered in Er; intros H0.
  - destruct u. eapply delivered_trans; [done|by eapply run_loop_delivered].
  - by injection H0 as <- <-.
Qed.
End deliver_facts.


(** ** Crash consistency *)

Lemma commits_disk a ps ds a' :
  commits a ps ds a' ->
  backend_id a' = backend_id a /\ configured_generation a' = configured_generation a /\
  (ds = [] /\ a' = a \/
   last ds = Some (checkpoint_document a') /\ is_Some (last_sequence a')).
Proof.
  induction 1 as [a|a p a1 ps ds a' [_ [Hd _]] <- Hc (Hb & Hg & IH)]; [by auto|].
  destruct (backend_id_commit a p) as [Hb' Hg'].
  repeat split; [congruence..|]. right.
  destruct IH as [[-> ->]|[IH ?]]; [|by rewrite last_cons, IH].
  split; [done|]. unfold commit. rewrite Hd. simpl. eauto.
Qed.


(** ** Live messages *)

(** No live batch is skipped silently: when an iteration of the live loop
    returns normally on a well-framed message of the topic, the adapter has
    committed a sequence number at least as large as the message's. *)
Theorem run_step_handles decode topic has_replay s n payload s' :
  String.length n = 8%nat ->
  run_step decode topic has_replay s [topic; n; payload] = (Ok tt, s') ->
  exists k, last_sequence (adapter s') = Some k /\ from_bytes false n <= k.
Proof.
  intros Hn H. unfold run_step in H. rewrite String.eqb_refl, Hn in H. simpl in H.
  assert (Hdel : forall s0 s1, _deliver decode s0 (from_bytes false n) payload = (Ok tt, s1) ->
    exists k, last_sequence (adapter s1) = Some k /\ from_bytes false n <= k).
  { intros s0 s1 Hd. pose proof (deliver_spec decode s0 (from_bytes false n) payload) as Hs.
    rewrite Hd in Hs. destruct Hs as (p & Hp & _ & Ha & _). rewrite Ha.
    unfold commit. destruct (duplicate p) eqn:Edup.
    - by destruct (prepare_duplicate _ _ _ _ _ Hp Edup) as [_ (k & ? & ?)]; eauto.
    - destruct (prepare_successor _ _ _ _ _ Hp Edup) as [_ <-]. simpl. eauto with lia. }
  destruct (_deliver decode s _ _) as [[[]|e] s1] eqn:Ed.
  { injection H as <-. by eapply Hdel. }
  destruct e; try discriminate H.
  destruct (_replay _ _ _ _) as [[u|e] s2]; [by eapply Hdel|discriminate H].
Qed.


(** ** The events of a batch *)

Definition event_id (gen : string) (seq k : Z) : string :=
  gen +:+ ":" +:+ str_of_Z seq +:+ ":" +:+ str_of_Z k.

Lemma event_id_inj gen seq k k' : event_id gen seq k = event_id gen seq k' -> k = k'.
Proof. unfold event_id. intros H. do 4 apply append_inj_l in H. by apply str_of_Z_inj. Qed.

(** At most a million block hashes in one raw event. *)
Definition few_blocks (raw : val) : Prop :=
  match raw with
  | VList (_ :: VList hashes :: _) => Z.of_nat (length hashes) <= 1000000
  | _ => True
  end.

(** The events made from one raw event, with their index inside the batch. *)
Definition indexed_events (a : VLLMEventAdapter) (seq : Z) (gen : string)
    (lo hi : Z) (evs : list Event) : Prop :=
  exists ks, map engine_event_id evs = map (event_id gen seq) ks /\ NoDup ks /\
    (forall k, k ∈ ks -> lo <= k < hi) /\
    Forall (fun e => ev_backend_id e = backend_id a /\ ev_sequence e = seq /\
                     ev_generation e = gen) evs.

Lemma elem_of_enumerate {A} (l : list A) n i x :
  (i, x) ∈ enumerate n l -> n <= i < n + Z.of_nat (length l) /\ x ∈ l.
Proof.
  revert n; induction l as [|y l IH]; simpl; intros n H; [set_solver|].
  apply elem_of_cons in H as [[= -> ->]|H]; [split; [lia|by left]|].
  apply IH in H as [? ?]. split; [lia|by right].
Qed.

(** The events of consecutive indices, collected. *)
Lemma indexed_map a seq gen base f n (l : list val) evs :
  (forall i x e, f (i, x) = Ok e ->
     engine_event_id e = event_id gen seq (base + i) /\ ev_backend_id e = backend_id a /\
     ev_sequence e = seq /\ ev_generation e = gen) ->
  res_map f (enumerate n l) = Ok evs ->
  indexed_events a seq gen (base + n) (base + n + Z.of_nat (length l)) evs.
Proof.
  intros Hf. revert n evs; induction l as [|x l IH]; simpl; intros n evs H.
  - injection H as <-. exists []. split_and!; [done|constructor|set_solver|constructor].
  - inv_ok H. subst evs. apply Hf in E as (Hid & Ht).
    destruct (IH _ _ E0) as (ks & Hks & Hnd & Hr & Hall).
    exists (base + n :: ks). simpl. rewrite Hid, Hks. split_and!; [done| | |by constructor].
    + constructor; [|done]. intros Hin. apply Hr in Hin. lia.
    + intros k [-> |Hin]%elem_of_cons; [lia|]. apply Hr in Hin. lia.
Qed.

Lemma indexed_weaken a seq gen lo hi lo' hi' evs :
  indexed_events a seq gen lo hi evs -> lo' <= lo -> hi <= hi' ->
  indexed_events a seq gen lo' hi' evs.
Proof.
  intros (ks & ? & ? & Hr & ?) ? ?. exists ks. split_and!; try done.
  intros k Hk. apply Hr in Hk. lia.
Qed.

Lemma indexed_app a seq gen lo mid hi evs evs' :
  indexed_events a seq gen lo mid evs -> indexed_events a seq gen mid hi evs' ->
  lo <= mid <= hi ->
  indexed_events a seq gen lo hi (evs ++ evs').
Proof.
  intros (ks & Hks & Hnd & Hr & Hall) (ks' & Hks' & Hnd' & Hr' & Hall') Hle.
  exists (ks ++ ks'). rewrite !map_app, Hks, Hks'. split_and!; [done| | |by apply Forall_app].
  - apply NoDup_app. split_and!; [done| |done].
    intros k Hk Hk'. apply Hr in Hk. apply Hr' in Hk'. lia.
  - intros k [H|H]%elem_of_app; [apply Hr in H|apply Hr' in H]; lia.
Qed.

Lemma event_indexed a op seq gen i ts key m t e :
  _event a op seq gen i ts key m t = Ok e ->
  engine_event_id e = event_id gen seq i /\ ev_backend_id e = backend_id a /\
  ev_sequence e = seq /\ ev_generation e = gen.
Proof. intros H. apply event_fields in H. unfold event_id. tauto. Qed.

Lemma prepare_event_indexed a seq gen ts i raw evs :
  prepare_event a seq gen ts (i, raw) = Ok evs -> few_blocks raw ->
  indexed_events a seq gen (i * 1000000) ((i + 1) * 1000000) evs.
Proof.
  unfold prepare_event, few_blocks. intros H Hfew.
  destruct raw as [| | | | | |[|ty args]|]; try discriminate H.
  destruct (is_vstr ty "BlockStored").
  { destruct args as [|[| | | | | |hashes|] [|? [|? [|bs ?]]]]; try discriminate H.
    inv_ok H. apply (indexed_map a seq gen (i * 1000000)) in H.
    - eapply indexed_weaken; [exact H|lia..].
    - intros j x e He. inv_ok He. by apply event_indexed in He. }
  destruct (is_vstr ty "BlockRemoved").
  { destruct args as [|[| | | | | |hashes|] ?]; try discriminate H.
    apply (indexed_map a seq gen (i * 1000000)) in H.
    - eapply indexed_weaken; [exact H|lia..].
    - intros j x e He. inv_ok He. by apply event_indexed in He. }
  destruct (is_vstr ty "AllBlocksCleared"); [|discriminate H].
  inv_ok H. subst evs. apply event_indexed in E as (Hid & Ht).
  exists [i * 1000000]. simpl. rewrite Hid.
  split_and!; [done|apply NoDup_singleton| |by constructor].
  intros k ->%list_elem_of_singleton. lia.
Qed.

Lemma batch_indexed a seq gen ts n raws evs :
  res_map (prepare_event a seq gen ts) (enumerate n raws) = Ok evs ->
  Forall few_blocks raws ->
  indexed_events a seq gen (n * 1000000) ((n + Z.of_nat (length raws)) * 1000000) (mjoin evs).
Proof.
  revert n evs; induction raws as [|raw raws IH]; simpl; intros n evs H Hfew.
  - injection H as <-. exists []. split_and!; [done|constructor|set_solver|constructor].
  - inv_ok H. subst evs. inversion Hfew; subst. simpl.
    eapply (indexed_app _ _ _ _ ((n + 1) * 1000000)); [|..|lia].
    + by eapply prepare_event_indexed.
    + eapply indexed_weaken; [by apply (IH (n + 1))|lia..].
Qed.

(** Batch 0 with a newer time stamp, after some batch was committed. *)
Definition restarts (a : VLLMEventAdapter) (seq : Z) (ts : float) : bool :=
  match last_sequence a with
  | Some _ => (seq =? 0) && fltb (last_timestamp a) ts
  | None => false
  end.

(** The three ways [prepare] returns, with the events it built. *)
Lemma prepare_inv decode a seq payload p :
  prepare decode a seq payload = Ok p ->
  exists b0 raws rest ts,
    decode payload = Ok (VList (b0 :: VList raws :: rest)) /\ float_of_val b0 = Ok ts /\
    sequence p = seq /\ timestamp p = ts /\
    ((exists millis clear evs, restarts a seq ts = true /\
        int_of_float (ts ⊗ of_Z 1000) = Ok millis /\
        pb_generation p = "auto-" +:+ str_of_Z millis /\
        _event a "clear" seq (pb_generation p) 0 ts "" 0 0 = Ok clear /\
        res_map (prepare_event a seq (pb_generation p) ts) (enumerate 1 raws) = Ok evs /\
        events p = clear :: mjoin evs /\ duplicate p = false) \/
     (restarts a seq ts = false /\
        events p = [] /\ pb_generation p = generation a /\ duplicate p = true) \/
     (exists evs, restarts a seq ts = false /\ pb_generation p = generation a /\
        res_map (prepare_event a seq (generation a) ts) (enumerate 1 raws) = Ok evs /\
        events p = mjoin evs /\ duplicate p = false)).
Proof.
  unfold prepare. intros H. inv_ok H.
  destruct a0 as [| | | | | |[|b0 [|[| | | | | |raws|] rest]]|]; try discriminate H.
  inv_ok H. bool_hyps. exists b0, raws, rest, a0. unfold restarts.
  destruct (last_sequence a) as [n|] eqn:El.
  - destruct ((seq =? 0) && fltb _ _) eqn:Er.
    + inv_ok H. subst p; simpl. split_and!; try done. left. repeat eexists; eauto.
    + case_match; [injection H as <-; simpl; split_and!; [done..|by right; left]|].
      case_match; [done|]. inv_ok H. subst p; simpl. split_and!; try done. right; right. eauto 6.
  - inv_ok H. subst p; simpl. split_and!; try done. right; right. eauto 6.
Qed.

(** C20.  Every event of a prepared batch carries the adapter's backend, the batch's
    sequence number and generation, and no two events of the batch share an
    [engine_event_id], as long as no raw event lists more than a million blocks. *)
Theorem prepare_event_ids_unique decode a seq payload p :
  prepare decode a seq payload = Ok p ->
  (forall b0 raws rest, decode payload = Ok (VList (b0 :: VList raws :: rest)) ->
                        Forall few_blocks raws) ->
  NoDup (map engine_event_id (events p)) /\
  Forall (fun e => ev_backend_id e = backend_id a /\ ev_sequence e = seq /\
                   ev_generation e = pb_generation p) (events p).
Proof.
  intros H Hfew.
  destruct (prepare_inv _ _ _ _ _ H) as (b0 & raws & rest & ts & Hdec & _ & _ & _ & Hcase).
  specialize (Hfew _ _ _ Hdec).
  enough (exists lo hi, indexed_events a seq (pb_generation p) lo hi (events p))
    as (lo & hi & ks & -> & Hnd & _ & Hall).
  { split; [|done]. apply NoDup_fmap_2; [|done]. intros k k'. apply event_id_inj. }
  destruct Hcase as [(ms & cl & evs & _ & _ & _ & Hcl & Hm & -> & _)
                    |[(_ & -> & -> & _)|(evs & _ & -> & Hm & -> & _)]].
  - exists 0, ((1 + Z.of_nat (length raws)) * 1000000).
    apply (indexed_app _ _ _ _ 1000000 _ [cl]); [| |lia].
    + apply event_indexed in Hcl as (Hid & Ht). exists [0]. simpl. rewrite Hid.
      split_and!; [done|apply NoDup_singleton| |by constructor].
      intros k ->%list_elem_of_singleton. lia.
    + by eapply batch_indexed in Hm.
  - exists 0, 0, []. split_and!; [done|constructor|set_solver|constructor].
  - exists (1 * 1000000), ((1 + Z.of_nat (length raws)) * 1000000). by eapply batch_indexed in Hm.
Qed.

(** Engine restart: batch 0 with a newer time stamp opens a generation named
    after the time stamp, and its first event clears the old evidence. *)
Theorem prepare_restart decode a n payload p :
  last_sequence a = Some n ->
  prepare decode a 0 payload = Ok p ->
  fltb (last_timestamp a) (timestamp p) = true ->
  duplicate p = false /\
  (exists millis, int_of_float (timestamp p ⊗ of_Z 1000) = Ok millis /\
                  pb_generation p = "auto-" +:+ str_of_Z millis) /\
  exists e evs, events p = e :: evs /\ operation e = "clear" /\
                ev_generation e = pb_generation p /\ ev_sequence e = 0.
Proof.
  intros Hl H Hts.
  destruct (prepare_inv _ _ _ _ _ H) as (b0 & raws & rest & ts & _ & _ & _ & <- & Hcase).
  assert (Hr : restarts a 0 (timestamp p) = true) by (unfold restarts; by rewrite Hl).
  rewrite Hr in Hcase.
  destruct Hcase as [(ms & cl & evs & _ & Hms & Hg & Hcl & _ & Hev & Hdup)|Hcase]; [|naive_solver].
  apply event_fields in Hcl as (Hop & _ & Hsq & Hgen & _).
  split_and!; [done|by eauto|]. exists cl, (mjoin evs). split_and!; congruence.
Qed.

(** ** Functional specification of [prepare] on well-formed vLLM batches *)

Inductive block_hash := HashBytes (b : string) | HashInt (n : N).
Inductive kv_event :=
| BlockStored (hashes : list block_hash) (parent tokens : val) (block_size : positive)
| BlockRemoved (hashes : list block_hash)
| AllBlocksCleared.

(** vLLM's wire format for these events. *)
Definition encode_hash (h : block_hash) : val :=
  match h with HashBytes b => VBytes b | HashInt n => VInt (Z.of_N n) end.
Definition encode_event (e : kv_event) : val :=
  match e with
  | BlockStored hs parent tokens bs =>
      VList [VStr "BlockStored"; VList (map encode_hash hs); parent; tokens; VInt (Zpos bs)]
  | BlockRemoved hs => VList [VStr "BlockRemoved"; VList (map encode_hash hs)]
  | AllBlocksCleared => VList [VStr "AllBlocksCleared"]
  end.

(** The gateway operations an event stands for: operation, key, tokens. *)
Definition hash_key (h : block_hash) : string :=
  "vllm:block:" +:+ match h with HashBytes b => hex b | HashInt n => str_of_Z (Z.of_N n) end.
Definition spec_ops (e : kv_event) : list (string * string * Z) :=
  match e with
  | BlockStored hs _ _ bs => map (fun h => ("store"%string, hash_key h, Zpos bs)) hs
  | BlockRemoved hs => map (fun h => ("remove"%string, hash_key h, 0)) hs
  | AllBlocksCleared => [("clear"%string, ""%string, 0)]
  end.
Definition view (e : Event) : string * string * Z := (operation e, cache_key e, matched_tokens e).
(** The batch is next in line for the adapter. *)
Definition in_order (a : VLLMEventAdapter) (seq : Z) : Prop :=
  0 <= seq < 2 ^ 64 /\ match last_sequence a with None => True | Some n => 0 <= n /\ seq = n + 1 end.

Lemma cache_key_encode h : _cache_key (encode_hash h) = Ok (hash_key h).
Proof.
  destruct h as [b|n]; [done|]. unfold _cache_key, encode_hash. by rewrite (proj2 (Z.leb_le 0 (Z.of_N n))) by lia.
Qed.

Lemma ops_total a seq gen ts at_ base op (tok : Z) hs n :
  _rfc3339 ts = Ok at_ ->
  exists evs,
    res_map (fun '(bi, h) => key <-! _cache_key h ;;
                             _event a op seq gen (base + bi) ts key tok tok)
      (enumerate n (map encode_hash hs)) = Ok evs /\
    map view evs = map (fun h => (op, hash_key h, tok)) hs.
Proof.
  intros Hts. revert n; induction hs as [|h hs IH]; intros n; simpl; [by exists []|].
  rewrite cache_key_encode. unfold _event at 1. rewrite Hts.
  destruct (IH (n + 1)) as (evs & -> & Hv). eexists. split; [done|]. simpl. by rewrite Hv.
Qed.

Lemma prepare_event_total a seq gen ts at_ i e :
  _rfc3339 ts = Ok at_ ->
  exists evs, prepare_event a seq gen ts (i, encode_event e) = Ok evs /\ map view evs = spec_ops e.
Proof.
  intros Hts. destruct e as [hs parent tokens bs|hs|]; simpl.
  - by apply ops_total with (at_ := at_).
  - by apply ops_total with (at_ := at_).
  - unfold _event. rewrite Hts. eexists. by split.
Qed.

Lemma events_total a seq gen ts at_ evs n :
  _rfc3339 ts = Ok at_ ->
  exists out, res_map (prepare_event a seq gen ts) (enumerate n (map encode_event evs)) = Ok out /\
    map view (mjoin out) = mjoin (map spec_ops evs).
Proof.
  intros Hts. revert n; induction evs as [|e evs IH]; intros n; cbn [map enumerate res_map]; [by exists []|].
  destruct (prepare_event_total a seq gen ts at_ n e Hts) as (l & -> & Hl).
  destruct (IH (n + 1)) as (out & -> & Hout).
  eexists. split; [done|]. simpl. by rewrite map_app, Hl, Hout.
Qed.


(** ** Concrete runs *)

(** A decoder for five named payloads: batches 0, 1, 2, one batch of a restarted
    engine, and anything else is not MessagePack. *)
Definition demo_batch (ts : Z) (evs : list kv_event) : res val :=
  Ok (VList [VFloat (of_Z ts); VList (map encode_event evs)]).
Definition demo_decode (payload : string) : res val :=
  if String.eqb payload "p0" then demo_batch 10 [BlockStored [HashBytes "ab"; HashInt 7] VNone (VList []) 16]
  else if String.eqb payload "p1" then demo_batch 11 [BlockRemoved [HashInt 7]]
  else if String.eqb payload "p2" then demo_batch 12 [AllBlocksCleared]
  else if String.eqb payload "r0" then demo_batch 20 [BlockStored [HashInt 9] VNone (VList []) 16]
  else Err (ValueError "DecodeError").
Definition be8 (z : Z) : string := str (replicate 7 (chr 0) ++ [chr z]).
Definition end_of_replay : recv := Frames [""%string; str (replicate 8 (chr 255)); ""%string].
Definition demo_adapter : VLLMEventAdapter :=
  {| backend_id := "gpu-0"; configured_generation := "pod-1"; generation := "pod-1";
     last_sequence := None; last_timestamp := f0 |}.
Definition committed_adapter : VLLMEventAdapter :=
  {| backend_id := "gpu-0"; configured_generation := "pod-1"; generation := "pod-1";
     last_sequence := Some 0; last_timestamp := of_Z 10 |}.
(** The initial replay yields batch 0; the live socket then skips batch 1, which the
    second replay recovers. *)
Definition demo_start (rs : list reply) : VLLMSubscriber :=
  {| adapter := demo_adapter; writes := []; gateway_log := []; replies := rs;
     replays := [[Frames [""%string; be8 0; "p0"%string]; end_of_replay];
                 [Frames [""%string; be8 1; "p1"%string]; end_of_replay]] |}.
Definition demo_live : list (list string) := [["kv"%string; be8 2; "p2"%string]; ["kv"%string; be8 0; "r0"%string]].
Definition demo_run (rs : list reply) : res unit * VLLMSubscriber :=
  run demo_decode "kv" true (demo_start rs) demo_live.

Example demo_log : map view (gateway_log (demo_run []).2) =
  [("store", "vllm:block:6162", 16); ("store", "vllm:block:7", 16); ("remove", "vllm:block:7", 0);
   ("clear", "", 0); ("clear", "", 0); ("store", "vllm:block:9", 16)]%string.
Proof. vm_compute. reflexivity. Qed.



Definition committed_start (rs : list reply) : VLLMSubscriber :=
  {| adapter := committed_adapter; writes := []; gateway_log := []; replies := rs;
     replays := [[Frames [""%string; be8 1; "p1"%string]; end_of_replay]] |}.

Lemma run_step_handles_witness :
  exists k, last_sequence (adapter
     (run_step demo_decode "kv" true (committed_start []) ["kv"%string; be8 2; "p2"%string]).2) = Some k /\
   from_bytes false (be8 2) <= k.
Proof.
  apply (run_step_handles demo_decode "kv" true (committed_start []) (be8 2) "p2");
    vm_compute; reflexivity.
Defined.


Definition demo_prepared (a : VLLMEventAdapter) (seq : Z) (payload : string) : PreparedBatch :=
  match prepare demo_decode a seq payload with
  | Ok p => p
  | Err _ => {| sequence := 0; timestamp := f0; pb_generation := ""; events := []; duplicate := true |}
  end.

Lemma prepare_event_ids_unique_witness :
  NoDup (map engine_event_id (events (demo_prepared demo_adapter 0 "p0"))) /\
  Forall (fun e => ev_backend_id e = "gpu-0"%string /\ ev_sequence e = 0 /\
                   ev_generation e = "pod-1"%string) (events (demo_prepared demo_adapter 0 "p0")).
Proof.
  apply (prepare_event_ids_unique demo_decode demo_adapter 0 "p0"); [vm_compute; reflexivity|].
  intros b0 raws rest H. vm_compute in H. injection H as <- <- <-.
  repeat constructor; vm_compute; discriminate.
Defined.

Lemma prepare_restart_witness :
  duplicate (demo_prepared committed_adapter 0 "r0") = false /\
  (exists millis,
     int_of_float (timestamp (demo_prepared committed_adapter 0 "r0") ⊗ of_Z 1000) = Ok millis /\
     pb_generation (demo_prepared committed_adapter 0 "r0") = "auto-" +:+ str_of_Z millis) /\
  exists e evs, events (demo_prepared committed_adapter 0 "r0") = e :: evs /\
     operation e = "clear"%string /\
     ev_generation e = pb_generation (demo_prepared committed_adapter 0 "r0") /\ ev_sequence e = 0.
Proof.
  apply (prepare_restart demo_decode committed_adapter 0 "r0"); vm_compute; reflexivity.
Defined.

