(* ===== verification/VllmHash.v ===== *)
(** * Request hash alignment with vLLM (engine_events/vllm_hash.py)

    [VLLMBlockHasher.hash_tokens] chains vLLM's own block hash over the full blocks
    of a token list; [TokenizeHashService.resolve] validates a request, asks the
    backend for its tokens and hashes them.  vLLM's hash functions, the tokenize
    endpoint and its JSON reply are parameters. *)

From stdpp Require Import countable.
From S2P Require Import Prelude PyFloat PyStr PyVal.

Record HashResult := {
  cache_keys : list string;
  token_count : Z;
  full_blocks : Z
}.

(** [_validate_supported_request] *)
Definition text_part (part : val) : bool :=
  match part with VDict d => is_vstr (dget_or d "type" VNone) "text" | _ => false end.
Definition supported_message (message : val) : bool :=
  match message with
  | VDict d => match dget_or d "content" VNone with VList parts => forallb text_part parts | _ => true end
  | _ => true
  end.
Definition unsupported_keys : list string := ["cache_salt"; "prompt_embeds"; "lora_request"].
Fixpoint reject_unsupported (request : list (string * val)) (ks : list string) : res unit :=
  match ks with
  | [] => Ok tt
  | k :: ks' =>
      raise_if negb (is_none (dget_or request k VNone)) with
        ValueError (k +:+ " is not supported by exact hash alignment") ;;
      reject_unsupported request ks'
  end.
Definition _validate_supported_request (request : list (string * val)) : res unit :=
  _ <-! reject_unsupported request unsupported_keys ;;
  messages <-! viter (dget_or request "messages" (VList [])) ;;
  raise_if negb (forallb supported_message messages) with
    ValueError "multimodal message content is not supported by exact hash alignment" ;;
  Ok tt.

(** The body sent to [/tokenize]. *)
Definition tokenize_payload (request : list (string * val)) : list (string * val) :=
  omap (fun key => v ← dget request key; Some (key, v)) ["model"; "messages"; "tools"]%string.

Definition valid_token (token : val) : bool :=
  match token with VInt z => 0 <=? z | VBool _ => true | _ => false end.
Definition token_id (token : val) : Z :=
  match token with VInt z => z | VBool b => if b then 1 else 0 | _ => 0 end.

(** The configuration checks of [VLLMBlockHasher.__init__]; the result is the
    environment variable [PYTHONHASHSEED] it leaves behind. *)
Definition VLLMBlockHasher_init (block_size : Z) (python_hash_seed : string)
    (configured_seed : option string) (vllm_installed : bool) : res (option string) :=
  raise_if block_size <=? 0 with ValueError "block_size must be positive" ;;
  raise_if String.eqb python_hash_seed "" with ValueError "python_hash_seed is required" ;;
  raise_if match configured_seed with None => false | Some s => negb (String.eqb s python_hash_seed) end
    with ValueError "PYTHONHASHSEED must match python_hash_seed" ;;
  raise_if negb vllm_installed with RuntimeError "vLLM is required for request hash alignment" ;;
  Ok (Some python_hash_seed).

Section hasher.
(** vLLM: the chained block hash and its external form (bytes or an int). *)
Context {H : Type} (hash_block_tokens : option H -> list Z -> H)
        (maybe_convert_block_hash : H -> val).
Context (block_size : Z).

Definition cache_key_of (h : H) : string :=
  let encoded := match maybe_convert_block_hash h with VBytes b => hex b | v => py_str v end in
  "vllm:block:" +:+ encoded.

(** The loop over [range(full_blocks)], from block [i] on. *)
Fixpoint hash_blocks (token_ids : list Z) (n : nat) (i : nat) (parent : option H) : list string :=
  match n with
  | O => []
  | S n' =>
      let start := Z.to_nat (Z.of_nat i * block_size) in
      let block := take (Z.to_nat block_size) (drop start token_ids) in
      let h := hash_block_tokens parent block in
      cache_key_of h :: hash_blocks token_ids n' (S i) (Some h)
  end.

Definition hash_tokens (token_ids : list Z) : HashResult :=
  let n := Z.of_nat (length token_ids) in
  {| cache_keys := hash_blocks token_ids (Z.to_nat (n / block_size)) 0 None;
     token_count := n;
     full_blocks := n / block_size |}.

(** The tokenize endpoint: request body to JSON reply, or an HTTP error. *)
Context (tokenize : list (string * val) -> res val).

Definition resolve (request : list (string * val)) : res HashResult :=
  _ <-! _validate_supported_request request ;;
  body <-! tokenize (tokenize_payload request) ;;
  tokens <-! vget body "tokens" VNone ;;
  match tokens with
  | VList l =>
      raise_if negb (forallb valid_token l) with
        ValueError "vLLM /tokenize returned invalid token IDs" ;;
      Ok (hash_tokens (map token_id l))
  | _ => Err (ValueError "vLLM /tokenize returned invalid token IDs")
  end.

(** The [/v1/cache-keys] handler: HTTP, value and runtime errors become a 502,
    any other exception escapes. *)
Inductive response := Body (r : HashResult) | Status502 (e : exn).
Definition cache_keys_handler (request : list (string * val)) : res response :=
  match resolve request with
  | Ok r => Ok (Body r)
  | Err (ValueError m) => Ok (Status502 (ValueError m))
  | Err (RuntimeError m) => Ok (Status502 (RuntimeError m))
  | Err HTTPError => Ok (Status502 HTTPError)
  | Err e => Err e
  end.

(** ** Theorems *)

(** The blocks a request is hashed over, and the chained hashes. *)
Fixpoint blocks (n : nat) (l : list Z) : list (list Z) :=
  match n with
  | O => []
  | S n' => take (Z.to_nat block_size) l :: blocks n' (drop (Z.to_nat block_size) l)
  end.
Fixpoint chain (parent : option H) (bs : list (list Z)) : list H :=
  match bs with
  | [] => []
  | b :: bs' => let h := hash_block_tokens parent b in h :: chain (Some h) bs'
  end.

Lemma hash_blocks_chain l n i parent :
  0 < block_size ->
  hash_blocks l n i parent =
  map cache_key_of (chain parent (blocks n (drop (Z.to_nat (Z.of_nat i * block_size)) l))).
Proof.
  intros Hbs. revert i parent; induction n as [|n IH]; intros i parent; simpl; [done|].
  f_equal. rewrite IH, drop_drop. do 3 f_equal. f_equal. lia.
Qed.

Lemma hash_tokens_chain l :
  0 < block_size ->
  cache_keys (hash_tokens l) =
  map cache_key_of (chain None (blocks (Z.to_nat (Z.of_nat (length l) / block_size)) l)).
Proof. intros. simpl. by rewrite hash_blocks_chain. Qed.

Lemma length_chain parent bs : length (chain parent bs) = length bs.
Proof. revert parent; induction bs as [|b bs IH]; intros; simpl; [done|]. by rewrite IH. Qed.
Lemma length_blocks n l : length (blocks n l) = n.
Proof. revert l; induction n as [|n IH]; intros; simpl; [done|]. by rewrite IH. Qed.

Lemma chain_app parent bs cs :
  exists p', chain parent (bs ++ cs) = chain parent bs ++ chain p' cs.
Proof.
  revert parent; induction bs as [|b bs IH]; intros parent; simpl; [by exists parent|].
  destruct (IH (Some (hash_block_tokens parent b))) as [p' ->]. by exists p'.
Qed.

Lemma blocks_prefix n m (l k : list Z) :
  (n * Z.to_nat block_size <= length l)%nat ->
  exists cs, blocks (n + m) (l ++ k) = blocks n l ++ cs.
Proof.
  revert l; induction n as [|n IH]; intros l Hl; simpl; [by eexists|].
  rewrite take_app_le, drop_app_le by lia.
  destruct (IH (drop (Z.to_nat block_size) l)) as [cs ->]; [rewrite length_drop; lia|].
  by exists cs.
Qed.

(** The blocks cover the tokens up to the last full block. *)
Lemma join_blocks n (l : list Z) :
  (n * Z.to_nat block_size <= length l)%nat ->
  mjoin (blocks n l) = take (n * Z.to_nat block_size) l.
Proof.
  revert l; induction n as [|n IH]; intros l Hl; simpl; [done|].
  rewrite IH by (rewrite length_drop; lia). by rewrite take_take_drop.
Qed.

Lemma full_blocks_fit (l : list Z) : 0 < block_size ->
  (Z.to_nat (Z.of_nat (length l) / block_size) * Z.to_nat block_size <= length l)%nat.
Proof. intros. pose proof (Z.mul_div_le (Z.of_nat (length l)) block_size). nia. Qed.
Lemma hash_tokens_length l : 0 < block_size ->
  Z.of_nat (length (cache_keys (hash_tokens l))) = full_blocks (hash_tokens l).
Proof.
  intros Hbs. rewrite hash_tokens_chain, length_map, length_chain, length_blocks by done.
  simpl. pose proof (Z.div_pos (Z.of_nat (length l)) block_size). lia.
Qed.

(** The first [j] keys depend on the first [j] blocks of tokens only. *)
Lemma take_blocks j n l : (j <= n)%nat -> take j (blocks n l) = blocks j l.
Proof.
  revert n l; induction j as [|j IH]; intros [|n] l Hj; simpl; [done..|lia|].
  by rewrite IH by lia.
Qed.
Lemma take_chain j parent bs : take j (chain parent bs) = chain parent (take j bs).
Proof.
  revert parent bs; induction j as [|j IH]; intros parent [|b bs]; simpl; [done..|].
  by rewrite IH.
Qed.
Lemma blocks_take j l :
  blocks j (take (j * Z.to_nat block_size) l) = blocks j l.
Proof.
  revert l; induction j as [|j IH]; intros l; simpl; [done|].
  rewrite take_take, Nat.min_l by lia. f_equal.
  rewrite <- (IH (drop (Z.to_nat block_size) l)), take_drop_commute. done.
Qed.

Lemma take_keys j l : 0 < block_size ->
  (j <= Z.to_nat (full_blocks (hash_tokens l)))%nat ->
  take j (cache_keys (hash_tokens l)) = map cache_key_of (chain None (blocks j l)).
Proof.
  intros Hbs Hj. rewrite hash_tokens_chain, firstn_map, take_chain by done.
  by rewrite take_blocks.
Qed.

Section collision_free.
(** vLLM's hash has no collisions, and distinct hashes have distinct keys. *)
Context (Hhash : forall p b p' b',
           hash_block_tokens p b = hash_block_tokens p' b' -> p = p' /\ b = b')
        (Hkey : forall h h', cache_key_of h = cache_key_of h' -> h = h').

Lemma chain_inj p p' bs cs :
  map cache_key_of (chain p bs) = map cache_key_of (chain p' cs) -> bs = cs.
Proof using Hhash Hkey.
  revert p p' cs; induction bs as [|b bs IH]; intros p p' [|c cs]; cbn [chain map]; try done.
  intros Heq. remember cache_key_of as f. injection Heq as Hk Hr. subst f. apply Hkey, Hhash in Hk as [_ ->]. f_equal. by eapply IH.
Qed.

End collision_free.

(** Extending a prompt extends its keys: no key of the shorter prompt changes,
    whatever vLLM's hash function is. *)
Theorem hash_tokens_prefix (l k : list Z) :
  0 < block_size ->
  cache_keys (hash_tokens l) `prefix_of` cache_keys (hash_tokens (l ++ k)) /\
  Z.of_nat (length (cache_keys (hash_tokens l))) = Z.of_nat (length l) / block_size.
Proof.
  intros Hbs. split; [|by rewrite hash_tokens_length].
  rewrite !hash_tokens_chain by done.
  set (n := Z.to_nat (Z.of_nat (length l) / block_size)).
  assert (Hm : exists m, Z.to_nat (Z.of_nat (length (l ++ k)) / block_size) = (n + m)%nat).
  { exists (Z.to_nat (Z.of_nat (length (l ++ k)) / block_size) - n)%nat. unfold n.
    rewrite length_app, Nat2Z.inj_add.
    pose proof (Z.div_le_mono (Z.of_nat (length l)) (Z.of_nat (length l) + Z.of_nat (length k))
                  block_size). lia. }
  destruct Hm as [m ->]. destruct (blocks_prefix n m l k) as [cs ->];
    [by apply full_blocks_fit|].
  destruct (chain_app None (blocks n l) cs) as [p' ->]. rewrite map_app. by eexists.
Qed.

(** [resolve] returns exactly when the request is supported and the endpoint
    answered with non-negative integer tokens, and then it returns the hashes of
    those tokens; the handler answers with a body in that case only. *)
Theorem resolve_spec request r :
  resolve request = Ok r <->
  _validate_supported_request request = Ok tt /\
  exists reply l, tokenize (tokenize_payload request) = Ok (VDict reply) /\
    dget reply "tokens" = Some (VList l) /\ forallb valid_token l = true /\
    r = hash_tokens (map token_id l).
Proof.
  unfold resolve. split.
  - intros Hr. destruct (_validate_supported_request request) as [[]|]; [|done].
    destruct (tokenize _) as [body|]; [|done].
    destruct body as [| | | | | | |reply]; try discriminate Hr.
    simpl in Hr. unfold dget_or in Hr. split; [done|].
    destruct (dget reply "tokens") as [[| | | | | |l|]|] eqn:Et; try discriminate Hr.
    simpl in Hr. inv_ok Hr. bool_hyps. by exists reply, l.
  - intros (-> & reply & l & -> & Ht & Hv & ->). simpl. unfold dget_or. rewrite Ht. simpl.
    by rewrite Hv.
Qed.
End hasher.

(** ** Concrete requests *)

(** A readable stand-in for vLLM's hash, and a collision-free one. *)
Definition demo_hash (p : option string) (b : list Z) : string :=
  default ""%string p +:+ "(" +:+ join "," (map str_of_Z b) +:+ ")".
Definition perfect_hash (p : option positive) (b : list Z) : positive := encode (p, b).
Definition perfect_key (h : positive) : val := VInt (Zpos h).

Definition demo_tokenize (reply : val) (_ : list (string * val)) : res val := Ok reply.
Definition demo_request : list (string * val) :=
  [("model", VStr "m"); ("messages", VList [VDict [("role", VStr "user"); ("content", VStr "hi")]])]%string.

Example resolve_demo :
  resolve demo_hash VStr 2
    (demo_tokenize (VDict [("tokens"%string, VList (map VInt [5; 6; 7; 8; 9]))])) demo_request =
  Ok {| cache_keys := ["vllm:block:(5,6)"; "vllm:block:(5,6)(7,8)"]; token_count := 5; full_blocks := 2 |}%string.
Proof. vm_compute. reflexivity. Qed.

Lemma hash_tokens_prefix_witness :
  cache_keys (hash_tokens demo_hash VStr 2 [5; 6; 7]) `prefix_of`
  cache_keys (hash_tokens demo_hash VStr 2 ([5; 6; 7] ++ [8; 9])) /\
  Z.of_nat (length (cache_keys (hash_tokens demo_hash VStr 2 [5; 6; 7]))) = 3 / 2.
Proof. apply (hash_tokens_prefix demo_hash VStr 2 [5; 6; 7] [8; 9]). lia. Defined.

