(* ===== verification/PromParse.v ===== *)
(** * Prometheus text parsing (exporter/prometheus_parse.py)

    Label-aware aggregation of metric samples into one float per metric name, with
    a relaxed line parser when the official one fails.  The official parser
    ([prometheus_client]) is a parameter: it yields families or raises. *)

From S2P Require Import Prelude PyFloat PyStr PyVal Regex.

Definition labels := list (string * string).
Definition metrics := list (string * float).

Record Sample := { s_name : string; s_labels : labels; s_value : float }.
Record Family := { f_type : string; f_samples : list Sample }.

Definition _AGGREGATABLE (ty : string) : bool :=
  String.eqb ty "counter" || String.eqb ty "gauge" || String.eqb ty "unknown".

(** [raw] is the value of [METRIC_LABEL_FILTER], empty when unset. *)
Definition parse_label_filter_from_env (raw : string) : option labels :=
  let raw := strip raw in
  if String.eqb raw "" then None
  else
    let out := foldl (fun out part =>
        let part := strip part in
        match partition "="%char part with
        | (k, true, v) =>
            let k := strip k in
            if String.eqb k "" then out else dset out k (strip v)
        | _ => out
        end) [] (split ","%char raw) in
    match out with [] => None | _ => Some out end.

Definition _labels_match (sample_labels filt : labels) : bool :=
  forallb (fun '(k, want) =>
    match dget sample_labels k with Some v => String.eqb v want | None => false end) filt.

(** [label_filter is not None and not _labels_match(...)] keeps a sample out. *)
Definition selected (filt : option labels) (ls : labels) : bool :=
  match filt with None => true | Some f => _labels_match ls f end.

(** [out[name] = out.get(name, 0.0) + value] *)
Definition add_value (out : metrics) (name : string) (v : float) : metrics :=
  dset out name (dget_or out name f0 ⊕ v).

(** ** The relaxed line parser *)

Definition name_first (c : ascii) : bool := is_alpha c || Ascii.eqb c "_"%char || Ascii.eqb c ":"%char.
Definition name_rest (c : ascii) : bool := name_first c || is_digit c.
Definition number_char (c : ascii) : bool :=
  existsb (Ascii.eqb c) (chars "-+.eE") || is_digit c.
Definition not_brace (c : ascii) : bool := negb (Ascii.eqb c "}"%char).

Definition _LINE_RE : regex :=
  Seq (Group 1 (Seq (Chr name_first) (Star (Chr name_rest))))
 (Seq (Opt (Seq (Lit "{"%char) (Seq (Group 2 (Star (Chr not_brace))) (Lit "}"%char))))
 (Seq (Plus (Chr is_space))
 (Seq (Group 3 (Alt (Plus (Chr number_char))
               (Alt (Word (chars "NaN")) (Alt (Word (chars "nan"))
               (Alt (Word (chars "Inf")) (Word (chars "inf")))))))
 (Seq (Star (Chr is_space)) End)))).

Definition quote : ascii := chr 34.
Definition backslash : ascii := chr 92.
Definition newline : ascii := chr 10.
Definition label_first (c : ascii) : bool := is_alpha c || Ascii.eqb c "_"%char.
Definition label_rest (c : ascii) : bool := label_first c || is_digit c.
Definition plain_char (c : ascii) : bool := negb (Ascii.eqb c quote || Ascii.eqb c backslash).
Definition not_newline (c : ascii) : bool := negb (Ascii.eqb c newline).

(** A quoted value: escapes (a backslash and any character but a newline) or
    characters other than quote and backslash. *)
Definition value_re : regex :=
  Star (Alt (Seq (Lit backslash) (Chr not_newline)) (Chr plain_char)).
Definition _LABEL_RE : regex :=
  Seq (Star (Chr is_space))
 (Seq (Group 1 (Seq (Chr label_first) (Star (Chr label_rest))))
 (Seq (Star (Chr is_space))
 (Seq (Lit "="%char)
 (Seq (Star (Chr is_space))
 (Seq (Lit quote)
 (Seq (Group 2 value_re)
 (Seq (Lit quote) (Star (Chr is_space))))))))).

Fixpoint unescape (raw : list ascii) : list ascii :=
  match raw with
  | c :: raw' =>
      if Ascii.eqb c backslash then
        match raw' with
        | nxt :: raw'' => (if Ascii.eqb nxt "n"%char then newline else nxt) :: unescape raw''
        | [] => [c]
        end
      else c :: unescape raw'
  | [] => []
  end.
Definition _unescape_label_value (raw : string) : string := str (unescape (chars raw)).

Definition separator (c : ascii) : bool := Ascii.eqb c " "%char || Ascii.eqb c ","%char.

(** The loop of [_parse_labels_relaxed]; every round consumes input, so the length
    of the text is enough fuel. *)
Fixpoint parse_labels_loop (fuel : nat) (text : list ascii) (ls : labels) : labels :=
  match fuel, text with
  | S fuel', _ :: _ =>
      match re_match _LABEL_RE text with
      | None => ls
      | Some st =>
          let name := str (default [] (group (caps st) 1)) in
          let value := str (unescape (default [] (group (caps st) 2))) in
          parse_labels_loop fuel' (lstrip_with separator (rest st)) (dset ls name value)
      end
  | _, _ => ls
  end.
Definition _parse_labels_relaxed (raw : string) : labels :=
  let text := chars (strip raw) in parse_labels_loop (length text) text [].

(** The body of the line loop. *)
Definition relaxed_line (filt : option labels) (out : metrics) (raw : string) : metrics :=
  let line := strip raw in
  if String.eqb line "" || startswith "#" line then out
  else
    match re_match _LINE_RE (chars line) with
    | None => out
    | Some st =>
        let ls := _parse_labels_relaxed (str (default [] (group (caps st) 2))) in
        if negb (selected filt ls) then out
        else
          match parse_float (str (default [] (group (caps st) 3))) with
          | Some v => add_value out (str (default [] (group (caps st) 1))) v
          | None => out
          end
    end.
Definition parse_prometheus_text_relaxed_lines (text : string) (label_filter : option labels) : metrics :=
  foldl (relaxed_line label_filter) [] (splitlines text).

(** ** Aggregation *)

Definition add_sample (filt : option labels) (out : metrics) (s : Sample) : metrics :=
  if selected filt (s_labels s) then add_value out (s_name s) (s_value s) else out.
Definition add_family (filt : option labels) (out : metrics) (f : Family) : metrics :=
  if _AGGREGATABLE (f_type f) then foldl (add_sample filt) out (f_samples f) else out.

Section aggregate.
(** [prometheus_client.parser.text_string_to_metric_families]. *)
Context (text_string_to_metric_families : string -> res (list Family)).

Definition aggregate_prometheus_text (env : string) (text : string)
    (label_filter : option labels) : metrics :=
  let filt := match label_filter with Some f => Some f | None => parse_label_filter_from_env env end in
  match text_string_to_metric_families text with
  | Ok families => foldl (add_family filt) [] families
  | Err _ => parse_prometheus_text_relaxed_lines text filt
  end.

Definition parse_prometheus_text (env text : string) : metrics :=
  aggregate_prometheus_text env text None.
End aggregate.

Example relaxed_known :
  map (fun kv => (kv.1, repr_float kv.2))
    (parse_prometheus_text_relaxed_lines
      (join (str [newline])
        ["# HELP x"; "vllm:hits{model=" +:+ str [quote] +:+ "m" +:+ str [quote] +:+ "} 3";
         "vllm:hits 1.5e1 "; "bad line"; "up NaN"; "vllm:hits{ 4"]%string) None)
  = [("vllm:hits", "18.0"); ("up", "nan")]%string.
Proof. vm_compute. reflexivity. Qed.
