(* ===== verification/PromParseFacts.v ===== *)
(** * Correctness of the Prometheus parsers

    Label sets survive printing and relaxed parsing, whatever their values contain;
    and aggregation computes, per metric name, the sum of the selected samples of
    the aggregatable families, in order. *)

From S2P Require Import Prelude PyFloat PyStr PyVal Regex PromParse.

(** ** Specification: printing labels in the exposition format *)

Definition escape_char (c : ascii) : list ascii :=
  if Ascii.eqb c backslash then [backslash; backslash]
  else if Ascii.eqb c quote then [backslash; quote]
  else if Ascii.eqb c newline then [backslash; "n"%char]
  else [c].
Fixpoint escape (l : list ascii) : list ascii :=
  match l with [] => [] | c :: l' => escape_char c ++ escape l' end.
Definition render_label (kv : string * string) : list ascii :=
  chars kv.1 ++ "="%char :: quote :: escape (chars kv.2) ++ [quote].
Fixpoint render_labels (ls : labels) : list ascii :=
  match ls with
  | [] => []
  | [kv] => render_label kv
  | kv :: ls' => render_label kv ++ ","%char :: render_labels ls'
  end.
Definition label_name (k : string) : bool :=
  match chars k with c :: r => label_first c && forallb label_rest r | [] => false end.

(** ** Escaping *)

Ltac all_ascii c := destruct c as [[] [] [] [] [] [] [] []]; vm_compute; try done.

Lemma label_first_not_space c : label_first c = true -> is_space c = false.
Proof. all_ascii c. Qed.
Lemma label_first_not_separator c : label_first c = true -> separator c = false.
Proof. all_ascii c. Qed.
Lemma label_rest_not_equals : label_rest "="%char = false.
Proof. done. Qed.

Lemma unescape_escape_char c l : unescape (escape_char c ++ l) = c :: unescape l.
Proof.
  unfold escape_char.
  destruct (Ascii.eqb_spec c backslash) as [->|Hb]; [done|].
  destruct (Ascii.eqb_spec c quote) as [->|Hq]; [done|].
  destruct (Ascii.eqb_spec c newline) as [->|Hn]; [done|].
  simpl. by destruct (Ascii.eqb_spec c backslash).
Qed.

Lemma unescape_escape l : unescape (escape l) = l.
Proof. induction l as [|c l IH]; simpl; [done|]. by rewrite unescape_escape_char, IH. Qed.

(** One round of [value_re] reads back one escaped character. *)
Lemma value_char c q cs k x :
  k {| rest := q; caps := cs |} = Some x ->
  m (Alt (Seq (Lit backslash) (Chr not_newline)) (Chr plain_char)) k
    {| rest := escape_char c ++ q; caps := cs |} = Some x.
Proof.
  intros Hk. unfold escape_char.
  destruct (Ascii.eqb_spec c backslash) as [->|Hb]; [simpl; unfold advance; simpl; by rewrite Hk|].
  destruct (Ascii.eqb_spec c quote) as [->|Hq]; [simpl; unfold advance; simpl; by rewrite Hk|].
  destruct (Ascii.eqb_spec c newline) as [->|Hn]; [simpl; unfold advance; simpl; by rewrite Hk|].
  cbn [m Lit app rest]. destruct (Ascii.eqb_spec backslash c); [by subst|].
  unfold plain_char.
  destruct (Ascii.eqb_spec c quote), (Ascii.eqb_spec c backslash); try done.
Qed.

Lemma escape_char_length c : (0 < length (escape_char c))%nat.
Proof. unfold escape_char. repeat case_match; simpl; lia. Qed.

Lemma value_star v q cs k x fuel :
  k {| rest := quote :: q; caps := cs |} = Some x ->
  (length (escape v) <= fuel)%nat ->
  star_loop (m (Alt (Seq (Lit backslash) (Chr not_newline)) (Chr plain_char))) k fuel
    {| rest := escape v ++ quote :: q; caps := cs |} = Some x.
Proof.
  intros Hk. revert fuel; induction v as [|c v IH]; intros fuel Hf.
  - destruct fuel as [|fuel]; cbn [escape app star_loop]; [done|].
    by cbn [m Lit rest Ascii.eqb].
  - cbn [escape] in *. rewrite length_app in Hf. pose proof (escape_char_length c).
    destruct fuel as [|fuel]; [lia|]. rewrite <- app_assoc. cbn [star_loop].
    rewrite value_char with (x := x); [done|]. cbn [rest].
    rewrite (proj2 (Nat.ltb_lt _ _)) by (rewrite !length_app; simpl; lia).
    apply IH. lia.
Qed.

(** [_LABEL_RE] on a printed label followed by a comma or the end. *)
Lemma label_re_match kv q :
  label_name kv.1 = true ->
  match q with c :: _ => is_space c = false | [] => True end ->
  re_match _LABEL_RE (render_label kv ++ q) =
  Some {| rest := q; caps := [(2%nat, escape (chars kv.2)); (1%nat, chars kv.1)] |}.
Proof.
  destruct kv as [k v]. unfold label_name, render_label. simpl.
  intros Hn Hq. destruct (chars k) as [|c r]; [done|]. bool_hyps.
  set (tail := "="%char :: quote :: escape (chars v) ++ quote :: q).
  replace (((c :: r) ++ "="%char :: quote :: escape (chars v) ++ [quote]) ++ q)
    with ((c :: r) ++ tail) by (unfold tail; by rewrite <- !app_assoc; simpl; rewrite <- app_assoc).
  unfold re_match, _LABEL_RE.
  apply m_seq_star_empty; [by apply label_first_not_space|].
  apply m_seq_group; [intros k' Hk'; by apply m_name|]. unfold tail.
  apply m_seq_star_empty; [done|]. apply m_seq_lit.
  apply m_seq_star_empty; [done|]. apply m_seq_lit.
  apply m_seq_group; [intros k' Hk'; apply value_star; [done|simpl; rewrite length_app; lia]|].
  apply m_seq_lit. by apply (m_star_chr is_space []).
Qed.

(** ** Stripping *)

Lemma lstrip_id f l : match l with c :: _ => f c = false | [] => True end -> lstrip_with f l = l.
Proof. destruct l as [|c l]; simpl; [done|]. by intros ->. Qed.

Lemma strip_id s c d l :
  chars s = c :: l -> is_space c = false -> last (chars s) = Some d -> is_space d = false ->
  strip s = s.
Proof.
  intros Hs Hc Hd Hd'. unfold strip, rstrip_with. rewrite (lstrip_id is_space (chars s)) by (by rewrite Hs).
  rewrite lstrip_id; [by rewrite rev_involutive, str_chars|].
  rewrite <- (rev_involutive (chars s)) in Hd.
  destruct (rev (chars s)) as [|e r]; [done|]. simpl in Hd. rewrite last_snoc in Hd. by injection Hd as ->.
Qed.

(** ** The label loop *)

Lemma render_label_first kv q : label_name kv.1 = true ->
  exists c l, render_label kv ++ q = c :: l /\ label_first c = true.
Proof.
  unfold label_name, render_label. destruct (chars kv.1) as [|c r]; [done|].
  intros H. bool_hyps. simpl. eauto.
Qed.

Lemma render_labels_first ls : ls <> [] -> Forall (fun kv => label_name kv.1 = true) ls ->
  exists c l, render_labels ls = c :: l /\ label_first c = true.
Proof.
  intros Hne Hall. destruct ls as [|kv [|kv' ls]]; [done|..]; inversion Hall; subst.
  - simpl. rewrite <- (app_nil_r (render_label kv)). by apply render_label_first.
  - by apply render_label_first.
Qed.

Lemma render_labels_last ls : ls <> [] -> last (render_labels ls) = Some quote.
Proof.
  induction ls as [|kv [|kv' ls] IH]; [done|..]; intros _.
  - simpl. unfold render_label. change (?a ++ ?b :: ?c :: ?d ++ [?e]) with (a ++ (b :: c :: d) ++ [e]).
    by rewrite app_assoc, last_snoc.
  - change (render_labels (kv :: kv' :: ls))
      with (render_label kv ++ ","%char :: render_labels (kv' :: ls)).
    rewrite last_app, last_cons. by rewrite IH.
Qed.

Lemma dset_fresh {A} (d : list (string * A)) k v : k ∉ dkeys d -> dset d k v = d ++ [(k, v)].
Proof.
  induction d as [|[k' v'] d IH]; simpl; [done|]. intros Hk.
  destruct (String.eqb_spec k k') as [->|Hne]; [set_solver|]. rewrite IH by set_solver. done.
Qed.

Lemma parse_labels_loop_render ls acc fuel :
  Forall (fun kv => label_name kv.1 = true) ls ->
  NoDup (dkeys (acc ++ ls)) -> (length (render_labels ls) <= fuel)%nat ->
  parse_labels_loop fuel (render_labels ls) acc = acc ++ ls.
Proof.
  revert acc fuel; induction ls as [|kv ls IH]; intros acc fuel Hall Hnd Hf.
  { simpl. rewrite app_nil_r. by destruct fuel. }
  inversion Hall as [|? ? Hkv Hall']; subst.
  set (q := match ls with [] => [] | _ => ","%char :: render_labels ls end).
  assert (Hr : render_labels (kv :: ls) = render_label kv ++ q).
  { unfold q. destruct ls; simpl; [by rewrite app_nil_r|done]. }
  assert (Hm := label_re_match kv q Hkv ltac:(unfold q; by destruct ls)).
  destruct (render_label_first kv q Hkv) as (c & l & Hc & _).
  rewrite Hr, Hc in *. destruct fuel as [|fuel]; simpl in Hf; [lia|].
  cbn [parse_labels_loop]. rewrite Hm. cbn [caps group default rest Nat.eqb id].
  rewrite unescape_escape, !str_chars.
  assert (Hfresh : kv.1 ∉ dkeys acc).
  { unfold dkeys in *. rewrite map_app, NoDup_app in Hnd. simpl in Hnd. set_solver. }
  rewrite dset_fresh, <- surjective_pairing by done.
  assert (Hstrip : lstrip_with separator q = render_labels ls).
  { unfold q. destruct ls as [|kv' ls]; [done|]. simpl.
    destruct (render_labels_first (kv' :: ls)) as (d & l' & Hd & Hd'); [done..|].
    simpl in Hd. rewrite Hd. apply lstrip_id. by apply label_first_not_separator. }
  rewrite Hstrip, IH; [by rewrite <- app_assoc|done|by rewrite <- app_assoc|].
  apply (f_equal length) in Hc. rewrite length_app in Hc. simpl in Hc.
  assert (0 < length (render_label kv))%nat.
  { unfold render_label. rewrite length_app. simpl. lia. }
  unfold q in Hc. destruct ls as [|kv' ls]; simpl in *; lia.
Qed.

(** C39.  Round trip: printing a label set in the Prometheus exposition format and
    reading it with the relaxed label parser returns the label set, in order, for
    all valid distinct label names and arbitrary values (quotes, backslashes and
    newlines included). *)
Theorem relaxed_labels_roundtrip (ls : labels) :
  Forall (fun kv => label_name kv.1 = true) ls -> NoDup (dkeys ls) ->
  _parse_labels_relaxed (str (render_labels ls)) = ls.
Proof.
  intros Hall Hnd. unfold _parse_labels_relaxed.
  destruct (decide (ls = [])) as [->|Hne]; [done|].
  destruct (render_labels_first ls Hne Hall) as (c & l & Hc & Hcf).
  rewrite (strip_id _ c quote l), chars_str.
  - by apply (parse_labels_loop_render ls []).
  - by rewrite chars_str.
  - by apply label_first_not_space.
  - rewrite chars_str. by apply render_labels_last.
  - done.
Qed.

Lemma relaxed_labels_roundtrip_witness :
  let ls := [("model", "a" +:+ str [quote; backslash; newline] +:+ ",}"); ("gpu", "0")]%string in
  NoDup (dkeys ls) /\ _parse_labels_relaxed (str (render_labels ls)) = ls.
Proof.
  assert (Hnd : NoDup ["model"; "gpu"]%string)
    by (repeat constructor; set_solver).
  split; [exact Hnd|]. apply relaxed_labels_roundtrip; [|exact Hnd].
  repeat constructor; vm_compute; reflexivity.
Defined.

(** ** Aggregation *)

(** The samples that count, in order, and their sum per name. *)
Definition counted (filt : option labels) (families : list Family) : list Sample :=
  List.filter (fun s => selected filt (s_labels s))
    (mjoin (map f_samples (List.filter (fun f => _AGGREGATABLE (f_type f)) families))).
Definition spec_sum (name : string) (ss : list Sample) : option float :=
  match List.filter (fun s => String.eqb name (s_name s)) ss with
  | [] => None
  | l => Some (foldl (fun a s => a ⊕ s_value s) f0 l)
  end.

Lemma add_families_counted filt families out :
  foldl (add_family filt) out families =
  foldl (fun o s => add_value o (s_name s) (s_value s)) out (counted filt families).
Proof.
  unfold counted. revert out; induction families as [|f fs IH]; intros out; simpl; [done|].
  rewrite IH. unfold add_family. destruct (_AGGREGATABLE (f_type f)); [|done].
  simpl. rewrite List.filter_app, foldl_app. f_equal.
  generalize out; induction (f_samples f) as [|s ss IHs]; intros o; simpl; [done|].
  rewrite IHs. unfold add_sample. by destruct (selected filt (s_labels s)).
Qed.

Lemma add_values_get name ss out :
  dget (foldl (fun o s => add_value o (s_name s) (s_value s)) out ss) name =
  match List.filter (fun s => String.eqb name (s_name s)) ss with
  | [] => dget out name
  | l => Some (foldl (fun a s => a ⊕ s_value s) (dget_or out name f0) l)
  end.
Proof.
  revert out; induction ss as [|s ss IH]; intros out; simpl; [done|].
  rewrite IH. unfold add_value, dget_or.
  destruct (String.eqb_spec name (s_name s)) as [->|Hne]; rewrite dget_dset.
  - rewrite String.eqb_refl. simpl. by destruct (List.filter _ ss).
  - destruct (String.eqb_spec (s_name s) name); [congruence|done].
Qed.

(** Aggregation: when the official parser succeeds, a metric name maps to the
    sum, in order, of the values of the samples with that name that pass the label
    filter and belong to a counter, gauge or untyped family; names without such a
    sample, and all histogram and summary samples, are absent. *)
Theorem aggregate_spec parser env text filt families name :
  parser text = Ok families ->
  dget (aggregate_prometheus_text parser env text (Some filt)) name =
  spec_sum name (counted (Some filt) families).
Proof.
  intros H. unfold aggregate_prometheus_text. rewrite H, add_families_counted, add_values_get.
  unfold spec_sum. simpl. by destruct (List.filter _ _).
Qed.

Definition demo_families : list Family :=
  [{| f_type := "counter"; f_samples :=
       [{| s_name := "hits"; s_labels := [("gpu", "0")]; s_value := of_Z 3 |};
        {| s_name := "hits"; s_labels := [("gpu", "1")]; s_value := of_Z 4 |}] |};
   {| f_type := "histogram"; f_samples :=
       [{| s_name := "hits"; s_labels := []; s_value := of_Z 100 |}] |}]%string.

Lemma aggregate_spec_witness :
  dget (aggregate_prometheus_text (fun _ => Ok demo_families) "" "text" (Some [])) "hits" = Some (of_Z 7).
Proof.
  transitivity (spec_sum "hits" (counted (Some []) demo_families)).
  - apply (aggregate_spec (fun _ => Ok demo_families) "" "text" [] demo_families "hits"). reflexivity.
  - vm_compute. reflexivity.
Defined.
