(* ===== verification/Schemas.v ===== *)
(** * Snapshots of a backend (exporter/schemas.py, exporter/config.py)

    [NativeSnapshot] is what an adapter reads off one scrape of the backend's
    metrics, [DerivedSnapshot] what the exporter publishes, [Settings] its
    configuration.  The fields carry the prefixes [n_], [d_] and [cfg_] since
    Rocq's projections share one name space. *)

From S2P Require Import Prelude PyFloat PyStr PyVal PromParse.

Record NativeSnapshot := {
  n_backend : string;
  n_model : string;
  n_instance : string;
  n_model_group : string;
  n_total_blocks : float;
  n_usage_perc : float;
  n_active_blocks : float;
  n_reusable_cached_blocks : float;
  n_free_uncached_blocks : float;
  n_duplicate_cached_blocks : float;
  n_prefix_hits : float;
  n_prefix_queries : float;
  n_prefix_hits_metric_name : string;
  n_prefix_queries_metric_name : string;
  n_prefix_metric_semantics : string;
  n_prefix_metric_comparability : string;
  n_prefix_metric_basis : string;
  n_prefix_evidence_quality : string;
  n_block_evidence_quality : string;
  n_queue_depth : option float;
  n_running_requests : option float;
  n_extra : metrics
}.

Record DerivedSnapshot := {
  d_backend : string;
  d_model : string;
  d_instance : string;
  d_model_group : string;
  d_total_blocks : float;
  d_active_blocks : float;
  d_reusable_cached_blocks : float;
  d_free_uncached_blocks : float;
  d_duplicate_cached_blocks : float;
  d_prefix_blocks : float;
  d_hidden_reuse_ready_perc : float;
  d_effective_residency_perc : float;
  d_cold_free_perc : float;
  d_cache_hit_ratio : option float;
  d_prefix_hits_metric_name : string;
  d_prefix_queries_metric_name : string;
  d_prefix_metric_semantics : string;
  d_prefix_metric_comparability : string;
  d_prefix_metric_basis : string;
  d_prefix_evidence_quality : string;
  d_block_evidence_quality : string;
  d_queue_depth : option float;
  d_running_requests : option float
}.

Record Settings := {
  cfg_backend_metrics_url : string;
  cfg_backend_type : string;
  cfg_model_name : string;
  cfg_instance_name : string;
  cfg_backend_id : string;
  cfg_model_group : string;
  cfg_poll_interval_s : float;
  cfg_scrape_stale_after_s : float;
  cfg_scrape_failures_not_ready : Z;
  cfg_scrape_error_max_len : Z;
  cfg_tokens_per_block : Z;
  cfg_state_dir : string
}.

(** The defaults of the settings class. *)
Definition default_settings : Settings := {|
  cfg_backend_metrics_url := "http://localhost:8000/metrics";
  cfg_backend_type := "vllm";
  cfg_model_name := "unknown";
  cfg_instance_name := "local";
  cfg_backend_id := "";
  cfg_model_group := "";
  cfg_poll_interval_s := dec 2 0;
  cfg_scrape_stale_after_s := dec 120 0;
  cfg_scrape_failures_not_ready := 3;
  cfg_scrape_error_max_len := 256;
  cfg_tokens_per_block := 16;
  cfg_state_dir := "results/kavora-state"
|}.

(** [_pick_metric], [_pick_metric_optional], [_pick_metric_with_name]: the first of
    the candidate names that the scrape has.  Both adapters use them, the vLLM one
    as closures of [collect]. *)
Fixpoint _pick_metric_optional (m : metrics) (candidates : list string) : option float :=
  match candidates with
  | [] => None
  | name :: rest => match dget m name with Some v => Some v | None => _pick_metric_optional m rest end
  end.
Fixpoint _pick_metric (m : metrics) (candidates : list string) (dflt : float) : float :=
  match candidates with
  | [] => dflt
  | name :: rest => match dget m name with Some v => v | None => _pick_metric m rest dflt end
  end.
Fixpoint _pick_metric_with_name (m : metrics) (candidates : list string) (dflt : float) : float * string :=
  match candidates with
  | [] => (dflt, "")
  | name :: rest => match dget m name with Some v => (v, name) | None => _pick_metric_with_name m rest dflt end
  end.

(** A picked name is empty exactly when no candidate is there. *)
Lemma pick_name_empty m cs x :
  Forall (fun c => c <> "") cs ->
  ((_pick_metric_with_name m cs x).2 = "" <-> existsb (dmem m) cs = false).
Proof.
  induction 1 as [|c cs Hc _ IH]; simpl; [done|].
  unfold dmem at 1. destruct (dget m c); simpl; [|done]. split; congruence.
Qed.
Lemma pick_name_in m cs x :
  let '(v, name) := _pick_metric_with_name m cs x in
  (name ∈ cs /\ dget m name = Some v) \/ (name = "" /\ v = x).
Proof.
  induction cs as [|c cs IH]; simpl; [by right|].
  destruct (dget m c) eqn:E; [left; split; [by left|done]|].
  destruct (_pick_metric_with_name m cs x) as [v name].
  destruct IH as [[? ?]|?]; [left; split; [by right|done]|by right].
Qed.
Lemma eqb_empty_existsb m cs x :
  Forall (fun c => c <> "") cs ->
  String.eqb (_pick_metric_with_name m cs x).2 "" = negb (existsb (dmem m) cs).
Proof.
  intros H. pose proof (pick_name_empty m cs x H) as Hp.
  destruct (String.eqb_spec (_pick_metric_with_name m cs x).2 "") as [E|E].
  - apply Hp in E. by rewrite E.
  - destruct (existsb (dmem m) cs); [done|]. by destruct E; apply Hp.
Qed.
