(* ===== verification/VllmAdapter.v ===== *)
(** * The vLLM metrics adapter (exporter/adapters/vllm.py) *)

From S2P Require Import Prelude PyFloat PyStr PyVal PromParse Schemas.

Definition _prefix_metric_metadata (hits_metric_name queries_metric_name : string)
  : string * string * string * string :=
  let hits := negb (String.eqb hits_metric_name "") in
  let queries := negb (String.eqb queries_metric_name "") in
  if hits && queries then ("prefix_query_counters", "strict", "queries", "strict")
  else if hits || queries then ("partial", "missing", "mixed", "missing")
  else ("missing", "missing", "missing", "missing").

Record VllmAdapter := {
  metrics_url : string;
  model_name : string;
  instance_name : string;
  model_group : string
}.

Definition hits_names : list string := ["vllm:prefix_cache_hits_total"; "vllm:prefix_cache_hits"].
Definition queries_names : list string :=
  ["vllm:prefix_cache_queries_total"; "vllm:prefix_cache_queries"].
Definition block_metric_names : list string :=
  ["vllm_obs:kv_total_blocks"; "vllm_obs:kv_active_blocks";
   "vllm_obs:kv_reusable_cached_blocks"; "vllm_obs:kv_free_uncached_blocks"].

Definition block_evidence (m : metrics) : string :=
  if forallb (dmem m) block_metric_names then "strict"
  else if dmem m "vllm:kv_cache_usage_perc" then "estimated"
  else "missing".

(** The snapshot [collect] builds from the parsed metrics. *)
Definition snapshot_of (self : VllmAdapter) (m : metrics) : NativeSnapshot :=
  let '(prefix_hits, prefix_hits_metric_name) := _pick_metric_with_name m hits_names f0 in
  let '(prefix_queries, prefix_queries_metric_name) := _pick_metric_with_name m queries_names f0 in
  let '(semantics, comparability, basis, evidence) :=
    _prefix_metric_metadata prefix_hits_metric_name prefix_queries_metric_name in
  {| n_backend := "vllm";
     n_model := model_name self;
     n_instance := instance_name self;
     n_model_group := model_group self;
     n_total_blocks := _pick_metric m ["vllm_obs:kv_total_blocks"] f0;
     n_usage_perc := _pick_metric m ["vllm:kv_cache_usage_perc"] f0;
     n_active_blocks := _pick_metric m ["vllm_obs:kv_active_blocks"] f0;
     n_reusable_cached_blocks := _pick_metric m ["vllm_obs:kv_reusable_cached_blocks"] f0;
     n_free_uncached_blocks := _pick_metric m ["vllm_obs:kv_free_uncached_blocks"] f0;
     n_duplicate_cached_blocks := _pick_metric m ["vllm_obs:kv_duplicate_cached_blocks"] f0;
     n_prefix_hits := prefix_hits;
     n_prefix_queries := prefix_queries;
     n_prefix_hits_metric_name := prefix_hits_metric_name;
     n_prefix_queries_metric_name := prefix_queries_metric_name;
     n_prefix_metric_semantics := semantics;
     n_prefix_metric_comparability := comparability;
     n_prefix_metric_basis := basis;
     n_prefix_evidence_quality := evidence;
     n_block_evidence_quality := block_evidence m;
     n_queue_depth := _pick_metric_optional m ["vllm:num_requests_waiting"];
     n_running_requests := _pick_metric_optional m ["vllm:num_requests_running"];
     n_extra := m |}.

Section collect.
(** The HTTP client (status already checked) and the third-party metrics parser. *)
Context (http_get : string -> res string)
        (text_string_to_metric_families : string -> res (list Family))
        (env : string).

Definition _parse_metrics_body (text : string) : metrics :=
  aggregate_prometheus_text text_string_to_metric_families env text None.

Definition collect (self : VllmAdapter) : res NativeSnapshot :=
  text <-! http_get (metrics_url self) ;;
  Ok (snapshot_of self (_parse_metrics_body text)).
End collect.

(** ** Properties *)

Lemma metadata_strict h q :
  (_prefix_metric_metadata h q).2 = "strict" <-> h <> "" /\ q <> "".
Proof.
  unfold _prefix_metric_metadata.
  destruct (String.eqb_spec h ""), (String.eqb_spec q ""); simpl; split; naive_solver.
Qed.

Lemma block_evidence_strict m :
  block_evidence m = "strict" <-> forall name, name ∈ block_metric_names -> dmem m name = true.
Proof.
  unfold block_evidence. rewrite <- forallb_elem.
  destruct (forallb _ _); [done|]. destruct (dmem _ _); naive_solver.
Qed.

(** A vLLM snapshot calls its block counts strict exactly when the scrape has
    all four block gauges, and its prefix counters strict exactly when it has a hit
    counter and a query counter; strict counters are the values of the scrape. *)
Theorem vllm_strict_evidence self m :
  let s := snapshot_of self m in
  (n_block_evidence_quality s = "strict" <->
     forall name, name ∈ block_metric_names -> exists v, dget m name = Some v) /\
  (n_prefix_evidence_quality s = "strict" <->
     (exists h, h ∈ hits_names /\ dget m h = Some (n_prefix_hits s)) /\
     (exists q, q ∈ queries_names /\ dget m q = Some (n_prefix_queries s))).
Proof.
  cbn zeta. unfold snapshot_of.
  pose proof (pick_name_in m hits_names f0) as Hh.
  pose proof (pick_name_empty m hits_names f0 ltac:(by repeat constructor)) as He.
  pose proof (pick_name_in m queries_names f0) as Hq.
  pose proof (pick_name_empty m queries_names f0 ltac:(by repeat constructor)) as Hqe.
  destruct (_pick_metric_with_name m hits_names f0) as [vh h].
  destruct (_pick_metric_with_name m queries_names f0) as [vq q].
  pose proof (metadata_strict h q) as Hm.
  destruct (_prefix_metric_metadata h q) as [[[a b] c] d].
  cbn [snd n_block_evidence_quality n_prefix_evidence_quality n_prefix_hits n_prefix_queries] in *.
  assert (Hex : forall cs v, (exists n, n ∈ cs /\ dget m n = Some v) -> existsb (dmem m) cs <> false).
  { intros cs v (n & Hn & Hv) Hf. apply not_true_iff_false in Hf. apply Hf, existsb_elem.
    exists n. unfold dmem. by rewrite Hv. }
  split.
  - rewrite block_evidence_strict. unfold dmem. split; intros H name Hn; specialize (H _ Hn).
    + destruct (dget m name); eauto; done.
    + destruct H as [v ->]. done.
  - rewrite Hm. split.
    + intros [Hhn Hqn]. destruct Hh as [Hh|[? _]]; [|done]. destruct Hq as [Hq|[? _]]; [|done]. eauto.
    + intros [H1 H2]. apply Hex in H1, H2. split; intros ->; [by apply H1, He|by apply H2, Hqe].
Qed.
