(* ===== verification/SglangAdapter.v ===== *)
(** * The SGLang metrics adapter (exporter/adapters/sglang.py)

    SGLang exports token counts where vLLM exports blocks; the adapter falls back on
    tokens divided by the block size and on [total - active] for the free blocks.
    The source turns two-element sets into lists to pick from them: the order is
    Python's hash order, a parameter [set_order] here. *)

From S2P Require Import Prelude PyFloat FloatOrder FloatRound PyStr PyVal PromParse Schemas.

Definition token_fallback_hits : list string :=
  ["sglang:cached_tokens_total"; "sglang_cached_tokens_total"].
Definition token_fallback_queries : list string :=
  ["sglang:prompt_tokens_total"; "sglang_prompt_tokens_total"].

Definition _prefix_metric_metadata (hits_metric_name queries_metric_name : string)
  : string * string * string * string :=
  let hits := negb (String.eqb hits_metric_name "") in
  let queries := negb (String.eqb queries_metric_name "") in
  if hits && queries then
    if bool_decide (hits_metric_name ∈ token_fallback_hits) &&
       bool_decide (queries_metric_name ∈ token_fallback_queries)
    then ("token_counter_fallback", "directional", "tokens", "fallback")
    else ("prefix_query_counters", "strict", "queries", "strict")
  else if hits || queries then ("partial", "missing", "mixed", "missing")
  else ("missing", "missing", "missing", "missing").

Record SGLangAdapter := {
  metrics_url : string;
  model_name : string;
  instance_name : string;
  model_group : string;
  tokens_per_block : Z
}.

(** [__init__] keeps the block size at least 1. *)
Definition SGLangAdapter_init (url model inst group : string) (tpb : Z) : SGLangAdapter :=
  {| metrics_url := url; model_name := model; instance_name := inst; model_group := group;
     tokens_per_block := Z.max 1 tpb |}.

Definition _tokens_to_blocks (self : SGLangAdapter) (value : float) : res float :=
  n <-! float_of_int (tokens_per_block self) ;; fdiv value n.

Definition total_block_names : list string := ["sglang:kv_total_blocks"; "sglang_kv_total_blocks"].
Definition active_block_names : list string := ["sglang_obs:kv_active_blocks"; "sglang_kv_active_blocks"].
Definition reusable_block_names : list string :=
  ["sglang_obs:kv_reusable_cached_blocks"; "sglang_kv_reusable_cached_blocks"].
Definition free_block_names : list string :=
  ["sglang_obs:kv_free_uncached_blocks"; "sglang_kv_free_uncached_blocks"].
Definition block_name_sets : list (list string) :=
  [total_block_names; active_block_names; reusable_block_names; free_block_names].
Definition usage_names : list string :=
  ["sglang:kv_cache_usage_perc"; "sglang_kv_cache_usage_perc";
   "sglang:token_usage"; "sglang_token_usage"].
Definition hits_names : list string :=
  ["sglang:prefix_cache_hits_total"; "sglang_prefix_cache_hits_total";
   "sglang:prefix_cache_hits"; "sglang_prefix_cache_hits";
   "sglang:cached_tokens_total"; "sglang_cached_tokens_total"].
Definition queries_names : list string :=
  ["sglang:prefix_cache_queries_total"; "sglang_prefix_cache_queries_total";
   "sglang:prefix_cache_queries"; "sglang_prefix_cache_queries";
   "sglang:prompt_tokens_total"; "sglang_prompt_tokens_total"].

(** [all(any(name in m for name in names) for names in (...))] *)
Definition all_block_gauges (m : metrics) : bool :=
  forallb (existsb (dmem m)) block_name_sets.

(** A block gauge, or tokens converted to blocks when the gauge is absent or 0. *)
Definition blocks_or_tokens (self : SGLangAdapter) (m : metrics) (names tokens : list string) : res float :=
  let blocks := _pick_metric m names f0 in
  if feqb blocks f0 then
    let t := _pick_metric m tokens f0 in
    if t >?. f0 then _tokens_to_blocks self t else Ok blocks
  else Ok blocks.

(** [max(0.0, total - active)] when there is no free gauge. *)
Definition free_blocks (m : metrics) (total active : float) : float :=
  let free := _pick_metric m free_block_names f0 in
  if feqb free f0 && (total >?. f0) && (active >?. f0) then fmax f0 (total ⊖ active) else free.

Section collect.
Context (set_order : list string -> list string).

(** The quality assigned while the totals are read, and its final value. *)
Definition first_quality (m : metrics) : string :=
  if feqb (_pick_metric m (set_order total_block_names) f0) f0 &&
     (_pick_metric m ["sglang:max_total_num_tokens"; "sglang_max_total_num_tokens"] f0 >?. f0)
  then "estimated" else "missing".
Definition block_evidence (m : metrics) (total usage : float) : string :=
  if all_block_gauges m then "strict"
  else if (total >?. f0) || (usage >?. f0) then "estimated"
  else first_quality m.

Definition snapshot_of (self : SGLangAdapter) (m : metrics) : res NativeSnapshot :=
  total_blocks <-! blocks_or_tokens self m (set_order total_block_names)
                     ["sglang:max_total_num_tokens"; "sglang_max_total_num_tokens"] ;;
  let usage_perc := _pick_metric m usage_names f0 in
  active_blocks <-! blocks_or_tokens self m (set_order active_block_names)
                      ["sglang:num_used_tokens"; "sglang_num_used_tokens"] ;;
  let '(prefix_hits, prefix_hits_metric_name) := _pick_metric_with_name m hits_names f0 in
  let '(prefix_queries, prefix_queries_metric_name) := _pick_metric_with_name m queries_names f0 in
  let '(semantics, comparability, basis, evidence) :=
    _prefix_metric_metadata prefix_hits_metric_name prefix_queries_metric_name in
  Ok {| n_backend := "sglang";
     n_model := model_name self;
     n_instance := instance_name self;
     n_model_group := model_group self;
     n_total_blocks := total_blocks;
     n_usage_perc := usage_perc;
     n_active_blocks := active_blocks;
     n_reusable_cached_blocks := _pick_metric m reusable_block_names f0;
     n_free_uncached_blocks := free_blocks m total_blocks active_blocks;
     n_duplicate_cached_blocks := _pick_metric m
       ["sglang_obs:kv_duplicate_cached_blocks"; "sglang_kv_duplicate_cached_blocks"] f0;
     n_prefix_hits := prefix_hits;
     n_prefix_queries := prefix_queries;
     n_prefix_hits_metric_name := prefix_hits_metric_name;
     n_prefix_queries_metric_name := prefix_queries_metric_name;
     n_prefix_metric_semantics := semantics;
     n_prefix_metric_comparability := comparability;
     n_prefix_metric_basis := basis;
     n_prefix_evidence_quality := evidence;
     n_block_evidence_quality := block_evidence m total_blocks usage_perc;
     n_queue_depth := _pick_metric_optional m
       ["sglang:num_queue_reqs"; "sglang_num_queue_reqs"; "sglang:num_requests_waiting"];
     n_running_requests := _pick_metric_optional m
       ["sglang:num_running_reqs"; "sglang_num_running_reqs"; "sglang:num_requests_running"];
     n_extra := m |}.

Context (http_get : string -> res string)
        (text_string_to_metric_families : string -> res (list Family))
        (env : string).

Definition _parse_metrics_body (text : string) : metrics :=
  aggregate_prometheus_text text_string_to_metric_families env text None.

Definition collect (self : SGLangAdapter) : res NativeSnapshot :=
  text <-! http_get (metrics_url self) ;;
  snapshot_of self (_parse_metrics_body text).
End collect.

(** ** Properties *)

Lemma tokens_to_blocks_ok url model inst group tpb v :
  is_ok (float_of_int (Z.max 1 tpb)) = true ->
  is_ok (_tokens_to_blocks (SGLangAdapter_init url model inst group tpb) v) = true.
Proof.
  unfold _tokens_to_blocks. simpl. unfold float_of_int.
  pose proof (of_Z_ge1 (Z.max 1 tpb) ltac:(lia)) as H.
  destruct (of_Z (Z.max 1 tpb)) as [[]|[]| |[] ? ?]; done.
Qed.
Lemma blocks_or_tokens_ok self m names tokens :
  (forall v, is_ok (_tokens_to_blocks self v) = true) ->
  exists b, blocks_or_tokens self m names tokens = Ok b.
Proof.
  intros H. unfold blocks_or_tokens. destruct (feqb _ _); [|eauto].
  destruct (fltb _ _); [|eauto]. specialize (H (_pick_metric m tokens f0)).
  destruct (_tokens_to_blocks _ _); [eauto|done].
Qed.
Lemma free_blocks_nonneg m total active :
  fleb f0 (_pick_metric m free_block_names f0) = true ->
  fleb f0 (free_blocks m total active) = true.
Proof.
  intros H. unfold free_blocks. case_match; [|done]. unfold fmax.
  destruct (fltb f0 (total ⊖ active)) eqn:E; [by apply fltb_fleb|done].
Qed.
Lemma snapshot_total set_order url model inst group tpb m :
  is_ok (float_of_int (Z.max 1 tpb)) = true ->
  exists s, snapshot_of set_order (SGLangAdapter_init url model inst group tpb) m = Ok s.
Proof.
  intros Htpb. unfold snapshot_of.
  assert (Ht : forall v, is_ok (_tokens_to_blocks (SGLangAdapter_init url model inst group tpb) v) = true) by
    (intros; by apply tokens_to_blocks_ok).
  repeat match goal with |- context [blocks_or_tokens ?s m ?n ?t] =>
    destruct (blocks_or_tokens_ok s m n t Ht) as [? ->] end.
  repeat case_match; eauto.
Qed.

Lemma metadata_missing h q :
  (_prefix_metric_metadata h q).2 = "missing" <-> h = "" \/ q = "".
Proof.
  unfold _prefix_metric_metadata.
  destruct (String.eqb_spec h ""), (String.eqb_spec q ""); simpl; [naive_solver..|].
  case_match; simpl; naive_solver.
Qed.


(** Picking among candidates of which at most one is exported. *)
Lemma pick_metric_found m cs n v x :
  n ∈ cs -> dget m n = Some v ->
  (forall n', n' ∈ cs -> dmem m n' = true -> n' = n) -> _pick_metric m cs x = v.
Proof.
  intros Hn Hv. induction Hn as [n cs|n c cs _ IH]; intros Hu; simpl; [by rewrite Hv|].
  destruct (dget m c) as [w|] eqn:E.
  - assert (c = n) as -> by (apply Hu; [by left|unfold dmem; by rewrite E]). congruence.
  - apply IH; [done|]. intros; apply Hu; [by right|done].
Qed.
Lemma pick_metric_none m cs x : existsb (dmem m) cs = false -> _pick_metric m cs x = x.
Proof.
  induction cs as [|c cs IH]; simpl; [done|]. unfold dmem at 1. destruct (dget m c); [done|]. auto.
Qed.
Definition one_spelling (m : metrics) (names : list string) : Prop :=
  forall a b, a ∈ names -> b ∈ names -> dmem m a = true -> dmem m b = true -> a = b.

Lemma pick_metric_order m cs cs' x :
  cs' ≡ₚ cs -> one_spelling m cs -> _pick_metric m cs' x = _pick_metric m cs x.
Proof.
  intros Hp Hu. destruct (existsb (dmem m) cs) eqn:E.
  - apply existsb_elem in E as (n & Hn & Hv). pose proof Hv as Hm. unfold dmem in Hv.
    destruct (dget m n) as [v|] eqn:Ev; [|done].
    rewrite (pick_metric_found m cs n v), (pick_metric_found m cs' n v); [done|..]; auto.
    + by rewrite Hp.
    + intros n' Hn' ?. rewrite Hp in Hn'. by apply Hu.
  - rewrite !pick_metric_none; [done|done|]. apply not_true_iff_false. intros H.
    apply not_true_iff_false in E. apply E. apply existsb_elem in H as (n & Hn & ?).
    rewrite Hp in Hn. apply existsb_elem. eauto.
Qed.

(** The hash order of the name sets does not matter on a scrape that uses one
    spelling of the total and of the active gauge. *)
Theorem sglang_order_independent o1 o2 self m :
  (forall l, o1 l ≡ₚ l) -> (forall l, o2 l ≡ₚ l) ->
  one_spelling m total_block_names -> one_spelling m active_block_names ->
  snapshot_of o1 self m = snapshot_of o2 self m.
Proof.
  intros H1 H2 Ht Ha. unfold snapshot_of, block_evidence, first_quality, blocks_or_tokens.
  rewrite (pick_metric_order m total_block_names (o1 total_block_names)) by auto.
  rewrite (pick_metric_order m total_block_names (o2 total_block_names)) by auto.
  rewrite (pick_metric_order m active_block_names (o1 active_block_names)) by auto.
  by rewrite (pick_metric_order m active_block_names (o2 active_block_names)) by auto.
Qed.
Lemma sglang_order_independent_witness :
  snapshot_of id (SGLangAdapter_init "u" "m" "i" "" 16) [("sglang_kv_total_blocks", f1)] =
  snapshot_of (@rev string) (SGLangAdapter_init "u" "m" "i" "" 16) [("sglang_kv_total_blocks", f1)].
Proof.
  assert (Hm : forall n, dmem [("sglang_kv_total_blocks", f1)] n = true -> n = "sglang_kv_total_blocks").
  { intros n. unfold dmem. simpl. destruct (String.eqb_spec n "sglang_kv_total_blocks"); done. }
  apply sglang_order_independent; [done|intros; symmetry; apply Permutation_rev| |];
    intros a b _ _ Ha Hb; apply Hm in Ha, Hb; congruence.
Defined.

(** With both spellings the order does matter, and a token counter over a query
    counter is labelled strict. *)
Example both_spellings :
  let m := [("sglang:kv_total_blocks", f1); ("sglang_kv_total_blocks", dec 2 0)] in
  snapshot_of id (SGLangAdapter_init "u" "m" "i" "" 16) m <>
  snapshot_of (@rev string) (SGLangAdapter_init "u" "m" "i" "" 16) m.
Proof. vm_compute. discriminate. Qed.
Example mixed_bases :
  _prefix_metric_metadata "sglang:cached_tokens_total" "sglang:prefix_cache_queries_total" =
  ("prefix_query_counters", "strict", "queries", "strict").
Proof. vm_compute. reflexivity. Qed.
