(* ===== verification/Adapter.v ===== *)
(** * The interface of the metrics adapters

    The exporter is written against any object with a [collect] method.  [MetricsAdapter]
    states what it relies on: one scrape of one URL, which raises when the request does,
    and returns a snapshot for every page the backend can answer with, whatever is on
    it.  Both adapters of the repository are instances. *)

From S2P Require Import Prelude PyFloat PyStr PyVal PromParse Schemas VllmAdapter SglangAdapter.

(** What a scrape reads from outside. *)
Record Scrape := {
  sc_http_get : string -> res string;
  sc_text_string_to_metric_families : string -> res (list Family);
  sc_label_filter_env : string;
  sc_set_order : list string -> list string
}.

Class MetricsAdapter (A : Type) := {
  scrape_url : A -> string;
  configured : A -> Prop;
  collect_from : Scrape -> A -> res NativeSnapshot;
  collect_raises s a e : sc_http_get s (scrape_url a) = Err e -> collect_from s a = Err e;
  collect_returns s a text : configured a -> sc_http_get s (scrape_url a) = Ok text ->
    exists native, collect_from s a = Ok native
}.

#[global] Program Instance vllm_adapter : MetricsAdapter VllmAdapter.VllmAdapter := {
  scrape_url := VllmAdapter.metrics_url;
  configured _ := True;
  collect_from s := VllmAdapter.collect (sc_http_get s) (sc_text_string_to_metric_families s) (sc_label_filter_env s)
}.
Next Obligation. intros s a e H. unfold VllmAdapter.collect. by rewrite H. Qed.
Next Obligation. intros s a text _ H. unfold VllmAdapter.collect. rewrite H. eauto. Qed.

(** An SGLang adapter as its constructor makes it, with a block size that is a float. *)
Definition made_by_init (a : SGLangAdapter) : Prop :=
  exists url model inst group tpb, a = SGLangAdapter_init url model inst group tpb /\
    is_ok (float_of_int (Z.max 1 tpb)) = true.

#[global] Program Instance sglang_adapter : MetricsAdapter SGLangAdapter := {
  scrape_url := SglangAdapter.metrics_url;
  configured := made_by_init;
  collect_from s := SglangAdapter.collect (sc_set_order s) (sc_http_get s)
    (sc_text_string_to_metric_families s) (sc_label_filter_env s)
}.
Next Obligation. intros s a e H. unfold SglangAdapter.collect. by rewrite H. Qed.
Next Obligation.
  intros s a text (url & model & inst & group & tpb & -> & Htpb) H. unfold SglangAdapter.collect. rewrite H.
  by apply snapshot_total.
Qed.

(** [VllmAdapter | SGLangAdapter] *)
Section either.
Context {A B : Type} `{MetricsAdapter A, MetricsAdapter B}.
#[global] Program Instance either_adapter : MetricsAdapter (A + B) := {
  scrape_url a := match a with inl a => scrape_url a | inr b => scrape_url b end;
  configured a := match a with inl a => configured a | inr b => configured b end;
  collect_from s a := match a with inl a => collect_from s a | inr b => collect_from s b end
}.
Next Obligation. intros s [a|b] e; apply collect_raises. Qed.
Next Obligation. intros s [a|b] text; apply collect_returns. Qed.
End either.
