(* ===== verification/Derive.v ===== *)
(** * Derived residency signals (exporter/derive/compute.py) *)

From S2P Require Import Prelude PyFloat FloatOrder PyStr PyVal PromParse Schemas.

(** [max(0.0, min(1.0, v))]; Python's [min] and [max] keep their first argument
    unless the second is strictly better, so a NaN becomes 1.0. *)
Definition _clamp01 (v : float) : float := fmax f0 (fmin f1 v).

Definition _usage_ratio (usage_perc : float) : res float :=
  if usage_perc <=?. f0 then Ok f0
  else if usage_perc <=?. f1 then Ok (_clamp01 usage_perc)
  else r <-! fdiv usage_perc (dec 100 0) ;; Ok (_clamp01 r).

Record DeriveState := { last_prefix_hits : option float }.

(** [state] is mutated in place by the source; the new value is returned. *)
Definition compute_derived (native : NativeSnapshot) (state : option DeriveState)
  : res (DerivedSnapshot * option DeriveState) :=
  let total := fmax (n_total_blocks native) f0 in
  let active := n_active_blocks native in
  let reusable := n_reusable_cached_blocks native in
  let free_uncached := n_free_uncached_blocks native in
  usage_ratio <-! _usage_ratio (n_usage_perc native) ;;
  ' (hidden, effective, cold) <-!
    (if total >?. f0 then
       hidden <-! fdiv reusable total ;;
       effective <-! fdiv (active ⊕ reusable) total ;;
       cold <-! fdiv free_uncached total ;;
       Ok (hidden, effective, cold)
     else Ok (f0, usage_ratio, f1 ⊖ usage_ratio)) ;;
  let hits := n_prefix_hits native in
  let queries := n_prefix_queries native in
  hit_ratio <-! (if queries >?. f0 then fdiv hits queries else Ok f0) ;;
  ' (cache_hit_ratio, state') <-!
    match state with
    | Some _ =>
        r <-! (if queries >?. f0 then q <-! fdiv hits queries ;; Ok (Some q) else Ok None) ;;
        Ok (r, Some {| last_prefix_hits := Some hits |})
    | None => Ok (if queries >?. f0 then Some hit_ratio else None, None)
    end ;;
  Ok ({| d_backend := n_backend native;
         d_model := n_model native;
         d_instance := n_instance native;
         d_model_group := n_model_group native;
         d_total_blocks := total;
         d_active_blocks := active;
         d_reusable_cached_blocks := reusable;
         d_free_uncached_blocks := free_uncached;
         d_duplicate_cached_blocks := n_duplicate_cached_blocks native;
         d_prefix_blocks := reusable;
         d_hidden_reuse_ready_perc := _clamp01 hidden;
         d_effective_residency_perc := _clamp01 effective;
         d_cold_free_perc := _clamp01 cold;
         d_cache_hit_ratio := option_map _clamp01 cache_hit_ratio;
         d_prefix_hits_metric_name := n_prefix_hits_metric_name native;
         d_prefix_queries_metric_name := n_prefix_queries_metric_name native;
         d_prefix_metric_semantics := n_prefix_metric_semantics native;
         d_prefix_metric_comparability := n_prefix_metric_comparability native;
         d_prefix_metric_basis := n_prefix_metric_basis native;
         d_prefix_evidence_quality := n_prefix_evidence_quality native;
         d_block_evidence_quality := n_block_evidence_quality native;
         d_queue_depth := n_queue_depth native;
         d_running_requests := n_running_requests native |}, state').

(** ** Properties *)

#[local] Arguments _clamp01 : simpl never.

Lemma clamp01_in01 v : in01 (_clamp01 v) = true.
Proof. apply clamp_in01. Qed.
Lemma clamp01_id v : in01 v = true -> feqb (_clamp01 v) v = true.
Proof. apply clamp_id. Qed.
Lemma fdiv_pos x y : fltb f0 y = true -> is_ok (fdiv x y) = true.
Proof.
  unfold fdiv. destruct (is_zero y) eqn:E; [|done]. destruct y as [[]|[]| |[] ? ?]; done.
Qed.
Lemma usage_ratio_ok u : exists r, _usage_ratio u = Ok r /\ in01 r = true.
Proof.
  unfold _usage_ratio. destruct (fleb u f0) eqn:E0; [by exists f0|].
  destruct (fleb u f1) eqn:E1; [exists (_clamp01 u); auto using clamp01_in01|].
  pose proof (fdiv_pos u (dec 100 0) ltac:(by vm_compute)) as Hd.
  destruct (fdiv u (dec 100 0)) as [q|]; [|done]. eauto using clamp01_in01.
Qed.

(** Invert the three binds of the residency ratios. *)
Lemma residency_ok (native : NativeSnapshot) total u :
  total = fmax (n_total_blocks native) f0 ->
  exists h e c,
    (if total >?. f0 then
       hidden <-! fdiv (n_reusable_cached_blocks native) total ;;
       effective <-! fdiv (n_active_blocks native ⊕ n_reusable_cached_blocks native) total ;;
       cold <-! fdiv (n_free_uncached_blocks native) total ;;
       Ok (hidden, effective, cold)
     else Ok (f0, u, f1 ⊖ u)) = Ok (h, e, c).
Proof.
  intros _. destruct (fltb f0 total) eqn:E; [|eauto].
  pose proof (fun x => fdiv_pos x total E) as Hd.
  pose proof (Hd (n_reusable_cached_blocks native)) as H1.
  pose proof (Hd (n_active_blocks native ⊕ n_reusable_cached_blocks native)) as H2.
  pose proof (Hd (n_free_uncached_blocks native)) as H3.
  destruct (fdiv (n_reusable_cached_blocks native) total); [|done].
  destruct (fdiv (_ ⊕ _) total); [|done].
  destruct (fdiv (n_free_uncached_blocks native) total); [|done]. eauto.
Qed.

(** [compute_derived] always returns, and the tracked state never changes the result. *)
Lemma compute_derived_total (native : NativeSnapshot) (state : option DeriveState) :
  exists d st, compute_derived native state = Ok (d, st) /\ compute_derived native None = Ok (d, None).
Proof.
  unfold compute_derived. destruct (usage_ratio_ok (n_usage_perc native)) as (u & -> & Hu).
  destruct (residency_ok native _ u eq_refl) as (h & e & c & ->).
  destruct (fltb f0 (n_prefix_queries native)) eqn:Eq.
  - pose proof (fdiv_pos (n_prefix_hits native) _ Eq) as Hq.
    destruct (fdiv (n_prefix_hits native) (n_prefix_queries native)) as [q|]; [|done]. destruct state; eauto.
  - destruct state; eauto.
Qed.

(** C37: on every snapshot, NaN and infinities included, [compute_derived] returns;
    its residency ratios and its hit ratio are numbers of [0, 1]; the hit ratio is
    absent exactly when no query was counted; and the tracked state never changes
    the result. *)
Theorem compute_derived_ratios (native : NativeSnapshot) (state : option DeriveState) :
  exists d st, compute_derived native state = Ok (d, st) /\
    in01 (d_hidden_reuse_ready_perc d) = true /\
    in01 (d_effective_residency_perc d) = true /\
    in01 (d_cold_free_perc d) = true /\
    match d_cache_hit_ratio d with
    | Some h => in01 h = true /\ fltb f0 (n_prefix_queries native) = true
    | None => fltb f0 (n_prefix_queries native) = false
    end /\
    compute_derived native None = Ok (d, None).
Proof.
  unfold compute_derived.
  destruct (usage_ratio_ok (n_usage_perc native)) as (u & -> & Hu).
  destruct (residency_ok native _ u eq_refl) as (h & e & c & ->).
  destruct (fltb f0 (n_prefix_queries native)) eqn:Eq.
  - pose proof (fdiv_pos (n_prefix_hits native) _ Eq) as Hq.
    destruct (fdiv (n_prefix_hits native) (n_prefix_queries native)) as [q|]; [|done].
    destruct state; do 2 eexists; (split; [reflexivity|]); cbn; split_and!; auto using clamp01_in01.
  - destruct state; do 2 eexists; (split; [reflexivity|]); cbn; split_and!; auto using clamp01_in01.
Qed.

(** Clamping does not distort a scrape that is consistent: with block counts
    the published ratios equal the quotients whenever these lie in [0, 1], and
    without block counts the residency is the usage ratio, never a made-up count. *)
Theorem compute_derived_exact (native : NativeSnapshot) d st :
  compute_derived native None = Ok (d, st) ->
  let total := d_total_blocks d in
  (fltb f0 total = true -> forall q,
     (fdiv (n_reusable_cached_blocks native) total = Ok q -> in01 q = true ->
        feqb (d_hidden_reuse_ready_perc d) q = true) /\
     (fdiv (n_active_blocks native ⊕ n_reusable_cached_blocks native) total = Ok q -> in01 q = true ->
        feqb (d_effective_residency_perc d) q = true) /\
     (fdiv (n_free_uncached_blocks native) total = Ok q -> in01 q = true ->
        feqb (d_cold_free_perc d) q = true)) /\
  (fltb f0 total = false ->
     feqb (d_hidden_reuse_ready_perc d) f0 = true /\
     exists u, _usage_ratio (n_usage_perc native) = Ok u /\
               feqb (d_effective_residency_perc d) u = true).
Proof.
  unfold compute_derived. intros H.
  destruct (usage_ratio_ok (n_usage_perc native)) as (u & Hu & Hu01). rewrite Hu in *.
  destruct (residency_ok native _ u eq_refl) as (h & e & c & Hr). rewrite Hr in H.
  assert (Hd : d_total_blocks d = fmax (n_total_blocks native) f0 /\
    d_hidden_reuse_ready_perc d = _clamp01 h /\ d_effective_residency_perc d = _clamp01 e /\
    d_cold_free_perc d = _clamp01 c).
  { inv_ok H. by simplify_eq. }
  destruct Hd as (-> & -> & -> & ->). clear H. cbn zeta.
  destruct (fltb f0 (fmax (n_total_blocks native) f0)); (split; [|done]) || (split; [done|]).
  - intros _ q. inv_ok Hr. simplify_eq. split_and!; intros ? ?; simplify_eq; by apply clamp01_id.
  - intros _. simplify_eq. split; [by vm_compute|]. exists e. split; [done|]. by apply clamp01_id.
Qed.

(** A scrape with 100 blocks of which 40 are active and 20 reusable. *)
Definition example_native : NativeSnapshot := {|
  n_backend := "vllm"; n_model := "m"; n_instance := "i"; n_model_group := "";
  n_total_blocks := dec 100 0; n_usage_perc := dec 4 (-1); n_active_blocks := dec 40 0;
  n_reusable_cached_blocks := dec 20 0; n_free_uncached_blocks := dec 40 0;
  n_duplicate_cached_blocks := f0; n_prefix_hits := dec 3 0; n_prefix_queries := dec 4 0;
  n_prefix_hits_metric_name := "h"; n_prefix_queries_metric_name := "q";
  n_prefix_metric_semantics := "prefix_query_counters"; n_prefix_metric_comparability := "strict";
  n_prefix_metric_basis := "queries"; n_prefix_evidence_quality := "strict";
  n_block_evidence_quality := "strict"; n_queue_depth := None; n_running_requests := None;
  n_extra := [] |}.
Lemma compute_derived_exact_witness :
  exists d st, compute_derived example_native None = Ok (d, st) /\
    feqb (d_hidden_reuse_ready_perc d) (dec 2 (-1)) = true.
Proof.
  eexists _, _. split; [vm_compute; reflexivity|].
  eapply (compute_derived_exact example_native); vm_compute; reflexivity.
Defined.
