(* ===== verification/BackendState.v ===== *)
(** * The backend-state document and the tuning advice
    (exporter/backend_state.py, exporter/advisor.py) *)

From S2P Require Import Prelude PyFloat FloatOrder PyStr PyVal PySort Digest PromParse Schemas.

Definition SCHEMA_VERSION : string := "kavora.backend-state/v1".

Definition _quality (value : option float) (stale : bool) : string :=
  match value with
  | None => "missing"
  | Some _ => if stale then "stale" else "fresh"
  end.

(** [a or b] on strings. *)
Definition str_or (a b : string) : string := if String.eqb a "" then b else a.

Definition _signal (value : option float) (source : string) (observed : Z)
    (semantics evidence_quality : string) (stale : bool) : val :=
  VDict [("value", VFloat (default f0 value));
         ("has_value", VBool (match value with Some _ => true | None => false end));
         ("quality", VStr (_quality value stale));
         ("source", VStr (str_or source "derived"));
         ("observed_at_unix_millis", VInt observed);
         ("semantics", VStr semantics);
         ("evidence_quality", VStr evidence_quality)]%string.

Definition present_quality (v : option float) : string :=
  match v with Some _ => "strict" | None => "missing" end.

Definition signals_of (snap : DerivedSnapshot) (observed : Z) (stale : bool) : list (string * val) :=
  let prefix_source := str_or (d_prefix_hits_metric_name snap)
                         (str_or (d_prefix_queries_metric_name snap) "derived") in
  let block v source semantics :=
    _signal (Some v) source observed semantics (d_block_evidence_quality snap) stale in
  [("total_blocks", block (d_total_blocks snap) "derived.total_blocks" "gauge");
   ("active_blocks", block (d_active_blocks snap) "derived.active_blocks" "gauge");
   ("reusable_cached_blocks", block (d_reusable_cached_blocks snap) "derived.reusable_cached_blocks" "gauge");
   ("free_uncached_blocks", block (d_free_uncached_blocks snap) "derived.free_uncached_blocks" "gauge");
   ("duplicate_cached_blocks", block (d_duplicate_cached_blocks snap) "derived.duplicate_cached_blocks" "gauge");
   ("hidden_reuse_ready_perc", block (d_hidden_reuse_ready_perc snap) "derived.hidden_reuse_ready_perc" "ratio");
   ("effective_residency_perc", block (d_effective_residency_perc snap) "derived.effective_residency_perc" "ratio");
   ("cold_free_perc", block (d_cold_free_perc snap) "derived.cold_free_perc" "ratio");
   ("cache_hit_ratio", _signal (d_cache_hit_ratio snap) prefix_source observed
      (d_prefix_metric_semantics snap) (d_prefix_evidence_quality snap) stale);
   ("queue_depth", _signal (d_queue_depth snap) "backend.queue_depth" observed "gauge"
      (present_quality (d_queue_depth snap)) stale);
   ("running_requests", _signal (d_running_requests snap) "backend.running_requests" observed "gauge"
      (present_quality (d_running_requests snap)) stale)]%string.

(** [now] is [time.time()], read when no observation time is given. *)
Definition snapshot_from_derived (snap : DerivedSnapshot) (backend_id : option string)
    (observed_at : option Z) (stale : bool) (now : float) : res (list (string * val)) :=
  observed <-! (match observed_at with
                | Some t => if t =? 0 then int_of_float (now ⊗ dec 1000 0) else Ok t
                | None => int_of_float (now ⊗ dec 1000 0)
                end) ;;
  let backend_key := str_or (default "" backend_id) (d_backend snap +:+ ":" +:+ d_instance snap) in
  let body := [("schema_version", VStr SCHEMA_VERSION);
               ("backend_id", VStr backend_key);
               ("backend", VStr (d_backend snap));
               ("model", VStr (d_model snap));
               ("instance", VStr (d_instance snap));
               ("model_group", VStr (d_model_group snap));
               ("observed_at_unix_millis", VInt observed);
               ("signals", VDict (signals_of snap observed stale))]%string in
  canonical <-! json_dumps (VDict body) ;;
  Ok (dset body "snapshot_hash" (VStr (sha256_hex canonical))).

Definition snapshot_json (snap : DerivedSnapshot) (backend_id : option string)
    (observed_at : option Z) (stale : bool) (now : float) : res string :=
  d <-! snapshot_from_derived snap backend_id observed_at stale now ;;
  t <-! json_text (indented true) 0 (VDict d) ;;
  Ok (t +:+ str [chr 10]).

(** ** Advice *)

Record recommendation := { severity : string; rec_code : string; action : string; reason : string }.

Definition rec_val (r : recommendation) : val :=
  VDict [("severity", VStr (severity r)); ("code", VStr (rec_code r));
         ("action", VStr (action r)); ("reason", VStr (reason r))]%string.
Definition when (b : bool) (sev code act why : string) : list recommendation :=
  if b then [{| severity := sev; rec_code := code; action := act; reason := why |}] else [].

Definition not_strict (q : string) : bool :=
  existsb (String.eqb q) ["estimated"; "fallback"; "missing"].

Definition recommendations_of (snapshot : DerivedSnapshot) (stale : bool) : list recommendation :=
  let evidence := d_prefix_evidence_quality snapshot in
  let recs :=
    when stale "critical" "metrics_stale" "check_backend_metrics_endpoint"
      "backend metrics are stale; keep static routing and do not promote KV-aware decisions"
    ++ when (not_strict evidence) "warning" "cache_evidence_not_strict" "keep_recommendations_dry_run_only"
      ("cache evidence quality is " +:+ evidence +:+ "; do not auto-promote a calibrated policy")
    ++ match d_cache_hit_ratio snapshot with
       | None => when true "info" "cache_hit_ratio_missing" "enable_comparable_prefix_counters"
                   "cache hit ratio is unavailable and must not be inferred from zero"
       | Some h => when (h <?. dec 2 (-1)) "warning" "low_prefix_reuse"
                     "increase_shared_prefix_or_review_prompt_stability"
                     ("cache hit ratio is " +:+ fmt_fixed 3 h)
       end
    ++ when (d_cold_free_perc snapshot >?. dec 35 (-2)) "info" "cold_capacity_available"
         "consider_higher_concurrency_or_batch_size"
         ("cold free ratio is " +:+ fmt_fixed 3 (d_cold_free_perc snapshot))
    ++ when (d_effective_residency_perc snapshot >?. dec 9 (-1)) "warning" "kv_pressure_high"
         "reduce_concurrency_or_increase_gpu_memory"
         ("effective residency is " +:+ fmt_fixed 3 (d_effective_residency_perc snapshot))
    ++ when (d_duplicate_cached_blocks snapshot >?. fmax (d_total_blocks snapshot ⊗ dec 1 (-1)) f1)
         "warning" "duplicate_cache_pressure" "review_prefix_normalization_and_tenant_isolation"
         ("duplicate cached blocks are " +:+ fmt_fixed 1 (d_duplicate_cached_blocks snapshot)) in
  match recs with
  | [] => when true "ok" "healthy" "continue_observing" "no immediate tuning action is indicated"
  | _ => recs
  end.

Definition build_advice (snapshot : DerivedSnapshot) (stale : bool) : list (string * val) :=
  [("schema_version", VStr "kavora-advice/v1");
   ("backend", VStr (d_backend snapshot));
   ("model", VStr (d_model snapshot));
   ("instance", VStr (d_instance snapshot));
   ("observed_at_unix_millis", VInt 0);
   ("recommendations", VList (map rec_val (recommendations_of snapshot stale)))]%string.

(** ** Properties *)

Lemma when_elem r b s c a w :
  r ∈ when b s c a w <-> b = true /\ r = {| severity := s; rec_code := c; action := a; reason := w |}.
Proof. unfold when. destruct b; rewrite ?list_elem_of_singleton; set_solver. Qed.

Lemma signals_jsonable snap observed stale : jsonable (VDict (signals_of snap observed stale)) = true.
Proof. reflexivity. Qed.

(** The value each signal of the document reports. *)
Definition signal_values (snap : DerivedSnapshot) : list (string * option float) :=
  [("total_blocks", Some (d_total_blocks snap)); ("active_blocks", Some (d_active_blocks snap));
   ("reusable_cached_blocks", Some (d_reusable_cached_blocks snap));
   ("free_uncached_blocks", Some (d_free_uncached_blocks snap));
   ("duplicate_cached_blocks", Some (d_duplicate_cached_blocks snap));
   ("hidden_reuse_ready_perc", Some (d_hidden_reuse_ready_perc snap));
   ("effective_residency_perc", Some (d_effective_residency_perc snap));
   ("cold_free_perc", Some (d_cold_free_perc snap));
   ("cache_hit_ratio", d_cache_hit_ratio snap);
   ("queue_depth", d_queue_depth snap); ("running_requests", d_running_requests snap)]%string.

(** A snapshot document is produced for every derived snapshot as soon as its
    observation time is known; its hash is the SHA-256 of the canonical text of all
    its other fields; and each of its eleven signals says whether it has a value: an
    unknown one is marked missing, so its 0.0 cannot be taken for a measurement. *)
Theorem snapshot_document snap backend_id t stale now :
  t <> 0 ->
  exists rest canonical,
    snapshot_from_derived snap backend_id (Some t) stale now =
      Ok (rest ++ [("snapshot_hash", VStr (sha256_hex canonical))]) /\
    json_dumps (VDict rest) = Ok canonical /\
    exists signals, dget rest "signals" = Some (VDict signals) /\
      dkeys signals = dkeys (signal_values snap) /\
      forall name value, (name, value) ∈ signal_values snap ->
        exists s, dget signals name = Some s /\
          vitem s "value" = Ok (VFloat (default f0 value)) /\
          vitem s "has_value" = Ok (VBool (bool_decide (is_Some value))) /\
          vitem s "quality" = Ok (VStr (match value with
                                        | None => "missing"
                                        | Some _ => if stale then "stale" else "fresh" end)) /\
          vitem s "observed_at_unix_millis" = Ok (VInt t).
Proof.
  intros Ht. unfold snapshot_from_derived. apply Z.eqb_neq in Ht. rewrite Ht. clear Ht.
  match goal with |- context [json_dumps ?v] => destruct (json_text_ok compact v 0) as [c Hc] end;
    [reflexivity|].
  unfold json_dumps. rewrite Hc. eexists _, c. split; [|split; [exact Hc|]].
  - reflexivity.
  - eexists. split; [reflexivity|]. split; [reflexivity|]. intros name value Hin.
    unfold signal_values in Hin.
    repeat (apply elem_of_cons in Hin as [Hin|Hin];
      [injection Hin as -> Hv; eexists; split; [reflexivity|]; rewrite <- ?Hv; clear Hv;
       split_and!; first [reflexivity|by destruct value]|]).
    by apply elem_of_nil in Hin.
Qed.
Definition example_snapshot : DerivedSnapshot := {|
  d_backend := "vllm"; d_model := "m"; d_instance := "i"; d_model_group := "";
  d_total_blocks := dec 100 0; d_active_blocks := dec 40 0; d_reusable_cached_blocks := dec 20 0;
  d_free_uncached_blocks := dec 40 0; d_duplicate_cached_blocks := f0; d_prefix_blocks := dec 20 0;
  d_hidden_reuse_ready_perc := dec 2 (-1); d_effective_residency_perc := dec 6 (-1);
  d_cold_free_perc := dec 4 (-1); d_cache_hit_ratio := None;
  d_prefix_hits_metric_name := ""; d_prefix_queries_metric_name := "";
  d_prefix_metric_semantics := "missing"; d_prefix_metric_comparability := "missing";
  d_prefix_metric_basis := "missing"; d_prefix_evidence_quality := "missing";
  d_block_evidence_quality := "strict"; d_queue_depth := None; d_running_requests := Some f1 |}.
Lemma snapshot_document_witness :
  exists rest canonical,
    snapshot_from_derived example_snapshot None (Some 1700) false f0 =
      Ok (rest ++ [("snapshot_hash", VStr (sha256_hex canonical))]) /\
    json_dumps (VDict rest) = Ok canonical.
Proof.
  destruct (snapshot_document example_snapshot None 1700 false f0) as (r & c & H1 & H2 & _);
    [discriminate|]. by exists r, c.
Defined.

Definition has_code (recs : list recommendation) (c : string) : bool :=
  existsb (fun r => String.eqb (rec_code r) c) recs.

(** Membership of a code in a concatenation of conditional recommendations. *)
Lemma existsb_code_when p b s c a w :
  existsb (fun r => p (rec_code r)) (when b s c a w) = b && p c.
Proof. destruct b; simpl; [apply orb_false_r|done]. Qed.

(** The advice is never empty; each code is given exactly under its condition;
    [healthy] is given exactly when no condition holds, and stale metrics are
    always reported. *)
Theorem advice_codes snapshot stale :
  let recs := recommendations_of snapshot stale in
  let weak := not_strict (d_prefix_evidence_quality snapshot) in
  let no_ratio := is_none (opt_float (d_cache_hit_ratio snapshot)) in
  let low := match d_cache_hit_ratio snapshot with Some h => h <?. dec 2 (-1) | None => false end in
  let cold := d_cold_free_perc snapshot >?. dec 35 (-2) in
  let pressure := d_effective_residency_perc snapshot >?. dec 9 (-1) in
  let dup := d_duplicate_cached_blocks snapshot >?. fmax (d_total_blocks snapshot ⊗ dec 1 (-1)) f1 in
  recs <> [] /\
  has_code recs "metrics_stale" = stale /\
  has_code recs "cache_evidence_not_strict" = weak /\
  has_code recs "cache_hit_ratio_missing" = no_ratio /\
  has_code recs "low_prefix_reuse" = low /\
  has_code recs "cold_capacity_available" = cold /\
  has_code recs "kv_pressure_high" = pressure /\
  has_code recs "duplicate_cache_pressure" = dup /\
  has_code recs "healthy" = negb (stale || weak || no_ratio || low || cold || pressure || dup).
Proof.
  cbn zeta. unfold recommendations_of. set (recs := _ ++ _).
  set (weak := not_strict _). set (no_ratio := is_none _).
  set (low := match d_cache_hit_ratio snapshot with Some _ => _ | None => _ end).
  set (cold := fltb (dec 35 (-2)) _). set (pressure := fltb (dec 9 (-1)) _). set (dup := fltb (fmax _ _) _).
  assert (H : forall p : string -> bool, existsb (fun r => p (rec_code r)) recs =
    stale && p "metrics_stale" || (weak && p "cache_evidence_not_strict" ||
    (no_ratio && p "cache_hit_ratio_missing" || low && p "low_prefix_reuse" ||
    (cold && p "cold_capacity_available" || (pressure && p "kv_pressure_high" ||
    dup && p "duplicate_cache_pressure"))))%string).
  { intros p. subst recs no_ratio low. rewrite !existsb_app, !existsb_code_when.
    destruct (d_cache_hit_ratio snapshot); rewrite existsb_code_when; simpl;
      by rewrite ?orb_false_r. }
  clearbody recs weak no_ratio low cold pressure dup.
  destruct recs as [|r rest].
  - specialize (H (fun _ => true)). simpl in H. rewrite !andb_true_r in H.
    symmetry in H. bool_hyps. by subst.
  - unfold has_code. rewrite !(H (fun c => String.eqb c _)).
    specialize (H (fun _ => true)). simpl in H.
    cbn -[andb orb]. rewrite ?andb_true_r, ?andb_false_r, ?orb_false_r, ?orb_false_l in *.
    split; [done|]. split_and!; [reflexivity..|]. symmetry. apply negb_false_iff. rewrite H.
    by rewrite <- !orb_assoc.
Qed.
