(* ===== verification/PromWriter.v ===== *)
(** * The metrics writer (exporter/registry/prom_writer.py)

    The writer keeps a dictionary of gauges and drives a [prometheus_client]
    registry.  The registry is third-party code: the model emits the calls made to it
    as a list of commands, and its documented contract (a name is registered at most
    once, only a registered collector is unregistered or set) is the predicate
    [legal] on command traces. *)

From S2P Require Import Prelude PyFloat PyStr PyVal PromParse Schemas BackendState.

Inductive cmd : Type :=
| Register (name : string)
| Unregister (name : string)
| SetGauge (name : string) (v : float)
| SetInfo (name : string) (ls : labels)
| Inc (name : string).

(** [_gauges]: the names with a live gauge, in insertion order. *)
Record PromWriter := { _gauges : list string }.

Definition fixed_collectors : list string :=
  ["kvcache_exporter_scrape_failures_total"; "kvcache_exporter_prefix_metric_semantics";
   "kvcache_exporter_prefix_metric_comparable"; "kvcache_exporter_prefix_metric_token_fallback";
   "kvcache_exporter_prefix_metric_estimated"].
Definition gauge_names : list string :=
  ["kvcache_kv_total_blocks"; "kvcache_kv_active_blocks"; "kvcache_kv_reusable_cached_blocks";
   "kvcache_kv_free_uncached_blocks"; "kvcache_kv_duplicate_cached_blocks";
   "kvcache_kv_hidden_reuse_ready_perc"; "kvcache_kv_effective_residency_perc";
   "kvcache_kv_cold_free_perc"; "kvcache_kv_cache_hit_ratio"; "kvcache_backend_queue_depth";
   "kvcache_backend_running_requests"; "kvcache_exporter_scrape_last_success_timestamp_seconds";
   "kvcache_exporter_scrape_consecutive_failures"].
Definition _optional_gauges : list string :=
  ["kvcache_kv_cache_hit_ratio"; "kvcache_backend_queue_depth"; "kvcache_backend_running_requests"].
Definition required_gauges : list string :=
  List.filter (fun n => negb (existsb (String.eqb n) _optional_gauges)) gauge_names.

Definition PromWriter_init : PromWriter * list cmd :=
  ({| _gauges := required_gauges |}, map Register (fixed_collectors ++ required_gauges)).

(** A step of the writer: the commands are appended to those emitted so far. *)
Definition writer := (PromWriter * list cmd)%type.
Definition emit (w : writer) (c : list cmd) : writer := (w.1, w.2 ++ c).

(** [self._gauges[name].set(v)] *)
Definition set_gauge (w : writer) (nv : string * float) : res writer :=
  if existsb (String.eqb nv.1) (_gauges w.1) then Ok (emit w [SetGauge nv.1 nv.2])
  else Err (KeyError nv.1).

Definition _set_optional_gauge (w : writer) (nv : string * option float) : res writer :=
  let '(name, value) := nv in
  let live := existsb (String.eqb name) (_gauges w.1) in
  match value with
  | None =>
      Ok (if live then
            ({| _gauges := List.filter (fun n => negb (String.eqb n name)) (_gauges w.1) |},
             w.2 ++ [Unregister name])
          else w)
  | Some v =>
      (* [self._gauge_help[name]] is read when the gauge is created *)
      if live then Ok (emit w [SetGauge name v])
      else if existsb (String.eqb name) gauge_names then
        Ok ({| _gauges := _gauges w.1 ++ [name] |}, w.2 ++ [Register name; SetGauge name v])
      else Err (KeyError name)
  end.

Definition info_labels (snap : DerivedSnapshot) : labels :=
  [("backend", str_or (d_backend snap) "unknown");
   ("semantics", str_or (d_prefix_metric_semantics snap) "missing");
   ("comparability", str_or (d_prefix_metric_comparability snap) "missing");
   ("basis", str_or (d_prefix_metric_basis snap) "missing");
   ("hits_metric", str_or (d_prefix_hits_metric_name snap) "missing");
   ("queries_metric", str_or (d_prefix_queries_metric_name snap) "missing");
   ("evidence_quality", str_or (d_prefix_evidence_quality snap) "missing")]%string.
Definition flag (b : bool) : float := if b then f1 else f0.

Definition block_gauges (snap : DerivedSnapshot) : list (string * float) :=
  [("kvcache_kv_total_blocks", d_total_blocks snap);
   ("kvcache_kv_active_blocks", d_active_blocks snap);
   ("kvcache_kv_reusable_cached_blocks", d_reusable_cached_blocks snap);
   ("kvcache_kv_free_uncached_blocks", d_free_uncached_blocks snap);
   ("kvcache_kv_duplicate_cached_blocks", d_duplicate_cached_blocks snap);
   ("kvcache_kv_hidden_reuse_ready_perc", d_hidden_reuse_ready_perc snap);
   ("kvcache_kv_effective_residency_perc", d_effective_residency_perc snap);
   ("kvcache_kv_cold_free_perc", d_cold_free_perc snap)]%string.
Definition optional_values (snap : DerivedSnapshot) : list (string * option float) :=
  [("kvcache_kv_cache_hit_ratio", d_cache_hit_ratio snap);
   ("kvcache_backend_queue_depth", d_queue_depth snap);
   ("kvcache_backend_running_requests", d_running_requests snap)]%string.

Definition write (w : writer) (snap : DerivedSnapshot) : res writer :=
  w <-! res_fold set_gauge w (block_gauges snap) ;;
  w <-! res_fold _set_optional_gauge w (optional_values snap) ;;
  Ok (emit w
    [SetInfo "kvcache_exporter_prefix_metric_semantics" (info_labels snap);
     SetGauge "kvcache_exporter_prefix_metric_comparable"
       (flag (String.eqb (d_prefix_metric_comparability snap) "strict"));
     SetGauge "kvcache_exporter_prefix_metric_token_fallback"
       (flag (String.eqb (d_prefix_metric_semantics snap) "token_counter_fallback"));
     SetGauge "kvcache_exporter_prefix_metric_estimated"
       (flag (String.eqb (d_prefix_evidence_quality snap) "estimated"))]).

Definition set_scrape_health (w : writer) (last_success_ts : option float) (consecutive_failures : Z)
  : res writer :=
  w <-! (match last_success_ts with
         | Some ts => set_gauge w ("kvcache_exporter_scrape_last_success_timestamp_seconds", ts)
         | None => Ok w
         end) ;;
  n <-! float_of_int consecutive_failures ;;
  set_gauge w ("kvcache_exporter_scrape_consecutive_failures", n).

Definition inc_scrape_failure (w : writer) : writer :=
  emit w [Inc "kvcache_exporter_scrape_failures_total"].

(** ** The registry's contract *)

(** One call, against the names registered so far. *)
Definition reg_step (names : list string) (c : cmd) : res (list string) :=
  match c with
  | Register n => if existsb (String.eqb n) names then Err (ValueError "Duplicated timeseries") else Ok (names ++ [n])
  | Unregister n =>
      if existsb (String.eqb n) names then Ok (List.filter (fun m => negb (String.eqb m n)) names)
      else Err (KeyError n)
  | SetGauge n _ | SetInfo n _ | Inc n => if existsb (String.eqb n) names then Ok names else Err (KeyError n)
  end.
(** The registered names after a legal trace. *)
Definition registered (t : list cmd) : res (list string) := res_fold reg_step [] t.

(** ** Properties *)

Lemma existsb_eqb_elem n l : existsb (String.eqb n) l = true <-> n ∈ l.
Proof.
  rewrite existsb_elem. split.
  - intros (x & Hx & E). apply String.eqb_eq in E. by subst.
  - intros. exists n. split; [done|apply String.eqb_refl].
Qed.
Lemma existsb_eqb_not_elem n l : existsb (String.eqb n) l = false <-> n ∉ l.
Proof. rewrite <- existsb_eqb_elem. by destruct (existsb _ _). Qed.

(** The registry holds the fixed collectors and the live gauges; the required gauges
    stay live. *)
Record Inv (w : writer) : Prop := {
  inv_names : exists names, registered w.2 = Ok names /\
    forall n, n ∈ names <-> n ∈ fixed_collectors \/ n ∈ _gauges w.1;
  inv_required : forall n, n ∈ required_gauges -> n ∈ _gauges w.1;
  inv_known : forall n, n ∈ _gauges w.1 -> n ∈ gauge_names
}.

Lemma fixed_not_gauge n : n ∈ gauge_names -> n ∉ fixed_collectors.
Proof.
  intros H. rewrite <- existsb_eqb_not_elem.
  assert (Hf : forallb (fun n => negb (existsb (String.eqb n) fixed_collectors)) gauge_names = true) by reflexivity.
  rewrite forallb_elem in Hf. by apply negb_true_iff, Hf.
Qed.
Lemma required_known n : n ∈ required_gauges -> n ∈ gauge_names.
Proof. unfold required_gauges. rewrite elem_of_filterb. by intros [? _]. Qed.

Lemma inv_init : Inv PromWriter_init.
Proof.
  split; simpl.
  - eexists. split; [vm_compute; reflexivity|]. intros n.
    change (n ∈ fixed_collectors ++ required_gauges <-> n ∈ fixed_collectors \/ n ∈ required_gauges).
    apply elem_of_app.
  - done.
  - apply required_known.
Qed.

Lemma registered_snoc t c names : registered t = Ok names ->
  registered (t ++ [c]) = reg_step names c.
Proof.
  unfold registered. intros H. rewrite res_fold_app, H. simpl. by destruct (reg_step names c).
Qed.

(** A call on a live collector is legal and changes nothing else. *)
Definition use_of (c : cmd) : option string :=
  match c with SetGauge n _ | SetInfo n _ | Inc n => Some n | _ => None end.
Lemma emit_inv w c n : Inv w -> use_of c = Some n ->
  n ∈ fixed_collectors \/ n ∈ _gauges w.1 -> Inv (emit w [c]).
Proof.
  intros [(names & Hr & Hn) Hreq Hk] Hc Hlive. split; simpl; [|done..].
  exists names. split; [|done]. rewrite (registered_snoc _ _ _ Hr).
  assert (E : existsb (String.eqb n) names = true) by (by apply existsb_eqb_elem, Hn).
  destruct c; simpl in Hc; simplify_eq; simpl; by rewrite E.
Qed.

Lemma set_gauge_inv w nv : Inv w -> nv.1 ∈ required_gauges ->
  exists w', set_gauge w nv = Ok w' /\ Inv w' /\ _gauges w'.1 = _gauges w.1.
Proof.
  intros Hi Hn. unfold set_gauge. pose proof (inv_required _ Hi _ Hn) as Hg.
  rewrite (proj2 (existsb_eqb_elem _ _) Hg). eexists. split; [done|]. split; [|done].
  eapply emit_inv; [done|reflexivity|by right].
Qed.
Lemma set_gauges_inv w nvs : Inv w -> Forall (fun nv => nv.1 ∈ required_gauges) nvs ->
  exists w', res_fold set_gauge w nvs = Ok w' /\ Inv w' /\ _gauges w'.1 = _gauges w.1.
Proof.
  intros Hi Hall. revert w Hi. induction Hall as [|nv nvs Hn _ IH]; intros w Hi; simpl; [eauto|].
  destruct (set_gauge_inv w nv Hi Hn) as (w1 & -> & Hi1 & <-). by apply IH.
Qed.

Lemma set_optional_inv w name v : Inv w -> name ∈ _optional_gauges ->
  exists w', _set_optional_gauge w (name, v) = Ok w' /\ Inv w' /\
    forall n, n ∈ _gauges w'.1 <-> (if String.eqb n name then is_Some v else n ∈ _gauges w.1).
Proof.
  intros Hi Ho. assert (Hk : name ∈ gauge_names /\ name ∉ required_gauges).
  { rewrite <- existsb_eqb_elem, <- existsb_eqb_not_elem. unfold _optional_gauges in Ho.
    rewrite !elem_of_cons, elem_of_nil in Ho. by destruct Ho as [->|[->|[->|[]]]]. }
  destruct Hk as [Hk Hnr]. pose proof (fixed_not_gauge _ Hk) as Hnf.
  unfold _set_optional_gauge. destruct (existsb (String.eqb name) (_gauges w.1)) eqn:E.
  - destruct v as [v|].
    + eexists. split; [done|]. apply existsb_eqb_elem in E.
      split; [eapply emit_inv; [done|reflexivity|by right]|]. intros n. simpl.
      destruct (String.eqb_spec n name) as [->|]; naive_solver.
    + eexists. split; [done|]. destruct Hi as [(names & Hr & Hn) Hreq Hkn].
      apply existsb_eqb_elem in E. split.
      * split; simpl.
        -- eexists. split.
           ++ rewrite (registered_snoc _ _ _ Hr). simpl.
              by rewrite (proj2 (existsb_eqb_elem _ _) (proj2 (Hn name) (or_intror E))).
           ++ intros n. rewrite !elem_of_filterb, negb_true_iff, String.eqb_neq, Hn. naive_solver.
        -- intros n Hn'. rewrite elem_of_filterb, negb_true_iff, String.eqb_neq. naive_solver.
        -- intros n. rewrite elem_of_filterb. naive_solver.
      * intros n. simpl. rewrite elem_of_filterb, negb_true_iff.
        destruct (String.eqb n name); naive_solver.
  - apply existsb_eqb_not_elem in E. destruct v as [v|].
    + rewrite (proj2 (existsb_eqb_elem _ _) Hk). eexists. split; [done|].
      destruct Hi as [(names & Hr & Hn) Hreq Hkn]. split.
      * assert (Hnn : name ∉ names) by (rewrite Hn; naive_solver).
        split; simpl.
        -- exists (names ++ [name]). split.
           ++ change [Register name; SetGauge name v] with ([Register name] ++ [SetGauge name v]).
              rewrite app_assoc.
              assert (H1 : registered (w.2 ++ [Register name]) = Ok (names ++ [name])).
              { rewrite (registered_snoc _ _ _ Hr). simpl.
                by rewrite (proj2 (existsb_eqb_not_elem _ _) Hnn). }
              rewrite (registered_snoc _ _ _ H1). simpl.
              rewrite (proj2 (existsb_eqb_elem _ _)); [done|]. apply elem_of_app. right. by left.
           ++ intros n. rewrite !elem_of_app, Hn, list_elem_of_singleton. naive_solver.
        -- intros n Hn'. apply elem_of_app. auto.
        -- intros n. rewrite elem_of_app, list_elem_of_singleton. naive_solver.
      * intros n. simpl. rewrite elem_of_app, list_elem_of_singleton.
        destruct (String.eqb_spec n name) as [->|]; naive_solver.
    + eexists. split; [done|]. split; [done|]. intros n.
      destruct (String.eqb_spec n name) as [->|]; [|done]. split; [done|]. by intros [].
Qed.

(** [write] on a consistent writer: succeeds, stays consistent, and exactly the
    optional gauges with a value are live afterwards. *)
Lemma write_inv w snap : Inv w ->
  exists w', write w snap = Ok w' /\ Inv w' /\
    forall name v, (name, v) ∈ optional_values snap -> (name ∈ _gauges w'.1 <-> is_Some v).
Proof.
  intros Hi. unfold write.
  destruct (set_gauges_inv w (block_gauges snap) Hi) as (w1 & -> & Hi1 & _).
  { unfold block_gauges. repeat constructor; rewrite <- existsb_eqb_elem; reflexivity. }
  unfold optional_values. cbn [res_fold].
  destruct (set_optional_inv w1 "kvcache_kv_cache_hit_ratio" (d_cache_hit_ratio snap) Hi1)
    as (w2 & -> & Hi2 & G2); [set_solver|].
  destruct (set_optional_inv w2 "kvcache_backend_queue_depth" (d_queue_depth snap) Hi2)
    as (w3 & -> & Hi3 & G3); [set_solver|].
  destruct (set_optional_inv w3 "kvcache_backend_running_requests" (d_running_requests snap) Hi3)
    as (w4 & -> & Hi4 & G4); [set_solver|].
  eexists. split; [reflexivity|]. split.
  - assert (Hf : forall n, existsb (String.eqb n) fixed_collectors = true -> n ∈ fixed_collectors)
      by (intros n; apply existsb_eqb_elem).
    set (cs := [_; _; _; _]).
    change (emit w4 cs) with (w4.1, w4.2 ++ cs). unfold cs.
    repeat match goal with |- context [?a ++ ?c :: ?d :: ?l] =>
      replace (a ++ c :: d :: l) with ((a ++ [c]) ++ d :: l) by (by rewrite <- app_assoc) end.
    change (Inv (emit (emit (emit (emit w4
      [SetInfo "kvcache_exporter_prefix_metric_semantics" (info_labels snap)])
      [SetGauge "kvcache_exporter_prefix_metric_comparable"
         (flag (String.eqb (d_prefix_metric_comparability snap) "strict"))])
      [SetGauge "kvcache_exporter_prefix_metric_token_fallback"
         (flag (String.eqb (d_prefix_metric_semantics snap) "token_counter_fallback"))])
      [SetGauge "kvcache_exporter_prefix_metric_estimated"
         (flag (String.eqb (d_prefix_evidence_quality snap) "estimated"))])).
    do 4 (eapply emit_inv; [|reflexivity|left; by apply Hf]). done.
  - intros name v Hin. simpl. rewrite !elem_of_cons, elem_of_nil in Hin.
    destruct Hin as [[= -> ->]|[[= -> ->]|[[= -> ->]|[]]]]; rewrite G4; simpl; rewrite ?G3; simpl; by rewrite ?G2.
Qed.

(** ** All histories *)

Inductive op : Type :=
| OWrite (snap : DerivedSnapshot)
| OHealth (last_success_ts : option float) (consecutive_failures : Z)
| OFailure.
Definition step_op (w : writer) (o : op) : res writer :=
  match o with
  | OWrite snap => write w snap
  | OHealth ts n => set_scrape_health w ts n
  | OFailure => Ok (inc_scrape_failure w)
  end.
(** The failure count is a number a float can hold. *)
Definition op_ok (o : op) : Prop :=
  match o with OHealth _ n => is_ok (float_of_int n) = true | _ => True end.

Lemma health_inv w ts n : Inv w -> is_ok (float_of_int n) = true ->
  exists w', set_scrape_health w ts n = Ok w' /\ Inv w' /\ _gauges w'.1 = _gauges w.1.
Proof.
  intros Hi Hn. unfold set_scrape_health. destruct (float_of_int n) as [f|]; [|done].
  assert (Hq : forall m, existsb (String.eqb m) required_gauges = true -> m ∈ required_gauges)
    by (intros m; apply existsb_eqb_elem).
  destruct ts as [ts|].
  - destruct (set_gauge_inv w ("kvcache_exporter_scrape_last_success_timestamp_seconds", ts) Hi)
      as (w1 & -> & Hi1 & <-); [by apply Hq|]. by apply set_gauge_inv; [|apply Hq].
  - by apply set_gauge_inv; [|apply Hq].
Qed.

Lemma step_op_inv w o : Inv w -> op_ok o -> exists w', step_op w o = Ok w' /\ Inv w'.
Proof.
  intros Hi Ho. destruct o as [snap|ts n|]; simpl in *.
  - destruct (write_inv w snap Hi) as (w' & ? & ? & _). eauto.
  - destruct (health_inv w ts n Hi Ho) as (w' & ? & ? & _). eauto.
  - eexists. split; [done|]. eapply emit_inv; [done|reflexivity|left; by left].
Qed.
Lemma ops_inv w ops : Inv w -> Forall op_ok ops -> exists w', res_fold step_op w ops = Ok w' /\ Inv w'.
Proof.
  intros Hi Hall. revert w Hi. induction Hall as [|o ops Ho _ IH]; intros w Hi; simpl; [eauto|].
  destruct (step_op_inv w o Hi Ho) as (w1 & -> & Hi1). by apply IH.
Qed.

(** C17: whatever the history of snapshots, health updates and failures, the writer
    never raises and never breaks the registry's contract; after a snapshot the
    registry holds an optional gauge exactly when the snapshot has its value, so a
    missing signal is absent from the exposition instead of stale. *)
Theorem writer_history ops snap :
  Forall op_ok ops ->
  exists w names, res_fold step_op PromWriter_init (ops ++ [OWrite snap]) = Ok w /\
    registered w.2 = Ok names /\
    (forall n, n ∈ fixed_collectors ++ required_gauges -> n ∈ names) /\
    (forall name v, (name, v) ∈ optional_values snap -> (name ∈ names <-> is_Some v)).
Proof.
  intros Hall. destruct (ops_inv _ ops inv_init Hall) as (w & Hw & Hi).
  rewrite res_fold_app, Hw. cbn [res_fold step_op].
  destruct (write_inv w snap Hi) as (w' & -> & [(names & Hr & Hn) Hreq Hk] & Hg).
  exists w', names. split_and!; [done|done| |].
  - intros n Hin. apply Hn. rewrite elem_of_app in Hin. destruct Hin as [?|?]; auto.
  - intros name v Hin. rewrite Hn, <- (Hg _ _ Hin). split; [|by right]. intros [Hf|?]; [|done].
    exfalso. revert Hf. apply fixed_not_gauge, existsb_eqb_elem.
    unfold optional_values in Hin. rewrite !elem_of_cons, elem_of_nil in Hin.
    by destruct Hin as [[= -> ->]|[[= -> ->]|[[= -> ->]|[]]]].
Qed.
Lemma writer_history_witness :
  exists w names, res_fold step_op PromWriter_init
      ([OHealth None 3; OFailure; OWrite example_snapshot] ++ [OWrite example_snapshot]) = Ok w /\
    registered w.2 = Ok names.
Proof.
  destruct (writer_history [OHealth None 3; OFailure; OWrite example_snapshot] example_snapshot)
    as (w & names & H1 & H2 & _); [repeat constructor|]. by exists w, names.
Defined.
