(* ===== verification/App.v ===== *)
(** * The exporter service (exporter/app.py)

    [poll_round] is one turn of the poll loop: scrape, derive, publish, persist, and
    on any exception the failure path.  The [try] body mutates shared state before it
    can raise, so it is written in a monad that keeps the state of a raising
    computation.  The HTTP client, the metrics parser, the clock, the file system
    calls and [traceback.format_exc] are the round's environment. *)

From S2P Require Import Prelude PyFloat FloatOrder FloatRound PyStr PyVal PySort PyPath Digest PromParse Schemas VllmAdapter SglangAdapter Adapter Derive BackendState PromWriter.

Definition _build_adapter (settings : Settings) : VllmAdapter.VllmAdapter + SGLangAdapter :=
  let backend_type := lower (strip (str_or (cfg_backend_type settings) "vllm")) in
  if String.eqb backend_type "sglang" then
    inr (SGLangAdapter_init (cfg_backend_metrics_url settings) (cfg_model_name settings)
              (cfg_instance_name settings) (cfg_model_group settings) (cfg_tokens_per_block settings))
  else
    inl {| VllmAdapter.metrics_url := cfg_backend_metrics_url settings;
            VllmAdapter.model_name := cfg_model_name settings;
            VllmAdapter.instance_name := cfg_instance_name settings;
            VllmAdapter.model_group := cfg_model_group settings |}.

(** What the round reads from outside. *)
Record Env := {
  http_get : string -> res string;
  text_string_to_metric_families : string -> res (list Family);
  label_filter_env : string;
  set_order : list string -> list string;
  format_exc : exn -> string;
  time_snapshot : float;       (* the clock when the snapshot is stamped *)
  time_success : float;        (* the clock when the round is recorded *)
  mkdir : string -> res unit;
  write_text : string -> string -> res unit;
  append_text : string -> string -> res unit
}.

Inductive file_op : Type :=
| FWrite (path text : string)
| FAppend (path text : string).

Record AppState := {
  backend_state : list (string * val);
  advice : list (string * val);
  last_success_ts : option float;
  consecutive_failures : Z;
  last_error : string;
  app_writer : writer;
  files : list file_op         (* the writes that succeeded, oldest first *)
}.

Definition create_app : AppState := {|
  backend_state := []; advice := []; last_success_ts := None; consecutive_failures := 0;
  last_error := ""; app_writer := PromWriter_init; files := [] |}.

(** ** The monad of the [try] body *)

Definition M (A : Type) := stateful AppState A.

Definition set_backend_state d (st : AppState) := {| backend_state := d; advice := advice st;
  last_success_ts := last_success_ts st; consecutive_failures := consecutive_failures st;
  last_error := last_error st; app_writer := app_writer st; files := files st |}.
Definition set_advice d (st : AppState) := {| backend_state := backend_state st; advice := d;
  last_success_ts := last_success_ts st; consecutive_failures := consecutive_failures st;
  last_error := last_error st; app_writer := app_writer st; files := files st |}.
Definition set_scrape ts n err (st : AppState) := {| backend_state := backend_state st; advice := advice st;
  last_success_ts := ts; consecutive_failures := n; last_error := err;
  app_writer := app_writer st; files := files st |}.
Definition set_writer w (st : AppState) := {| backend_state := backend_state st; advice := advice st;
  last_success_ts := last_success_ts st; consecutive_failures := consecutive_failures st;
  last_error := last_error st; app_writer := w; files := files st |}.
Definition add_file op (st : AppState) := {| backend_state := backend_state st; advice := advice st;
  last_success_ts := last_success_ts st; consecutive_failures := consecutive_failures st;
  last_error := last_error st; app_writer := app_writer st; files := files st ++ [op] |}.

(** A call on the writer. *)
Definition on_writer (f : writer -> res writer) : M unit :=
  w <~ st_get app_writer ;; w' <~ st_lift (f w) ;; st_mod (set_writer w').

(** ** One round *)

Definition scrape_of (env : Env) : Scrape := {|
  sc_http_get := http_get env; sc_text_string_to_metric_families := text_string_to_metric_families env;
  sc_label_filter_env := label_filter_env env; sc_set_order := set_order env |}.
(** [adapter.collect()], whichever adapter it is. *)
Definition adapter_collect {A} `{MetricsAdapter A} (env : Env) (a : A) : res NativeSnapshot :=
  collect_from (scrape_of env) a.

(** [err[:n]] *)
Definition str_take (n : Z) (s : string) : string :=
  let l := chars s in
  str (take (Z.to_nat (if n <? 0 then Z.of_nat (length l) + n else n)) l).

Definition poll_body (settings : Settings) (env : Env) : M unit :=
  native <~ st_lift (adapter_collect env (_build_adapter settings)) ;;
  derived <~ st_lift (d <-! compute_derived native None ;; Ok d.1) ;;
  on_writer (fun w => write w derived) ;;;
  st_mod (set_backend_state []) ;;;
  body <~ st_lift (snapshot_from_derived derived
                   (if String.eqb (cfg_backend_id settings) "" then None else Some (cfg_backend_id settings))
                   None false (time_snapshot env)) ;;
  st_mod (set_backend_state body) ;;;
  st_mod (set_advice (build_advice derived false)) ;;;
  observed <~ st_lift (vitem (VDict body) "observed_at_unix_millis") ;;
  st_mod (fun st => set_advice (dset (advice st) "observed_at_unix_millis" observed) st) ;;;
  st_lift (mkdir env (path_str (cfg_state_dir settings))) ;;;
  state_doc <~ st_get backend_state ;;
  text <~ st_lift (json_text (indented true) 0 (VDict state_doc)) ;;
  let path := path_join (cfg_state_dir settings) "backend-state.json" in
  st_lift (write_text env path (text +:+ str [chr 10])) ;;;
  st_mod (add_file (FWrite path (text +:+ str [chr 10]))) ;;;
  advice_doc <~ st_get advice ;;
  line <~ st_lift (json_text (plain true) 0 (VDict advice_doc)) ;;
  let log := path_join (cfg_state_dir settings) "advice.jsonl" in
  st_lift (append_text env log (line +:+ str [chr 10])) ;;;
  st_mod (add_file (FAppend log (line +:+ str [chr 10]))) ;;;
  st_mod (set_scrape (Some (time_success env)) 0 "") ;;;
  on_writer (fun w => set_scrape_health w (Some (time_success env)) 0).

Definition unavailable (detail : string) : list (string * val) :=
  [("schema_version", VStr "kavora-advice/v1"); ("status", VStr "unavailable");
   ("reason", VStr "scrape_failed"); ("detail", VStr detail)]%string.

Definition poll_failed (settings : Settings) (env : Env) (e : exn) : M unit :=
  fails <~ st_get consecutive_failures ;;
  last <~ st_get last_success_ts ;;
  let detail := str_take (cfg_scrape_error_max_len settings) (format_exc env e) in
  st_mod (set_scrape last (fails + 1) detail) ;;;
  st_mod (set_advice (unavailable detail)) ;;;
  on_writer (fun w => Ok (inc_scrape_failure w)) ;;;
  on_writer (fun w => set_scrape_health w last (fails + 1)).

(** The [try]/[except] of the loop; an error result would end the poll task. *)
Definition poll_round (settings : Settings) (st : AppState) (env : Env) : AppState * res unit :=
  match poll_body settings env st with
  | (st', Ok _) => (st', Ok tt)
  | (st', Err e) => poll_failed settings env e st'
  end.
Definition poll_rounds (settings : Settings) : AppState -> list Env -> AppState :=
  foldl (fun st env => (poll_round settings st env).1).

(** ** The endpoints *)

Definition readyz (settings : Settings) (st : AppState) (now : float) : Z * list (string * val) :=
  let fails := consecutive_failures st in
  let stale := match last_success_ts st with
               | None => true
               | Some last => (now ⊖ last) >?. cfg_scrape_stale_after_s settings
               end in
  let too_many_failures := cfg_scrape_failures_not_ready settings <=? fails in
  if stale || too_many_failures then
    (503, [("ready", VBool false); ("last_success_ts", opt_float (last_success_ts st));
           ("consecutive_failures", VInt fails); ("stale", VBool stale);
           ("too_many_failures", VBool too_many_failures); ("last_error", VStr (last_error st))]%string)
  else (200, [("ready", VBool true); ("last_success_ts", opt_float (last_success_ts st));
              ("consecutive_failures", VInt fails)]%string).

Definition backend_state_snapshot (st : AppState) : Z * list (string * val) :=
  match backend_state st with
  | [] => (503, [("ready", VBool false); ("reason", VStr "no_snapshot")]%string)
  | d => (200, d)
  end.
Definition tuning_advice (st : AppState) : Z * list (string * val) :=
  match advice st with
  | [] => (503, [("status", VStr "unavailable"); ("reason", VStr "no_snapshot")]%string)
  | d => (200, d)
  end.

(** ** Reasoning about the round *)

(** A writer operation that succeeds on every consistent writer. *)
Definition safe_op (f : writer -> res writer) : Prop :=
  forall w, Inv w -> exists w', f w = Ok w' /\ Inv w'.
Lemma on_writer_safe f st : safe_op f -> Inv (app_writer st) ->
  exists w', Inv w' /\ on_writer f st = (set_writer w' st, Ok tt).
Proof.
  intros Hf Hw. destruct (Hf _ Hw) as (w' & E & Hw'). exists w'. split; [done|].
  unfold on_writer, st_bind, st_get, st_lift, st_mod. by rewrite E.
Qed.
Lemma safe_write snap : safe_op (fun w => write w snap).
Proof. intros w Hw. destruct (write_inv w snap Hw) as (w' & ? & ? & _). eauto. Qed.
Lemma safe_health ts n : is_ok (float_of_int n) = true -> safe_op (fun w => set_scrape_health w ts n).
Proof. intros Hn w Hw. destruct (health_inv w ts n Hw Hn) as (w' & ? & ? & _). eauto. Qed.
Lemma safe_inc : safe_op (fun w => Ok (inc_scrape_failure w)).
Proof. intros w Hw. apply (step_op_inv w OFailure); done. Qed.

(** The scrape bookkeeping of a state. *)
Definition scraped (l : option float) (n : Z) (st : AppState) : Prop :=
  last_success_ts st = l /\ consecutive_failures st = n /\ Inv (app_writer st).

Lemma keeps_writer l n f : safe_op f -> keeps (scraped l n) (on_writer f) (fun _ => scraped l n).
Proof.
  intros Hf st (H1 & H2 & H3). destruct (on_writer_safe f st Hf H3) as (w' & Hw & ->).
  by split_and!.
Qed.

(** The last step of the body, once the success is recorded. *)
Lemma record_success ts l n :
  keeps (scraped l n)
    (st_mod (set_scrape (Some ts) 0 "") ;;; on_writer (fun w => set_scrape_health w (Some ts) 0))
    (fun _ st => scraped (Some ts) 0 st /\ last_error st = "").
Proof.
  intros st (H1 & H2 & H3). unfold st_bind at 1, st_mod at 1.
  destruct (on_writer_safe _ (set_scrape (Some ts) 0 "" st) (safe_health (Some ts) 0 eq_refl) H3)
    as (w' & Hw & ->). by split_and!.
Qed.

Lemma poll_body_scraped settings env l n :
  keeps (scraped l n) (poll_body settings env)
    (fun _ st => scraped (Some (time_success env)) 0 st /\ last_error st = "").
Proof.
  unfold poll_body.
  repeat first
    [ apply record_success
    | apply keeps_bind;
      [first [apply keeps_lift | apply keeps_get | apply keeps_mod; by intros ? (? & ? & ?)
             | apply keeps_writer, safe_write]
      | intros ?; cbv zeta] ].
Qed.

(** What a completed body has published. *)
Lemma poll_body_published settings env st st' :
  poll_body settings env st = (st', Ok tt) ->
  exists native derived body observed,
    adapter_collect env (_build_adapter settings) = Ok native /\
    compute_derived native None = Ok (derived, None) /\
    dget body "observed_at_unix_millis" = Some observed /\
    snapshot_from_derived derived
      (if String.eqb (cfg_backend_id settings) "" then None else Some (cfg_backend_id settings))
      None false (time_snapshot env) = Ok body /\
    backend_state st' = body /\
    advice st' = dset (build_advice derived false) "observed_at_unix_millis" observed.
Proof.
  intros H. unfold poll_body in H.
  apply st_bind_ok in H as (native & st1 & H1 & H). apply st_lift_ok in H1 as [-> Hn].
  apply st_bind_ok in H as (d & st1 & H1 & H). apply st_lift_ok in H1 as [-> Hd].
  destruct (compute_derived_total native None) as (d' & s' & Hcd & Hcd').
  rewrite Hcd' in Hd. simpl in Hd. injection Hd as <-.
  apply st_bind_ok in H as ([] & st2 & _ & H).
  apply st_bind_ok in H as ([] & st3 & _ & H).
  apply st_bind_ok in H as (body & st4 & H1 & H). apply st_lift_ok in H1 as [-> Hb].
  apply st_bind_ok in H as ([] & st5 & [= <-] & H).
  apply st_bind_ok in H as ([] & st6 & [= <-] & H).
  apply st_bind_ok in H as (observed & st7 & H1 & H). apply st_lift_ok in H1 as [-> Ho].
  apply st_bind_ok in H as ([] & st8 & [= <-] & H).
  apply st_bind_ok in H as ([] & st9 & H1 & H). apply st_lift_ok in H1 as [-> _].
  apply st_bind_ok in H as (sd & st10 & [= <- <-] & H).
  apply st_bind_ok in H as (text & st11 & H1 & H). apply st_lift_ok in H1 as [-> _]. cbv zeta in H.
  apply st_bind_ok in H as ([] & st12 & H1 & H). apply st_lift_ok in H1 as [-> _].
  apply st_bind_ok in H as ([] & st13 & [= <-] & H).
  apply st_bind_ok in H as (ad & st14 & [= <- <-] & H).
  apply st_bind_ok in H as (line & st15 & H1 & H). apply st_lift_ok in H1 as [-> _].
  apply st_bind_ok in H as ([] & st16 & H1 & H). apply st_lift_ok in H1 as [-> _].
  apply st_bind_ok in H as ([] & st17 & [= <-] & H).
  apply st_bind_ok in H as ([] & st18 & [= <-] & H).
  apply st_bind_ok in H as (w & st19 & [= <- <-] & H).
  apply st_bind_ok in H as (w' & st20 & H1 & H). apply st_lift_ok in H1 as [-> _].
  injection H as <-. cbn [vitem] in Ho.
  destruct (dget body "observed_at_unix_millis") as [o|] eqn:Eo; [|done]. injection Ho as ->.
  exists native, d', body, observed. by split_and!.
Qed.

(** ** Properties *)

(** The failure path keeps the last success and publishes nothing new. *)
Lemma poll_failed_spec settings env e l n st :
  scraped l n st -> 0 <= n < 2 ^ 1000 ->
  exists st', poll_failed settings env e st = (st', Ok tt) /\ scraped l (n + 1) st' /\
    advice st' = unavailable (last_error st') /\ backend_state st' = backend_state st.
Proof.
  intros (H1 & H2 & H3) Hn. unfold poll_failed.
  set (detail := str_take _ _). unfold st_bind, st_get at 1. unfold st_get at 1, st_mod.
  rewrite H1, H2.
  match goal with |- context [on_writer ?f ?s] => destruct (on_writer_safe f s safe_inc H3) as (w1 & Hw1 & ->) end.
  match goal with |- context [on_writer ?f ?s] =>
    destruct (on_writer_safe f s (safe_health l (n + 1) (float_of_int_ok (n + 1) ltac:(lia))) Hw1) as (w2 & Hw2 & ->) end.
  eexists. split; [reflexivity|]. by split_and!.
Qed.

(** The bookkeeping of a round. *)
Lemma poll_round_scraped settings env st l n :
  scraped l n st -> 0 <= n < 2 ^ 1000 ->
  exists st', poll_round settings st env = (st', Ok tt) /\
    if is_ok (poll_body settings env st).2 then scraped (Some (time_success env)) 0 st' /\ last_error st' = ""
    else scraped l (n + 1) st' /\ advice st' = unavailable (last_error st') /\
         backend_state st' = backend_state (poll_body settings env st).1.
Proof.
  intros Hs Hn. unfold poll_round. pose proof (poll_body_scraped settings env l n st Hs) as Hk.
  destruct (poll_body settings env st) as [st1 [[]|e]]; [by eauto|].
  destruct (poll_failed_spec settings env e l n st1 Hk Hn) as (st' & -> & H1 & H2 & H3).
  exists st'. by split_and!.
Qed.

(** C16: a round of the poll loop never ends the task.  When its body completes, the
    failure count is 0 and what is served is the snapshot and the advice of this very
    scrape; when anything raises, the count grows by one, the last success is kept and
    the advice says unavailable, and a scrape that failed leaves the served
    snapshot alone. *)
Theorem poll_round_spec settings env st l n :
  scraped l n st -> 0 <= n < 2 ^ 1000 ->
  exists st', poll_round settings st env = (st', Ok tt) /\
    ((exists native derived body observed,
        is_ok (poll_body settings env st).2 = true /\
        adapter_collect env (_build_adapter settings) = Ok native /\
        compute_derived native None = Ok (derived, None) /\
        snapshot_from_derived derived
          (if String.eqb (cfg_backend_id settings) "" then None else Some (cfg_backend_id settings))
          None false (time_snapshot env) = Ok body /\
        dget body "observed_at_unix_millis" = Some observed /\
        backend_state st' = body /\
        advice st' = dset (build_advice derived false) "observed_at_unix_millis" observed /\
        scraped (Some (time_success env)) 0 st' /\ last_error st' = "")
     \/ (is_ok (poll_body settings env st).2 = false /\
         scraped l (n + 1) st' /\ advice st' = unavailable (last_error st') /\
         (is_ok (adapter_collect env (_build_adapter settings)) = false ->
            backend_state st' = backend_state st))).
Proof.
  intros Hs Hn. destruct (poll_round_scraped settings env st l n Hs Hn) as (st' & Er & H).
  exists st'. split; [done|]. unfold poll_round in Er.
  destruct (poll_body settings env st) as [st1 [[]|e]] eqn:E; cbn [is_ok fst snd] in *.
  - left. injection Er as ->. destruct (poll_body_published _ _ _ _ E) as (nat' & d & b & o & ? & ? & ? & ? & ? & ?).
    exists nat', d, b, o. by destruct H.
  - right. destruct H as (H1 & H2 & H3). split_and!; [done..|]. intros Hc. rewrite H3.
    unfold poll_body, st_bind at 1, st_lift at 1 in E.
    destruct (adapter_collect env _); [done|]. by injection E as <- _.
Qed.

(** The outcome of each round of a history, with its success time. *)
Fixpoint outcomes (settings : Settings) (st : AppState) (envs : list Env) : list (bool * float) :=
  match envs with
  | [] => []
  | env :: envs' =>
      (is_ok (poll_body settings env st).2, time_success env)
      :: outcomes settings (poll_round settings st env).1 envs'
  end.
(** What the rounds leave: the time of the last success, the failures since. *)
Definition after (acc : option float * Z) (o : bool * float) : option float * Z :=
  if o.1 then (Some o.2, 0) else (acc.1, acc.2 + 1).

Lemma after_cases outs l n :
  let r := foldl after (l, n) outs in
  (forallb (fun o => negb o.1) outs = true /\ r = (l, n + Z.of_nat (length outs))) \/
  (exists pre t post, outs = pre ++ (true, t) :: post /\ forallb (fun o => negb o.1) post = true /\
     r = (Some t, Z.of_nat (length post))).
Proof.
  revert l n. induction outs as [|[[] t] outs IH]; intros l n; cbn zeta; simpl.
  - left. split; [done|]. f_equal. lia.
  - right. destruct (IH (Some t) 0) as [[Ha Hr]|(pre & t' & post & -> & Ha & Hr)].
    + exists [], t, outs. change (after (l, n) (true, t)) with (Some t, 0). by rewrite Hr.
    + exists ((true, t) :: pre), t', post. change (after (l, n) (true, t)) with (Some t, 0). by rewrite Hr.
  - destruct (IH l (n + 1)) as [[Ha Hr]|(pre & t' & post & -> & Ha & Hr)].
    + left. split; [done|]. change (after (l, n) (false, t)) with (l, n + 1). rewrite Hr. f_equal. lia.
    + right. exists ((false, t) :: pre), t', post. split_and!; [done..|].
      change (after (l, n) (false, t)) with (l, n + 1). by rewrite Hr.
Qed.

Lemma poll_rounds_scraped settings envs st l n :
  scraped l n st -> 0 <= n -> n + Z.of_nat (length envs) <= 2 ^ 1000 ->
  let '(l', n') := foldl after (l, n) (outcomes settings st envs) in
  scraped l' n' (poll_rounds settings st envs).
Proof.
  unfold poll_rounds. revert st l n.
  induction envs as [|env envs IH]; intros st l n Hs Hn Hb; [done|]. cbn [foldl outcomes length] in *.
  destruct (poll_round_scraped settings env st l n Hs ltac:(lia)) as (st' & -> & H).
  destruct (is_ok _); destruct H as [Hs' _]; apply (IH st' _ _ Hs'); lia.
Qed.

(** C2: after any history of rounds, the service reports ready exactly when some
    round succeeded, fewer rounds than the threshold failed since the last such
    round, and that success is not older than the staleness limit. *)
Theorem readyz_history settings envs now :
  Z.of_nat (length envs) <= 2 ^ 1000 ->
  ((readyz settings (poll_rounds settings create_app envs) now).1 = 200 <->
   exists pre t post,
     outcomes settings create_app envs = pre ++ (true, t) :: post /\
     forallb (fun o => negb o.1) post = true /\
     Z.of_nat (length post) < cfg_scrape_failures_not_ready settings /\
     ((now ⊖ t) >?. cfg_scrape_stale_after_s settings) = false).
Proof.
  intros Hl.
  assert (H0 : scraped None 0 create_app) by (split_and!; [done..|apply inv_init]).
  pose proof (poll_rounds_scraped settings envs create_app None 0 H0 ltac:(lia) ltac:(lia)) as H.
  assert (Hno : forall pre t post, forallb (fun o : bool * float => negb o.1) (pre ++ (true, t) :: post) = true -> False).
  { intros pre t post. rewrite forallb_app. simpl. by rewrite andb_false_r. }
  destruct (after_cases (outcomes settings create_app envs) None 0)
    as [[Ha Hr]|(pre & t & post & Ho & Ha & Hr)]; cbn zeta in Hr; rewrite Hr in H;
    destruct H as (H1 & H2 & _); unfold readyz; rewrite H1, H2.
  - split; [done|]. intros (pre & t & post & Ho & _). rewrite Ho in Ha. by apply Hno in Ha.
  - rewrite Ho. split.
    + intros Hs. exists pre, t, post. split_and!; [done..| |];
        destruct (fltb _ _), (Z.leb_spec (cfg_scrape_failures_not_ready settings) (Z.of_nat (length post)));
        simpl in Hs; done.
    + intros (pre' & t' & post' & Ho' & Ha' & Hlt & Hst).
      assert (post = post' /\ t = t') as [-> ->].
      { clear -Ho' Ha Ha' Hno. revert pre' Ho'. induction pre as [|p pre IH]; intros [|p' pre'] Ho'; simpl in Ho'.
        - by simplify_eq.
        - simplify_eq. by apply Hno in Ha.
        - simplify_eq. by apply Hno in Ha'.
        - simplify_eq. by eapply IH. }
      rewrite Hst. simpl. apply Z.lt_nge in Hlt. destruct (Z.leb_spec (cfg_scrape_failures_not_ready settings) (Z.of_nat (length post'))); [lia|done].
Qed.

(** ** Recovery *)

Lemma run_writer {B} f (k : unit -> M B) st : safe_op f -> Inv (app_writer st) ->
  exists w', Inv w' /\ st_bind (on_writer f) k st = k tt (set_writer w' st).
Proof.
  intros Hf Hw. destruct (on_writer_safe f st Hf Hw) as (w' & Hi & E). exists w'. split; [done|].
  unfold st_bind at 1. by rewrite E.
Qed.

(** The backend answers, the clock can be read and the file system works. *)
Record healthy (settings : Settings) (env : Env) : Prop := {
  he_page : is_ok (http_get env (cfg_backend_metrics_url settings)) = true;
  he_blocks : is_ok (float_of_int (Z.max 1 (cfg_tokens_per_block settings))) = true;
  he_clock : is_ok (int_of_float (time_snapshot env ⊗ dec 1000 0)) = true;
  he_mkdir : mkdir env (path_str (cfg_state_dir settings)) = Ok tt;
  he_write path text : write_text env path text = Ok tt;
  he_append path text : append_text env path text = Ok tt
}.

Lemma built_adapter settings env : healthy settings env ->
  exists native, adapter_collect env (_build_adapter settings) = Ok native.
Proof.
  intros H. pose proof (he_page _ _ H) as Hp.
  destruct (http_get env (cfg_backend_metrics_url settings)) as [page|] eqn:E; [|done].
  unfold adapter_collect. apply collect_returns with (text := page).
  - unfold _build_adapter. case_match; [|done]. do 5 eexists. split; [reflexivity|apply (he_blocks _ _ H)].
  - rewrite <- E. unfold _build_adapter. by case_match.
Qed.

Lemma snapshot_made derived bid stale now : is_ok (int_of_float (now ⊗ dec 1000 0)) = true ->
  exists body observed, snapshot_from_derived derived bid None stale now = Ok body /\
    dget body "observed_at_unix_millis" = Some (VInt observed) /\ jsonable (VDict body) = true.
Proof.
  intros Hnow. unfold snapshot_from_derived. destruct (int_of_float _) as [o|]; [|done].
  match goal with |- context [json_dumps ?v] => destruct (json_text_ok compact v 0 eq_refl) as [c Hc] end.
  unfold json_dumps. rewrite Hc. eexists _, o. split_and!; reflexivity.
Qed.
Lemma advice_jsonable derived stale : jsonable (VDict (build_advice derived stale)) = true.
Proof.
  cbn -[recommendations_of]. rewrite andb_true_r. apply forallb_elem. intros v Hv.
  apply list_elem_of_In, in_map_iff in Hv as (r & <- & _). reflexivity.
Qed.

(** A healthy round completes, and what it wrote to disk is what is served. *)
Lemma healthy_round settings env st l n : scraped l n st -> healthy settings env ->
  exists st' text line, poll_body settings env st = (st', Ok tt) /\
    json_text (indented true) 0 (VDict (backend_state st')) = Ok text /\
    json_text (plain true) 0 (VDict (advice st')) = Ok line /\
    files st' = files st ++ [FWrite (path_join (cfg_state_dir settings) "backend-state.json") (text +:+ str [chr 10]);
                             FAppend (path_join (cfg_state_dir settings) "advice.jsonl") (line +:+ str [chr 10])].
Proof.
  intros (_ & _ & Hw) H. unfold poll_body.
  destruct (built_adapter settings env H) as [native En]. rewrite (run_lift _ _ _ _ En).
  destruct (compute_derived_total native None) as (derived & ? & _ & Ed).
  rewrite Ed. rewrite (run_lift _ _ _ derived eq_refl).
  match goal with |- context [st_bind (on_writer ?f) ?k ?s] => destruct (run_writer f k s (safe_write derived) Hw) as (w1 & Hw1 & ->) end.
  set (bid := if String.eqb (cfg_backend_id settings) "" then _ else _).
  destruct (snapshot_made derived bid false (time_snapshot env) (he_clock _ _ H)) as (body & o & Eb & Eo & Hj).
  unfold st_bind at 1, st_mod at 1. rewrite (run_lift _ _ _ _ Eb).
  unfold st_bind at 1, st_mod at 1. unfold st_bind at 1, st_mod at 1.
  assert (Ev : vitem (VDict body) "observed_at_unix_millis" = Ok (VInt o)) by (cbn; by rewrite Eo).
  rewrite (run_lift _ _ _ _ Ev). unfold st_bind at 1, st_mod at 1. rewrite (run_lift _ _ _ _ (he_mkdir _ _ H)).
  unfold st_bind at 1, st_get at 1. cbn [backend_state set_advice set_backend_state].
  destruct (json_text_ok (indented true) (VDict body) 0 Hj) as [text Et]. rewrite (run_lift _ _ _ _ Et). cbv zeta.
  rewrite (run_lift _ _ _ _ (he_write _ _ H _ _)). unfold st_bind at 1, st_mod at 1.
  unfold st_bind at 1, st_get at 1. cbn [advice set_advice set_backend_state add_file].
  destruct (json_text_ok (plain true) (VDict (dset (build_advice derived false) "observed_at_unix_millis" (VInt o))) 0)
    as [line El]; [apply jsonable_dset; [apply advice_jsonable|done]|].
  rewrite (run_lift _ _ _ _ El). rewrite (run_lift _ _ _ _ (he_append _ _ H _ _)).
  unfold st_bind at 1, st_mod at 1. unfold st_bind at 1, st_mod at 1.
  match goal with |- context [on_writer ?f ?s] => destruct (on_writer_safe f s (safe_health _ 0 eq_refl) Hw1) as (w2 & Hw2 & ->) end.
  eexists _, text, line. split; [reflexivity|]. split_and!; [exact Et|exact El|]. cbn. by rewrite <- app_assoc.
Qed.


(** ** A concrete service *)

Definition example_env (up : bool) : Env := {|
  http_get := fun _ => if up then Ok "up"%string else Err HTTPError;
  text_string_to_metric_families := fun _ => Ok [{| f_type := "gauge"; f_samples :=
    [{| s_name := "vllm:kv_cache_usage_perc"; s_labels := []; s_value := dec 25 (-2) |}] |}];
  label_filter_env := "";
  set_order := id;
  format_exc := fun _ => "Traceback"%string;
  time_snapshot := dec 1700 0;
  time_success := dec 1701 0;
  mkdir := fun _ => Ok tt;
  write_text := fun _ _ => Ok tt;
  append_text := fun _ _ => Ok tt |}.

Lemma poll_round_spec_witness :
  exists st', poll_round default_settings create_app (example_env false) = (st', Ok tt) /\
    scraped None 1 st' /\ backend_state st' = [].
Proof.
  destruct (poll_round_spec default_settings (example_env false) create_app None 0)
    as (st' & H & [(? & ? & ? & ? & Hok & _)|(_ & Hs & _ & Hb)]).
  - split_and!; [done..|apply inv_init].
  - lia.
  - discriminate Hok.
  - exists st'. split_and!; [done..|by apply Hb].
Defined.

Lemma readyz_history_witness :
  (readyz default_settings (poll_rounds default_settings create_app [example_env true; example_env false])
     (dec 1750 0)).1 = 200.
Proof.
  apply (readyz_history default_settings [example_env true; example_env false] (dec 1750 0)); [simpl; lia|].
  exists [], (dec 1701 0), [(false, dec 1701 0)]. split_and!; vm_compute; reflexivity.
Defined.

