(* ===== verification/Service.v ===== *)
(** * The running service (exporter/app.py)

    The event loop of the service: the poll task, the requests between its steps, and its
    end.  The loop awaits in two places, [adapter.collect()] and [asyncio.sleep]; all the
    rest of a round, and every handler, runs without an await.  A cancellation arrives
    at an await, and [except Exception] does not catch it. *)

From S2P Require Import Prelude PyFloat PyStr PyVal Digest Schemas PromParse PromWriter App.

(** Where the poll task is: [Absent] when [start_poll_loop] is off. *)
Inductive task : Type := Absent | Collecting | Sleeping | Ended.
Record service := { sv_task : task; sv_app : AppState }.

Inductive request : Type := Healthz | Readyz (now : float) | Metrics | BackendState | Advice.
Inductive content : Type := JsonContent (d : list (string * val)) | TextContent (text : string).

Section service.
Context (settings : Settings) (generate_latest : writer -> string) (start_poll_loop : bool).

Definition healthz : list (string * val) := [("status", VStr "ok")]%string.
Definition handle (st : AppState) (r : request) : Z * content :=
  match r with
  | Healthz => (200, JsonContent healthz)
  | Readyz now => let '(status, d) := readyz settings st now in (status, JsonContent d)
  | Metrics => (200, TextContent (generate_latest (app_writer st)))
  | BackendState => let '(status, d) := backend_state_snapshot st in (status, JsonContent d)
  | Advice => let '(status, d) := tuning_advice st in (status, JsonContent d)
  end.

(** Before [lifespan]. *)
Definition created : service := {| sv_task := Absent; sv_app := create_app |}.
(** [poll_task = asyncio.create_task(poll_loop())] *)
Definition started : service :=
  {| sv_task := if start_poll_loop then Collecting else Absent; sv_app := create_app |}.
(** [max(settings.poll_interval_s, 0.2)] *)
Definition poll_delay : float := fmax (cfg_poll_interval_s settings) (dec 2 (-1)).

Inductive event : Type :=
| Collected (env : Env)                                   (* [collect] returned or raised; the round runs to its sleep *)
| Slept (seconds : float)
| Answered (r : request) (answer : Z * content)
| Shutdown.

Inductive step : service -> event -> service -> Prop :=
| StepCollected app env app' r : poll_round settings app env = (app', r) ->
    step {| sv_task := Collecting; sv_app := app |} (Collected env)
         {| sv_task := if is_ok r then Sleeping else Ended; sv_app := app' |}
| StepSlept app : step {| sv_task := Sleeping; sv_app := app |} (Slept poll_delay) {| sv_task := Collecting; sv_app := app |}
| StepAnswered s r : step s (Answered r (handle (sv_app s) r)) s
| StepShutdown s : step s Shutdown {| sv_task := match sv_task s with Absent => Absent | _ => Ended end; sv_app := sv_app s |}.

(** The events of a run, in order. *)
Inductive trace : service -> list event -> service -> Prop :=
| TraceNil s : trace s [] s
| TraceCons s e s' l s'' : step s e s' -> trace s' l s'' -> trace s (e :: l) s''.

(** The rounds of a run. *)
Definition collected (l : list event) : list Env := omap (fun e => match e with Collected env => Some env | _ => None end) l.
Definition is_shutdown (e : event) : bool := match e with Shutdown => true | _ => false end.

Lemma trace_app s l1 l2 s' : trace s (l1 ++ l2) s' <-> exists m, trace s l1 m /\ trace m l2 s'.
Proof.
  revert s. induction l1 as [|e l1 IH]; intros s; cbn.
  - split; [intros H; exists s; by split; [constructor|]|]. intros (m & H1 & H2). by inversion H1; subst.
  - split.
    + intros H. inversion H as [|? ? m ? ? Hs Ht]; subst. apply IH in Ht as (k & H1 & H2). exists k. split; [by econstructor|done].
    + intros (m & H1 & H2). inversion H1 as [|? ? k ? ? Hs Ht]; subst. econstructor; [done|]. apply IH. by exists m.
Qed.

(** The state of the application is always the one after the whole rounds so far. *)
Lemma trace_rounds s l s' : trace s l s' -> sv_app s' = poll_rounds settings (sv_app s) (collected l).
Proof.
  induction 1 as [s|s e s' l s'' Hs _ IH]; [done|]. rewrite IH. destruct Hs as [app env app' r Hr| | |]; try done.
  cbn. unfold poll_rounds. cbn. by rewrite Hr.
Qed.
(** A task that ended, or never started, does nothing more. *)
Lemma ended_stays s l s' : trace s l s' -> sv_task s = Ended \/ sv_task s = Absent ->
  sv_app s' = sv_app s /\ collected l = [] /\ sv_task s' = sv_task s.
Proof.
  induction 1 as [s|s e s' l s'' Hs _ IH]; [done|]. intros Ht.
  destruct Hs as [app env app' r Hr|app|s r|s]; cbn [sv_task sv_app] in *; try (by destruct Ht).
  - by apply IH.
  - destruct Ht as [Ht|Ht]; rewrite Ht in *; apply IH; [by left|by right].
Qed.
(** Without a shutdown, the task of a started service never ends. *)
Definition alive (s : service) : Prop := sv_task s = Collecting \/ sv_task s = Sleeping.
Lemma trace_alive s l s' n last : trace s l s' -> alive s -> scraped last n (sv_app s) -> 0 <= n ->
  n + zlen (collected l) < 2 ^ 1000 -> existsb is_shutdown l = false -> alive s'.
Proof.
  intros H. revert n last. induction H as [s|s e s' l s'' Hs _ IH]; intros n last Ha Hsc Hn Hb Hd; [done|].
  cbn [existsb] in Hd. apply orb_false_iff in Hd as [Hd1 Hd2].
  destruct Hs as [app env app' r Hr|app|s r|s]; [| | |discriminate Hd1].
  - cbn [collected omap list_omap] in Hb. fold (collected l) in Hb. rewrite zlen_cons in Hb. cbn [sv_app] in Hsc.
    pose proof (zlen_nonneg (collected l)) as Hlen.
    destruct (poll_round_scraped settings env app last n Hsc ltac:(lia)) as (st' & Hp & Hcase).
    rewrite Hr in Hp. injection Hp as -> ->. cbn [is_ok sv_task sv_app] in *.
    destruct (is_ok (poll_body settings env app).2); destruct Hcase as [Hst _]; (eapply IH; [by right|exact Hst|lia|lia|done]).
  - eapply (IH n last); try done. by left.
  - by eapply (IH n last).
Qed.
(** A task that slept and collects again has slept its delay. *)
Lemma asleep_sleeps s l s' : trace s l s' -> sv_task s = Sleeping -> sv_task s' = Collecting -> Slept poll_delay ∈ l.
Proof.
  induction 1 as [s|s e s' l s'' Hs Ht IH]; [congruence|]. intros Hsl Hc.
  destruct Hs as [app env app' r Hr|app|s r|s]; cbn [sv_task] in *; try done.
  - by left.
  - right. by apply IH.
  - rewrite Hsl in Ht. destruct (ended_stays _ _ _ Ht ltac:(by left)) as (_ & _ & He). cbn in He. congruence.
Qed.

End service.

(** One round, a request, the end. *)
Definition short_run (settings : Settings) (gl : writer -> string) (env : Env) (r : request) : list event :=
  [Collected env; Answered r (handle settings gl (poll_rounds settings create_app [env]) r); Slept (poll_delay settings); Shutdown].
Lemma short_run_trace settings gl env r : is_ok (poll_round settings create_app env).2 = true ->
  exists s, trace settings gl (started true) (short_run settings gl env r) s.
Proof.
  intros Hok. pose proof (StepCollected settings gl create_app env _ _ (surjective_pairing (poll_round settings create_app env))) as Hs.
  rewrite Hok in Hs. eexists. eapply TraceCons; [exact Hs|].
  eapply TraceCons; [apply (StepAnswered _ _ {| sv_task := Sleeping; sv_app := (poll_round settings create_app env).1 |})|].
  eapply TraceCons; [apply StepSlept|]. eapply TraceCons; [apply StepShutdown|apply TraceNil].
Qed.
Definition demo_answer : Z * content :=
  handle default_settings (fun _ => ""%string) (poll_rounds default_settings create_app [example_env true]) (Readyz (dec 1750 0)).
Abbreviation demo_events := (short_run default_settings (fun _ => ""%string) (example_env true) (Readyz (dec 1750 0))).

(** A gauge that the backend reports as NaN is served, and written, as it is: the file of
    such a round is not JSON. *)
Definition nan_env : Env := {|
  http_get := fun _ => Ok "page"%string;
  text_string_to_metric_families := fun _ => Ok [{| f_type := "gauge"; f_samples :=
    [{| s_name := "vllm:num_requests_waiting"; s_labels := []; s_value := S754_nan |}] |}];
  label_filter_env := ""; set_order := id; format_exc := fun _ => ""%string; time_snapshot := dec 1700 0; time_success := dec 1701 0;
  mkdir := fun _ => Ok tt; write_text := fun _ _ => Ok tt; append_text := fun _ _ => Ok tt |}.
Example nan_is_written : let st := poll_rounds default_settings create_app [nan_env] in
  existsb (fun op => match op with
                     | FWrite _ text => has_infix (chars "NaN") (chars text)
                     | FAppend _ _ => false end) (files st) = true.
Proof. vm_compute. reflexivity. Qed.
