(* ===== verification/WindowMetrics.v ===== *)
(** * Window metrics and their quality (benchmark/window_metrics.py)

    A run entry is a JSON object; its hit ratio is computed from the counters of two
    metric snapshots, or falls back on a gauge of the exporter.  The summaries
    classify a group of runs by the quality of that evidence. *)

From S2P Require Import Prelude PyFloat FloatOrder PyStr PyVal.

Definition dict := list (string * val).
Definition dgetv (d : dict) (k : string) : val := dget_or d k VNone.

Definition DEFAULT_PREFIX_HITS_KEYS : list string :=
  ["vllm:prefix_cache_hits_total"; "vllm:prefix_cache_hits"; "sglang:prefix_cache_hits_total";
   "sglang_prefix_cache_hits_total"; "sglang:prefix_cache_hits"; "sglang_prefix_cache_hits";
   "sglang:cached_tokens_total"; "sglang_cached_tokens_total"].
Definition DEFAULT_PREFIX_QUERIES_KEYS : list string :=
  ["vllm:prefix_cache_queries_total"; "vllm:prefix_cache_queries"; "sglang:prefix_cache_queries_total";
   "sglang_prefix_cache_queries_total"; "sglang:prefix_cache_queries"; "sglang_prefix_cache_queries";
   "sglang:prompt_tokens_total"; "sglang_prompt_tokens_total"].
Definition EXPORTER_LAST_SUCCESS_KEYS : list string :=
  ["kvcache_exporter_scrape_last_success_timestamp_seconds"].

Definition empty_window : dict := [("start_ts", VNone); ("warmup_end_ts", VNone); ("end_ts", VNone)]%string.
Definition empty_metric_snapshots : dict :=
  [("backend_before", VNone); ("backend_after", VNone);
   ("exporter_before", VNone); ("exporter_after", VNone)]%string.
Definition empty_derived_window_metrics (metric_source : string) : dict :=
  [("prefix_hits_delta", VNone); ("prefix_queries_delta", VNone); ("cache_hit_ratio_window", VNone);
   ("metrics_missing", VBool false); ("metrics_stale", VBool false);
   ("metric_source", VStr metric_source); ("evidence_quality", VStr "missing")]%string.

(** [now] is [time.time()]. *)
Definition make_metric_snapshot (metrics : dict) (ts : option float) (error : string) (now : float)
  : res dict :=
  ms <-! res_map (fun kv => v <-! float_of_val kv.2 ;; Ok (kv.1, VFloat v)) metrics ;;
  Ok [("ts", VFloat (default now ts)); ("metrics", VDict ms); ("error", VStr error)]%string.

Definition set_ts (w : dict) (k : string) (ts : option float) : dict :=
  match ts with Some t => dset w k (VFloat t) | None => w end.
Definition make_run_entry (repeat : Z) (summary exporter_metrics : dict)
    (start_ts warmup_end_ts end_ts : option float) (metric_source : string) : dict :=
  let window := set_ts (set_ts (set_ts empty_window "start_ts" start_ts)
                  "warmup_end_ts" warmup_end_ts) "end_ts" end_ts in
  [("repeat", VInt repeat); ("window", VDict window); ("summary", VDict summary);
   ("exporter_metrics", VDict exporter_metrics);
   ("metric_snapshots", VDict empty_metric_snapshots);
   ("derived_window_metrics", VDict (empty_derived_window_metrics metric_source))]%string.

(** ** Picking counters *)

Fixpoint pick_metric_with_name (metrics : dict) (candidates : list string) : res (option float * string) :=
  match candidates with
  | [] => Ok (None, "")
  | name :: rest =>
      match dget metrics name with
      | Some v => f <-! float_of_val v ;; Ok (Some f, name)
      | None => pick_metric_with_name metrics rest
      end
  end.
Definition pick_metric (metrics : dict) (candidates : list string) : res (option float) :=
  p <-! pick_metric_with_name metrics candidates ;; Ok p.1.
Definition metric_from_snapshot (snapshot : val) (candidates : list string) : res (option float) :=
  if negb (truthy snapshot) then Ok None
  else
    m <-! vget snapshot "metrics" (VDict []) ;;
    match m with VDict metrics => pick_metric metrics candidates | _ => Ok None end.
Definition snapshot_has_error (snapshot : val) : res bool :=
  if negb (truthy snapshot) then Ok false
  else e <-! vget snapshot "error" (VStr "") ;; Ok (truthy e).

Definition compute_counter_delta (before after : option float) : option float :=
  match before, after with
  | Some b, Some a => if a <?. b then None else Some (a ⊖ b)
  | _, _ => None
  end.
Definition compute_hit_ratio_from_deltas (hits_delta queries_delta : option float) : res (option float) :=
  match hits_delta, queries_delta with
  | Some h, Some q =>
      if q <=?. f0 then Ok None
      else r <-! fdiv h q ;; Ok (Some (fmax f0 (fmin f1 r)))
  | _, _ => Ok None
  end.

(** [_coerce_finite_float]: only [TypeError] and [ValueError] are caught. *)
Definition _coerce_finite_float (value : val) : res (option float) :=
  match float_of_val value with
  | Ok number => Ok (if isfinite number then Some number else None)
  | Err TypeError | Err (ValueError _) => Ok None
  | Err e => Err e
  end.

(** ** Window metrics of a run *)

Definition mapping_of (v : val) : option dict := match v with VDict d => Some d | _ => None end.
Definition snapshot_metrics (snapshot : val) : val :=
  match snapshot with VDict d => dget_or d "metrics" (VDict []) | _ => VDict [] end.
Definition pick_from (metrics : val) (keys : list string) : res (option float * string) :=
  match metrics with VDict m => pick_metric_with_name m keys | _ => Ok (None, "") end.
(** A counter that only appears after the run started from zero. *)
Definition zero_if_new (before after : option float) (before_snapshot : val) : res (option float) :=
  match before, after with
  | None, Some _ => e <-! snapshot_has_error before_snapshot ;; Ok (if e : bool then None else Some f0)
  | _, _ => Ok before
  end.

Definition token_fallback_names : list string :=
  ["sglang:cached_tokens_total"; "sglang_cached_tokens_total";
   "sglang:prompt_tokens_total"; "sglang_prompt_tokens_total"].

Definition window_evidence (ratio : option float) (hits_after_name queries_after_name : string)
    (names : list string) : string :=
  let selected_names := List.filter (fun n => negb (String.eqb n "")) names in
  match ratio with
  | None => "missing"
  | Some _ =>
      if negb (Nat.eqb (length selected_names) 0)
         && forallb (fun n => existsb (String.eqb n) token_fallback_names) selected_names
      then "fallback"
      else if negb (String.eqb hits_after_name "") && negb (String.eqb queries_after_name "")
      then "strict"
      else "missing"
  end.

Definition derive_window_metrics (before_snapshot after_snapshot : val)
    (prefix_hits_keys prefix_queries_keys : list string) (metric_source : string) : res dict :=
  let before_metrics := snapshot_metrics before_snapshot in
  let after_metrics := snapshot_metrics after_snapshot in
  ' (hits_before, hits_before_name) <-! pick_from before_metrics prefix_hits_keys ;;
  ' (hits_after, hits_after_name) <-! pick_from after_metrics prefix_hits_keys ;;
  ' (queries_before, queries_before_name) <-! pick_from before_metrics prefix_queries_keys ;;
  ' (queries_after, queries_after_name) <-! pick_from after_metrics prefix_queries_keys ;;
  hits_before <-! zero_if_new hits_before hits_after before_snapshot ;;
  queries_before <-! zero_if_new queries_before queries_after before_snapshot ;;
  let hits_delta := compute_counter_delta hits_before hits_after in
  let queries_delta := compute_counter_delta queries_before queries_after in
  ratio <-! compute_hit_ratio_from_deltas hits_delta queries_delta ;;
  let any_none := existsb (fun o : option float => is_none (opt_float o))
                    [hits_before; hits_after; queries_before; queries_after] in
  let out := empty_derived_window_metrics metric_source in
  let out := dset out "prefix_hits_delta" (opt_float hits_delta) in
  let out := dset out "prefix_queries_delta" (opt_float queries_delta) in
  let out := dset out "cache_hit_ratio_window" (opt_float ratio) in
  let out := dset out "metrics_missing" (VBool (any_none || is_none (opt_float ratio))) in
  Ok (dset out "evidence_quality"
        (VStr (window_evidence ratio hits_after_name queries_after_name
                 [hits_before_name; hits_after_name; queries_before_name; queries_after_name]))).

Definition snapshot_is_stale (snapshot : val) (reference_ts : float) (freshness_keys : list string)
  : res bool :=
  last_success <-! metric_from_snapshot snapshot freshness_keys ;;
  Ok (match last_success with None => true | Some t => t <?. reference_ts end).

(** ** Quality of a run *)

Definition coerce_key (d : dict) (k : string) : res (option float) := _coerce_finite_float (dgetv d k).
Definition is_one (o : option float) : bool := match o with Some f => feqb f f1 | None => false end.

Definition known_qualities : list string := ["strict"; "estimated"; "fallback"].
(** The quality that the exporter's flags tell, tried in order. *)
Definition exporter_quality (exporter_metrics : val) : res string :=
  match exporter_metrics with
  | VDict m =>
      c <-! coerce_key m "kvcache_exporter_prefix_metric_comparable" ;;
      if is_one c then Ok "strict"%string
      else
        e <-! coerce_key m "kvcache_exporter_prefix_metric_estimated" ;;
        if is_one e then Ok "estimated"%string
        else
          t <-! coerce_key m "kvcache_exporter_prefix_metric_token_fallback" ;;
          Ok (if is_one t then "fallback" else "missing")%string
  | _ => Ok "missing"%string
  end.
Definition get_entry_evidence_quality (entry : dict) : res string :=
  let derived_quality :=
    match dget_or entry "derived_window_metrics" (VDict []) with
    | VDict derived => py_str (dget_or derived "evidence_quality" (VStr "missing"))
    | _ => ""
    end in
  if existsb (String.eqb derived_quality) known_qualities then Ok derived_quality
  else exporter_quality (dget_or entry "exporter_metrics" (VDict [])).

Definition at_least_half (o : option float) : bool :=
  match o with Some f => f >=?. dec 5 (-1) | None => false end.
Definition get_entry_prefix_metric_check (entry : dict) : res string :=
  evidence_quality <-! get_entry_evidence_quality entry ;;
  if String.eqb evidence_quality "strict" then Ok "strict"%string
  else if String.eqb evidence_quality "fallback" then Ok "token_fallback"%string
  else if String.eqb evidence_quality "estimated" then Ok "other"%string
  else
    match dget_or entry "exporter_metrics" (VDict []) with
    | VDict m =>
        let comparable_present := dmem m "kvcache_exporter_prefix_metric_comparable" in
        let token_fallback_present := dmem m "kvcache_exporter_prefix_metric_token_fallback" in
        comparable <-! coerce_key m "kvcache_exporter_prefix_metric_comparable" ;;
        token_fallback <-! coerce_key m "kvcache_exporter_prefix_metric_token_fallback" ;;
        Ok (if comparable_present && at_least_half comparable then "strict"
            else if token_fallback_present && at_least_half token_fallback then "token_fallback"
            else if comparable_present || token_fallback_present then "other"
            else "missing")%string
    | _ => Ok "missing"%string
    end.

(** The hit ratio of a run, the quality of its metrics, and where it comes from. *)
Definition get_entry_hit_ratio_quality_and_source (entry : dict) : res (option float * string * string) :=
  match dget entry "derived_window_metrics" with
  | Some (VDict derived) =>
      value <-! coerce_key derived "cache_hit_ratio_window" ;;
      let metrics_stale := truthy (dget_or derived "metrics_stale" (VBool false)) in
      Ok (match value with
          | Some v => (Some v, if metrics_stale then "stale" else "ok", "window")
          | None => (None, if metrics_stale then "stale" else "missing", "window")
          end)%string
  | Some _ => Ok (None, "missing", "window")%string
  | None =>
      match dget_or entry "exporter_metrics" (VDict []) with
      | VDict m =>
          value <-! coerce_key m "kvcache_kv_cache_hit_ratio" ;;
          Ok (match value with
              | Some v => (Some v, "ok", "snapshot_fallback")
              | None => (None, "missing", "missing")
              end)%string
      | _ => Ok (None, "missing", "missing")%string
      end
  end.
Definition get_entry_hit_ratio_and_quality (entry : dict) : res (option float * string) :=
  r <-! get_entry_hit_ratio_quality_and_source entry ;; Ok r.1.
Definition summarize_entry_quality (entry : dict) : res dict :=
  ' (hit_ratio, metric_quality, hit_ratio_source) <-! get_entry_hit_ratio_quality_and_source entry ;;
  evidence <-! get_entry_evidence_quality entry ;;
  Ok [("cache_hit_ratio", opt_float hit_ratio); ("metric_quality", VStr metric_quality);
      ("hit_ratio_source", VStr hit_ratio_source); ("evidence_quality", VStr evidence)]%string.

(** ** Summaries of a group of runs *)

Definition summarize_metric_quality_counts (total_runs ok stale missing : Z) : string :=
  if total_runs <=? 0 then "missing"
  else if ok =? total_runs then "ok"
  else if stale =? total_runs then "stale"
  else if missing =? total_runs then "missing"
  else "mixed".

Definition summarize_hit_ratio_source_counts (window snapshot_fallback missing : Z) : string :=
  let present := length (List.filter (fun c => 0 <? c) [window; snapshot_fallback; missing]) in
  if (1 <? Z.of_nat present) then "mixed"
  else if 0 <? window then "window"
  else if 0 <? snapshot_fallback then "snapshot_fallback"
  else "missing".

(** How many labels of a list are [s]; [zlen] is [len]. *)
Definition count (s : string) (l : list string) : Z := zlen (List.filter (String.eqb s) l).

(** [summarize_evidence_quality]: the common quality of all entries. *)
Definition summarize_evidence_quality (entries : list dict) : res string :=
  qualities <-! res_map get_entry_evidence_quality entries ;;
  Ok (match remove_dups qualities with
      | [] => "missing"
      | [q] => q
      | _ => "mixed"
      end)%string.

(** [float(a) / float(b) if b > 0 else 0.0] for counts. *)
Definition fraction (a b : Z) : res float :=
  if 0 <? b then x <-! float_of_int a ;; y <-! float_of_int b ;; fdiv x y else Ok f0.

Definition prefix_check_summary (total strict token_fallback other missing : Z) : string :=
  if (total <=? 0) || (missing =? total) then "missing"
  else if strict =? total then "strict"
  else if token_fallback =? total then "token_fallback"
  else if other =? total then "other"
  else "mixed".

(** Anything but the three named checks counts as missing. *)
Definition count_rest (named : list string) (l : list string) : Z :=
  zlen (List.filter (fun s => negb (existsb (String.eqb s) named)) l).

Definition summarize_prefix_metric_checks (entries : list dict) : res dict :=
  checks <-! res_map get_entry_prefix_metric_check entries ;;
  let strict := count "strict" checks in
  let token_fallback := count "token_fallback" checks in
  let other := count "other" checks in
  let missing := count_rest ["strict"; "token_fallback"; "other"] checks in
  let total_runs := zlen entries in
  strict_fraction <-! fraction strict total_runs ;;
  fallback_fraction <-! fraction token_fallback total_runs ;;
  Ok [("num_runs_prefix_metric_strict", VInt strict);
      ("num_runs_prefix_metric_token_fallback", VInt token_fallback);
      ("num_runs_prefix_metric_other", VInt other);
      ("num_runs_prefix_metric_missing", VInt missing);
      ("prefix_metric_check", VStr (prefix_check_summary total_runs strict token_fallback other missing));
      ("prefix_metric_strict_run_fraction", VFloat strict_fraction);
      ("prefix_metric_token_fallback_run_fraction", VFloat fallback_fraction)]%string.

Definition summarize_runs_quality (entries : list dict) : res dict :=
  rows <-! res_map get_entry_hit_ratio_quality_and_source entries ;;
  let qualities := map (fun r : option float * string * string => r.1.2) rows in
  let sources := map (fun r : option float * string * string => r.2) rows in
  let total_runs := zlen entries in
  let ok := count "ok" qualities in
  let stale := count "stale" qualities in
  let missing := count_rest ["ok"; "stale"] qualities in
  let window := count "window" sources in
  let snapshot_fallback := count "snapshot_fallback" sources in
  let missing_source := count_rest ["window"; "snapshot_fallback"] sources in
  let metric_quality := summarize_metric_quality_counts total_runs ok stale missing in
  let hit_ratio_source := summarize_hit_ratio_source_counts window snapshot_fallback missing_source in
  ok_fraction <-! fraction ok total_runs ;;
  checks <-! summarize_prefix_metric_checks entries ;;
  evidence <-! summarize_evidence_quality entries ;;
  let counts := [("total_runs", VInt total_runs);
    ("num_runs_ok_metrics", VInt ok);
    ("num_runs_missing_hit_ratio", VInt missing);
    ("num_runs_stale_metrics", VInt stale);
    ("num_runs_window_hit_ratio", VInt window);
    ("num_runs_snapshot_fallback_hit_ratio", VInt snapshot_fallback);
    ("num_runs_missing_hit_ratio_source", VInt missing_source);
    ("metric_quality", VStr metric_quality);
    ("hit_ratio_source", VStr hit_ratio_source);
    ("ok_metric_run_fraction", VFloat ok_fraction);
    ("hit_ratio_comparable",
       VBool (String.eqb metric_quality "ok" && negb (String.eqb hit_ratio_source "mixed")))]%string in
  Ok (dset (dupdate counts checks) "evidence_quality" (VStr evidence)).

(** ** Properties *)

Lemma compute_ratio_in01 h q r : compute_hit_ratio_from_deltas h q = Ok (Some r) ->
  in01 r = true /\ is_Some h /\ exists q', q = Some q' /\ fleb q' f0 = false.
Proof.
  unfold compute_hit_ratio_from_deltas. destruct h as [h|], q as [q|]; try done.
  destruct (fleb q f0) eqn:E; [done|]. intros H. inv_ok H. simplify_eq.
  split; [apply clamp_in01|]. eauto.
Qed.
Lemma counter_delta_some b a d : compute_counter_delta b a = Some d ->
  exists x y, b = Some x /\ a = Some y /\ fltb y x = false /\ d = y ⊖ x.
Proof.
  unfold compute_counter_delta. destruct b as [x|], a as [y|]; try done.
  destruct (fltb y x) eqn:E; [done|]. intros [= <-]. eauto 10.
Qed.


(** ** Counting labels *)

Lemma res_map_proj {A B C} (f : A -> res B) (g : A -> res C) (h : B -> C) l ys :
  (forall x y, f x = Ok y -> g x = Ok (h y)) -> res_map f l = Ok ys -> res_map g l = Ok (map h ys).
Proof.
  intros Hfg. revert ys; induction l as [|x l IH]; simpl; intros ys H.
  - by injection H as <-.
  - inv_ok H. subst ys. by rewrite (Hfg _ _ E), (IH _ eq_refl).
Qed.

Lemma count_cons s x l : count s (x :: l) = (if String.eqb s x then 1 else 0) + count s l.
Proof. unfold count, zlen. simpl. destruct (String.eqb s x); simpl; lia. Qed.
Lemma count_rest_cons n x l :
  count_rest n (x :: l) = (if existsb (String.eqb x) n then 0 else 1) + count_rest n l.
Proof. unfold count_rest, zlen. simpl. destruct (existsb (String.eqb x) n); simpl; lia. Qed.
Lemma count_nonneg s l : 0 <= count s l <= zlen l.
Proof. unfold count, zlen. pose proof (filterb_length_le (String.eqb s) l). lia. Qed.
Lemma count_all s l : count s l = zlen l <-> Forall (eq s) l.
Proof.
  induction l as [|x l IH]; [done|]. rewrite count_cons, zlen_cons, Forall_cons.
  pose proof (count_nonneg s l). destruct (String.eqb_spec s x); split.
  - intros. split; [done|]. apply IH. lia.
  - intros [_ Hl]. apply IH in Hl. lia.
  - lia.
  - by intros [].
Qed.

(** The named labels and the rest partition a list. *)
Lemma count_partition a b l : a <> b -> count a l + count b l + count_rest [a; b] l = zlen l.
Proof.
  intros Hab. induction l as [|x l IH]; [done|].
  rewrite !count_cons, count_rest_cons, zlen_cons. simpl. rewrite !(String.eqb_sym x).
  destruct (String.eqb_spec a x), (String.eqb_spec b x); subst; simpl; try done; lia.
Qed.
(** When only one more label occurs, the rest are that label. *)
Lemma count_rest_last named c l : Forall (fun x => x ∈ named \/ x = c) l -> c ∉ named ->
  count_rest named l = count c l.
Proof.
  intros Hl Hc. induction Hl as [|x l Hx _ IH]; [done|].
  rewrite count_cons, count_rest_cons, IH.
  destruct (existsb (String.eqb x) named) eqn:E.
  - apply existsb_elem in E as (y & Hy & Hxy). apply String.eqb_eq in Hxy as <-.
    destruct (String.eqb_spec c x) as [<-|]; [done|lia].
  - destruct Hx as [Hx| ->]; [|by rewrite String.eqb_refl].
    apply not_true_iff_false in E. destruct E. apply existsb_elem. exists x.
    by rewrite String.eqb_refl.
Qed.

Lemma remove_dups_single (l : list string) q :
  remove_dups l = [q] <-> l <> [] /\ Forall (eq q) l.
Proof.
  split.
  - intros H. split; [by intros ->|]. apply Forall_forall. intros x Hx.
    apply elem_of_remove_dups in Hx. rewrite H in Hx. by apply list_elem_of_singleton in Hx.
  - intros [Hne Hall]. pose proof (NoDup_remove_dups l) as Hnd.
    assert (Hin : forall x, x ∈ remove_dups l <-> x ∈ l) by (intros; apply elem_of_remove_dups).
    rewrite Forall_forall in Hall.
    destruct (remove_dups l) as [|a [|b m]].
    + destruct l as [|x l]; [done|]. exfalso. specialize (Hin x). set_solver.
    + f_equal. symmetry. apply Hall, Hin. by left.
    + exfalso. apply NoDup_cons in Hnd as [Hn _]. apply Hn.
      rewrite <- (Hall a), <- (Hall b); [by left|..]; apply Hin; set_solver.
Qed.

(** The labels that occur. *)
Lemma quality_source_labels entry v q s :
  get_entry_hit_ratio_quality_and_source entry = Ok (v, q, s) ->
  q ∈ ["ok"; "stale"; "missing"]%string /\ s ∈ ["window"; "snapshot_fallback"; "missing"]%string /\
  (q = "ok" -> is_Some v).
Proof.
  unfold get_entry_hit_ratio_quality_and_source. intros H.
  repeat case_match; simplify_eq; split_and!; try done; set_solver.
Qed.
Lemma evidence_labels entry q : get_entry_evidence_quality entry = Ok q ->
  q ∈ ["strict"; "estimated"; "fallback"; "missing"]%string.
Proof.
  unfold get_entry_evidence_quality. case_match eqn:E.
  - intros [= <-]. apply existsb_elem in E as (x & Hx & E). apply String.eqb_eq in E as ->.
    unfold known_qualities in Hx. set_solver.
  - unfold exporter_quality. intros H. repeat case_match; simplify_eq; set_solver.
Qed.
