(* ===== verification/Journal.v ===== *)
(** * Decision and outcome journals (planner/ttft_predictor.py, planner/policy_evaluation.py)

    The gateway appends one JSON object per line; a planner joins the decisions with
    the outcomes by request id.  A file is its path and its text; the paths come
    sorted from [glob].  Reading a line is [json.loads], a parameter. *)

From S2P Require Import Prelude PyFloat FloatOrder PyStr PyVal WindowMetrics.

(** ** Dictionaries keyed by a JSON value *)

(** Hashing a list or a dict raises. *)
Definition hashable (v : val) : bool := match v with VList _ | VDict _ => false | _ => true end.
(** Keys are compared by identity, then by [==]; [json.loads] yields one NaN object. *)
Definition key_eq (a b : val) : bool :=
  match a, b with
  | VFloat S754_nan, VFloat S754_nan => true
  | _, _ => py_eq a b
  end.

Fixpoint kfind {A} (d : list (val * A)) (k : val) : option A :=
  match d with
  | [] => None
  | (k', v) :: d' => if key_eq k k' then Some v else kfind d' k
  end.
(** [d[k] = v] keeps the first key and its place. *)
Fixpoint kput {A} (d : list (val * A)) (k : val) (v : A) : list (val * A) :=
  match d with
  | [] => [(k, v)]
  | (k', v') :: d' => if key_eq k k' then (k', v) :: d' else (k', v') :: kput d' k v
  end.
Definition kset {A} (d : list (val * A)) (k : val) (v : A) : res (list (val * A)) :=
  raise_if negb (hashable k) with TypeError ;; Ok (kput d k v).
Definition kget {A} (d : list (val * A)) (k : val) : res (option A) :=
  raise_if negb (hashable k) with TypeError ;; Ok (kfind d k).

(** [{row.get("request_id"): row for row in rows if keep(row)}] *)
Definition by_request_id (keep : dict -> bool) (rows : list dict) : res (list (val * dict)) :=
  res_fold (fun d row => kset d (dgetv row "request_id") row) [] (List.filter keep rows).

(** ** Reading the files *)

Definition enumerate1 {A} (l : list A) : list (Z * A) :=
  map (fun p : nat * A => (Z.of_nat p.1 + 1, p.2)) (indexed l).
Definition blank (line : string) : bool := String.eqb (strip line) "".

Section read.
Context (json_loads : string -> res val).

(** The planner's reader refuses a line that is not an object. *)
Definition read_object (path : string) (numbered : Z * string) : res (list dict) :=
  if blank numbered.2 then Ok []
  else
    value <-! json_loads numbered.2 ;;
    match value with
    | VDict d => Ok [d]
    | _ => Err (ValueError (path +:+ ":" +:+ str_of_Z numbered.1 +:+ ": expected a JSON object"))
    end.
Definition _read_jsonl (paths : list (string * string)) : res (list dict) :=
  rows <-! res_map (fun f : string * string =>
    lines <-! res_map (read_object f.1) (enumerate1 (splitlines f.2)) ;; Ok (mjoin lines)) paths ;;
  Ok (mjoin rows).

(** The evaluation's reader drops it. *)
Definition read_dict (line : string) : res (list dict) :=
  if blank line then Ok []
  else value <-! json_loads line ;; Ok (match value with VDict d => [d] | _ => [] end).
Definition read_jsonl_dicts (paths : list (string * string)) : res (list dict) :=
  rows <-! res_map (fun f : string * string =>
    lines <-! res_map read_dict (splitlines f.2) ;; Ok (mjoin lines)) paths ;;
  Ok (mjoin rows).
End read.

(** [next candidate of the decision with this backend_id], or nothing. *)
Definition _candidate (decision : dict) (backend_id : string) : res (option dict) :=
  candidates <-! viter (dget_or decision "candidates" (VList [])) ;;
  Ok (head (omap (fun c => match c with
                           | VDict d => if is_vstr (dgetv d "backend_id") backend_id then Some d else None
                           | _ => None
                           end) candidates)).

Lemma candidate_backend decision b c : _candidate decision b = Ok (Some c) ->
  dgetv c "backend_id" = VStr b.
Proof.
  unfold _candidate. intros H. inv_ok H. rewrite head_lookup in H.
  apply list_elem_of_lookup_2, list_elem_of_omap in H as (v & _ & Hv).
  destruct v; try done. destruct (is_vstr _ _) eqn:Ev; [|done]. injection Hv as ->.
  destruct (dgetv c "backend_id"); try done. simpl in Ev. by apply String.eqb_eq in Ev as ->.
Qed.
