(* ===== verification/Policy.v ===== *)
(** * Rate recommendation from benchmark runs (planner/policy.py) *)

From S2P Require Import Prelude PyFloat FloatOrder FloatRound PyStr PyVal WindowMetrics.

Record row := {
  rw_req_s : float;
  rw_passed : bool;
  rw_quality : string;
  rw_source : string;
  rw_check : string;
  rw_evidence : string
}.

(** [float(d.get(k, 0) or 0)] *)
Definition number_or_zero (d : val) (k : string) : res float :=
  v <-! vget d k (VInt 0) ;; float_or_zero v.

Section policy.
Context (e2e_p95_slo_ms min_success_rate : float) (min_hit_ratio : option float) (safety_factor : float).

(** The body of the loop over the runs. *)
Definition run_row (entry : dict) : res row :=
  let s := dget_or entry "summary" (VDict []) in
  req <-! vget s "requests" (VDict []) ;;
  total <-! number_or_zero req "total" ;;
  ok <-! number_or_zero req "ok" ;;
  success_rate <-! (if total >?. f0 then fdiv ok total else Ok f0) ;;
  latency <-! vget s "latency" (VDict []) ;;
  e2e <-! number_or_zero latency "e2e_latency_p95_ms" ;;
  throughput <-! vget s "throughput" (VDict []) ;;
  req_s <-! number_or_zero throughput "req_s" ;;
  ' (hit_ratio, metric_quality, hit_ratio_source) <-! get_entry_hit_ratio_quality_and_source entry ;;
  prefix_metric_check <-! get_entry_prefix_metric_check entry ;;
  evidence_quality <-! get_entry_evidence_quality entry ;;
  let hard_ok := (e2e <=?. e2e_p95_slo_ms) && (success_rate >=?. min_success_rate) in
  let hot_ok := match min_hit_ratio with
                | None => true
                | Some m => String.eqb metric_quality "ok"
                            && match hit_ratio with Some h => h >=?. m | None => false end
                end in
  Ok {| rw_req_s := req_s; rw_passed := hard_ok && hot_ok; rw_quality := metric_quality;
        rw_source := hit_ratio_source; rw_check := prefix_metric_check;
        rw_evidence := evidence_quality |}.

Definition passed (rows : list row) : list float := map rw_req_s (List.filter rw_passed rows).

Definition recommended_rps (rows : list row) : res float :=
  match passed rows with
  | [] => Ok f0
  | l => m <-! fmax_list l ;; Ok (m ⊗ safety_factor)
  end.

(** [next((q for q in (...) if counts[q] == n), "mixed")] *)
Definition common_evidence (n strict estimated fallback missing : Z) : string :=
  if (n =? 0) || (missing =? n) then "missing"
  else if strict =? n then "strict"
  else if estimated =? n then "estimated"
  else if fallback =? n then "fallback"
  else "mixed".

Definition recommend_runs (runs : list dict) : res dict :=
  rows <-! res_map run_row runs ;;
  recommended <-! recommended_rps rows ;;
  let n := zlen runs in
  let qualities := map rw_quality rows in
  let sources := map rw_source rows in
  let checks := map rw_check rows in
  let evidence := map rw_evidence rows in
  let missing := count "missing" qualities in
  let stale := count "stale" qualities in
  let ok := count_rest ["missing"; "stale"] qualities in
  let window := count "window" sources in
  let snapshot_fallback := count "snapshot_fallback" sources in
  let strict := count "strict" checks in
  let token_fallback := count "token_fallback" checks in
  let other := count "other" checks in
  let check_missing := count_rest ["strict"; "token_fallback"; "other"] checks in
  let dominant_quality := summarize_metric_quality_counts n ok stale missing in
  let dominant_source := summarize_hit_ratio_source_counts window snapshot_fallback
                           (Z.max 0 (n - window - snapshot_fallback)) in
  let ev_strict := count "strict" evidence in
  let ev_estimated := count "estimated" evidence in
  let ev_fallback := count "fallback" evidence in
  let ev_missing := count_rest ["strict"; "estimated"; "fallback"] evidence in
  ok_fraction <-! fraction ok n ;;
  Ok [("recommended_rps", VFloat recommended);
      ("num_runs", VInt n);
      ("num_runs_missing_hit_ratio", VInt missing);
      ("num_runs_stale_metrics", VInt stale);
      ("num_runs_ok_metrics", VInt ok);
      ("metric_quality", VStr dominant_quality);
      ("num_runs_window_hit_ratio", VInt window);
      ("num_runs_snapshot_fallback_hit_ratio", VInt snapshot_fallback);
      ("hit_ratio_source", VStr dominant_source);
      ("ok_metric_run_fraction", VFloat ok_fraction);
      ("hit_ratio_comparable",
         VBool (String.eqb dominant_quality "ok" && negb (String.eqb dominant_source "mixed")));
      ("num_runs_prefix_metric_strict", VInt strict);
      ("num_runs_prefix_metric_token_fallback", VInt token_fallback);
      ("num_runs_prefix_metric_other", VInt other);
      ("num_runs_prefix_metric_missing", VInt check_missing);
      ("prefix_metric_check", VStr (prefix_check_summary n strict token_fallback other check_missing));
      ("evidence_quality", VStr (common_evidence n ev_strict ev_estimated ev_fallback ev_missing));
      ("evidence_quality_counts",
         VDict [("strict", VInt ev_strict); ("estimated", VInt ev_estimated);
                ("fallback", VInt ev_fallback); ("missing", VInt ev_missing)])]%string.
End policy.

(** ** Properties *)

Lemma run_row_labels slo msr mhr entry r :
  run_row slo msr mhr entry = Ok r ->
  (exists v, get_entry_hit_ratio_quality_and_source entry = Ok (v, rw_quality r, rw_source r)) /\
  get_entry_prefix_metric_check entry = Ok (rw_check r) /\
  get_entry_evidence_quality entry = Ok (rw_evidence r).
Proof.
  unfold run_row. intros H. repeat case_match; simplify_eq; simpl; eauto 10.
Qed.

Lemma rows_labels slo msr mhr runs rows :
  res_map (run_row slo msr mhr) runs = Ok rows ->
  exists triples, res_map get_entry_hit_ratio_quality_and_source runs = Ok triples /\
    map (fun r : option float * string * string => r.1.2) triples = map rw_quality rows /\
    map (fun r : option float * string * string => r.2) triples = map rw_source rows /\
    res_map get_entry_prefix_metric_check runs = Ok (map rw_check rows) /\
    res_map get_entry_evidence_quality runs = Ok (map rw_evidence rows).
Proof.
  intros H. 
  assert (Hc : res_map get_entry_prefix_metric_check runs = Ok (map rw_check rows)).
  { eapply res_map_proj; [|exact H]. intros x y Hy. by destruct (run_row_labels _ _ _ _ _ Hy) as (_ & ? & ?). }
  assert (He : res_map get_entry_evidence_quality runs = Ok (map rw_evidence rows)).
  { eapply res_map_proj; [|exact H]. intros x y Hy. by destruct (run_row_labels _ _ _ _ _ Hy) as (_ & ? & ?). }
  rewrite Hc, He. clear Hc He. revert rows H.
  induction runs as [|e runs IH]; simpl; intros rows H; [injection H as <-; by exists []|].
  inv_ok H. subst rows. destruct (IH _ eq_refl) as (ts & -> & Hq & Hs & _).
  apply run_row_labels in E as [[v Hv] _]. rewrite Hv. eexists. split; [done|]. simpl. by rewrite Hq, Hs.
Qed.

(** The planner's evidence summary counts, the benchmark's looks at the set. *)
Lemma common_evidence_set l :
  Forall (fun q => q ∈ ["strict"; "estimated"; "fallback"; "missing"]%string) l ->
  common_evidence (zlen l) (count "strict" l) (count "estimated" l) (count "fallback" l)
    (count_rest ["strict"; "estimated"; "fallback"] l) =
  match remove_dups l with [] => "missing" | [q] => q | _ => "mixed" end%string.
Proof.
  intros Hl. rewrite (count_rest_last _ "missing"); [| |set_solver].
  2: { eapply Forall_impl; [exact Hl|]. intros q. simpl. set_solver. }
  unfold common_evidence.
  destruct l as [|x l]; [done|]. set (L := x :: l) in *.
  assert (Hz : (zlen L =? 0) = false) by (apply Z.eqb_neq; unfold L; rewrite zlen_cons; unfold zlen; lia).
  rewrite Hz. simpl orb.
  assert (Hc : forall q, (count q L =? zlen L) = bool_decide (Forall (eq q) L)).
  { intros q. destruct (Z.eqb_spec (count q L) (zlen L)) as [E|E];
      rewrite count_all in E; symmetry; [by apply bool_decide_eq_true|by apply bool_decide_eq_false]. }
  rewrite !Hc.
  destruct (remove_dups L) as [|q [|b m]] eqn:E.
  - exfalso. assert (H : x ∈ remove_dups L) by (apply elem_of_remove_dups; by left).
    rewrite E in H. set_solver.
  - apply remove_dups_single in E as [_ Hq].
    assert (Hone : forall q', bool_decide (Forall (eq q') L) = String.eqb q' q).
    { intros q'. destruct (String.eqb_spec q' q) as [->|Hne]; [by apply bool_decide_eq_true|].
      apply bool_decide_eq_false. intros H. apply Hne. apply Forall_cons in H as [-> _].
      by apply Forall_cons in Hq as [-> _]. }
    rewrite !Hone. assert (Hin : q ∈ ["strict"; "estimated"; "fallback"; "missing"]%string).
    { apply Forall_cons in Hq as [-> _]. by apply Forall_cons in Hl as [? _]. }
    rewrite !elem_of_cons, elem_of_nil in Hin. by destruct Hin as [->|[->|[->|[->|[]]]]].
  - assert (Hno : forall q', bool_decide (Forall (eq q') L) = false).
    { intros q'. apply bool_decide_eq_false. intros H.
      assert (remove_dups L = [q']) by (by apply remove_dups_single). congruence. }
    by rewrite !Hno.
Qed.

Definition shared_keys : list (string * string) :=
  [("num_runs", "total_runs"); ("num_runs_missing_hit_ratio", "num_runs_missing_hit_ratio");
   ("num_runs_stale_metrics", "num_runs_stale_metrics"); ("num_runs_ok_metrics", "num_runs_ok_metrics");
   ("metric_quality", "metric_quality"); ("num_runs_window_hit_ratio", "num_runs_window_hit_ratio");
   ("num_runs_snapshot_fallback_hit_ratio", "num_runs_snapshot_fallback_hit_ratio");
   ("hit_ratio_source", "hit_ratio_source"); ("ok_metric_run_fraction", "ok_metric_run_fraction");
   ("hit_ratio_comparable", "hit_ratio_comparable");
   ("num_runs_prefix_metric_strict", "num_runs_prefix_metric_strict");
   ("num_runs_prefix_metric_token_fallback", "num_runs_prefix_metric_token_fallback");
   ("num_runs_prefix_metric_other", "num_runs_prefix_metric_other");
   ("num_runs_prefix_metric_missing", "num_runs_prefix_metric_missing");
   ("prefix_metric_check", "prefix_metric_check"); ("evidence_quality", "evidence_quality")]%string.

Lemma fraction_ok a b : 0 <= a <= 2 ^ 1000 -> 0 <= b <= 2 ^ 1000 -> is_ok (fraction a b) = true.
Proof.
  intros Ha Hb. unfold fraction. destruct (Z.ltb_spec 0 b); [|done].
  pose proof (float_of_int_ok a Ha) as Hfa. pose proof (float_of_int_ok b Hb) as Hfb.
  destruct (float_of_int a) as [x|]; [|done]. unfold float_of_int in *.
  pose proof (of_Z_ge1 b ltac:(lia)) as H1.
  destruct (of_Z b) as [s|s| |[] m e]; done.
Qed.

(** The labels of the rows are among the known ones. *)
Lemma labels_known slo msr mhr runs rows : res_map (run_row slo msr mhr) runs = Ok rows ->
  Forall (fun x => x ∈ ["ok"; "stale"; "missing"]%string) (map rw_quality rows) /\
  Forall (fun x => x ∈ ["window"; "snapshot_fallback"; "missing"]%string) (map rw_source rows) /\
  Forall (fun q => q ∈ ["strict"; "estimated"; "fallback"; "missing"]%string) (map rw_evidence rows).
Proof.
  intros Hrows. destruct (rows_labels _ _ _ _ _ Hrows) as (ts & Hts & Hq & Hs & _ & He).
  apply res_map_Forall2 in Hts, He. rewrite <- Hq, <- Hs. split_and!.
  - apply Forall_map. eapply Forall2_Forall_r; [exact Hts|]. apply Forall_true.
    intros e [[v q] s] Hq'. by destruct (quality_source_labels _ _ _ _ Hq') as (? & ? & _).
  - apply Forall_map. eapply Forall2_Forall_r; [exact Hts|]. apply Forall_true.
    intros e [[v q] s] Hq'. by destruct (quality_source_labels _ _ _ _ Hq') as (? & ? & _).
  - eapply Forall2_Forall_r; [exact He|]. apply Forall_true. intros e q. apply evidence_labels.
Qed.
(** Counting one label is counting what is none of the others. *)
Lemma quality_counts qs : Forall (fun x => x ∈ ["ok"; "stale"; "missing"]%string) qs ->
  count_rest ["missing"; "stale"] qs = count "ok" qs /\ count_rest ["ok"; "stale"] qs = count "missing" qs.
Proof.
  intros H. split; (apply count_rest_last; [|set_solver]); (eapply Forall_impl; [exact H|]); intros q; set_solver.
Qed.
Lemma source_counts ss : Z.max 0 (zlen ss - count "window" ss - count "snapshot_fallback" ss) =
  count_rest ["window"; "snapshot_fallback"] ss.
Proof.
  pose proof (count_partition "window" "snapshot_fallback" ss ltac:(done)) as Hp.
  assert (0 <= count_rest ["window"; "snapshot_fallback"] ss) by (unfold count_rest, zlen; lia). lia.
Qed.

(** C10: the planner and the benchmark agree on the quality of the same runs: every
    count, classification and fraction that [recommend_runs] reports equals the one
    of [summarize_runs_quality], although the two are computed differently. *)
Theorem planner_benchmark_agree slo msr mhr sf runs rec :
  zlen runs <= 2 ^ 1000 ->
  recommend_runs slo msr mhr sf runs = Ok rec ->
  exists s, summarize_runs_quality runs = Ok s /\
    forall kp kb, (kp, kb) ∈ shared_keys -> dgetv rec kp = dgetv s kb.
Proof.
  intros Hbound. unfold recommend_runs.
  destruct (res_map (run_row slo msr mhr) runs) as [rows|] eqn:Hrows; [|done].
  destruct (recommended_rps sf rows) as [rps|]; [|done]. cbv zeta.
  destruct (rows_labels _ _ _ _ _ Hrows) as (ts & Hts & Hq & Hs & Hc & He).
  assert (Hlen : zlen rows = zlen runs) by (unfold zlen; f_equal; by eapply res_map_length).
  destruct (labels_known _ _ _ _ _ Hrows) as (Hql & Hsl & Hel).
  unfold summarize_runs_quality, summarize_prefix_metric_checks, summarize_evidence_quality.
  rewrite Hts, Hc, He, Hq, Hs. cbv zeta.
  set (qs := map rw_quality rows) in *. set (ss := map rw_source rows) in *.
  set (cs := map rw_check rows) in *. set (es := map rw_evidence rows) in *.
  destruct (quality_counts qs Hql) as [Hqm Hqo]. pose proof (source_counts ss) as Hsm.
  unfold ss in Hsm at 1. rewrite zlen_map, Hlen in Hsm.
  rewrite Hqm, Hqo, Hsm.
  assert (Hz : zlen es = zlen runs) by (unfold es; by rewrite zlen_map).
  pose proof (common_evidence_set es Hel) as Hev. rewrite Hz in Hev. rewrite Hev.
  assert (Hfr : forall s (l : list string), zlen l = zlen runs -> is_ok (fraction (count s l) (zlen runs)) = true).
  { intros s l Hl. pose proof (count_nonneg s l). apply fraction_ok; unfold zlen in *; lia. }
  pose proof (Hfr "ok"%string qs ltac:(unfold qs; by rewrite zlen_map)) as Hf1.
  pose proof (Hfr "strict"%string cs ltac:(unfold cs; by rewrite zlen_map)) as Hf2.
  pose proof (Hfr "token_fallback"%string cs ltac:(unfold cs; by rewrite zlen_map)) as Hf3.
  destruct (fraction (count "ok" qs) (zlen runs)) as [f1'|]; [|done].
  destruct (fraction (count "strict" cs) (zlen runs)) as [f2'|]; [|done].
  destruct (fraction (count "token_fallback" cs) (zlen runs)) as [f3'|]; [|done].
  intros [= <-]. eexists. split; [reflexivity|]. intros kp kb Hin.
  unfold shared_keys in Hin.
  repeat (apply elem_of_cons in Hin as [Hin|Hin]; [injection Hin as -> ->; reflexivity|]).
  by apply elem_of_nil in Hin.
Qed.

Definition example_run (req_s p95 : Z) : dict :=
  [("summary", VDict [("requests", VDict [("total", VInt 10); ("ok", VInt 10)]);
      ("latency", VDict [("e2e_latency_p95_ms", VInt p95)]); ("throughput", VDict [("req_s", VInt req_s)])]);
   ("exporter_metrics", VDict [("kvcache_kv_cache_hit_ratio", VFloat (dec 5 (-1)))])]%string.
Lemma planner_benchmark_agree_witness :
  exists rec s, recommend_runs (dec 1500 0) (dec 9 (-1)) None (dec 8 (-1)) [example_run 4 900; example_run 9 2000] = Ok rec /\
    summarize_runs_quality [example_run 4 900; example_run 9 2000] = Ok s /\
    dgetv rec "metric_quality" = dgetv s "metric_quality".
Proof.
  eexists. destruct (planner_benchmark_agree (dec 1500 0) (dec 9 (-1)) None (dec 8 (-1))
    [example_run 4 900; example_run 9 2000] _ ltac:(vm_compute; discriminate)
    ltac:(vm_compute; reflexivity)) as (s & Hs & H).
  exists s. split_and!; [vm_compute; reflexivity|exact Hs|].
  apply H. apply list_elem_of_In. simpl. auto 10.
Defined.

Lemma passed_elem rows x : x ∈ passed rows <-> exists r, r ∈ rows /\ rw_passed r = true /\ rw_req_s r = x.
Proof.
  unfold passed. rewrite list_elem_of_fmap. setoid_rewrite elem_of_filterb. naive_solver.
Qed.

