(* ===== verification/Envelope.v ===== *)
(** * The operating envelope (planner/operating_envelope.py)

    Points of a capacity sweep are filtered by the constraints, the best feasible one
    is recommended, and the feasible points that no other dominates form the Pareto
    list. *)

From S2P Require Import Prelude PyFloat FloatOrder PyStr PyVal PySort WindowMetrics.

(** [_number]: a finite number or nothing. *)
Definition _number (value : val) : res (option float) :=
  match value with VNone => Ok None | _ => _coerce_finite_float value end.

(** [x.get(k)] when [x] is a dict, else [None]. *)
Definition get_if_dict (x : val) (k : string) : val :=
  match x with VDict d => dgetv d k | _ => VNone end.
Definition sub_dict (x : val) (k : string) : val :=
  match x with VDict d => dget_or d k (VDict []) | _ => VDict [] end.

(** [_number(...) or _number(...)]: a zero or missing value falls through. *)
Definition _point_resource (point : dict) : res (option float) :=
  let aggregates := dget_or point "aggregates" (VDict []) in
  let resource := sub_dict aggregates "resource" in
  first <-! _number (get_if_dict aggregates "gpu_seconds_mean") ;;
  match first with
  | Some f => if is_zero f then _number (get_if_dict resource "gpu_seconds_mean") else Ok (Some f)
  | None => _number (get_if_dict resource "gpu_seconds_mean")
  end.

Definition _point_goodput (point : dict) : res (option float * option float) :=
  match dget_or point "aggregates" (VDict []) with
  | VDict aggregates =>
      mean <-! _number (dgetv aggregates "goodput_req_s_mean") ;;
      lower <-! _number (dgetv aggregates "goodput_req_s_lcb") ;;
      Ok (mean, match lower with None => mean | Some _ => lower end)
  | _ => Ok (None, None)
  end.

Record item := {
  it_scenario : val;
  it_concurrency : Z;
  it_goodput_mean : option float;
  it_goodput_lcb : option float;
  it_e2e_p95 : option float;
  it_success_rate : option float;
  it_gpu_seconds : option float;
  it_evidence : val;
  it_feasible : bool;
  it_reasons : list string
}.

Section envelope.
Context (e2e_p95_slo_ms min_success_rate : float)
        (resource_budget_gpu_seconds : option float) (safety_factor : float).

Definition reason_if (b : bool) (s : string) : list string := if b then [s] else [].
Definition rejection_reasons (mean e2e success resource : option float) (quality : string) : list string :=
  reason_if (match mean with None => true | Some _ => false end) "goodput_missing"
  ++ reason_if (match e2e with None => true | Some e => e >?. e2e_p95_slo_ms end) "e2e_p95_slo"
  ++ reason_if (match success with None => false | Some s => s <?. min_success_rate end) "success_rate"
  ++ reason_if (existsb (String.eqb quality) ["missing"; "stale"; "invalid"]) "evidence_quality"
  ++ match resource_budget_gpu_seconds with
     | None => []
     | Some budget =>
         match resource with
         | None => ["resource_missing"]
         | Some r => reason_if (r >?. budget) "resource_budget"
         end
     end.

(** The body of the loop over the points; a point that is not a dict is skipped. *)
Definition evaluate_point (point : dict) : res item :=
  let aggregates := dget_or point "aggregates" (VDict []) in
  let quality := sub_dict aggregates "quality_summary" in
  ' (goodput_mean, goodput_lcb) <-! _point_goodput point ;;
  e2e_p95 <-! _number (get_if_dict aggregates "e2e_p95_ms_mean") ;;
  success_rate <-! _number (get_if_dict aggregates "success_rate_mean") ;;
  resource <-! _point_resource point ;;
  metric_quality <-! vget quality "metric_quality" (VStr "missing") ;;
  let reasons := rejection_reasons goodput_mean e2e_p95 success_rate resource (py_str metric_quality) in
  concurrency <-! int_of_val (dget_or point "concurrency" (VInt 0)) ;;
  Ok {| it_scenario := dget_or point "scenario" (VStr "unknown");
        it_concurrency := concurrency;
        it_goodput_mean := goodput_mean;
        it_goodput_lcb := goodput_lcb;
        it_e2e_p95 := e2e_p95;
        it_success_rate := success_rate;
        it_gpu_seconds := resource;
        it_evidence := metric_quality;
        it_feasible := Nat.eqb (length reasons) 0;
        it_reasons := reasons |}.

Definition dict_of (v : val) : option dict := match v with VDict d => Some d | _ => None end.

(** [float(item[...])] on a missing number raises. *)
Definition need (o : option float) : res float := match o with Some f => Ok f | None => Err TypeError end.
Definition sort_key (it : item) : res (list kpart) :=
  lcb <-! need (it_goodput_lcb it) ;;
  mean <-! need (it_goodput_mean it) ;;
  Ok [KF lcb; KF mean; KI (- it_concurrency it)].

(** [other] dominates [candidate]: no worse in goodput and, where both are known,
    in GPU time, and better in one of them. *)
Definition no_worse (other candidate : option float) : bool :=
  match candidate, other with
  | Some c, Some o => o <=?. c
  | _, _ => true
  end.
Definition better (other candidate : option float) : bool :=
  match candidate, other with
  | Some c, Some o => o <?. c
  | _, _ => false
  end.
Definition dominates (other candidate : item) : res bool :=
  o <-! need (it_goodput_lcb other) ;;
  c <-! need (it_goodput_lcb candidate) ;;
  Ok ((o >=?. c) && no_worse (it_gpu_seconds other) (it_gpu_seconds candidate)
      && ((o >?. c) || better (it_gpu_seconds other) (it_gpu_seconds candidate))).

(** [other is not candidate]: the elements of the list are distinct objects, told
    apart by their position. *)
Definition dominated (feasible : list (nat * item)) (candidate : nat * item) : res bool :=
  res_existsb (fun other =>
    if Nat.eqb other.1 candidate.1 then Ok false else dominates other.2 candidate.2) feasible.
Definition pareto_points (feasible : list item) : res (list item) :=
  kept <-! res_filter (fun c => b <-! dominated (indexed feasible) c ;; Ok (negb b)) (indexed feasible) ;;
  Ok (map snd kept).

Record envelope := {
  env_points : list item;
  env_pareto : list item;
  env_recommendation : option (item * float);
  env_status : string
}.

Definition recommend_operating_point (document : dict) : res envelope :=
  points <-! viter (dget_or document "points" (VList [])) ;;
  evaluated <-! res_map evaluate_point (omap dict_of points) ;;
  let feasible := List.filter it_feasible evaluated in
  keyed <-! res_map (fun it => k <-! sort_key it ;; Ok (k, it)) feasible ;;
  let feasible := map snd (py_sort_reverse (fun a b : list kpart * item => kltb a.1 b.1) keyed) in
  selected <-! match feasible with
               | [] => Ok None
               | it :: _ => lcb <-! need (it_goodput_lcb it) ;; Ok (Some (it, lcb ⊗ safety_factor))
               end ;;
  pareto <-! pareto_points feasible ;;
  Ok {| env_points := evaluated;
        env_pareto := pareto;
        env_recommendation := selected;
        env_status := match selected with Some _ => "recommended" | None => "blocked" end |}.

(** ** The Markdown report *)

Definition opt_text (o : option float) (missing : string) : string :=
  match o with Some f => repr_float f | None => missing end.
Definition opt_fixed (n : nat) (o : option float) : res string :=
  x <-! need o ;; Ok (fmt_fixed n x).
Definition pareto_line (p : item) : res string :=
  lcb <-! opt_fixed 4 (it_goodput_lcb p) ;;
  e2e <-! opt_fixed 2 (it_e2e_p95 p) ;;
  Ok ("| " +:+ py_str (it_scenario p) +:+ " | " +:+ str_of_Z (it_concurrency p) +:+ " | " +:+ lcb
      +:+ " | " +:+ opt_text (it_gpu_seconds p) "missing" +:+ " | " +:+ e2e +:+ " |").
Definition claim_boundary : string :=
  "Recommendations are valid only for the supplied model, hardware, workload, pool, SLO, and resource evidence window. Missing goodput or resource evidence is not imputed.".
Definition render_markdown (result : envelope) : res string :=
  lines <-! res_map pareto_line (env_pareto result) ;;
  Ok (join (str [chr 10])
    (["# Kavora Operating Envelope"; "";
      "- Status: **" +:+ env_status result +:+ "**";
      "- SLO: `" +:+ repr_float e2e_p95_slo_ms +:+ " ms` e2e p95";
      "- Resource budget: `" +:+ opt_text resource_budget_gpu_seconds "not configured" +:+ "` GPU-seconds";
      ""; "## Recommendation"; "";
      match env_recommendation result with
      | Some (it, g) =>
          "- scenario `" +:+ py_str (it_scenario it) +:+ "`, concurrency `" +:+ str_of_Z (it_concurrency it)
          +:+ "`, recommended goodput `" +:+ fmt_fixed 4 g +:+ "` req/s."
      | None => "- No point passed goodput, SLO, evidence, and resource gates."
      end;
      ""; "## Pareto Points"; "";
      "| Scenario | Concurrency | Goodput LCB | GPU-seconds | E2E p95 |"; "|---|---:|---:|---:|---:|"]
     ++ lines ++ [""; "## Claim Boundary"; ""; claim_boundary; ""])).
End envelope.

(** ** Properties *)

Lemma number_finite v f : _number v = Ok (Some f) -> isfinite f = true.
Proof.
  unfold _number, _coerce_finite_float. intros H.
  assert (H' : match float_of_val v with
          | Ok number => Ok (if isfinite number then Some number else None)
          | Err TypeError | Err (ValueError _) => Ok None
          | Err e => Err e
          end = Ok (Some f)) by (by destruct v).
  clear H. destruct (float_of_val v) as [x|e]; [|destruct e; discriminate].
  destruct (isfinite x) eqn:E; congruence.
Qed.
Lemma number_not_nan v f : _number v = Ok (Some f) -> is_nan f = false.
Proof. intros H. by apply isfinite_not_nan, (number_finite v). Qed.

(** A well-formed item: its numbers are finite, a mean comes with a bound, and it is
    feasible exactly when there is no reason against it. *)
Record wf_item (it : item) : Prop := {
  wf_mean : match it_goodput_mean it with Some f => is_nan f = false | None => True end;
  wf_lcb : match it_goodput_lcb it with Some f => is_nan f = false | None => it_goodput_mean it = None end;
  wf_gpu : match it_gpu_seconds it with Some f => is_nan f = false | None => True end;
  wf_feasible : it_feasible it = true -> it_reasons it = []
}.

Lemma point_goodput_wf point mean lcb : _point_goodput point = Ok (mean, lcb) ->
  match mean with Some f => is_nan f = false | None => True end /\
  match lcb with Some f => is_nan f = false | None => mean = None end.
Proof.
  unfold _point_goodput. intros H. case_match; simplify_eq; try done.
  inv_ok H. simplify_eq. destruct mean as [m|], a0 as [l|]; split; eauto using number_not_nan.
Qed.
Lemma point_resource_wf point r : _point_resource point = Ok r ->
  match r with Some f => is_nan f = false | None => True end.
Proof.
  unfold _point_resource. intros H. inv_ok H. destruct r as [f|]; [|done].
  repeat case_match; simplify_eq; eauto using number_not_nan.
Qed.
Lemma evaluate_point_wf slo msr budget point it :
  evaluate_point slo msr budget point = Ok it ->
  wf_item it /\
  it_reasons it = rejection_reasons slo msr budget (it_goodput_mean it) (it_e2e_p95 it) (it_success_rate it)
                    (it_gpu_seconds it) (py_str (it_evidence it)).
Proof.
  unfold evaluate_point. intros H.
  destruct (_point_goodput point) as [[mean lcb]|] eqn:Eg; [|done].
  apply point_goodput_wf in Eg as [Hm Hl]. inv_ok H. subst it.
  match goal with E : _point_resource point = Ok _ |- _ => apply point_resource_wf in E; rename E into Hr end.
  split; [|done]. split; simpl; try done. intros Hf. apply Nat.eqb_eq, nil_length_inv in Hf. done.
Qed.

(** No reason against a point: the constraints hold. *)
Lemma no_reasons slo msr budget mean e2e success resource quality :
  rejection_reasons slo msr budget mean e2e success resource quality = [] <->
  is_Some mean /\
  (exists e, e2e = Some e /\ fltb slo e = false) /\
  (forall s, success = Some s -> fltb s msr = false) /\
  (quality ∉ ["missing"; "stale"; "invalid"]%string) /\
  (forall b, budget = Some b -> exists r, resource = Some r /\ fltb b r = false).
Proof.
  unfold rejection_reasons. rewrite !app_nil.
  assert (Hr : forall b s, (reason_if b s = []) <-> (b = false)) by (by intros [] s).
  rewrite !Hr.
  assert (Hq : existsb (String.eqb quality) ["missing"; "stale"; "invalid"]%string = false <->
               quality ∉ ["missing"; "stale"; "invalid"]%string).
  { rewrite <- not_true_iff_false, existsb_elem. split; intros H Hn; apply H.
    - exists quality. split; [done|apply String.eqb_refl].
    - destruct Hn as (x & Hx & E). apply String.eqb_eq in E. by subst. }
  rewrite Hq. clear Hq. 
  assert (H1 : (match mean with None => true | Some _ => false end) = false <-> is_Some mean)
    by (destruct mean; split; [eauto|done|done|by intros []]).
  assert (H2 : (match e2e with None => true | Some e => fltb slo e end) = false <->
               exists e, e2e = Some e /\ fltb slo e = false)
    by (destruct e2e; split; naive_solver).
  assert (H3 : (match success with None => false | Some s => fltb s msr end) = false <->
               forall s, success = Some s -> fltb s msr = false)
    by (destruct success; split; naive_solver).
  assert (H4 : match budget with None => [] | Some budget => match resource with
               | None => ["resource_missing"%string] | Some r => reason_if (fltb budget r) "resource_budget" end end = [] <->
               forall b, budget = Some b -> exists r, resource = Some r /\ fltb b r = false).
  { destruct budget as [b|]; [|split; naive_solver]. destruct resource as [r|]; [|split; naive_solver].
    rewrite Hr. split; naive_solver. }
  rewrite H1, H2, H3, H4. tauto.
Qed.

Definition constraints_hold slo msr (budget : option float) (it : item) : Prop :=
  is_Some (it_goodput_mean it) /\
  (exists e, it_e2e_p95 it = Some e /\ fltb slo e = false) /\
  (forall s, it_success_rate it = Some s -> fltb s msr = false) /\
  (py_str (it_evidence it) ∉ ["missing"; "stale"; "invalid"]%string) /\
  (forall b, budget = Some b -> exists r, it_gpu_seconds it = Some r /\ fltb b r = false).

(** ** Domination without exceptions *)

Definition good (it : item) : Prop := wf_item it /\ it_feasible it = true /\ is_Some (it_goodput_lcb it).

Definition domb (other candidate : item) : bool :=
  match it_goodput_lcb other, it_goodput_lcb candidate with
  | Some o, Some c =>
      (o >=?. c) && no_worse (it_gpu_seconds other) (it_gpu_seconds candidate)
      && ((o >?. c) || better (it_gpu_seconds other) (it_gpu_seconds candidate))
  | _, _ => false
  end.
Lemma dominates_domb o c : good o -> good c -> dominates o c = Ok (domb o c).
Proof. intros (_ & _ & [x Hx]) (_ & _ & [y Hy]). unfold dominates, domb. by rewrite Hx, Hy. Qed.
Lemma domb_irrefl c : domb c c = false.
Proof.
  unfold domb, better. destruct (it_goodput_lcb c) as [x|]; [|done].
  rewrite fltb_irrefl. destruct (it_gpu_seconds c) as [g|]; rewrite ?fltb_irrefl; by rewrite andb_false_r.
Qed.

(** The front is the list of the items nothing dominates. *)
Lemma pareto_points_filter F : Forall good F ->
  pareto_points F = Ok (List.filter (fun c => negb (existsb (fun o => domb o c) F)) F).
Proof.
  intros HF. rewrite Forall_forall in HF. unfold pareto_points.
  rewrite (res_filter_pure _ (fun c => negb (existsb (fun o => domb o c.2) F))).
  - f_equal. set (p := fun c => negb (existsb (fun o => domb o c) F)).
    transitivity (List.filter p (map snd (indexed F))); [|by rewrite indexed_snd].
    change (fun c : nat * item => negb (existsb (fun o => domb o c.2) F)) with (fun c : nat * item => p c.2).
    induction (indexed F) as [|[i x] l IH]; simpl; [done|]. destruct (p x); simpl; by rewrite IH.
  - intros [i c] Hc. apply indexed_elem in Hc.
    assert (Gc : good c) by (eapply HF, list_elem_of_lookup_2, Hc). unfold dominated.
    rewrite (res_existsb_pure _ (fun o => domb o.2 c)).
    + do 2 f_equal. simpl. transitivity (existsb (fun o => domb o c) (map snd (indexed F))); [|by rewrite indexed_snd].
      induction (indexed F) as [|[j x] l IH]; simpl; [done|]. by rewrite IH.
    + intros [j o] Ho. apply indexed_elem in Ho. simpl.
      destruct (Nat.eqb_spec j i) as [->|].
      * assert (o = c) as -> by congruence. by rewrite domb_irrefl.
      * apply dominates_domb; [|done]. eapply HF, list_elem_of_lookup_2, Ho.
Qed.

(** ** The recommendation *)

Lemma wf_good it : wf_item it -> it_feasible it = true ->
  (it_reasons it = [] -> is_Some (it_goodput_mean it)) -> good it.
Proof.
  intros Hw Hf Hm. split; [done|]. split; [done|]. destruct (it_goodput_lcb it) eqn:E; [eauto|].
  pose proof (wf_lcb _ Hw) as Hl. rewrite E in Hl.
  destruct (Hm (wf_feasible _ Hw Hf)) as [m Hm']. congruence.
Qed.
Lemma good_key it : wf_item it -> good it -> is_Some (it_goodput_mean it) ->
  exists lcb mean, it_goodput_lcb it = Some lcb /\ it_goodput_mean it = Some mean /\
    is_nan lcb = false /\
    sort_key it = Ok [KF lcb; KF mean; KI (- it_concurrency it)] /\
    shaped [true; true; false] [KF lcb; KF mean; KI (- it_concurrency it)].
Proof.
  intros [Hm Hl _ _] (_ & _ & [l Hll]) [m Hmm]. rewrite Hll in Hl. rewrite Hmm in Hm.
  exists l, m. unfold sort_key. rewrite Hll, Hmm. split_and!; try done. repeat constructor; done.
Qed.

(** The evaluated points: well-formed, and feasible exactly under the constraints. *)
Lemma evaluated_points slo msr budget ds its :
  res_map (evaluate_point slo msr budget) ds = Ok its ->
  Forall (fun it => wf_item it /\ (it_feasible it = true <-> constraints_hold slo msr budget it)) its.
Proof.
  intros H. apply res_map_Forall2 in H. eapply Forall2_Forall_r; [exact H|].
  apply Forall_true. intros d it Hit. split; [by apply evaluate_point_wf in Hit as [? _]|].
  pose proof (evaluate_point_wf _ _ _ _ _ Hit) as [Hw Hr].
  unfold constraints_hold. rewrite <- no_reasons, <- Hr. split; [apply Hw|].
  unfold evaluate_point in Hit. destruct (_point_goodput d) as [[? ?]|]; [|done].
  inv_ok Hit. subst it. simpl. by intros ->.
Qed.

(** What [recommend_operating_point] returns once the points are evaluated. *)
Lemma recommend_unfold slo msr budget sf document points its :
  viter (dget_or document "points" (VList [])) = Ok points ->
  res_map (evaluate_point slo msr budget) (omap dict_of points) = Ok its ->
  exists F keyed, 
    res_map (fun it => k <-! sort_key it ;; Ok (k, it)) (List.filter it_feasible its) = Ok keyed /\
    F = map snd (py_sort_reverse (fun a b : list kpart * item => kltb a.1 b.1) keyed) /\
    Forall good F /\ (F ≡ₚ List.filter it_feasible its) /\
    recommend_operating_point slo msr budget sf document = Ok {|
      env_points := its;
      env_pareto := List.filter (fun c => negb (existsb (fun o => domb o c) F)) F;
      env_recommendation := match F with
        | [] => None
        | it :: _ => Some (it, default f0 (it_goodput_lcb it) ⊗ sf)
        end;
      env_status := match F with [] => "blocked" | _ => "recommended" end |}.
Proof.
  intros Hp Hits. pose proof (evaluated_points _ _ _ _ _ Hits) as Hall.
  set (Fe := List.filter it_feasible its).
  assert (Hgood : Forall (fun it => good it /\ is_Some (it_goodput_mean it)) Fe).
  { apply Forall_forall. intros it Hit. apply elem_of_filterb in Hit as [Hit Hf].
    rewrite Forall_forall in Hall. destruct (Hall it Hit) as [Hw Hc].
    pose proof (proj1 Hc Hf) as (Hm & _). split; [|done]. by apply wf_good. }
  assert (Hkeyed : exists keyed, res_map (fun it => k <-! sort_key it ;; Ok (k, it)) Fe = Ok keyed /\ map snd keyed = Fe).
  { clear -Hgood. induction Hgood as [|it l [Hg Hm] _ (ks & IH & Hk)]; [by exists []|].
    destruct (good_key it (proj1 Hg) Hg Hm) as (lcb & mean & _ & _ & _ & Hsk & _).
    simpl. rewrite Hsk, IH. eexists. split; [done|]. simpl. by rewrite Hk. }
  destruct Hkeyed as (keyed & Hkeyed & Hsnd).
  set (F := map snd (py_sort_reverse (fun a b : list kpart * item => kltb a.1 b.1) keyed)).
  assert (HF : F ≡ₚ Fe) by (unfold F; rewrite py_sort_reverse_perm; by rewrite Hsnd).
  assert (HgF : Forall good F).
  { rewrite HF. eapply Forall_impl; [exact Hgood|]. by intros ? [? _]. }
  exists F, keyed. split_and!; [done..|].
  unfold recommend_operating_point. rewrite Hp, Hits. fold Fe. rewrite Hkeyed. cbv zeta. fold F.
  rewrite pareto_points_filter by done.
  destruct F as [|it F']; [done|].
  apply Forall_cons in HgF as [(_ & _ & [lcb Hl]) _]. unfold need. by rewrite Hl.
Qed.

Lemma sort_key_head it k lcb : sort_key it = Ok k -> it_goodput_lcb it = Some lcb ->
  exists r, k = KF lcb :: r.
Proof.
  unfold sort_key. intros H Hl. rewrite Hl in H. simpl in H. destruct (need _); [|done]. injection H as <-. eauto.
Qed.
(** The points that satisfy the constraints are the feasible ones. *)
Lemma feasible_elem slo msr budget points its F :
  res_map (evaluate_point slo msr budget) (omap dict_of points) = Ok its -> F ≡ₚ List.filter it_feasible its ->
  forall it, it ∈ F <-> it ∈ its /\ constraints_hold slo msr budget it.
Proof.
  intros Hits HF it. pose proof (evaluated_points _ _ _ _ _ Hits) as Hall. rewrite Forall_forall in Hall.
  rewrite HF, elem_of_filterb. split; intros [Hi Hc]; split; try done; by apply (Hall it Hi).
Qed.
(** The feasible points have comparable keys. *)
Lemma keyed_shape slo msr budget points its keyed :
  res_map (evaluate_point slo msr budget) (omap dict_of points) = Ok its ->
  res_map (fun it => k <-! sort_key it ;; Ok (k, it)) (List.filter it_feasible its) = Ok keyed ->
  Forall (fun p : list kpart * item => shaped [true; true; false] p.1 /\ sort_key p.2 = Ok p.1 /\ p.2 ∈ its) keyed.
Proof.
  intros Hits Hkeyed. pose proof (evaluated_points _ _ _ _ _ Hits) as Hall. rewrite Forall_forall in Hall.
  apply res_map_Forall2 in Hkeyed. apply Forall_forall. intros [k it'] Hk.
  apply list_elem_of_lookup in Hk as [i Hi].
  destruct (Forall2_lookup_r _ _ _ _ _ Hkeyed Hi) as (x & Hx & Hfx).
  destruct (sort_key x) as [k'|] eqn:Ek; [|done]. injection Hfx as -> ->.
  apply list_elem_of_lookup_2 in Hx. apply elem_of_filterb in Hx as [Hx Hfeas].
  destruct (Hall it' Hx) as [Hw Hcx]. pose proof (proj1 Hcx Hfeas) as (Hm & _).
  destruct (good_key it' Hw (wf_good it' Hw Hfeas (fun _ => Hm)) Hm) as (l & m & _ & _ & _ & Hs & Hsh).
  rewrite Hs in Ek. injection Ek as <-. split_and!; [exact Hsh|exact Hs|done].
Qed.
(** The head of the descending sort has the highest goodput bound. *)
Lemma head_is_best slo msr budget points its keyed it rest :
  res_map (evaluate_point slo msr budget) (omap dict_of points) = Ok its ->
  res_map (fun it => k <-! sort_key it ;; Ok (k, it)) (List.filter it_feasible its) = Ok keyed ->
  it :: rest = map snd (py_sort_reverse (fun a b : list kpart * item => kltb a.1 b.1) keyed) ->
  forall lcb other lcb', it_goodput_lcb it = Some lcb -> other ∈ List.filter it_feasible its ->
    it_goodput_lcb other = Some lcb' -> fleb lcb' lcb = true.
Proof.
  intros Hits Hkeyed HFe lcb other lcb' Hl Hfo Hl'.
  set (K := fun p : list kpart * item => shaped [true; true; false] p.1).
  pose proof (keyed_shape _ _ _ _ _ _ Hits Hkeyed) as Hshape.
  destruct (py_sort_reverse (fun a b : list kpart * item => kltb a.1 b.1) keyed) as [|p r] eqn:Hsort; [done|].
  simpl in HFe. injection HFe as Hit _.
  destruct (py_sort_reverse_head (fun a b : list kpart * item => kltb a.1 b.1) K) with (x := p) (r := r) (l := keyed)
    as [Hpin Hmax]; [..|done|].
  { intros x y Hx Hy. by apply (kltb_asym [true; true; false]). }
  { intros x y z Hx Hy Hz. by apply (kltb_ge_trans [true; true; false]). }
  { eapply Forall_impl; [exact Hshape|]. by intros ? [? _]. }
  assert (Hoin : exists k, (k, other) ∈ keyed).
  { apply list_elem_of_lookup in Hfo as [i Hi]. apply res_map_Forall2 in Hkeyed.
    destruct (Forall2_lookup_l _ _ _ _ _ Hkeyed Hi) as ([k o] & Hx & Hfx).
    destruct (sort_key other); [|done]. injection Hfx as -> ->. exists k. by eapply list_elem_of_lookup_2. }
  destruct Hoin as [k Hk]. rewrite Forall_forall in Hshape.
  destruct (Hshape _ Hk) as (Hks & Hkk & _). destruct (Hshape _ Hpin) as (Hps & Hpk & _).
  specialize (Hmax _ Hk Hks). unfold K in Hks, Hps. simpl in Hmax, Hkk, Hks.
  destruct (sort_key_head _ _ _ Hkk Hl') as [kt ->].
  rewrite <- Hit in Hpk. destruct (sort_key_head _ _ _ Hpk Hl) as [pt Hpt].
  rewrite Hpt in Hmax, Hps.
  apply (kltb_head _ _ _ _ _ Hps Hks Hmax).
Qed.

(** C7: the recommendation.  Once every point evaluates, the planner always returns:
    it blocks exactly when no point satisfies the constraints, and otherwise
    recommends a point that satisfies all of them and whose goodput lower bound no
    other such point exceeds, derated by the safety factor. *)
Theorem operating_point_spec slo msr budget sf document points its :
  viter (dget_or document "points" (VList [])) = Ok points ->
  res_map (evaluate_point slo msr budget) (omap dict_of points) = Ok its ->
  exists env, recommend_operating_point slo msr budget sf document = Ok env /\ env_points env = its /\
    match env_recommendation env with
    | None => env_status env = "blocked" /\
        forall it, it ∈ its -> ~ constraints_hold slo msr budget it
    | Some (it, rate) => env_status env = "recommended" /\
        it ∈ its /\ constraints_hold slo msr budget it /\
        exists lcb, it_goodput_lcb it = Some lcb /\ rate = lcb ⊗ sf /\
          forall other lcb', other ∈ its -> constraints_hold slo msr budget other ->
            it_goodput_lcb other = Some lcb' -> fleb lcb' lcb = true
    end.
Proof.
  intros Hp Hits.
  destruct (recommend_unfold slo msr budget sf document points its Hp Hits)
    as (F & keyed & Hkeyed & HFe & HgF & HF & ->).
  pose proof (feasible_elem _ _ _ _ _ _ Hits HF) as HFelem.
  eexists. split; [done|]. split; [done|]. cbn [env_recommendation env_status].
  destruct F as [|it F'].
  { split; [done|]. intros it Hit Hc. assert (it ∈ ([] : list item)) by (by apply HFelem). set_solver. }
  split; [done|].
  assert (Hin : it ∈ it :: F') by (by left). apply HFelem in Hin as [Hin Hc]. split; [done|]. split; [done|].
  rewrite Forall_forall in HgF. destruct (HgF it ltac:(by left)) as (_ & _ & [lcb Hl]).
  exists lcb. rewrite Hl. split; [done|]. split; [done|]. intros other lcb' Ho Hoc Hl'.
  assert (Hof : other ∈ it :: F') by (by apply HFelem). rewrite HF in Hof.
  by eapply head_is_best.
Qed.

Definition example_point (conc : Z) (goodput p95 gpu : Z) : val :=
  VDict [("scenario", VStr "s"); ("concurrency", VInt conc);
         ("aggregates", VDict [("goodput_req_s_mean", VInt goodput); ("e2e_p95_ms_mean", VInt p95);
            ("success_rate_mean", VInt 1); ("gpu_seconds_mean", VInt gpu);
            ("quality_summary", VDict [("metric_quality", VStr "ok")])])]%string.
Definition example_document : dict :=
  [("points", VList [example_point 1 4 900 10; example_point 2 8 1200 10; example_point 4 9 2000 10;
                     example_point 2 8 1200 7])]%string.
Lemma operating_point_spec_witness :
  exists env it rate, recommend_operating_point (dec 1500 0) (dec 9 (-1)) (Some (dec 20 0)) (dec 9 (-1)) example_document = Ok env /\
    env_recommendation env = Some (it, rate) /\ constraints_hold (dec 1500 0) (dec 9 (-1)) (Some (dec 20 0)) it.
Proof.
  destruct (operating_point_spec (dec 1500 0) (dec 9 (-1)) (Some (dec 20 0)) (dec 9 (-1)) example_document _ _
    eq_refl ltac:(vm_compute; reflexivity)) as (env & He & _ & H).
  destruct (env_recommendation env) as [[it rate]|] eqn:E.
  - exists env, it, rate. split_and!; [exact He|exact E|apply H].
  - exfalso. vm_compute in He. injection He as <-. discriminate E.
Defined.

(** ** The Pareto front *)

Lemma domb_lcb o c x y : it_goodput_lcb o = Some x -> it_goodput_lcb c = Some y ->
  domb o c = true -> fleb y x = true.
Proof. unfold domb. intros -> -> H. bool_hyps. done. Qed.

(** Some good item of a non-empty list is dominated by none: among those of the
    largest goodput bound, one of the least known GPU time. *)
Definition beats (o c : item) : bool :=
  match it_goodput_lcb o, it_goodput_lcb c with
  | Some x, Some y => (y <?. x) || feqb x y && better (it_gpu_seconds o) (it_gpu_seconds c)
  | _, _ => false
  end.
Lemma domb_beats o c : good o -> good c -> domb o c = true -> beats o c = true.
Proof.
  intros (Ho & _ & [x Hx]) (Hc & _ & [y Hy]). unfold domb, beats. rewrite Hx, Hy. intros H. bool_hyps.
  apply wf_lcb in Ho, Hc. rewrite Hx in Ho. rewrite Hy in Hc.
  destruct (fltb y x) eqn:E; [done|]. simpl in *.
  apply fltb_false in E; [|done..]. by rewrite (feqb_antisym x y).
Qed.

(** The measure of an item: its goodput bound first, then its GPU time, an unknown
    time ranking last. *)
Definition rank (it : item) : list kpart :=
  [KF (default f0 (it_goodput_lcb it));
   KI (match it_gpu_seconds it with Some _ => 1 | None => 0 end);
   KF (fopp (default f0 (it_gpu_seconds it)))].

Lemma key_opp x y : is_nan x = false -> is_nan y = false -> fltb (fopp y) (fopp x) = fltb x y.
Proof.
  intros Hx Hy. unfold fltb, SFltb.
  destruct x as [sx|[]| |[] mx ex], y as [sy|[]| |[] my ey]; try done; simpl;
    rewrite ?(Z.compare_antisym ex ey); try (destruct (ex ?= ey); simpl; try done);
    change (Pos.compare_cont Eq ?a ?b) with (Pos.compare a b);
    rewrite ?(Pos.compare_antisym mx my); by destruct (mx ?= my)%positive.
Qed.
Lemma is_nan_opp x : is_nan (fopp x) = is_nan x.
Proof. by destruct x. Qed.
Lemma rank_shaped it : good it -> shaped [true; false; true] (rank it).
Proof.
  intros (Hw & _ & [l Hl]). pose proof (wf_lcb _ Hw) as H1. pose proof (wf_gpu _ Hw) as H2.
  unfold rank. rewrite Hl in *. repeat constructor; [done|].
  rewrite is_nan_opp. by destruct (it_gpu_seconds it).
Qed.
Lemma part_cmp_lt x y : fltb x y = true -> part_cmp (KF x) (KF y) = Lt.
Proof.
  intros H. simpl. destruct (fltb_not_nan _ _ H) as [Hx Hy].
  destruct (float_trichotomy x y Hx Hy) as [(_ & E & _)|[(-> & -> & _)|(_ & E & _)]]; congruence.
Qed.
Lemma beats_rank o c : good o -> good c -> beats o c = true -> kltb (rank c) (rank o) = true.
Proof.
  intros (Hwo & _ & [x Hx]) (Hwc & _ & [y Hy]). unfold beats, rank. rewrite Hx, Hy.
  pose proof (wf_lcb _ Hwo) as No. pose proof (wf_lcb _ Hwc) as Nc. rewrite Hx in No. rewrite Hy in Nc.
  pose proof (wf_gpu _ Hwo) as Go. pose proof (wf_gpu _ Hwc) as Gc. simpl default. cbn [kltb].
  intros H. apply orb_true_iff in H as [H|H]; [by rewrite (part_cmp_lt _ _ H)|].
  apply andb_prop in H as [He Hb].
  assert (Hyx : feqb y x = true) by (apply feqb_spec in He; [|done..]; by apply feqb_spec).
  unfold part_cmp at 1. rewrite Hyx. unfold better in Hb.
  destruct (it_gpu_seconds c) as [gc|]; [|done]. destruct (it_gpu_seconds o) as [go|]; [|done].
  change (default f0 (Some gc)) with gc. change (default f0 (Some go)) with go.
  unfold part_cmp at 1. rewrite Z.compare_refl.
  rewrite <- (key_opp go gc) in Hb by done. by rewrite (part_cmp_lt _ _ Hb).
Qed.

(** C22: the Pareto list.  Its points are exactly the feasible points that no
    feasible point dominates, and it is not empty when some point is feasible. *)
Theorem pareto_front slo msr budget sf document points its env :
  viter (dget_or document "points" (VList [])) = Ok points ->
  res_map (evaluate_point slo msr budget) (omap dict_of points) = Ok its ->
  recommend_operating_point slo msr budget sf document = Ok env ->
  (forall c, c ∈ env_pareto env <->
     c ∈ its /\ constraints_hold slo msr budget c /\
     forall o, o ∈ its -> constraints_hold slo msr budget o -> domb o c = false) /\
  ((exists c, c ∈ its /\ constraints_hold slo msr budget c) -> env_pareto env <> []).
Proof.
  intros Hp Hits Henv.
  destruct (recommend_unfold slo msr budget sf document points its Hp Hits)
    as (F & keyed & _ & _ & HgF & HF & Hrec).
  rewrite Hrec in Henv. injection Henv as <-. cbn [env_pareto].
  pose proof (feasible_elem _ _ _ _ _ _ Hits HF) as HFelem.
  assert (Hnd : forall c, c ∈ List.filter (fun c => negb (existsb (fun o => domb o c) F)) F <->
                c ∈ F /\ forall o, o ∈ F -> domb o c = false).
  { intros c. rewrite elem_of_filterb, negb_true_iff, <- not_true_iff_false, existsb_elem.
    split; intros [Hc H]; split; try done.
    - intros o Ho. apply not_true_iff_false. intros Hd. apply H. eauto.
    - intros (o & Ho & Hd). rewrite H in Hd; done. }
  split.
  - intros c. rewrite Hnd, HFelem. setoid_rewrite HFelem. naive_solver.
  - intros (c & Hc & Hcc) Hnil. assert (HcF : c ∈ F) by by apply HFelem.
    destruct (py_sort_reverse (fun a b => kltb (rank a) (rank b)) F) as [|h r] eqn:Hs.
    { apply py_sort_reverse_nil in Hs. subst F. set_solver. }
    destruct (py_sort_reverse_head (fun a b => kltb (rank a) (rank b)) good) with (x := h) (r := r) (l := F)
      as [HhF Hmax]; [..|done|done|].
    { intros x y Gx Gy. by apply (kltb_asym [true; false; true]); apply rank_shaped. }
    { intros x y z Gx Gy Gz. by apply (kltb_ge_trans [true; false; true]); apply rank_shaped. }
    rewrite Forall_forall in HgF.
    assert (Hh : h ∈ List.filter (fun c => negb (existsb (fun o => domb o c) F)) F).
    { apply Hnd. split; [done|]. intros o Ho. apply not_true_iff_false. intros Hd.
      apply domb_beats, beats_rank in Hd; auto. rewrite (Hmax o Ho (HgF o Ho)) in Hd. done. }
    rewrite Hnil in Hh. set_solver.
Qed.
Lemma pareto_front_witness :
  exists env, recommend_operating_point (dec 1500 0) (dec 9 (-1)) (Some (dec 20 0)) (dec 9 (-1)) example_document = Ok env /\
    ((exists c, c ∈ env_points env /\ constraints_hold (dec 1500 0) (dec 9 (-1)) (Some (dec 20 0)) c) -> env_pareto env <> []).
Proof.
  eexists. split; [vm_compute; reflexivity|].
  apply (pareto_front (dec 1500 0) (dec 9 (-1)) (Some (dec 20 0)) (dec 9 (-1)) example_document (default [] (match viter (dget_or example_document "points" (VList [])) with Ok l => Some l | _ => None end)));
    vm_compute; reflexivity.
Defined.

(** The recommended point may be dominated: the recommendation ranks by goodput and
    concurrency only, so a tie is not broken by GPU time. *)
Example recommended_off_front :
  match recommend_operating_point (dec 1500 0) (dec 9 (-1)) None (dec 9 (-1)) example_document with
  | Ok env =>
      match env_recommendation env with
      | Some (it, _) => existsb (fun o => domb o it) (env_points env)
      | None => false
      end
  | Err _ => false
  end = true.
Proof. vm_compute. reflexivity. Qed.
