(* ===== verification/Calibrator.v ===== *)
(** * The automatic calibrator (planner/auto_calibrator.py)

    Every (sweep point, hit-ratio threshold) pair is scored by the throughput that its
    feasible runs sustain, less penalties for instability and weak evidence; the best
    pair with enough feasible runs is recommended for human approval. *)

From S2P Require Import Prelude PyFloat FloatOrder FloatRound PyStr PyVal PySort WindowMetrics.

Record CalibrationConstraints := {
  e2e_p95_slo_ms : float;
  min_success_rate : float;
  min_feasible_runs : Z
}.
Record CalibrationWeights := {
  w_instability : float;
  w_evidence_uncertainty : float;
  w_safety_factor : float
}.
Definition default_weights : CalibrationWeights :=
  {| w_instability := dec 75 (-2); w_evidence_uncertainty := dec 75 (-2); w_safety_factor := dec 9 (-1) |}.

(** [tuple(round(index * 0.05, 2) for index in range(21))] *)
Definition DEFAULT_THRESHOLDS : list float :=
  omap (fun i => match py_round 2 (of_Z (Z.of_nat i) ⊗ dec 5 (-2)) with Ok x => Some x | Err _ => None end) (seq 0 21).
Definition EVIDENCE_UNCERTAINTY : list (string * float) :=
  [("strict", f0); ("estimated", dec 25 (-2)); ("fallback", dec 6 (-1)); ("missing", f1)]%string.

(** Points and runs are JSON objects. *)
Definition as_dict (v : val) : res dict := match v with VDict d => Ok d | _ => Err AttributeError end.

Definition _success_rate (run : dict) : res float :=
  requests <-! vget (dget_or run "summary" (VDict [])) "requests" (VDict []) ;;
  t <-! vget requests "total" (VInt 0) ;;
  total <-! float_or_zero t ;;
  if total >?. f0 then
    o <-! vget requests "ok" (VInt 0) ;; ok <-! float_or_zero o ;; fdiv ok total
  else Ok f0.

(** Walk a path of keys; what is missing or not a dict becomes [{}]. *)
Definition walk (run : val) (path : list string) : val :=
  foldl (fun v k => match v with VDict d => dget_or d k (VDict []) | _ => VDict [] end) run path.
Definition _number (run : dict) (path : list string) : res float :=
  match float_or_zero (walk (VDict run) path) with
  | Ok number => Ok (if isfinite number then number else f0)
  | Err TypeError | Err (ValueError _) => Ok f0
  | Err e => Err e
  end.

Definition _quality_name (qualities : list string) : string :=
  match remove_dups qualities with [] => "missing" | [q] => q | _ => "mixed" end.

Record rejected := { rj_slo : Z; rj_success_rate : Z; rj_hit_ratio : Z; rj_metric_quality : Z; rj_evidence_missing : Z }.
Record feasible_run := { fr_rps : float; fr_hit_ratio : float; fr_evidence : string }.

Record candidate := {
  c_scenario : val;
  c_concurrency : Z;
  c_min_hit_ratio : float;
  c_feasible_runs : Z;
  c_total_runs : Z;
  c_mean_rps : option float;       (* no key when there is no feasible run *)
  c_rps_lower_bound : float;
  c_expected_rps : float;
  c_instability : float;
  c_evidence_uncertainty : float;
  c_evidence_quality : string;
  c_score : option float;
  c_rejection_reasons : list string;
  c_rejected_counts : rejected;
  c_selected : bool
}.

Section calibrate.
Context (constraints : CalibrationConstraints) (weights : CalibrationWeights).

Inductive verdict : Type :=
| Slo | SuccessRate | MetricQuality | HitRatio | EvidenceMissing
| Feasible (r : feasible_run).

(** The guards of the loop over the runs, in the order of the code. *)
Definition judge (threshold : float) (run : dict) : res verdict :=
  ' (hit_ratio, metric_quality, _) <-! get_entry_hit_ratio_quality_and_source run ;;
  evidence_quality <-! get_entry_evidence_quality run ;;
  e2e <-! _number run ["summary"; "latency"; "e2e_latency_p95_ms"] ;;
  success_rate <-! _success_rate run ;;
  if e2e >?. e2e_p95_slo_ms constraints then Ok Slo
  else if success_rate <?. min_success_rate constraints then Ok SuccessRate
  else if negb (String.eqb metric_quality "ok") then Ok MetricQuality
  else
    match hit_ratio with
    | None => Ok HitRatio
    | Some h =>
        if h <?. threshold then Ok HitRatio
        else if String.eqb evidence_quality "missing" then Ok EvidenceMissing
        else
          rps <-! _number run ["summary"; "throughput"; "req_s"] ;;
          Ok (Feasible {| fr_rps := rps; fr_hit_ratio := h; fr_evidence := evidence_quality |})
    end.

Definition feasible_of (v : verdict) : option feasible_run :=
  match v with Feasible r => Some r | _ => None end.
Definition rejected_counts (vs : list verdict) : rejected :=
  {| rj_slo := zcount (fun v => match v with Slo => true | _ => false end) vs;
     rj_success_rate := zcount (fun v => match v with SuccessRate => true | _ => false end) vs;
     rj_hit_ratio := zcount (fun v => match v with HitRatio => true | _ => false end) vs;
     rj_metric_quality := zcount (fun v => match v with MetricQuality => true | _ => false end) vs;
     rj_evidence_missing := zcount (fun v => match v with EvidenceMissing => true | _ => false end) vs |}.

Definition _evaluate_candidate (point : dict) (threshold : float) : res candidate :=
  run_values <-! viter (dget_or point "runs" (VList [])) ;;
  verdicts <-! res_map (fun v => run <-! as_dict v ;; judge threshold run) run_values ;;
  let feasible := omap feasible_of verdicts in
  let n := zlen feasible in
  let counts := rejected_counts verdicts in
  let too_few := if n <? min_feasible_runs constraints then ["insufficient_feasible_runs"%string] else [] in
  let scenario := dget_or point "scenario" (VStr "unknown") in
  let concurrency := int_of_val (dget_or point "concurrency" (VInt 0)) in
  if n =? 0 then
    concurrency <-! concurrency ;;
    Ok {| c_scenario := scenario; c_concurrency := concurrency; c_min_hit_ratio := threshold;
          c_feasible_runs := 0; c_total_runs := zlen run_values; c_mean_rps := None;
          c_rps_lower_bound := f0; c_expected_rps := f0; c_instability := f1;
          c_evidence_uncertainty := f1; c_evidence_quality := "missing"; c_score := None;
          c_rejection_reasons := too_few; c_rejected_counts := counts; c_selected := false |}
  else
    let rps_values := map fr_rps feasible in
    mean_rps <-! mean rps_values ;;
    stddev <-! (if 1 <? n then stdev rps_values else Ok f0) ;;
    nf <-! float_of_int n ;;
    root <-! fsqrt nf ;;
    standard_error <-! fdiv stddev root ;;
    let lower_bound := fmax f0 (mean_rps ⊖ dec 196 (-2) ⊗ standard_error) in
    instability <-! (if mean_rps >?. f0 then fdiv stddev mean_rps else Ok f1) ;;
    uncertainties <-! res_map (fun r => match dget EVIDENCE_UNCERTAINTY (fr_evidence r) with
                                        | Some u => Ok u
                                        | None => Err (KeyError (fr_evidence r)) end) feasible ;;
    evidence_uncertainty <-! mean uncertainties ;;
    let score := lower_bound ⊖ w_instability weights ⊗ mean_rps ⊗ instability
                 ⊖ w_evidence_uncertainty weights ⊗ mean_rps ⊗ evidence_uncertainty in
    let reasons := too_few ++ if evidence_uncertainty >?. f0 then ["evidence_uncertainty"%string] else [] in
    concurrency <-! concurrency ;;
    Ok {| c_scenario := scenario; c_concurrency := concurrency; c_min_hit_ratio := threshold;
          c_feasible_runs := n; c_total_runs := zlen run_values; c_mean_rps := Some mean_rps;
          c_rps_lower_bound := lower_bound; c_expected_rps := lower_bound ⊗ w_safety_factor weights;
          c_instability := instability; c_evidence_uncertainty := evidence_uncertainty;
          c_evidence_quality := _quality_name (map fr_evidence feasible); c_score := Some score;
          c_rejection_reasons := reasons; c_rejected_counts := counts; c_selected := false |}.

Definition selectable (c : candidate) : bool :=
  match c_score c with Some _ => min_feasible_runs constraints <=? c_feasible_runs c | None => false end.
Definition candidate_key (c : candidate) : list kpart :=
  [KF (default f0 (c_score c)); KF (fopp (c_evidence_uncertainty c)); KF (c_min_hit_ratio c);
   KI (- c_concurrency c)].

(** The candidates are shared objects: marking the selected one changes the list.
    They are told apart by their position. *)
Definition set_outcome (c : candidate) (sel : bool) (reasons : list string) : candidate :=
  {| c_scenario := c_scenario c; c_concurrency := c_concurrency c; c_min_hit_ratio := c_min_hit_ratio c;
     c_feasible_runs := c_feasible_runs c; c_total_runs := c_total_runs c; c_mean_rps := c_mean_rps c;
     c_rps_lower_bound := c_rps_lower_bound c; c_expected_rps := c_expected_rps c;
     c_instability := c_instability c; c_evidence_uncertainty := c_evidence_uncertainty c;
     c_evidence_quality := c_evidence_quality c; c_score := c_score c;
     c_rejection_reasons := reasons; c_rejected_counts := c_rejected_counts c; c_selected := sel |}.
Definition ranked (candidates : list candidate) : list (nat * candidate) :=
  py_sort_reverse (fun a b : nat * candidate => kltb (candidate_key a.2) (candidate_key b.2))
    (List.filter (fun p : nat * candidate => selectable p.2) (indexed candidates)).
Definition annotate (chosen : option nat) (p : nat * candidate) : candidate :=
  let '(i, c) := p in
  if match chosen with Some j => Nat.eqb i j | None => false end then set_outcome c true []
  else if selectable c then set_outcome c false (c_rejection_reasons c ++ ["lower_robust_score"%string])
  else c.

Record recommendation := {
  r_min_hit_ratio : float;
  r_max_concurrency : Z;
  r_expected_rps : float;
  r_confidence : float;
  r_evidence_quality : string;
  r_scenario : val
}.
Record calibration := {
  cal_recommendation : option recommendation;
  cal_reason : list string;
  cal_status : string;
  cal_action : string;
  cal_canary_steps : list float;
  cal_alternatives : list candidate
}.

Definition baseline_rps (candidates : list candidate) : float :=
  match map c_expected_rps
          (List.filter (fun c => feqb (c_min_hit_ratio c) f0 && match c_score c with Some _ => true | None => false end)
             candidates) with
  | [] => f0
  | x :: l => fmax_from x l
  end.

Definition confidence_of (c : candidate) : res float :=
  sample <-! int_truediv (c_feasible_runs c) (Z.max (min_feasible_runs constraints * 2) 1) ;;
  Ok (fmin f1 sample ⊗ fmax f0 (f1 ⊖ c_instability c) ⊗ fmax f0 (f1 ⊖ c_evidence_uncertainty c)).

Definition calibrate (points : list dict) (thresholds : list float) : res calibration :=
  candidates <-! res_map (fun pt => _evaluate_candidate pt.1 pt.2)
                   (mjoin (map (fun point => map (fun t => (point, t)) thresholds) points)) ;;
  let chosen := head (ranked candidates) in
  let marked := map (annotate (option_map fst chosen)) (indexed candidates) in
  let baseline := baseline_rps marked in
  match chosen with
  | Some (_, s) =>
      advantage <-! (if baseline >?. f0 then q <-! fdiv (c_expected_rps s) baseline ;; Ok (q ⊖ f1) else Ok f0) ;;
      confidence <-! confidence_of s ;;
      expected <-! py_round 6 (c_expected_rps s) ;;
      rounded <-! py_round 6 confidence ;;
      Ok {| cal_recommendation := Some {| r_min_hit_ratio := c_min_hit_ratio s;
              r_max_concurrency := c_concurrency s; r_expected_rps := expected; r_confidence := rounded;
              r_evidence_quality := c_evidence_quality s; r_scenario := c_scenario s |};
            cal_reason := [str_of_Z (c_feasible_runs s) +:+ " feasible experiment runs";
              c_evidence_quality s +:+ " cache evidence";
              "RPS lower-bound " +:+ fmt_fixed 3 (c_rps_lower_bound s) +:+ "; robust score " +:+
                fmt_fixed 3 (default f0 (c_score s)) +:+ " after instability and evidence penalties";
              fmt_fixed 1 (advantage ⊗ dec 100 0) +:+
                "% expected throughput advantage over the threshold-free baseline"];
            cal_status := "human_approval_required"; cal_action := "replay_then_canary";
            cal_canary_steps := [dec 5 (-2); dec 25 (-2); dec 5 (-1); f1];
            cal_alternatives := marked |}
  | None =>
      Ok {| cal_recommendation := None;
            cal_reason := ["no threshold/concurrency pair met the SLO, success-rate, evidence, and minimum-run gates"];
            cal_status := "blocked"; cal_action := "collect_more_evidence";
            cal_canary_steps := []; cal_alternatives := marked |}
  end.

Definition cal_claim_boundary : string :=
  "Calibration ranks measured sweep runs and requires human approval. It does not mutate production configuration or establish performance beyond the supplied experiment artifact.".
(** The result as the document it is written to. *)
Definition rejected_dict (r : rejected) : val := VDict
  [("slo", VInt (rj_slo r)); ("success_rate", VInt (rj_success_rate r)); ("hit_ratio", VInt (rj_hit_ratio r));
   ("metric_quality", VInt (rj_metric_quality r)); ("evidence_missing", VInt (rj_evidence_missing r))]%string.
Definition candidate_dict (c : candidate) : val := VDict
  ([("scenario", c_scenario c); ("concurrency", VInt (c_concurrency c)); ("min_hit_ratio", VFloat (c_min_hit_ratio c));
    ("feasible_runs", VInt (c_feasible_runs c)); ("total_runs", VInt (c_total_runs c))]%string
   ++ match c_mean_rps c with
      | None =>
          [("score", opt_float (c_score c)); ("expected_rps", VFloat (c_expected_rps c));
           ("rps_lower_bound", VFloat (c_rps_lower_bound c)); ("instability", VFloat (c_instability c));
           ("evidence_uncertainty", VFloat (c_evidence_uncertainty c)); ("evidence_quality", VStr (c_evidence_quality c))]%string
      | Some mean_rps =>
          [("mean_rps", VFloat mean_rps); ("rps_lower_bound", VFloat (c_rps_lower_bound c));
           ("expected_rps", VFloat (c_expected_rps c)); ("instability", VFloat (c_instability c));
           ("evidence_uncertainty", VFloat (c_evidence_uncertainty c)); ("evidence_quality", VStr (c_evidence_quality c));
           ("score", opt_float (c_score c))]%string
      end
   ++ [("rejection_reasons", VList (map VStr (c_rejection_reasons c)));
       ("rejected_counts", rejected_dict (c_rejected_counts c)); ("selected", VBool (c_selected c))]%string).
Definition recommendation_dict (r : recommendation) : val := VDict
  [("min_hit_ratio", VFloat (r_min_hit_ratio r)); ("max_concurrency", VInt (r_max_concurrency r));
   ("expected_rps", VFloat (r_expected_rps r)); ("confidence", VFloat (r_confidence r));
   ("evidence_quality", VStr (r_evidence_quality r)); ("scenario", r_scenario r)]%string.
Definition calibration_dict (c : calibration) : dict :=
  [("schema_version", VStr "kavora-auto-calibration/v1");
   ("recommendation", match cal_recommendation c with Some r => recommendation_dict r | None => VNone end);
   ("constraints", VDict [("e2e_p95_ms", VFloat (e2e_p95_slo_ms constraints));
      ("success_rate", VFloat (min_success_rate constraints)); ("min_feasible_runs", VInt (min_feasible_runs constraints))]);
   ("weights", VDict [("instability", VFloat (w_instability weights));
      ("evidence_uncertainty", VFloat (w_evidence_uncertainty weights)); ("safety_factor", VFloat (w_safety_factor weights))]);
   ("reason", VList (map VStr (cal_reason c)));
   ("deployment", VDict [("status", VStr (cal_status c)); ("recommended_action", VStr (cal_action c));
      ("canary_steps", VList (map VFloat (cal_canary_steps c)))]);
   ("alternatives", VList (map candidate_dict (cal_alternatives c)));
   ("claim_boundary", VStr cal_claim_boundary)]%string.
Definition render (result : calibration) : string :=
  join (str [chr 10])
    (["# Kavora Automatic Operating-Envelope Calibration"; ""]
     ++ match cal_recommendation result with
        | Some r =>
            ["- Minimum hit ratio: `" +:+ fmt_fixed 2 (r_min_hit_ratio r) +:+ "`";
             "- Maximum concurrency: `" +:+ str_of_Z (r_max_concurrency r) +:+ "`";
             "- Expected safe RPS: `" +:+ fmt_fixed 3 (r_expected_rps r) +:+ "`";
             "- Confidence: `" +:+ fmt_fixed 3 (r_confidence r) +:+ "`";
             "- Evidence quality: `" +:+ r_evidence_quality r +:+ "`"]
        | None => ["- Recommendation: `BLOCKED`"]
        end
     ++ [""; "## Reasons"; ""]
     ++ map (fun reason => "- " +:+ reason) (cal_reason result)
     ++ [""; "## Deployment"; ""; "- Status: `" +:+ cal_status result +:+ "`";
         "- Next action: `" +:+ cal_action result +:+ "`"; ""; "## Claim Boundary"; ""; cal_claim_boundary; ""]).
End calibrate.

(** ** Properties *)

(** Every run is either feasible or counted under one reason. *)
Lemma verdicts_partition vs :
  let r := rejected_counts vs in
  zlen (omap feasible_of vs) + rj_slo r + rj_success_rate r + rj_hit_ratio r + rj_metric_quality r
  + rj_evidence_missing r = zlen vs.
Proof.
  cbn zeta. unfold rejected_counts. cbn [rj_slo rj_success_rate rj_hit_ratio rj_metric_quality rj_evidence_missing].
  induction vs as [|v vs IH]; [done|]. rewrite !zcount_cons, zlen_cons.
  destruct v; cbn [omap list_omap feasible_of]; rewrite ?zlen_cons; lia.
Qed.

Lemma judge_feasible cs threshold run r : judge cs threshold run = Ok (Feasible r) ->
  (exists e2e, _number run ["summary"; "latency"; "e2e_latency_p95_ms"]%string = Ok e2e /\
     fltb (e2e_p95_slo_ms cs) e2e = false) /\
  (exists s, _success_rate run = Ok s /\ fltb s (min_success_rate cs) = false) /\
  (exists src, get_entry_hit_ratio_quality_and_source run = Ok (Some (fr_hit_ratio r), "ok"%string, src)) /\
  fltb (fr_hit_ratio r) threshold = false /\
  get_entry_evidence_quality run = Ok (fr_evidence r) /\ fr_evidence r <> "missing"%string.
Proof.
  unfold judge. intros H.
  destruct (get_entry_hit_ratio_quality_and_source run) as [[[h q] src]|]; [|done].
  inv_ok H.
  destruct (fltb (e2e_p95_slo_ms cs) _) eqn:Hslo; [done|].
  destruct (fltb _ (min_success_rate cs)) eqn:Hsr; [done|].
  destruct (String.eqb_spec q "ok") as [->|]; [|done]. simpl in H.
  destruct h as [h|]; [|done]. destruct (fltb h threshold) eqn:Hth; [done|].
  destruct (String.eqb_spec a "missing") as [->|Hne]; [done|].
  inv_ok H. subst r. simpl. split_and!; eauto.
Qed.

(** The accounting of a candidate.  Its feasible and rejected runs add up to all
    runs of the point; its feasible runs are exactly the runs that meet the latency,
    success, freshness, hit-ratio and evidence gates; without one it has no score. *)
Theorem candidate_accounting cs ws point threshold c :
  _evaluate_candidate cs ws point threshold = Ok c ->
  exists runs verdicts, viter (dget_or point "runs" (VList [])) = Ok runs /\
    res_map (fun v => run <-! as_dict v ;; judge cs threshold run) runs = Ok verdicts /\
    c_feasible_runs c = zlen (omap feasible_of verdicts) /\
    c_total_runs c = zlen runs /\
    (let r := c_rejected_counts c in
     c_feasible_runs c + rj_slo r + rj_success_rate r + rj_hit_ratio r + rj_metric_quality r
       + rj_evidence_missing r = c_total_runs c) /\
    (c_score c = None <-> c_feasible_runs c = 0) /\
    (forall r, r ∈ omap feasible_of verdicts -> exists run, VDict run ∈ runs /\
       (exists e2e, _number run ["summary"; "latency"; "e2e_latency_p95_ms"]%string = Ok e2e /\
          fltb (e2e_p95_slo_ms cs) e2e = false) /\
       (exists s, _success_rate run = Ok s /\ fltb s (min_success_rate cs) = false) /\
       fltb (fr_hit_ratio r) threshold = false /\
       get_entry_evidence_quality run = Ok (fr_evidence r) /\ fr_evidence r <> "missing"%string).
Proof.
  unfold _evaluate_candidate. intros H.
  destruct (viter _) as [runs|]; [|done].
  destruct (res_map _ runs) as [verdicts|] eqn:Ev; [|done]. exists runs, verdicts.
  pose proof (verdicts_partition verdicts) as Hp. pose proof (res_map_length _ _ _ Ev) as Hlen.
  assert (Hz : zlen verdicts = zlen runs) by (unfold zlen; by rewrite Hlen).
  split; [done|]. split; [done|].
  assert (Hruns : forall r, r ∈ omap feasible_of verdicts -> exists run, VDict run ∈ runs /\
            judge cs threshold run = Ok (Feasible r)).
  { intros r Hr. apply list_elem_of_omap in Hr as (v & Hv & Hvr).
    destruct v; try discriminate Hvr. injection Hvr as ->. apply res_map_Forall2 in Ev.
    apply list_elem_of_lookup in Hv as [i Hi]. destruct (Forall2_lookup_r _ _ _ _ _ Ev Hi) as (x & Hx & Hj).
    destruct x as [| | | | | | |run]; try discriminate Hj. cbn [as_dict] in Hj.
    exists run. split; [by eapply list_elem_of_lookup_2|exact Hj]. }
  cbv zeta in H. destruct (Z.eqb_spec (zlen (omap feasible_of verdicts)) 0) as [E|E].
  - inv_ok H. subst c. cbn. split_and!; [done|done|cbn in Hp; lia|done|].
    intros r Hr. destruct (Hruns r Hr) as (run & Hin & Hj). exists run.
    apply judge_feasible in Hj. naive_solver.
  - inv_ok H; subst c; cbn; (split_and!; [done|done|cbn in Hp; lia|by split|]).
    all: intros r Hr; destruct (Hruns r Hr) as (run & Hin & Hj); exists run;
      apply judge_feasible in Hj; naive_solver.
Qed.

(** ** The selection *)

Definition numbered (c : candidate) : Prop :=
  match c_score c with Some s => is_nan s = false | None => True end /\
  is_nan (c_evidence_uncertainty c) = false /\ is_nan (c_min_hit_ratio c) = false.

Lemma is_nan_fopp x : is_nan (fopp x) = is_nan x.
Proof. by destruct x. Qed.
Lemma candidate_key_shaped c : numbered c -> shaped [true; true; true; false] (candidate_key c).
Proof.
  intros (H1 & H2 & H3). unfold candidate_key. repeat constructor; rewrite ?is_nan_fopp; try done.
  by destruct (c_score c).
Qed.

Lemma ranked_elem cs cands i c :
  (i, c) ∈ ranked cs cands <-> cands !! i = Some c /\ selectable cs c = true.
Proof.
  unfold ranked. rewrite py_sort_reverse_perm, elem_of_filterb, indexed_elem. done.
Qed.
(** The head of the ranking has the highest score. *)
Lemma ranked_head cs cands i s r :
  Forall numbered cands -> ranked cs cands = (i, s) :: r ->
  cands !! i = Some s /\ selectable cs s = true /\
  forall c, c ∈ cands -> selectable cs c = true ->
    fleb (default f0 (c_score c)) (default f0 (c_score s)) = true.
Proof.
  intros Hn Hr. rewrite Forall_forall in Hn.
  assert (Hi : (i, s) ∈ ranked cs cands) by (rewrite Hr; by left).
  apply ranked_elem in Hi as [Hi Hs]. split; [done|]. split; [done|]. intros c Hc Hsel.
  set (K := fun p : nat * candidate => shaped [true; true; true; false] (candidate_key p.2)).
  apply list_elem_of_lookup in Hc as [j Hj]. unfold ranked in Hr.
  assert (HK : forall k x, cands !! k = Some x -> K (k, x)).
  { intros k x Hk. apply candidate_key_shaped, Hn. by eapply list_elem_of_lookup_2. }
  destruct (py_sort_reverse_head (fun a b : nat * candidate => kltb (candidate_key a.2) (candidate_key b.2)) K)
    with (x := (i, s)) (r := r)
      (l := List.filter (fun p : nat * candidate => selectable cs p.2) (indexed cands)) as [_ Hmax]; [..|done|].
  { intros x y Hx Hy. by apply (kltb_asym [true; true; true; false]). }
  { intros x y z Hx Hy Hz. by apply (kltb_ge_trans [true; true; true; false]). }
  { apply Forall_forall. intros [k x] Hk. apply elem_of_filterb in Hk as [Hk _].
    apply indexed_elem in Hk. by apply HK. }
  assert (Hjin : (j, c) ∈ List.filter (fun p : nat * candidate => selectable cs p.2) (indexed cands))
    by (apply elem_of_filterb; by rewrite indexed_elem).
  pose proof (Hmax _ Hjin (HK j c Hj)) as Hlt. simpl in Hlt.
  apply (kltb_head [true; true; false] _ _ _ _ (HK i s Hi) (HK j c Hj) Hlt).
Qed.

(** What a candidate says for itself when it is not chosen. *)
Lemma evaluated_explained cs ws point threshold c :
  0 < min_feasible_runs cs -> _evaluate_candidate cs ws point threshold = Ok c ->
  c_selected c = false /\ (selectable cs c = false -> c_rejection_reasons c <> []).
Proof.
  intros Hmin H. unfold _evaluate_candidate in H.
  destruct (viter _) as [runs|]; [|done]. destruct (res_map _ runs) as [verdicts|]; [|done].
  cbv zeta in H. set (n := zlen (omap feasible_of verdicts)) in *.
  destruct (Z.eqb_spec n 0) as [E|E]; inv_ok H; subst c; cbn; (split; [done|]); unfold selectable; cbn.
  - intros _. rewrite E. by rewrite (proj2 (Z.ltb_lt 0 _) Hmin).
  - all: intros Hlt; apply Z.leb_gt in Hlt; by rewrite (proj2 (Z.ltb_lt n _) Hlt).
Qed.

Lemma annotate_lookup cs chosen cands i :
  map (annotate cs chosen) (indexed cands) !! i = (fun c => annotate cs chosen (i, c)) <$> (cands !! i).
Proof.
  change (map (annotate cs chosen) (indexed cands)) with (annotate cs chosen <$> indexed cands).
  rewrite list_lookup_fmap, indexed_lookup. by destruct (cands !! i).
Qed.
Lemma annotate_spec cs chosen i c :
  let a := annotate cs chosen (i, c) in
  c_selected c = false ->
  (chosen = Some i -> a = set_outcome c true []) /\
  (chosen <> Some i -> c_selected a = false /\ c_score a = c_score c /\ selectable cs a = selectable cs c /\
     ((selectable cs c = false -> c_rejection_reasons c <> []) -> c_rejection_reasons a <> [])).
Proof.
  cbn zeta. unfold annotate. intros Hs. split.
  - intros ->. by rewrite Nat.eqb_refl.
  - intros Hne.
    assert (E : match chosen with Some j => Nat.eqb i j | None => false end = false).
    { destruct chosen as [j|]; [|done]. apply Nat.eqb_neq. congruence. }
    rewrite E. destruct (selectable cs c) eqn:Es; [|by split_and!; auto].
    unfold selectable in *. simpl. split_and!; try done. intros _. by destruct (c_rejection_reasons c).
Qed.

Lemma annotate_numbered cs chosen p : numbered (annotate cs chosen p) <-> numbered p.2.
Proof.
  destruct p as [i c]. unfold annotate.
  destruct (match chosen with Some j => _ | None => _ end); [done|]. by destruct (selectable cs c).
Qed.
Lemma candidates_explained cs ws pts cands :
  0 < min_feasible_runs cs ->
  res_map (fun pt : dict * float => _evaluate_candidate cs ws pt.1 pt.2) pts = Ok cands ->
  Forall (fun c => c_selected c = false /\ (selectable cs c = false -> c_rejection_reasons c <> [])) cands.
Proof.
  intros Hmin H. apply res_map_Forall2 in H. eapply Forall2_Forall_r; [exact H|].
  apply Forall_true. intros pt c. by apply evaluated_explained.
Qed.

(** The alternatives of a calibration, and which of them is selected. *)
Section marked.
Context (cs : CalibrationConstraints) (cands : list candidate).
Context (Hex : Forall (fun c => c_selected c = false /\ (selectable cs c = false -> c_rejection_reasons c <> [])) cands).
#[local] Abbreviation marked chosen := (map (annotate cs chosen) (indexed cands)).

Lemma marked_inv chosen j a : marked chosen !! j = Some a ->
  exists c, cands !! j = Some c /\
    ((chosen = Some j /\ a = set_outcome c true []) \/
     (chosen <> Some j /\ c_selected a = false /\ c_score a = c_score c /\ selectable cs a = selectable cs c /\
      c_rejection_reasons a <> [])).
Proof.
  intros Hj. rewrite annotate_lookup in Hj. destruct (cands !! j) as [c|] eqn:Ec; [|done]. injection Hj as <-.
  exists c. split; [done|]. pose proof Hex as H. rewrite Forall_lookup in H. destruct (H _ _ Ec) as [Hs Hr].
  destruct (annotate_spec cs chosen j c Hs) as [H1 H2].
  destruct (decide (chosen = Some j)) as [E|E]; [left; auto|right]. destruct (H2 E) as (? & ? & ? & H3). split_and!; auto.
Qed.
Lemma marked_reasons chosen a : a ∈ marked chosen -> c_selected a = false -> c_rejection_reasons a <> [].
Proof.
  intros Ha Hs. apply list_elem_of_lookup in Ha as [j Hj].
  destruct (marked_inv _ _ _ Hj) as (c & _ & [[_ ->]|(_ & _ & _ & _ & H)]); [discriminate Hs|exact H].
Qed.
Lemma marked_numbered chosen : Forall numbered (marked chosen) -> Forall numbered cands.
Proof.
  intros Hnum. apply Forall_lookup. intros j c Hcj. rewrite Forall_lookup in Hnum.
  assert (Hm : marked chosen !! j = Some (annotate cs chosen (j, c))) by (by rewrite annotate_lookup, Hcj).
  specialize (Hnum _ _ Hm). by apply annotate_numbered in Hnum.
Qed.
Lemma marked_unselectable a : ranked cs cands = [] -> a ∈ marked None -> c_selected a = false /\ selectable cs a = false.
Proof.
  intros Hr Ha. apply list_elem_of_lookup in Ha as [j Hj].
  destruct (marked_inv _ _ _ Hj) as (c & Hc & [[? _]|(_ & Hs & _ & -> & _)]); [done|]. split; [done|].
  apply not_true_iff_false. intros Hsel. assert (Hin : (j, c) ∈ ranked cs cands) by (by apply ranked_elem).
  rewrite Hr in Hin. by apply elem_of_nil in Hin.
Qed.
Lemma marked_best i s rest : Forall numbered cands -> ranked cs cands = (i, s) :: rest ->
  marked (Some i) !! i = Some (set_outcome s true []) /\ min_feasible_runs cs <= c_feasible_runs s /\
  (forall j a, marked (Some i) !! j = Some a -> c_selected a = true -> j = i) /\
  exists score, c_score s = Some score /\
    forall a score', a ∈ marked (Some i) -> selectable cs a = true -> c_score a = Some score' -> fleb score' score = true.
Proof.
  intros Hn Hr. destruct (ranked_head cs cands i s rest Hn Hr) as (Hi & Hsel & Hmax).
  pose proof Hex as H. rewrite Forall_lookup in H. destruct (H _ _ Hi) as [Hs _].
  split; [|split; [|split]].
  - rewrite annotate_lookup, Hi. simpl fmap. f_equal. by apply (annotate_spec cs (Some i) i s Hs).
  - unfold selectable in Hsel. destruct (c_score s); [by apply Z.leb_le|done].
  - intros j a Hj Ha. destruct (marked_inv _ _ _ Hj) as (c & _ & [[E _]|(_ & Hf & _)]); congruence.
  - destruct (c_score s) as [score|] eqn:Es; [|by unfold selectable in Hsel; rewrite Es in Hsel].
    exists score. split; [done|]. intros a score' Ha Has Hsc. apply list_elem_of_lookup in Ha as [j Hj].
    assert (Hc : exists c, cands !! j = Some c /\ selectable cs c = true /\ c_score c = Some score').
    { destruct (marked_inv _ _ _ Hj) as (c & Hc & [[_ ->]|(_ & _ & E1 & E2 & _)]); exists c; [done|]. by rewrite <- E1, <- E2. }
    destruct Hc as (c & Hc & Hcs & Hcc). pose proof (Hmax c (list_elem_of_lookup_2 _ _ _ Hc) Hcs) as Hle. by rewrite Hcc in Hle.
Qed.
End marked.


Definition example_run (ok req_s : Z) : val := VDict
  [("summary", VDict [("requests", VDict [("total", VInt 10); ("ok", VInt ok)]);
      ("latency", VDict [("e2e_latency_p95_ms", VInt 300)]); ("throughput", VDict [("req_s", VInt req_s)])]);
   ("derived_window_metrics", VDict [("cache_hit_ratio_window", VFloat (dec 6 (-1)));
      ("evidence_quality", VStr "strict")])]%string.
Definition example_point : dict :=
  [("scenario", VStr "s"); ("concurrency", VInt 4); ("runs", VList [example_run 10 5; example_run 10 6; example_run 7 9])]%string.
Definition example_constraints : CalibrationConstraints :=
  {| e2e_p95_slo_ms := dec 500 0; min_success_rate := dec 9 (-1); min_feasible_runs := 2 |}.

Lemma candidate_accounting_witness :
  exists c, _evaluate_candidate example_constraints default_weights example_point (dec 5 (-1)) = Ok c /\
    c_feasible_runs c = 2 /\ rj_success_rate (c_rejected_counts c) = 1 /\
    (c_score c = None <-> c_feasible_runs c = 0).
Proof.
  eexists. split; [vm_compute; reflexivity|]. split; [reflexivity|]. split; [reflexivity|].
  edestruct (candidate_accounting example_constraints default_weights example_point (dec 5 (-1)))
    as (? & ? & _ & _ & _ & _ & _ & H & _); [vm_compute; reflexivity|exact H].
Defined.
