(* ===== verification/Percentile.v ===== *)
(** * Percentiles (planner/ttft_predictor.py, planner/policy_evaluation.py,
    benchmark/gateway_runner.py, benchmark/runner.py)

    The four definitions of the repository: the planner's interpolate between the
    floor and the ceiling of the position, the benchmarks' between its integer part
    and the next position.  They differ on an empty list. *)

From S2P Require Import Prelude PyFloat FloatOrder FloatRound PySort.

(** [l[i]]: a negative index counts from the end, an index out of range raises. *)
Definition py_nth {A} (l : list A) (i : Z) : res A :=
  let n := Z.of_nat (length l) in
  let j := if i <? 0 then i + n else i in
  if (0 <=? j) && (j <? n) then
    match l !! Z.to_nat j with Some x => Ok x | None => Err IndexError end
  else Err IndexError.

Definition last_index {A} (l : list A) : Z := Z.of_nat (length l) - 1.

Module Planner.
(** [quantile * (len(ordered) - 1)] and the interpolation. *)
Definition interpolate (ordered : list float) (quantile : float) : res float :=
  n <-! float_of_int (last_index ordered) ;;
  let position := quantile ⊗ n in
  lower <-! math_floor position ;;
  upper <-! math_ceil position ;;
  if lower =? upper then py_nth ordered lower
  else
    a <-! py_nth ordered lower ;;
    b <-! py_nth ordered upper ;;
    l <-! float_of_int lower ;;
    Ok (a ⊕ (b ⊖ a) ⊗ (position ⊖ l)).
(** [planner.ttft_predictor._percentile] *)
Definition _percentile (values : list float) (quantile : float) : res float :=
  let ordered := fsorted values in
  if Nat.eqb (length ordered) 1 then py_nth ordered 0 else interpolate ordered quantile.
End Planner.

Module Evaluation.
(** [planner.policy_evaluation._percentile] *)
Definition _percentile (values : list float) (quantile : float) : res (option float) :=
  match values with
  | [] => Ok None
  | _ => x <-! Planner.interpolate (fsorted values) quantile ;; Ok (Some x)
  end.
End Evaluation.

Module Gateway.
(** [benchmark.gateway_runner.percentile] *)
Definition percentile (values : list float) (quantile : float) : res (option float) :=
  match values with
  | [] => Ok None
  | _ =>
      let ordered := fsorted values in
      n <-! float_of_int (last_index ordered) ;;
      let position := quantile ⊗ n in
      lower <-! int_of_float position ;;
      let upper := Z.min (lower + 1) (last_index ordered) in
      l <-! float_of_int lower ;;
      let fraction := position ⊖ l in
      a <-! py_nth ordered lower ;;
      b <-! py_nth ordered upper ;;
      Ok (Some (a ⊗ (f1 ⊖ fraction) ⊕ b ⊗ fraction))
  end.
End Gateway.

Module Runner.
(** [benchmark.runner._percentile] *)
Definition _percentile (values : list float) (q : float) : res float :=
  match values with
  | [] => Ok f0
  | _ =>
      let xs := fsorted values in
      if Nat.eqb (length xs) 1 then py_nth xs 0
      else
        n <-! float_of_int (last_index xs) ;;
        let idx := q ⊗ n in
        lo <-! int_of_float idx ;;
        let hi := Z.min (lo + 1) (last_index xs) in
        l <-! float_of_int lo ;;
        let frac := idx ⊖ l in
        a <-! py_nth xs lo ;;
        b <-! py_nth xs hi ;;
        Ok (a ⊗ (f1 ⊖ frac) ⊕ b ⊗ frac)
  end.
End Runner.

(** ** Properties *)

Lemma py_nth_ok {A} (l : list A) i : 0 <= i <= last_index l -> exists x, py_nth l i = Ok x /\ x ∈ l.
Proof.
  intros Hi. unfold py_nth, last_index in *. rewrite (proj2 (Z.ltb_ge i 0)) by lia.
  rewrite (proj2 (Z.leb_le 0 i)), (proj2 (Z.ltb_lt i _)) by lia. simpl.
  destruct (lookup_lt_is_Some_2 l (Z.to_nat i)) as [x Hx]; [lia|]. rewrite Hx.
  exists x. split; [done|]. by eapply list_elem_of_lookup_2.
Qed.
Lemma fsorted_perm l : fsorted l ≡ₚ l.
Proof. apply py_sort_perm. Qed.
Lemma fsorted_length l : length (fsorted l) = length l.
Proof. by rewrite fsorted_perm. Qed.

(** A quantile as the sources write them: a literal of [0, 1]. *)
Definition quantile_ok (q : float) : Prop :=
  valid_binary prec emax q = true /\ fleb f0 q = true /\ fleb q f1 = true.
(** A list short enough for its positions to be exact. *)
Definition short (l : list float) : Prop := Z.of_nat (length l) <= 2 ^ 53.

Lemma float_of_int_exact n : 0 <= n < 2 ^ 53 -> float_of_int n = Ok (of_Z n).
Proof.
  intros Hn. assert (Hb : n <= 2 ^ 1000).
  { apply Z.le_trans with (2 ^ 53); [lia|]. by apply Z.pow_le_mono_r. }
  pose proof (float_of_int_ok n ltac:(lia)) as H. unfold float_of_int in *. by destruct (of_Z n).
Qed.

Lemma positions l q : l <> [] -> short l -> quantile_ok q ->
  exists n lo hi, float_of_int (last_index l) = Ok n /\
    math_floor (q ⊗ n) = Ok lo /\ math_ceil (q ⊗ n) = Ok hi /\ int_of_float (q ⊗ n) = Ok lo /\
    0 <= lo /\ lo <= hi /\ hi <= last_index l /\ is_ok (float_of_int lo) = true.
Proof.
  intros Hne Hs (Hv & H0 & H1). unfold short, last_index in *.
  assert (0 < Z.of_nat (length l)) by (destruct l; simpl; [done|lia]).
  rewrite float_of_int_exact by lia.
  destruct (position_bounds q (Z.of_nat (length l) - 1) Hv H0 H1 ltac:(lia)) as (lo & hi & ? & ? & ? & ? & ? & ?).
  exists (of_Z (Z.of_nat (length l) - 1)), lo, hi. split_and!; try done. by rewrite float_of_int_exact by lia.
Qed.

Lemma interpolate_ok l q : l <> [] -> short l -> quantile_ok q -> is_ok (Planner.interpolate l q) = true.
Proof.
  intros Hne Hs Hq. unfold Planner.interpolate.
  destruct (positions l q Hne Hs Hq) as (n & lo & hi & -> & -> & -> & _ & ? & ? & ? & Hlo).
  destruct (py_nth_ok l lo ltac:(lia)) as (a & -> & _).
  destruct (py_nth_ok l hi ltac:(lia)) as (b & -> & _).
  destruct (lo =? hi); [done|]. by destruct (float_of_int lo).
Qed.

Lemma fsorted_nonempty l : l <> [] -> fsorted l <> [].
Proof. intros Hne E. apply Hne. apply Permutation_nil. rewrite <- E. by rewrite fsorted_perm. Qed.

Lemma py_nth_nil {A} i : py_nth (@nil A) i = Err IndexError.
Proof. unfold py_nth. simpl length. by destruct (_ && _). Qed.
Lemma planner_empty q : is_ok (Planner._percentile [] q) = false.
Proof.
  unfold Planner._percentile, Planner.interpolate. change (fsorted []) with (@nil float).
  cbn [length Nat.eqb]. destruct (float_of_int _); [|done]. destruct (math_floor _); [|done].
  destruct (math_ceil _); [|done]. destruct (_ =? _); by rewrite py_nth_nil.
Qed.

Lemma planner_ok l q : l <> [] -> short l -> quantile_ok q -> is_ok (Planner._percentile l q) = true.
Proof.
  intros Hne Hs Hq. unfold Planner._percentile. destruct (Nat.eqb_spec (length (fsorted l)) 1) as [E|_].
  - destruct (py_nth_ok (fsorted l) 0) as (x & -> & _); [unfold last_index; lia|done].
  - apply interpolate_ok; [by apply fsorted_nonempty| |done]. unfold short. by rewrite fsorted_length.
Qed.

(** No percentile reads out of range.  For a quantile in [0, 1] and a list of at
    most 2^53 values, NaN and infinities included, the four definitions return a
    value; only the planner's raises, and only on an empty list. *)
Theorem percentiles_total values q :
  short values -> quantile_ok q ->
  (is_ok (Planner._percentile values q) = true <-> values <> []) /\
  (exists p, Evaluation._percentile values q = Ok p /\ (p = None <-> values = [])) /\
  (exists p, Gateway.percentile values q = Ok p /\ (p = None <-> values = [])) /\
  (exists p, Runner._percentile values q = Ok p).
Proof.
  intros Hs Hq.
  assert (Hss : short (fsorted values)) by (unfold short; by rewrite fsorted_length).
  destruct (decide (values = [])) as [->|Hne].
  { split_and!; [split; [by rewrite planner_empty|done]|by exists None|by exists None|by exists f0]. }
  pose proof (fsorted_nonempty values Hne) as Hsne.
  pose proof (interpolate_ok _ q Hsne Hss Hq) as Hi.
  destruct (positions _ q Hsne Hss Hq) as (n & lo & hi & Hn & Hlo & Hhi & Hint & ? & ? & ? & Hl).
  assert (Hfirst : exists x, py_nth (fsorted values) 0 = Ok x).
  { destruct (py_nth_ok (fsorted values) 0) as (x & -> & _); [|eauto]. lia. }
  destruct Hfirst as [x Hx].
  destruct (py_nth_ok (fsorted values) lo ltac:(lia)) as (a & Ha & _).
  destruct (py_nth_ok (fsorted values) (Z.min (lo + 1) (last_index (fsorted values))) ltac:(lia)) as (b & Hb & _).
  destruct (float_of_int lo) as [l|] eqn:El; [|done].
  split_and!.
  - split; [done|]. intros _. unfold Planner._percentile. destruct (Nat.eqb _ 1); [by rewrite Hx|done].
  - unfold Evaluation._percentile. destruct values; [done|].
    destruct (Planner.interpolate _ _); [|done]. by eexists.
  - unfold Gateway.percentile. destruct values; [done|].
    rewrite Hn, Hint, El, Ha, Hb. by eexists.
  - unfold Runner._percentile. destruct values; [done|].
    destruct (Nat.eqb _ 1); [by rewrite Hx; eauto|]. rewrite Hn, Hint, El, Ha, Hb. eauto.
Qed.
Lemma percentiles_total_witness :
  (is_ok (Planner._percentile [f1; dec 2 0; S754_nan] (dec 95 (-2))) = true <-> [f1; dec 2 0; S754_nan] <> []) /\
  exists p, Gateway.percentile [f1; dec 2 0; S754_nan] (dec 95 (-2)) = Ok p.
Proof.
  destruct (percentiles_total [f1; dec 2 0; S754_nan] (dec 95 (-2))) as (H1 & _ & (p & Hp & _) & _).
  - vm_compute. discriminate.
  - split_and!; vm_compute; reflexivity.
  - split; [exact H1|by exists p].
Defined.
