(* ===== verification/Solve.v ===== *)
(** * Gauss-Jordan elimination (planner/ttft_predictor.py, [_solve])

    The routine is written once over a class of arithmetic; its instance on floats is
    the code, and on exact rationals it is proved to solve the system. *)

From Stdlib Require Import QArith Qcanon.
From S2P Require Import Prelude PyFloat PySort.
Open Scope Z_scope.

(** The arithmetic the routine uses: [/] may raise, [weight] is [abs] as used for the
    pivot, [tiny] the singularity test. *)
Class Arith (T : Type) := {
  a_sub : T -> T -> T;
  a_mul : T -> T -> T;
  a_div : T -> T -> res T;
  a_abs_ltb : T -> T -> bool;    (* abs(x) < abs(y) *)
  a_tiny : T -> bool             (* abs(x) < 1e-12 *)
}.

Section solve.
Context {T : Type} `{Arith T}.

Definition cell (row : list T) (j : nat) : res T :=
  match row !! j with Some x => Ok x | None => Err IndexError end.
Definition row_at (m : list (list T)) (i : nat) : res (list T) :=
  match m !! i with Some r => Ok r | None => Err IndexError end.

(** [row[:] + [vector[index]] for index, row in enumerate(matrix)] *)
Definition augment (matrix : list (list T)) (vector : list T) : res (list (list T)) :=
  res_map (fun ir : nat * list T => b <-! cell vector ir.1 ;; Ok (ir.2 ++ [b])) (indexed matrix).

(** [max(range(column, size), key=lambda row: abs(augmented[row][column]))] *)
Definition pivot_row (m : list (list T)) (column size : nat) : res nat :=
  vals <-! res_map (fun i => r <-! row_at m i ;; x <-! cell r column ;; Ok (i, x)) (seq column (size - column)) ;;
  match vals with
  | [] => Err (ValueError "max() arg is an empty sequence")
  | v :: vs => Ok (max_by_from (fun a b : nat * T => a_abs_ltb a.2 b.2) v vs).1
  end.

(** One column of the elimination. *)
Definition eliminate (size column : nat) (m : list (list T)) : res (list (list T)) :=
  pivot <-! pivot_row m column size ;;
  prow <-! row_at m pivot ;;
  p <-! cell prow column ;;
  raise_if a_tiny p with ValueError "predictor design matrix is singular" ;;
  crow <-! row_at m column ;;
  let m := <[pivot := crow]> (<[column := prow]> m) in
  prow <-! row_at m column ;;
  divisor <-! cell prow column ;;
  prow <-! res_map (fun v => a_div v divisor) prow ;;
  let m := <[column := prow]> m in
  res_map (fun ir : nat * list T =>
    if Nat.ltb ir.1 size && negb (Nat.eqb ir.1 column) then
      factor <-! cell ir.2 column ;;
      raise_if negb (Nat.eqb (length ir.2) (length prow)) with ValueError "zip() argument 2 is longer or shorter than argument 1" ;;
      Ok (zip_with (fun current pivot_value => a_sub current (a_mul factor pivot_value)) ir.2 prow)
    else Ok ir.2) (indexed m).

Definition _solve (matrix : list (list T)) (vector : list T) : res (list T) :=
  let size := length vector in
  m <-! augment matrix vector ;;
  m <-! res_fold (fun m c => eliminate size c m) m (seq 0 size) ;;
  res_map (fun i => r <-! row_at m i ;;
                    match last r with Some x => Ok x | None => Err IndexError end) (seq 0 size).
End solve.

#[global] Instance float_arith : Arith float := {
  a_sub := fsub;
  a_mul := fmul;
  a_div := fdiv;
  a_abs_ltb := fun x y => fltb (fabs x) (fabs y);
  a_tiny := fun x => fltb (fabs x) (dec 1 (-12))
}.

Definition Qcabs (x : Qc) : Qc := if Qle_bool 0 x then x else Qcopp x.
Definition Qcabs_ltb (x y : Qc) : bool := negb (Qle_bool (Qcabs y) (Qcabs x)).
#[global] Instance rational_arith : Arith Qc := {
  a_sub := Qcminus;
  a_mul := Qcmult;
  a_div := fun x y => if Qc_eq_dec y 0%Qc then Err ZeroDivisionError else Ok (Qcdiv x y);
  a_abs_ltb := Qcabs_ltb;
  a_tiny := fun x => negb (Qle_bool (1 # 1000000000000) (Qcabs x))
}.

(** A float system: x + 2y = 5, 3x - y = 1. *)
Example solve_floats :
  _solve [[f1; dec 2 0]; [dec 3 0; fopp f1]] [dec 5 0; f1] = Ok [f1; dec 2 0].
Proof. vm_compute. reflexivity. Qed.

(** ** Correctness over the rationals *)

Local Open Scope Qc_scope.

(** The left-hand side of an equation, and the equation a row of the augmented
    matrix stands for. *)
Fixpoint dot (row x : list Qc) : Qc :=
  match row, x with
  | a :: row', b :: x' => a * b + dot row' x'
  | _, _ => 0
  end.
Definition rhs (row : list Qc) : Qc := default 0 (last row).
Definition solves (x row : list Qc) : Prop := dot row x = rhs row.

Lemma dot_sub f r p x : length r = length p ->
  dot (zip_with (fun c v => c - f * v) r p) x = dot r x - f * dot p x.
Proof.
  revert p x; induction r as [|a r IH]; intros [|b p] x Hl; try done; simpl; [ring|].
  destruct x as [|y x]; [ring|]. rewrite IH by (simpl in Hl; lia). ring.
Qed.
Lemma rhs_sub f r p : length r = length p ->
  rhs (zip_with (fun c v => c - f * v) r p) = rhs r - f * rhs p.
Proof.
  unfold rhs. revert p; induction r as [|a r IH]; intros [|b p] Hl; try done; simpl; [ring|].
  destruct r as [|a' r], p as [|b' p]; try done. simpl in IH. apply (IH (b' :: p)). simpl in *; lia.
Qed.
Lemma solves_sub f r p x : length r = length p -> solves x p ->
  (solves x (zip_with (fun c v => c - f * v) r p) <-> solves x r).
Proof.
  intros Hl Hp. unfold solves in *. rewrite dot_sub, rhs_sub, Hp by done. split; intros H.
  - replace (dot r x) with (dot r x - f * rhs p + f * rhs p) by ring. rewrite H. ring.
  - by rewrite H.
Qed.

(** Dividing a row by a number that is not zero. *)
Definition scaled_row (d : Qc) (row : list Qc) : list Qc := map (fun v => v / d) row.
Lemma div_row d row : d <> 0 -> res_map (fun v => a_div v d) row = Ok (scaled_row d row).
Proof.
  intros Hd. induction row as [|v row IH]; simpl in *; [done|].
  destruct (Qc_eq_dec d 0); [done|]. by rewrite IH.
Qed.
Lemma solves_scaled d row x : d <> 0 -> (solves x (scaled_row d row) <-> solves x row).
Proof.
  intros Hd.
  assert (H1 : dot (scaled_row d row) x = dot row x / d).
  { revert x; induction row as [|a row IH]; intros [|y x]; simpl; try (field; done). rewrite IH. field. done. }
  assert (H2 : rhs (scaled_row d row) = rhs row / d).
  { clear H1. unfold rhs. induction row as [|a row IH]; [simpl; field; done|]. destruct row as [|b row]; [done|exact IH]. }
  unfold solves. rewrite H1, H2. split; intros H; [|by rewrite H].
  replace (dot row x) with (dot row x / d * d) by (field; done). rewrite H. field. done.
Qed.

(** A square system with its right-hand sides. *)
Definition wf {T} (size : nat) (m : list (list T)) : Prop :=
  length m = size /\ forall r, r ∈ m -> length r = S size.
Definition all_solve (x : list Qc) (m : list (list Qc)) : Prop := forall r, r ∈ m -> solves x r.
(** Column [j] is that of the identity matrix. *)
Definition unit_column (j : nat) (m : list (list Qc)) : Prop :=
  forall i r, m !! i = Some r -> r !! j = Some (if Nat.eqb i j then 1 else 0).

Lemma max_by_from_elem {A} (ltb : A -> A -> bool) m l : max_by_from ltb m l ∈ m :: l.
Proof.
  revert m; induction l as [|x l IH]; intros m; simpl; [by left|].
  destruct (ltb m x); [right; apply IH|]. specialize (IH m). set_solver.
Qed.
Lemma pivot_row_spec {T} `{AT : Arith T} (m : list (list T)) column size p : pivot_row m column size = Ok p ->
  (column <= p < size)%nat.
Proof.
  unfold pivot_row. intros H.
  destruct (res_map _ (seq column (size - column))) as [vals|] eqn:E; [|done].
  destruct vals as [|v vs]; [done|]. injection H as <-.
  pose proof (max_by_from_elem (fun a b : nat * T => a_abs_ltb a.2 b.2) v vs) as Hin.
  set (best := max_by_from _ v vs) in *. clearbody best.
  apply res_map_Forall2 in E. apply list_elem_of_lookup in Hin as [k Hk].
  destruct (Forall2_lookup_r _ _ _ _ _ E Hk) as (i & Hi & Hf).
  destruct (row_at m i) as [r|]; [|done]. destruct (cell r column) as [x|]; [|done]. injection Hf as <-.
  apply list_elem_of_lookup_2, elem_of_seq in Hi. simpl. lia.
Qed.

Lemma row_at_ok {T} (m : list (list T)) i r : row_at m i = Ok r <-> m !! i = Some r.
Proof. unfold row_at. destruct (m !! i); split; congruence. Qed.
Lemma cell_ok {T} (r : list T) j x : cell r j = Ok x <-> r !! j = Some x.
Proof. unfold cell. destruct (r !! j); split; congruence. Qed.
(** The row at [column] after the swap is the old pivot row. *)
Lemma swap_lookup {T} (m : list (list T)) column pivot old crow :
  (column < length m)%nat -> m !! pivot = Some old -> m !! column = Some crow ->
  <[pivot := crow]> (<[column := old]> m) !! column = Some old.
Proof.
  intros Hcl Ho Hc. destruct (decide (pivot = column)) as [->|Hne].
  - rewrite list_lookup_insert_eq by (by rewrite length_insert). congruence.
  - rewrite list_lookup_insert_ne by done. by rewrite list_lookup_insert_eq.
Qed.

(** ** The elimination always ends, on any arithmetic *)

Definition singular : exn := ValueError "predictor design matrix is singular".

Lemma res_map_total {A B} (f : A -> res B) l : (forall x, x ∈ l -> is_ok (f x) = true) ->
  exists ys, res_map f l = Ok ys.
Proof.
  induction l as [|x l IH]; intros Hf; simpl; [eauto|].
  pose proof (Hf x ltac:(by left)) as Hx. destruct (f x); [|done].
  destruct IH as [ys ->]; [|eauto]. intros y Hy. apply Hf. by right.
Qed.

Section total.
Context {T : Type} `{AT : Arith T} (div_ok : forall v d : T, a_tiny d = false -> is_ok (a_div v d) = true).

Lemma wf_cell size (m : list (list T)) i j : wf size m -> (i < size)%nat -> (j < size)%nat ->
  exists r x, m !! i = Some r /\ r !! j = Some x /\ length r = S size.
Proof.
  intros [Hl Hr] Hi Hj. destruct (lookup_lt_is_Some_2 m i ltac:(lia)) as [r Hri].
  assert (Hlr : length r = S size) by (eapply Hr, list_elem_of_lookup_2, Hri).
  destruct (lookup_lt_is_Some_2 r j ltac:(lia)) as [x Hx]. by exists r, x.
Qed.

(** Rows of the right length go to rows of the right length. *)
Lemma wf_lookup size (m : list (list T)) : length m = size ->
  (forall i r, m !! i = Some r -> length r = S size) -> wf size m.
Proof. intros Hl Hr. split; [done|]. intros r [i Hi]%list_elem_of_lookup. eauto. Qed.
Lemma wf_insert size (m : list (list T)) i r : wf size m -> length r = S size -> wf size (<[i := r]> m).
Proof.
  intros [Hl Hr] Hlr. apply wf_lookup; [by rewrite length_insert|]. intros j r' Hj.
  apply list_lookup_insert_Some in Hj as [(_ & -> & _)|(_ & Hj)]; [done|].
  by eapply Hr, list_elem_of_lookup_2.
Qed.

Lemma pivot_total size (m : list (list T)) column : wf size m -> (column < size)%nat ->
  exists p, pivot_row m column size = Ok p /\ (column <= p < size)%nat.
Proof.
  intros Hwf Hc. cut (exists p, pivot_row m column size = Ok p).
  { intros [p Hp]. exists p. split; [done|by eapply pivot_row_spec]. }
  unfold pivot_row. edestruct (res_map_total (fun i => r <-! row_at m i ;; x <-! cell r column ;; Ok (i, x))
    (seq column (size - column))) as [vals Hv].
  { intros i Hi%elem_of_seq. destruct (wf_cell size m i column Hwf ltac:(lia) Hc) as (r & x & Hr & Hx & _).
    by rewrite (proj2 (row_at_ok _ _ _) Hr), (proj2 (cell_ok _ _ _) Hx). }
  rewrite Hv. destruct vals; [|eauto].
  apply res_map_length in Hv. rewrite length_seq in Hv. simpl in Hv. lia.
Qed.

Lemma eliminate_total size column (m : list (list T)) : wf size m -> (column < size)%nat ->
  eliminate size column m = Err singular \/ exists m', eliminate size column m = Ok m' /\ wf size m'.
Proof.
  intros Hwf Hc. unfold eliminate. destruct (pivot_total size m column Hwf Hc) as (p & -> & Hp).
  destruct (wf_cell size m p column Hwf ltac:(lia) Hc) as (old & d & Ho & Hd & Hlo).
  destruct (wf_cell size m column column Hwf Hc Hc) as (crow & c & Hcr & _ & Hlc).
  assert (Hcl : (column < length m)%nat) by (destruct Hwf; lia).
  rewrite (proj2 (row_at_ok _ _ _) Ho), (proj2 (cell_ok _ _ _) Hd).
  destruct (a_tiny d) eqn:Et; [by left|right]. rewrite (proj2 (row_at_ok _ _ _) Hcr). cbv zeta.
  rewrite (proj2 (row_at_ok _ _ _) (swap_lookup _ _ _ _ _ Hcl Ho Hcr)), (proj2 (cell_ok _ _ _) Hd).
  destruct (res_map_total (fun v => a_div v d) old) as [prow Hprow]; [intros; by apply div_ok|].
  rewrite Hprow. apply res_map_length in Hprow.
  pose proof (wf_insert _ _ column prow (wf_insert _ _ p crow (wf_insert _ _ column old Hwf Hlo) Hlc) ltac:(lia)) as Hsw.
  set (sw := <[column := prow]> (<[p := crow]> (<[column := old]> m))) in *. clearbody sw.
  edestruct (res_map_total (fun ir : nat * list T =>
    if Nat.ltb ir.1 size && negb (Nat.eqb ir.1 column) then
      factor <-! cell ir.2 column ;;
      raise_if negb (Nat.eqb (length ir.2) (length prow)) with ValueError "zip() argument 2 is longer or shorter than argument 1" ;;
      Ok (zip_with (fun current pivot_value => a_sub current (a_mul factor pivot_value)) ir.2 prow)
    else Ok ir.2) (indexed sw)) as [m' Hm'].
  - intros [i r] Hi%indexed_elem. cbn [fst snd]. destruct (_ && _); [|done].
    assert (Hlr : length r = S size) by (destruct Hsw as [_ Hsw]; eapply Hsw, list_elem_of_lookup_2, Hi).
    destruct (lookup_lt_is_Some_2 r column ltac:(lia)) as [x Hx]. rewrite (proj2 (cell_ok _ _ _) Hx).
    by rewrite Hprow, Hlo, Hlr, Nat.eqb_refl.
  - exists m'. split; [done|]. pose proof (res_map_length _ _ _ Hm') as Hlm.
    apply res_map_Forall2 in Hm'. destruct Hsw as [Hl Hr]. apply wf_lookup.
    { rewrite Hlm. rewrite <- (length_map snd), indexed_snd. done. }
    intros i r' Hi. destruct (Forall2_lookup_r _ _ _ _ _ Hm' Hi) as ([j r] & Hj & Hf).
    apply list_elem_of_lookup_2, indexed_elem in Hj. cbn [fst snd] in Hf.
    assert (Hlr : length r = S size) by (eapply Hr, list_elem_of_lookup_2, Hj).
    destruct (_ && _); [|congruence]. destruct (cell r column); [|done].
    destruct (Nat.eqb_spec (length r) (length prow)); [|done]. injection Hf as <-.
    rewrite length_zip_with. lia.
Qed.

Lemma steps_total size n (m : list (list T)) : (n <= size)%nat -> wf size m ->
  let r := res_fold (fun m c => eliminate size c m) m (seq 0 n) in
  r = Err singular \/ exists m', r = Ok m' /\ wf size m'.
Proof.
  cbv zeta. intros Hn Hwf. induction n as [|n IH]; [right; by exists m|].
  rewrite seq_S, res_fold_app. destruct IH as [->|(m' & -> & Hwf')]; [lia|by left|].
  simpl. destruct (eliminate_total size n m' Hwf' ltac:(lia)) as [->|(m'' & -> & ?)]; [by left|right; eauto].
Qed.

(** On a square system the routine returns an answer of its size or says that the
    matrix is singular. *)
Lemma solve_total (A : list (list T)) b : length A = length b -> (forall r, r ∈ A -> length r = length b) ->
  _solve A b = Err singular \/ exists x, _solve A b = Ok x /\ length x = length b.
Proof.
  intros Hl Hr. unfold _solve.
  destruct (res_map_total (fun ir : nat * list T => b <-! cell b ir.1 ;; Ok (ir.2 ++ [b])) (indexed A)) as [m Hm].
  { intros [i r] Hi%indexed_elem. cbn [fst snd]. apply lookup_lt_Some in Hi.
    destruct (lookup_lt_is_Some_2 b i ltac:(lia)) as [x Hx]. by rewrite (proj2 (cell_ok _ _ _) Hx). }
  unfold augment. rewrite Hm.
  assert (Hwf : wf (length b) m).
  { pose proof (res_map_length _ _ _ Hm) as Hlm. apply res_map_Forall2 in Hm. apply wf_lookup.
    { rewrite Hlm, <- (length_map snd), indexed_snd. done. }
    intros i r' Hi. destruct (Forall2_lookup_r _ _ _ _ _ Hm Hi) as ([j r] & Hj & Hf).
    apply list_elem_of_lookup_2, indexed_elem in Hj. cbn [fst snd] in Hf.
    destruct (cell b j); [|done]. injection Hf as <-. rewrite length_app, (Hr r); [simpl; lia|].
    by eapply list_elem_of_lookup_2. }
  destruct (steps_total (length b) (length b) m ltac:(done) Hwf) as [->|(m' & -> & Hwf')]; [by left|right].
  edestruct (res_map_total (fun i => r <-! row_at m' i ;; match last r with Some x => Ok x | None => Err IndexError end)
    (seq 0 (length b))) as [x Hx].
  { intros i Hi%elem_of_seq. destruct (wf_cell _ _ i i Hwf' ltac:(lia) ltac:(lia)) as (r & y & Hri & _ & Hlr).
    rewrite (proj2 (row_at_ok _ _ _) Hri). destruct (last r) eqn:El; [done|].
    apply last_None in El. by subst r. }
  rewrite Hx. exists x. split; [done|]. by rewrite (res_map_length _ _ _ Hx), length_seq.
Qed.
End total.

(** Division by a float that passes the singularity test does not raise. *)
Lemma float_div_ok (v d : float) : a_tiny d = false -> is_ok (a_div v d) = true.
Proof. destruct d; simpl; intros E; first [done | vm_compute in E; discriminate]. Qed.

(** ** One elimination step *)


Lemma tiny_nonzero p : a_tiny p = false -> p <> 0.
Proof. intros H ->. vm_compute in H. discriminate. Qed.

(** What a step leaves of each row. *)
Definition row_after (size column : nat) (prow : list Qc) (i : nat) (r r' : list Qc) : Prop :=
  if Nat.ltb i size && negb (Nat.eqb i column)
  then exists f, r !! column = Some f /\ length r = length prow /\
         r' = zip_with (fun current pivot_value => current - f * pivot_value) r prow
  else r' = r.

Lemma eliminate_inv size column m m' :
  wf size m -> eliminate size column m = Ok m' ->
  exists pivot old crow d prow,
    (column <= pivot < size)%nat /\ m !! pivot = Some old /\ m !! column = Some crow /\
    old !! column = Some d /\ d <> 0 /\ prow = scaled_row d old /\
    length m' = length m /\
    forall i r', m' !! i = Some r' -> exists r,
      <[column := prow]> (<[pivot := crow]> (<[column := old]> m)) !! i = Some r /\
      row_after size column prow i r r'.
Proof.
  intros [Hlen Hrows] H. unfold eliminate in H.
  destruct (pivot_row m column size) as [pivot|] eqn:Ep; [|done].
  pose proof (pivot_row_spec _ _ _ _ Ep) as Hpv.
  destruct (row_at m pivot) as [old|] eqn:Eo; [|done]. apply row_at_ok in Eo.
  destruct (cell old column) as [d|] eqn:Ed; [|done]. apply cell_ok in Ed.
  destruct (a_tiny d) eqn:Et; [done|]. apply tiny_nonzero in Et.
  destruct (row_at m column) as [crow|] eqn:Ec; [|done]. apply row_at_ok in Ec. cbv zeta in H.
  assert (Hcl : (column < length m)%nat) by (apply lookup_lt_is_Some; eauto).
  rewrite (proj2 (row_at_ok _ _ _) (swap_lookup _ _ _ _ _ Hcl Eo Ec)) in H.
  rewrite (proj2 (cell_ok _ _ _) Ed), div_row in H by done.
  exists pivot, old, crow, d, (scaled_row d old). split_and!; [lia|lia|done..| |].
  - apply res_map_length in H. rewrite H. unfold indexed. rewrite length_combine, length_seq, !length_insert. lia.
  - intros i r' Hi. apply res_map_Forall2 in H.
    destruct (Forall2_lookup_r _ _ _ _ _ H Hi) as ([j r] & Hj & Hf).
    rewrite indexed_lookup in Hj. destruct (_ !! i) as [r0|] eqn:Er in Hj; [|done].
    injection Hj as <- ->. exists r. split; [done|]. unfold row_after. simpl in Hf.
    destruct (Nat.ltb i size && negb (Nat.eqb i column)); [|congruence].
    destruct (cell r column) as [f|] eqn:Ef; [|done]. apply cell_ok in Ef.
    destruct (Nat.eqb_spec (length r) (length (scaled_row d old))); [|done]. injection Hf as <-. eauto.
Qed.

(** After the swap the rows are the same rows in another order, and every final row
    is either the scaled pivot row or a row less a multiple of it. *)
Lemma step_rows size column m m' :
  wf size m -> eliminate size column m = Ok m' ->
  exists pivot old d, let prow := scaled_row d old in
    (column <= pivot < size)%nat /\ m !! pivot = Some old /\ old !! column = Some d /\ d <> 0 /\
    length m' = size /\ m' !! column = Some prow /\
    (forall i r', m' !! i = Some r' -> i <> column ->
       exists k r f, m !! k = Some r /\ (i <= column \/ column <= k)%nat /\ (i < column -> k = i)%nat /\
         r !! column = Some f /\
         r' = zip_with (fun current pivot_value => current - f * pivot_value) r prow) /\
    (forall k r, m !! k = Some r -> k <> pivot -> exists i f, i <> column /\
       m' !! i = Some (zip_with (fun current pivot_value => current - f * pivot_value) r prow)).
Proof.
  intros Hwf H. pose proof Hwf as [Hlen Hrows].
  destruct (eliminate_inv _ _ _ _ Hwf H) as (pivot & old & crow & d & prow & Hpv & Ho & Hc & Hd & Hd0 & -> & Hl & Hr).
  exists pivot, old, d. cbn zeta. set (prow := scaled_row d old) in *.
  set (sw := <[column := prow]> (<[pivot := crow]> (<[column := old]> m))) in *.
  assert (Hcl : (column < length m)%nat) by lia.
  assert (Hsw : forall i, sw !! i = if Nat.eqb i column then Some prow
                           else if Nat.eqb i pivot then Some crow else m !! i).
  { intros i. unfold sw. destruct (Nat.eqb_spec i column) as [->|H1].
    - apply list_lookup_insert_eq. rewrite !length_insert. lia.
    - rewrite list_lookup_insert_ne by done. destruct (Nat.eqb_spec i pivot) as [->|H2].
      + apply list_lookup_insert_eq. rewrite length_insert. lia.
      + by rewrite !list_lookup_insert_ne by done. }
  assert (Hsome : forall i, (i < size)%nat -> exists r', m' !! i = Some r').
  { intros i Hi. apply lookup_lt_is_Some_2. lia. }
  split_and!; [lia|lia|done|done|done|lia| | |].
  - destruct (Hsome column ltac:(lia)) as [r' Hr']. destruct (Hr _ _ Hr') as (r & Hri & Haf).
    rewrite Hsw, Nat.eqb_refl in Hri. unfold row_after in Haf.
    rewrite Nat.eqb_refl, andb_false_r in Haf. congruence.
  - intros i r' Hi Hne. destruct (Hr _ _ Hi) as (r & Hri & Haf). rewrite Hsw in Hri.
    assert (Hil : (i < size)%nat) by (apply lookup_lt_Some in Hi; lia).
    unfold row_after in Haf. rewrite (proj2 (Nat.ltb_lt i size) Hil) in Haf.
    rewrite (proj2 (Nat.eqb_neq i column) Hne) in Haf, Hri. simpl in Haf.
    destruct Haf as (f & Hf & _ & ->).
    destruct (Nat.eqb_spec i pivot) as [->|Hnp].
    + injection Hri as <-. exists column, crow, f. split_and!; [done|lia|lia|done|done].
    + exists i, r, f. split_and!; [done|lia|lia|done|done].
  - intros k r Hk Hkp.
    assert (Hkl : (k < size)%nat) by (apply lookup_lt_Some in Hk; lia).
    set (i := if Nat.eqb k column then pivot else k).
    assert (Hic : i <> column /\ (i < size)%nat /\ sw !! i = Some r).
    { rewrite Hsw. unfold i. destruct (Nat.eqb_spec k column) as [->|Hkc].
      - rewrite (proj2 (Nat.eqb_neq pivot column)) by congruence. rewrite Nat.eqb_refl.
        split_and!; [congruence|lia|congruence].
      - rewrite (proj2 (Nat.eqb_neq k column) Hkc), (proj2 (Nat.eqb_neq k pivot) Hkp). by split_and!. }
    destruct Hic as (Hic & Hil & Hswi). destruct (Hsome i Hil) as [r' Hr'].
    destruct (Hr _ _ Hr') as (r0 & Hr0 & Haf). assert (r0 = r) as -> by congruence.
    unfold row_after in Haf. rewrite (proj2 (Nat.ltb_lt i size) Hil), (proj2 (Nat.eqb_neq i column) Hic) in Haf.
    destruct Haf as (f & _ & _ & ->). by exists i, f.
Qed.

Lemma lookup_scaled d row j : scaled_row d row !! j = (fun v => v / d) <$> row !! j.
Proof. apply list_lookup_fmap. Qed.
Lemma scaled_length d row : length (scaled_row d row) = length row.
Proof. apply length_map. Qed.

Lemma step_wf size column m m' : wf size m -> eliminate size column m = Ok m' -> wf size m'.
Proof.
  intros Hwf H. pose proof Hwf as [Hlen Hrows].
  destruct (step_rows _ _ _ _ Hwf H) as (pivot & old & d & _ & Ho & _ & _ & Hl & Hc & Hr & _).
  assert (Hol : length old = S size) by (eapply Hrows, list_elem_of_lookup_2, Ho).
  split; [done|]. intros r' Hin. apply list_elem_of_lookup in Hin as [i Hi].
  destruct (decide (i = column)) as [->|Hne].
  - assert (r' = scaled_row d old) as -> by congruence. by rewrite scaled_length.
  - destruct (Hr _ _ Hi Hne) as (k & r & f & Hk & _ & _ & _ & ->).
    rewrite length_zip_with, scaled_length, Hol, (Hrows r) by (by eapply list_elem_of_lookup_2). lia.
Qed.

(** The step keeps the solutions. *)
Lemma step_solutions size column m m' x :
  wf size m -> eliminate size column m = Ok m' -> (all_solve x m' <-> all_solve x m).
Proof.
  intros Hwf H. pose proof Hwf as [Hlen Hrows].
  destruct (step_rows _ _ _ _ Hwf H) as (pivot & old & d & Hpv & Ho & Hd & Hd0 & Hl & Hc & Hr & Hback).
  assert (Hlens : forall k r, m !! k = Some r -> length r = length (scaled_row d old)).
  { intros k r Hk. rewrite scaled_length, (Hrows r), (Hrows old); [done|by eapply list_elem_of_lookup_2..]. }
  unfold all_solve. split; intros Hall r Hin.
  - assert (Hp : solves x (scaled_row d old)) by (apply Hall; by eapply list_elem_of_lookup_2).
    apply list_elem_of_lookup in Hin as [k Hk]. destruct (decide (k = pivot)) as [->|Hne].
    + assert (r = old) as -> by congruence. by apply solves_scaled in Hp.
    + destruct (Hback _ _ Hk Hne) as (i & f & _ & Hi).
      apply (solves_sub f r (scaled_row d old)); [by eapply Hlens|done|].
      apply Hall. by eapply list_elem_of_lookup_2.
  - assert (Hp : solves x (scaled_row d old)).
    { apply solves_scaled; [done|]. apply Hall. by eapply list_elem_of_lookup_2. }
    apply list_elem_of_lookup in Hin as [i Hi]. destruct (decide (i = column)) as [->|Hne].
    + by assert (r = scaled_row d old) as -> by congruence.
    + destruct (Hr _ _ Hi Hne) as (k & r0 & f & Hk & _ & _ & _ & ->).
      apply solves_sub; [by eapply Hlens|done|]. apply Hall. by eapply list_elem_of_lookup_2.
Qed.

(** The step makes its column a unit column and keeps the earlier ones. *)
Lemma step_columns size column m m' :
  wf size m -> eliminate size column m = Ok m' -> (column < size)%nat ->
  (forall j, (j < column)%nat -> unit_column j m) ->
  forall j, (j < S column)%nat -> unit_column j m'.
Proof.
  intros Hwf H Hcs Hu j Hj i r' Hi. pose proof Hwf as [Hlen Hrows].
  destruct (step_rows _ _ _ _ Hwf H) as (pivot & old & d & Hpv & Ho & Hd & Hd0 & Hl & Hc & Hr & _).
  assert (Hpj : scaled_row d old !! j = Some (if Nat.eqb column j then 1 else 0)).
  { rewrite lookup_scaled. destruct (Nat.eqb_spec column j) as [<-|Hne].
    - rewrite Hd. simpl. f_equal. field. done.
    - rewrite (Hu j ltac:(lia) _ _ Ho), (proj2 (Nat.eqb_neq pivot j)) by lia. simpl. f_equal. field. done. }
  destruct (decide (i = column)) as [->|Hne].
  { assert (r' = scaled_row d old) as -> by congruence. done. }
  destruct (Hr _ _ Hi Hne) as (k & r & f & Hk & Hik & Hki & Hf & ->).
  rewrite lookup_zip_with, Hpj. destruct (Nat.eqb_spec column j) as [<-|Hcj].
  - rewrite Hf. simpl. rewrite (proj2 (Nat.eqb_neq i column) Hne). f_equal. ring.
  - rewrite (Hu j ltac:(lia) _ _ Hk). simpl. f_equal.
    assert (E : Nat.eqb k j = Nat.eqb i j).
    { destruct (decide (i < column)%nat); [by rewrite Hki|].
      rewrite !(proj2 (Nat.eqb_neq _ j)) by lia. done. }
    rewrite E. ring.
Qed.

Lemma steps_invariant size n m m' :
  wf size m -> (n <= size)%nat ->
  res_fold (fun m c => eliminate size c m) m (seq 0 n) = Ok m' ->
  wf size m' /\ (forall x, all_solve x m' <-> all_solve x m) /\ forall j, (j < n)%nat -> unit_column j m'.
Proof.
  intros Hwf. revert m'. induction n as [|n IH]; intros m' Hn H.
  - injection H as <-. split_and!; [done|done|lia].
  - rewrite seq_S, res_fold_app in H. destruct (res_fold _ m (seq 0 n)) as [m1|] eqn:E1; [|done].
    destruct (IH m1 ltac:(lia) eq_refl) as (Hwf1 & Hsol1 & Hu1). cbn [res_fold] in H.
    destruct (eliminate size (0 + n) m1) as [m2|] eqn:E2; [|done]. injection H as <-.
    simpl in E2. split_and!; [by eapply step_wf| |].
    + intros x. rewrite (step_solutions size n m1 m2 x Hwf1 E2). apply Hsol1.
    + apply (step_columns size n m1 m2 Hwf1 E2); [lia|done].
Qed.

(** ** The solution *)

Lemma dot_unit r y i :
  (forall j, (j < length y)%nat -> r !! j = Some (if Nat.eqb i j then 1 else 0)) ->
  dot r y = default 0 (y !! i).
Proof.
  revert r i; induction y as [|b y IH]; intros r i Hr.
  - by destruct r.
  - destruct r as [|a r]; [specialize (Hr 0%nat ltac:(simpl; lia)); done|].
    pose proof (Hr 0%nat ltac:(simpl; lia)) as H0. simpl in H0. injection H0 as ->. simpl.
    destruct i as [|i]; simpl.
    + assert (Hz : dot r y = default 0 (y !! length y)).
      { apply IH. intros j Hj. specialize (Hr (S j) ltac:(simpl; lia)). simpl in Hr.
        rewrite Hr. by rewrite (proj2 (Nat.eqb_neq _ _)) by lia. }
      rewrite Hz, (lookup_ge_None_2 y (length y)) by lia. simpl. ring.
    + rewrite (IH r i); [ring|]. intros j Hj. exact (Hr (S j) ltac:(simpl; lia)).
Qed.

Lemma augment_spec (A : list (list Qc)) b m : augment A b = Ok m ->
  length m = length A /\
  forall i (r : list Qc), m !! i = Some r -> exists (row : list Qc) bi, A !! i = Some row /\ b !! i = Some bi /\ r = row ++ [bi].
Proof.
  unfold augment. intros H. split.
  - apply res_map_length in H. rewrite H. unfold indexed. rewrite length_combine, length_seq. lia.
  - intros i r Hi. apply res_map_Forall2 in H.
    destruct (Forall2_lookup_r _ _ _ _ _ H Hi) as ([j row] & Hj & Hf).
    rewrite indexed_lookup in Hj. destruct (A !! i) as [row'|]; [|done]. injection Hj as <- ->.
    simpl in Hf. destruct (cell b i) as [bi|] eqn:Eb; [|done]. apply cell_ok in Eb.
    injection Hf as <-. eauto.
Qed.
Lemma dot_snoc row c y : length row = length y -> dot (row ++ [c]) y = dot row y.
Proof. revert y; induction row as [|a row IH]; intros [|b y] Hl; try done. simpl. by rewrite IH by (simpl in Hl; lia). Qed.

(** The augmented matrix is well formed, and solves what the system solves. *)
Lemma augment_wf (A : list (list Qc)) (b : list Qc) m : length A = length b ->
  (forall row, row ∈ A -> length row = length b) -> augment A b = Ok m -> wf (length b) m.
Proof.
  intros HA Hrows Ea. destruct (augment_spec _ _ _ Ea) as [Hml Hm]. split; [lia|].
  intros r Hr. apply list_elem_of_lookup in Hr as [i Hi].
  destruct (Hm _ _ Hi) as (row & bi & Hrow & _ & ->). rewrite length_app. simpl.
  rewrite (Hrows row) by (by eapply list_elem_of_lookup_2). lia.
Qed.
Lemma augment_solutions (A : list (list Qc)) (b y : list Qc) m : length A = length b ->
  (forall row, row ∈ A -> length row = length b) -> length y = length b -> augment A b = Ok m ->
  (all_solve y m <-> forall i (row : list Qc) bi, A !! i = Some row -> b !! i = Some bi -> dot row y = bi).
Proof.
  intros HA Hrows Hy Ea. destruct (augment_spec _ _ _ Ea) as [Hml Hm]. unfold all_solve, solves. split.
  - intros Hall i row bi Hrow Hbi.
    destruct (lookup_lt_is_Some_2 m i) as [r Hr]; [apply lookup_lt_Some in Hrow; lia|].
    destruct (Hm _ _ Hr) as (row' & bi' & Hrow' & Hbi' & ->). simplify_eq.
    specialize (Hall _ (list_elem_of_lookup_2 _ _ _ Hr)). unfold rhs in Hall.
    rewrite last_snoc, dot_snoc in Hall; [done|].
    rewrite Hy. apply Hrows. by eapply list_elem_of_lookup_2.
  - intros Hall r Hr. apply list_elem_of_lookup in Hr as [i Hi].
    destruct (Hm _ _ Hi) as (row & bi & Hrow & Hbi & ->). unfold rhs. rewrite last_snoc, dot_snoc.
    + by apply (Hall i).
    + rewrite Hy. apply Hrows. by eapply list_elem_of_lookup_2.
Qed.
(** A table whose columns are unit columns has one solution: its right-hand sides. *)
Lemma unit_table_solution (n : nat) (m : list (list Qc)) (x y : list Qc) :
  length m = n -> length x = n -> length y = n -> (forall j, (j < n)%nat -> unit_column j m) ->
  (forall i, (i < n)%nat -> exists r, m !! i = Some r /\ x !! i = Some (rhs r)) ->
  (y = x <-> all_solve y m).
Proof.
  intros Hm Hxl Hy Hunit Hx. split.
  - intros -> r Hr. apply list_elem_of_lookup in Hr as [i Hi].
    assert (Hil : (i < n)%nat) by (apply lookup_lt_Some in Hi; lia).
    destruct (Hx i Hil) as (r0 & Hr0 & Hxi). assert (r0 = r) as -> by congruence.
    unfold solves. rewrite (dot_unit r x i), Hxi; [done|].
    intros j Hj. apply Hunit; [lia|done].
  - intros Hall. apply list_eq. intros i. destruct (decide (i < n)%nat) as [Hi|Hi].
    + destruct (Hx i Hi) as (r & Hri & Hxi).
      assert (Hs : solves y r) by (apply Hall; by eapply list_elem_of_lookup_2).
      unfold solves in Hs. rewrite (dot_unit r y i) in Hs.
      * destruct (lookup_lt_is_Some_2 y i ltac:(lia)) as [yi Hyi]. rewrite Hyi in *.
        simpl in Hs. by rewrite Hxi, Hs.
      * intros j Hj. apply Hunit; [lia|done].
    + by rewrite (lookup_ge_None_2 y i), (lookup_ge_None_2 x i) by lia.
Qed.

(** C29: over exact arithmetic, when [_solve] returns, its answer is the solution of
    the square system, and the only one: the pivoting, the scaling and the
    eliminations change neither the solutions nor their number. *)
Theorem solve_correct (A : list (list Qc)) (b x : list Qc) :
  length A = length b -> (forall row, row ∈ A -> length row = length b) ->
  _solve A b = Ok x ->
  forall y, length y = length b ->
    (y = x <-> forall i (row : list Qc) bi, A !! i = Some row -> b !! i = Some bi -> dot row y = bi).
Proof.
  intros HA Hrows H y Hy. unfold _solve in H.
  destruct (augment A b) as [m|] eqn:Ea; [|done].
  destruct (res_fold _ m (seq 0 (length b))) as [m'|] eqn:Em; [|done].
  destruct (steps_invariant _ _ _ _ (augment_wf _ _ _ HA Hrows Ea) (le_n _) Em) as ([Hl' Hr'] & Hsol & Hunit).
  apply res_map_Forall2 in H.
  transitivity (all_solve y m'); [|rewrite Hsol; by apply augment_solutions].
  apply (unit_table_solution (length b)); try done.
  - apply Forall2_length in H. by rewrite length_seq in H.
  - intros i Hi. assert (Hs : seq 0 (length b) !! i = Some i) by (by apply lookup_seq_lt).
    destruct (Forall2_lookup_l _ _ _ _ _ H Hs) as (xi & Hxi & Hf).
    destruct (row_at m' i) as [r|] eqn:Er; [|done]. apply row_at_ok in Er.
    destruct (last r) as [lr|] eqn:El; [|done]. injection Hf as <-. exists r. split; [done|].
    unfold rhs. by rewrite El.
Qed.

Definition qc (z : Z) : Qc := Q2Qc (inject_Z z).
Lemma solve_correct_witness :
  exists x, _solve [[qc 1; qc 2]; [qc 3; qc (-1)]] [qc 5; qc 1] = Ok x /\
    forall i (row : list Qc) bi, [[qc 1; qc 2]; [qc 3; qc (-1)]] !! i = Some row -> [qc 5; qc 1] !! i = Some bi -> dot row x = bi.
Proof.
  exists [qc 1; qc 2].
  assert (Hs : _solve [[qc 1; qc 2]; [qc 3; qc (-1)]] [qc 5; qc 1] = Ok [qc 1; qc 2]).
  { assert (He : match _solve [[qc 1; qc 2]; [qc 3; qc (-1)]] [qc 5; qc 1] with
                 | Ok [a; b] => Qc_eq_bool a (qc 1) && Qc_eq_bool b (qc 2) | _ => false end = true)
      by (vm_compute; reflexivity).
    destruct (_solve [[qc 1; qc 2]; [qc 3; qc (-1)]] [qc 5; qc 1]) as [[|a [|c [|? ?]]]|]; try discriminate He.
    apply andb_prop in He as [Ha Hc]. apply Qc_eq_bool_correct in Ha, Hc. by subst. }
  split; [exact Hs|].
  apply (solve_correct [[qc 1; qc 2]; [qc 3; qc (-1)]] [qc 5; qc 1] [qc 1; qc 2]); try done.
  intros row Hin. rewrite !elem_of_cons, elem_of_nil in Hin. by destruct Hin as [->|[->|[]]].
Defined.
