(* ===== verification/Predictor.v ===== *)
(** * The TTFT predictor (planner/ttft_predictor.py)

    A linear model of time to first token is fitted from journaled outcomes by ridge
    regression, its slopes and intercept clamped at zero. *)

From S2P Require Import Prelude PyFloat FloatOrder FloatRound PyStr PyVal Digest WindowMetrics Journal Percentile Solve.

Definition SCHEMA_VERSION : string := "kavora-ttft-predictor/v1".
Definition FEATURE_NAMES : list string :=
  ["intercept_ms"; "uncached_token_ms"; "cached_token_ms"; "queue_penalty_ms"; "kv_pressure_penalty_ms"].
Definition width : nat := 5.   (* len(FEATURE_NAMES) *)

(** ** Fitting *)

Definition bump {T} (l : list T) (j : nat) (f : T -> T) : res (list T) :=
  x <-! cell l j ;; Ok (<[j := f x]> l).

(** One sample added to the normal equations. *)
Definition accumulate (acc : list (list float) * list float) (sample : list float * float)
  : res (list (list float) * list float) :=
  let '(row, target) := sample in
  res_fold (fun acc left =>
    let '(matrix, vector) := acc in
    x <-! cell row left ;;
    vector <-! bump vector left (fun v => v ⊕ x ⊗ target) ;;
    mrow <-! row_at matrix left ;;
    mrow <-! res_fold (fun mrow right => y <-! cell row right ;; bump mrow right (fun v => v ⊕ x ⊗ y))
               mrow (seq 0 width) ;;
    Ok (<[left := mrow]> matrix, vector)) acc (seq 0 width).

Definition add_ridge (ridge : float) (matrix : list (list float)) : res (list (list float)) :=
  res_fold (fun matrix index =>
    mrow <-! row_at matrix index ;;
    mrow <-! bump mrow index (fun v => v ⊕ ridge) ;;
    Ok (<[index := mrow]> matrix)) matrix (seq 1 (width - 1)).

(** [sum(a * b for a, b in zip(row, weights, strict=True))] *)
Definition weighted (row weights : list float) : res float :=
  pairs <-! zip_strict row weights ;; Ok (fsum (map (fun p : float * float => p.1 ⊗ p.2) pairs)).

Definition _fit (features : list (list float)) (targets : list float) (ridge : float) : res (list float) :=
  samples <-! zip_strict features targets ;;
  ' (matrix, vector) <-! res_fold accumulate (repeat (repeat f0 width) width, repeat f0 width) samples ;;
  matrix <-! add_ridge ridge matrix ;;
  coefficients <-! _solve matrix vector ;;
  let slopes := map (fmax f0) (drop 1 coefficients) in
  residuals <-! res_map (fun s : list float * float =>
    w <-! weighted (drop 1 s.1) slopes ;; Ok (s.2 ⊖ w)) samples ;;
  n <-! float_of_int (zlen targets) ;;
  average <-! fdiv (fsum residuals) n ;;
  Ok (fmax f0 average :: slopes).

Definition _predict (row coefficients : list float) : res float :=
  w <-! weighted row coefficients ;; Ok (fmax f0 w).

(** ** Samples *)

Record Dimensions := {
  dim_model : string;
  dim_gpu_type : string;
  dim_backend_engine : string;
  dim_backend_version : string
}.

Inductive sample : Type :=
| MissingDecision | Unsuccessful | DimensionMismatch | MissingObservedCache | Invalid
| Used (row : list float) (target : float).

Section samples.
Context (dims : Dimensions).

Definition dimension_mismatch (outcome : dict) : bool :=
  negb (is_vstr (dgetv outcome "model") (dim_model dims))
  || negb (is_vstr (dgetv outcome "gpu_type") (dim_gpu_type dims))
  || negb (is_vstr (dgetv outcome "backend_engine") (dim_backend_engine dims))
  || negb (is_vstr (dgetv outcome "backend_version") (dim_backend_version dims)).

(** [except (TypeError, ValueError)] *)
Definition caught (e : exn) : bool :=
  match e with TypeError | ValueError _ => true | _ => false end.

(** The five conversions of the [try] block. *)
Definition coerced (outcome candidate : dict) (matched : val) : res (Z * Z * float * float * float) :=
  prompt_tokens <-! int_of_val (dget_or outcome "prompt_tokens" (VInt 0)) ;;
  matched_tokens <-! int_of_val matched ;;
  ttft_ms <-! float_of_val (dget_or outcome "ttft_ms" (VInt 0)) ;;
  queue_depth <-! float_of_val (dget_or candidate "queue_depth" (VInt 0)) ;;
  kv_pressure <-! float_of_val (dget_or candidate "kv_pressure" (VInt 0)) ;;
  Ok (prompt_tokens, matched_tokens, ttft_ms, queue_depth, kv_pressure).

Definition not_finite (x : res float) : res bool := f <-! x ;; Ok (negb (isfinite f)).

(** The body of the loop over the outcomes. *)
Definition classify (decisions : list (val * dict)) (outcome : dict) : res sample :=
  decision <-! kget decisions (dgetv outcome "request_id") ;;
  match decision with
  | None => Ok MissingDecision
  | Some decision =>
      if negb (truthy (dget_or outcome "success" (VBool false))) then Ok Unsuccessful
      else if dimension_mismatch outcome then Ok DimensionMismatch
      else
        match dgetv outcome "observed_matched_tokens" with
        | VNone => Ok MissingObservedCache
        | matched =>
            candidate <-! _candidate decision (py_str (dget_or outcome "actual_backend" (VStr ""))) ;;
            match coerced outcome (default [] candidate) matched with
            | Err e => if caught e then Ok Invalid else Err e
            | Ok (prompt_tokens, matched_tokens, ttft_ms, queue_depth, kv_pressure) =>
                if match candidate with None => true | Some _ => false end
                   || (prompt_tokens <=? 0) || (matched_tokens <? 0) || (prompt_tokens <? matched_tokens)
                   || (ttft_ms <=?. f0)
                then Ok Invalid
                else
                  infinite <-! res_existsb not_finite
                    [float_of_int prompt_tokens; float_of_int matched_tokens; Ok ttft_ms; Ok queue_depth;
                     Ok kv_pressure] ;;
                  if infinite : bool then Ok Invalid
                  else
                    uncached <-! float_of_int (prompt_tokens - matched_tokens) ;;
                    cached <-! float_of_int matched_tokens ;;
                    Ok (Used [f1; uncached; cached; queue_depth; kv_pressure] ttft_ms)
            end
        end
  end.

Definition used_of (s : sample) : option (list float * float) :=
  match s with Used row target => Some (row, target) | _ => None end.

(** ** The artifact *)

Record artifact := {
  a_predictor_version : string;
  a_dimensions : Dimensions;
  a_coefficients : list float;         (* in the order of FEATURE_NAMES *)
  a_slo_scale_ms : float;
  a_mae_ms : float;
  a_p95_absolute_error_ms : float;
  a_samples : Z;
  a_decisions : Z;
  a_outcomes : Z;
  a_skipped_missing_decision : Z;
  a_skipped_missing_observed_cache : Z;
  a_skipped_unsuccessful : Z;
  a_skipped_dimension_mismatch : Z;
  a_skipped_invalid : Z
}.

(** The text whose hash is the predictor's version. *)
Definition version_payload (coefficients : list float) (n : Z) : string :=
  join ":" (map (fmt_g 12) coefficients) +:+ ":" +:+ str_of_Z n +:+ ":" +:+ dim_model dims +:+ ":" +:+
  dim_gpu_type dims +:+ ":" +:+ dim_backend_engine dims +:+ ":" +:+ dim_backend_version dims.
Definition predictor_version (coefficients : list float) (n : Z) : string :=
  "fitted-" +:+ str (take 12 (chars (sha256_hex (utf8 (version_payload coefficients n))))).

Definition absolute_errors (targets predictions : list float) : res (list float) :=
  pairs <-! zip_strict targets predictions ;; Ok (map (fun p : float * float => fabs (p.1 ⊖ p.2)) pairs).

Definition fit_from_journal (json_loads : string -> res val) (decision_files outcome_files : list (string * string))
  (ridge : float) : res artifact :=
  decision_rows <-! _read_jsonl json_loads decision_files ;;
  decisions <-! by_request_id (fun row => truthy (dgetv row "request_id")) decision_rows ;;
  outcomes <-! _read_jsonl json_loads outcome_files ;;
  samples <-! res_map (classify decisions) outcomes ;;
  let used := omap used_of samples in
  let features := map fst used in
  let targets := map snd used in
  raise_if (length features <? width)%nat with ValueError "at least 5 outcome-grounded samples are required" ;;
  coefficients <-! _fit features targets ridge ;;
  predictions <-! res_map (fun row => _predict row coefficients) features ;;
  errors <-! absolute_errors targets predictions ;;
  n <-! float_of_int (zlen errors) ;;
  mae <-! fdiv (fsum errors) n ;;
  p95 <-! Planner._percentile errors (dec 95 (-2)) ;;
  Ok {| a_predictor_version := predictor_version coefficients (zlen features);
        a_dimensions := dims;
        a_coefficients := coefficients;
        a_slo_scale_ms := of_Z 25;
        a_mae_ms := mae;
        a_p95_absolute_error_ms := p95;
        a_samples := zlen features;
        a_decisions := zlen decisions;
        a_outcomes := zlen outcomes;
        a_skipped_missing_decision := zcount (fun s => match s with MissingDecision => true | _ => false end) samples;
        a_skipped_missing_observed_cache := zcount (fun s => match s with MissingObservedCache => true | _ => false end) samples;
        a_skipped_unsuccessful := zcount (fun s => match s with Unsuccessful => true | _ => false end) samples;
        a_skipped_dimension_mismatch := zcount (fun s => match s with DimensionMismatch => true | _ => false end) samples;
        a_skipped_invalid := zcount (fun s => match s with Invalid => true | _ => false end) samples |}.
End samples.

(** ** Properties *)

(** A table of width-by-width numbers, and the sums of products that fill it, taken in
    the order of the samples. *)
Definition table {T} (M : nat -> nat -> T) : list (list T) :=
  map (fun i => map (M i) (seq 0 width)) (seq 0 width).
Definition feature (s : list float * float) (i : nat) : float := nth i s.1 f0.
Definition moment (samples : list (list float * float)) (i j : nat) : float :=
  foldl (fun v s => v ⊕ feature s i ⊗ feature s j) f0 samples.
Definition target_moment (samples : list (list float * float)) (i : nat) : float :=
  foldl (fun v s => v ⊕ feature s i ⊗ s.2) f0 samples.

Lemma accumulate_table (M : nat -> nat -> float) V row target : length row = width ->
  accumulate (table M, map V (seq 0 width)) (row, target) =
  Ok (table (fun i j => M i j ⊕ feature (row, target) i ⊗ feature (row, target) j),
      map (fun i => V i ⊕ feature (row, target) i ⊗ target) (seq 0 width)).
Proof.
  intros H. unfold feature. do 5 (destruct row as [|? row]; [discriminate H|]). destruct row; [|discriminate H].
  reflexivity.
Qed.

Lemma accumulate_samples (M : nat -> nat -> float) V samples :
  Forall (fun s : list float * float => length s.1 = width) samples ->
  res_fold accumulate (table M, map V (seq 0 width)) samples =
  Ok (table (fun i j => foldl (fun v s => v ⊕ feature s i ⊗ feature s j) (M i j) samples),
      map (fun i => foldl (fun v s => v ⊕ feature s i ⊗ s.2) (V i) samples) (seq 0 width)).
Proof.
  revert M V. induction samples as [|[row target] samples IH]; intros M V; [done|].
  intros [Hr Hs]%Forall_cons. cbn [res_fold]. rewrite accumulate_table by done. by rewrite IH.
Qed.

(** The normal equations.  The matrix and the vector that [_fit] solves hold the
    sums over all samples, in journal order, of the products of two features, and of
    a feature and the target. *)
Theorem normal_equations samples : Forall (fun s : list float * float => length s.1 = width) samples ->
  res_fold accumulate (repeat (repeat f0 width) width, repeat f0 width) samples =
  Ok (table (moment samples), map (target_moment samples) (seq 0 width)).
Proof. intros H. apply (accumulate_samples (fun _ _ => f0) (fun _ => f0) samples H). Qed.

Lemma normal_equations_witness :
  let samples := [([f1; dec 3 0; f0; f0; f1], dec 7 0); ([f1; dec 2 0; f1; f0; f0], dec 5 0)] in
  Forall (fun s : list float * float => length s.1 = width) samples /\
  exists m, res_fold accumulate (repeat (repeat f0 width) width, repeat f0 width) samples = Ok (table m, map (target_moment samples) (seq 0 width)).
Proof.
  cbv zeta. assert (H : Forall (fun s : list float * float => length s.1 = width)
    [([f1; dec 3 0; f0; f0; f1], dec 7 0); ([f1; dec 2 0; f1; f0; f0], dec 5 0)]) by (repeat constructor).
  split; [exact H|]. eexists. apply (normal_equations _ H).
Defined.

(** ** Fitting never fails on anything but a singular system *)

Definition nonneg (x : float) : Prop := fleb f0 x = true.
Lemma nonneg_fmax x : nonneg (fmax f0 x).
Proof. by apply fmax_ge_l. Qed.

Lemma ridge_table ridge (M : nat -> nat -> float) : exists A,
  add_ridge ridge (table M) = Ok A /\ length A = width /\ (forall r, r ∈ A -> length r = width).
Proof.
  eexists. split; [reflexivity|]. split; [reflexivity|].
  intros r Hr. repeat (apply elem_of_cons in Hr as [->|Hr]; [reflexivity|]). by apply elem_of_nil in Hr.
Qed.

Lemma weighted_ok row weights : length row = length weights -> exists w, weighted row weights = Ok w.
Proof. intros H. unfold weighted, zip_strict. rewrite H, Nat.eqb_refl. eauto. Qed.

Lemma float_of_len {A} (l : list A) : l <> [] -> zlen l <= 2 ^ 53 ->
  exists n, float_of_int (zlen l) = Ok n /\ is_zero n = false.
Proof.
  intros Hne Hs. assert (1 <= zlen l) by (destruct l; [done|unfold zlen; simpl; lia]).
  assert (Hb : zlen l <= 2 ^ 1000) by (apply Z.le_trans with (2 ^ 53); [done|by apply Z.pow_le_mono_r]).
  pose proof (float_of_int_ok (zlen l) ltac:(lia)) as Hok.
  pose proof (of_Z_ge1 (zlen l) ltac:(lia)) as H1. unfold float_of_int in *.
  exists (of_Z (zlen l)). destruct (of_Z (zlen l)); [done..|]. done.
Qed.
Lemma fdiv_nonzero x n : is_zero n = false -> exists q, fdiv x n = Ok q.
Proof. unfold fdiv. intros ->. eauto. Qed.

Lemma fit_total features targets ridge : features <> [] -> length features = length targets ->
  zlen targets <= 2 ^ 53 -> Forall (fun row => length row = width) features ->
  _fit features targets ridge = Err singular \/
  exists coefficients, _fit features targets ridge = Ok coefficients /\
    length coefficients = width /\ Forall nonneg coefficients.
Proof.
  intros Hne Hl Hs Hw. unfold _fit, zip_strict. rewrite Hl, Nat.eqb_refl.
  assert (Hrows : Forall (fun s : list float * float => length s.1 = width) (combine features targets)).
  { apply Forall_forall. intros [row t] Hin. apply list_elem_of_In, in_combine_l, list_elem_of_In in Hin.
    by eapply Forall_forall in Hw. }
  change (repeat (repeat f0 width) width, repeat f0 width)
    with (table (fun _ _ => f0), map (fun _ : nat => f0) (seq 0 width)).
  rewrite accumulate_samples by done. destruct (ridge_table ridge
    (fun i j => foldl (fun v s => v ⊕ feature s i ⊗ feature s j) f0 (combine features targets)))
    as (A & -> & HA & HAr).
  set (b := map _ (seq 0 width)). assert (Hb : length b = width) by (unfold b; by rewrite length_map).
  destruct (solve_total float_div_ok A b) as [->|(x & -> & Hx)]; [congruence|by intros; rewrite Hb; apply HAr|by left|right].
  destruct (res_map_total (fun s : list float * float =>
    w <-! weighted (drop 1 s.1) (map (fmax f0) (drop 1 x)) ;; Ok (s.2 ⊖ w)) (combine features targets)) as [rs ->].
  { intros s Hin. eapply Forall_forall in Hrows; [|exact Hin].
    destruct (weighted_ok (drop 1 s.1) (map (fmax f0) (drop 1 x))) as [w ->]; [|done].
    rewrite length_map, !length_drop. lia. }
  destruct (float_of_len targets) as (n & -> & Hn); [by destruct features, targets|done|].
  destruct (fdiv_nonzero (fsum rs) n Hn) as [q ->]. eexists. split; [reflexivity|]. split.
  - simpl. rewrite length_map, length_drop, Hx, Hb. reflexivity.
  - constructor; [apply nonneg_fmax|]. apply Forall_map, Forall_true. intros; apply nonneg_fmax.
Qed.

(** ** Samples *)

Lemma samples_partition l :
  zlen (omap used_of l)
  + zcount (fun s => match s with MissingDecision => true | _ => false end) l
  + zcount (fun s => match s with MissingObservedCache => true | _ => false end) l
  + zcount (fun s => match s with Unsuccessful => true | _ => false end) l
  + zcount (fun s => match s with DimensionMismatch => true | _ => false end) l
  + zcount (fun s => match s with Invalid => true | _ => false end) l = zlen l.
Proof.
  induction l as [|s l IH]; [done|]. rewrite !zcount_cons, zlen_cons.
  destruct s; rewrite <- IH; cbn [omap list_omap used_of]; rewrite ?zlen_cons; lia.
Qed.

Lemma not_finite_cons x l : res_existsb not_finite (x :: l) = Ok false ->
  (exists f, x = Ok f /\ isfinite f = true) /\ res_existsb not_finite l = Ok false.
Proof.
  simpl. unfold not_finite at 1. destruct x as [f|]; [|done]. destruct (isfinite f) eqn:E; [|done].
  intros. split; [by exists f|done].
Qed.

(** What makes an outcome a training sample. *)
Record sound_sample (dims : Dimensions) (decisions : list (val * dict)) (outcome : dict)
  (row : list float) (target : float) : Prop := {
  ss_decision : exists decision, kfind decisions (dgetv outcome "request_id") = Some decision;
  ss_success : truthy (dget_or outcome "success" (VBool false)) = true;
  ss_model : is_vstr (dgetv outcome "model") (dim_model dims) = true;
  ss_gpu : is_vstr (dgetv outcome "gpu_type") (dim_gpu_type dims) = true;
  ss_engine : is_vstr (dgetv outcome "backend_engine") (dim_backend_engine dims) = true;
  ss_version : is_vstr (dgetv outcome "backend_version") (dim_backend_version dims) = true;
  ss_row : exists prompt matched uncached cached queue pressure,
    int_of_val (dget_or outcome "prompt_tokens" (VInt 0)) = Ok prompt /\
    int_of_val (dgetv outcome "observed_matched_tokens") = Ok matched /\
    0 < prompt /\ 0 <= matched <= prompt /\
    float_of_int (prompt - matched) = Ok uncached /\ float_of_int matched = Ok cached /\
    isfinite queue = true /\ isfinite pressure = true /\ row = [f1; uncached; cached; queue; pressure];
  ss_target : float_of_val (dget_or outcome "ttft_ms" (VInt 0)) = Ok target /\
    isfinite target = true /\ fltb f0 target = true
}.

(** An outcome that is used, as the fit read it. *)
Record reading (dims : Dimensions) (decisions : list (val * dict)) (outcome : dict) (row : list float) (target : float)
  (decision candidate : dict) (prompt matched : Z) (uncached cached queue pressure : float) : Prop := {
  rg_decision : kget decisions (dgetv outcome "request_id") = Ok (Some decision);
  rg_success : truthy (dget_or outcome "success" (VBool false)) = true;
  rg_dimensions : dimension_mismatch dims outcome = false;
  rg_candidate : _candidate decision (py_str (dget_or outcome "actual_backend" (VStr ""))) = Ok (Some candidate);
  rg_coerced : coerced outcome candidate (dgetv outcome "observed_matched_tokens") = Ok (prompt, matched, target, queue, pressure);
  rg_counts : 0 < prompt /\ 0 <= matched <= prompt;
  rg_target : isfinite target = true /\ fltb f0 target = true;
  rg_finite : isfinite queue = true /\ isfinite pressure = true;
  rg_tokens : float_of_int (prompt - matched) = Ok uncached /\ float_of_int matched = Ok cached;
  rg_row : row = [f1; uncached; cached; queue; pressure]
}.
Lemma classify_reading dims decisions outcome row target : classify dims decisions outcome = Ok (Used row target) ->
  exists decision candidate prompt matched uncached cached queue pressure,
    reading dims decisions outcome row target decision candidate prompt matched uncached cached queue pressure.
Proof.
  unfold classify. intros H. destruct (kget _ _) as [[decision|]|] eqn:Ek; try discriminate H.
  destruct (truthy _) eqn:Es; [|discriminate H]. cbn [negb] in H.
  destruct (dimension_mismatch _ _) eqn:Ed; [discriminate H|].
  assert (Hm : exists candidate, _candidate decision (py_str (dget_or outcome "actual_backend" (VStr ""))) = Ok candidate /\
    match coerced outcome (default [] candidate) (dgetv outcome "observed_matched_tokens") with
    | Err e => if caught e then Ok Invalid else Err e
    | Ok (p, m, ttft, q, kv) =>
        if match candidate with None => true | Some _ => false end || (p <=? 0) || (m <? 0) || (p <? m) || (ttft <=?. f0)
        then Ok Invalid
        else infinite <-! res_existsb not_finite [float_of_int p; float_of_int m; Ok ttft; Ok q; Ok kv] ;;
             if infinite : bool then Ok Invalid
             else uncached <-! float_of_int (p - m) ;; cached <-! float_of_int m ;;
                  Ok (Used [f1; uncached; cached; q; kv] ttft)
    end = Ok (Used row target)).
  { destruct (dgetv outcome "observed_matched_tokens"); [discriminate H|..];
      (destruct (_candidate decision _) as [c|]; [|discriminate H]; exists c; split; [reflexivity|exact H]). }
  clear H. destruct Hm as (candidate & Hc & H).
  destruct (coerced _ _ _) as [[[[[p m] ttft] q] kv]|e] eqn:Ec; [|destruct (caught e); discriminate H].
  destruct (_ || (ttft <=?. f0)) eqn:Eg; [discriminate H|]. bool_hyps.
  destruct candidate as [candidate|]; [|done].
  destruct (res_existsb not_finite _) as [[|]|] eqn:Ef; try discriminate H.
  apply not_finite_cons in Ef as [_ Ef]. apply not_finite_cons in Ef as [_ Ef].
  apply not_finite_cons in Ef as [(? & [= <-] & Hft) Ef]. apply not_finite_cons in Ef as [(? & [= <-] & Hfq) Ef].
  apply not_finite_cons in Ef as [(? & [= <-] & Hfkv) _].
  destruct (float_of_int (p - m)) as [uncached|] eqn:Eu; [|discriminate H].
  destruct (float_of_int m) as [cached|] eqn:Eca; [|discriminate H].
  injection H as <- <-. exists decision, candidate, p, m, uncached, cached, q, kv.
  constructor; try done; try lia. split; [done|].
  match goal with HH : fleb ttft f0 = false |- _ => apply fleb_false in HH; [done|by apply isfinite_not_nan|done] end.
Qed.
Lemma classify_used dims decisions outcome row target :
  classify dims decisions outcome = Ok (Used row target) -> sound_sample dims decisions outcome row target.
Proof.
  intros H%classify_reading. destruct H as (decision & candidate & p & m & u & c & q & kv & [Hd Hs Hdim _ Hc Hn [Hf Hp] Hfin [Hu Hca] ->]).
  unfold dimension_mismatch in Hdim. bool_hyps. unfold coerced in Hc. inv_ok Hc. simplify_eq. destruct Hn, Hfin.
  constructor; try done.
  - unfold kget in Hd. destruct (hashable _); [injection Hd as Hd; by exists decision|done].
  - exists p, m, u, c, q, kv. split_and!; try done; lia.
Qed.

Lemma sound_width dims decisions outcome row target :
  sound_sample dims decisions outcome row target -> length row = width.
Proof. intros [_ _ _ _ _ _ (? & ? & ? & ? & ? & ? & _ & _ & _ & _ & _ & _ & _ & _ & ->) _]. reflexivity. Qed.

Lemma used_sound dims decisions outcomes samples row target :
  res_map (classify dims decisions) outcomes = Ok samples -> (row, target) ∈ omap used_of samples ->
  exists outcome, outcome ∈ outcomes /\ sound_sample dims decisions outcome row target.
Proof.
  intros Hs Hin. apply list_elem_of_omap in Hin as (s & Hin & Hu).
  destruct s; try discriminate Hu. injection Hu as -> ->.
  apply res_map_Forall2 in Hs. apply list_elem_of_lookup in Hin as [i Hi].
  destruct (Forall2_lookup_r _ _ _ _ _ Hs Hi) as (outcome & Ho & Hc). apply classify_used in Hc.
  exists outcome. split; [by eapply list_elem_of_lookup_2|done].
Qed.
Lemma used_width dims decisions outcomes samples : res_map (classify dims decisions) outcomes = Ok samples ->
  Forall (fun row => length row = width) (map fst (omap used_of samples)).
Proof.
  intros Hs. apply Forall_map, Forall_forall. intros [row target] Hin.
  destruct (used_sound _ _ _ _ _ _ Hs Hin) as (outcome & _ & Hc). by eapply sound_width.
Qed.

(** The training set.  Every row the model is fitted on comes from a successful
    outcome of the requested model, GPU, engine and version whose decision is in the
    journal; its token counts split a positive prompt into its matched and unmatched
    part, and its features and its target are finite, the target positive. *)
Theorem training_set dims decisions outcomes samples :
  res_map (classify dims decisions) outcomes = Ok samples ->
  forall row target, (row, target) ∈ omap used_of samples ->
    length row = width /\ exists outcome, outcome ∈ outcomes /\ sound_sample dims decisions outcome row target.
Proof.
  intros Hs row target Hin. destruct (used_sound _ _ _ _ _ _ Hs Hin) as (outcome & Ho & Hc).
  split; [by eapply sound_width|by exists outcome].
Qed.

(** The artifact of a fit has its dimensions and a coefficient per feature: the features
    were predicted with them. *)
Lemma fit_shape dims json_loads decision_files outcome_files ridge a :
  fit_from_journal dims json_loads decision_files outcome_files ridge = Ok a ->
  a_dimensions a = dims /\ length (a_coefficients a) = width.
Proof.
  unfold fit_from_journal. intros H. do 3 (match type of H with context [match ?c with Ok _ => _ | Err _ => _ end] => destruct c; [|discriminate H] end).
  destruct (res_map (classify _ _) _) as [samples|] eqn:Es; [|discriminate H].
  pose proof (used_width _ _ _ _ Es) as Hw. destruct (_ <? width)%nat eqn:El; [discriminate H|].
  destruct (_fit _ _ _) as [cs|]; [|discriminate H]. destruct (res_map (fun row => _predict row cs) _) as [ps|] eqn:Ep; [|discriminate H].
  inv_ok H. subst a. cbn [a_dimensions a_coefficients]. split; [done|].
  destruct (map fst (omap used_of samples)) as [|row rows]; [done|]. apply Forall_inv in Hw.
  cbn [res_map] in Ep. unfold _predict at 1, weighted, zip_strict in Ep.
  destruct (Nat.eqb_spec (length row) (length cs)); [lia|discriminate Ep].
Qed.

(** C30: the fit.  Once the journals are read and every outcome is classified, with
    fewer than five samples [fit_from_journal] says so; otherwise it returns an
    artifact or says that the design matrix is singular, and nothing else.  The
    artifact's five coefficients are numbers, none negative; its samples and its
    skipped outcomes add up to all outcomes. *)
Theorem fit_from_journal_spec dims json_loads decision_files outcome_files ridge drows decisions outcomes samples :
  _read_jsonl json_loads decision_files = Ok drows ->
  by_request_id (fun row => truthy (dgetv row "request_id")) drows = Ok decisions ->
  _read_jsonl json_loads outcome_files = Ok outcomes ->
  res_map (classify dims decisions) outcomes = Ok samples ->
  zlen samples <= 2 ^ 53 ->
  let fit := fit_from_journal dims json_loads decision_files outcome_files ridge in
  let used := zlen (omap used_of samples) in
  (used < 5 -> fit = Err (ValueError "at least 5 outcome-grounded samples are required")) /\
  (5 <= used -> fit = Err singular \/
     exists a, fit = Ok a /\ length (a_coefficients a) = 5%nat /\ Forall nonneg (a_coefficients a) /\
       a_samples a = used /\ a_outcomes a = zlen outcomes /\
       a_samples a + a_skipped_missing_decision a + a_skipped_missing_observed_cache a
         + a_skipped_unsuccessful a + a_skipped_dimension_mismatch a + a_skipped_invalid a = a_outcomes a).
Proof.
  intros Hd Hk Ho Hs Hlen. cbv zeta. unfold fit_from_journal. rewrite Hd, Hk, Ho, Hs.
  pose proof (used_width _ _ _ _ Hs) as Hw. pose proof (samples_partition samples) as Hpart.
  pose proof (res_map_zlen _ _ _ Hs) as Hzs. set (used := omap used_of samples) in *. cbv zeta.
  rewrite length_map. split.
  { intros Hlt. destruct (Nat.ltb_spec (length used) width); [done|]. unfold zlen, width in *. lia. }
  intros Hge. destruct (Nat.ltb_spec (length used) width) as [Hlt|_]; [unfold zlen, width in *; lia|].
  assert (Hle : zlen used <= zlen samples) by (unfold zcount, zlen in *; lia).
  assert (Hne : used <> []) by (intros E; rewrite E in Hge; unfold zlen in Hge; simpl in Hge; lia).
  destruct (fit_total (map fst used) (map snd used) ridge) as [->|(cs & -> & Hcl & Hcn)];
    [by destruct used|by rewrite !length_map|rewrite zlen_map; lia|done|by left|right].
  destruct (res_map_total (fun row => _predict row cs) (map fst used)) as [ps Hps].
  { intros row Hin. eapply Forall_forall in Hw; [|exact Hin].
    destruct (weighted_ok row cs) as [w Hr]; [congruence|]. unfold _predict. by rewrite Hr. }
  rewrite Hps. apply res_map_length in Hps. rewrite length_map in Hps.
  unfold absolute_errors, zip_strict. rewrite length_map, Hps, Nat.eqb_refl.
  set (errors := map _ (combine (map snd used) ps)).
  assert (Hel : length errors = length used) by (unfold errors; rewrite length_map, length_combine, length_map; lia).
  assert (Hzl : zlen errors = zlen used) by (unfold zlen; lia).
  assert (Hee : errors <> []) by (intros E; rewrite E in Hel; destruct used; simpl in *; congruence).
  destruct (float_of_len errors) as (n & -> & Hn); [done|lia|].
  destruct (fdiv_nonzero (fsum errors) n Hn) as [q ->].
  pose proof (planner_ok errors (dec 95 (-2)) Hee ltac:(unfold short, zlen in *; lia) ltac:(by vm_compute)) as Hp.
  destruct (Planner._percentile errors (dec 95 (-2))) as [p95|]; [|done].
  eexists. split; [reflexivity|]. cbn. rewrite !zlen_map. split_and!; try done; lia.
Qed.

(** ** A journal of six requests *)

Definition demo_dims : Dimensions :=
  {| dim_model := "m"; dim_gpu_type := "L4"; dim_backend_engine := "vllm"; dim_backend_version := "0.9" |}.
Definition demo_decision (i : Z) : val := VDict
  [("request_id", VStr ("r" +:+ str_of_Z i));
   ("candidates", VList [VDict [("backend_id", VStr "b"); ("queue_depth", VInt (i * i));
                                ("kv_pressure", VFloat (of_Z (i mod 2)))]])]%string.
Definition demo_outcome (i : Z) : val := VDict
  [("request_id", VStr ("r" +:+ str_of_Z i)); ("actual_backend", VStr "b"); ("success", VBool (negb (i =? 5)%Z));
   ("model", VStr "m"); ("gpu_type", VStr "L4"); ("backend_engine", VStr "vllm"); ("backend_version", VStr "0.9");
   ("prompt_tokens", VInt (100 + 10 * i)); ("observed_matched_tokens", VInt (i * i * i)); ("ttft_ms", VInt (200 + i))]%string.
Definition demo_loads (line : string) : res val :=
  match chars line with
  | [k; c] => Ok (if Ascii.eqb k "d" then demo_decision (code c - 48) else demo_outcome (code c - 48))
  | _ => Err (ValueError "Expecting value")
  end.
Definition demo_files (k : string) : list (string * string) :=
  [("a.jsonl", join (str [chr 10]) (map (fun i => k +:+ str_of_Z i) [0; 1; 2]));
   ("b.jsonl", join (str [chr 10]) (map (fun i => k +:+ str_of_Z i) [3; 4; 5]))]%string.

Definition ok_or {A} (x : A) (r : res A) : A := match r with Ok y => y | Err _ => x end.
Definition demo_drows := ok_or [] (_read_jsonl demo_loads (demo_files "d")).
Definition demo_decisions := ok_or [] (by_request_id (fun row => truthy (dgetv row "request_id")) demo_drows).
Definition demo_outcomes := ok_or [] (_read_jsonl demo_loads (demo_files "o")).
Definition demo_samples := ok_or [] (res_map (classify demo_dims demo_decisions) demo_outcomes).

Lemma training_set_witness :
  res_map (classify demo_dims demo_decisions) demo_outcomes = Ok demo_samples /\
  length (omap used_of demo_samples) = 5%nat /\
  forall row target, (row, target) ∈ omap used_of demo_samples -> length row = width.
Proof.
  assert (H : res_map (classify demo_dims demo_decisions) demo_outcomes = Ok demo_samples) by (vm_compute; reflexivity).
  split; [exact H|]. split; [vm_compute; reflexivity|]. intros row target Hin.
  exact (proj1 (training_set _ _ _ _ H row target Hin)).
Defined.

Lemma fit_from_journal_spec_witness :
  is_ok (fit_from_journal demo_dims demo_loads (demo_files "d") (demo_files "o") (dec 1 (-6))) = true /\
  (fit_from_journal demo_dims demo_loads (demo_files "d") (demo_files "o") (dec 1 (-6)) = Err singular \/
   exists a, fit_from_journal demo_dims demo_loads (demo_files "d") (demo_files "o") (dec 1 (-6)) = Ok a /\ a_samples a = 5).
Proof.
  split; [vm_compute; reflexivity|].
  destruct (fit_from_journal_spec demo_dims demo_loads (demo_files "d") (demo_files "o") (dec 1 (-6))
    demo_drows demo_decisions demo_outcomes demo_samples) as [_ H]; try (vm_compute; reflexivity); [vm_compute; discriminate|].
  destruct H as [H|(a & H & _ & _ & Hn & _)]; [vm_compute; discriminate|by left|right].
  exists a. split; [exact H|]. rewrite Hn. vm_compute. reflexivity.
Defined.
