(* ===== verification/TtftValidation.v ===== *)
(** * Held-out validation of a fitted predictor (planner/ttft_validation.py)

    The predictor's artifact is applied to an independent journal; it passes when its
    mean and tail errors stay within the thresholds. *)

From S2P Require Import Prelude PyFloat FloatOrder FloatRound PyStr PyVal WindowMetrics Journal Percentile Solve Predictor.

(** [int * float] *)
Definition int_times (z : Z) (x : float) : res float := y <-! float_of_int z ;; Ok (y ⊗ x).

(** The prediction of the artifact's coefficients, evaluated left to right. *)
Definition predicted_ms (coefficients : val) (prompt matched : Z) (queue pressure : float) : res float :=
  let coefficient name := c <-! vitem coefficients name ;; float_of_val c in
  intercept <-! coefficient "intercept_ms" ;;
  u <-! coefficient "uncached_token_ms" ;;
  uncached <-! int_times (prompt - matched) u ;;
  c <-! coefficient "cached_token_ms" ;;
  cached <-! int_times matched c ;;
  q <-! coefficient "queue_penalty_ms" ;;
  k <-! coefficient "kv_pressure_penalty_ms" ;;
  Ok (intercept ⊕ uncached ⊕ cached ⊕ queue ⊗ q ⊕ pressure ⊗ k).

(** [except (KeyError, TypeError, ValueError)] *)
Definition skipped_error (e : exn) : bool :=
  match e with KeyError _ | TypeError | ValueError _ => true | _ => false end.

Section validate.
Context (coefficients : val) (dimensions : list (string * val)).

(** The [try] block: what was served, what was observed and what was predicted. *)
Definition observed (outcome candidate : dict) : res (Z * Z * float * float) :=
  p <-! vitem (VDict outcome) "prompt_tokens" ;; prompt <-! int_of_val p ;;
  m <-! vitem (VDict outcome) "observed_matched_tokens" ;; matched <-! int_of_val m ;;
  t <-! vitem (VDict outcome) "ttft_ms" ;; actual <-! float_of_val t ;;
  queue <-! float_of_val (dget_or candidate "queue_depth" (VInt 0)) ;;
  pressure <-! float_of_val (dget_or candidate "kv_pressure" (VInt 0)) ;;
  predicted <-! predicted_ms coefficients prompt matched queue pressure ;;
  Ok (prompt, matched, actual, predicted).

(** The body of the loop over the outcomes: a skipped outcome, or its observed and
    predicted time. *)
Definition held_out (decisions : list (val * dict)) (outcome : dict) : res (option (float * float)) :=
  decision <-! kget decisions (dgetv outcome "request_id") ;;
  candidate <-! _candidate (default [] decision) (py_str (dget_or outcome "actual_backend" (VStr ""))) ;;
  match decision, candidate with
  | Some (_ :: _), Some ((_ :: _) as candidate) =>
      if negb (truthy (dgetv outcome "success"))
         || existsb (fun kv : string * val => negb (py_eq (dgetv outcome kv.1) kv.2)) dimensions
      then Ok None
      else
        match observed outcome candidate with
        | Err e => if skipped_error e then Ok None else Err e
        | Ok (prompt, matched, actual, predicted) =>
            if (prompt <=? 0) || (matched <? 0) || (prompt <? matched) || (actual <=?. f0)
               || negb (isfinite actual && isfinite predicted)
            then Ok None
            else Ok (Some (actual, predicted))
        end
  | _, _ => Ok None
  end.
End validate.

Record validation := {
  v_predictor_version : val;
  v_samples : Z;
  v_skipped_samples : Z;
  v_mae_ms : float;
  v_p95_absolute_error_ms : float;
  v_mean_signed_error_ms : float;
  v_max_mae_ms : float;
  v_max_p95_ms : float;
  v_status : string
}.
Definition v_claim_boundary : string :=
  "Validation uses an independent journal directory and does not reuse the fitting samples. Production generalization remains scoped to the recorded model, GPU, engine, and backend version.".

Definition average (l : list float) : res float := n <-! float_of_int (zlen l) ;; fdiv (fsum l) n.

Definition artifact_dimensions (a : val) : res (list (string * val)) :=
  res_map (fun k => v <-! vget a k VNone ;; Ok (k, v)) ["model"; "gpu_type"; "backend_engine"; "backend_version"].

Definition validate_predictor (json_loads : string -> res val) (decision_files outcome_files : list (string * string))
  (artifact : val) (max_mae_ms max_p95_ms : float) : res validation :=
  coefficients <-! vitem artifact "coefficients" ;;
  decision_rows <-! _read_jsonl json_loads decision_files ;;
  decisions <-! by_request_id (fun row => truthy (dgetv row "request_id")) decision_rows ;;
  outcomes <-! _read_jsonl json_loads outcome_files ;;
  dimensions <-! artifact_dimensions artifact ;;
  kept <-! res_map (held_out coefficients dimensions decisions) outcomes ;;
  let pairs := omap id kept in
  let signed := map (fun p : float * float => p.1 ⊖ p.2) pairs in
  let errors := map (fun p : float * float => fabs (p.1 ⊖ p.2)) pairs in
  raise_if Nat.eqb (length errors) 0 with ValueError "no eligible held-out outcome samples" ;;
  mae <-! average errors ;;
  p95 <-! Planner._percentile errors (dec 95 (-2)) ;;
  let passed := (mae <=?. max_mae_ms) && (p95 <=?. max_p95_ms) in
  version <-! vitem artifact "predictor_version" ;;
  bias <-! average signed ;;
  Ok {| v_predictor_version := version;
        v_samples := zlen errors;
        v_skipped_samples := zlen (List.filter (fun o : option (float * float) => match o with None => true | Some _ => false end) kept);
        v_mae_ms := mae;
        v_p95_absolute_error_ms := p95;
        v_mean_signed_error_ms := bias;
        v_max_mae_ms := max_mae_ms;
        v_max_p95_ms := max_p95_ms;
        v_status := if passed then "HELD_OUT_PASS" else "HELD_OUT_FAIL" |}.

Definition render_markdown (report : validation) : string :=
  join (str [chr 10])
    ["# Kavora Held-Out TTFT Predictor Validation"; "";
     "- Predictor: `" +:+ py_str (v_predictor_version report) +:+ "`";
     "- Status: **" +:+ v_status report +:+ "**";
     "- Samples: `" +:+ str_of_Z (v_samples report) +:+ "`";
     "- MAE: `" +:+ fmt_fixed 2 (v_mae_ms report) +:+ " ms`";
     "- P95 absolute error: `" +:+ fmt_fixed 2 (v_p95_absolute_error_ms report) +:+ " ms`";
     "- Mean signed error: `" +:+ fmt_fixed 2 (v_mean_signed_error_ms report) +:+ " ms`";
     ""; "## Claim Boundary"; ""; v_claim_boundary; ""].

(** ** Properties *)

Lemma average_ok l : l <> [] -> zlen l <= 2 ^ 53 -> exists x, average l = Ok x.
Proof.
  intros Hne Hs. unfold average. destruct (float_of_len l Hne Hs) as (n & -> & Hn). by apply fdiv_nonzero.
Qed.
Lemma kept_partition {A} (l : list (option A)) :
  zlen (omap id l) + zlen (List.filter (fun o : option A => match o with None => true | Some _ => false end) l) = zlen l.
Proof.
  induction l as [|o l IH]; [done|]. rewrite zlen_cons, <- IH.
  destruct o; cbn [omap list_omap List.filter id]; rewrite zlen_cons; lia.
Qed.

(** A pair that counts is finite, its observed time positive. *)
Lemma held_out_sound coefficients dimensions decisions outcome actual predicted :
  held_out coefficients dimensions decisions outcome = Ok (Some (actual, predicted)) ->
  truthy (dgetv outcome "success") = true /\
  (forall k v, (k, v) ∈ dimensions -> py_eq (dgetv outcome k) v = true) /\
  fltb f0 actual = true /\ isfinite actual = true /\ isfinite predicted = true.
Proof.
  unfold held_out. intros H. destruct (kget _ _) as [decision|]; [|discriminate H].
  destruct (_candidate _ _) as [candidate|]; [|discriminate H].
  destruct decision as [[|]|]; [discriminate H| |discriminate H].
  destruct candidate as [[|]|]; [discriminate H| |discriminate H].
  destruct (negb _ || existsb _ _) eqn:Eg; [discriminate H|]. apply orb_false_elim in Eg as [Es Ed].
  destruct (observed _ _ _) as [[[[prompt matched] a] pr]|e]; [|destruct (skipped_error e); discriminate H].
  destruct (_ || negb _) eqn:Eb; [discriminate H|]. injection H as <- <-. bool_hyps. split_and!; [done| | |done..].
  - intros k v Hin. destruct (py_eq (dgetv outcome k) v) eqn:E; [done|].
    assert (Hex : existsb (fun kv : string * val => negb (py_eq (dgetv outcome kv.1) kv.2)) dimensions = true).
    { apply existsb_elem. exists (k, v). split; [done|]. simpl. by rewrite E. }
    congruence.
  - match goal with HH : fleb a f0 = false |- _ => apply fleb_false in HH; [done|by apply isfinite_not_nan|done] end.
Qed.

(** The verdict.  Once the artifact and the journals are read and every outcome is
    judged, validation refuses an empty held-out set and otherwise always reports:
    counted and skipped outcomes add up to all outcomes, only successful outcomes of
    the artifact's dimensions with a finite positive time and a finite prediction
    count, and the verdict is a pass exactly when the mean and the 95th percentile of
    the absolute errors meet their thresholds (an error that is not a number fails). *)
Theorem validate_predictor_spec json_loads decision_files outcome_files artifact max_mae max_p95
    coefficients drows decisions outcomes dimensions kept version :
  vitem artifact "coefficients" = Ok coefficients ->
  _read_jsonl json_loads decision_files = Ok drows ->
  by_request_id (fun row => truthy (dgetv row "request_id")) drows = Ok decisions ->
  _read_jsonl json_loads outcome_files = Ok outcomes ->
  artifact_dimensions artifact = Ok dimensions ->
  res_map (held_out coefficients dimensions decisions) outcomes = Ok kept ->
  vitem artifact "predictor_version" = Ok version ->
  zlen kept <= 2 ^ 53 ->
  let result := validate_predictor json_loads decision_files outcome_files artifact max_mae max_p95 in
  (omap id kept = [] -> result = Err (ValueError "no eligible held-out outcome samples")) /\
  (omap id kept <> [] -> exists v, result = Ok v /\
     1 <= v_samples v /\ v_samples v + v_skipped_samples v = zlen outcomes /\
     (v_status v = "HELD_OUT_PASS"%string <-> fleb (v_mae_ms v) max_mae = true /\ fleb (v_p95_absolute_error_ms v) max_p95 = true) /\
     (v_status v = "HELD_OUT_PASS"%string \/ v_status v = "HELD_OUT_FAIL"%string) /\
     (forall actual predicted, (actual, predicted) ∈ omap id kept -> exists outcome, outcome ∈ outcomes /\
        truthy (dgetv outcome "success") = true /\
        (forall k v, (k, v) ∈ dimensions -> py_eq (dgetv outcome k) v = true) /\
        fltb f0 actual = true /\ isfinite actual = true /\ isfinite predicted = true)).
Proof.
  intros Hc Hd Hk Ho Hdim Hkept Hv Hlen. cbv zeta. unfold validate_predictor.
  rewrite Hc, Hd, Hk, Ho, Hdim, Hkept, Hv. cbv zeta. rewrite !length_map.
  pose proof (kept_partition kept) as Hpart. rewrite (res_map_zlen _ _ _ Hkept) in Hpart.
  split; [by intros ->|]. intros Hne.
  set (pairs := omap id kept) in *.
  assert (Hl1 : 1 <= zlen pairs) by (destruct pairs; [done|unfold zlen; simpl; lia]).
  assert (Hle : zlen pairs <= 2 ^ 53).
  { rewrite <- (res_map_zlen _ _ _ Hkept) in Hpart. unfold zlen in *. lia. }
  destruct (Nat.eqb_spec (length pairs) 0) as [E|_]; [unfold zlen in Hl1; lia|].
  destruct (average_ok (map (fun p : float * float => fabs (p.1 ⊖ p.2)) pairs)) as [mae ->];
    [by destruct pairs|by rewrite zlen_map|].
  pose proof (planner_ok (map (fun p : float * float => fabs (p.1 ⊖ p.2)) pairs) (dec 95 (-2))
    ltac:(by destruct pairs) ltac:(unfold short; rewrite length_map; done) ltac:(by vm_compute)) as Hp.
  destruct (Planner._percentile _ _) as [p95|]; [|done].
  destruct (average_ok (map (fun p : float * float => p.1 ⊖ p.2) pairs)) as [bias ->];
    [by destruct pairs|by rewrite zlen_map|].
  eexists. split; [reflexivity|]. cbn. rewrite zlen_map. split_and!; [done|done| | |].
  - destruct (fleb mae max_mae), (fleb p95 max_p95); cbn; split; try done; by intros [? ?].
  - destruct (_ && _); auto.
  - intros actual predicted Hin. apply list_elem_of_omap in Hin as (o & Hin & Hid). unfold id in Hid. subst o.
    apply res_map_Forall2 in Hkept. apply list_elem_of_lookup in Hin as [i Hi].
    destruct (Forall2_lookup_r _ _ _ _ _ Hkept Hi) as (outcome & Hoi & Hh).
    exists outcome. split; [by eapply list_elem_of_lookup_2|]. by eapply held_out_sound.
Qed.

Definition demo_artifact : val := VDict
  [("coefficients", VDict [("intercept_ms", VInt 190); ("uncached_token_ms", VFloat (dec 1 (-1)));
      ("cached_token_ms", VInt 0); ("queue_penalty_ms", VInt 0); ("kv_pressure_penalty_ms", VInt 0)]);
   ("model", VStr "m"); ("gpu_type", VStr "L4"); ("backend_engine", VStr "vllm"); ("backend_version", VStr "0.9");
   ("predictor_version", VStr "fitted-0")]%string.
Definition demo_coefficients := ok_or VNone (vitem demo_artifact "coefficients").
Definition demo_dimensions := ok_or [] (artifact_dimensions demo_artifact).
Definition demo_kept := ok_or [] (res_map (held_out demo_coefficients demo_dimensions demo_decisions) demo_outcomes).

Lemma validate_predictor_spec_witness :
  omap id demo_kept <> [] /\
  exists v, validate_predictor demo_loads (demo_files "d") (demo_files "o") demo_artifact (of_Z 25) (of_Z 50) = Ok v /\
    v_samples v + v_skipped_samples v = 6.
Proof.
  assert (Hne : omap id demo_kept <> []) by (vm_compute; discriminate). split; [exact Hne|].
  destruct (validate_predictor_spec demo_loads (demo_files "d") (demo_files "o") demo_artifact (of_Z 25) (of_Z 50)
    demo_coefficients demo_drows demo_decisions demo_outcomes demo_dimensions demo_kept (VStr "fitted-0")) as [_ H];
    try (vm_compute; reflexivity); [vm_compute; discriminate|].
  destruct (H Hne) as (v & Hv & _ & Hs & _). exists v. split; [exact Hv|]. rewrite Hs. vm_compute. reflexivity.
Defined.
