(* ===== verification/Random.v ===== *)
(** * [random.Random(seed)] and its [choice] (CPython 3.12)

    The Mersenne Twister MT19937 and the rejection sampling of [choice], executable
    and checked against known answers. *)

From S2P Require Import Prelude PyFloat Digest.

Definition MT_N : nat := 624.
Record generator := { mt : list Z; index : nat }.

Definition word (l : list Z) (i : nat) : Z := nth i l 0.
Definition xs30 (z : Z) : Z := Z.lxor z (Z.shiftr z 30).

(** [init_genrand] *)
Fixpoint genrand_words (fuel : nat) (i : Z) (prev : Z) : list Z :=
  match fuel with
  | O => []
  | S f => let z := w32 (1812433253 * xs30 prev + i) in z :: genrand_words f (i + 1) z
  end.
Definition init_genrand (s : Z) : list Z := w32 s :: genrand_words (MT_N - 1) 1 (w32 s).

(** [init_by_array]: the two mixing loops, with their index [i] over the state. *)
Definition store (st : nat * list Z) (z : Z) : nat * list Z :=
  let '(i, l) := st in
  let l := <[i := z]> l in
  if (MT_N <=? S i)%nat then (1%nat, <[0%nat := z]> l) else (S i, l).
Fixpoint mix_key (fuel j : nat) (key : list Z) (st : nat * list Z) : nat * list Z :=
  match fuel with
  | O => st
  | S f =>
      let '(i, l) := st in
      let z := w32 (Z.lxor (word l i) (xs30 (word l (i - 1)) * 1664525) + word key j + Z.of_nat j) in
      mix_key f (if (length key <=? S j)%nat then 0%nat else S j) key (store st z)
  end.
Fixpoint mix_index (fuel : nat) (st : nat * list Z) : nat * list Z :=
  match fuel with
  | O => st
  | S f =>
      let '(i, l) := st in
      mix_index f (store st (w32 (Z.lxor (word l i) (xs30 (word l (i - 1)) * 1566083941) - Z.of_nat i)))
  end.
Definition init_by_array (key : list Z) : list Z :=
  let st := mix_key (Nat.max MT_N (length key)) 0 key (1%nat, init_genrand 19650218) in
  <[0%nat := 2147483648]> (mix_index (MT_N - 1) st).2.

(** The 32-bit digits of the seed, least significant first, at least one. *)
Fixpoint digits32 (fuel : nat) (z : Z) : list Z :=
  match fuel with
  | O => []
  | S f => w32 z :: if Z.shiftr z 32 =? 0 then [] else digits32 f (Z.shiftr z 32)
  end.
Definition Random (seed : Z) : generator :=
  let a := Z.abs seed in
  {| mt := init_by_array (digits32 (Z.to_nat (Z.log2 a / 32 + 1)) a); index := MT_N |}.

(** [genrand_uint32]: a new block of 624 words when the last one is used up. *)
Definition twist (far upper lower : Z) : Z :=
  let y := Z.lor (Z.land upper 2147483648) (Z.land lower 2147483647) in
  Z.lxor (Z.lxor far (Z.shiftr y 1)) (if Z.odd y then 2567483615 else 0).
Fixpoint twists (far upper lower : list Z) : list Z :=
  match far, upper, lower with
  | f :: far', u :: upper', l :: lower' => twist f u l :: twists far' upper' lower'
  | _, _, _ => []
  end.
Definition next_block (l : list Z) : list Z :=
  let a := twists (drop 397 l) l (drop 1 l) in
  let lower := drop 1 l ++ take 1 a in
  let b := twists a (drop 227 l) (drop 227 lower) in
  let c := twists b (drop 454 l) (drop 454 lower) in
  a ++ b ++ c.
Definition temper (y : Z) : Z :=
  let y := Z.lxor y (Z.shiftr y 11) in
  let y := Z.lxor y (Z.land (Z.shiftl y 7) 2636928640) in
  let y := Z.lxor y (Z.land (Z.shiftl y 15) 4022730752) in
  Z.lxor y (Z.shiftr y 18).
Definition genrand_uint32 (g : generator) : Z * generator :=
  let g := if (MT_N <=? index g)%nat then {| mt := next_block (mt g); index := 0 |} else g in
  (temper (word (mt g) (index g)), {| mt := mt g; index := S (index g) |}).

(** [getrandbits(k)] for [0 < k]: words little-endian, the last one shortened. *)
Fixpoint getrandbits (fuel : nat) (k : Z) (g : generator) : Z * generator :=
  let '(r, g) := genrand_uint32 g in
  match fuel with
  | S f =>
      if k <=? 32 then (Z.shiftr r (32 - k), g)
      else let '(hi, g) := getrandbits f (k - 32) g in (Z.lor r (Z.shiftl hi 32), g)
  | O => (Z.shiftr r (32 - k), g)
  end.

(** [_randbelow]: draw until the number is below [n].  A draw fails with probability
    below one half; the loop is bounded, which CPython's is not. *)
Definition draws : nat := 4096.
Fixpoint randbelow (fuel : nat) (n : Z) (g : generator) : res (Z * generator) :=
  match fuel with
  | O => Err (RuntimeError "draws exhausted")
  | S f =>
      let k := bit_length n in
      let '(r, g) := getrandbits (Z.to_nat (k / 32)) k g in
      if r <? n then Ok (r, g) else randbelow f n g
  end.
Definition choice {A} (l : list A) (g : generator) : res (A * generator) :=
  raise_if Nat.eqb (length l) 0 with IndexError ;;
  ' (i, g) <-! randbelow draws (zlen l) g ;;
  match l !! Z.to_nat i with Some x => Ok (x, g) | None => Err IndexError end.

Fixpoint choices {A} (n : nat) (l : list A) (g : generator) : res (list A * generator) :=
  match n with
  | O => Ok ([], g)
  | S n' =>
      ' (x, g) <-! choice l g ;;
      ' (xs, g) <-! choices n' l g ;;
      Ok (x :: xs, g)
  end.

(** Known answers. *)
Fixpoint draws_of (k : Z) (n : nat) (g : generator) : list Z * generator :=
  match n with
  | O => ([], g)
  | S n' => let '(r, g) := getrandbits (Z.to_nat (k / 32)) k g in
            let '(rs, g) := draws_of k n' g in (r :: rs, g)
  end.
Example choices_known :
  match choices 12 [0; 1; 2; 3; 4; 5; 6] (Random 7) with Ok (l, _) => l | Err _ => [] end =
  [2; 1; 3; 5; 0; 0; 6; 4; 0; 2; 4; 0].
Proof. vm_compute. reflexivity. Qed.
Example seed_known : (draws_of 32 3 (Random (2 ^ 40 + 5))).1 = [2166296868; 2220160828; 1153647273].
Proof. vm_compute. reflexivity. Qed.
Example block_known :
  let g := (draws_of 32 630 (Random 7)).2 in
  (draws_of 32 3 g).1 = [1456492749; 1809368694; 840716950] /\
  (draws_of 40 1 (draws_of 32 3 g).2).1 = [349423999861].
Proof. vm_compute. split; reflexivity. Qed.

Lemma choice_elem {A} (l : list A) g x g' : choice l g = Ok (x, g') -> x ∈ l.
Proof.
  unfold choice. intros H. destruct (Nat.eqb _ 0); [done|]. destruct (randbelow _ _ _) as [[i g1]|]; [|done].
  destruct (l !! Z.to_nat i) eqn:E; [|done]. injection H as <- <-. by eapply list_elem_of_lookup_2.
Qed.
Lemma choices_elem {A} n (l : list A) g xs g' : choices n l g = Ok (xs, g') -> length xs = n /\ Forall (.∈ l) xs.
Proof.
  revert g xs g'; induction n as [|n IH]; intros g xs g' H; simpl in H; [by injection H as <- <-|].
  destruct (choice l g) as [[x g1]|] eqn:Ec; [|done]. destruct (choices n l g1) as [[ys g2]|] eqn:Es; [|done].
  injection H as <- <-. apply IH in Es as [Hl Hf]. apply choice_elem in Ec. simpl. split; [lia|by constructor].
Qed.

(** [random()]: 53 bits of two words. *)
Definition random_float (g : generator) : float * generator :=
  let '(a, g) := genrand_uint32 g in
  let '(b, g) := genrand_uint32 g in
  (ratio (Z.shiftr a 5 * 67108864 + Z.shiftr b 6) (2 ^ 53), g).
Example random_known : (random_float (Random 42)).1 = dec 6394267984578837 (-16).
Proof. vm_compute. reflexivity. Qed.
