(* ===== verification/PolicyEval.v ===== *)
(** * Online policy evaluation (planner/policy_evaluation.py)

    Decisions of an experiment are joined with their outcomes, the two arms are
    compared, and a treatment is eligible for promotion only behind every gate.
    [datetime.fromisoformat(...).timestamp()], which depends on the local time zone, and
    [json.loads] are parameters. *)

From S2P Require Import Prelude PyFloat FloatOrder FloatRound PyStr PyVal WindowMetrics Journal Percentile Random.

(** A decision joined with its outcome. *)
Record row := { decision : dict; outcome : dict }.

Definition ttft_of (r : row) : res float := float_of_val (dget_or (outcome r) "ttft_ms" (VInt 0)).
(** [[float(...) for row in rows if float(...) > 0]] *)
Definition ttfts_of (rows : list row) : res (list float) :=
  values <-! res_map ttft_of rows ;; Ok (List.filter (fun v => v >?. f0) values).
Definition assigned (policy : string) (r : row) : bool := is_vstr (dgetv (decision r) "assigned_policy") policy.

(** ** The bootstrap *)

Definition or_zero (o : option float) : float := match o with Some f => if is_zero f then f0 else f | None => f0 end.

Definition resample (l : list float) (g : generator) : res (float * generator) :=
  ' (xs, g) <-! choices (length l) l g ;; m <-! mean xs ;; Ok (m, g).
Fixpoint bootstrap_differences (samples : nat) (control treatment : list float) (g : generator) : res (list float) :=
  match samples with
  | O => Ok []
  | S n =>
      ' (control_mean, g) <-! resample control g ;;
      ' (treatment_mean, g) <-! resample treatment g ;;
      rest <-! bootstrap_differences n control treatment g ;;
      Ok ((treatment_mean ⊖ control_mean) :: rest)
  end.
Definition _bootstrap_difference (control treatment : list float) (samples seed : Z) : res (float * float) :=
  differences <-! bootstrap_differences (Z.to_nat samples) control treatment (Random seed) ;;
  low <-! Evaluation._percentile differences (dec 25 (-3)) ;;
  high <-! Evaluation._percentile differences (dec 975 (-3)) ;;
  Ok (or_zero low, or_zero high).

(** [windows.setdefault(window, []).append(ttft)] *)
Definition append_to {A} (d : list (string * list A)) (k : string) (x : A) : list (string * list A) :=
  dset d k (dget_or d k [] ++ [x]).
Definition _window_means (rows : list row) : res (list float) :=
  windows <-! res_fold (fun d r =>
    ttft <-! ttft_of r ;;
    if ttft <=?. f0 then Ok d
    else Ok (append_to d (py_str (dget_or (decision r) "experiment_window" (VStr ""))) ttft)) [] rows ;;
  res_map mean (List.filter (fun l => negb (Nat.eqb (length l) 0)) (map snd windows)).

(** ** One arm *)

(** The objectives of a request; the last two only when they are set. *)
Record objectives := { o_ttft : float; o_tpot : option float; o_stream_gap : option float }.

Definition above (outcome : dict) (key : string) (slo : option float) (missing violation : string) : res (option string) :=
  match slo with
  | None => Ok None
  | Some limit =>
      match dgetv outcome key with
      | VNone => Ok (Some missing)
      | v => x <-! float_of_val v ;; Ok (if x >?. limit then Some violation else None)
      end
  end.
Definition _qualified_request (slo : objectives) (outcome : dict) : res (bool * string) :=
  if negb (truthy (dget_or outcome "success" (VBool false))) then Ok (false, "request_failed"%string)
  else
    ttft <-! float_or_zero (dget_or outcome "ttft_ms" (VInt 0)) ;;
    if (ttft <=?. f0) || (ttft >?. o_ttft slo) then Ok (false, "ttft_slo_violation"%string)
    else
      tpot <-! above outcome "tpot_ms" (o_tpot slo) "tpot_missing" "tpot_slo_violation" ;;
      match tpot with
      | Some reason => Ok (false, reason)
      | None =>
          gap <-! above outcome "stream_gap_p95_ms" (o_stream_gap slo) "stream_gap_missing" "stream_gap_slo_violation" ;;
          match gap with
          | Some reason => Ok (false, reason)
          | None => Ok (true, "qualified"%string)
          end
      end.

(** [d[k] = d.get(k, 0) + 1] *)
Definition count_reasons (reasons : list string) : list (string * Z) :=
  foldl (fun d reason => dset d reason (dget_or d reason 0 + 1)) [] reasons.

(** [[float(outcome[k]) for ... if outcome.get(k) is not None]] *)
Definition present (key : string) (rows : list row) : res (list float) :=
  res_map float_of_val (List.filter (fun v => negb (is_none v)) (map (fun r => dgetv (outcome r) key) rows)).

Record arm := {
  m_requests : Z;
  m_successful : Z;
  m_ttft_samples : Z;
  m_ttft_mean : option float;
  m_ttft_p95 : option float;
  m_slo_violation_rate : option float;
  m_qualified : Z;
  m_qualified_rate : option float;
  m_goodput : option float;
  m_goodput_definition : string;
  m_reasons : list (string * Z);
  m_tpot_samples : Z;
  m_tpot_p95 : option float;
  m_stream_gap_samples : Z;
  m_stream_gap_p95 : option float;
  m_throughput : option float;
  m_error_rate : option float;
  m_fallback_rate : option float;
  m_prediction_mae : option float
}.

(** [x / len(l) if l else None], [n / elapsed if elapsed > 0 else None],
    [statistics.mean(l) if l else None] *)
Definition rate_of {A} (n : Z) (l : list A) : res (option float) :=
  match l with [] => Ok None | _ => q <-! int_truediv n (zlen l) ;; Ok (Some q) end.
Definition per_second (n : Z) (elapsed : float) : res (option float) :=
  if elapsed >?. f0 then x <-! float_of_int n ;; q <-! fdiv x elapsed ;; Ok (Some q) else Ok None.
Definition mean_of (l : list float) : res (option float) :=
  match l with [] => Ok None | _ => m <-! mean l ;; Ok (Some m) end.
Definition mean_difference (treatment control : list float) : res (option float) :=
  match control, treatment with
  | _ :: _, _ :: _ => t <-! mean treatment ;; c <-! mean control ;; Ok (Some (t ⊖ c))
  | _, _ => Ok None
  end.

Definition replace_z (s : string) : string :=
  str (mjoin (map (fun c => if Ascii.eqb c "Z" then chars "+00:00" else [c]) (chars s))).

Section evaluation.
Context (timestamp : string -> res float).

(** The completion times that parse; [except ValueError: pass]. *)
Definition completed_at (r : row) : res (option float) :=
  match dgetv (outcome r) "completed_at" with
  | VStr s =>
      match timestamp (replace_z s) with
      | Ok t => Ok (Some t)
      | Err (ValueError _) => Ok None
      | Err e => Err e
      end
  | _ => Ok None
  end.
Definition elapsed_of (rows : list row) : res float :=
  times <-! res_map completed_at rows ;;
  match omap id times with
  | (_ :: _ :: _) as ts => hi <-! fmax_list ts ;; lo <-! fmin_list ts ;; Ok (hi ⊖ lo)
  | _ => Ok f0
  end.
Definition prediction_error (r : row) : res float :=
  e <-! vget (dget_or (decision r) "prediction_error" (VDict [])) "ttft_absolute_error_ms" (VInt 0) ;; float_of_val e.

Definition _arm_metrics (rows : list row) (slo : objectives) : res arm :=
  ttfts <-! ttfts_of rows ;;
  let successes := zcount (fun r => truthy (dget_or (outcome r) "success" (VBool false))) rows in
  elapsed <-! elapsed_of rows ;;
  prediction_errors <-! res_map prediction_error
    (List.filter (fun r => truthy (dgetv (decision r) "prediction_error")) rows) ;;
  qualification <-! res_map (fun r => _qualified_request slo (outcome r)) rows ;;
  let qualified := zcount fst qualification in
  tpot_values <-! present "tpot_ms" rows ;;
  gap_values <-! present "stream_gap_p95_ms" rows ;;
  ttft_mean <-! mean_of ttfts ;;
  ttft_p95 <-! Evaluation._percentile ttfts (dec 95 (-2)) ;;
  violations <-! rate_of (zcount (fun v => v >?. o_ttft slo) ttfts) ttfts ;;
  qualified_rate <-! rate_of qualified rows ;;
  goodput <-! per_second qualified elapsed ;;
  tpot_p95 <-! Evaluation._percentile tpot_values (dec 95 (-2)) ;;
  gap_p95 <-! Evaluation._percentile gap_values (dec 95 (-2)) ;;
  throughput <-! per_second (zlen rows) elapsed ;;
  success_rate <-! rate_of successes rows ;;
  fallback <-! rate_of (zcount (fun r => truthy (dget_or (decision r) "fallback" (VBool false))) rows) rows ;;
  mae <-! mean_of prediction_errors ;;
  Ok {| m_requests := zlen rows; m_successful := successes; m_ttft_samples := zlen ttfts;
        m_ttft_mean := ttft_mean; m_ttft_p95 := ttft_p95; m_slo_violation_rate := violations;
        m_qualified := qualified; m_qualified_rate := qualified_rate; m_goodput := goodput;
        m_goodput_definition := "success and ttft <= ttft_slo_ms"
          +:+ (match o_tpot slo with Some _ => " and tpot <= tpot_slo_ms" | None => "" end)
          +:+ (match o_stream_gap slo with Some _ => " and stream_gap_p95 <= stream_gap_slo_ms" | None => "" end);
        m_reasons := count_reasons (map snd qualification);
        m_tpot_samples := zlen tpot_values; m_tpot_p95 := tpot_p95;
        m_stream_gap_samples := zlen gap_values; m_stream_gap_p95 := gap_p95;
        m_throughput := throughput; m_error_rate := (fun r => f1 ⊖ r) <$> success_rate;
        m_fallback_rate := fallback; m_prediction_mae := mae |}.

(** ** Strata *)

(** [candidate.get("backend_id") == actual] of the first such candidate. *)
Fixpoint queue_of (actual : val) (candidates : list val) : res float :=
  match candidates with
  | [] => Ok f0
  | c :: rest =>
      b <-! vget c "backend_id" VNone ;;
      if py_eq b actual then q <-! vget c "queue_depth" (VInt 0) ;; float_of_val q
      else queue_of actual rest
  end.
Definition _actual_queue (r : row) : res float :=
  candidates <-! viter (dget_or (decision r) "candidates" (VList [])) ;;
  queue_of (dgetv (outcome r) "actual_backend") candidates.

Definition prompt_tokens (r : row) : res Z := int_of_val (dget_or (outcome r) "prompt_tokens" (VInt 0)).
Definition reuse (r : row) : res float := float_or_zero (dget_or (outcome r) "observed_cache_hit_ratio" (VInt 0)).
Definition strata : list (string * (row -> res bool)) :=
  [("short_prompt", fun r => n <-! prompt_tokens r ;; Ok (n <=? 1024)%Z);
   ("long_prompt", fun r => n <-! prompt_tokens r ;; Ok (1024 <? n)%Z);
   ("low_reuse", fun r => h <-! reuse r ;; Ok (h <?. dec 5 (-1)));
   ("high_reuse", fun r => h <-! reuse r ;; Ok (h >=?. dec 5 (-1)));
   ("low_load", fun r => q <-! _actual_queue r ;; Ok (q <?. f1));
   ("high_load", fun r => q <-! _actual_queue r ;; Ok (q >=?. f1))]%string.

Record stratum := {
  s_name : string;
  s_control : Z;
  s_treatment : Z;
  s_difference : option float;
  s_control_violation : option float;
  s_treatment_violation : option float
}.
Definition _strata (rows : list row) (control treatment : string) (slo_ms : float) : res (list stratum) :=
  let slo := {| o_ttft := slo_ms; o_tpot := None; o_stream_gap := None |} in
  res_map (fun d : string * (row -> res bool) =>
    selected <-! res_filter d.2 rows ;;
    let control_rows := List.filter (assigned control) selected in
    let treatment_rows := List.filter (assigned treatment) selected in
    control_ttft <-! ttfts_of control_rows ;;
    treatment_ttft <-! ttfts_of treatment_rows ;;
    difference <-! mean_difference treatment_ttft control_ttft ;;
    c <-! _arm_metrics control_rows slo ;;
    t <-! _arm_metrics treatment_rows slo ;;
    Ok {| s_name := d.1; s_control := zlen control_rows; s_treatment := zlen treatment_rows;
          s_difference := difference; s_control_violation := m_slo_violation_rate c;
          s_treatment_violation := m_slo_violation_rate t |}) strata.

(** ** The experiment *)

Record guardrails := {
  max_error_rate : option float;
  max_fallback_rate : option float;
  max_p95_ttft_ms : option float;
  max_prediction_mae_ms : option float
}.

Record design := {
  experiment_id : string;
  control_policy : string;
  treatment_policy : string;
  slo : objectives;
  min_requests : Z;
  bootstrap_samples : Z;
  seed : Z;
  limits : guardrails
}.

(** [[... for request_id, decision in decisions.items() if request_id in outcomes]] *)
Definition join_rows (decisions outcomes : list (val * dict)) : list row :=
  omap (fun kd : val * dict => o ← kfind outcomes kd.1; Some {| decision := kd.2; outcome := o |}) decisions.

Definition guarded (r : row) : bool :=
  truthy (dgetv (decision r) "warmup") || truthy (dgetv (decision r) "carryover_guard").
Definition row_eq (a b : row) : bool :=
  py_eq (VDict (decision a)) (VDict (decision b)) && py_eq (VDict (outcome a)) (VDict (outcome b)).
(** [row not in guarded]: neither the same object nor an equal one. *)
Definition eligible_rows (joined : list row) : list row :=
  let guarded_rows := List.filter (fun p : nat * row => guarded p.2) (indexed joined) in
  map snd (List.filter (fun p : nat * row =>
    negb (existsb (fun g : nat * row => Nat.eqb g.1 p.1 || row_eq g.2 p.2) guarded_rows)) (indexed joined)).

(** [0 < float(...) <= 1 and assigned_policy in {control, treatment}] *)
Definition well_assigned (d : design) (r : row) : res bool :=
  p <-! float_of_val (dget_or (decision r) "assignment_probability" (VInt 0)) ;;
  if (f0 <?. p) && (p <=?. f1) then
    let policy := dgetv (decision r) "assigned_policy" in
    raise_if negb (hashable policy) with TypeError ;;
    Ok (is_vstr policy (control_policy d) || is_vstr policy (treatment_policy d))
  else Ok false.
Fixpoint res_forallb {A} (f : A -> res bool) (l : list A) : res bool :=
  match l with
  | [] => Ok true
  | x :: l' => b <-! f x ;; if b : bool then res_forallb f l' else Ok false
  end.

(** [{row["decision"].get("experiment_window") for row in rows}], of which only the
    emptiness is used. *)
Definition window_set (rows : list row) : res bool :=
  _ <-! res_map (fun r => raise_if negb (hashable (dgetv (decision r) "experiment_window")) with TypeError ;; Ok tt) rows ;;
  Ok (negb (Nat.eqb (length rows) 0)).

Definition window_of (r : row) : string := py_str (dget_or (decision r) "experiment_window" (VStr "")).
Definition policy_of (r : row) : string := py_str (dget_or (decision r) "assigned_policy" (VStr "")).
(** [policies_by_window.setdefault(window, set()).add(policy)] *)
Definition note_policy (d : list (string * list string)) (r : row) : list (string * list string) :=
  let known := dget_or d (window_of r) [] in
  dset d (window_of r) (if existsb (String.eqb (policy_of r)) known then known else known ++ [policy_of r]).
Definition policies_by_window (rows : list row) : list (string * list string) := foldl note_policy [] rows.
Definition contaminated_windows (rows : list row) : list string :=
  map fst (List.filter (fun wp : string * list string =>
    negb (String.eqb wp.1 "isolated-pool") && (1 <? zlen wp.2)) (policies_by_window rows)).

(** [a or x] for an optional float. *)
Definition or_default (o : option float) (x : float) : float :=
  match o with Some f => if is_zero f then x else f | None => x end.

Record evaluation := {
  e_design : design;
  e_control : arm;
  e_treatment : arm;
  e_difference : float;
  e_relative_percent : float;
  e_ci_low : float;
  e_ci_high : float;
  e_ci_method : string;
  e_slo_violation_delta : float;
  e_goodput_difference : float;
  e_goodput_relative : option float;
  e_safety : list (string * bool);
  e_assignment : bool;
  e_warmup_excluded : Z;
  e_window_balance : bool;
  e_joined_outcomes : Z;
  e_contaminated : list string;
  e_strata : list stratum;
  e_promotion_eligible : bool;
  e_verdict : string;
  e_measured : list (string * bool)
}.

Definition safety_of (d : design) (control treatment : arm) : list (string * bool) :=
  let g := limits d in
  [("errors", fmax (or_zero (m_error_rate control)) (or_zero (m_error_rate treatment)) <=?. default f1 (max_error_rate g));
   ("fallback", fmax (or_zero (m_fallback_rate control)) (or_zero (m_fallback_rate treatment)) <=?. default f1 (max_fallback_rate g));
   ("p95_ttft", fmax (or_default (m_ttft_p95 control) finf) (or_default (m_ttft_p95 treatment) finf) <=?. default finf (max_p95_ttft_ms g));
   ("prediction_drift", or_zero (m_prediction_mae treatment) <=?. default finf (max_prediction_mae_ms g))]%string.

(** Both arms have samples of a field. *)
Definition both (field : arm -> Z) (control treatment : arm) : bool :=
  negb (field control =? 0) && negb (field treatment =? 0).

Definition evaluate_experiment (json_loads : string -> res val) (decision_files outcome_files : list (string * string))
  (d : design) : res evaluation :=
  decision_rows <-! read_jsonl_dicts json_loads decision_files ;;
  decisions <-! by_request_id (fun r => is_vstr (dgetv r "experiment_id") (experiment_id d)) decision_rows ;;
  outcome_rows <-! read_jsonl_dicts json_loads outcome_files ;;
  outcomes <-! by_request_id (fun r => truthy (dgetv r "request_id")) outcome_rows ;;
  let joined := join_rows decisions outcomes in
  let eligible := eligible_rows joined in
  let control_rows := List.filter (assigned (control_policy d)) eligible in
  let treatment_rows := List.filter (assigned (treatment_policy d)) eligible in
  control_ttft <-! ttfts_of control_rows ;;
  treatment_ttft <-! ttfts_of treatment_rows ;;
  raise_if Nat.eqb (length control_ttft) 0 || Nat.eqb (length treatment_ttft) 0
    with ValueError "both experiment arms require realized TTFT samples" ;;
  treatment_mean <-! mean treatment_ttft ;;
  control_mean <-! mean control_ttft ;;
  let difference := treatment_mean ⊖ control_mean in
  control_windows <-! _window_means control_rows ;;
  treatment_windows <-! _window_means treatment_rows ;;
  let clustered := (1 <? zlen control_windows) && (1 <? zlen treatment_windows) in
  ' (ci_low, ci_high) <-! _bootstrap_difference
    (if clustered then control_windows else control_ttft) (if clustered then treatment_windows else treatment_ttft)
    (bootstrap_samples d) (seed d) ;;
  control <-! _arm_metrics control_rows (slo d) ;;
  treatment <-! _arm_metrics treatment_rows (slo d) ;;
  assignment_ok <-! res_forallb (well_assigned d) joined ;;
  control_set <-! window_set control_rows ;;
  treatment_set <-! window_set treatment_rows ;;
  let contaminated := contaminated_windows eligible in
  let window_balance := control_set && treatment_set && Nat.eqb (length contaminated) 0 in
  let safety := safety_of d control treatment in
  let assignment := assignment_ok && negb (Nat.eqb (length control_rows) 0) && negb (Nat.eqb (length treatment_rows) 0) in
  let promotion := (min_requests d <=? zlen eligible) && forallb snd safety && assignment && window_balance && (ci_high <?. f0) in
  relative <-! fdiv difference control_mean ;;
  let goodput_difference := or_zero (m_goodput treatment) ⊖ or_zero (m_goodput control) in
  goodput_relative <-! match m_goodput control with
                       | Some g => if is_zero g then Ok None
                                   else q <-! fdiv goodput_difference g ;; Ok (Some (q ⊗ of_Z 100))
                       | None => Ok None
                       end ;;
  rows_by_stratum <-! _strata eligible (control_policy d) (treatment_policy d) (o_ttft (slo d)) ;;
  Ok {| e_design := d; e_control := control; e_treatment := treatment; e_difference := difference;
        e_relative_percent := relative ⊗ of_Z 100; e_ci_low := ci_low; e_ci_high := ci_high;
        e_ci_method := if clustered then "window_cluster_bootstrap" else "request_bootstrap";
        e_slo_violation_delta :=
          (or_zero (m_slo_violation_rate treatment) ⊖ or_zero (m_slo_violation_rate control)) ⊗ of_Z 100;
        e_goodput_difference := goodput_difference; e_goodput_relative := goodput_relative;
        e_safety := safety; e_assignment := assignment;
        e_warmup_excluded := zcount guarded joined; e_window_balance := window_balance;
        e_joined_outcomes := zlen joined; e_contaminated := contaminated; e_strata := rows_by_stratum;
        e_promotion_eligible := promotion;
        e_verdict := if promotion then "PROMOTION_ELIGIBLE" else "NOT_ELIGIBLE";
        e_measured := [("ttft", both m_ttft_samples control treatment); ("tpot", both m_tpot_samples control treatment);
                       ("stream_gap", both m_stream_gap_samples control treatment)]%string |}.
End evaluation.

(** ** The Markdown report *)

Definition pass_fail (b : bool) : string := if b then "PASS" else "FAIL".
Definition opt_text (o : option float) : string := match o with Some f => repr_float f | None => "NA" end.
Definition e_claim_boundary : string :=
  "This report estimates policy effects from outcome-grounded randomized assignments. Shared-resource interference is reduced by switchback or isolated pools but is not assumed to be eliminated.".

Definition render_markdown (r : evaluation) : string :=
  let d := e_design r in
  join (str [chr 10])
    (["# Kavora Policy Evaluation"; "";
      "- Experiment: `" +:+ experiment_id d +:+ "`";
      "- Control: `" +:+ control_policy d +:+ "` (" +:+ str_of_Z (m_requests (e_control r)) +:+ " requests)";
      "- Treatment: `" +:+ treatment_policy d +:+ "` (" +:+ str_of_Z (m_requests (e_treatment r)) +:+ " requests)";
      "- Verdict: **" +:+ e_verdict r +:+ "**"; ""; "## Effect"; "";
      "- Mean TTFT difference: `" +:+ fmt_fixed 2 (e_difference r) +:+ " ms`";
      "- Relative TTFT difference: `" +:+ fmt_fixed 2 (e_relative_percent r) +:+ "%`";
      "- Bootstrap 95% CI: `[" +:+ fmt_fixed 2 (e_ci_low r) +:+ ", " +:+ fmt_fixed 2 (e_ci_high r) +:+ "] ms`";
      "- CI method: `" +:+ e_ci_method r +:+ "`";
      "- SLO violation delta: `" +:+ fmt_fixed 2 (e_slo_violation_delta r) +:+ " pp`";
      "- Goodput difference: `" +:+ fmt_fixed 4 (e_goodput_difference r) +:+ " req/s` (" +:+ opt_text (e_goodput_relative r) +:+ "%)";
      "- Control goodput: `" +:+ opt_text (m_goodput (e_control r)) +:+ " req/s`; treatment goodput: `"
        +:+ opt_text (m_goodput (e_treatment r)) +:+ " req/s`";
      "- Goodput definition: `" +:+ m_goodput_definition (e_control r) +:+ "`"; ""; "## Safety"; ""]
     ++ map (fun kv : string * bool => "- " +:+ kv.1 +:+ ": `" +:+ pass_fail kv.2 +:+ "`") (e_safety r)
     ++ [""; "## Integrity"; "";
         "- assignment: `" +:+ pass_fail (e_assignment r) +:+ "`";
         "- warmup_excluded: `" +:+ str_of_Z (e_warmup_excluded r) +:+ "`";
         "- window_balance: `" +:+ pass_fail (e_window_balance r) +:+ "`";
         "- joined_outcomes: `" +:+ str_of_Z (e_joined_outcomes r) +:+ "`";
         "- contaminated_windows: `" +:+ py_repr (VList (map VStr (e_contaminated r))) +:+ "`";
         ""; "## Claim Boundary"; ""; e_claim_boundary; ""]).

(** ** Properties *)

(** What qualifies a request: a limit that is set needs a value that does not exceed it. *)
Definition within (outcome : dict) (key : string) (limit : option float) : Prop :=
  forall l, limit = Some l -> dgetv outcome key <> VNone /\
    exists x, float_of_val (dgetv outcome key) = Ok x /\ fltb l x = false.
Definition meets (slo : objectives) (outcome : dict) : Prop :=
  truthy (dget_or outcome "success" (VBool false)) = true /\
  (exists ttft, float_or_zero (dget_or outcome "ttft_ms" (VInt 0)) = Ok ttft /\
     fleb ttft f0 = false /\ fltb (o_ttft slo) ttft = false) /\
  within outcome "tpot_ms" (o_tpot slo) /\ within outcome "stream_gap_p95_ms" (o_stream_gap slo).

Lemma above_spec outcome key limit missing violation r : above outcome key limit missing violation = Ok r ->
  (r = None <-> within outcome key limit) /\ (forall reason, r = Some reason -> reason = missing \/ reason = violation).
Proof.
  unfold above, within. destruct limit as [l|]; intros H.
  2: { injection H as <-. split; [|done]. by split. }
  destruct (dgetv outcome key) eqn:E; try (rewrite <- E in H |- * );
    try (injection H as <-; split; [split; [done|intros Hw; by destruct (Hw l eq_refl)]|intros ? [= <-]; auto]; fail).
  all: destruct (float_of_val _) as [x|] eqn:Ef; [|discriminate H]; injection H as <-;
    split; [split|destruct (fltb l x); [intros ? [= <-]; auto|done]].
  all: try (intros Hn l' [= <-]; split; [by rewrite E|]; exists x; split; [done|]; by destruct (fltb l x)).
  all: intros Hw; destruct (Hw l eq_refl) as (_ & x' & Hx & Hl); try (rewrite <- E in Ef; rewrite Ef in Hx);
    assert (x' = x) as -> by congruence; by rewrite Hl.
Qed.
Lemma qualified_spec slo outcome q reason : _qualified_request slo outcome = Ok (q, reason) ->
  (q = true <-> meets slo outcome) /\ (q = true <-> reason = "qualified"%string).
Proof.
  unfold _qualified_request, meets. intros H.
  destruct (truthy _) eqn:Es; cbn [negb] in H;
    [|injection H as <- <-; split; (split; [done|]); [by intros [? _]|done]].
  destruct (float_or_zero _) as [ttft|] eqn:Et; [|discriminate H].
  destruct (_ || _) eqn:Eg.
  { injection H as <- <-. split; (split; [done|]); [|done].
    intros (_ & (t & [= <-] & H1 & H2) & _). by rewrite H1, H2 in Eg. }
  apply orb_false_elim in Eg as [Eg1 Eg2].
  destruct (above outcome "tpot_ms" _ _ _) as [tpot|] eqn:Ep; [|discriminate H]. apply above_spec in Ep as [Hp Hpr].
  destruct tpot as [r1|].
  { injection H as <- <-. split; (split; [done|]).
    - intros (_ & _ & Hw & _). by apply Hp in Hw.
    - intros ->. by destruct (Hpr _ eq_refl). }
  destruct (above outcome "stream_gap_p95_ms" _ _ _) as [gap|] eqn:Ea; [|discriminate H]. apply above_spec in Ea as [Ha Har].
  destruct gap as [r2|]; injection H as <- <-; split; split; try done.
  - intros (_ & _ & _ & Hw). by apply Ha in Hw.
  - intros ->. by destruct (Har _ eq_refl).
  - intros _. split_and!; [done|by exists ttft|by apply Hp|by apply Ha].
Qed.

(** ** Counting reasons *)

Definition zsum (l : list Z) : Z := foldr Z.add 0 l.
Lemma dset_sum (d : list (string * Z)) k v : zsum (map snd (dset d k v)) = zsum (map snd d) - dget_or d k 0 + v.
Proof.
  unfold dget_or. induction d as [|[k' v'] d IH]; cbn [dset dget].
  - cbn. lia.
  - destruct (String.eqb k k'); cbn [map snd zsum foldr from_option id]; [unfold id; lia|]. fold (zsum (map snd (dset d k v))).
    rewrite IH. fold (zsum (map snd d)). lia.
Qed.
Lemma count_reasons_acc l d :
  let d' := foldl (fun d reason => dset d reason (dget_or d reason 0 + 1)) d l in
  zsum (map snd d') = zsum (map snd d) + zlen l /\ forall s, dget_or d' s 0 = dget_or d s 0 + count s l.
Proof.
  cbv zeta. revert d; induction l as [|x l IH]; intros d; cbn [foldl].
  - split; [unfold zlen; simpl; lia|]. intros s. unfold count, zlen. simpl. lia.
  - destruct (IH (dset d x (dget_or d x 0 + 1))) as [H1 H2]. split.
    + rewrite H1, dset_sum, zlen_cons. lia.
    + intros s. rewrite H2, count_cons. unfold dget_or. rewrite dget_dset, (String.eqb_sym x s).
      destruct (String.eqb_spec s x) as [->|Hne]; cbn [from_option]; unfold id; lia.
Qed.

Lemma zcount_le {A} (p q : A -> bool) l : (forall x, x ∈ l -> p x = true -> q x = true) -> zcount p l <= zcount q l.
Proof.
  unfold zcount. induction l as [|x l IH]; intros H; cbn [List.filter]; [lia|].
  specialize (IH (fun y Hy => H y ltac:(by right))). pose proof (H x ltac:(by left)) as Hx.
  destruct (p x) eqn:Ep; [rewrite (Hx eq_refl), !zlen_cons; lia|]. destruct (q x); rewrite ?zlen_cons; lia.
Qed.
(** Counting the results of a map counts the arguments they come from. *)
Lemma zcount_map {A B} (f : A -> res B) (p : B -> bool) (q : A -> bool) l ys :
  res_map f l = Ok ys -> (forall x y, f x = Ok y -> p y = true -> q x = true) -> zcount p ys <= zcount q l.
Proof.
  unfold zcount. intros H Hpq. revert ys H; induction l as [|x l IH]; intros ys H; cbn [res_map] in H.
  - injection H as <-. done.
  - destruct (f x) as [y|] eqn:Ef; [|discriminate H]. destruct (res_map f l) as [zs|]; [|discriminate H].
    injection H as <-. specialize (IH zs eq_refl). cbn [List.filter]. specialize (Hpq _ _ Ef).
    destruct (p y); [rewrite Hpq, !zlen_cons by done; lia|]. destruct (q x); rewrite ?zlen_cons; lia.
Qed.

(** C31: goodput counts what it says.  When [_arm_metrics] returns, the qualified
    requests are exactly the successful ones whose TTFT is not above its objective and
    whose other configured objectives have a measured value that meets them, a missing
    measurement disqualifying; none is qualified without success, and the reason
    counts add up to all requests. *)
Theorem arm_accounting timestamp rows slo a : _arm_metrics timestamp rows slo = Ok a ->
  exists verdicts, Forall2 (fun r v => (v = true <-> meets slo (outcome r))) rows verdicts /\
    m_qualified a = zcount id verdicts /\ m_requests a = zlen rows /\
    0 <= m_qualified a <= m_successful a /\ m_successful a <= m_requests a /\
    dget_or (m_reasons a) "qualified" 0 = m_qualified a /\ zsum (map snd (m_reasons a)) = m_requests a.
Proof.
  intros H. unfold _arm_metrics in H.
  destruct (res_map (fun r => _qualified_request slo (outcome r)) rows) as [qs|] eqn:Eq; [|exfalso; inv_ok H; done].
  inv_ok H. subst a. cbn [m_qualified m_requests m_successful m_reasons].
  assert (Hq : Forall2 (fun r q => (q.1 = true <-> meets slo (outcome r)) /\ (q.1 = true <-> q.2 = "qualified"%string)) rows qs).
  { apply res_map_Forall2 in Eq. eapply Forall2_impl; [exact Eq|]. intros r [q reason] Hr. by apply qualified_spec. }
  exists (map fst qs). destruct (count_reasons_acc (map snd qs) []) as [Hsum Hget]. split_and!.
  - apply Forall2_fmap_r. eapply Forall2_impl; [exact Hq|]. by intros ? ? [? _].
  - unfold zcount. clear. induction qs as [|[[] s] qs IH]; cbn; [done|rewrite !zlen_cons; lia|exact IH].
  - done.
  - unfold zcount, zlen. lia.
  - eapply zcount_map; [exact Eq|]. intros r [q reason] Hr Hqt. apply qualified_spec in Hr as [Hm _].
    by apply Hm in Hqt as [? _].
  - unfold zcount, zlen. pose proof (filterb_length_le (fun r => truthy (dget_or (outcome r) "success" (VBool false))) rows). lia.
  - change (count_reasons (map snd qs)) with (foldl (fun d reason => dset d reason (dget_or d reason 0 + 1)) [] (map snd qs)).
    rewrite Hget. cbn. clear -Hq. unfold zcount, count. induction Hq as [|r [q s] rows qs [_ Hs] _ IH]; [done|].
    cbn [map List.filter fst snd] in *. destruct (String.eqb_spec "qualified" s) as [<-|Hne].
    + assert (q = true) as -> by (by apply Hs). rewrite !zlen_cons. lia.
    + destruct q; [by destruct Hne; symmetry; apply Hs|done].
  - change (count_reasons (map snd qs)) with (foldl (fun d reason => dset d reason (dget_or d reason 0 + 1)) [] (map snd qs)).
    rewrite Hsum, zlen_map. cbn. apply res_map_zlen in Eq. lia.
Qed.

(** ** The gates *)

Lemma eligible_elem joined r : r ∈ eligible_rows joined -> r ∈ joined /\ guarded r = false.
Proof.
  unfold eligible_rows. intros Hin. apply list_elem_of_In, in_map_iff in Hin as ([i r'] & <- & Hin).
  apply list_elem_of_In, elem_of_filterb in Hin as [Hi Hn]. cbn [fst snd] in *.
  pose proof (proj1 (indexed_elem _ _ _) Hi) as Hl. split; [by eapply list_elem_of_lookup_2|].
  destruct (guarded r') eqn:Eg; [|done]. apply negb_true_iff in Hn.
  assert (Hex : existsb (fun g : nat * row => Nat.eqb g.1 i || row_eq g.2 r')
    (List.filter (fun p : nat * row => guarded p.2) (indexed joined)) = true).
  { apply existsb_elem. exists (i, r'). split; [by apply elem_of_filterb|]. cbn. by rewrite Nat.eqb_refl. }
  congruence.
Qed.

Lemma forallb_all {A} (f : A -> res bool) l x : res_forallb f l = Ok true -> x ∈ l -> f x = Ok true.
Proof.
  induction l as [|y l IH]; intros H Hx; [by apply elem_of_nil in Hx|]. cbn in H.
  destruct (f y) as [[|]|] eqn:Ey; try discriminate H. apply elem_of_cons in Hx as [->|Hx]; auto.
Qed.

Definition in_unit (p : float) : Prop := fltb f0 p = true /\ fleb p f1 = true.
Lemma well_assigned_spec d r : well_assigned d r = Ok true ->
  (exists p, float_of_val (dget_or (decision r) "assignment_probability" (VInt 0)) = Ok p /\ in_unit p) /\
  (assigned (control_policy d) r = true \/ assigned (treatment_policy d) r = true).
Proof.
  unfold well_assigned, assigned. intros H. destruct (float_of_val _) as [p|] eqn:Ep; [|discriminate H].
  destruct (_ && _) eqn:Ei; [|discriminate H]. destruct (negb _); [discriminate H|]. injection H as H.
  apply orb_true_iff in H. bool_hyps. split; [|done]. exists p. by split_and!.
Qed.

(** The policies seen in a window hold those of its rows. *)
Lemma policies_acc rows d :
  (forall w p, (exists l, dget d w = Some l /\ p ∈ l) -> exists l, dget (foldl note_policy d rows) w = Some l /\ p ∈ l) /\
  (forall r, r ∈ rows -> exists l, dget (foldl note_policy d rows) (window_of r) = Some l /\ policy_of r ∈ l).
Proof.
  revert d; induction rows as [|x rows IH]; intros d; cbn [foldl]; [split; [done|]; intros r Hr; by apply elem_of_nil in Hr|].
  set (known := dget_or d (window_of x) []).
  set (new := if existsb (String.eqb (policy_of x)) known then known else known ++ [policy_of x]).
  destruct (IH (note_policy d x)) as [IH1 IH2].
  assert (Hd : note_policy d x = dset d (window_of x) new) by done. split.
  - intros w p (l & Hl & Hp). apply IH1. rewrite Hd, dget_dset. destruct (String.eqb_spec (window_of x) w) as [<-|_]; [|eauto].
    exists new. split; [done|]. assert (Hk : p ∈ known) by (unfold known, dget_or; by rewrite Hl).
    unfold new. destruct (existsb _ _); [done|]. apply elem_of_app. by left.
  - intros r [->|Hr]%elem_of_cons; [|by apply IH2]. apply IH1. exists new.
    split; [by rewrite Hd, dget_dset, String.eqb_refl|]. unfold new. destruct (existsb _ _) eqn:Ee.
    + apply existsb_elem in Ee as (y & Hy & Heq). by apply String.eqb_eq in Heq as ->.
    + apply elem_of_app. right. by left.
Qed.
Lemma balanced rows x y : contaminated_windows rows = [] -> x ∈ rows -> y ∈ rows ->
  window_of x = window_of y -> window_of x <> "isolated-pool"%string -> policy_of x = policy_of y.
Proof.
  intros Hc Hx Hy Hw Hi. destruct (policies_acc rows []) as [_ H].
  destruct (H x Hx) as (l & Hl & Hpx), (H y Hy) as (l' & Hl' & Hpy). rewrite <- Hw in Hl'.
  assert (l' = l) as -> by congruence. fold (policies_by_window rows) in Hl.
  apply dget_Some_elem in Hl. unfold contaminated_windows in Hc.
  destruct (1 <? zlen l) eqn:El.
  - exfalso. assert (Hin : (window_of x, l) ∈ @nil (string * list string)); [|by apply elem_of_nil in Hin].
    apply map_eq_nil in Hc. rewrite <- Hc. apply elem_of_filterb. split; [done|]. cbn.
    rewrite El. by apply String.eqb_neq in Hi as ->.
  - destruct l as [|a [|b l]].
    + by apply elem_of_nil in Hpx.
    + apply list_elem_of_singleton in Hpx as ->. by apply list_elem_of_singleton in Hpy as ->.
    + unfold zlen in El. cbn [length] in El. apply Z.ltb_ge in El. lia.
Qed.

(** A measurement within a limit: absent, or not above it. *)
Definition kept_below (o : option float) (limit : float) : Prop :=
  forall x, o = Some x -> fleb x limit = true.
Lemma fmax_le_l a b c : fleb (fmax a b) c = true -> fleb a c = true.
Proof. unfold fmax. destruct (fltb a b) eqn:E; [|done]. intros. by eapply fleb_trans; [apply fltb_fleb|]. Qed.
Lemma fmax_le_r a b c : is_nan b = false -> fleb (fmax a b) c = true -> fleb b c = true.
Proof.
  intros Hb H. pose proof (fmax_le_l _ _ _ H) as Ha. apply fleb_not_nan in Ha as [Ha _].
  eapply fleb_trans; [by apply fmax_ge_r|exact H].
Qed.
Lemma zero_le x c : is_zero x = true -> fleb f0 c = true -> fleb x c = true.
Proof. by destruct x as [[]| | |]. Qed.
Lemma or_zero_below o c : fleb (or_zero o) c = true -> kept_below o c.
Proof.
  intros H x ->. cbn in H. destruct (is_zero x) eqn:E; [by apply zero_le|done].
Qed.
Lemma or_inf_below o c : fleb (or_default o finf) c = true -> kept_below o c.
Proof.
  intros H x ->. cbn in H. destruct (is_zero x) eqn:E; [|done]. apply zero_le; [done|].
  by apply (fleb_trans f0 finf c).
Qed.

(** Error and fallback rates are numbers. *)
Lemma rate_finite {A} n (l : list A) o x : rate_of n l = Ok o -> o = Some x -> isfinite x = true.
Proof.
  unfold rate_of. destruct l as [|a l]; [intros H; by injection H as <-|]. destruct (int_truediv _ _) as [q|] eqn:E; [|done].
  intros [= <-] Hx. injection Hx as <-. eapply int_truediv_finite; [|exact E]. apply zlen_nonneg.
Qed.
Lemma or_zero_number o : (forall x, o = Some x -> is_nan x = false) -> is_nan (or_zero o) = false.
Proof. destruct o as [x|]; [|done]. intros H. cbn. destruct (is_zero x); [done|by apply H]. Qed.
Lemma arm_rates timestamp rows slo a : _arm_metrics timestamp rows slo = Ok a ->
  is_nan (or_zero (m_error_rate a)) = false /\ is_nan (or_zero (m_fallback_rate a)) = false.
Proof.
  intros H. unfold _arm_metrics in H.
  destruct (rate_of (zcount (fun r => truthy (dget_or (outcome r) "success" (VBool false))) rows) rows) as [sr|] eqn:Es;
    [|exfalso; inv_ok H; done].
  destruct (rate_of (zcount (fun r => truthy (dget_or (decision r) "fallback" (VBool false))) rows) rows) as [fr|] eqn:Ef;
    [|exfalso; inv_ok H; done].
  inv_ok H. subst a. cbn [m_error_rate m_fallback_rate]. split; apply or_zero_number; intros x Hx.
  - destruct sr as [q|]; [|done]. injection Hx as <-. apply fsub_not_nan; [done|eapply rate_finite; [exact Es|done]].
  - eapply isfinite_not_nan, rate_finite; [exact Ef|done].
Qed.

(** What an evaluation that returns was computed from. *)
Lemma evaluate_inv timestamp json_loads decision_files outcome_files d drows decisions orows outcomes r :
  read_jsonl_dicts json_loads decision_files = Ok drows ->
  by_request_id (fun x => is_vstr (dgetv x "experiment_id") (experiment_id d)) drows = Ok decisions ->
  read_jsonl_dicts json_loads outcome_files = Ok orows ->
  by_request_id (fun x => truthy (dgetv x "request_id")) orows = Ok outcomes ->
  evaluate_experiment timestamp json_loads decision_files outcome_files d = Ok r ->
  let joined := join_rows decisions outcomes in
  let eligible := eligible_rows joined in
  let control_rows := List.filter (assigned (control_policy d)) eligible in
  let treatment_rows := List.filter (assigned (treatment_policy d)) eligible in
  _arm_metrics timestamp control_rows (slo d) = Ok (e_control r) /\
  _arm_metrics timestamp treatment_rows (slo d) = Ok (e_treatment r) /\
  exists ok balanced, res_forallb (well_assigned d) joined = Ok ok /\
    e_promotion_eligible r =
      (min_requests d <=? zlen eligible) && forallb snd (safety_of d (e_control r) (e_treatment r))
      && (ok && negb (Nat.eqb (length control_rows) 0) && negb (Nat.eqb (length treatment_rows) 0))
      && (balanced && Nat.eqb (length (contaminated_windows eligible)) 0) && (e_ci_high r <?. f0).
Proof.
  intros Hdr Hd Hor Ho H. unfold evaluate_experiment in H. rewrite Hdr, Hd, Hor, Ho in H. cbv zeta in H |- *.
  set (joined := join_rows decisions outcomes) in *. set (eligible := eligible_rows joined) in *.
  set (control_rows := List.filter (assigned (control_policy d)) eligible) in *.
  set (treatment_rows := List.filter (assigned (treatment_policy d)) eligible) in *.
  destruct (ttfts_of control_rows) as [ct|]; [|discriminate H].
  destruct (ttfts_of treatment_rows) as [tt|]; [|discriminate H].
  destruct (_ || _); [discriminate H|].
  destruct (mean tt) as [tm|]; [|discriminate H]. destruct (mean ct) as [cm|]; [|discriminate H].
  destruct (_window_means control_rows) as [cw|]; [|discriminate H].
  destruct (_window_means treatment_rows) as [tw|]; [|discriminate H].
  destruct (_bootstrap_difference _ _ _ _) as [[lo hi]|]; [|discriminate H].
  destruct (_arm_metrics _ control_rows _) as [control|] eqn:Ecm; [|discriminate H].
  destruct (_arm_metrics _ treatment_rows _) as [treatment|] eqn:Etm; [|discriminate H].
  destruct (res_forallb (well_assigned d) joined) as [ok|] eqn:Ea; [|discriminate H].
  destruct (window_set control_rows) as [cs|]; [|discriminate H].
  destruct (window_set treatment_rows) as [ts|]; [|discriminate H].
  destruct (fdiv _ cm) as [rel|]; [|discriminate H].
  match type of H with match ?c with _ => _ end = _ => destruct c as [gr|]; [|discriminate H] end.
  destruct (_strata _ _ _ _ _) as [st|]; [|discriminate H]. injection H as <-.
  cbn [e_promotion_eligible e_ci_high e_control e_treatment]. split_and!; [done..|]. by exists ok, (cs && ts).
Qed.

(** C8: promotion is gated.  When the evaluation says that the treatment is eligible for
    promotion, then: enough eligible requests were joined and none of them is a warm-up
    or carry-over row; every joined row has an assignment probability in (0, 1] and one
    of the two policies; both arms have requests; no two eligible rows of one window
    (isolated pools aside) were served by different policies; the upper confidence
    bound of the TTFT difference is below zero; and the error rate, the fallback rate
    and the tail latency of both arms and the treatment's prediction error are within
    their guardrails, provided that the treatment's tail latency is a number: see
    [nan_passes_guardrail]. *)
Theorem promotion_gates timestamp json_loads decision_files outcome_files d drows decisions orows outcomes r :
  read_jsonl_dicts json_loads decision_files = Ok drows ->
  by_request_id (fun x => is_vstr (dgetv x "experiment_id") (experiment_id d)) drows = Ok decisions ->
  read_jsonl_dicts json_loads outcome_files = Ok orows ->
  by_request_id (fun x => truthy (dgetv x "request_id")) orows = Ok outcomes ->
  evaluate_experiment timestamp json_loads decision_files outcome_files d = Ok r ->
  e_promotion_eligible r = true ->
  let joined := join_rows decisions outcomes in
  let eligible := eligible_rows joined in
  let g := limits d in
  min_requests d <= zlen eligible /\
  (forall x, x ∈ eligible -> x ∈ joined /\ guarded x = false) /\
  (forall x, x ∈ joined ->
     (exists p, float_of_val (dget_or (decision x) "assignment_probability" (VInt 0)) = Ok p /\ in_unit p) /\
     (assigned (control_policy d) x = true \/ assigned (treatment_policy d) x = true)) /\
  (exists x, x ∈ eligible /\ assigned (control_policy d) x = true) /\
  (exists x, x ∈ eligible /\ assigned (treatment_policy d) x = true) /\
  (forall x y, x ∈ eligible -> y ∈ eligible -> window_of x = window_of y ->
     window_of x <> "isolated-pool"%string -> policy_of x = policy_of y) /\
  fltb (e_ci_high r) f0 = true /\
  (forall a, a = e_control r \/ a = e_treatment r ->
     kept_below (m_error_rate a) (default f1 (max_error_rate g)) /\
     kept_below (m_fallback_rate a) (default f1 (max_fallback_rate g))) /\
  kept_below (m_ttft_p95 (e_control r)) (default finf (max_p95_ttft_ms g)) /\
  kept_below (m_prediction_mae (e_treatment r)) (default finf (max_prediction_mae_ms g)) /\
  (is_nan (or_default (m_ttft_p95 (e_treatment r)) finf) = false ->
     kept_below (m_ttft_p95 (e_treatment r)) (default finf (max_p95_ttft_ms g))).
Proof.
  intros Hdr Hd Hor Ho H Hp joined eligible g.
  destruct (evaluate_inv _ _ _ _ _ _ _ _ _ _ Hdr Hd Hor Ho H) as (Ecm & Etm & ok & bal & Ea & Epr).
  fold joined in Ecm, Etm, Ea, Epr. fold eligible in Ecm, Etm, Epr. rewrite Epr in Hp. clear H Epr.
  apply andb_prop in Hp as [Hp Hci]. apply andb_prop in Hp as [Hp Hwb]. apply andb_prop in Hp as [Hp Has].
  apply andb_prop in Hp as [Hmin Hsafe]. apply andb_prop in Has as [Has Htr]. apply andb_prop in Has as [-> Hcr].
  apply andb_prop in Hwb as [_ Hcont]. apply Z.leb_le in Hmin.
  unfold safety_of in Hsafe. cbn [forallb snd] in Hsafe.
  apply andb_prop in Hsafe as [Herr Hsafe]. apply andb_prop in Hsafe as [Hfb Hsafe].
  apply andb_prop in Hsafe as [Hp95 Hsafe]. apply andb_prop in Hsafe as [Hmae _].
  assert (Hex : forall p, negb (Nat.eqb (length (List.filter (assigned p) eligible)) 0) = true ->
    exists x, x ∈ eligible /\ assigned p x = true).
  { intros p Hl. destruct (List.filter (assigned p) eligible) as [|x l] eqn:E; [done|].
    exists x. apply elem_of_filterb. rewrite E. by left. }
  split_and!.
  - done.
  - apply eligible_elem.
  - intros x Hx. by apply well_assigned_spec, (forallb_all _ joined).
  - by apply Hex.
  - by apply Hex.
  - intros x y. apply balanced. apply Nat.eqb_eq in Hcont. by destruct (contaminated_windows eligible).
  - done.
  - apply arm_rates in Etm as [Hte Htf].
    intros a [-> | ->]; split; apply or_zero_below; [by eapply fmax_le_l..| |].
    + eapply fmax_le_r; [exact Hte|exact Herr].
    + eapply fmax_le_r; [exact Htf|exact Hfb].
  - by eapply or_inf_below, fmax_le_l.
  - by apply or_zero_below.
  - intros Hn. by eapply or_inf_below, fmax_le_r.
Qed.

(** ** An experiment of eight requests *)

Definition demo_decision (i : Z) : val := VDict
  [("request_id", VInt i); ("experiment_id", VStr "x"); ("assignment_probability", VFloat (dec 5 (-1)));
   ("assigned_policy", VStr (if Z.even i then "a" else "b")); ("experiment_window", VInt (i / 2 + i mod 2 * 10));
   ("warmup", VBool (8 <=? i)%Z)]%string.
Definition demo_outcome (i : Z) : val := VDict
  [("request_id", VInt i); ("success", VBool true); ("ttft_ms", VInt (if Z.even i then 200 + i else 100 + i)%Z)]%string.
Definition demo_loads (line : string) : res val :=
  match chars line with
  | [k; c] => Ok (if Ascii.eqb k "d" then demo_decision (code c - 48) else demo_outcome (code c - 48))
  | _ => Err (ValueError "Expecting value")
  end.
Definition demo_files (k : string) : list (string * string) :=
  [("a.jsonl", join (str [chr 10]) (map (fun i => k +:+ str_of_Z i) [0; 1; 2; 3; 4; 5; 6; 7; 8; 9]))]%string.
Definition demo_timestamp (s : string) : res float := Err (ValueError "Invalid isoformat string").
Definition demo_design : design :=
  {| experiment_id := "x"; control_policy := "a"; treatment_policy := "b";
     slo := {| o_ttft := of_Z 500; o_tpot := None; o_stream_gap := None |};
     min_requests := 7; bootstrap_samples := 20; seed := 7;
     limits := {| max_error_rate := Some (dec 1 (-2)); max_fallback_rate := Some (dec 2 (-2));
                  max_p95_ttft_ms := Some (of_Z 500); max_prediction_mae_ms := Some (of_Z 30) |} |}.
Definition ok_or {A} (x : A) (r : res A) : A := match r with Ok y => y | Err _ => x end.
Definition demo_drows := ok_or [] (read_jsonl_dicts demo_loads (demo_files "d")).
Definition demo_decisions := ok_or [] (by_request_id (fun x => is_vstr (dgetv x "experiment_id") "x") demo_drows).
Definition demo_orows := ok_or [] (read_jsonl_dicts demo_loads (demo_files "o")).
Definition demo_outcomes := ok_or [] (by_request_id (fun x => truthy (dgetv x "request_id")) demo_orows).

Definition demo_result : res evaluation :=
  evaluate_experiment demo_timestamp demo_loads (demo_files "d") (demo_files "o") demo_design.

Lemma promotion_gates_witness : exists r, demo_result = Ok r /\ e_promotion_eligible r = true /\
  fltb (e_ci_high r) f0 = true /\ min_requests demo_design <= zlen (eligible_rows (join_rows demo_decisions demo_outcomes)).
Proof.
  assert (Hp : match demo_result with Ok r => e_promotion_eligible r | Err _ => false end = true) by (vm_compute; reflexivity).
  destruct demo_result as [r|] eqn:Hr; [|discriminate Hp]. exists r. split; [reflexivity|]. split; [exact Hp|].
  destruct (promotion_gates demo_timestamp demo_loads (demo_files "d") (demo_files "o") demo_design
    demo_drows demo_decisions demo_orows demo_outcomes r) as (Hmin & _ & _ & _ & _ & _ & Hci & _);
    [vm_compute; reflexivity..|exact Hr|exact Hp|split; [exact Hci|exact Hmin]].
Defined.

Definition demo_rows : list row := join_rows demo_decisions demo_outcomes.
Definition demo_arm : res arm := _arm_metrics demo_timestamp demo_rows (slo demo_design).
Lemma arm_accounting_witness : exists a, demo_arm = Ok a /\ m_requests a = 9 /\ zsum (map snd (m_reasons a)) = 9.
Proof.
  destruct demo_arm as [a|] eqn:E; [|vm_compute in E; discriminate E]. exists a. split; [reflexivity|].
  destruct (arm_accounting demo_timestamp demo_rows (slo demo_design) a E) as (v & _ & _ & Hn & _ & _ & _ & Hs).
  assert (H9 : zlen demo_rows = 9) by (vm_compute; reflexivity).
  split; [rewrite Hn; exact H9|rewrite Hs, Hn; exact H9].
Defined.

(** A treatment whose slowest requests never end has a NaN tail latency, and the
    guardrail on it passes: [max(control, nan)] is [control]. *)
Example nan_passes_guardrail :
  let endless := {| decision := []; outcome := [("success", VBool true); ("ttft_ms", VFloat finf)]%string |} in
  match _arm_metrics demo_timestamp demo_rows (slo demo_design),
        _arm_metrics demo_timestamp [endless; endless; endless] (slo demo_design) with
  | Ok control, Ok treatment =>
      m_ttft_p95 treatment = Some S754_nan /\ dget (safety_of demo_design control treatment) "p95_ttft" = Some true
  | _, _ => False
  end.
Proof. vm_compute. split; reflexivity. Qed.
