(* ===== verification/Gather.v ===== *)
(** * Bounded concurrent batches: [asyncio.gather] behind an [asyncio.Semaphore]

    The benchmark runners start one task per request; a task waits for a slot of the
    semaphore, performs its request and records the result.  Tasks take slots in the
    order they were created and finish in any order.  A runner is a client of this
    file: it supplies what a request may return ([perform]) and reads the results. *)

From S2P Require Import Prelude.
From stdpp Require Import relations.

Section gather.
Context {T R : Type} (perform : T -> R -> Prop) (limit : nat).

(** Tasks carry their index; [finished] is in the order of completion. *)
Record pool := {
  waiting : list (nat * T);
  running : list (nat * T);
  finished : list (nat * T * R)
}.

Inductive step : pool -> pool -> Prop :=
| Acquire j w r f : (length r < limit)%nat ->
    step {| waiting := j :: w; running := r; finished := f |}
         {| waiting := w; running := r ++ [j]; finished := f |}
| Complete w r1 j r2 f x : perform j.2 x ->
    step {| waiting := w; running := r1 ++ j :: r2; finished := f |}
         {| waiting := w; running := r1 ++ r2; finished := f ++ [(j, x)] |}.

Definition start (jobs : list T) : pool := {| waiting := indexed jobs; running := []; finished := [] |}.
Definition done_pool (p : pool) : Prop := waiting p = [] /\ running p = [].
Definition reachable (jobs : list T) : pool -> Prop := rtc step (start jobs).

(** What every reachable state satisfies: the semaphore's bound, every task in exactly
    one place, every result possible for its task. *)
Record sound (jobs : list T) (p : pool) : Prop := {
  sd_bound : (length (running p) <= limit)%nat;
  sd_tasks : waiting p ++ running p ++ map fst (finished p) ≡ₚ indexed jobs;
  sd_results : Forall (fun jr : nat * T * R => perform jr.1.2 jr.2) (finished p)
}.

Lemma sound_start jobs : sound jobs (start jobs).
Proof. constructor; simpl; [lia|by rewrite app_nil_r|done]. Qed.
Lemma sound_step jobs p q : step p q -> sound jobs p -> sound jobs q.
Proof.
  intros Hs [Hb Ht Hr]. destruct Hs as [j w r f Hl|w r1 j r2 f x Hx]; cbn in *.
  - constructor; cbn; [rewrite length_app; simpl; lia| |done].
    rewrite <- Ht, <- (app_assoc r [j]). cbn. rewrite (app_assoc w r), <- Permutation_middle. by rewrite <- app_assoc.
  - constructor; cbn.
    + rewrite !length_app in *. simpl in *. lia.
    + rewrite <- Ht, map_app. cbn. f_equiv. rewrite <- !app_assoc. f_equiv. cbn.
      by rewrite app_assoc, <- Permutation_cons_append.
    + apply Forall_app. split; [done|]. by constructor.
Qed.
Lemma sound_reachable jobs p : reachable jobs p -> sound jobs p.
Proof.
  unfold reachable. intros H. remember (start jobs) as s eqn:E.
  assert (Hs : sound jobs s) by (subst; apply sound_start). clear E.
  induction H as [|x y z Hxy _ IH]; [done|]. by eapply IH, sound_step.
Qed.

(** No deadlock: as long as a task is left and requests end, some task can move. *)
Lemma progress p : (0 < limit)%nat -> (forall t, exists x, perform t x) -> ~ done_pool p -> exists q, step p q.
Proof.
  intros Hl Hp Hd. destruct p as [w r f]. destruct r as [|j r].
  - destruct w as [|j w]; [by destruct Hd|]. eexists. by apply Acquire.
  - destruct (Hp j.2) as [x Hx]. eexists. by apply (Complete w [] j r f x).
Qed.

(** Every step makes headway, so a batch of [n] tasks ends after exactly [2 n] steps. *)
Definition work (p : pool) : nat := 2 * length (waiting p) + length (running p).
Lemma step_work p q : step p q -> work p = S (work q).
Proof. destruct 1; unfold work; cbn; rewrite ?length_app; simpl; lia. Qed.
Lemma indexed_length {A} (l : list A) : length (indexed l) = length l.
Proof. unfold indexed. rewrite length_combine, length_seq. lia. Qed.
Lemma steps_work n p q : nsteps step n p q -> (work p = n + work q)%nat.
Proof. induction 1 as [|n x y z Hs _ IH]; [done|]. apply step_work in Hs. lia. Qed.
Lemma steps_bounded jobs n p : nsteps step n (start jobs) p -> (n <= 2 * length jobs)%nat.
Proof.
  intros H%steps_work.
  assert (Hs : work (start jobs) = (2 * length jobs)%nat) by (unfold work; cbn; rewrite indexed_length; lia). lia.
Qed.

(** At the end the finished tasks are the tasks, each exactly once. *)
Lemma finished_all jobs p : reachable jobs p -> done_pool p ->
  map fst (finished p) ≡ₚ indexed jobs /\ map (fun jr : nat * T * R => jr.1.2) (finished p) ≡ₚ jobs /\
  length (finished p) = length jobs.
Proof.
  intros Hr [Hw Hrun]. pose proof (sound_reachable _ _ Hr) as [_ Ht _]. rewrite Hw, Hrun in Ht. cbn in Ht.
  split_and!; [done| |].
  - rewrite <- (map_map fst snd), Ht, indexed_snd. done.
  - apply Permutation_length in Ht. by rewrite length_map, indexed_length in Ht.
Qed.

(** [await asyncio.gather(...)]: the results in the order of the tasks. *)
Definition result_of (p : pool) (i : nat) : option R :=
  snd <$> List.find (fun jr : nat * T * R => Nat.eqb jr.1.1 i) (finished p).
Definition gathered (p : pool) (n : nat) : list R := omap (result_of p) (seq 0 n).

Lemma result_of_task jobs p i t : reachable jobs p -> done_pool p -> jobs !! i = Some t ->
  exists x, result_of p i = Some x /\ perform t x.
Proof.
  intros Hr Hd Hi. destruct (finished_all _ _ Hr Hd) as (Hf & _ & _).
  pose proof (sound_reachable _ _ Hr) as [_ _ Hx]. unfold result_of.
  assert (Hin : (i, t) ∈ map fst (finished p)) by (rewrite Hf; by apply indexed_elem).
  apply list_elem_of_In, in_map_iff in Hin as ([[i' t'] x] & [= -> ->] & Hin).
  destruct (List.find _ _) as [[[i2 t2] x2]|] eqn:E.
  - apply find_some_elem in E as [Hin2 Heq]. cbn in Heq. apply Nat.eqb_eq in Heq as ->.
    assert (Ht2 : (i, t2) ∈ indexed jobs).
    { rewrite <- Hf. apply list_elem_of_In, in_map_iff. exists (i, t2, x2). by rewrite <- list_elem_of_In. }
    apply indexed_elem in Ht2. exists x2. split; [done|].
    eapply Forall_forall in Hx; [|exact Hin2]. cbn in Hx. congruence.
  - apply (find_none _ _ E) in Hin. cbn in Hin. by rewrite Nat.eqb_refl in Hin.
Qed.

Lemma gathered_results jobs p : reachable jobs p -> done_pool p ->
  Forall2 perform jobs (gathered p (length jobs)).
Proof.
  intros Hr Hd. unfold gathered.
  assert (H : forall l k, (forall i t, l !! i = Some t -> jobs !! (k + i)%nat = Some t) ->
    Forall2 perform l (omap (result_of p) (seq k (length l)))).
  { intros l. induction l as [|t l IH]; intros k Hk; [constructor|]. cbn [length seq omap list_omap].
    destruct (result_of_task jobs p k t Hr Hd) as (x & -> & Hx).
    { specialize (Hk 0%nat t eq_refl). by rewrite Nat.add_0_r in Hk. }
    constructor; [done|]. apply IH. intros i u Hu. specialize (Hk (S i) u Hu). by rewrite Nat.add_succ_r in Hk. }
  by apply H.
Qed.
End gather.
Arguments pool : clear implicits.
