(* ===== verification/LoadRunner.v ===== *)
(** * The HTTP load runner (benchmark/runner.py)

    Requests are derived from a base seed, sent in bounded concurrent batches (a
    warm-up batch, then the measured one) and summarised.  The server is a relation
    between a request and its response; the clock readings are arguments. *)

From stdpp Require Import relations.
From S2P Require Import Prelude PyFloat FloatOrder FloatRound PyStr PyVal Digest WindowMetrics Percentile Solve Predictor Random Gather.

(** ** Requests *)

Definition hex_val (c : ascii) : Z := if is_digit c then code c - 48 else code c - 87.
(** [int(digest[:16], 16)] of the hash of [f"{base_seed}:{request_id}"] *)
Definition deterministic_request_seed (base_seed request_id : Z) : Z :=
  foldl (fun acc c => acc * 16 + hex_val c) 0
    (take 16 (chars (sha256_hex (str_of_Z base_seed +:+ ":" +:+ str_of_Z request_id)))).

Definition alphabet : list ascii := chars "abcdefghijklmnopqrstuvwxyz ".
Definition _build_prompt (seed input_len : Z) : res (list ascii) :=
  ' (l, _) <-! choices (Z.to_nat (Z.max input_len 1)) alphabet (Random seed) ;; Ok l.

(** [s[:n]] *)
Definition slice_to {A} (l : list A) (n : Z) : list A :=
  take (Z.to_nat (if n <? 0 then Z.max 0 (zlen l + n) else n)) l.

(** ["S" * max(0, n)], [f"{shared}\n{unique}" if shared else unique], and the cut or
    padding to a length. *)
Definition shared_text (n : Z) : list ascii := replicate (Z.to_nat (Z.max 0 n)) "S"%char.
Definition after_shared (shared unique : list ascii) : list ascii :=
  match shared with [] => unique | _ => shared ++ [chr 10] ++ unique end.
Definition fit_to (n : Z) (prompt : list ascii) : list ascii :=
  if n <? zlen prompt then slice_to prompt n
  else if zlen prompt <? n then prompt ++ replicate (Z.to_nat (n - zlen prompt)) "x"%char
  else prompt.

Record Params := {
  base_url : string;
  endpoint : string;
  model : string;
  num_requests : Z;
  concurrency : Z;
  base_seed : Z;
  input_len : Z;
  output_len : Z;
  shared_prefix_ratio : float;
  shared_prefix_len : Z;
  unique_suffix_len : Z;
  warmup_requests : Z
}.

Section runner.
Context (prm : Params).

Definition use_shared (seed : Z) : bool :=
  (random_float (Random (Z.lxor seed 1515870810))).1 <?. fmax f0 (fmin f1 (shared_prefix_ratio prm)).
Definition shared_length (seed : Z) : Z := if use_shared seed then shared_prefix_len prm else 0.
Definition _build_prompt_with_reuse (seed : Z) : res (list ascii) :=
  let shared_len := shared_length seed in
  unique <-! _build_prompt (seed + 1) (Z.max 1 (Z.max (input_len prm - shared_len) (unique_suffix_len prm))) ;;
  Ok (fit_to (input_len prm) (after_shared (shared_text shared_len) unique)).

Definition _request_digest (prompts : list (list ascii)) : string :=
  sha256_hex (utf8 (str (mjoin (map (fun p => p ++ [chr 10]) prompts)))).

Definition request_url : string := rstrip_char "/"%char (base_url prm) +:+ endpoint prm.
Definition payload (prompt : list ascii) : val := VDict
  [("model", VStr (model prm)); ("prompt", VStr (str prompt)); ("max_tokens", VInt (Z.max 1 (output_len prm)));
   ("temperature", VFloat f0)]%string.

(** [_one_request]: the time it took and whether the status was below 400; an exception
    of the client is a failed request. *)
Definition _one_request (response : res Z) (t0 t1 : float) : float * bool :=
  (t1 ⊖ t0, match response with Ok status => status <? 400 | Err _ => false end).

(** ** Batches *)

Definition slots : nat := Z.to_nat (Z.max 1 (concurrency prm)).

(** What a request of a seed may record, for a server that answers [response] to a
    [payload] at a URL. *)
Definition perform (server : string -> val -> res Z -> Prop) (seed : Z) (r : float * bool) : Prop :=
  exists prompt response t0 t1, _build_prompt_with_reuse seed = Ok prompt /\
    server request_url (payload prompt) response /\ r = _one_request response t0 t1.

Record batch := { b_latencies : list float; b_ok : Z; b_total : Z; b_failed : Z; b_elapsed_s : float }.
Definition _run_request_batch (finished : list (nat * Z * (float * bool))) (t_start t_end : float) : batch :=
  let results := map snd finished in
  let ok := zlen (List.filter snd results) in
  {| b_latencies := map fst results; b_ok := ok; b_total := zlen results; b_failed := zlen results - ok;
     b_elapsed_s := fmax (dec 1 (-9)) (t_end ⊖ t_start) |}.

(** [list(range(max(0, n)))], and the seeds of the two batches. *)
Definition ids (n : Z) : list Z := map Z.of_nat (seq 0 (Z.to_nat (Z.max 0 n))).
Definition req_seeds : list Z := map (deterministic_request_seed (base_seed prm)) (ids (num_requests prm)).
Definition warmup_seeds : list Z :=
  map (deterministic_request_seed (Z.lxor (base_seed prm) 2779096485)) (ids (warmup_requests prm)).

Definition run_custom_http (warmup measured : batch) (run_started_ts warmup_end_ts run_finished_ts : float) : res dict :=
  prompts <-! res_map _build_prompt_with_reuse req_seeds ;;
  let latencies := b_latencies measured in
  p95 <-! Runner._percentile latencies (dec 95 (-2)) ;;
  e2e_mean <-! (match latencies with [] => Ok f0 | _ => m <-! mean latencies ;; Ok (m ⊗ of_Z 1000) end) ;;
  ok <-! float_of_int (b_ok measured) ;;
  req_s <-! fdiv ok (b_elapsed_s measured) ;;
  Ok [("requests", VDict [("total", VInt (b_total measured)); ("ok", VInt (b_ok measured)); ("failed", VInt (b_failed measured))]);
      ("latency", VDict [("e2e_latency_p95_ms", VFloat (p95 ⊗ of_Z 1000)); ("e2e_latency_mean_ms", VFloat e2e_mean);
                         ("ttft_p95_ms", VNone); ("tpot_p95_ms", VNone)]);
      ("warmup", VDict [("requests", VInt (zlen warmup_seeds)); ("completed", VInt (b_total warmup)); ("ok", VInt (b_ok warmup));
                        ("failed", VInt (b_failed warmup)); ("elapsed_s", VFloat (b_elapsed_s warmup))]);
      ("timing", VDict [("run_started_ts", VFloat run_started_ts); ("warmup_end_ts", VFloat warmup_end_ts);
                        ("run_finished_ts", VFloat run_finished_ts)]);
      ("throughput", VDict [("req_s", VFloat req_s); ("elapsed_s", VFloat (b_elapsed_s measured))]);
      ("workload", VDict [("shared_prefix_ratio", VFloat (shared_prefix_ratio prm));
                          ("shared_prefix_len", VInt (shared_prefix_len prm));
                          ("unique_suffix_len", VInt (unique_suffix_len prm)); ("input_len", VInt (input_len prm));
                          ("output_len", VInt (output_len prm)); ("concurrency", VInt (concurrency prm));
                          ("num_requests", VInt (num_requests prm)); ("warmup_requests", VInt (zlen warmup_seeds))]);
      ("reproducibility", VDict [("base_seed", VInt (base_seed prm));
                                 ("request_seed_strategy", VStr "sha256(base_seed:request_id)");
                                 ("prompt_digest_sha256", VStr (_request_digest prompts))])]%string.
End runner.

Example seed_of_first_request : deterministic_request_seed 42 0 = 6085284259181818738.
Proof. vm_compute. reflexivity. Qed.
Example prompt_known : _build_prompt 7 10 = Ok (chars "kemubc rdl").
Proof. vm_compute. reflexivity. Qed.

(** ** Properties *)

Lemma build_prompt_spec seed n l : _build_prompt seed n = Ok l -> zlen l = Z.max n 1 /\ Forall (.∈ alphabet) l.
Proof.
  unfold _build_prompt. destruct (choices _ _ _) as [[xs g]|] eqn:E; [|done]. intros [= <-].
  apply choices_elem in E as [Hl Hf]. split; [unfold zlen; lia|done].
Qed.
Lemma fit_to_cut n l : 0 <= n <= zlen l -> fit_to n l = take (Z.to_nat n) l.
Proof.
  intros Hn. unfold fit_to, slice_to. destruct (Z.ltb_spec n (zlen l)).
  - destruct (Z.ltb_spec n 0); [lia|done].
  - destruct (Z.ltb_spec (zlen l) n); [lia|]. rewrite take_ge; [done|]. unfold zlen in *. lia.
Qed.
Lemma shared_text_length n : zlen (shared_text n) = Z.max 0 n.
Proof. unfold zlen, shared_text. rewrite length_replicate. lia. Qed.
Lemma after_shared_length s u : zlen u <= zlen (after_shared s u) /\
  (0 < zlen s -> zlen (after_shared s u) = zlen s + 1 + zlen u).
Proof.
  destruct s as [|c s]; cbn [after_shared]; [split; [lia|by unfold zlen]|].
  rewrite !zlen_app. assert (Hc : zlen [chr 10] = 1) by done. rewrite Hc. pose proof (zlen_nonneg (c :: s)). lia.
Qed.
Lemma after_shared_prefix s u : exists rest, s <> [] -> after_shared s u = s ++ rest.
Proof. destruct s; [by exists []|]. by eexists. Qed.

Definition prompt_char (c : ascii) : Prop := c ∈ alphabet \/ c = "S"%char \/ c = chr 10.
Lemma after_shared_chars n u : Forall (.∈ alphabet) u -> Forall prompt_char (after_shared (shared_text n) u).
Proof.
  intros Hu.
  assert (H1 : Forall prompt_char u) by (eapply Forall_impl; [exact Hu|]; intros c Hc; by left).
  assert (H2 : Forall prompt_char (shared_text n)) by (apply Forall_replicate; by right; left).
  destruct (shared_text n); [done|]. cbn [after_shared]. apply Forall_app. split; [done|].
  constructor; [by right; right|done].
Qed.

Lemma cut_shape n sl k unique :
  0 <= n -> zlen unique = Z.max (Z.max 1 (Z.max (n - sl) k)) 1 -> Forall (.∈ alphabet) unique ->
  let p := fit_to n (after_shared (shared_text sl) unique) in
  zlen p = n /\ (forall i, (i < Z.to_nat (Z.min sl n))%nat -> p !! i = Some "S"%char) /\ Forall prompt_char p.
Proof.
  intros Hn Hul Hua. cbv zeta. pose proof (shared_text_length sl) as Hsl.
  destruct (after_shared_length (shared_text sl) unique) as [Hu1 Hu2].
  rewrite fit_to_cut by lia. split_and!.
  - unfold zlen in *. rewrite length_take. lia.
  - intros i Hi. rewrite lookup_take_lt by lia.
    destruct (after_shared_prefix (shared_text sl) unique) as [rest Hrest].
    rewrite Hrest by (intros E; rewrite E in Hsl; unfold zlen in Hsl; simpl in Hsl; lia).
    rewrite lookup_app_l by (unfold zlen in Hsl; lia). apply lookup_replicate_2. lia.
  - by apply Forall_take, after_shared_chars.
Qed.

(** Every prompt has exactly the requested length: it is cut, never padded; a
    request of the shared group starts with the shared prefix (as much of it as fits),
    and apart from that prefix and its newline a prompt holds letters and blanks only. *)
Theorem prompt_shape prm seed prompt :
  _build_prompt_with_reuse prm seed = Ok prompt -> 0 <= input_len prm ->
  zlen prompt = input_len prm /\
  (use_shared prm seed = true -> forall i, (i < Z.to_nat (Z.min (shared_prefix_len prm) (input_len prm)))%nat ->
     prompt !! i = Some "S"%char) /\
  Forall prompt_char prompt.
Proof.
  unfold _build_prompt_with_reuse, shared_length. destruct (use_shared prm seed); intros H Hin.
  all: destruct (_build_prompt _ _) as [unique|] eqn:Eu; [|discriminate H]; apply build_prompt_spec in Eu as [Hul Hua];
    assert (Hp : forall x : list ascii, Ok x = Ok prompt -> x = prompt) by congruence; apply Hp in H; subst prompt;
    destruct (cut_shape _ _ _ _ Hin Hul Hua) as (H1 & H2 & H3); by split_and!.
Qed.

Definition demo_params : Params :=
  {| base_url := "http://localhost:8000/"; endpoint := "/v1/completions"; model := "m"; num_requests := 3;
     concurrency := 2; base_seed := 42; input_len := 40; output_len := 8; shared_prefix_ratio := dec 5 (-1);
     shared_prefix_len := 8; unique_suffix_len := 16; warmup_requests := 0 |}.

Lemma prompt_shape_witness : exists prompt,
  _build_prompt_with_reuse demo_params 42 = Ok prompt /\ zlen prompt = 40.
Proof.
  assert (H : is_ok (_build_prompt_with_reuse demo_params 42) = true) by (vm_compute; reflexivity).
  destruct (_build_prompt_with_reuse demo_params 42) as [prompt|] eqn:E; [|discriminate H].
  exists prompt. split; [reflexivity|].
  destruct (prompt_shape demo_params 42 prompt E) as (Hl & _); [simpl; lia|exact Hl].
Defined.


(** A server that answers 200 to every request. *)
Definition demo_server (url : string) (body : val) (response : res Z) : Prop := response = Ok 200.
