(* ===== verification/Experiment.v ===== *)
(** * One windowed experiment and the aggregation of repeats (benchmark/experiment.py,
    benchmark/collect.py)

    A run scrapes the backend and the exporter before and after the load, and derives
    the hit ratio of its window from the two backend scrapes.  The HTTP client, the
    metrics parser, the clock and [str(exc)] are the environment. *)

From S2P Require Import Prelude PyFloat FloatOrder PyStr PyVal PromParse WindowMetrics Solve Predictor.

Definition RUN_ENTRY_SCHEMA_VERSION : Z := 3.
Definition EXPERIMENT_SCHEMA_VERSION : Z := 3.

Record scenario := { sc_shared_prefix_ratio : float; sc_shared_prefix_len : Z; sc_unique_suffix_len : Z }.
Definition scenario_config (name : string) : scenario :=
  if String.eqb name "high_reuse"
  then {| sc_shared_prefix_ratio := dec 95 (-2); sc_shared_prefix_len := 256; sc_unique_suffix_len := 64 |}
  else {| sc_shared_prefix_ratio := f0; sc_shared_prefix_len := 0; sc_unique_suffix_len := 256 |}.

(** ** Scrapes *)

Record Env := {
  text_string_to_metric_families : string -> res (list Family);
  label_filter_env : string;
  exc_text : exn -> string;                          (* str(exc) *)
  get_backend_before : string -> res string;         (* client.get, raise_for_status, .text *)
  get_exporter_before : string -> res string;
  get_backend_after : string -> res string;
  get_exporter_after : string -> res string;
  now_start : float;                                 (* time.time() at each use *)
  now_backend_before : float;
  now_exporter_before : float;
  now_end : float;
  now_backend_after : float;
  now_exporter_after : float
}.

Definition metrics_dict (m : metrics) : dict := map (fun kv : string * float => (kv.1, VFloat kv.2)) m.

Section experiment.
Context (env : Env).

Definition fetch_metrics_snapshot (get : string -> res string) (url : string) (label_filter : option labels) (now : float)
  : res dict :=
  let filt := match label_filter with Some f => Some f | None => parse_label_filter_from_env (label_filter_env env) end in
  text <-! get url ;;
  make_metric_snapshot
    (metrics_dict (aggregate_prometheus_text (text_string_to_metric_families env) (label_filter_env env) text filt))
    (Some now) "" now.
Definition parse_metrics_text (text : string) (label_filter : option labels) : metrics :=
  let filt := match label_filter with Some f => Some f | None => parse_label_filter_from_env (label_filter_env env) end in
  aggregate_prometheus_text (text_string_to_metric_families env) (label_filter_env env) text filt.

(** [try: fetch ... except Exception as exc: make_metric_snapshot({}, error=str(exc))],
    with the error text, empty when the scrape succeeded. *)
Definition snapshot_or_error (fetched : res dict) (now : float) : res (dict * string) :=
  match fetched with
  | Ok s => Ok (s, "")
  | Err e => s <-! make_metric_snapshot [] (Some now) (exc_text env e) now ;; Ok (s, exc_text env e)
  end.

Definition set_in (d : dict) (outer inner : string) (v : val) : dict :=
  match dgetv d outer with VDict sub => dset d outer (VDict (dset sub inner v)) | _ => d end.

(** [load] is the measured load, [asyncio.run(run_custom_http(...))]. *)
Definition run_windowed_experiment (repeat : Z) (backend_metrics_url exporter_metrics_url : string)
  (load : res dict) (point_label : string) : res dict :=
  ' (backend_before, before_error) <-! snapshot_or_error
    (fetch_metrics_snapshot (get_backend_before env) backend_metrics_url None (now_backend_before env)) (now_backend_before env) ;;
  ' (exporter_before, _) <-! snapshot_or_error
    (fetch_metrics_snapshot (get_exporter_before env) exporter_metrics_url None (now_exporter_before env)) (now_exporter_before env) ;;
  summary <-! load ;;
  let timing := dget_or summary "timing" (VDict []) in
  warmup_end_ts <-! vget timing "warmup_end_ts" VNone ;;
  finished <-! vget timing "run_finished_ts" (VFloat (now_end env)) ;;
  end_ts <-! float_of_val finished ;;
  ' (backend_after, after_error) <-! snapshot_or_error
    (fetch_metrics_snapshot (get_backend_after env) backend_metrics_url None (now_backend_after env)) (now_backend_after env) ;;
  let exporter_fetch := fetch_metrics_snapshot (get_exporter_after env) exporter_metrics_url None (now_exporter_after env) in
  ' (exporter_after, _) <-! snapshot_or_error exporter_fetch (now_exporter_after env) ;;
  let exporter_metrics := match exporter_fetch with
                          | Ok s => match dgetv s "metrics" with VDict m => m | _ => [] end
                          | Err _ => []
                          end in
  warmup_end <-! (match warmup_end_ts with VNone => Ok None | v => x <-! float_of_val v ;; Ok (Some x) end) ;;
  let entry := make_run_entry repeat summary exporter_metrics (Some (now_start env)) warmup_end (Some end_ts) "backend" in
  let entry := dset entry "schema_version" (VInt RUN_ENTRY_SCHEMA_VERSION) in
  let entry := if String.eqb point_label "" then entry else dset entry "point_label" (VStr point_label) in
  let entry := set_in entry "metric_snapshots" "backend_before" (VDict backend_before) in
  let entry := set_in entry "metric_snapshots" "backend_after" (VDict backend_after) in
  let entry := set_in entry "metric_snapshots" "exporter_before" (VDict exporter_before) in
  let entry := set_in entry "metric_snapshots" "exporter_after" (VDict exporter_after) in
  window_metrics <-! derive_window_metrics (VDict backend_before) (VDict backend_after)
    DEFAULT_PREFIX_HITS_KEYS DEFAULT_PREFIX_QUERIES_KEYS "backend" ;;
  let missing := negb (String.eqb before_error "") || negb (String.eqb after_error "")
                 || truthy (dgetv window_metrics "metrics_missing") in
  let window_metrics := dset window_metrics "metrics_missing" (VBool missing) in
  let window_metrics := dset window_metrics "metrics_stale" (VBool false) in
  let entry := dset entry "derived_window_metrics" (VDict window_metrics) in
  quality <-! summarize_entry_quality entry ;;
  Ok (dset entry "quality" (VDict quality)).
End experiment.

(** ** Aggregating the repeats of a point *)

(** [sum(l) / len(l) if l else None] *)
Definition average_or_none (l : list float) : res val :=
  match l with
  | [] => Ok VNone
  | _ => n <-! float_of_int (zlen l) ;; q <-! fdiv (fsum l) n ;; Ok (VFloat q)
  end.
Definition average (l : list float) : res val :=
  n <-! float_of_int (zlen l) ;; q <-! fdiv (fsum l) n ;; Ok (VFloat q).

(** [e["summary"][section][key]] as a float. *)
Definition summary_number (section key : string) (e : dict) : res float :=
  s <-! vitem (VDict e) "summary" ;; t <-! vitem s section ;; x <-! vitem t key ;; float_of_val x.
(** The optional numbers, [None] when the key is missing or null. *)
Definition optional_float (v : val) : res (option float) :=
  match v with VNone => Ok None | _ => x <-! float_of_val v ;; Ok (Some x) end.
Definition goodput_of (e : dict) : res (option float) :=
  s <-! vitem (VDict e) "summary" ;; v <-! vget s "goodput_req_s" VNone ;; optional_float v.
Definition gpu_seconds_of (e : dict) : res (option float) :=
  v <-! vget (dget_or e "resource" (VDict [])) "gpu_seconds" VNone ;; optional_float v.
Definition ok_hit_ratio (e : dict) : res (option float) :=
  ' (hit_ratio, metric_quality) <-! get_entry_hit_ratio_and_quality e ;;
  Ok (if String.eqb metric_quality "ok" then hit_ratio else None).
Definition hidden_reuse (e : dict) : res float :=
  v <-! vget (dget_or e "exporter_metrics" (VDict [])) "kvcache_kv_hidden_reuse_ready_perc" (VFloat f0) ;; float_of_val v.

Definition aggregate_run_entries (entries : list dict) : res dict :=
  match entries with
  | [] => q <-! summarize_runs_quality entries ;; Ok [("repeats", VInt 0); ("quality_summary", VDict q)]%string
  | _ =>
      req_s <-! res_map (summary_number "throughput" "req_s") entries ;;
      e2e <-! res_map (summary_number "latency" "e2e_latency_p95_ms") entries ;;
      hits <-! res_map ok_hit_ratio entries ;;
      hidden <-! res_map hidden_reuse entries ;;
      goodput <-! res_map goodput_of entries ;;
      gpu <-! res_map gpu_seconds_of entries ;;
      quality <-! summarize_runs_quality entries ;;
      req_s_mean <-! average req_s ;;
      e2e_mean <-! average e2e ;;
      hit_mean <-! average_or_none (omap id hits) ;;
      hidden_mean <-! average hidden ;;
      goodput_mean <-! average_or_none (omap id goodput) ;;
      gpu_mean <-! average_or_none (omap id gpu) ;;
      missing <-! int_of_val (dgetv quality "num_runs_missing_hit_ratio") ;;
      stale <-! int_of_val (dgetv quality "num_runs_stale_metrics") ;;
      Ok [("repeats", VInt (zlen entries)); ("req_s_mean", req_s_mean); ("e2e_p95_ms_mean", e2e_mean);
          ("hit_ratio_mean", hit_mean); ("hidden_reuse_mean", hidden_mean); ("goodput_req_s_mean", goodput_mean);
          ("gpu_seconds_mean", gpu_mean); ("quality_summary", VDict quality);
          ("hit_ratio_missing_count", VInt missing); ("hit_ratio_stale_count", VInt stale)]%string
  end.

(** ** Properties *)

Lemma metric_snapshot_shape m ts error now s : make_metric_snapshot m ts error now = Ok s ->
  exists ms, s = [("ts", VFloat (default now ts)); ("metrics", VDict ms); ("error", VStr error)]%string /\
    (m = [] -> ms = []).
Proof.
  unfold make_metric_snapshot. destruct (res_map _ m) as [ms|] eqn:E; [|done]. intros [= <-].
  exists ms. split; [done|]. intros ->. by injection E as <-.
Qed.
(** A failed scrape has no counters; without an error text it looks like one that
    found none yet. *)
Definition failed_snapshot (now : float) (text : string) : dict :=
  [("ts", VFloat now); ("metrics", VDict []); ("error", VStr text)]%string.
(** A scrape that failed leaves a snapshot without counters that carries the error text. *)
Lemma snapshot_or_error_spec env fetched now s err : snapshot_or_error env fetched now = Ok (s, err) ->
  match fetched with
  | Ok s' => s = s' /\ err = ""
  | Err e => err = exc_text env e /\
      s = failed_snapshot now (exc_text env e)
  end.
Proof.
  unfold snapshot_or_error. destruct fetched as [s'|e]; [by intros [= <- <-]|].
  destruct (make_metric_snapshot _ _ _ _) as [s'|] eqn:E; [|done]. intros [= <- <-].
  apply metric_snapshot_shape in E as (ms & -> & Hms). by rewrite (Hms eq_refl).
Qed.

(** The ratio of a window: it needs the counters of the scrape after the run, and of
    the scrape before it unless that one reports no error. *)
Lemma window_ratio before after hk qk source out :
  derive_window_metrics before after hk qk source = Ok out ->
  exists ratio, dgetv out "cache_hit_ratio_window" = opt_float ratio /\
    forall r, ratio = Some r -> in01 r = true /\
      (exists x n, pick_from (snapshot_metrics after) hk = Ok (Some x, n)) /\
      ((exists x n, pick_from (snapshot_metrics before) hk = Ok (Some x, n)) \/ snapshot_has_error before = Ok false).
Proof.
  unfold derive_window_metrics.
  destruct (pick_from (snapshot_metrics before) hk) as [[hb hbn]|] eqn:Ehb; [|done].
  destruct (pick_from (snapshot_metrics after) hk) as [[ha han]|] eqn:Eha; [|done].
  destruct (pick_from (snapshot_metrics before) qk) as [[qb qbn]|] eqn:Eqb; [|done].
  destruct (pick_from (snapshot_metrics after) qk) as [[qa qan]|] eqn:Eqa; [|done].
  destruct (zero_if_new hb ha before) as [hb'|] eqn:Ezh; [|done].
  destruct (zero_if_new qb qa before) as [qb'|]; [|done]. cbv zeta.
  destruct (compute_hit_ratio_from_deltas _ _) as [ratio|] eqn:Er; [|done]; intros [= <-].
  exists ratio. split; [done|]. intros r ->.
  apply compute_ratio_in01 in Er as (Hin & [h Hh] & _). split; [done|].
  apply counter_delta_some in Hh as (x & y & -> & -> & _). split; [eauto|].
  destruct hb as [b|]; [eauto|]. right. unfold zero_if_new in Ezh.
  destruct (snapshot_has_error before) as [[]|]; congruence.
Qed.
Lemma failed_after_no_ratio now text keys x n :
  pick_from (snapshot_metrics (VDict (failed_snapshot now text))) keys <> Ok (Some x, n).
Proof. simpl. by induction keys. Qed.
Lemma failed_has_error now text : snapshot_has_error (VDict (failed_snapshot now text)) = Ok (negb (String.eqb text "")).
Proof. done. Qed.

Lemma in01_finite r : in01 r = true -> isfinite r = true.
Proof. destruct r as [[]|[]| |]; try done; by vm_compute. Qed.

(** The quality of an entry only looks at three of its keys. *)
Lemma quality_of_window entry d window q :
  dget entry "derived_window_metrics" = Some (VDict d) ->
  dgetv d "cache_hit_ratio_window" = opt_float window -> dgetv d "metrics_stale" = VBool false ->
  (forall r, window = Some r -> in01 r = true) ->
  get_entry_hit_ratio_quality_and_source (dset entry "quality" q) =
    Ok (window, match window with Some _ => "ok" | None => "missing" end, "window")%string.
Proof.
  intros Hd Hw Hs Hr. unfold get_entry_hit_ratio_quality_and_source, coerce_key.
  rewrite dget_dset. cbn [String.eqb Ascii.eqb Bool.eqb]. rewrite Hd, Hw.
  assert (Ht : truthy (dget_or d "metrics_stale" (VBool false)) = false).
  { unfold dgetv, dget_or in *. destruct (dget d "metrics_stale"); simpl in *; by subst. }
  rewrite Ht. destruct window as [r|]; [|done]. simpl.
  unfold _coerce_finite_float. simpl. by rewrite (in01_finite r (Hr r eq_refl)).
Qed.
Lemma quality_ignores_itself entry v :
  summarize_entry_quality (dset entry "quality" v) = summarize_entry_quality entry.
Proof.
  unfold summarize_entry_quality, get_entry_hit_ratio_quality_and_source, get_entry_evidence_quality, dget_or.
  by rewrite !dget_dset.
Qed.

(** C32: the evidence of a run.  A run that returns takes its hit ratio from its own
    window, never from a gauge of the exporter and never stale; the quality it records
    is the one a reader of the entry recomputes.  It is [ok] exactly when there is a
    ratio, which is a number of [0, 1]; then the scrape after the run succeeded, and so
    did the one before it, or it failed with an exception that has no text. *)
Theorem windowed_evidence env repeat burl eurl load label entry :
  run_windowed_experiment env repeat burl eurl load label = Ok entry ->
  exists ratio quality,
    get_entry_hit_ratio_quality_and_source entry =
      Ok (ratio, match ratio with Some _ => "ok" | None => "missing" end, "window")%string /\
    dgetv entry "quality" = VDict quality /\ summarize_entry_quality entry = Ok quality /\
    (forall r, ratio = Some r -> in01 r = true /\
       is_ok (fetch_metrics_snapshot env (get_backend_after env) burl None (now_backend_after env)) = true /\
       match fetch_metrics_snapshot env (get_backend_before env) burl None (now_backend_before env) with
       | Ok _ => True
       | Err e => exc_text env e = ""
       end).
Proof.
  unfold run_windowed_experiment. cbv zeta. intros H.
  destruct (snapshot_or_error env (fetch_metrics_snapshot env (get_backend_before env) _ _ _) _)
    as [[before berr]|] eqn:Eb; [|discriminate H]. apply snapshot_or_error_spec in Eb.
  destruct (snapshot_or_error env (fetch_metrics_snapshot env (get_exporter_before env) _ _ _) _)
    as [[eb xberr]|]; [|discriminate H].
  destruct load as [summary|]; [|discriminate H].
  destruct (vget _ "warmup_end_ts" _) as [wv|]; [|discriminate H].
  destruct (vget _ "run_finished_ts" _) as [fv|]; [|discriminate H].
  destruct (float_of_val fv) as [ets|]; [|discriminate H].
  destruct (snapshot_or_error env (fetch_metrics_snapshot env (get_backend_after env) _ _ _) _)
    as [[after aerr]|] eqn:Ea; [|discriminate H]. apply snapshot_or_error_spec in Ea.
  destruct (snapshot_or_error env _ (now_exporter_after env)) as [[ea xaerr]|]; [|discriminate H].
  match type of H with match ?c with Ok _ => _ | Err _ => _ end = _ => destruct c as [wts|]; [|discriminate H] end.
  destruct (derive_window_metrics _ _ _ _ _) as [wm|] eqn:Ew; [|discriminate H].
  apply window_ratio in Ew as (ratio & Hratio & Hr).
  match type of H with context [summarize_entry_quality (dset ?e "derived_window_metrics" (VDict ?d))] =>
    set (e0 := e) in H; set (w := d) in H end.
  destruct (summarize_entry_quality _) as [quality|] eqn:Eq; [|discriminate H].
  assert (Hw : dgetv w "cache_hit_ratio_window" = opt_float ratio).
  { unfold w, dgetv, dget_or. rewrite !dget_dset. exact Hratio. }
  assert (Hst : dgetv w "metrics_stale" = VBool false) by (unfold w, dgetv, dget_or; by rewrite dget_dset).
  clearbody w e0. injection H as <-. exists ratio, quality. split_and!.
  - apply (quality_of_window _ w); [by rewrite dget_dset_eq|done|done|]. intros r E. exact (proj1 (Hr r E)).
  - unfold dgetv, dget_or. by rewrite dget_dset_eq.
  - by rewrite quality_ignores_itself.
  - intros r E. destruct (Hr r E) as (Hin & (x & n & Hafter) & Hbefore). split; [done|]. split.
    + destruct (fetch_metrics_snapshot env (get_backend_after env) _ _ _) as [|ex]; [done|].
      destruct Ea as [_ ->]. by apply failed_after_no_ratio in Hafter.
    + destruct (fetch_metrics_snapshot env (get_backend_before env) _ _ _) as [|ex]; [done|].
      destruct Eb as [_ ->]. destruct Hbefore as [(y & m & Hb)|Hb]; [by apply failed_after_no_ratio in Hb|].
      rewrite failed_has_error in Hb. by destruct (String.eqb_spec (exc_text env ex) "").
Qed.

(** An environment where the exporter is down and the backend answers from the second
    scrape on: its first scrape raises an exception without text, as the timeouts of an
    HTTP client do. *)
Definition demo_counters (hits queries : string) : string :=
  join (str [chr 10]) ["vllm:prefix_cache_hits_total " +:+ hits; "vllm:prefix_cache_queries_total " +:+ queries]%string.
Definition demo_env (before : res string) : Env :=
  {| text_string_to_metric_families := fun _ => Err DecodeError; label_filter_env := ""; exc_text := fun _ => "";
     get_backend_before := fun _ => before; get_exporter_before := fun _ => Err HTTPError;
     get_backend_after := fun _ => Ok (demo_counters "903" "1004"); get_exporter_after := fun _ => Err HTTPError;
     now_start := f0; now_backend_before := f0; now_exporter_before := f0; now_end := f1; now_backend_after := f1;
     now_exporter_after := f1 |}.
Definition demo_run (before : res string) : res dict :=
  run_windowed_experiment (demo_env before) 1 "http://b/metrics" "http://e/metrics" (Ok []) "".
Definition demo_outcome (before : res string) : res (option string * string) :=
  e <-! demo_run before ;; ' (h, q) <-! get_entry_hit_ratio_and_quality e ;; Ok (repr_float <$> h, q).

Lemma windowed_evidence_witness : exists entry ratio,
  demo_run (Ok (demo_counters "900" "1000")) = Ok entry /\
  get_entry_hit_ratio_quality_and_source entry =
    Ok (ratio, match ratio with Some _ => "ok" | None => "missing" end, "window")%string.
Proof.
  assert (H : is_ok (demo_run (Ok (demo_counters "900" "1000"))) = true) by (vm_compute; reflexivity).
  destruct (demo_run _) as [entry|] eqn:E; [|discriminate H].
  destruct (windowed_evidence _ _ _ _ _ _ _ E) as (ratio & quality & Hq & _).
  exists entry, ratio. split; [reflexivity|exact Hq].
Defined.

(** With the scrape before the run the window has the ratio of its own requests; when
    that scrape fails without a text, the counters since the start of the backend pass
    for the window, with quality [ok]. *)
Example window_of_the_run : demo_outcome (Ok (demo_counters "900" "1000")) = Ok (Some "0.75", "ok")%string.
Proof. vm_compute. reflexivity. Qed.
Example silent_scrape_failure : demo_outcome (Err HTTPError) = Ok (Some "0.899402390438247", "ok")%string.
Proof. vm_compute. reflexivity. Qed.

(** The entry a run returns has its number, the summary of its load and the labels of its
    quality, and no GPU time. *)
Lemma windowed_shape env repeat burl eurl load label entry :
  run_windowed_experiment env repeat burl eurl load label = Ok entry ->
  exists summary quality, load = Ok summary /\ dget entry "summary" = Some (VDict summary) /\
    dget entry "resource" = None /\ dget entry "repeat" = Some (VInt repeat) /\ dget entry "quality" = Some (VDict quality).
Proof.
  unfold run_windowed_experiment. cbv zeta. intros H.
  destruct (snapshot_or_error env _ (now_backend_before env)) as [[before berr]|]; [|discriminate H].
  destruct (snapshot_or_error env _ (now_exporter_before env)) as [[eb xberr]|]; [|discriminate H].
  destruct load as [summary|]; [|discriminate H]. exists summary.
  destruct (vget _ "warmup_end_ts" _) as [wv|]; [|discriminate H].
  destruct (vget _ "run_finished_ts" _) as [fv|]; [|discriminate H].
  destruct (float_of_val fv) as [ets|]; [|discriminate H].
  destruct (snapshot_or_error env _ (now_backend_after env)) as [[after aerr]|]; [|discriminate H].
  destruct (snapshot_or_error env _ (now_exporter_after env)) as [[ea xaerr]|]; [|discriminate H].
  match type of H with match ?c with Ok _ => _ | Err _ => _ end = _ => destruct c as [wts|]; [|discriminate H] end.
  destruct (derive_window_metrics _ _ _ _ _) as [wm|]; [|discriminate H].
  destruct (summarize_entry_quality _) as [quality|]; [|discriminate H].
  assert (E : forall x : dict, Ok x = Ok entry -> x = entry) by congruence. apply E in H. clear E. subst entry.
  assert (Hset : forall (d : dict) o i v k, k <> o -> dget (set_in d o i v) k = dget d k).
  { intros d o i v k Hk. unfold set_in. destruct (dgetv d o); try done. by apply dget_dset_ne. }
  exists quality. split; [done|]. split_and!; rewrite !dget_dset; cbn [String.eqb Ascii.eqb Bool.eqb]; rewrite ?Hset by done;
    destruct (String.eqb label ""); rewrite ?dget_dset; done.
Qed.
Lemma windowed_entry env repeat burl eurl load label entry :
  run_windowed_experiment env repeat burl eurl load label = Ok entry ->
  exists summary, load = Ok summary /\ dget entry "summary" = Some (VDict summary) /\ dget entry "resource" = None.
Proof. intros (summary & quality & Hl & Hs & Hr & _)%windowed_shape. by exists summary. Qed.

(** ** The aggregates of a point *)

Lemma average_float l v : average l = Ok v -> exists f, v = VFloat f.
Proof. unfold average. intros H. inv_ok H. by eexists. Qed.
Lemma average_or_none_float l v : average_or_none l = Ok v -> v = VNone /\ l = [] \/ exists f, v = VFloat f.
Proof. unfold average_or_none. destruct l; intros H; inv_ok H; subst; eauto. Qed.
Lemma omap_id_None {A} (l : list (option A)) : Forall (eq None) l -> omap id l = [].
Proof. induction 1 as [|x l <- _ IH]; [done|]. exact IH. Qed.
Lemma res_map_const {A B} (f : A -> res B) b l ys :
  (forall x, x ∈ l -> f x = Ok b) -> res_map f l = Ok ys -> Forall (eq b) ys.
Proof.
  revert ys; induction l as [|x l IH]; simpl; intros ys Hf H; [by injection H as <-|].
  rewrite Hf in H by (by left). inv_ok H. subst ys. constructor; [done|]. apply IH; [|done]. intros; apply Hf; by right.
Qed.

(** What the planner reads of the aggregates of a point whose runs report neither a
    goodput nor the GPU time they used: no goodput, no bound on it, no GPU time, no
    success rate, only a latency and a summary of the quality. *)
Record without_goodput (agg : dict) : Prop := {
  wg_mean : dgetv agg "goodput_req_s_mean" = VNone;
  wg_lcb : dgetv agg "goodput_req_s_lcb" = VNone;
  wg_gpu : dgetv agg "gpu_seconds_mean" = VNone;
  wg_resource : dget agg "resource" = None;
  wg_success : dgetv agg "success_rate_mean" = VNone;
  wg_e2e : dgetv agg "e2e_p95_ms_mean" = VNone \/ exists f, dgetv agg "e2e_p95_ms_mean" = VFloat f;
  wg_quality : exists q, dget agg "quality_summary" = Some (VDict q)
}.
Lemma aggregate_without_goodput entries agg :
  (forall e, e ∈ entries -> dget e "resource" = None /\
     exists s, dget e "summary" = Some (VDict s) /\ dget s "goodput_req_s" = None) ->
  aggregate_run_entries entries = Ok agg -> without_goodput agg.
Proof.
  intros He H. unfold aggregate_run_entries in H.
  destruct entries as [|e0 es]; [inv_ok H; subst agg; split; try done; [by left|by eexists]|].
  set (entries := e0 :: es) in *.
  destruct (res_map (summary_number "throughput" "req_s") entries); [|done].
  destruct (res_map (summary_number "latency" _) entries); [|done].
  destruct (res_map ok_hit_ratio entries); [|done]. destruct (res_map hidden_reuse entries); [|done].
  destruct (res_map goodput_of entries) as [goodput|] eqn:Eg; [|done].
  destruct (res_map gpu_seconds_of entries) as [gpu|] eqn:Eu; [|done].
  apply (res_map_const _ None) in Eg.
  2: { intros e Hin. destruct (He e Hin) as (_ & s & Hs & Hg). unfold goodput_of. simpl. rewrite Hs. simpl.
       unfold dget_or. by rewrite Hg. }
  apply (res_map_const _ None) in Eu.
  2: { intros e Hin. destruct (He e Hin) as (Hr & _). unfold gpu_seconds_of, dget_or. by rewrite Hr. }
  rewrite (omap_id_None goodput Eg), (omap_id_None gpu Eu) in H.
  destruct (summarize_runs_quality entries) as [q|]; [|done].
  destruct (average a) as [v1|]; [|done]. destruct (average a0) as [v2|] eqn:E2; [|done].
  destruct (average_or_none (omap id a1)) as [v3|]; [|done]. destruct (average a2) as [v4|]; [|done].
  cbn [average_or_none] in H. destruct (int_of_val _); [|done]. destruct (int_of_val _); [|done].
  injection H as <-. destruct (average_float _ _ E2) as [f Hf].
  split; try done; [right; exists f; by rewrite Hf|by exists q].
Qed.
