(* ===== verification/Sweep.v ===== *)
(** * The capacity sweep (scripts/run_capacity_sweep.py)

    Every scenario is measured at every concurrency, a few times; a point collects its
    runs, their aggregates and a recommendation with and without the hit-ratio boundary.
    The points of a scenario are ranked and the sweep is calibrated.  Restarting the
    serving stack, the traffic of a run and the scrapes around it are the environment; the
    files and the figure are in [SweepScript]. *)

From S2P Require Import Prelude PyFloat FloatOrder PyStr PyVal PySort PromParse WindowMetrics Policy Calibrator Envelope.
From S2P Require Import LoadRunner Experiment.

Definition _parse_csv_ints (raw : string) : res (list Z) :=
  vals <-! res_map (fun part => match parse_int part with Some z => Ok z | None => Err bad_int end)
    (List.filter (fun part => negb (String.eqb part "")) (map strip (split ","%char raw))) ;;
  match vals with [] => Err (ValueError "expected at least one integer value") | _ => Ok vals end.

(** ** The recommendation of a point *)

(** [float(d[k])], [str(d[k])], [int(d[k])], [bool(d[k])]; the last three as values. *)
Definition float_item (d : dict) (k : string) : res float := v <-! vitem (VDict d) k ;; float_of_val v.
Definition str_item (d : dict) (k : string) : res val := v <-! vitem (VDict d) k ;; Ok (VStr (py_str v)).
Definition int_item (d : dict) (k : string) : res val := v <-! vitem (VDict d) k ;; z <-! int_of_val v ;; Ok (VInt z).
Definition bool_item (d : dict) (k : string) : res val := v <-! vitem (VDict d) k ;; Ok (VBool (truthy v)).
Definition round6 (x : float) : res val := r <-! py_round 6 x ;; Ok (VFloat r).

Definition _build_point_recommendation (e2e_p95_slo_ms min_success_rate min_hit_ratio safety_factor : float)
  (runs : list dict) : res dict :=
  baseline <-! recommend_runs e2e_p95_slo_ms min_success_rate None safety_factor runs ;;
  dual <-! recommend_runs e2e_p95_slo_ms min_success_rate (Some min_hit_ratio) safety_factor runs ;;
  baseline_rps <-! float_item baseline "recommended_rps" ;;
  dual_rps <-! float_item dual "recommended_rps" ;;
  baseline_rounded <-! round6 baseline_rps ;;
  dual_rounded <-! round6 dual_rps ;;
  delta <-! round6 (dual_rps ⊖ baseline_rps) ;;
  metric_quality <-! str_item dual "metric_quality" ;;
  hit_ratio_source <-! str_item dual "hit_ratio_source" ;;
  num_runs <-! int_item dual "num_runs" ;;
  num_runs_ok <-! int_item dual "num_runs_ok_metrics" ;;
  num_runs_missing <-! int_item dual "num_runs_missing_hit_ratio" ;;
  num_runs_stale <-! int_item dual "num_runs_stale_metrics" ;;
  comparable <-! bool_item dual "hit_ratio_comparable" ;;
  evidence_quality <-! str_item dual "evidence_quality" ;;
  Ok [("baseline_hard_only_recommended_rps", baseline_rounded); ("dual_boundary_recommended_rps", dual_rounded);
      ("delta_dual_minus_baseline", delta); ("metric_quality", metric_quality); ("hit_ratio_source", hit_ratio_source);
      ("num_runs", num_runs); ("num_runs_ok_metrics", num_runs_ok); ("num_runs_missing_hit_ratio", num_runs_missing);
      ("num_runs_stale_metrics", num_runs_stale); ("hit_ratio_comparable", comparable);
      ("evidence_quality", evidence_quality)]%string.

(** ** Ranking *)

Record rank := {
  rk_scenario : val;
  rk_concurrency : Z;
  rk_req_s_mean : float;
  rk_e2e_p95_ms_mean : float;
  rk_hit_ratio_mean : val;
  rk_metric_quality : string;
  rk_hit_ratio_source : string;
  rk_num_runs_ok_metrics : Z;
  rk_total_runs : Z;
  rk_hit_ratio_comparable : bool;
  rk_baseline_rps : float;
  rk_dual_rps : float
}.
Definition is_feasible (r : rank) : bool := rk_baseline_rps r >?. f0.
Definition is_best_safe_candidate (r : rank) : bool := (rk_dual_rps r >?. f0) && rk_hit_ratio_comparable r.

Definition _point_rank_record (point : dict) : res rank :=
  aggregates <-! vitem (VDict point) "aggregates" ;;
  quality <-! vitem aggregates "quality_summary" ;;
  recommendation <-! vitem (VDict point) "recommendation" ;;
  b <-! vitem recommendation "baseline_hard_only_recommended_rps" ;; baseline_rps <-! float_of_val b ;;
  d <-! vitem recommendation "dual_boundary_recommended_rps" ;; dual_rps <-! float_of_val d ;;
  scenario <-! vitem (VDict point) "scenario" ;;
  c <-! vitem (VDict point) "concurrency" ;; concurrency <-! int_of_val c ;;
  r <-! vget aggregates "req_s_mean" (VFloat f0) ;; req_s <-! float_of_val r ;;
  e <-! vget aggregates "e2e_p95_ms_mean" (VFloat f0) ;; e2e <-! float_of_val e ;;
  hit <-! vget aggregates "hit_ratio_mean" VNone ;;
  mq <-! vitem quality "metric_quality" ;;
  src <-! vitem quality "hit_ratio_source" ;;
  n <-! vget quality "num_runs_ok_metrics" (VInt 0) ;; num_ok <-! int_of_val n ;;
  t <-! vget quality "total_runs" (VInt 0) ;; total <-! int_of_val t ;;
  comparable <-! vget recommendation "hit_ratio_comparable" (VBool false) ;;
  Ok {| rk_scenario := scenario; rk_concurrency := concurrency; rk_req_s_mean := req_s; rk_e2e_p95_ms_mean := e2e;
        rk_hit_ratio_mean := hit; rk_metric_quality := py_str mq; rk_hit_ratio_source := py_str src;
        rk_num_runs_ok_metrics := num_ok; rk_total_runs := total; rk_hit_ratio_comparable := truthy comparable;
        rk_baseline_rps := baseline_rps; rk_dual_rps := dual_rps |}.

Definition rank_dict (r : rank) : dict :=
  [("scenario", rk_scenario r); ("concurrency", VInt (rk_concurrency r)); ("req_s_mean", VFloat (rk_req_s_mean r));
   ("e2e_p95_ms_mean", VFloat (rk_e2e_p95_ms_mean r)); ("hit_ratio_mean", rk_hit_ratio_mean r);
   ("metric_quality", VStr (rk_metric_quality r)); ("hit_ratio_source", VStr (rk_hit_ratio_source r));
   ("num_runs_ok_metrics", VInt (rk_num_runs_ok_metrics r)); ("total_runs", VInt (rk_total_runs r));
   ("hit_ratio_comparable", VBool (rk_hit_ratio_comparable r));
   ("baseline_hard_only_recommended_rps", VFloat (rk_baseline_rps r));
   ("dual_boundary_recommended_rps", VFloat (rk_dual_rps r));
   ("is_feasible", VBool (is_feasible r)); ("is_best_safe_candidate", VBool (is_best_safe_candidate r))]%string.

Record ranking := {
  ranked_points : list rank;
  feasible_points : list rank;
  best_safe_point : option rank;
  highest_feasible_point : option rank
}.
Definition rank_key (r : rank) : list kpart :=
  [KF (rk_req_s_mean r); KF (fopp (rk_e2e_p95_ms_mean r)); KI (- rk_concurrency r)].
Definition rank_ltb (a b : rank) : bool := kltb (rank_key a) (rank_key b).
Definition scenario_is (scenario : string) (point : dict) : res bool :=
  v <-! vitem (VDict point) "scenario" ;; Ok (is_vstr v scenario).

Definition rank_points (records : list rank) : ranking :=
  let ranked := py_sort_reverse rank_ltb records in
  let feasible := List.filter is_feasible ranked in
  {| ranked_points := ranked; feasible_points := feasible;
     best_safe_point := head (List.filter is_best_safe_candidate ranked);
     highest_feasible_point := head feasible |}.
Definition rank_scenario (points : list dict) (scenario : string) : res ranking :=
  mine <-! res_filter (scenario_is scenario) points ;;
  records <-! res_map _point_rank_record mine ;;
  Ok (rank_points records).
Definition scenario_names (points : list dict) : res (list string) :=
  names <-! res_map (fun point => v <-! vitem (VDict point) "scenario" ;; Ok (py_str v)) points ;;
  Ok (strsorted (remove_dups names)).
Definition _build_sweep_ranking (points : list dict) : res (list (string * ranking)) :=
  scenarios <-! scenario_names points ;;
  res_map (fun s => r <-! rank_scenario points s ;; Ok (s, r)) scenarios.

Record series := { sr_x : list Z; sr_y : list float; sr_highest : option rank; sr_best_safe : option rank }.
Definition _build_plot_series (by_scenario : list (string * ranking)) : list (string * series) :=
  map (fun kr : string * ranking =>
    (kr.1, {| sr_x := map rk_concurrency (ranked_points kr.2); sr_y := map rk_req_s_mean (ranked_points kr.2);
              sr_highest := highest_feasible_point kr.2; sr_best_safe := best_safe_point kr.2 |})) by_scenario.

Definition opt_rank (o : option rank) : val := match o with Some r => VDict (rank_dict r) | None => VNone end.
Definition ranking_dict (by_scenario : list (string * ranking)) : dict :=
  [("by_scenario", VDict (map (fun kr : string * ranking => (kr.1, VDict
     [("ranked_points", VList (map (fun r => VDict (rank_dict r)) (ranked_points kr.2)));
      ("feasible_points", VList (map (fun r => VDict (rank_dict r)) (feasible_points kr.2)));
      ("best_safe_point", opt_rank (best_safe_point kr.2));
      ("highest_feasible_point", opt_rank (highest_feasible_point kr.2))]%string)) by_scenario))]%string.

(** ** The sweep *)

Record Args := {
  a_base_url : string;
  a_endpoint : string;
  a_model : string;
  a_backend_metrics_url : string;
  a_exporter_metrics_url : string;
  a_scenarios : string;
  a_concurrency_values : string;
  a_repeats : Z;
  a_num_requests : Z;
  a_input_len : Z;
  a_output_len : Z;
  a_warmup_requests : Z;
  a_timeout_s : float;
  a_base_seed : Z;
  a_e2e_p95_slo_ms : float;
  a_min_success_rate : float;
  a_min_hit_ratio : float;
  a_safety_factor : float;
  a_restart : bool
}.
(** What a run of the load meets: the results of its batches and the clock. *)
Record Traffic := {
  t_warmup : batch; t_measured : batch; t_run_started : float; t_warmup_end : float; t_run_finished : float
}.

Section sweep.
Context (a : Args).
Context (restart : Z -> res unit) (traffic : Z -> Params -> Traffic) (env : Z -> Env).

Definition sweep_backend_url : string :=
  if String.eqb (a_backend_metrics_url a) "" then rstrip_char "/"%char (a_base_url a) +:+ "/metrics"
  else a_backend_metrics_url a.
Definition sweep_scenarios : list string :=
  List.filter (fun s => negb (String.eqb s "")) (map strip (split ","%char (a_scenarios a))).

Definition sweep_params (cfg : scenario) (conc point_index : Z) : Params :=
  {| base_url := a_base_url a; endpoint := a_endpoint a; model := a_model a; num_requests := a_num_requests a;
     concurrency := conc; base_seed := a_base_seed a + point_index * 1000; input_len := a_input_len a;
     output_len := a_output_len a; shared_prefix_ratio := sc_shared_prefix_ratio cfg;
     shared_prefix_len := sc_shared_prefix_len cfg; unique_suffix_len := sc_unique_suffix_len cfg;
     warmup_requests := a_warmup_requests a |}.
Definition sweep_load (prm : Params) (point_index : Z) : res dict :=
  let t := traffic point_index prm in
  run_custom_http prm (t_warmup t) (t_measured t) (t_run_started t) (t_warmup_end t) (t_run_finished t).
Definition sweep_run (scenario : string) (conc repeat point_index : Z) : res dict :=
  let prm := sweep_params (scenario_config scenario) conc point_index in
  run_windowed_experiment (env point_index) repeat sweep_backend_url (a_exporter_metrics_url a)
    (sweep_load prm point_index) (scenario +:+ ":c" +:+ str_of_Z conc).

(** [range(1, repeats + 1)]; run [repeat] of the point has the next index. *)
Definition repeats : list Z := map Z.of_nat (seq 1 (Z.to_nat (a_repeats a))).
Definition sweep_point (scenario : string) (conc point_index : Z) : res dict :=
  _ <-! (if a_restart a then restart point_index else Ok ()) ;;
  runs <-! res_map (fun repeat => sweep_run scenario conc repeat (point_index + repeat)) repeats ;;
  aggregates <-! aggregate_run_entries runs ;;
  recommendation <-! _build_point_recommendation (a_e2e_p95_slo_ms a) (a_min_success_rate a) (a_min_hit_ratio a)
    (a_safety_factor a) runs ;;
  Ok [("scenario", VStr scenario); ("concurrency", VInt conc); ("num_requests", VInt (a_num_requests a));
      ("runs", VList (map VDict runs)); ("aggregates", VDict aggregates);
      ("recommendation", VDict recommendation)]%string.
(** The two nested loops; [point_index] counts the runs so far. *)
Definition sweep_step (acc : list dict * Z) (sc : string * Z) : res (list dict * Z) :=
  point <-! sweep_point sc.1 sc.2 acc.2 ;; Ok (acc.1 ++ [point], acc.2 + zlen repeats).
Definition grid (scenarios : list string) (concurrency_values : list Z) : list (string * Z) :=
  mjoin (map (fun s => map (fun c => (s, c)) concurrency_values) scenarios).

Definition with_ranking (point : dict) : res dict :=
  r <-! _point_rank_record point ;; Ok (dset point "ranking" (VDict (rank_dict r))).
Definition sweep_meta (concurrency_values : list Z) : dict :=
  [("experiment_schema_version", VInt EXPERIMENT_SCHEMA_VERSION); ("run_entry_schema_version", VInt RUN_ENTRY_SCHEMA_VERSION);
   ("sweep_type", VStr "concurrency"); ("base_url", VStr (a_base_url a)); ("endpoint", VStr (a_endpoint a));
   ("model", VStr (a_model a)); ("backend_metrics_url", VStr sweep_backend_url);
   ("exporter_metrics_url", VStr (a_exporter_metrics_url a)); ("scenarios", VList (map VStr sweep_scenarios));
   ("concurrency_values", VList (map VInt concurrency_values)); ("repeats", VInt (a_repeats a));
   ("num_requests", VInt (a_num_requests a)); ("input_len", VInt (a_input_len a)); ("output_len", VInt (a_output_len a));
   ("warmup_requests", VInt (a_warmup_requests a)); ("timeout_s", VFloat (a_timeout_s a));
   ("policy", VDict [("e2e_p95_slo_ms", VFloat (a_e2e_p95_slo_ms a)); ("min_success_rate", VFloat (a_min_success_rate a));
      ("min_hit_ratio", VFloat (a_min_hit_ratio a)); ("safety_factor", VFloat (a_safety_factor a))])]%string.

Definition sweep_constraints : CalibrationConstraints :=
  {| Calibrator.e2e_p95_slo_ms := a_e2e_p95_slo_ms a; Calibrator.min_success_rate := a_min_success_rate a;
     min_feasible_runs := a_repeats a |}.
Definition sweep_weights : CalibrationWeights :=
  {| w_instability := w_instability default_weights; w_evidence_uncertainty := w_evidence_uncertainty default_weights;
     w_safety_factor := a_safety_factor a |}.

Record sweep_doc := {
  sd_meta : dict; sd_points : list dict; sd_ranking : list (string * ranking); sd_calibration : calibration
}.
Definition sweep : res sweep_doc :=
  concurrency_values <-! _parse_csv_ints (a_concurrency_values a) ;;
  ' (measured, _) <-! res_fold sweep_step ([], 0) (grid sweep_scenarios concurrency_values) ;;
  ranking <-! _build_sweep_ranking measured ;;
  points <-! res_map with_ranking measured ;;
  calibration <-! calibrate sweep_constraints sweep_weights points DEFAULT_THRESHOLDS ;;
  Ok {| sd_meta := sweep_meta concurrency_values; sd_points := points; sd_ranking := ranking;
        sd_calibration := calibration |}.
(** [summary.json] *)
Definition summary_json (doc : sweep_doc) : dict :=
  [("meta", VDict (sd_meta doc)); ("points", VList (map VDict (sd_points doc)));
   ("ranking", VDict (ranking_dict (sd_ranking doc)));
   ("calibration", VDict (calibration_dict sweep_constraints sweep_weights (sd_calibration doc)))]%string.

(** ** The report *)

Definition yes_no (b : bool) : string := if b then "yes" else "no".
Definition point_row (point : dict) : res string :=
  aggregates <-! vitem (VDict point) "aggregates" ;;
  quality <-! vitem aggregates "quality_summary" ;;
  hit_ratio_mean <-! vitem aggregates "hit_ratio_mean" ;;
  ranking <-! vitem (VDict point) "ranking" ;;
  scenario <-! vitem (VDict point) "scenario" ;;
  c <-! vitem (VDict point) "concurrency" ;; conc <-! int_of_val c ;;
  r <-! vget aggregates "req_s_mean" (VFloat f0) ;; req <-! float_of_val r ;;
  e <-! vget aggregates "e2e_p95_ms_mean" (VFloat f0) ;; e2e <-! float_of_val e ;;
  hit <-! (match hit_ratio_mean with VNone => Ok "NA"%string | v => x <-! float_of_val v ;; Ok (fmt_fixed 4 x) end) ;;
  mq <-! vitem quality "metric_quality" ;;
  n <-! vget quality "num_runs_ok_metrics" (VInt 0) ;; ok_runs <-! int_of_val n ;;
  t <-! vget quality "total_runs" (VInt 0) ;; total <-! int_of_val t ;;
  src <-! vitem quality "hit_ratio_source" ;;
  feasible <-! vitem ranking "is_feasible" ;;
  best_safe <-! vitem ranking "is_best_safe_candidate" ;;
  recommendation <-! vitem (VDict point) "recommendation" ;;
  b <-! vitem recommendation "baseline_hard_only_recommended_rps" ;; baseline <-! float_of_val b ;;
  d <-! vitem recommendation "dual_boundary_recommended_rps" ;; dual <-! float_of_val d ;;
  Ok ("| " +:+ join " | " [py_str scenario; str_of_Z conc; fmt_fixed 4 req; fmt_fixed 2 e2e; hit; py_str mq;
        str_of_Z ok_runs +:+ "/" +:+ str_of_Z total; py_str src; yes_no (truthy feasible); yes_no (truthy best_safe);
        fmt_fixed 4 baseline; fmt_fixed 4 dual] +:+ " |")%string.
Definition recommendation_lines (kr : string * ranking) : list string :=
  [match highest_feasible_point kr.2 with
   | None => "- " +:+ kr.1 +:+ ": no feasible point under the hard constraints."
   | Some h => "- " +:+ kr.1 +:+ ": highest feasible point is concurrency=" +:+ str_of_Z (rk_concurrency h)
               +:+ " req/s_mean=" +:+ fmt_fixed 4 (rk_req_s_mean h) +:+ "."
   end;
   match best_safe_point kr.2 with
   | None => "- " +:+ kr.1 +:+ ": no best safe point passed the dual boundary constraints."
   | Some b => "- " +:+ kr.1 +:+ ": best safe point is concurrency=" +:+ str_of_Z (rk_concurrency b)
               +:+ " dual_rps=" +:+ fmt_fixed 4 (rk_dual_rps b) +:+ "."
   end]%string.
Definition calibration_lines (c : calibration) : list string :=
  match cal_recommendation c with
  | Some r =>
      ["- threshold=" +:+ fmt_fixed 2 (r_min_hit_ratio r) +:+ ", max_concurrency=" +:+ str_of_Z (r_max_concurrency r)
       +:+ ", expected_rps=" +:+ fmt_fixed 3 (r_expected_rps r) +:+ ", confidence=" +:+ fmt_fixed 3 (r_confidence r)
       +:+ ", evidence=" +:+ r_evidence_quality r +:+ ".";
       "- deployment: " +:+ cal_status c +:+ " -> " +:+ cal_action c +:+ "."]%string
  | None => ["- calibration blocked: no point passed all evidence and SLO gates."%string]
  end.
Definition _to_markdown (doc : sweep_doc) (ranking_plot_name : string) : res string :=
  rows <-! res_map point_row (sd_points doc) ;;
  Ok (join (str [chr 10])
    (["# Capacity Sweep Report"; "";
      "- base_url: `" +:+ a_base_url a +:+ "`"; "- model: `" +:+ a_model a +:+ "`";
      "- repeats_per_point: `" +:+ str_of_Z (a_repeats a) +:+ "`"; ""; "## Ranking Plot"; "";
      "![capacity_sweep_ranking](" +:+ ranking_plot_name +:+ ")"; "";
      "| Scenario | Concurrency | req/s mean | e2e p95 mean(ms) | hit_ratio mean | metric_quality | ok_metric_runs | hit_ratio_source | feasible | best_safe | baseline_rps | dual_rps |";
      "|---|---:|---:|---:|---:|---|---:|---|---|---|---:|---:|"]%string
     ++ rows ++ [""; "## Recommendations"; ""]%string ++ mjoin (map recommendation_lines (sd_ranking doc))
     ++ [""; "## Auto Calibration"; ""]%string ++ calibration_lines (sd_calibration doc) ++ [""%string])).
End sweep.

(** ** The points of a sweep *)

Lemma run_custom_http_goodput prm w m t1 t2 t3 summary :
  run_custom_http prm w m t1 t2 t3 = Ok summary -> dget summary "goodput_req_s" = None.
Proof.
  unfold run_custom_http. intros H.
  destruct (res_map _ _); [|discriminate H]. destruct (Percentile.Runner._percentile _ _); [|discriminate H].
  cbv zeta in H. match type of H with match ?c with Ok _ => _ | Err _ => _ end = _ => destruct c; [|discriminate H] end.
  destruct (float_of_int _); [|discriminate H]. destruct (fdiv _ _); [|discriminate H].
  assert (E : forall x : dict, Ok x = Ok summary -> summary = x) by congruence. apply E in H. by subst summary.
Qed.

Section sweep_facts.
Context (a : Args) (restart : Z -> res unit) (traffic : Z -> Params -> Traffic) (env : Z -> Env).

Lemma sweep_point_shape s c i point : sweep_point a restart traffic env s c i = Ok point ->
  exists runs aggregates recommendation,
    res_map (fun repeat => sweep_run a traffic env s c repeat (i + repeat)) (repeats a) = Ok runs /\
    without_goodput aggregates /\
    point = [("scenario", VStr s); ("concurrency", VInt c); ("num_requests", VInt (a_num_requests a));
             ("runs", VList (map VDict runs)); ("aggregates", VDict aggregates);
             ("recommendation", VDict recommendation)]%string.
Proof.
  unfold sweep_point. intros H. destruct (if a_restart a then _ else _); [|done].
  destruct (res_map _ (repeats a)) as [runs|] eqn:Er; [|done].
  destruct (aggregate_run_entries runs) as [agg|] eqn:Ea; [|done].
  destruct (_build_point_recommendation _ _ _ _ runs) as [rec|]; [|done]. injection H as <-.
  exists runs, agg, rec. split_and!; [done| |done]. eapply aggregate_without_goodput; [|exact Ea].
  intros e He. apply res_map_Forall2 in Er. apply list_elem_of_lookup in He as [k Hk].
  destruct (Forall2_lookup_r _ _ _ _ _ Er Hk) as (repeat & _ & Hrun). unfold sweep_run in Hrun.
  apply windowed_entry in Hrun as (summary & Hload & Hs & Hr). split; [done|].
  exists summary. split; [done|]. unfold sweep_load in Hload. by eapply run_custom_http_goodput.
Qed.

(** The loops measure the pairs of the grid in order, and number the runs through. *)
Lemma sweep_fold cells pts n pts' n' :
  res_fold (sweep_step a restart traffic env) (pts, n) cells = Ok (pts', n') ->
  exists new, pts' = pts ++ new /\ n' = n + zlen cells * zlen (repeats a) /\
    Forall2 (fun k point => sweep_point a restart traffic env k.2.1 k.2.2 (n + Z.of_nat k.1 * zlen (repeats a)) = Ok point)
      (indexed cells) new.
Proof.
  revert pts n pts' n'. induction cells as [|[s c] cells IH]; intros pts n pts' n' H; cbn [res_fold] in H.
  - injection H as <- <-. exists []. rewrite app_nil_r. split_and!; [done|unfold zlen; simpl; lia|constructor].
  - unfold sweep_step at 1 in H. cbn [fst snd] in H.
    destruct (sweep_point a restart traffic env s c n) as [p|] eqn:Ep; [|done].
    apply IH in H as (new & -> & -> & Hnew). exists (p :: new). rewrite <- app_assoc. split_and!; [done| |].
    + rewrite zlen_cons. lia.
    + unfold indexed. cbn [length seq combine]. constructor; [cbn [fst snd]; rewrite Z.mul_0_l, Z.add_0_r; exact Ep|].
      rewrite <- seq_shift. unfold indexed in Hnew.
      assert (Hm : combine (map S (seq 0 (length cells))) cells = map (fun k : nat * (string * Z) => (S k.1, k.2)) (combine (seq 0 (length cells)) cells)).
      { clear. generalize (seq 0 (length cells)). induction cells as [|x l IH]; intros [|y m]; simpl; try done. by rewrite IH. }
      rewrite Hm. apply Forall2_fmap_l. eapply Forall2_impl; [exact Hnew|]. intros [k [s' c']] q Hq.
    cbn [fst snd] in *.
    assert (Hi : n + Z.of_nat (S k) * zlen (repeats a) = n + zlen (repeats a) + Z.of_nat k * zlen (repeats a)) by lia.
    unfold compose. cbn [fst snd]. rewrite Hi. exact Hq.
Qed.
End sweep_facts.

(** ** What the operating envelope makes of a sweep *)

Lemma number_of_float f : is_ok (Envelope._number (VFloat f)) = true.
Proof. unfold Envelope._number, _coerce_finite_float. done. Qed.
Lemma evaluate_without_goodput slo msr budget point agg c :
  dget point "aggregates" = Some (VDict agg) -> without_goodput agg -> dget point "concurrency" = Some (VInt c) ->
  exists it, evaluate_point slo msr budget point = Ok it /\ it_feasible it = false /\
    "goodput_missing"%string ∈ it_reasons it /\ it_success_rate it = None.
Proof.
  intros Ha [Hm Hl Hg Hr Hs He [q Hq]] Hc. unfold evaluate_point, _point_goodput, _point_resource, dget_or.
  rewrite Ha, Hc. cbn [from_option id default].
  assert (Hres : sub_dict (VDict agg) "resource" = VDict []) by (cbn; unfold dget_or; by rewrite Hr).
  assert (Hqs : sub_dict (VDict agg) "quality_summary" = VDict q) by (cbn; unfold dget_or; by rewrite Hq).
  rewrite Hres, Hqs. cbn [get_if_dict]. rewrite Hm, Hl, Hg, Hs. cbn [Envelope._number vget dget_or].
  assert (Hee : exists e, Envelope._number (dgetv agg "e2e_p95_ms_mean") = Ok e).
  { destruct He as [-> | [f ->]]; [by exists None|]. pose proof (number_of_float f) as Hf.
    destruct (Envelope._number (VFloat f)); [by eexists|done]. }
  destruct Hee as [e ->]. cbn. eexists. split; [reflexivity|]. cbn. split_and!; [done|by left|done].
Qed.

Definition blocked_item (it : item) : Prop :=
  it_feasible it = false /\ "goodput_missing"%string ∈ it_reasons it /\ it_success_rate it = None.

Lemma ranked_point_blocked a restart traffic env s c i point point' slo msr budget :
  sweep_point a restart traffic env s c i = Ok point -> with_ranking point = Ok point' ->
  exists it, evaluate_point slo msr budget point' = Ok it /\ blocked_item it.
Proof.
  intros Hp Hw. apply sweep_point_shape in Hp as (runs & agg & rec & _ & Hagg & Hpoint).
  unfold with_ranking in Hw. destruct (_point_rank_record point) as [r|]; [|discriminate Hw].
  assert (Hp' : forall x : dict, Ok x = Ok point' -> point' = x) by congruence. apply Hp' in Hw. clear Hp'.
  assert (H1 : dget point' "aggregates" = Some (VDict agg)).
  { rewrite Hw, dget_dset_ne by discriminate. rewrite Hpoint. reflexivity. }
  assert (H2 : dget point' "concurrency" = Some (VInt c)).
  { rewrite Hw, dget_dset_ne by discriminate. rewrite Hpoint. reflexivity. }
  clear Hw Hpoint. eapply evaluate_without_goodput; eassumption.
Qed.
Lemma ranked_points_blocked a restart traffic env slo msr budget cells measured points :
  Forall2 (fun k point => exists i, sweep_point a restart traffic env k.2.1 k.2.2 i = Ok point) (indexed cells) measured ->
  res_map with_ranking measured = Ok points ->
  exists items, res_map (evaluate_point slo msr budget) points = Ok items /\ Forall blocked_item items.
Proof.
  intros Hm. revert points. induction Hm as [|k p ks ps [i Hp] _ IH]; intros points Er; cbn [res_map] in Er.
  - injection Er as <-. exists []. split; [reflexivity|constructor].
  - destruct (with_ranking p) as [p'|] eqn:Ew; [|discriminate Er].
    destruct (res_map with_ranking ps) as [ps'|]; [|discriminate Er].
    injection Er as <-. destruct (IH _ eq_refl) as (items & Hi & Hf).
    destruct (ranked_point_blocked _ _ _ _ _ _ _ _ _ slo msr budget Hp Ew) as (it & Hit & Hb).
    exists (it :: items). cbn [res_map]. rewrite Hit, Hi. split; [reflexivity|]. by constructor.
Qed.
Lemma omap_dict_of l : omap dict_of (map VDict l) = l.
Proof. induction l as [|p l IH]; cbn; [done|]. by f_equal. Qed.
Lemma filter_blocked items : Forall blocked_item items -> List.filter it_feasible items = [].
Proof. induction 1 as [|it l [Hit _] _ IH]; cbn; [done|]. by rewrite Hit. Qed.

(** Every sweep blocks the operating envelope.  The summaries of the load runner
    have no goodput, so the aggregates of a sweep never have one: whatever the servers
    answered, [recommend_operating_point] on the document of a finished sweep returns,
    is blocked, recommends nothing, and lists the missing goodput against every point;
    the success rate is not known for any of them. *)
Theorem sweep_blocks_envelope a restart traffic env doc slo msr budget sf :
  sweep a restart traffic env = Ok doc ->
  exists result, recommend_operating_point slo msr budget sf (summary_json a doc) = Ok result /\
    env_status result = "blocked" /\ env_recommendation result = None /\ env_pareto result = [] /\
    length (env_points result) = length (sd_points doc) /\
    Forall (fun it => "goodput_missing"%string ∈ it_reasons it /\ it_success_rate it = None) (env_points result).
Proof.
  unfold sweep. intros H. destruct (_parse_csv_ints _) as [cs|]; [|done].
  destruct (res_fold _ _ _) as [[measured n]|] eqn:Ef; [|done].
  destruct (_build_sweep_ranking measured); [|done].
  destruct (res_map with_ranking measured) as [pts|] eqn:Er; [|done].
  destruct (calibrate _ _ _ _); [|done]. injection H as <-.
  apply sweep_fold in Ef as (new & -> & _ & Hnew). cbn [app] in Er.
  assert (Hcells : Forall2 (fun k point => exists i, sweep_point a restart traffic env k.2.1 k.2.2 i = Ok point)
            (indexed (grid (sweep_scenarios a) cs)) new) by (eapply Forall2_impl; [exact Hnew|]; intros k p Hk; eexists; exact Hk).
  destruct (ranked_points_blocked _ _ _ _ slo msr budget _ _ _ Hcells Er) as (items & Hi & Hf).
  unfold recommend_operating_point.
  cbn [summary_json dget_or dget sd_points String.eqb Ascii.eqb Bool.eqb from_option id default viter].
  rewrite omap_dict_of, Hi, (filter_blocked _ Hf). eexists. split; [reflexivity|]. cbn.
  split_and!; [reflexivity..|by eapply res_map_length|].
  eapply Forall_impl; [exact Hf|]. intros it (_ & H1 & H2). by split.
Qed.

(** ** The ranking *)

Definition numbered_rank (r : rank) : Prop := is_nan (rk_req_s_mean r) = false /\ is_nan (rk_e2e_p95_ms_mean r) = false.
Lemma rank_key_shaped r : numbered_rank r -> shaped [true; true; false] (rank_key r).
Proof.
  intros [H1 H2]. unfold rank_key. repeat constructor; [done|]. by destruct (rk_e2e_p95_ms_mean r).
Qed.
Lemma rank_ltb_asym x y : numbered_rank x -> numbered_rank y -> rank_ltb x y = true -> rank_ltb y x = false.
Proof. intros Hx%rank_key_shaped Hy%rank_key_shaped. by apply (kltb_asym [true; true; false]). Qed.
Lemma rank_ltb_ge_trans x y z : numbered_rank x -> numbered_rank y -> numbered_rank z ->
  rank_ltb y x = false -> rank_ltb z y = false -> rank_ltb z x = false.
Proof.
  intros Hx%rank_key_shaped Hy%rank_key_shaped Hz%rank_key_shaped. by apply (kltb_ge_trans [true; true; false]).
Qed.
Lemma rank_ltb_throughput x y : numbered_rank x -> numbered_rank y -> rank_ltb x y = false ->
  fleb (rk_req_s_mean y) (rk_req_s_mean x) = true.
Proof. intros Hx%rank_key_shaped Hy%rank_key_shaped. by apply (kltb_head [true; false]). Qed.

(** The choice of a ranking: a record that passes the test and that no other one beats
    by throughput, then latency, then concurrency. *)
Definition best_by (test : rank -> bool) (records : list rank) (choice : option rank) : Prop :=
  match choice with
  | None => forall r, r ∈ records -> test r = false
  | Some b => b ∈ records /\ test b = true /\
      forall r, r ∈ records -> test r = true ->
        rank_ltb b r = false /\ fleb (rk_req_s_mean r) (rk_req_s_mean b) = true
  end.

Lemma rank_points_spec records : Forall numbered_rank records ->
  let r := rank_points records in
  ranked_points r ≡ₚ records /\ StronglySorted (fun x y => rank_ltb x y = false) (ranked_points r) /\
  feasible_points r = List.filter is_feasible (ranked_points r) /\
  best_by is_best_safe_candidate records (best_safe_point r) /\
  best_by is_feasible records (highest_feasible_point r).
Proof.
  intros Hn. cbv zeta. unfold rank_points. cbn [ranked_points feasible_points best_safe_point highest_feasible_point].
  pose proof (py_sort_reverse_perm rank_ltb records) as Hp.
  pose proof (py_sort_reverse_ordered rank_ltb numbered_rank rank_ltb_asym rank_ltb_ge_trans records Hn) as Hs.
  rewrite Forall_forall in Hn.
  assert (Hbest : forall test, best_by test records (head (List.filter test (py_sort_reverse rank_ltb records)))).
  { intros test. pose proof (head_selected _ test _ Hs) as Hh. unfold best_by.
    assert (Hrefl : forall x, x ∈ py_sort_reverse rank_ltb records -> rank_ltb x x = false).
    { intros x Hx. destruct (rank_ltb x x) eqn:E; [|done]. rewrite Hp in Hx.
      pose proof (rank_ltb_asym x x (Hn x Hx) (Hn x Hx) E). congruence. }
    specialize (Hh Hrefl). destruct (head _) as [b|].
    - destruct Hh as (Hb & Ht & Hall). rewrite Hp in Hb. split_and!; [done..|]. intros r Hr Hrt.
      assert (Hlt : rank_ltb b r = false) by (apply Hall; [by rewrite Hp|done]).
      split; [done|]. apply rank_ltb_throughput; auto.
    - intros r Hr. apply Hh. by rewrite Hp. }
  split_and!; try done; apply Hbest.
Qed.


(** A sweep of one scenario at two levels, one request each, answered in a second. *)
Definition demo_args : Args :=
  {| a_base_url := "http://b/"; a_endpoint := "/v1/completions"; a_model := "m"; a_backend_metrics_url := "";
     a_exporter_metrics_url := "http://e/metrics"; a_scenarios := "low_reuse, "; a_concurrency_values := "1, 2";
     a_repeats := 1; a_num_requests := 1; a_input_len := 8; a_output_len := 4; a_warmup_requests := 0;
     a_timeout_s := of_Z 30; a_base_seed := 42; a_e2e_p95_slo_ms := of_Z 1500; a_min_success_rate := dec 99 (-2);
     a_min_hit_ratio := dec 5 (-2); a_safety_factor := dec 9 (-1); a_restart := false |}.
Definition demo_traffic (i : Z) (prm : Params) : Traffic :=
  {| t_warmup := _run_request_batch [] f0 f0;
     t_measured := _run_request_batch [((0%nat, 0), (f1, true))] f0 (of_Z (concurrency prm));
     t_run_started := f0; t_warmup_end := f0; t_run_finished := f1 |}.
Definition demo_scrapes (i : Z) : Env := demo_env (Ok (demo_counters "900" "1000")).
Definition no_restart (i : Z) : res unit := Ok ().
Notation "'demo_sweep'" := (sweep demo_args no_restart demo_traffic demo_scrapes).

Lemma sweep_blocks_envelope_witness : exists doc result,
  demo_sweep = Ok doc /\
  recommend_operating_point (of_Z 1500) (dec 99 (-2)) None (dec 9 (-1)) (summary_json demo_args doc) = Ok result /\
  env_status result = "blocked"%string.
Proof.
  assert (H : is_ok demo_sweep = true) by (vm_compute; reflexivity).
  destruct demo_sweep as [doc|] eqn:E; [|discriminate H].
  destruct (sweep_blocks_envelope demo_args no_restart demo_traffic demo_scrapes doc (of_Z 1500) (dec 99 (-2)) None (dec 9 (-1)) E)
    as (result & Hr & Hs & _).
  exists doc, result. split; [reflexivity|]. split; [exact Hr|exact Hs].
Defined.

(** The sweep itself recommends: both levels are feasible and safe, and the first has
    the higher throughput. *)
Example demo_sweep_report :
  (doc <-! demo_sweep ;; Ok (map (fun kr : string * ranking => (kr.1, rk_concurrency <$> best_safe_point kr.2,
     map rk_concurrency (ranked_points kr.2))) (sd_ranking doc)))
  = Ok [("low_reuse", Some 1, [1; 2])]%string.
Proof. vm_compute. reflexivity. Qed.

Definition demo_point (scenario : string) (conc req_s dual : Z) : dict :=
  [("scenario", VStr scenario); ("concurrency", VInt conc);
   ("aggregates", VDict [("req_s_mean", VInt req_s); ("quality_summary",
      VDict [("metric_quality", VStr "ok"); ("hit_ratio_source", VStr "window")])]);
   ("recommendation", VDict [("baseline_hard_only_recommended_rps", VInt 1);
      ("dual_boundary_recommended_rps", VInt dual); ("hit_ratio_comparable", VBool true)])]%string.
Definition demo_points : list dict :=
  [demo_point "low" 1 5 0; demo_point "high" 4 7 0; demo_point "low" 2 4 3; demo_point "low" 4 9 2].
Example demo_ranking :
  (m <-! _build_sweep_ranking demo_points ;;
   Ok (map (fun kr : string * ranking => (kr.1, map rk_concurrency (ranked_points kr.2),
          rk_concurrency <$> best_safe_point kr.2)) m))
  = Ok [("high", [4], None); ("low", [4; 1; 2], Some 4)]%string.
Proof. vm_compute. reflexivity. Qed.
