(* ===== verification/PyUrl.v ===== *)
(** * URLs: what [urllib.parse.urlparse] tells the sources

    The scheme, the network location, the host name and the port.  The checks CPython
    leaves to other modules (bracketed addresses, characters outside ASCII) are the
    parameter [netloc_ok]. *)

From S2P Require Import Prelude PyStr.

Record url := { u_scheme : string; u_netloc : string }.

Definition c0_control_or_space (c : ascii) : bool := code c <=? 32.
Definition unsafe_byte (c : ascii) : bool := (code c =? 9) || (code c =? 10) || (code c =? 13).
Definition scheme_char (c : ascii) : bool :=
  is_alpha c || is_digit c || existsb (Ascii.eqb c) (chars "+-.").
Definition authority_end (c : ascii) : bool := existsb (Ascii.eqb c) (chars "/?#").

(** The scheme before the first colon, in lower case, and the rest; without a valid
    scheme the whole text is the rest. *)
Definition split_scheme (l : list ascii) : list ascii * list ascii :=
  match partition_on ":"%char l with
  | (c :: s, true, rest) =>
      if is_alpha c && forallb scheme_char (c :: s) then (map lower_char (c :: s), rest) else ([], l)
  | _ => ([], l)
  end.
Definition split_netloc (l : list ascii) : list ascii :=
  match l with
  | a :: b :: rest =>
      if Ascii.eqb a "/"%char && Ascii.eqb b "/"%char then (span (fun c => negb (authority_end c)) rest).1 else []
  | _ => []
  end.

Definition has_char (c : ascii) (l : list ascii) : bool := existsb (Ascii.eqb c) l.
Definition is_ascii (l : list ascii) : bool := forallb (fun c => code c <? 128) l.

Section urlparse.
Context (netloc_ok : string -> bool).

Definition urlparse (text : string) : res url :=
  let l := List.filter (fun c => negb (unsafe_byte c)) (lstrip_with c0_control_or_space (chars text)) in
  let '(scheme, rest) := split_scheme l in
  let netloc := split_netloc rest in
  let opening := has_char "["%char netloc in
  let closing := has_char "]"%char netloc in
  if negb (Bool.eqb opening closing) then Err (ValueError "Invalid IPv6 URL")
  else if (opening || negb (is_ascii netloc)) && negb (netloc_ok (str netloc)) then Err (ValueError "netloc")
  else Ok {| u_scheme := str scheme; u_netloc := str netloc |}.
End urlparse.

(** [parsed.hostname] and [parsed.port] *)
Definition rpartition_at (l : list ascii) : list ascii :=
  (fix go (l cur : list ascii) : list ascii :=
     match l with
     | [] => cur
     | c :: l' => go l' (if Ascii.eqb c "@"%char then l' else cur)
     end) l l.
Definition hostinfo (u : url) : list ascii * list ascii :=
  let info := rpartition_at (chars (u_netloc u)) in
  match partition_on "["%char info with
  | (_, true, bracketed) =>
      let '(host, _, rest) := partition_on "]"%char bracketed in
      (host, (partition_on ":"%char rest).2)
  | _ => let '(host, _, port) := partition_on ":"%char info in (host, port)
  end.
Definition hostname (u : url) : option string :=
  match (hostinfo u).1 with
  | [] => None
  | host =>
      let '(name, percent, zone) := partition_on "%"%char host in
      Some (str (map lower_char name) +:+ (if percent then "%" else "") +:+ str zone)
  end.
Definition port (u : url) : res (option Z) :=
  match (hostinfo u).2 with
  | [] => Ok None
  | digits =>
      if forallb is_digit digits then
        let p := digits_val digits in
        if (0 <=? p) && (p <=? 65535) then Ok (Some p) else Err (ValueError "Port out of range 0-65535")
      else Err (ValueError "Port could not be cast to integer value")
  end.

Example url_known : urlparse (fun _ => true) "HTTP://user@Host:8000/v1?x#y" =
  Ok {| u_scheme := "http"; u_netloc := "user@Host:8000" |}.
Proof. vm_compute. reflexivity. Qed.
Example host_known :
  let u := {| u_scheme := "http"; u_netloc := "user@Host:8000" |} in
  hostname u = Some "host"%string /\ port u = Ok (Some 8000).
Proof. vm_compute. split; reflexivity. Qed.
Example url_relative : urlparse (fun _ => true) "localhost:8000" = Ok {| u_scheme := "localhost"; u_netloc := "" |}.
Proof. vm_compute. reflexivity. Qed.
