(* ===== verification/Stream.v ===== *)
(** * One measured request (benchmark/gateway_runner.py, benchmark/stage2_evaluation.py)

    Both runners send one chat completion, read the body chunk by chunk, and keep a
    failure as a sample instead of raising.  What the server does is an [outcome]: the
    request may fail before a response, and the body may break off. *)

From S2P Require Import Prelude PyFloat PyStr.

(** The type name of an exception and its text. *)
Record raised := { x_type : string; x_text : string }.
(** [f"{type(exc).__name__}: {exc}"] *)
Definition exc_line (x : raised) : string := x_type x +:+ ": " +:+ x_text x.

(** A chunk of the body and the clock after it was received. *)
Record chunk := { ck_size : Z; ck_time : float }.
Inductive outcome : Type :=
| Refused (x : raised)
| Answered (status : Z) (header : string -> option string) (chunks : list chunk) (broken : option raised).

Definition out_status (o : outcome) : Z := match o with Refused _ => 0 | Answered s _ _ _ => s end.
Definition out_header (o : outcome) (name missing : string) : string :=
  match o with Refused _ => missing | Answered _ h _ _ => default missing (h name) end.
Definition out_chunks (o : outcome) : list chunk := match o with Refused _ => [] | Answered _ _ cs _ => cs end.

Definition success_status (status : Z) : bool := (200 <=? status) && (status <? 300).
(** The error of a sample: the status is only looked at when the body was read. *)
Definition out_error (o : outcome) : string :=
  match o with
  | Refused x | Answered _ _ _ (Some x) => exc_line x
  | Answered s _ _ None => if success_status s then "" else "HTTP " +:+ str_of_Z s
  end.
Definition out_ok (o : outcome) : bool := String.eqb (out_error o) "" && success_status (out_status o).

(** The loop over the chunks: the time of the first one that is not empty, and the
    number of bytes. *)
Definition read_chunk (acc : option float * Z) (c : chunk) : option float * Z :=
  (match acc.1 with None => if 0 <? ck_size c then Some (ck_time c) else None | Some t => Some t end,
   acc.2 + ck_size c).
Definition read_body (cs : list chunk) : option float * Z := foldl read_chunk (None, 0) cs.

(** ** Properties *)

Lemma exc_line_nonempty x : exc_line x <> "".
Proof. unfold exc_line. by destruct (x_type x). Qed.
(** A sample has an error exactly when it is not ok. *)
Lemma out_ok_error o : out_ok o = true <-> out_error o = "".
Proof.
  unfold out_ok. rewrite andb_true_iff, String.eqb_eq. split; [tauto|]. intros H. split; [done|].
  destruct o as [x|s h cs [x|]]; simpl in *; try by apply exc_line_nonempty in H.
  destruct (success_status s); [done|]. done.
Qed.

Lemma read_body_from cs acc :
  foldl read_chunk acc cs =
  (match acc.1 with Some t => Some t | None => ck_time <$> List.find (fun c => 0 <? ck_size c) cs end,
   acc.2 + foldr (fun c n => ck_size c + n) 0 cs).
Proof.
  revert acc; induction cs as [|c cs IH]; intros [f n]; simpl; [destruct f; simpl; f_equal; lia|].
  rewrite IH. unfold read_chunk; simpl. f_equal; [|lia]. destruct f; [done|]. by destruct (0 <? ck_size c).
Qed.
Lemma read_body_spec cs :
  read_body cs = (ck_time <$> List.find (fun c => 0 <? ck_size c) cs, foldr (fun c n => ck_size c + n) 0 cs).
Proof. apply read_body_from. Qed.
