(* ===== verification/Stage2Config.v ===== *)
(** * The configuration of a Stage 2 evaluation (benchmark/stage2_evaluation.py)

    [load_config] turns a YAML mapping into a typed configuration or raises; a
    configuration it accepts has the required strategies and workloads, each once, on
    distinct endpoints.  The YAML parser and the environment variables are parameters. *)

From S2P Require Import Prelude PyFloat FloatOrder PyStr PyVal PySort Digest WindowMetrics PyUrl.

Definition REQUIRED_STRATEGIES : list string :=
  ["direct"; "static"; "load-aware"; "kv-aware-shadow"; "kv-aware-enforced"]%string.
Definition DEFAULT_WORKLOADS : list string :=
  ["random"; "repeated-system"; "long-shared-prefix"; "tenant-affinity"]%string.

Record TargetSpec := { tg_strategy : string; tg_url : string; tg_api_key : string }.
Record BackendMetricSpec := { backend_id : string; metrics_url : string }.
Record EvaluationConfig := {
  cf_model : string;
  cf_model_revision : string;
  cf_backend_version : string;
  cf_repetitions : Z;
  cf_requests : Z;
  cf_concurrency : Z;
  cf_timeout_s : float;
  cf_max_tokens : Z;
  cf_seed : Z;
  cf_workloads : list string;
  cf_targets : list TargetSpec;
  cf_backends : list BackendMetricSpec;
  cf_source : dict
}.

(** [x in names] and [len(names) != len(set(names))] *)
Definition in_names (names : list string) (x : string) : bool := existsb (String.eqb x) names.
Definition repeated (names : list string) : bool := negb (Nat.eqb (length names) (length (remove_dups names))).
(** [f"{names or 'none'}"] *)
Definition names_or_none (names : list string) : string :=
  match names with [] => "none" | _ => py_repr (VList (map VStr names)) end.
Definition exactly_error (what : string) (required missing extra : list string) : exn :=
  ValueError (what +:+ " must contain exactly " +:+ join ", " required +:+ "; missing=" +:+ names_or_none missing
              +:+ " extra=" +:+ names_or_none extra).
(** [str(d.get(k, "")).strip()], and the guard that it is not empty. *)
Definition text_key (d : dict) (k : string) : string := strip (py_str (dget_or d k (VStr ""))).
Definition required_text (d : dict) (k : string) : res string :=
  let t := text_key d k in if String.eqb t "" then Err (ValueError (k +:+ " is required")) else Ok t.

Section load.
Context (netloc_ok : string -> bool) (environ : string -> option string).

Definition _absolute_http_url (value : val) (field : string) : res string :=
  let text := strip (py_str (py_or value (VStr ""))) in
  parsed <-! urlparse netloc_ok text ;;
  if negb (in_names ["http"; "https"] (u_scheme parsed)) || String.eqb (u_netloc parsed) ""
  then Err (ValueError (field +:+ " must be an absolute HTTP URL"))
  else Ok (rstrip_char "/"%char text).

Definition load_target (item : val) : res TargetSpec :=
  match item with
  | VDict d =>
      let strategy := text_key d "strategy" in
      let env_name := text_key d "api_key_env" in
      let api_key := if String.eqb env_name "" then py_str (dget_or d "api_key" (VStr ""))
                     else default ""%string (environ env_name) in
      url <-! _absolute_http_url (dgetv d "url") ("target " +:+ strategy +:+ " url") ;;
      Ok {| tg_strategy := strategy; tg_url := url; tg_api_key := api_key |}
  | _ => Err (ValueError "each target must be a mapping")
  end.
Definition load_targets (source : dict) : res (list TargetSpec) :=
  items <-! viter (dget_or source "targets" (VList [])) ;;
  targets <-! res_map load_target items ;;
  let names := map tg_strategy targets in
  if repeated names then Err (ValueError "target strategies must be unique")
  else if repeated (map tg_url targets) then Err (ValueError "target URLs must be unique independent endpoints")
  else
    let missing := List.filter (fun n => negb (in_names names n)) REQUIRED_STRATEGIES in
    let extra := List.filter (fun n => negb (in_names REQUIRED_STRATEGIES n)) names in
    match missing, extra with
    | [], [] => Ok targets
    | _, _ => Err (exactly_error "targets" REQUIRED_STRATEGIES missing extra)
    end.

Definition load_backend (item : val) : res BackendMetricSpec :=
  match item with
  | VDict d =>
      let id := text_key d "id" in
      if String.eqb id "" then Err (ValueError "backend id is required")
      else
        url <-! _absolute_http_url (dgetv d "metrics_url") ("backend " +:+ id +:+ " metrics_url") ;;
        Ok {| backend_id := id; metrics_url := url |}
  | _ => Err (ValueError "each backend must be a mapping")
  end.
Definition load_backends (source : dict) : res (list BackendMetricSpec) :=
  items <-! viter (dget_or source "backends" (VList [])) ;;
  backends <-! res_map load_backend items ;;
  if zlen backends <? 2 then Err (ValueError "Stage 2 evidence requires at least two backend metrics endpoints")
  else if repeated (map backend_id backends) then Err (ValueError "backend ids must be unique")
  else if repeated (map metrics_url backends)
  then Err (ValueError "backend metrics URLs must be unique independent endpoints")
  else Ok backends.

Definition load_workloads (source : dict) : res (list string) :=
  items <-! viter (dget_or source "workloads" (VList (map VStr DEFAULT_WORKLOADS))) ;;
  let workloads := map py_str items in
  if repeated workloads then Err (ValueError "workloads must be unique")
  else
    let missing := List.filter (fun n => negb (in_names workloads n)) DEFAULT_WORKLOADS in
    let extra := List.filter (fun n => negb (in_names DEFAULT_WORKLOADS n)) workloads in
    match missing, extra with
    | [], [] => Ok workloads
    | _, _ => Err (exactly_error "workloads" DEFAULT_WORKLOADS missing extra)
    end.

(** [document] is what [yaml.safe_load] returned. *)
Definition load_config (document : val) : res EvaluationConfig :=
  match py_or document (VDict []) with
  | VDict source =>
      repetitions <-! int_of_val (dget_or source "repetitions" (VInt 10)) ;;
      raise_if repetitions <? 10 with ValueError "Stage 2 evidence requires at least 10 repetitions" ;;
      requests <-! int_of_val (dget_or source "requests_per_repetition" (VInt 24)) ;;
      concurrency <-! int_of_val (dget_or source "concurrency" (VInt 2)) ;;
      raise_if (requests <=? 0) || (concurrency <=? 0)
        with ValueError "requests_per_repetition and concurrency must be positive" ;;
      model <-! required_text source "model" ;;
      model_revision <-! required_text source "model_revision" ;;
      backend_version <-! required_text source "backend_version" ;;
      targets <-! load_targets source ;;
      backends <-! load_backends source ;;
      workloads <-! load_workloads source ;;
      timeout_s <-! float_of_val (dget_or source "timeout_s" (VFloat (of_Z 120))) ;;
      max_tokens <-! int_of_val (dget_or source "max_tokens" (VInt 32)) ;;
      raise_if (timeout_s <=?. f0) || (max_tokens <=? 0) with ValueError "timeout_s and max_tokens must be positive" ;;
      seed <-! int_of_val (dget_or source "seed" (VInt 7)) ;;
      Ok {| cf_model := model; cf_model_revision := model_revision; cf_backend_version := backend_version;
            cf_repetitions := repetitions; cf_requests := requests; cf_concurrency := concurrency;
            cf_timeout_s := timeout_s; cf_max_tokens := max_tokens; cf_seed := seed; cf_workloads := workloads;
            cf_targets := targets; cf_backends := backends; cf_source := source |}
  | _ => Err (ValueError "configuration root must be a mapping")
  end.
End load.

(** ** The hash of a configuration *)

(** [target.pop("api_key", None)] *)
Definition without_key (k : string) (d : dict) : dict := List.filter (fun kv => negb (String.eqb kv.1 k)) d.
Definition drop_api_key (target : val) : res val :=
  match target with VDict d => Ok (VDict (without_key "api_key" d)) | _ => Err AttributeError end.
(** [json.loads(json.dumps(source))] is a copy of the JSON value; the targets of the copy
    lose their keys in place. *)
Definition sanitized (source : dict) : res dict :=
  match dget source "targets" with
  | Some (VList targets) => items <-! res_map drop_api_key targets ;; Ok (dset source "targets" (VList items))
  | Some v => items <-! viter v ;; match items with [] => Ok source | _ => Err AttributeError end
  | None => Ok source
  end.
Definition _config_hash (source : dict) : res string :=
  _ <-! json_text (plain false) 0 (VDict source) ;;
  clean <-! sanitized source ;;
  text <-! json_dumps (VDict clean) ;;
  Ok (sha256_hex text).

(** ** Properties *)

Lemma length_remove_dups_le (l : list string) : (length (remove_dups l) <= length l)%nat.
Proof. induction l as [|x l IH]; simpl; [lia|]. case_decide; simpl; lia. Qed.
Lemma not_repeated names : repeated names = false -> NoDup names.
Proof.
  unfold repeated. intros H%negb_false_iff%Nat.eqb_eq.
  induction names as [|x l IH]; [constructor|]. simpl in H. pose proof (length_remove_dups_le l).
  case_decide; simpl in H; [lia|]. constructor; [done|]. apply IH. lia.
Qed.
Lemma in_names_elem names x : in_names names x = true <-> x ∈ names.
Proof.
  unfold in_names. rewrite existsb_elem. split.
  - intros (y & Hy & E). apply String.eqb_eq in E as ->. done.
  - intros H. exists x. by rewrite String.eqb_refl.
Qed.
Lemma none_outside names l : List.filter (fun n => negb (in_names names n)) l = [] -> forall x, x ∈ l -> x ∈ names.
Proof.
  intros H x Hx. apply in_names_elem. destruct (in_names names x) eqn:E; [done|].
  assert (Hin : x ∈ List.filter (fun n => negb (in_names names n)) l) by (apply elem_of_filterb; by rewrite E).
  rewrite H in Hin. by apply elem_of_nil in Hin.
Qed.
Lemma exactly_names required names : NoDup required -> NoDup names ->
  List.filter (fun n => negb (in_names names n)) required = [] ->
  List.filter (fun n => negb (in_names required n)) names = [] -> names ≡ₚ required.
Proof.
  intros Hr Hn Hm He. apply list.NoDup_Permutation; [done..|]. intros x.
  split; [by apply (none_outside required names)|by apply (none_outside names required)].
Qed.

Definition absolute (url : string) : Prop := exists v netloc_ok field, _absolute_http_url netloc_ok v field = Ok url.

Lemma load_targets_spec netloc_ok environ source ts : load_targets netloc_ok environ source = Ok ts ->
  map tg_strategy ts ≡ₚ REQUIRED_STRATEGIES /\ NoDup (map tg_url ts) /\ Forall (fun t => absolute (tg_url t)) ts.
Proof.
  unfold load_targets. intros H. destruct (viter _) as [items|]; [|done].
  destruct (res_map _ items) as [targets|] eqn:E; [|done]. cbv zeta in H.
  destruct (repeated (map tg_strategy targets)) eqn:E1; [done|].
  destruct (repeated (map tg_url targets)) eqn:E2; [done|].
  destruct (List.filter _ REQUIRED_STRATEGIES) eqn:Em; [|done].
  destruct (List.filter _ (map tg_strategy targets)) eqn:Ee; [|done]. injection H as ->.
  split_and!; [apply exactly_names; [by apply not_repeated|by apply not_repeated|done..]|by apply not_repeated|].
  apply res_map_Forall2 in E. eapply Forall2_Forall_r; [exact E|]. apply Forall_true. intros item t Ht.
  unfold load_target in Ht. destruct item; try discriminate Ht. inv_ok Ht. subst t. by do 3 eexists.
Qed.
Lemma load_backends_spec netloc_ok source bs : load_backends netloc_ok source = Ok bs ->
  2 <= zlen bs /\ NoDup (map backend_id bs) /\ NoDup (map metrics_url bs) /\
  Forall (fun b => backend_id b <> "" /\ absolute (metrics_url b)) bs.
Proof.
  unfold load_backends. intros H. destruct (viter _) as [items|]; [|done].
  destruct (res_map _ items) as [backends|] eqn:E; [|done].
  destruct (Z.ltb_spec (zlen backends) 2); [done|].
  destruct (repeated (map backend_id backends)) eqn:E1; [done|].
  destruct (repeated (map metrics_url backends)) eqn:E2; [done|]. injection H as ->.
  split_and!; [lia|by apply not_repeated..|].
  apply res_map_Forall2 in E. eapply Forall2_Forall_r; [exact E|]. apply Forall_true. intros item b Hb.
  unfold load_backend in Hb. destruct item; try discriminate Hb. cbv zeta in Hb.
  destruct (String.eqb_spec (text_key d "id") ""); [done|]. inv_ok Hb. subst b. split; [done|]. by do 3 eexists.
Qed.
Lemma load_workloads_spec source ws : load_workloads source = Ok ws -> ws ≡ₚ DEFAULT_WORKLOADS.
Proof.
  unfold load_workloads. intros H. destruct (viter _) as [items|]; [|done]. cbv zeta in H.
  destruct (repeated (map py_str items)) eqn:E1; [done|].
  destruct (List.filter _ DEFAULT_WORKLOADS) eqn:Em; [|done].
  destruct (List.filter _ (map py_str items)) eqn:Ee; [|done]. injection H as <-.
  apply exactly_names; [by apply not_repeated|by apply not_repeated|done..].
Qed.
Lemma required_text_nonempty d k t : required_text d k = Ok t -> t <> "".
Proof. unfold required_text. destruct (String.eqb_spec (text_key d k) ""); [done|]. congruence. Qed.


(** A configuration; null stands for a missing value in YAML. *)
Definition demo_url (n : Z) : val := VStr ("http://h" +:+ str_of_Z n +:+ ":8000/").
Definition demo_target (p : nat * string) : val := VDict
  [("strategy", VStr p.2); ("url", demo_url (Z.of_nat p.1)); ("api_key", VStr "secret")]%string.
Definition demo_source (model : val) : dict :=
  [("model", model); ("model_revision", VStr "r1"); ("backend_version", VStr "0.8");
   ("targets", VList (map demo_target (indexed REQUIRED_STRATEGIES)));
   ("backends", VList [VDict [("id", VStr "a"); ("metrics_url", demo_url 8)];
                       VDict [("id", VStr "b"); ("metrics_url", demo_url 9)]])]%string.
Definition demo_load (model : val) : res EvaluationConfig :=
  load_config (fun _ => true) (fun _ => None) (VDict (demo_source model)).

(** The guard for a required text only sees a missing key or an empty text: a key that is
    present but null is accepted, under the name [None]. *)
Example null_model_accepted : (cfg <-! demo_load VNone ;; Ok (cf_model cfg)) = Ok "None"%string.
Proof. vm_compute. reflexivity. Qed.
Example missing_model_rejected :
  load_config (fun _ => true) (fun _ => None) (VDict (without_key "model" (demo_source VNone)))
  = Err (ValueError "model is required").
Proof. vm_compute. reflexivity. Qed.

(** ** Secrets *)

Lemma dset_dset {A} (d : list (string * A)) k a b : dset (dset d k a) k b = dset d k b.
Proof.
  induction d as [|[k' v] d IH]; simpl; [by rewrite String.eqb_refl|].
  destruct (String.eqb_spec k k') as [->|Hk]; simpl; [by rewrite String.eqb_refl|].
  apply String.eqb_neq in Hk. by rewrite Hk, IH.
Qed.
Lemma drop_api_keys ts : res_map drop_api_key (map VDict ts) = Ok (map (fun d => VDict (without_key "api_key" d)) ts).
Proof. induction ts as [|d ts IH]; simpl; [done|]. by rewrite IH. Qed.
Lemma sanitized_targets source ts :
  sanitized (dset source "targets" (VList (map VDict ts))) =
  Ok (dset source "targets" (VList (map VDict (map (without_key "api_key") ts)))).
Proof. unfold sanitized. by rewrite dget_dset_eq, drop_api_keys, dset_dset, map_map. Qed.

(** The configuration hash that is published with the results does not depend on the
    API keys of the targets: two configurations that differ in them only have the same
    hash. *)
Theorem config_hash_hides_keys source ts us :
  jsonable (VDict (dset source "targets" (VList (map VDict ts)))) = true ->
  jsonable (VDict (dset source "targets" (VList (map VDict us)))) = true ->
  map (without_key "api_key") ts = map (without_key "api_key") us ->
  _config_hash (dset source "targets" (VList (map VDict ts))) =
  _config_hash (dset source "targets" (VList (map VDict us))).
Proof.
  intros Ht Hu E. unfold _config_hash.
  destruct (json_text_ok (plain false) _ 0 Ht) as [t1 ->]. destruct (json_text_ok (plain false) _ 0 Hu) as [t2 ->].
  by rewrite !sanitized_targets, E.
Qed.
Definition keyed_target (key : string) : dict := [("strategy", VStr "direct"); ("api_key", VStr key)]%string.
Lemma config_hash_hides_keys_witness :
  jsonable (VDict (dset [] "targets" (VList (map VDict [keyed_target "a"])))) = true /\
  _config_hash (dset [] "targets" (VList (map VDict [keyed_target "a"]))) =
  _config_hash (dset [] "targets" (VList (map VDict [keyed_target "b"]))).
Proof.
  split; [reflexivity|].
  apply (config_hash_hides_keys [] [keyed_target "a"] [keyed_target "b"]); reflexivity.
Defined.
