(* ===== verification/Stage2.v ===== *)
(** * Samples, windows and aggregates of a Stage 2 evaluation (benchmark/stage2_evaluation.py)

    The workloads, the sample one request leaves, the summary of a repetition, the window
    of the backends' counters around it, and the aggregates over repetitions. *)

From S2P Require Import Prelude PyFloat FloatOrder FloatRound PyStr PyVal PySort PromParse Percentile Random Stream Stage2Config.

(** ** Workloads *)

(** [f"token{rng.randrange(100000):05d}"] *)
Fixpoint token_words (n : nat) (g : generator) : res (list string) :=
  match n with
  | O => Ok []
  | S n' =>
      ' (i, g) <-! randbelow draws 100000 g ;;
      ws <-! token_words n' g ;;
      Ok (("token" +:+ pad_left 5 (str_of_Z i)) :: ws)
  end.
Definition _deterministic_text (seed length : Z) : res string :=
  words <-! token_words (Z.to_nat (Z.max 1 (length / 11))) (Random seed) ;; Ok (join " " words).

Definition message (role content : string) : val := VDict [("role", VStr role); ("content", VStr content)]%string.
Fixpoint repeat_text (n : nat) (s : string) : string := match n with O => "" | S n' => s +:+ repeat_text n' s end.
Definition build_workload_messages (workload : string) (request_index seed : Z) : res (list val) :=
  unique <-! _deterministic_text (seed * 100003 + request_index) 256 ;;
  let i := str_of_Z request_index in
  if String.eqb workload "random" then Ok [message "user" ("Analyze this independent input: " +:+ unique)]
  else if String.eqb workload "repeated-system" then
    Ok [message "system" "You are Kavora's deterministic routing benchmark assistant. Answer concisely and preserve the supplied identifier.";
        message "user" ("Identifier " +:+ i +:+ ": " +:+ unique)]
  else if String.eqb workload "long-shared-prefix" then
    Ok [message "system" (strip (repeat_text 80 "Kavora evaluates prefix-local inference routing under controlled load. "));
        message "user" ("Request " +:+ i +:+ ": summarize " +:+ unique)]
  else if String.eqb workload "tenant-affinity" then
    Ok [message "system" "Continue this tenant-scoped conversation while retaining its shared context.";
        message "user" "We are measuring whether related turns remain local to a reusable backend.";
        message "assistant" "Understood. I will retain the shared experiment context.";
        message "user" ("Turn " +:+ i +:+ ": give one observation about " +:+ unique)]
  else Err (ValueError ("unknown workload: " +:+ workload)).

(** ** One request *)

Record Request := { rq_url : string; rq_payload : val; rq_headers : list (string * string) }.
Definition request_of (target : TargetSpec) (config : EvaluationConfig) (workload : string) (index : Z) : res Request :=
  messages <-! build_workload_messages workload index (cf_seed config) ;;
  Ok {| rq_url := tg_url target +:+ "/v1/chat/completions";
        rq_payload := VDict [("model", VStr (cf_model config)); ("messages", VList messages); ("stream", VBool true);
                             ("max_tokens", VInt (cf_max_tokens config)); ("temperature", VInt 0)]%string;
        rq_headers := ([("Content-Type", "application/json"); ("X-Kavora-Benchmark-Workload", workload)]%string
                       ++ if String.eqb (tg_api_key target) "" then []
                          else [("Authorization"%string, ("Bearer " +:+ tg_api_key target)%string)]) |}.

Record Sample := {
  sm_index : Z;
  sm_ok : bool;
  sm_status : Z;
  sm_error : string;
  sm_latency_ms : float;
  sm_ttft_ms : option float;
  sm_response_bytes : Z;
  sm_backend : string;
  sm_fallback : bool;
  sm_request_id : string
}.
Definition milliseconds (t0 t1 : float) : float := (t1 ⊖ t0) ⊗ of_Z 1000.
(** What [_run_one] records of an outcome, between two readings of the clock. *)
Definition _run_one (index : Z) (started : float) (o : outcome) (finished : float) : Sample :=
  let '(first_byte, response_bytes) := read_body (out_chunks o) in
  {| sm_index := index; sm_ok := out_ok o; sm_status := out_status o; sm_error := out_error o;
     sm_latency_ms := milliseconds started finished; sm_ttft_ms := milliseconds started <$> first_byte;
     sm_response_bytes := response_bytes; sm_backend := out_header o "X-Kavora-Backend" "";
     sm_fallback := String.eqb (lower (out_header o "X-Kavora-Routing-Fallback" "false")) "true";
     sm_request_id := out_header o "X-Request-ID" "" |}.

(** ** The summary of a repetition *)

Record quantiles := { q50 : option float; q95 : option float; q99 : option float }.
Definition quantiles_of (values : list float) : res quantiles :=
  a <-! Gateway.percentile values (dec 50 (-2)) ;;
  b <-! Gateway.percentile values (dec 95 (-2)) ;;
  c <-! Gateway.percentile values (dec 99 (-2)) ;;
  Ok {| q50 := a; q95 := b; q99 := c |}.

(** [Counter]: occurrences in the order of their first one; [sorted(counter.items())]. *)
Definition counter := list (string * Z).
Definition count_add (c : counter) (kn : string * Z) : counter := dset c kn.1 (dget_or c kn.1 0 + kn.2).
Definition Counter (l : list string) : counter := foldl count_add [] (map (fun k => (k, 1)) l).
Definition sorted_items (c : counter) : counter := py_sort (fun a b : string * Z => str_ltb a.1 b.1) c.

Fixpoint switches (routes : list string) : Z :=
  match routes with
  | a :: (b :: _) as rest => (if String.eqb a b then 0 else 1) + switches rest
  | _ => 0
  end.

Record Summary := {
  su_requests : Z;
  su_ok : Z;
  su_failed : Z;
  su_error_rate : float;
  su_throughput_req_s : float;
  su_latency_ms : quantiles;
  su_ttft_ms : quantiles;
  su_routing_distribution : counter;
  su_route_switches : Z;
  su_fallback_count : Z;
  su_sample_errors : list string;
  su_elapsed_s : float
}.
Definition nonempty (s : string) : bool := negb (String.eqb s "").
Definition summarize_samples (samples : list Sample) (elapsed_s : float) : res Summary :=
  let successful := List.filter sm_ok samples in
  let n := zlen samples in
  let ok := zlen successful in
  let routes := List.filter nonempty (map sm_backend successful) in
  error_rate <-! int_truediv (n - ok) (Z.max n 1) ;;
  okf <-! float_of_int ok ;;
  throughput <-! fdiv okf (fmax elapsed_s (dec 1 (-9))) ;;
  latency <-! quantiles_of (map sm_latency_ms successful) ;;
  ttft <-! quantiles_of (omap sm_ttft_ms successful) ;;
  Ok {| su_requests := n; su_ok := ok; su_failed := n - ok; su_error_rate := error_rate;
        su_throughput_req_s := throughput; su_latency_ms := latency; su_ttft_ms := ttft;
        su_routing_distribution := sorted_items (Counter routes); su_route_switches := switches routes;
        su_fallback_count := zlen (List.filter sm_fallback samples);
        su_sample_errors := take 5 (List.filter nonempty (map sm_error samples)); su_elapsed_s := elapsed_s |}.

(** ** The window of the backends *)

Definition scrape := list (string * metrics).
Fixpoint _pick (m : metrics) (names : list string) : option float :=
  match names with
  | [] => None
  | n :: rest => match dget m n with Some v => Some v | None => _pick m rest end
  end.

Record window_acc := {
  wa_hits : float; wa_queries : float; wa_complete : Z; wa_resets : Z; wa_usage : list float; wa_queues : list float
}.
Definition HITS : list string := ["vllm:prefix_cache_hits_total"; "vllm:prefix_cache_hits"].
Definition QUERIES : list string := ["vllm:prefix_cache_queries_total"; "vllm:prefix_cache_queries"].
Definition add_opt (o : option float) (l : list float) : list float := match o with Some x => l ++ [x] | None => l end.
(** The body of the loop over the backends scraped after the repetition. *)
Definition window_step (before : scrape) (acc : window_acc) (backend : string * metrics) : window_acc :=
  let after_metrics := backend.2 in
  let before_metrics := dget_or before backend.1 [] in
  let acc :=
    match _pick after_metrics HITS, _pick after_metrics QUERIES, _pick before_metrics HITS, _pick before_metrics QUERIES with
    | Some hits_after, Some queries_after, Some hits_before, Some queries_before =>
        if (hits_after <?. hits_before) || (queries_after <?. queries_before) then
          {| wa_hits := wa_hits acc; wa_queries := wa_queries acc; wa_complete := wa_complete acc;
             wa_resets := wa_resets acc + 1; wa_usage := wa_usage acc; wa_queues := wa_queues acc |}
        else
          {| wa_hits := wa_hits acc ⊕ (hits_after ⊖ hits_before);
             wa_queries := wa_queries acc ⊕ (queries_after ⊖ queries_before);
             wa_complete := wa_complete acc + 1; wa_resets := wa_resets acc; wa_usage := wa_usage acc;
             wa_queues := wa_queues acc |}
    | _, _, _, _ => acc
    end in
  {| wa_hits := wa_hits acc; wa_queries := wa_queries acc; wa_complete := wa_complete acc; wa_resets := wa_resets acc;
     wa_usage := add_opt (_pick after_metrics ["vllm:kv_cache_usage_perc"%string]) (wa_usage acc);
     wa_queues := add_opt (_pick after_metrics ["vllm:num_requests_waiting"; "vllm:num_requests_waiting_total"]%string)
                    (wa_queues acc) |}.

Record Window := {
  wi_prefix_hits_delta : option float;
  wi_prefix_queries_delta : option float;
  wi_kv_reuse_rate : option float;
  wi_gpu_kv_utilization_mean : option float;
  wi_queue_depth_mean : option float;
  wi_metric_quality : string
}.
Definition mean_or_none (l : list float) : res (option float) :=
  match l with [] => Ok None | _ => m <-! mean l ;; Ok (Some m) end.
Definition window_acc0 : window_acc :=
  {| wa_hits := f0; wa_queries := f0; wa_complete := 0; wa_resets := 0; wa_usage := []; wa_queues := [] |}.
Definition summarize_vllm_window (before after : scrape) : res Window :=
  let acc := foldl (window_step before) window_acc0 after in
  let complete := 0 <? wa_complete acc in
  reuse <-! (if complete && (wa_queries acc >?. f0) then r <-! fdiv (wa_hits acc) (wa_queries acc) ;; Ok (Some r) else Ok None) ;;
  usage <-! mean_or_none (wa_usage acc) ;;
  queue <-! mean_or_none (wa_queues acc) ;;
  Ok {| wi_prefix_hits_delta := if complete then Some (wa_hits acc) else None;
        wi_prefix_queries_delta := if complete then Some (wa_queries acc) else None;
        wi_kv_reuse_rate := reuse; wi_gpu_kv_utilization_mean := usage; wi_queue_depth_mean := queue;
        wi_metric_quality :=
          if 0 <? wa_resets acc then "counter_reset"
          else if (wa_complete acc =? zlen after) && (0 <? zlen after) then "ok"
          else "missing" |}.

(** ** Aggregates over repetitions *)

Record estimate := { es_mean : option float; es_low : option float; es_high : option float; es_n : Z }.
Definition _mean_ci95 (values : list float) : res estimate :=
  match values with
  | [] => Ok {| es_mean := None; es_low := None; es_high := None; es_n := 0 |}
  | _ =>
      m <-! mean values ;;
      if zlen values <? 2 then Ok {| es_mean := Some m; es_low := None; es_high := None; es_n := zlen values |}
      else
        sd <-! stdev values ;;
        n <-! float_of_int (zlen values) ;;
        root <-! fsqrt n ;;
        margin <-! fdiv (dec 196 (-2) ⊗ sd) root ;;
        Ok {| es_mean := Some m; es_low := Some (m ⊖ margin); es_high := Some (m ⊕ margin); es_n := zlen values |}
  end.

Record Repetition := {
  rp_repetition : Z;
  rp_summary : Summary;
  rp_backend_window : Window;
  rp_scrape_errors : list (string * string) * list (string * string);
  rp_samples : list Sample
}.
Record Aggregate := {
  ag_repetitions : Z;
  ag_throughput_req_s : estimate;
  ag_error_rate : estimate;
  ag_latency_p50_ms : estimate;
  ag_latency_p95_ms : estimate;
  ag_latency_p99_ms : estimate;
  ag_ttft_p50_ms : estimate;
  ag_ttft_p95_ms : estimate;
  ag_ttft_p99_ms : estimate;
  ag_kv_reuse_rate : estimate;
  ag_gpu_kv_utilization_mean : estimate;
  ag_queue_depth_mean : estimate;
  ag_route_switches : Z;
  ag_fallback_count : Z;
  ag_routing_distribution : counter;
  ag_metric_quality : string
}.
(** [values(path)]: the numbers at a path of keys, which is a projection; null is left out. *)
Definition values (path : Repetition -> option float) (repetitions : list Repetition) : list float := omap path repetitions.
Definition z_sum (l : list Z) : Z := foldr Z.add 0 l.
Definition aggregate_repetitions (repetitions : list Repetition) : res Aggregate :=
  let est path := _mean_ci95 (values path repetitions) in
  throughput <-! est (fun r => Some (su_throughput_req_s (rp_summary r))) ;;
  error_rate <-! est (fun r => Some (su_error_rate (rp_summary r))) ;;
  l50 <-! est (fun r => q50 (su_latency_ms (rp_summary r))) ;;
  l95 <-! est (fun r => q95 (su_latency_ms (rp_summary r))) ;;
  l99 <-! est (fun r => q99 (su_latency_ms (rp_summary r))) ;;
  t50 <-! est (fun r => q50 (su_ttft_ms (rp_summary r))) ;;
  t95 <-! est (fun r => q95 (su_ttft_ms (rp_summary r))) ;;
  t99 <-! est (fun r => q99 (su_ttft_ms (rp_summary r))) ;;
  reuse <-! est (fun r => wi_kv_reuse_rate (rp_backend_window r)) ;;
  util <-! est (fun r => wi_gpu_kv_utilization_mean (rp_backend_window r)) ;;
  queue <-! est (fun r => wi_queue_depth_mean (rp_backend_window r)) ;;
  let routing := foldl (fun c r => foldl count_add c (su_routing_distribution (rp_summary r))) [] repetitions in
  Ok {| ag_repetitions := zlen repetitions; ag_throughput_req_s := throughput; ag_error_rate := error_rate;
        ag_latency_p50_ms := l50; ag_latency_p95_ms := l95; ag_latency_p99_ms := l99;
        ag_ttft_p50_ms := t50; ag_ttft_p95_ms := t95; ag_ttft_p99_ms := t99;
        ag_kv_reuse_rate := reuse; ag_gpu_kv_utilization_mean := util; ag_queue_depth_mean := queue;
        ag_route_switches := z_sum (map (fun r => su_route_switches (rp_summary r)) repetitions);
        ag_fallback_count := z_sum (map (fun r => su_fallback_count (rp_summary r)) repetitions);
        ag_routing_distribution := sorted_items routing;
        ag_metric_quality :=
          if (0 <? zlen repetitions)
             && forallb (fun r => String.eqb (wi_metric_quality (rp_backend_window r)) "ok") repetitions
          then "ok" else "mixed_or_missing" |}.

(** ** Counters *)

Lemma z_sum_nil : z_sum [] = 0.
Proof. done. Qed.
Lemma z_sum_cons x l : z_sum (x :: l) = x + z_sum l.
Proof. done. Qed.
Lemma count_add_total c k n : z_sum (map snd (count_add c (k, n))) = z_sum (map snd c) + n.
Proof.
  unfold count_add, dget_or. cbn [fst snd]. induction c as [|[k' m] c IH]; cbn [dget dset map snd].
  - rewrite z_sum_cons, z_sum_nil. cbn [from_option id default]. lia.
  - destruct (String.eqb k k'); cbn [map snd from_option id default]; rewrite !z_sum_cons; lia.
Qed.
Lemma counter_total c l : z_sum (map snd (foldl count_add c l)) = z_sum (map snd c) + z_sum (map snd l).
Proof.
  revert c; induction l as [|[k n] l IH]; intros c; cbn [foldl map snd]; [rewrite z_sum_nil; lia|].
  rewrite IH, count_add_total, z_sum_cons. lia.
Qed.
Lemma counter_get c l k :
  dget_or (foldl count_add c (map (fun k => (k, 1)) l)) k 0 = dget_or c k 0 + WindowMetrics.count k l.
Proof.
  revert c; induction l as [|x l IH]; intros c; [unfold WindowMetrics.count, zlen; simpl; lia|].
  cbn [map foldl]. rewrite IH, WindowMetrics.count_cons. unfold count_add, dget_or. cbn [fst snd]. rewrite dget_dset.
  rewrite (String.eqb_sym x k). destruct (String.eqb_spec k x) as [->|]; cbn [from_option id default]; lia.
Qed.
Lemma counter_keys_NoDup c l : NoDup (dkeys c) -> NoDup (dkeys (foldl count_add c l)).
Proof. revert c; induction l as [|x l IH]; intros c H; [done|]. by apply IH, dset_NoDup. Qed.
Lemma z_sum_perm l m : l ≡ₚ m -> z_sum l = z_sum m.
Proof. induction 1; rewrite ?z_sum_cons in *; lia. Qed.
Lemma sorted_items_perm c : sorted_items c ≡ₚ c.
Proof. apply py_sort_perm. Qed.
Lemma z_sum_ones (l : list string) : z_sum (map snd (map (fun k => (k, 1)) l)) = zlen l.
Proof. induction l as [|x l IH]; [done|]. rewrite zlen_cons. cbn [map snd] in *. rewrite z_sum_cons. lia. Qed.
Lemma dget_perm (c d : counter) k n : NoDup (dkeys c) -> c ≡ₚ d -> dget c k = Some n -> dget d k = Some n.
Proof.
  intros Hn Hp Hk. apply dget_Some_elem in Hk. rewrite Hp in Hk.
  assert (Hd : NoDup (dkeys d)) by (unfold dkeys in *; by rewrite <- Hp). clear -Hk Hd.
  induction d as [|[k' m] d IH]; [set_solver|]. cbn in *. apply NoDup_cons in Hd as [Hx Hd].
  destruct (String.eqb_spec k k') as [->|Hne].
  - apply elem_of_cons in Hk as [Hk|Hk]; [congruence|]. exfalso. apply Hx. apply list_elem_of_fmap. by exists (k', n).
  - apply IH; [|done]. apply elem_of_cons in Hk as [Hk|Hk]; [congruence|done].
Qed.

Lemma switches_cons a b l : switches (a :: b :: l) = (if String.eqb a b then 0 else 1) + switches (b :: l).
Proof. done. Qed.
Lemma switches_from l a : 0 <= switches (a :: l) <= zlen l.
Proof.
  revert a; induction l as [|b l IH]; intros a; [done|].
  specialize (IH b). rewrite zlen_cons, switches_cons. destruct (String.eqb a b); lia.
Qed.
Lemma switches_bounds l : 0 <= switches l <= Z.max 0 (zlen l - 1).
Proof. destruct l as [|a l]; [done|]. pose proof (switches_from l a). rewrite zlen_cons. lia. Qed.

(** The accounting of a repetition.  Every sample is either successful or failed;
    the routing distribution counts every successful sample that names its backend,
    under its own backend, once; there are fewer route switches than such samples; at
    most five errors are kept, each of a sample that has one. *)
Theorem summary_accounting samples elapsed s : summarize_samples samples elapsed = Ok s ->
  let routes := List.filter nonempty (map sm_backend (List.filter sm_ok samples)) in
  su_requests s = zlen samples /\ su_ok s + su_failed s = su_requests s /\ 0 <= su_ok s <= su_requests s /\
  NoDup (dkeys (su_routing_distribution s)) /\
  z_sum (map snd (su_routing_distribution s)) = zlen routes /\
  (forall k n, dget (su_routing_distribution s) k = Some n -> n = WindowMetrics.count k routes) /\
  0 <= su_route_switches s <= Z.max 0 (zlen routes - 1) /\
  0 <= su_fallback_count s <= su_requests s /\
  zlen (su_sample_errors s) <= 5 /\
  Forall (fun e => e <> "" /\ exists x, x ∈ samples /\ sm_error x = e) (su_sample_errors s).
Proof.
  unfold summarize_samples. intros H. cbv zeta in *. inv_ok H. subst s. cbn.
  set (routes := List.filter nonempty (map sm_backend (List.filter sm_ok samples))).
  pose proof (filterb_length_le sm_ok samples) as Hok. pose proof (filterb_length_le sm_fallback samples) as Hfb.
  pose proof (sorted_items_perm (Counter routes)) as Hp.
  assert (Hnd : NoDup (dkeys (Counter routes))) by (apply counter_keys_NoDup; constructor).
  split_and!; try (unfold zlen; lia).
  - unfold dkeys in *. by rewrite Hp.
  - rewrite (z_sum_perm _ (map snd (Counter routes))) by (by rewrite Hp). unfold Counter.
    rewrite counter_total, z_sum_ones. cbn. lia.
  - intros k n Hk. pose proof (counter_get [] routes k) as Hg. fold (Counter routes) in Hg.
    eapply dget_perm in Hk; [|unfold dkeys in *; by rewrite Hp|exact Hp].
    unfold dget_or in Hg. rewrite Hk in Hg. cbn in Hg. lia.
  - apply switches_bounds.
  - apply switches_bounds.
  - unfold zlen. rewrite length_take. lia.
  - apply Forall_take, Forall_forall. intros e [He Hne]%elem_of_filterb. split.
    + intros ->. done.
    + apply list_elem_of_fmap in He as (x & -> & Hx). eauto.
Qed.

Definition demo_sample (backend : string) (ok : bool) : Sample :=
  {| sm_index := 0; sm_ok := ok; sm_status := 200; sm_error := if ok then "" else "HTTP 500"; sm_latency_ms := of_Z 10;
     sm_ttft_ms := Some (of_Z 4); sm_response_bytes := 3; sm_backend := backend; sm_fallback := negb ok;
     sm_request_id := "" |}.
Definition demo_samples : list Sample :=
  [demo_sample "b" true; demo_sample "a" true; demo_sample "a" true; demo_sample "a" false; demo_sample "" true].
Lemma summary_accounting_witness : exists s, summarize_samples demo_samples f1 = Ok s /\
  z_sum (map snd (su_routing_distribution s)) = 3.
Proof.
  assert (H : is_ok (summarize_samples demo_samples f1) = true) by (vm_compute; reflexivity).
  destruct (summarize_samples demo_samples f1) as [s|] eqn:E; [|discriminate H].
  exists s. split; [reflexivity|].
  destruct (summary_accounting demo_samples f1 s E) as (_ & _ & _ & _ & Hsum & _). exact Hsum.
Defined.

(** ** The window *)

(** What the counters of a backend say about the window: both were read on both sides,
    and neither went backwards, or one did. *)
Definition counters_around (before : scrape) (b : string * metrics) : option (float * float * float * float) :=
  match _pick b.2 HITS, _pick b.2 QUERIES, _pick (dget_or before b.1 []) HITS, _pick (dget_or before b.1 []) QUERIES with
  | Some ha, Some qa, Some hb, Some qb => Some (ha, qa, hb, qb)
  | _, _, _, _ => None
  end.
Definition went_back (c : float * float * float * float) : bool :=
  let '(ha, qa, hb, qb) := c in (ha <?. hb) || (qa <?. qb).
Definition complete_in (before : scrape) (b : string * metrics) : bool :=
  match counters_around before b with Some c => negb (went_back c) | None => false end.
Definition reset_in (before : scrape) (b : string * metrics) : bool :=
  match counters_around before b with Some c => went_back c | None => false end.
Definition USAGE : list string := ["vllm:kv_cache_usage_perc"].
Definition WAITING : list string := ["vllm:num_requests_waiting"; "vllm:num_requests_waiting_total"].

Lemma window_step_spec before acc b :
  let acc' := window_step before acc b in
  wa_complete acc' = wa_complete acc + (if complete_in before b then 1 else 0) /\
  wa_resets acc' = wa_resets acc + (if reset_in before b then 1 else 0) /\
  wa_usage acc' = add_opt (_pick b.2 USAGE) (wa_usage acc) /\
  wa_queues acc' = add_opt (_pick b.2 WAITING) (wa_queues acc).
Proof.
  unfold window_step, complete_in, reset_in, counters_around. cbv zeta.
  destruct (_pick b.2 HITS) as [ha|]; [|split_and!; simpl; done || lia].
  destruct (_pick b.2 QUERIES) as [qa|]; [|split_and!; simpl; done || lia].
  destruct (_pick (dget_or before b.1 []) HITS) as [hb|]; [|split_and!; simpl; done || lia].
  destruct (_pick (dget_or before b.1 []) QUERIES) as [qb|]; [|split_and!; simpl; done || lia].
  unfold went_back. destruct ((ha <?. hb) || (qa <?. qb)); split_and!; simpl; done || lia.
Qed.
Lemma window_fold before after acc :
  let acc' := foldl (window_step before) acc after in
  wa_complete acc' = wa_complete acc + zlen (List.filter (complete_in before) after) /\
  wa_resets acc' = wa_resets acc + zlen (List.filter (reset_in before) after) /\
  wa_usage acc' = wa_usage acc ++ omap (fun b : string * metrics => _pick b.2 USAGE) after /\
  wa_queues acc' = wa_queues acc ++ omap (fun b : string * metrics => _pick b.2 WAITING) after.
Proof.
  revert acc; induction after as [|b after IH]; intros acc; cbv zeta.
  - simpl. rewrite !app_nil_r. unfold zlen. simpl. split_and!; [lia..|done|done].
  - cbn [foldl]. destruct (IH (window_step before acc b)) as (-> & -> & -> & ->).
    destruct (window_step_spec before acc b) as (-> & -> & -> & ->).
    cbn [List.filter omap list_omap]. unfold add_opt.
    destruct (complete_in before b), (reset_in before b), (_pick b.2 USAGE), (_pick b.2 WAITING);
      rewrite ?zlen_cons, <- ?app_assoc; split_and!; done || lia.
Qed.

Lemma filter_zlen_zero {A} (f : A -> bool) l : zlen (List.filter f l) = 0 <-> forall x, x ∈ l -> f x = false.
Proof.
  induction l as [|x l IH]; [set_solver|]. cbn [List.filter]. destruct (f x) eqn:E.
  - rewrite zlen_cons. pose proof (zlen_nonneg (List.filter f l)) as Hnn. split; [lia|]. intros H. specialize (H x ltac:(by left)). congruence.
  - rewrite IH. split; [intros H y [-> |Hy]%elem_of_cons; auto|intros H y Hy; apply H; by right].
Qed.
Lemma filter_zlen_all {A} (f : A -> bool) l : zlen (List.filter f l) = zlen l <-> forall x, x ∈ l -> f x = true.
Proof.
  induction l as [|x l IH]; [set_solver|]. cbn [List.filter]. pose proof (filterb_length_le f l) as Hle. destruct (f x) eqn:E.
  - rewrite !zlen_cons. split.
    + intros H y [-> |Hy]%elem_of_cons; [done|]. apply IH; [lia|done].
    + intros H. assert (zlen (List.filter f l) = zlen l) by (apply IH; intros y Hy; apply H; by right). lia.
  - rewrite zlen_cons. split; [unfold zlen in *; lia|]. intros H. specialize (H x ltac:(by left)). congruence.
Qed.
Lemma mean_or_none_some l o : mean_or_none l = Ok o -> (o = None <-> l = []).
Proof. unfold mean_or_none. destruct l; intros H; inv_ok H; subst; done. Qed.
Lemma omap_nil_iff {A B} (f : A -> option B) l : omap f l = [] <-> forall x, x ∈ l -> f x = None.
Proof.
  induction l as [|x l IH]; [set_solver|]. cbn [omap list_omap]. destruct (f x) eqn:E.
  - split; [done|]. intros H. specialize (H x ltac:(by left)). congruence.
  - rewrite IH. split; [intros H y [-> |Hy]%elem_of_cons; auto|intros H y Hy; apply H; by right].
Qed.

Lemma window_ok_complete before after w : summarize_vllm_window before after = Ok w ->
  wi_metric_quality w = "ok" -> forall b, b ∈ after -> complete_in before b = true.
Proof.
  unfold summarize_vllm_window. intros H. destruct (window_fold before after window_acc0) as (Hc & _).
  set (acc := foldl (window_step before) window_acc0 after) in *. cbn [wa_complete window_acc0] in Hc. cbv zeta in H.
  match type of H with match ?c with Ok _ => _ | Err _ => _ end = _ => destruct c; [|discriminate H] end.
  destruct (mean_or_none (wa_usage acc)); [|discriminate H]. destruct (mean_or_none (wa_queues acc)); [|discriminate H].
  injection H as <-. cbn. destruct (0 <? wa_resets acc); [done|].
  destruct (Z.eqb_spec (wa_complete acc) (zlen after)); [|done]. intros _. apply filter_zlen_all. lia.
Qed.

(** C13: a missing cache metric is never turned into a number.  A window is [ok] exactly
    when every backend was scraped with both counters on both sides and none went
    backwards; a reset of any backend is reported as such; the deltas are missing
    exactly when no backend has a usable pair of counters, and then there is no reuse
    rate; the utilisation and the queue depth are missing exactly when no backend
    reports the gauge. *)
Theorem window_not_imputed before after w : summarize_vllm_window before after = Ok w ->
  (wi_metric_quality w = "counter_reset" <-> exists b, b ∈ after /\ reset_in before b = true) /\
  (wi_metric_quality w = "ok" <-> after <> [] /\ forall b, b ∈ after -> complete_in before b = true) /\
  (wi_prefix_hits_delta w = None <-> forall b, b ∈ after -> complete_in before b = false) /\
  (wi_prefix_queries_delta w = None <-> forall b, b ∈ after -> complete_in before b = false) /\
  (wi_prefix_hits_delta w = None -> wi_kv_reuse_rate w = None) /\
  (wi_gpu_kv_utilization_mean w = None <-> forall b, b ∈ after -> _pick b.2 USAGE = None) /\
  (wi_queue_depth_mean w = None <-> forall b, b ∈ after -> _pick b.2 WAITING = None).
Proof.
  unfold summarize_vllm_window. intros H. destruct (window_fold before after window_acc0) as (Hc & Hr & Hu & Hq).
  set (acc := foldl (window_step before) window_acc0 after) in *. cbn [wa_complete wa_resets wa_usage wa_queues window_acc0 app] in *.
  cbv zeta in H. match type of H with match ?c with Ok _ => _ | Err _ => _ end = _ => destruct c as [reuse|] eqn:Er; [|discriminate H] end.
  destruct (mean_or_none (wa_usage acc)) as [usage|] eqn:Eu; [|discriminate H].
  destruct (mean_or_none (wa_queues acc)) as [queue|] eqn:Eq; [|discriminate H].
  injection H as <-. cbn.
  apply mean_or_none_some in Eu, Eq. rewrite Hu in Eu. rewrite Hq in Eq.
  set (nc := zlen (List.filter (complete_in before) after)) in *. set (nr := zlen (List.filter (reset_in before) after)) in *.
  assert (Hnc : 0 <= nc) by apply zlen_nonneg. assert (Hnr : 0 <= nr) by apply zlen_nonneg.
  assert (Hc0 : nc = 0 <-> forall b, b ∈ after -> complete_in before b = false) by apply filter_zlen_zero.
  assert (Hr0 : nr = 0 <-> forall b, b ∈ after -> reset_in before b = false) by apply filter_zlen_zero.
  assert (Hca : nc = zlen after <-> forall b, b ∈ after -> complete_in before b = true) by apply filter_zlen_all.
  assert (Hex : (exists b, b ∈ after /\ reset_in before b = true) <-> 0 < nr).
  { split.
    - intros (b & Hb & Hbr). destruct (decide (nr = 0)) as [Hz|]; [|lia]. rewrite (proj1 Hr0 Hz b Hb) in Hbr. done.
    - intros Hpos. unfold nr in Hpos. destruct (List.filter (reset_in before) after) as [|b l] eqn:Ef; [done|].
      exists b. apply elem_of_filterb. rewrite Ef. by left. }
  assert (Hne : after <> [] <-> 0 < zlen after) by (destruct after; [done|rewrite zlen_cons; pose proof (zlen_nonneg after); split; [lia|done]]).
  assert (Hnoreset : (forall b, b ∈ after -> complete_in before b = true) -> nr = 0).
  { intros Hall. apply Hr0. intros b Hb. specialize (Hall b Hb). unfold complete_in, reset_in in *.
    destruct (counters_around before b); [by apply negb_true_iff|done]. }
  replace (wa_complete acc) with nc in * by lia. replace (wa_resets acc) with nr in * by lia. clear Hc Hr.
  rewrite omap_nil_iff in Eu, Eq. rewrite Hex, Hne, <- Hc0, <- Hca.
  split_and!; [| | | | |exact Eu|exact Eq].
  - destruct (Z.ltb_spec 0 nr); [by split|]. split; [|lia]. by destruct ((nc =? zlen after) && (0 <? zlen after)).
  - destruct (Z.ltb_spec 0 nr).
    + split; [done|]. intros [_ Hall]. specialize (Hnoreset (proj1 Hca Hall)). lia.
    + destruct (Z.eqb_spec nc (zlen after)), (Z.ltb_spec 0 (zlen after)); cbn; split; try done; lia.
  - destruct (Z.ltb_spec 0 nc); split; try done; lia.
  - destruct (Z.ltb_spec 0 nc); split; try done; lia.
  - destruct (Z.ltb_spec 0 nc); [done|]. intros _. cbn in Er. congruence.
Qed.
Definition demo_metrics (hits queries : Z) : metrics :=
  [("vllm:prefix_cache_hits_total", of_Z hits); ("vllm:prefix_cache_queries_total", of_Z queries);
   ("vllm:kv_cache_usage_perc", dec 5 (-1))]%string.
Lemma window_not_imputed_witness : exists w,
  summarize_vllm_window [("a", demo_metrics 1 2); ("b", [])]%string [("a", demo_metrics 4 6); ("b", [])]%string = Ok w /\
  wi_metric_quality w <> "ok"%string /\ (wi_prefix_hits_delta w = None -> wi_kv_reuse_rate w = None).
Proof.
  assert (H : is_ok (summarize_vllm_window [("a", demo_metrics 1 2); ("b", [])]%string
                       [("a", demo_metrics 4 6); ("b", [])]%string) = true) by (vm_compute; reflexivity).
  destruct (summarize_vllm_window _ _) as [w|] eqn:E; [|discriminate H].
  destruct (window_not_imputed _ _ _ E) as (_ & Hok & _ & _ & Hnone & _).
  exists w. split; [reflexivity|]. split; [|exact Hnone].
  intros Hq. destruct (proj1 Hok Hq) as [_ Hall].
  assert (Hb : complete_in [("a", demo_metrics 1 2); ("b", [])]%string ("b", [])%string = true)
    by (apply Hall; apply list_elem_of_In; simpl; auto).
  discriminate Hb.
Defined.
