(* ===== verification/Stage2Run.v ===== *)
(** * A Stage 2 evaluation (benchmark/stage2_evaluation.py)

    Scraping the backends, running the requests of a repetition under a semaphore,
    rotating the targets over the repetitions, and collecting the repetitions of every
    strategy and workload.  The server, the backends and the clock are the environment;
    a repetition is a client of the bounded pool of [Gather]. *)

From stdpp Require Import relations gmap.
From S2P Require Import Prelude PyFloat FloatOrder PyStr PyVal PySort PromParse WindowMetrics Random Stream.
From S2P Require Import Gather Stage2Config Stage2.

(** ** Scraping *)

Section scraping.
Context (text_string_to_metric_families : string -> res (list Family)) (label_filter_env : string).
(** [client.get], [raise_for_status] and [.text]. *)
Context (get : string -> string + raised).

Definition scrape_step (acc : scrape * list (string * string)) (backend : BackendMetricSpec) : scrape * list (string * string) :=
  match get (metrics_url backend) with
  | inl text =>
      (dset acc.1 (backend_id backend) (aggregate_prometheus_text text_string_to_metric_families label_filter_env text None), acc.2)
  | inr x => (dset acc.1 (backend_id backend) [], dset acc.2 (backend_id backend) (exc_line x))
  end.
Definition _scrape_metrics (backends : list BackendMetricSpec) : scrape * list (string * string) :=
  foldl scrape_step ([], []) backends.
End scraping.

(** ** A repetition *)

(** The jobs of [asyncio.gather], and what one of them may return. *)
Definition indices (config : EvaluationConfig) (repetition : Z) : list Z :=
  map (fun i => repetition * cf_requests config + Z.of_nat i) (seq 0 (Z.to_nat (cf_requests config))).
Definition limit (config : EvaluationConfig) : nat := Z.to_nat (cf_concurrency config).
Definition perform (server : Request -> outcome -> Prop) (target : TargetSpec) (config : EvaluationConfig)
  (workload : string) (index : Z) (sample : Sample) : Prop :=
  exists rq o t0 t1, request_of target config workload index = Ok rq /\ server rq o /\ sample = _run_one index t0 o t1.

Definition _run_repetition (repetition : Z) (before after : scrape * list (string * string)) (samples : list Sample)
  (started finished : float) : res Repetition :=
  summary <-! summarize_samples samples (finished ⊖ started) ;;
  window <-! summarize_vllm_window before.1 after.1 ;;
  Ok {| rp_repetition := repetition + 1; rp_summary := summary; rp_backend_window := window;
        rp_scrape_errors := (before.2, after.2); rp_samples := samples |}.

(** ** The schedule *)

Definition balanced_target_order (targets : list TargetSpec) (repetition : Z) : list TargetSpec :=
  match targets with
  | [] => []
  | _ => let offset := Z.to_nat (repetition mod zlen targets) in drop offset targets ++ take offset targets
  end.

(** One call of [_run_repetition]: its target, workload and repetition. *)
Definition call : Type := TargetSpec * string * Z.
Definition repeats (config : EvaluationConfig) : list Z := map Z.of_nat (seq 0 (Z.to_nat (cf_repetitions config))).
Definition rounds (config : EvaluationConfig) : list (string * Z) :=
  mjoin (map (fun w => map (fun r => (w, r)) (repeats config)) (cf_workloads config)).
Definition round_calls (config : EvaluationConfig) (round : string * Z) : list call :=
  map (fun t => (t, round.1, round.2)) (balanced_target_order (cf_targets config) round.2).
Definition calls (config : EvaluationConfig) : list call := mjoin (map (round_calls config) (rounds config)).

Record slot := { sl_workload : string; sl_repetition : Z; sl_target_order : list string }.
Definition execution_schedule (config : EvaluationConfig) : list slot :=
  map (fun round : string * Z =>
    {| sl_workload := round.1; sl_repetition := round.2 + 1;
       sl_target_order := map tg_strategy (balanced_target_order (cf_targets config) round.2) |}) (rounds config).

(** ** Collecting the repetitions *)

Definition case : Type := string * string.
Notation "'cases'" := (gmap case (list Repetition)).
Definition case_keys (config : EvaluationConfig) : list case :=
  mjoin (map (fun t => map (fun w => (tg_strategy t, w)) (cf_workloads config)) (cf_targets config)).
Definition empty_cases (config : EvaluationConfig) : cases := foldl (fun m k => <[k := []]> m) ∅ (case_keys config).
(** [d[key]] of the dictionary of cases. *)
Definition case_item (m : cases) (k : case) : res (list Repetition) :=
  match m !! k with Some l => Ok l | None => Err (KeyError k.1) end.

Section evaluation.
(** The [n]-th call of the run, with what it returns or raises. *)
Context (measure : nat -> call -> res Repetition).

Definition record_call (m : cases) (nc : nat * call) : res cases :=
  repetition <-! measure nc.1 nc.2 ;;
  let key := (tg_strategy nc.2.1.1, nc.2.1.2) in
  l <-! case_item m key ;;
  Ok (<[key := l ++ [repetition]]> m).
Record result := { rs_strategy : string; rs_workload : string; rs_repetitions : list Repetition; rs_aggregate : Aggregate }.
Definition case_result (m : cases) (k : case) : res result :=
  repetitions <-! case_item m k ;;
  aggregate <-! aggregate_repetitions repetitions ;;
  Ok {| rs_strategy := k.1; rs_workload := k.2; rs_repetitions := repetitions; rs_aggregate := aggregate |}.
Definition run_cases (config : EvaluationConfig) : res (list result) :=
  m <-! res_fold record_call (empty_cases config) (indexed (calls config)) ;;
  res_map (case_result m) (case_keys config).
End evaluation.

(** ** Comparisons and the artifact *)

Record comparison := {
  cp_strategy : string; cp_workload : string; cp_ttft_overhead_ms : option float; cp_latency_overhead_ms : option float
}.
(** [target - direct if target is not None and direct is not None else None] *)
Definition overhead (target direct : estimate) : option float :=
  match es_mean target, es_mean direct with Some t, Some d => Some (t ⊖ d) | _, _ => None end.
(** The last direct result of a workload wins, as in a dict comprehension. *)
Definition direct_by_workload (results : list result) : list (string * result) :=
  foldl (fun d r => dset d (rs_workload r) r) [] (List.filter (fun r => String.eqb (rs_strategy r) "direct") results).
Definition compare_result (by_workload : list (string * result)) (r : result) : option comparison :=
  if String.eqb (rs_strategy r) "direct" then None
  else
    d ← dget by_workload (rs_workload r);
    Some {| cp_strategy := rs_strategy r; cp_workload := rs_workload r;
            cp_ttft_overhead_ms := overhead (ag_ttft_p95_ms (rs_aggregate r)) (ag_ttft_p95_ms (rs_aggregate d));
            cp_latency_overhead_ms := overhead (ag_latency_p95_ms (rs_aggregate r)) (ag_latency_p95_ms (rs_aggregate d)) |}.
Definition _comparisons (results : list result) : list comparison :=
  omap (compare_result (direct_by_workload results)) results.

(** What the host says about itself. *)
Record Host := { h_git : string; h_python : string; h_platform : string; h_gpu : string; h_time : float }.
Definition manifest (config : EvaluationConfig) (host : Host) : dict :=
  [("model", VStr (cf_model config)); ("model_revision", VStr (cf_model_revision config));
   ("backend_version", VStr (cf_backend_version config)); ("repetitions", VInt (cf_repetitions config));
   ("requests_per_repetition", VInt (cf_requests config)); ("concurrency", VInt (cf_concurrency config));
   ("max_tokens", VInt (cf_max_tokens config)); ("seed", VInt (cf_seed config));
   ("workloads", VList (map VStr (cf_workloads config)));
   ("targets", VList (map (fun t => VDict [("strategy", VStr (tg_strategy t)); ("url", VStr (tg_url t))]) (cf_targets config)));
   ("backends", VList (map (fun b => VDict [("id", VStr (backend_id b)); ("metrics_url", VStr (metrics_url b))]) (cf_backends config)));
   ("git_revision", VStr (h_git host)); ("python", VStr (h_python host)); ("platform", VStr (h_platform host));
   ("gpu", VStr (h_gpu host))]%string.
Record report := {
  rt_config_hash : string;
  rt_generated_at : float;
  rt_manifest : dict;
  rt_results : list result;
  rt_schedule : list slot;
  rt_comparisons : list comparison
}.
Definition stage2_claim_boundary : string :=
  "Measurements describe this exact hardware, model, configuration, and workload manifest only; no general performance claim is made without independent replication.".
Definition run_evaluation (measure : nat -> call -> res Repetition) (config : EvaluationConfig) (host : Host) : res report :=
  results <-! run_cases measure config ;;
  hash <-! _config_hash (cf_source config) ;;
  Ok {| rt_config_hash := hash; rt_generated_at := h_time host; rt_manifest := manifest config host;
        rt_results := results; rt_schedule := execution_schedule config; rt_comparisons := _comparisons results |}.

(** ** The rotation of the targets *)

#[global] Instance target_eq_dec : EqDecision TargetSpec.
Proof. solve_decision. Defined.

Lemma balanced_perm targets r : balanced_target_order targets r ≡ₚ targets.
Proof.
  unfold balanced_target_order. destruct targets as [|t l]; [done|]. cbv zeta.
  set (o := Z.to_nat _). by rewrite Permutation_app_comm, take_drop.
Qed.
Lemma balanced_lookup targets r p : (p < length targets)%nat ->
  balanced_target_order targets r !! p = targets !! Z.to_nat ((Z.of_nat p + r) mod zlen targets).
Proof.
  intros Hp. unfold balanced_target_order. destruct targets as [|t l]; [simpl in Hp; lia|]. cbv zeta.
  set (ts := t :: l) in *. set (n := zlen ts). assert (Hn : 0 < n) by (unfold n, zlen; lia).
  pose proof (Z.mod_pos_bound r n Hn) as Hr. set (o := r mod n) in *.
  assert (Hmod : (Z.of_nat p + r) mod n = (Z.of_nat p + o) mod n) by (unfold o; by rewrite Zplus_mod_idemp_r).
  assert (Hlen : length (drop (Z.to_nat o) ts) = Z.to_nat (n - o)) by (rewrite length_drop; unfold n, zlen; lia).
  rewrite Hmod. destruct (Z_lt_le_dec (Z.of_nat p + o) n).
  - rewrite lookup_app_l by lia. rewrite lookup_drop, Z.mod_small by lia. f_equal. lia.
  - rewrite lookup_app_r by lia. rewrite Hlen.
    assert (Hm : (Z.of_nat p + o) mod n = Z.of_nat p + o - n).
    { symmetry. apply (Z.mod_unique _ _ 1); unfold n, zlen in *; lia. }
    rewrite Hm, lookup_take_lt by (unfold n, zlen in *; lia). f_equal. unfold n, zlen in *. lia.
Qed.

(** How often a number of [0, n) is hit by [(p + r) mod n] for [r] below [k n]. *)
Lemma residues_perm n p : 0 < n ->
  map (fun r => (p + Z.of_nat r) mod n) (seq 0 (Z.to_nat n)) ≡ₚ map Z.of_nat (seq 0 (Z.to_nat n)).
Proof.
  intros Hn. apply Permutation.NoDup_Permutation_bis.
  - apply NoDup_ListNoDup, NoDup_fmap_2_strong; [|apply NoDup_seq]. intros x y Hx Hy E. apply elem_of_seq in Hx, Hy.
    pose proof (Z.div_mod (p + Z.of_nat x) n ltac:(lia)) as H1. pose proof (Z.div_mod (p + Z.of_nat y) n ltac:(lia)) as H2.
    rewrite <- E in H2. set (qx := (p + Z.of_nat x) / n) in *. set (qy := (p + Z.of_nat y) / n) in *.
    set (m := (p + Z.of_nat x) mod n) in *. clearbody qx qy m. clear E.
    destruct (Z.lt_trichotomy qx qy) as [Hq|[->|Hq]]; [|lia|].
    + assert (n * (qx + 1) <= n * qy) by (apply Z.mul_le_mono_nonneg_l; lia). lia.
    + assert (n * (qy + 1) <= n * qx) by (apply Z.mul_le_mono_nonneg_l; lia). lia.
  - rewrite !length_map. lia.
  - intros z Hz. rewrite <- list_elem_of_In in *. apply list_elem_of_fmap in Hz as (r & -> & _). apply list_elem_of_fmap.
    pose proof (Z.mod_pos_bound (p + Z.of_nat r) n Hn). exists (Z.to_nat ((p + Z.of_nat r) mod n)).
    split; [lia|]. apply elem_of_seq. lia.
Qed.
Lemma filter_perm_length {A} (f : A -> bool) l m : l ≡ₚ m -> length (List.filter f l) = length (List.filter f m).
Proof. induction 1; simpl; repeat case_match; simpl; congruence. Qed.
Lemma filter_map_length {A B} (f : B -> bool) (g : A -> B) l :
  length (List.filter f (map g l)) = length (List.filter (fun x => f (g x)) l).
Proof. induction l as [|x l IH]; simpl; [done|]. destruct (f (g x)); simpl; by rewrite IH. Qed.
Lemma count_one_seq j k n : (k <= j < k + n)%nat ->
  length (List.filter (fun x => Nat.eqb x j) (seq k n)) = 1%nat.
Proof.
  revert k; induction n as [|n IH]; intros k Hj; [lia|]. simpl. destruct (Nat.eqb_spec k j) as [->|].
  - simpl. f_equal. clear IH Hj. 
    assert (H : forall m b, (j < b)%nat -> List.filter (fun x => Nat.eqb x j) (seq b m) = []).
    { intros m. induction m as [|m IHm]; intros b Hb; simpl; [done|]. destruct (Nat.eqb_spec b j); [lia|]. apply IHm. lia. }
    rewrite H; [done|lia].
  - apply IH. lia.
Qed.
Lemma block_hits n p j : 0 < n -> 0 <= j < n ->
  length (List.filter (fun r => (p + Z.of_nat r) mod n =? j) (seq 0 (Z.to_nat n))) = 1%nat.
Proof.
  intros Hn Hj. rewrite <- (filter_map_length (fun z => z =? j) (fun r => (p + Z.of_nat r) mod n)).
  rewrite (filter_perm_length _ _ _ (residues_perm n p Hn)), filter_map_length.
  erewrite <- (count_one_seq (Z.to_nat j) 0 (Z.to_nat n)) by lia. f_equal. apply filter_ext. intros x.
  destruct (Z.eqb_spec (Z.of_nat x) j), (Nat.eqb_spec x (Z.to_nat j)); lia || done.
Qed.
Lemma rotation_hits n p j k : 0 < n -> 0 <= j < n ->
  length (List.filter (fun r => (p + Z.of_nat r) mod n =? j) (seq 0 (k * Z.to_nat n))) = k.
Proof.
  intros Hn Hj. revert p. induction k as [|k IH]; intros p; [done|].
  replace (S k * Z.to_nat n)%nat with (Z.to_nat n + k * Z.to_nat n)%nat by lia.
  rewrite seq_app, List.filter_app, length_app, block_hits by done. cbn [Nat.add].
  rewrite <- (IH p) at 2. f_equal.
  assert (Hs : seq (Z.to_nat n) (k * Z.to_nat n) = map (fun r => (Z.to_nat n + r)%nat) (seq 0 (k * Z.to_nat n))).
  { generalize (k * Z.to_nat n)%nat. intros m. rewrite <- (Nat.add_0_r (Z.to_nat n)) at 1. generalize 0%nat.
    induction m as [|m IHm]; intros b; simpl; [done|]. f_equal. rewrite <- IHm. f_equal. lia. }
  rewrite Hs, filter_map_length. f_equal. apply filter_ext. intros x. f_equal.
  rewrite Nat2Z.inj_add, Z2Nat.id by lia. replace (p + (n + Z.of_nat x)) with (p + Z.of_nat x + 1 * n) by lia.
  by rewrite Z.mod_add by lia.
Qed.

(** C14: the rotation of the targets is balanced.  In every repetition each target runs
    once; position [p] of repetition [r] goes to target [(p + r) mod n]; over [k n]
    repetitions of [n] targets every target occupies every position exactly [k] times,
    so twice for the five strategies and the default ten repetitions. *)
Theorem balanced_schedule targets : NoDup targets ->
  (forall r, balanced_target_order targets r ≡ₚ targets) /\
  (forall r p, (p < length targets)%nat ->
     balanced_target_order targets r !! p = targets !! Z.to_nat ((Z.of_nat p + r) mod zlen targets)) /\
  (forall k p t, (p < length targets)%nat -> t ∈ targets ->
     length (List.filter (fun r => bool_decide (balanced_target_order targets (Z.of_nat r) !! p = Some t))
               (seq 0 (k * length targets))) = k).
Proof.
  intros Hnd. split; [apply balanced_perm|]. split; [intros; by apply balanced_lookup|].
  intros k p t Hp Ht. apply list_elem_of_lookup in Ht as [j Hj].
  pose proof (lookup_lt_Some _ _ _ Hj) as Hlt. assert (Hn : 0 < zlen targets) by (unfold zlen; lia).
  rewrite <- (rotation_hits (zlen targets) (Z.of_nat p) (Z.of_nat j) k) at 2 by (unfold zlen in *; lia).
  assert (Hz : Z.to_nat (zlen targets) = length targets) by (unfold zlen; lia). rewrite Hz.
  f_equal. apply filter_ext. intros r. rewrite balanced_lookup by done.
  set (m := (Z.of_nat p + Z.of_nat r) mod zlen targets).
  pose proof (Z.mod_pos_bound (Z.of_nat p + Z.of_nat r) _ Hn) as Hm. fold m in Hm.
  destruct (Z.eqb_spec m (Z.of_nat j)) as [->|Hne].
  - rewrite Nat2Z.id. by apply bool_decide_eq_true.
  - apply bool_decide_eq_false. intros E. apply Hne.
    assert (Z.to_nat m = j) by (by eapply NoDup_lookup). lia.
Qed.
Definition five_targets : list TargetSpec :=
  map (fun p : nat * string => {| tg_strategy := p.2; tg_url := "http://h" +:+ str_of_Z (Z.of_nat p.1); tg_api_key := "" |})
    (indexed REQUIRED_STRATEGIES).
Lemma balanced_schedule_witness : NoDup five_targets /\
  length (List.filter (fun r => bool_decide (balanced_target_order five_targets (Z.of_nat r) !! 1%nat = five_targets !! 0%nat))
            (seq 0 (2 * length five_targets))) = 2%nat.
Proof.
  assert (Hnd : NoDup five_targets) by (apply (bool_decide_unpack _); vm_compute; exact I).
  split; [exact Hnd|].
  apply (balanced_schedule five_targets Hnd); [simpl; lia|].
  apply list_elem_of_here.
Defined.

(** ** Every case gets its repetitions *)

Lemma mjoin_cons {A} (l : list A) ls : mjoin (l :: ls) = l ++ mjoin ls.
Proof. done. Qed.
Lemma filter_mjoin {A} (f : A -> bool) ls : List.filter f (mjoin ls) = mjoin (map (List.filter f) ls).
Proof. induction ls as [|l ls IH]; [done|]. cbn [map]. by rewrite !mjoin_cons, List.filter_app, IH. Qed.
Lemma mjoin_single {A B} `{EqDecision A} (a : A) (g : A -> list B) l : NoDup l -> a ∈ l ->
  (forall b, b <> a -> g b = []) -> mjoin (map g l) = g a.
Proof.
  intros Hnd Ha Hg. induction Hnd as [|x l Hx _ IH]; [set_solver|]. cbn [map]. rewrite mjoin_cons.
  apply elem_of_cons in Ha as [<-|Ha].
  - assert (Hnil : mjoin (map g l) = []).
    { clear IH. induction l as [|y l IHl]; [done|]. cbn [map]. rewrite mjoin_cons, Hg, IHl; [done|set_solver..]. }
    by rewrite Hnil, app_nil_r.
  - rewrite Hg, IH; [done|done|]. intros ->. done.
Qed.
Lemma filter_single {A} (f : A -> bool) l x : NoDup l -> x ∈ l ->
  (forall y, y ∈ l -> f y = true <-> y = x) -> List.filter f l = [x].
Proof.
  intros Hnd. induction Hnd as [|y l Hy _ IH]; [set_solver|]. intros Hx Hf. cbn.
  apply elem_of_cons in Hx as [<-|Hx].
  - rewrite (proj2 (Hf x (list_elem_of_here _ _)) eq_refl). f_equal.
    assert (Hno : forall z, z ∈ l -> f z = false).
    { intros z Hz. destruct (f z) eqn:E; [|done]. apply Hf in E; [by subst|by right]. }
    clear -Hno. induction l as [|z l IHl]; [done|]. cbn. rewrite Hno by (by left). apply IHl. intros; apply Hno; by right.
  - destruct (f y) eqn:E; [|apply IH; [done|]; intros z Hz; apply Hf; by right].
    apply Hf in E; [by subst|by left].
Qed.
Definition for_case (k : case) (c : call) : bool := bool_decide ((tg_strategy c.1.1, c.1.2) = k).

(** The calls of a case are one per repetition, in order. *)
Lemma case_calls config t w : NoDup (map tg_strategy (cf_targets config)) -> NoDup (cf_workloads config) ->
  t ∈ cf_targets config -> w ∈ cf_workloads config ->
  List.filter (for_case (tg_strategy t, w)) (calls config) = map (fun r => (t, w, r)) (repeats config).
Proof.
  intros Hts Hws Ht Hw. unfold calls, rounds. rewrite filter_mjoin, map_map.
  assert (Hround : forall w' r, List.filter (for_case (tg_strategy t, w)) (round_calls config (w', r)) =
            if bool_decide (w' = w) then [(t, w, r)] else []).
  { intros w' r. unfold round_calls. cbn [fst snd].
    destruct (decide (w' = w)) as [->|Hne]; [rewrite bool_decide_eq_true_2 by done|rewrite bool_decide_eq_false_2 by done].
    - assert (Hnd : NoDup (balanced_target_order (cf_targets config) r)).
      { rewrite balanced_perm. by eapply NoDup_fmap_1. }
      apply filter_single; [apply NoDup_fmap_2_strong; [congruence|exact Hnd]| |].
      + apply list_elem_of_fmap. exists t. by rewrite balanced_perm.
      + intros y Hy. apply list_elem_of_fmap in Hy as (u & -> & Hu). rewrite balanced_perm in Hu.
        unfold for_case. cbn [fst snd]. rewrite bool_decide_eq_true. split; [|by intros [= ->]].
        intros [= E]. do 2 f_equal. apply list_elem_of_lookup in Ht as [i Hi], Hu as [j Hj].
        assert (Hij : i = j).
        { eapply NoDup_lookup; [exact Hts|rewrite list_lookup_fmap, Hi; reflexivity|rewrite list_lookup_fmap, Hj; cbn; by rewrite E]. }
        subst. congruence.
    - clear -Hne. induction (balanced_target_order _ _) as [|u l IH]; [done|]. cbn. unfold for_case at 1. cbn [fst snd].
      rewrite bool_decide_eq_false_2; [done|]. intros [= _ ?]. done. }
  assert (Hw' : forall w', mjoin (map (fun x => List.filter (for_case (tg_strategy t, w)) (round_calls config x))
            (map (fun r => (w', r)) (repeats config))) = if bool_decide (w' = w) then map (fun r => (t, w, r)) (repeats config) else []).
  { intros w'. rewrite map_map. induction (repeats config) as [|r rs IH]; cbn [map]; [by destruct (bool_decide _)|].
    rewrite mjoin_cons, Hround, IH. by destruct (bool_decide (w' = w)). }
  transitivity (mjoin (map (fun w' => if bool_decide (w' = w) then map (fun r => (t, w, r)) (repeats config) else [])
                         (cf_workloads config))).
  - clear -Hw'. induction (cf_workloads config) as [|w' ws IH]; [done|]. cbn [map].
    rewrite mjoin_cons, map_app, join_app, Hw', IH. symmetry. apply mjoin_cons.
  - rewrite (mjoin_single w); [by rewrite bool_decide_eq_true_2|done|done|]. intros b Hb. by rewrite bool_decide_eq_false_2.
Qed.

Lemma filter_indexed {A} (f : A -> bool) (l : list A) :
  map snd (List.filter (fun p : nat * A => f p.2) (indexed l)) = List.filter f l.
Proof.
  transitivity (List.filter f (map snd (indexed l))); [|by rewrite indexed_snd].
  induction (indexed l) as [|[i x] m IH]; [done|]. cbn. destruct (f x); cbn; by rewrite IH.
Qed.
Lemma filter_sublist_bool {A} (f : A -> bool) l : List.filter f l `sublist_of` l.
Proof. induction l as [|x l IH]; cbn; [constructor|]. destruct (f x); by constructor. Qed.

Section evaluation_facts.
Context (measure : nat -> call -> res Repetition).
Definition measured (nc : nat * call) (rep : Repetition) : Prop := measure nc.1 nc.2 = Ok rep.

Lemma case_item_ok m k l : case_item m k = Ok l -> m !! k = Some l.
Proof. unfold case_item. destruct (m !! k); [congruence|done]. Qed.
Lemma record_fold l m m' k L : res_fold (record_call measure) m l = Ok m' -> m !! k = Some L ->
  exists news, m' !! k = Some (L ++ news) /\ Forall2 measured (List.filter (fun nc : nat * call => for_case k nc.2) l) news.
Proof.
  revert m L; induction l as [|nc l IH]; intros m L H Hk; cbn [res_fold] in H.
  - injection H as <-. exists []. rewrite app_nil_r. split; [done|constructor].
  - unfold record_call at 1 in H. destruct (measure nc.1 nc.2) as [rep|] eqn:Em; [|discriminate H].
    set (key := (tg_strategy nc.2.1.1, nc.2.1.2)) in *.
    destruct (case_item m key) as [lk|] eqn:Ek; [|discriminate H]. apply case_item_ok in Ek. cbn [List.filter]. unfold for_case at 1. fold key.
    destruct (decide (key = k)) as [E|Hne].
    + rewrite bool_decide_eq_true_2 by done. rewrite E in *.
      assert (L = lk) as -> by congruence.
      destruct (IH _ (lk ++ [rep]) H (lookup_insert_eq _ _ _)) as (news & Hm & Hf). exists (rep :: news).
      split; [by rewrite Hm, <- app_assoc|]. by constructor.
    + rewrite bool_decide_eq_false_2 by done. apply (IH _ L H). by rewrite lookup_insert_ne.
Qed.

Lemma empty_cases_lookup config k : k ∈ case_keys config -> empty_cases config !! k = Some [].
Proof.
  unfold empty_cases. generalize (case_keys config) as ks.
  assert (H : forall ks (m : cases), m !! k = Some [] -> foldl (fun m k => <[k := []]> m) m ks !! k = Some []).
  { intros ks. induction ks as [|x ks IH]; intros m Hm; [done|]. cbn. apply IH.
    destruct (decide (x = k)) as [->|]; [by rewrite lookup_insert_eq|by rewrite lookup_insert_ne]. }
  intros ks. generalize (∅ : cases). induction ks as [|x ks IH]; intros m Hk; [set_solver|]. cbn.
  apply elem_of_cons in Hk as [<-|Hk]; [apply H; by rewrite lookup_insert_eq|by apply IH].
Qed.
Lemma case_keys_elem config k : k ∈ case_keys config <->
  exists t, t ∈ cf_targets config /\ tg_strategy t = k.1 /\ k.2 ∈ cf_workloads config.
Proof.
  unfold case_keys. rewrite list_elem_of_join. split.
  - intros (l & Hk & Hl). apply list_elem_of_fmap in Hl as (t & -> & Ht). apply list_elem_of_fmap in Hk as (w & -> & Hw). eauto.
  - intros (t & Ht & E & Hw). exists (map (fun w => (tg_strategy t, w)) (cf_workloads config)).
    split; apply list_elem_of_fmap; [exists k.2; split; [destruct k; cbn in *; congruence|done]|by exists t].
Qed.

(** C35: an evaluation is complete.  When it returns, there is one result per strategy and
    workload, in the order of the configuration; the result of a strategy and workload
    has one repetition per configured repetition, in order, each returned by the call
    for that target, workload and repetition; and it holds their aggregate. *)
Theorem evaluation_complete config results :
  NoDup (map tg_strategy (cf_targets config)) -> NoDup (cf_workloads config) ->
  run_cases measure config = Ok results ->
  map (fun r => (rs_strategy r, rs_workload r)) results = case_keys config /\
  forall r, r ∈ results -> exists t made,
    t ∈ cf_targets config /\ rs_strategy r = tg_strategy t /\ rs_workload r ∈ cf_workloads config /\
    made `sublist_of` indexed (calls config) /\
    map snd made = map (fun n => (t, rs_workload r, n)) (repeats config) /\
    Forall2 measured made (rs_repetitions r) /\
    zlen (rs_repetitions r) = Z.max 0 (cf_repetitions config) /\
    aggregate_repetitions (rs_repetitions r) = Ok (rs_aggregate r).
Proof.
  intros Hts Hws H. unfold run_cases in H.
  destruct (res_fold _ _ _) as [m|] eqn:Ef; [|discriminate H]. apply res_map_Forall2 in H.
  assert (Hcase : forall k r, case_result m k = Ok r ->
            (rs_strategy r, rs_workload r) = k /\ m !! k = Some (rs_repetitions r) /\
            aggregate_repetitions (rs_repetitions r) = Ok (rs_aggregate r)).
  { intros k r Hr. unfold case_result in Hr. destruct (case_item m k) as [l|] eqn:Em; [|discriminate Hr]. apply case_item_ok in Em.
    destruct (aggregate_repetitions l) eqn:Ea; [|discriminate Hr]. injection Hr as <-. cbn. by destruct k. }
  split.
  - clear -H Hcase. induction H as [|k r ks rs Hr _ IH]; [done|]. cbn. rewrite IH. by destruct (Hcase k r Hr) as (-> & _).
  - intros r Hr. apply list_elem_of_lookup in Hr as [i Hi]. destruct (Forall2_lookup_r _ _ _ _ _ H Hi) as (k & Hk & Hkr).
    apply list_elem_of_lookup_2 in Hk. destruct (Hcase k r Hkr) as (<- & Hm & Ha).
    pose proof (empty_cases_lookup _ _ Hk) as He. apply case_keys_elem in Hk as (t & Ht & Hs & Hw). cbn in Hs, Hw.
    destruct (record_fold _ _ _ _ _ Ef He) as (news & Hnews & Hf). cbn in Hnews.
    assert (news = rs_repetitions r) as -> by congruence.
    set (made := List.filter _ _) in Hf. exists t, made.
    assert (Hmade : map snd made = map (fun n => (t, rs_workload r, n)) (repeats config)).
    { unfold made. rewrite (filter_indexed (for_case (rs_strategy r, rs_workload r)) (calls config)), <- Hs.
      by apply case_calls. }
    split_and!; [done..|apply filter_sublist_bool|done|done| |done].
    apply Forall2_length in Hf. apply (f_equal length) in Hmade. unfold repeats in Hmade.
    rewrite !length_map, length_seq in Hmade. unfold zlen. lia.
Qed.
End evaluation_facts.

Definition demo_config : EvaluationConfig :=
  {| cf_model := "m"; cf_model_revision := "r"; cf_backend_version := "v"; cf_repetitions := 2; cf_requests := 2;
     cf_concurrency := 1; cf_timeout_s := of_Z 5; cf_max_tokens := 8; cf_seed := 7; cf_workloads := ["random"%string];
     cf_targets := take 2 five_targets; cf_backends := [{| backend_id := "a"; metrics_url := "http://a/metrics" |}];
     cf_source := [] |}.
Definition demo_measure (n : nat) (c : call) : res Repetition :=
  _run_repetition c.2 ([], []) ([], []) [demo_sample "a" true] f0 (of_Z (1 + Z.of_nat n)).
Lemma evaluation_complete_witness : exists results, run_cases demo_measure demo_config = Ok results /\
  map (fun r => (rs_strategy r, rs_workload r)) results = [("direct", "random"); ("static", "random")]%string.
Proof.
  assert (H : is_ok (run_cases demo_measure demo_config) = true) by (vm_compute; reflexivity).
  destruct (run_cases demo_measure demo_config) as [results|] eqn:E; [|discriminate H].
  exists results. split; [reflexivity|].
  refine (proj1 (evaluation_complete demo_measure demo_config results _ _ E)).
  - apply (bool_decide_unpack _). vm_compute. exact I.
  - apply (bool_decide_unpack _). vm_compute. exact I.
Defined.

(** ** One repetition *)

Lemma indices_length config repetition : length (indices config repetition) = Z.to_nat (cf_requests config).
Proof. unfold indices. by rewrite length_map, length_seq. Qed.
Lemma indices_disjoint config r1 r2 i : 0 < cf_requests config ->
  i ∈ indices config r1 -> i ∈ indices config r2 -> r1 = r2.
Proof.
  intros Hn H1 H2. apply list_elem_of_fmap in H1 as (x & -> & Hx), H2 as (y & E & Hy). apply elem_of_seq in Hx, Hy.
  destruct (Z.lt_trichotomy r1 r2) as [Hlt|[->|Hlt]]; [|done|].
  - assert ((r1 + 1) * cf_requests config <= r2 * cf_requests config) by (apply Z.mul_le_mono_nonneg_r; lia). lia.
  - assert ((r2 + 1) * cf_requests config <= r1 * cf_requests config) by (apply Z.mul_le_mono_nonneg_r; lia). lia.
Qed.
Lemma repetition_summary repetition before after samples t0 t1 rp :
  _run_repetition repetition before after samples t0 t1 = Ok rp ->
  rp_repetition rp = repetition + 1 /\ rp_samples rp = samples /\ su_requests (rp_summary rp) = zlen samples /\
  su_ok (rp_summary rp) = zlen (List.filter sm_ok samples).
Proof.
  unfold _run_repetition, summarize_samples. cbv zeta. intros H.
  destruct (int_truediv _ _); [|discriminate H]. destruct (float_of_int _); [|discriminate H].
  destruct (fdiv _ _); [|discriminate H]. destruct (quantiles_of (map _ _)); [|discriminate H].
  destruct (quantiles_of (omap _ _)); [|discriminate H]. destruct (summarize_vllm_window _ _); [|discriminate H].
  injection H as <-. done.
Qed.

(** C12: a repetition.  Whatever the server answers and however the requests interleave,
    at most [concurrency] requests are in flight, and the repetition is over after at
    most two steps per request; at its end the samples are in the order of the indices,
    one per request; a sample is marked failed exactly when it carries an error text;
    no two repetitions of a configuration send the same index. *)
Theorem repetition_spec server target config workload repetition p before after t0 t1 :
  0 < cf_requests config -> 0 < cf_concurrency config ->
  reachable (perform server target config workload) (limit config) (indices config repetition) p ->
  (Z.of_nat (length (running p)) <= cf_concurrency config) /\
  (forall n q, nsteps (step (perform server target config workload) (limit config)) n (start (indices config repetition)) q ->
     Z.of_nat n <= 2 * cf_requests config) /\
  (done_pool p ->
     let samples := gathered p (Z.to_nat (cf_requests config)) in
     map sm_index samples = indices config repetition /\
     Forall (fun s => sm_ok s = true <-> sm_error s = "") samples /\
     forall rp, _run_repetition repetition before after samples t0 t1 = Ok rp ->
       rp_repetition rp = repetition + 1 /\ su_requests (rp_summary rp) = cf_requests config /\
       su_ok (rp_summary rp) = zlen (List.filter sm_ok samples)) /\
  (forall r i, i ∈ indices config repetition -> i ∈ indices config r -> repetition = r).
Proof.
  intros Hn Hc Hr. split_and!.
  - destruct (sound_reachable _ _ _ _ Hr) as [Hb _ _]. unfold limit in Hb. lia.
  - intros n q Hq. apply steps_bounded in Hq. rewrite indices_length in Hq. lia.
  - intros Hd. cbv zeta. pose proof (gathered_results _ _ _ _ Hr Hd) as Hg. rewrite indices_length in Hg.
    set (samples := gathered _ _) in *.
    assert (Hone : forall i s, perform server target config workload i s -> sm_index s = i /\ (sm_ok s = true <-> sm_error s = "")).
    { intros i s (rq & o & a & b & _ & _ & ->). unfold _run_one. destruct (read_body _). cbn. split; [done|]. apply out_ok_error. }
    split_and!.
    + clear -Hg Hone. induction Hg as [|i s l l' Hi _ IH]; [done|]. cbn. rewrite IH. by destruct (Hone i s Hi) as [-> _].
    + eapply Forall2_Forall_r; [exact Hg|]. apply Forall_true. intros i s Hs. by apply (Hone i s).
    + intros rp Hrp. apply repetition_summary in Hrp as (H1 & _ & H2 & H3). split_and!; [done| |done].
      rewrite H2. apply Forall2_length in Hg. rewrite indices_length in Hg. unfold zlen. lia.
  - intros r i. by apply indices_disjoint.
Qed.
Definition one_request : EvaluationConfig :=
  {| cf_model := "m"; cf_model_revision := "r"; cf_backend_version := "v"; cf_repetitions := 2; cf_requests := 1;
     cf_concurrency := 1; cf_timeout_s := of_Z 5; cf_max_tokens := 8; cf_seed := 7; cf_workloads := ["random"%string];
     cf_targets := take 2 five_targets; cf_backends := []; cf_source := [] |}.
Definition demo_target_spec : TargetSpec := {| tg_strategy := "direct"; tg_url := "http://h0"; tg_api_key := "k" |}.
Definition ok_outcome : outcome := Answered 200 (fun _ => None) [{| ck_size := 4; ck_time := f1 |}] None.
Definition always_ok (rq : Request) (o : outcome) : Prop := o = ok_outcome.
Lemma repetition_spec_witness : exists p,
  reachable (perform always_ok demo_target_spec one_request "random") (limit one_request) (indices one_request 3) p /\
  done_pool p /\ map sm_index (gathered p 1) = [3].
Proof.
  assert (Hok : is_ok (request_of demo_target_spec one_request "random" 3) = true) by (vm_compute; reflexivity).
  set (s := _run_one 3 f0 ok_outcome f1).
  assert (Hp : perform always_ok demo_target_spec one_request "random" 3 s).
  { destruct (request_of demo_target_spec one_request "random" 3) as [rq|] eqn:E; [|discriminate Hok].
    exists rq, ok_outcome, f0, f1. split; [exact E|]. split; reflexivity. }
  set (p := {| waiting := []; running := []; finished := [((0%nat, 3), s)] |}).
  assert (Hr : reachable (perform always_ok demo_target_spec one_request "random") (limit one_request) (indices one_request 3) p).
  { eapply rtc_l; [apply (Acquire _ _ (0%nat, 3) [] [] []); vm_compute; lia|].
    eapply rtc_l; [apply (Complete _ _ [] [] (0%nat, 3) [] [] _ Hp)|]. apply rtc_refl. }
  assert (Hd : done_pool p) by (split; reflexivity).
  exists p. split; [exact Hr|]. split; [exact Hd|].
  destruct (repetition_spec always_ok demo_target_spec one_request "random" 3 p ([], []) ([], []) f0 f1
    ltac:(simpl; lia) ltac:(simpl; lia) Hr) as (_ & _ & H & _).
  exact (proj1 (H Hd)).
Defined.

(** ** Scrapes that fail are seen *)

Section scrape_facts.
Context (tsm : string -> res (list Family)) (label_env : string) (get : string -> string + raised).

Lemma scrape_fold backends acc id :
  id ∉ map backend_id backends ->
  dget (foldl (scrape_step tsm label_env get) acc backends).1 id = dget acc.1 id /\
  dget (foldl (scrape_step tsm label_env get) acc backends).2 id = dget acc.2 id.
Proof.
  revert acc; induction backends as [|b bs IH]; intros acc Hid; [done|]. cbn [foldl map] in *.
  apply not_elem_of_cons in Hid as [Hne Hid]. destruct (IH (scrape_step tsm label_env get acc b) Hid) as [-> ->].
  unfold scrape_step. destruct (get (metrics_url b)); cbn [fst snd]; by rewrite ?dget_dset_ne.
Qed.
(** Each backend has its metrics, or none and an error text. *)
Lemma scrape_backend backends b : NoDup (map backend_id backends) -> b ∈ backends ->
  let '(output, errors) := _scrape_metrics tsm label_env get backends in
  match get (metrics_url b) with
  | inl text => dget output (backend_id b) = Some (aggregate_prometheus_text tsm label_env text None) /\
                dget errors (backend_id b) = None
  | inr x => dget output (backend_id b) = Some [] /\ exists e, dget errors (backend_id b) = Some e /\ e <> ""
  end.
Proof.
  intros Hnd Hb. unfold _scrape_metrics.
  assert (H : forall acc : scrape * list (string * string), dget acc.2 (backend_id b) = None ->
    let r := foldl (scrape_step tsm label_env get) acc backends in
    match get (metrics_url b) with
    | inl text => dget r.1 (backend_id b) = Some (aggregate_prometheus_text tsm label_env text None) /\ dget r.2 (backend_id b) = None
    | inr x => dget r.1 (backend_id b) = Some [] /\ exists e, dget r.2 (backend_id b) = Some e /\ e <> ""
    end).
  { induction backends as [|c bs IH]; [set_solver|]. cbn [map] in Hnd. apply NoDup_cons in Hnd as [Hc Hnd].
    intros acc Hacc. cbv zeta. cbn [foldl]. apply elem_of_cons in Hb as [<-|Hb].
    - destruct (scrape_fold bs (scrape_step tsm label_env get acc b) (backend_id b) Hc) as [-> ->].
      unfold scrape_step. destruct (get (metrics_url b)) as [text|x]; cbn [fst snd]; rewrite ?dget_dset_eq; [done|].
      split; [done|]. exists (exc_line x). split; [done|apply exc_line_nonempty].
    - apply IH; [done|done|]. unfold scrape_step. destruct (get (metrics_url c)); cbn [fst snd]; [done|].
      rewrite dget_dset_ne; [done|]. intros E. apply Hc. rewrite E. apply list_elem_of_fmap. by exists b. }
  specialize (H ([], []) eq_refl). destruct (foldl _ _ backends). exact H.
Qed.
End scrape_facts.

(** A failed scrape is never taken for a measurement.  If the scrape of some backend
    fails before or after a repetition, its error is kept under the backend's name with a
    text that is not empty, and the window of the repetition is not [ok]. *)
Theorem failed_scrape_seen tsm label_env get_before get_after backends b repetition samples t0 t1 rp :
  NoDup (map backend_id backends) -> b ∈ backends ->
  (exists x, get_before (metrics_url b) = inr x) \/ (exists x, get_after (metrics_url b) = inr x) ->
  _run_repetition repetition (_scrape_metrics tsm label_env get_before backends)
    (_scrape_metrics tsm label_env get_after backends) samples t0 t1 = Ok rp ->
  wi_metric_quality (rp_backend_window rp) <> "ok" /\
  exists e, e <> "" /\ (dget (rp_scrape_errors rp).1 (backend_id b) = Some e \/
                        dget (rp_scrape_errors rp).2 (backend_id b) = Some e).
Proof.
  intros Hnd Hb Hfail H. unfold _run_repetition in H.
  destruct (summarize_samples _ _) as [su|]; [|discriminate H].
  destruct (summarize_vllm_window _ _) as [w|] eqn:Ew; [|discriminate H]. injection H as <-. cbn.
  pose proof (scrape_backend tsm label_env get_before backends b Hnd Hb) as H1.
  pose proof (scrape_backend tsm label_env get_after backends b Hnd Hb) as H2.
  destruct (_scrape_metrics tsm label_env get_before backends) as [out1 err1].
  destruct (_scrape_metrics tsm label_env get_after backends) as [out2 err2]. cbn [fst snd] in *.
  split.
  - intros Hok. pose proof (window_ok_complete _ _ _ Ew Hok) as Hall.
    assert (Hm : exists m, dget out2 (backend_id b) = Some m /\ (m = [] \/ dget out1 (backend_id b) = Some [])).
    { destruct Hfail as [[x Hx]|[x Hx]]; rewrite Hx in *.
      - destruct (get_after (metrics_url b)); destruct H2 as [H2 _]; eexists; (split; [exact H2|]); right; apply H1.
      - destruct H2 as [H2 _]. eexists. split; [exact H2|]. by left. }
    destruct Hm as (m & Hm & Hno). specialize (Hall _ (dget_Some_elem _ _ _ Hm)).
    unfold complete_in, counters_around, dget_or in Hall. cbn [fst snd] in Hall. destruct Hno as [-> | Hno]; [done|].
    rewrite Hno in Hall. cbn [from_option id default] in Hall. by destruct (_pick m HITS), (_pick m QUERIES).
  - destruct Hfail as [[x Hx]|[x Hx]]; rewrite Hx in *.
    + destruct H1 as (_ & e & He & Hne). exists e. auto.
    + destruct H2 as (_ & e & He & Hne). exists e. auto.
Qed.
Lemma failed_scrape_seen_witness : exists rp,
  _run_repetition 0
    (_scrape_metrics (fun _ => Err DecodeError) "" (fun _ => inr {| x_type := "ReadTimeout"; x_text := "" |}) (cf_backends demo_config))
    (_scrape_metrics (fun _ => Err DecodeError) "" (fun _ => inl "up 1"%string) (cf_backends demo_config))
    [demo_sample "a" true] f0 f1 = Ok rp /\
  wi_metric_quality (rp_backend_window rp) <> "ok"%string.
Proof.
  assert (H : is_ok (_run_repetition 0
    (_scrape_metrics (fun _ => Err DecodeError) "" (fun _ => inr {| x_type := "ReadTimeout"; x_text := "" |}) (cf_backends demo_config))
    (_scrape_metrics (fun _ => Err DecodeError) "" (fun _ => inl "up 1"%string) (cf_backends demo_config))
    [demo_sample "a" true] f0 f1) = true) by (vm_compute; reflexivity).
  destruct (_run_repetition _ _ _ _ _ _) as [rp|] eqn:E; [|discriminate H].
  exists rp. split; [reflexivity|].
  refine (proj1 (failed_scrape_seen _ _ _ _ _ {| backend_id := "a"; metrics_url := "http://a/metrics" |} _ _ _ _ _ _ _ _ E)).
  - apply (bool_decide_unpack _). vm_compute. exact I.
  - apply list_elem_of_here.
  - left. eexists. reflexivity.
Defined.
