(* ===== verification/CacheFidelity.v ===== *)
(** * The cache-evidence ablation (benchmark/cache_fidelity.py)

    A deterministic trace is routed with evidence of four fidelities, each at several
    lags; wrong predictions are drawn from a hash.  [math.exp] is a parameter: the C
    library's function, of which only [exp(0) = 1] is used. *)

From S2P Require Import Prelude PyFloat FloatOrder FloatRound PyStr PyVal Digest.

Definition FIDELITIES : list string := ["none"; "affinity"; "shadow-index"; "exact-kv-events"].
Definition DEFAULT_LAGS_MS : list Z := [0; 100; 500; 1000; 2000; 5000; 10000].

Record TraceRequest := {
  tr_request_id : string;
  tr_cache_key : string;
  tr_prompt_tokens : Z;
  tr_exact_backend : string;
  tr_match_ratio : float
}.

Definition gpu (i : Z) : string := "gpu-" +:+ str_of_Z i.
(** [digest[i]] of a 32-byte digest. *)
Definition byte (digest : list Z) (i : nat) : Z := nth i digest 0.

Definition trace_request (backends seed index : Z) : res TraceRequest :=
  let digest := sha256 (str_of_Z seed +:+ ":" +:+ str_of_Z (index / 3)) in
  share <-! int_truediv (byte digest 2) 255 ;;
  Ok {| tr_request_id := "req-" +:+ str_of_Z index; tr_cache_key := "prefix-" +:+ str_of_Z (index / 3);
        tr_prompt_tokens := 256 + byte digest 1 * 8; tr_exact_backend := gpu (byte digest 0 mod backends);
        tr_match_ratio := dec 55 (-2) ⊕ share ⊗ dec 4 (-1) |}.
Definition build_trace (requests backends seed : Z) : res (list TraceRequest) :=
  if (requests <=? 0) || (backends <? 2)
  then Err (ValueError "requests must be positive and backends must be at least two")
  else res_map (fun i => trace_request backends seed (Z.of_nat i)) (seq 0 (Z.to_nat requests)).

(** [int(s.split("-")[-1])] *)
Definition last_number (s : string) : res Z :=
  match parse_int (List.last (split "-"%char s) "") with Some z => Ok z | None => Err bad_int end.

(** [d[fidelity]] of the tables of the source. *)
Definition table {A} (fidelity : string) (none affinity shadow exact : A) : res A :=
  if String.eqb fidelity "none" then Ok none
  else if String.eqb fidelity "affinity" then Ok affinity
  else if String.eqb fidelity "shadow-index" then Ok shadow
  else if String.eqb fidelity "exact-kv-events" then Ok exact
  else Err (KeyError fidelity).
Definition decay_lambda (fidelity : string) : res float := table fidelity f0 (dec 18 (-2)) (dec 12 (-2)) (dec 35 (-2)).

Section ablation.
Context (math_exp : float -> float).

(** [math.exp(-decay_lambda * lag_ms / 1000)] *)
Definition confidence (lag_ms : Z) (lambda : float) : res float :=
  lag <-! float_of_int lag_ms ;;
  x <-! fdiv (fopp lambda ⊗ lag) (of_Z 1000) ;;
  Ok (math_exp x).

Definition _alternate_backend (request : TraceRequest) (backends : Z) : res string :=
  n <-! last_number (tr_request_id request) ;;
  if backends =? 0 then Err ZeroDivisionError else Ok (gpu (n mod backends)).

(** The backend that the evidence predicts, the confidence, and whether it fell back. *)
Definition _predicted_backend (request : TraceRequest) (fidelity : string) (lag_ms backends : Z) : res (string * float * bool) :=
  lambda <-! decay_lambda fidelity ;;
  conf <-! confidence lag_ms lambda ;;
  if String.eqb fidelity "none" then b <-! _alternate_backend request backends ;; Ok (b, f0, false)
  else if conf <?. dec 2 (-1) then b <-! _alternate_backend request backends ;; Ok (b, conf, true)
  else
    base <-! table fidelity 0 62 28 0 ;;
    let error_threshold := base + Z.min 80 (lag_ms / 150) in
    let digest := sha256 (fidelity +:+ ":" +:+ tr_cache_key request +:+ ":" +:+ str_of_Z lag_ms) in
    if byte digest 0 <? error_threshold then
      n <-! last_number (tr_exact_backend request) ;;
      if (backends - 1 =? 0) || (backends =? 0) then Err ZeroDivisionError
      else Ok (gpu ((n + 1 + byte digest 1 mod (backends - 1)) mod backends), conf, false)
    else Ok (tr_exact_backend request, conf, false).

Record tally := {
  ta_selected : list string; ta_correct : Z; ta_fallback : Z; ta_wrong_affinity : Z; ta_reversals : Z;
  ta_ttft : list float; ta_reuse : list float
}.
Definition tally0 : tally :=
  {| ta_selected := []; ta_correct := 0; ta_fallback := 0; ta_wrong_affinity := 0; ta_reversals := 0; ta_ttft := [];
     ta_reuse := [] |}.
Definition one (b : bool) : Z := if b then 1 else 0.
Definition occurrences (s : string) (l : list string) : Z := zlen (List.filter (String.eqb s) l).

(** The body of the loop over the trace, of [n] requests. *)
Definition route (n : Z) (fidelity : string) (lag_ms backends : Z) (t : tally) (request : TraceRequest) : res tally :=
  ' (backend, conf, fell_back) <-! _predicted_backend request fidelity lag_ms backends ;;
  let selected := ta_selected t ++ [backend] in
  let is_correct := String.eqb backend (tr_exact_backend request) in
  ' (zero_lag_backend, _, _) <-! _predicted_backend request fidelity 0 backends ;;
  let effective_reuse := if is_correct && negb (String.eqb fidelity "none") then tr_match_ratio request ⊗ conf else f0 in
  share <-! int_truediv (occurrences backend selected) n ;;
  tokens <-! float_of_int (tr_prompt_tokens request) ;;
  Ok {| ta_selected := selected;
        ta_correct := ta_correct t + one is_correct;
        ta_fallback := ta_fallback t + one fell_back;
        ta_wrong_affinity := ta_wrong_affinity t + one (String.eqb fidelity "affinity" && negb is_correct && negb fell_back);
        ta_reversals := ta_reversals t + one (negb (String.eqb backend zero_lag_backend));
        ta_ttft := ta_ttft t ++ [of_Z 18 ⊕ tokens ⊗ dec 55 (-3) ⊗ (f1 ⊖ effective_reuse) ⊕ share ⊗ of_Z 18];
        ta_reuse := ta_reuse t ++ [effective_reuse] |}.

(** [statistics.pstdev] of integers: the exact variance as a reduced fraction. *)
Definition pstdev_int (l : list Z) : res float :=
  let n := zlen l in
  raise_if n =? 0 with StatisticsError ;;
  let sx := foldr Z.add 0 l in
  let ss := n * foldr (fun x a => x * x + a) 0 l - sx * sx in
  let g := Z.gcd ss (n * n) in
  float_sqrt_of_frac (ss / g) (n * n / g).

Record row := {
  fi_fidelity : string;
  fi_lag_ms : Z;
  fi_requests : Z;
  fi_routing_accuracy : float;
  fi_cache_reuse_ratio : float;
  fi_ttft_mean_ms : float;
  fi_throughput_proxy_req_s : float;
  fi_cpu_ns_per_decision : float;
  fi_state_bytes : Z;
  fi_state_bandwidth_bytes_s : float;
  fi_decision_latency_us : float;
  fi_wrong_affinity_rate : float;
  fi_backend_imbalance_cv : float;
  fi_decision_reversal_rate : float;
  fi_fallback_rate : float;
  fi_mean_confidence : float
}.
(** [elapsed_ns] is the time the loop took. *)
Definition evaluate (trace : list TraceRequest) (fidelity : string) (lag_ms backends elapsed_ns : Z) : res row :=
  raise_if negb (existsb (String.eqb fidelity) FIDELITIES) with ValueError ("unknown fidelity " +:+ fidelity) ;;
  let n := zlen trace in
  t <-! res_fold (route n fidelity lag_ms backends) tally0 trace ;;
  let counts := map (fun i => occurrences (gpu (Z.of_nat i)) (ta_selected t)) (seq 0 (Z.to_nat backends)) in
  raise_if zlen counts =? 0 with StatisticsError ;;
  mean_count <-! int_truediv (foldr Z.add 0 counts) (zlen counts) ;;
  state_bytes <-! table fidelity 0 (n * 48) (backends * 256) (n * 96) ;;
  update_bytes <-! table fidelity 0 32 128 96 ;;
  avg_ttft <-! mean (ta_ttft t) ;;
  accuracy <-! int_truediv (ta_correct t) n ;;
  reuse <-! mean (ta_reuse t) ;;
  throughput <-! fdiv (of_Z 1000) avg_ttft ;;
  cpu <-! int_truediv elapsed_ns n ;;
  bandwidth <-! (if lag_ms =? 0 then Ok f0 else int_truediv (update_bytes * 1000) lag_ms) ;;
  latency_us <-! fdiv cpu (of_Z 1000) ;;
  wrong <-! int_truediv (ta_wrong_affinity t) n ;;
  deviation <-! pstdev_int counts ;;
  cv <-! fdiv deviation mean_count ;;
  reversals <-! int_truediv (ta_reversals t) n ;;
  fallback <-! int_truediv (ta_fallback t) n ;;
  mean_conf <-! (if String.eqb fidelity "none" then Ok f0
                 else lambda <-! decay_lambda fidelity ;; confidence lag_ms lambda) ;;
  Ok {| fi_fidelity := fidelity; fi_lag_ms := lag_ms; fi_requests := n; fi_routing_accuracy := accuracy;
        fi_cache_reuse_ratio := reuse; fi_ttft_mean_ms := avg_ttft; fi_throughput_proxy_req_s := throughput;
        fi_cpu_ns_per_decision := cpu; fi_state_bytes := state_bytes; fi_state_bandwidth_bytes_s := bandwidth;
        fi_decision_latency_us := latency_us; fi_wrong_affinity_rate := wrong; fi_backend_imbalance_cv := cv;
        fi_decision_reversal_rate := reversals; fi_fallback_rate := fallback; fi_mean_confidence := mean_conf |}.

Definition fidelity_claim_boundary : string :=
  "This artifact validates fidelity and staleness sensitivity on a deterministic routing trace. It is not a real-GPU latency or throughput result; the Stage 2 real-backend artifact remains required for performance claims.".
Record artifact := { af_requests : Z; af_backends : Z; af_seed : Z; af_lags_ms : list Z; af_results : list row }.
Definition run (requests backends seed : Z) (lags_ms : list Z) (elapsed_ns : string -> Z -> Z) : res artifact :=
  trace <-! build_trace requests backends seed ;;
  results <-! res_map (fun fl : string * Z => evaluate trace fl.1 fl.2 backends (elapsed_ns fl.1 fl.2))
    (mjoin (map (fun f => map (fun l => (f, l)) lags_ms) FIDELITIES)) ;;
  Ok {| af_requests := requests; af_backends := backends; af_seed := seed; af_lags_ms := lags_ms; af_results := results |}.
End ablation.

(** ** The report (benchmark/cache_fidelity_report.py) *)

Definition row_line (r : row) : string :=
  "| " +:+ join " | " ["`" +:+ fi_fidelity r +:+ "`"; str_of_Z (fi_lag_ms r); fmt_fixed 3 (fi_routing_accuracy r);
    fmt_fixed 3 (fi_cache_reuse_ratio r); fmt_fixed 2 (fi_ttft_mean_ms r); fmt_fixed 2 (fi_throughput_proxy_req_s r);
    fmt_fixed 2 (fi_decision_latency_us r); fmt_fixed 0 (fi_cpu_ns_per_decision r); str_of_Z (fi_state_bytes r);
    fmt_fixed 1 (fi_state_bandwidth_bytes_s r); fmt_fixed 3 (fi_backend_imbalance_cv r);
    fmt_fixed 3 (fi_decision_reversal_rate r); fmt_fixed 3 (fi_fallback_rate r); fmt_fixed 3 (fi_wrong_affinity_rate r)]%string
  +:+ " |".
Definition render (a : artifact) : string :=
  join (str [chr 10])
    (["# Kavora Cache-Evidence Fidelity and Lag Ablation"; "";
      "- Status: `deterministic_trace_ablation`"; "- Requests: `" +:+ str_of_Z (af_requests a) +:+ "`";
      "- Backends: `" +:+ str_of_Z (af_backends a) +:+ "`"; "- Seed: `" +:+ str_of_Z (af_seed a) +:+ "`"; "";
      "| Fidelity | Lag ms | Accuracy | Reuse | TTFT ms | Throughput proxy | Decision us | CPU ns | State bytes | Bandwidth B/s | Imbalance CV | Reversal | Fallback | Wrong affinity |";
      "|---|---:|---:|---:|---:|---:|---:|---:|---:|---:|---:|---:|---:|---:|"]%string
     ++ map row_line (af_results a) ++ [""; "## Claim Boundary"; ""; fidelity_claim_boundary; ""]%string).

(** ** Properties *)

Lemma sha256_bytes s : Forall (fun b => 0 <= b < 256) (sha256 s).
Proof.
  unfold sha256. generalize (sha_blocks (length (sha_pad (map code (chars s)))) (sha_pad (map code (chars s))) sha_init).
  intros ws. induction ws as [|w ws IH]; [constructor|]. cbn [map]. apply Forall_app. split; [|exact IH].
  generalize 4%nat as n. intros n. induction n as [|n IHn]; cbn [be_bytes]; [constructor|].
  constructor; [apply Z.mod_pos_bound; lia|done].
Qed.
Lemma byte_nonneg s i : 0 <= byte (sha256 s) i.
Proof.
  unfold byte. pose proof (sha256_bytes s) as H. destruct (nth_in_or_default i (sha256 s) 0) as [Hin| ->]; [|done].
  apply list_elem_of_In in Hin. rewrite Forall_forall in H. by apply H.
Qed.

Section fidelity_facts.
Context (math_exp : float -> float).

(** Exact evidence without lag: the hash threshold is zero. *)
Lemma predict_exact_now r backends b conf fell :
  (forall s, math_exp (S754_zero s) = f1) ->
  _predicted_backend math_exp r "exact-kv-events" 0 backends = Ok (b, conf, fell) ->
  b = tr_exact_backend r /\ fell = false.
Proof.
  intros Hexp. unfold _predicted_backend.
  assert (Hc : exists s, confidence math_exp 0 (dec 35 (-2)) = Ok (math_exp (S754_zero s))) by (eexists; reflexivity).
  destruct Hc as [s Hc]. unfold decay_lambda, table. cbn [String.eqb Ascii.eqb Bool.eqb]. rewrite Hc, Hexp.
  change (fltb f1 (dec 2 (-1))) with false. cbv beta iota zeta.
  change (0 + Z.min 80 (0 / 150)) with 0.
  pose proof (byte_nonneg ("exact-kv-events" +:+ ":" +:+ tr_cache_key r +:+ ":" +:+ str_of_Z 0) 0) as Hb.
  destruct (Z.ltb_spec (byte (sha256 ("exact-kv-events" +:+ ":" +:+ tr_cache_key r +:+ ":" +:+ str_of_Z 0)) 0) 0); [lia|].
  by intros [= <- _ <-].
Qed.
(** Below the confidence of 0.2 every evidence is abandoned. *)
Lemma predict_stale r f lag backends lambda conf b conf' fell : f <> "none" ->
  decay_lambda f = Ok lambda -> confidence math_exp lag lambda = Ok conf -> fltb conf (dec 2 (-1)) = true ->
  _predicted_backend math_exp r f lag backends = Ok (b, conf', fell) -> fell = true.
Proof.
  intros Hf Hl Hc Hlt. unfold _predicted_backend. rewrite Hl, Hc, Hlt.
  apply String.eqb_neq in Hf. rewrite Hf. intros H. inv_ok H. congruence.
Qed.

(** What a step adds to the counts. *)
Lemma route_counts n f lag backends t r t' : route math_exp n f lag backends t r = Ok t' ->
  exists b conf fell b0 c0 f0',
    _predicted_backend math_exp r f lag backends = Ok (b, conf, fell) /\
    _predicted_backend math_exp r f 0 backends = Ok (b0, c0, f0') /\
    ta_correct t' = ta_correct t + one (String.eqb b (tr_exact_backend r)) /\
    ta_fallback t' = ta_fallback t + one fell /\
    ta_wrong_affinity t' = ta_wrong_affinity t + one (String.eqb f "affinity" && negb (String.eqb b (tr_exact_backend r)) && negb fell) /\
    ta_reversals t' = ta_reversals t + one (negb (String.eqb b b0)) /\
    zlen (ta_selected t') = 1 + zlen (ta_selected t).
Proof.
  unfold route. intros H. destruct (_predicted_backend math_exp r f lag backends) as [[[b conf] fell]|]; [|done].
  destruct (_predicted_backend math_exp r f 0 backends) as [[[b0 c0] fb0]|]; [|done]. inv_ok H. subst t'. cbn.
  exists b, conf, fell, b0, c0, fb0. split_and!; try done. rewrite zlen_app. unfold zlen. simpl. lia.
Qed.
Lemma route_all n f lag backends trace t t' (counted : tally -> Z) (k : Z) :
  (forall t r t', route math_exp n f lag backends t r = Ok t' -> counted t' = counted t + k) ->
  res_fold (route math_exp n f lag backends) t trace = Ok t' -> counted t' = counted t + k * zlen trace.
Proof.
  intros Hstep. revert t; induction trace as [|r rs IH]; intros t H; cbn [res_fold] in H.
  - injection H as <-. unfold zlen. simpl. lia.
  - destruct (route _ _ _ _ _ t r) as [t1|] eqn:E; [|done]. rewrite zlen_cons, (IH t1 H), (Hstep _ _ _ E). lia.
Qed.
End fidelity_facts.

(** C40: the ends of the ablation.  Without lag no decision is reversed, whatever the
    fidelity; without lag exact evidence always names the backend that holds the prefix
    and never falls back; and when the confidence in an evidence has decayed below 0.2,
    every request falls back and none counts as a wrong affinity. *)
Theorem fidelity_limits math_exp trace fidelity lag backends ns row :
  evaluate math_exp trace fidelity lag backends ns = Ok row ->
  let n := zlen trace in
  (lag = 0 -> int_truediv 0 n = Ok (fi_decision_reversal_rate row)) /\
  (lag = 0 -> fidelity = "exact-kv-events" -> (forall s, math_exp (S754_zero s) = f1) ->
     int_truediv n n = Ok (fi_routing_accuracy row) /\ int_truediv 0 n = Ok (fi_fallback_rate row)) /\
  (forall lambda conf, fidelity <> "none" -> decay_lambda fidelity = Ok lambda ->
     confidence math_exp lag lambda = Ok conf -> fltb conf (dec 2 (-1)) = true ->
     int_truediv n n = Ok (fi_fallback_rate row) /\ int_truediv 0 n = Ok (fi_wrong_affinity_rate row)).
Proof.
  unfold evaluate. intros H. destruct (negb _); [done|]. cbv zeta in *.
  destruct (res_fold _ tally0 trace) as [t|] eqn:Et; [|done]. destruct (zlen _ =? 0); [done|].
  assert (Hrow : int_truediv (ta_correct t) (zlen trace) = Ok (fi_routing_accuracy row) /\
                 int_truediv (ta_wrong_affinity t) (zlen trace) = Ok (fi_wrong_affinity_rate row) /\
                 int_truediv (ta_reversals t) (zlen trace) = Ok (fi_decision_reversal_rate row) /\
                 int_truediv (ta_fallback t) (zlen trace) = Ok (fi_fallback_rate row)).
  { repeat match type of H with match ?c with Ok _ => _ | Err _ => _ end = _ =>
      let E := fresh "E" in destruct c eqn:E; [|discriminate H] end.
    injection H as <-. cbn. done. }
  clear H. destruct Hrow as (H1 & H2 & H3 & H4).
  assert (Hall : forall (counted : tally -> Z) k, counted tally0 = 0 ->
     (forall t r t', route math_exp (zlen trace) fidelity lag backends t r = Ok t' -> counted t' = counted t + k) ->
     counted t = k * zlen trace).
  { intros counted k H0 Hs. rewrite (route_all math_exp _ _ _ _ _ _ _ counted k Hs Et), H0. lia. }
  split_and!.
  - intros ->. rewrite <- H3. f_equal. symmetry. transitivity (0 * zlen trace); [|lia]. apply Hall; [done|].
    intros t0 r t1 (b & c & fl & b0 & c0 & fb & Hp & Hp0 & _ & _ & _ & Hr & _)%route_counts. rewrite Hp in Hp0. injection Hp0 as <- <- <-.
    rewrite Hr, String.eqb_refl. cbn. lia.
  - intros -> -> Hexp. rewrite <- H1, <- H4.
    assert (Hc : ta_correct t = 1 * zlen trace /\ ta_fallback t = 0 * zlen trace).
    { split; apply Hall; try done;
        intros t0 r t1 (b & c & fl & b0 & c0 & fb & Hp & _ & Hc & Hf & _)%route_counts;
        apply predict_exact_now in Hp as [-> ->]; [|done| |done]; [rewrite Hc, String.eqb_refl; cbn; lia|rewrite Hf; cbn; lia]. }
    destruct Hc as [-> ->]. split; f_equal; lia.
  - intros lambda conf Hf Hl Hc Hlt. rewrite <- H4, <- H2.
    assert (Hw : ta_fallback t = 1 * zlen trace /\ ta_wrong_affinity t = 0 * zlen trace).
    { split; apply Hall; try done;
        intros t0 r t1 (b & c & fl & b0 & c0 & fb & Hp & _ & _ & Hfb & Hwr & _)%route_counts;
        apply (predict_stale _ _ _ _ _ _ _ _ _ _ Hf Hl Hc Hlt) in Hp as ->.
      - rewrite Hfb. cbn. lia.
      - rewrite Hwr, andb_false_r. cbn. lia. }
    destruct Hw as [-> ->]. split; f_equal; lia.
Qed.

(** [exp] rounded to 1 near zero and to 0 elsewhere. *)
Definition demo_exp (x : float) : float := if is_zero x then f1 else f0.
Lemma fidelity_limits_witness : exists trace row,
  build_trace 5 3 17 = Ok trace /\ evaluate demo_exp trace "exact-kv-events" 0 3 1000 = Ok row /\
  int_truediv 5 5 = Ok (fi_routing_accuracy row).
Proof.
  assert (H : is_ok (trace <-! build_trace 5 3 17 ;; evaluate demo_exp trace "exact-kv-events" 0 3 1000) = true)
    by (vm_compute; reflexivity).
  assert (Hlen : (trace <-! build_trace 5 3 17 ;; Ok (zlen trace)) = Ok 5) by (vm_compute; reflexivity).
  destruct (build_trace 5 3 17) as [trace|]; [|discriminate H]. injection Hlen as Hlen.
  destruct (evaluate demo_exp trace "exact-kv-events" 0 3 1000) as [row|] eqn:E; [|discriminate H].
  exists trace, row. split; [reflexivity|]. split; [exact E|].
  destruct (fidelity_limits _ _ _ _ _ _ _ E) as (_ & Hx & _).
  rewrite <- Hlen. exact (proj1 (Hx eq_refl eq_refl (fun s => eq_refl))).
Defined.
Example stale_known :
  (trace <-! build_trace 4 3 17 ;; r <-! evaluate demo_exp trace "shadow-index" 100 3 1000 ;; Ok (repr_float (fi_fallback_rate r)))
  = Ok "1.0"%string.
Proof. vm_compute. reflexivity. Qed.
