(* ===== verification/Gateway.v ===== *)
(** * The Stage 1 gateway benchmark (benchmark/gateway_runner.py, benchmark/gateway_report.py)

    Each named path gets the same prompts under a semaphore; the latencies of the paths
    are compared.  The server, the clock and the host are the environment. *)

From stdpp Require Import relations.
From S2P Require Import Prelude PyFloat FloatOrder PyStr PyVal PySort Digest WindowMetrics Percentile Stream.
From S2P Require Import Gather.

Definition config_hash (config : dict) : res string := text <-! json_dumps (VDict config) ;; Ok (sha256_hex text).

Definition gw_alphabet : list ascii := chars "abcdefghijklmnopqrstuvwxyz ".
Definition build_prompt (seed length : Z) : list ascii :=
  map (fun index => nth (Z.to_nat ((seed + Z.of_nat index * 17) mod 27)) gw_alphabet " "%char)
    (seq 0 (Z.to_nat (Z.max 1 length))).

Record PathSpec := { ps_name : string; ps_url : string }.
(** ["stream" in self.name.lower()] *)
Definition stream (p : PathSpec) : bool := has_infix (chars "stream") (chars (lower (ps_name p))).

Definition parse_path (value : string) : res PathSpec :=
  let '(name, separator, url) := partition "="%char value in
  if negb separator || String.eqb name "" || negb (startswith "http://" url || startswith "https://" url)
  then Err (ValueError ("path must be NAME=HTTP_URL, got " +:+ py_repr (VStr value)))
  else Ok {| ps_name := name; ps_url := url |}.
Definition parse_paths (values : list string) : res (list PathSpec) :=
  paths <-! res_map parse_path values ;;
  match paths with [] => Err (ValueError "at least one --path is required") | _ => Ok paths end.

(** ** One request *)

Record Request := { rq_url : string; rq_payload : val; rq_headers : list (string * string) }.
Record Args := { a_model : string; a_requests : Z; a_concurrency : Z; a_input_length : Z; a_seed : Z; a_api_key : string }.
Definition request_of (args : Args) (path : PathSpec) (index : Z) : Request :=
  {| rq_url := rstrip_char "/"%char (ps_url path) +:+ "/v1/chat/completions";
     rq_payload := VDict
       [("model", VStr (a_model args));
        ("messages", VList [VDict [("role", VStr "user");
           ("content", VStr (str (build_prompt (a_seed args + index) (a_input_length args))))]]);
        ("stream", VBool (stream path))]%string;
     rq_headers := ([("Content-Type", "application/json")]%string
                    ++ if String.eqb (a_api_key args) "" then []
                       else [("Authorization"%string, ("Bearer " +:+ a_api_key args)%string)]) |}.

Record Sample := {
  sm_ok : bool; sm_status : Z; sm_error : string; sm_latency_ms : float; sm_ttft_ms : option float; sm_response_bytes : Z
}.
(** Without streaming the body is the single chunk [response.content]; a first byte at
    time zero counts as none. *)
Definition run_one (started : float) (o : outcome) (finished : float) : Sample :=
  let '(first_byte, response_bytes) := read_body (out_chunks o) in
  {| sm_ok := out_ok o; sm_status := out_status o; sm_error := out_error o;
     sm_latency_ms := (finished ⊖ started) ⊗ of_Z 1000;
     sm_ttft_ms := match first_byte with
                   | Some t => if is_zero t then None else Some ((t ⊖ started) ⊗ of_Z 1000)
                   | None => None
                   end;
     sm_response_bytes := response_bytes |}.

(** ** One path *)

Record quantiles := { q50 : option float; q95 : option float; q99 : option float }.
Definition quantiles_of (values : list float) : res quantiles :=
  a <-! Percentile.Gateway.percentile values (dec 50 (-2)) ;;
  b <-! Percentile.Gateway.percentile values (dec 95 (-2)) ;;
  c <-! Percentile.Gateway.percentile values (dec 99 (-2)) ;;
  Ok {| q50 := a; q95 := b; q99 := c |}.
(** [statistics.mean] of integers: an integer when it is one. *)
Definition mean_int (l : list Z) : res val :=
  let n := zlen l in
  let s := foldr Z.add 0 l in
  if n =? 0 then Err StatisticsError
  else if s mod n =? 0 then Ok (VInt (s / n)) else q <-! int_truediv s n ;; Ok (VFloat q).

Record path_result := {
  pr_path : string; pr_url : string; pr_stream : bool; pr_requests : Z; pr_ok : Z; pr_failed : Z; pr_error_rate : float;
  pr_throughput_req_s : float; pr_latency_ms : quantiles; pr_ttft_ms : quantiles; pr_response_bytes_mean : val;
  pr_sample_errors : list string; pr_elapsed_s : float
}.
Definition jobs (args : Args) : list Z := map Z.of_nat (seq 0 (Z.to_nat (a_requests args))).
Definition slots (args : Args) : nat := Z.to_nat (Z.max 1 (a_concurrency args)).
Definition perform (server : Request -> outcome -> Prop) (args : Args) (path : PathSpec) (index : Z) (s : Sample) : Prop :=
  exists o t0 t1, server (request_of args path index) o /\ s = run_one t0 o t1.

Definition run_path (path : PathSpec) (samples : list Sample) (started finished : float) : res path_result :=
  let elapsed := fmax (finished ⊖ started) (dec 1 (-9)) in
  let successful := List.filter sm_ok samples in
  let n := zlen samples in
  let ok := zlen successful in
  error_rate <-! int_truediv (n - ok) (Z.max n 1) ;;
  okf <-! float_of_int ok ;;
  throughput <-! fdiv okf elapsed ;;
  latency <-! quantiles_of (map sm_latency_ms successful) ;;
  ttft <-! quantiles_of (omap sm_ttft_ms successful) ;;
  bytes <-! (match successful with [] => Ok VNone | _ => mean_int (map sm_response_bytes successful) end) ;;
  Ok {| pr_path := ps_name path; pr_url := ps_url path; pr_stream := stream path; pr_requests := n; pr_ok := ok;
        pr_failed := n - ok; pr_error_rate := error_rate; pr_throughput_req_s := throughput; pr_latency_ms := latency;
        pr_ttft_ms := ttft; pr_response_bytes_mean := bytes;
        pr_sample_errors := take 5 (List.filter (fun e => negb (String.eqb e "")) (map sm_error samples));
        pr_elapsed_s := elapsed |}.

(** ** Phase attribution *)

Definition by_name (results : list path_result) : list (string * path_result) :=
  foldl (fun d r => dset d (pr_path r) r) [] results.
Inductive attribution : Type :=
| InsufficientPaths
| ProxyDeltas (go_forward_p95_ms rust_policy_plus_rpc_p95_ms : option float) (stream_path_present : bool).
Definition p95_delta (a b : path_result) : option float :=
  match q95 (pr_latency_ms a), q95 (pr_latency_ms b) with Some x, Some y => Some (x ⊖ y) | _, _ => None end.
Definition phase_attribution (results : list path_result) : attribution :=
  let d := by_name results in
  match dget d "direct", dget d "go_only", dget d "go_rust_unary" with
  | Some direct, Some go_only, Some go_rust =>
      ProxyDeltas (p95_delta go_only direct) (p95_delta go_rust go_only) (dmem d "go_rust_stream")
  | _, _, _ => InsufficientPaths
  end.
Definition attribution_dict (a : attribution) : dict :=
  match a with
  | InsufficientPaths =>
      [("status", VStr "insufficient_paths"); ("required", VList [VStr "direct"; VStr "go_only"; VStr "go_rust_unary"])]%string
  | ProxyDeltas go rust stream_present =>
      [("status", VStr "proxy_deltas_only"); ("go_forward_p95_ms", opt_float go);
       ("rust_policy_plus_rpc_p95_ms", opt_float rust); ("stream_path_present", VBool stream_present);
       ("claim_boundary", VStr "deltas are end-to-end proxies, not isolated CPU timings")]%string
  end.

(** ** The matrix *)

Definition configuration (args : Args) (paths : list PathSpec) : dict :=
  [("paths", VList (map (fun p => VDict [("name", VStr (ps_name p)); ("url", VStr (ps_url p))]) paths));
   ("model", VStr (a_model args)); ("requests", VInt (a_requests args)); ("concurrency", VInt (a_concurrency args));
   ("input_length", VInt (a_input_length args)); ("seed", VInt (a_seed args))]%string.
Record Host := { h_python : string; h_platform : string; h_pid : Z; h_peak_rss_mb : float; h_time : float }.
Record matrix := {
  mx_config_hash : string; mx_configuration : dict; mx_host : Host; mx_paths : list path_result; mx_phases : attribution
}.
(** [measure] is a run of a path: its samples and the clock around them. *)
Definition run_matrix (measure : PathSpec -> list Sample * float * float) (values : list string) (args : Args) (host : Host)
  : res matrix :=
  paths <-! parse_paths values ;;
  results <-! res_map (fun p => let '(samples, t0, t1) := measure p in run_path p samples t0 t1) paths ;;
  hash <-! config_hash (configuration args paths) ;;
  Ok {| mx_config_hash := hash; mx_configuration := configuration args paths; mx_host := host; mx_paths := results;
        mx_phases := phase_attribution results |}.

(** ** The report *)

Definition fmt (value : option float) : string := match value with None => "n/a" | Some x => fmt_fixed 2 x end.
Definition path_line (host : Host) (p : path_result) : string :=
  "| " +:+ join " | " ["`" +:+ pr_path p +:+ "`"; str_of_Z (pr_ok p) +:+ "/" +:+ str_of_Z (pr_requests p);
    fmt_fixed 3 (pr_error_rate p); fmt (q50 (pr_latency_ms p)); fmt (q95 (pr_latency_ms p)); fmt (q99 (pr_latency_ms p));
    fmt (q95 (pr_ttft_ms p)); fmt_fixed 3 (pr_throughput_req_s p); fmt_fixed 2 (h_peak_rss_mb host)]%string +:+ " |".
Definition render (m : matrix) : res string :=
  phases <-! json_text (indented true) 0 (VDict (attribution_dict (mx_phases m))) ;;
  Ok (join (str [chr 10])
    (["# Kavora Stage 1 Gateway Benchmark"; ""; "- Schema: `kavora-stage1-gateway-v1`";
      "- Config hash: `" +:+ mx_config_hash m +:+ "`";
      "- Environment: `" +:+ h_platform (mx_host m) +:+ "` / Python `" +:+ h_python (mx_host m) +:+ "`"; "";
      "| Path | OK | Error rate | p50 ms | p95 ms | p99 ms | TTFT p95 ms | req/s | peak RSS MB |";
      "|---|---:|---:|---:|---:|---:|---:|---:|---:|"]%string
     ++ map (path_line (mx_host m)) (mx_paths m)
     ++ [""; "## Phase Attribution"; ""; "```json"; phases; "```"; "";
         "The phase deltas are end-to-end proxy measurements. They must not be described as isolated Go, RPC, or Rust CPU timings.";
         ""]%string)).

Example short_prompt_known : build_prompt 42 6 = chars "pfwmct".
Proof. vm_compute. reflexivity. Qed.

(** ** Properties *)

Lemma by_name_get results n :
  dget (by_name results) n = last (List.filter (fun r => String.eqb (pr_path r) n) results).
Proof.
  unfold by_name.
  assert (H : forall d, dget (foldl (fun d r => dset d (pr_path r) r) d results) n =
            match last (List.filter (fun r => String.eqb (pr_path r) n) results) with Some r => Some r | None => dget d n end).
  { induction results as [|r rs IH]; intros d; [done|]. cbn [foldl List.filter]. rewrite IH, dget_dset.
    destruct (String.eqb_spec (pr_path r) n); [|by destruct (last _)].
    set (fs := List.filter _ rs). destruct (last fs) as [x|] eqn:E.
    - destruct fs as [|y l]; [done|]. by rewrite last_cons_cons, E.
    - apply last_None in E as ->. done. }
  rewrite H. by destruct (last _).
Qed.
Lemma by_name_named results n r : dget (by_name results) n = Some r -> r ∈ results /\ pr_path r = n.
Proof.
  rewrite by_name_get. intros H%last_Some_elem_of. apply elem_of_filterb in H as [H1 H2%String.eqb_eq]. done.
Qed.
Lemma by_name_missing results n : dget (by_name results) n = None <-> n ∉ map pr_path results.
Proof.
  rewrite by_name_get, last_None. split.
  - intros H Hin. apply list_elem_of_fmap in Hin as (r & -> & Hr).
    assert (Hf : r ∈ List.filter (fun x => String.eqb (pr_path x) (pr_path r)) results)
      by (apply elem_of_filterb; by rewrite String.eqb_refl).
    rewrite H in Hf. by apply elem_of_nil in Hf.
  - intros H. destruct (List.filter _ results) as [|r l] eqn:E; [done|]. destruct H.
    assert (Hr : r ∈ List.filter (fun x => String.eqb (pr_path x) n) results) by (rewrite E; by left).
    apply elem_of_filterb in Hr as [Hr <-%String.eqb_eq]. apply list_elem_of_fmap. by exists r.
Qed.

(** The comparison of the gateway paths.  It reports insufficient paths exactly when
    one of [direct], [go_only] and [go_rust_unary] was not measured; otherwise a delta is
    the difference of the tail latencies of two paths with those names, and is missing
    exactly when one of them has no successful request to take it from; and the streaming
    path is reported exactly when it was measured. *)
Theorem phase_attribution_spec results :
  (phase_attribution results = InsufficientPaths <->
     exists n, n ∈ ["direct"; "go_only"; "go_rust_unary"]%string /\ n ∉ map pr_path results) /\
  (forall go rust present, phase_attribution results = ProxyDeltas go rust present ->
     (present = true <-> "go_rust_stream"%string ∈ map pr_path results) /\
     exists d o r, d ∈ results /\ pr_path d = "direct"%string /\ o ∈ results /\ pr_path o = "go_only"%string /\
       r ∈ results /\ pr_path r = "go_rust_unary"%string /\ go = p95_delta o d /\ rust = p95_delta r o /\
       (go = None <-> q95 (pr_latency_ms o) = None \/ q95 (pr_latency_ms d) = None) /\
       (rust = None <-> q95 (pr_latency_ms r) = None \/ q95 (pr_latency_ms o) = None)).
Proof.
  unfold phase_attribution. cbv zeta.
  pose proof (by_name_missing results "direct") as Hd. pose proof (by_name_missing results "go_only") as Ho.
  pose proof (by_name_missing results "go_rust_unary") as Hr.
  assert (Hdelta : forall a b, p95_delta a b = None <-> q95 (pr_latency_ms a) = None \/ q95 (pr_latency_ms b) = None).
  { intros a b. unfold p95_delta. destruct (q95 (pr_latency_ms a)), (q95 (pr_latency_ms b)); split; intros H; first [by auto|by destruct H]. }
  destruct (dget (by_name results) "direct") as [d|] eqn:Ed;
    [|split; [split; [intros _; exists "direct"%string; split; [set_solver|by apply Hd]|done]|done]].
  destruct (dget (by_name results) "go_only") as [o|] eqn:Eo;
    [|split; [split; [intros _; exists "go_only"%string; split; [set_solver|by apply Ho]|done]|done]].
  destruct (dget (by_name results) "go_rust_unary") as [r|] eqn:Er;
    [|split; [split; [intros _; exists "go_rust_unary"%string; split; [set_solver|by apply Hr]|done]|done]].
  split.
  - split; [done|]. intros (n & Hn & Hno). rewrite !elem_of_cons, elem_of_nil in Hn.
    destruct Hn as [-> |[-> |[-> |[]]]]; [apply Hd in Hno|apply Ho in Hno|apply Hr in Hno]; done.
  - intros go rust present [= <- <- <-]. split.
    + unfold dmem. pose proof (by_name_missing results "go_rust_stream") as Hs.
      destruct (dget (by_name results) "go_rust_stream") eqn:E; split; try done.
      * intros _. apply by_name_named in E as [H1 <-]. apply list_elem_of_fmap. by eexists.
      * intros Hin. by apply Hs in Hin.
    + apply by_name_named in Ed as [??], Eo as [??], Er as [??]. exists d, o, r. split_and!; eauto.
Qed.

(** A path of the benchmark.  However the requests interleave, at most
    [max(1, concurrency)] are in flight; when all are done, the result counts each
    request once, as successful or failed, and a request failed exactly when its sample
    carries an error. *)
Theorem run_path_spec server args path p t0 t1 r :
  reachable (perform server args path) (slots args) (jobs args) p ->
  (Z.of_nat (length (running p)) <= Z.max 1 (a_concurrency args)) /\
  (done_pool p ->
     let samples := gathered p (length (jobs args)) in
     Forall (fun s => sm_ok s = true <-> sm_error s = "") samples /\
     (run_path path samples t0 t1 = Ok r ->
        pr_requests r = Z.max 0 (a_requests args) /\ 0 <= pr_ok r <= pr_requests r /\
        pr_ok r + pr_failed r = pr_requests r /\ zlen (pr_sample_errors r) <= Z.min 5 (pr_failed r))).
Proof.
  intros Hr. split.
  - destruct (sound_reachable _ _ _ _ Hr) as [Hb _ _]. unfold slots in Hb. lia.
  - intros Hd. cbv zeta. pose proof (gathered_results _ _ _ _ Hr Hd) as Hg. set (samples := gathered _ _) in *.
    assert (Hok : Forall (fun s => sm_ok s = true <-> sm_error s = "") samples).
    { eapply Forall2_Forall_r; [exact Hg|]. apply Forall_true. intros i s (o & a & b & _ & ->). unfold run_one.
      destruct (read_body _). apply out_ok_error. }
    split; [exact Hok|]. unfold run_path. cbv zeta. intros H.
    destruct (int_truediv _ _); [|discriminate H]. destruct (float_of_int _); [|discriminate H].
    destruct (fdiv _ _); [|discriminate H]. destruct (quantiles_of (map _ _)); [|discriminate H].
    destruct (quantiles_of (omap _ _)); [|discriminate H].
    match type of H with match ?c with Ok _ => _ | Err _ => _ end = _ => destruct c; [|discriminate H] end.
    injection H as <-. cbn. pose proof (filterb_length_le sm_ok samples) as Hle.
    apply Forall2_length in Hg. unfold jobs in Hg. rewrite length_map, length_seq in Hg.
    assert (Herr : zlen (List.filter (fun e => negb (String.eqb e "")) (map sm_error samples)) =
                   zlen samples - zlen (List.filter sm_ok samples)).
    { clear -Hok. induction Hok as [|s l Hs _ IH]; [done|]. cbn. rewrite zlen_cons.
      destruct (String.eqb_spec (sm_error s) "") as [E|E]; cbn.
      - rewrite (proj2 Hs E), zlen_cons. lia.
      - destruct (sm_ok s); [by specialize (proj1 Hs eq_refl)|]. rewrite zlen_cons. lia. }
    set (errs := List.filter _ (map sm_error samples)) in *.
    assert (Ht : zlen (take 5 errs) = Z.min 5 (zlen errs)) by (unfold zlen; rewrite length_take; lia).
    rewrite Ht, Herr. clear Herr Ht. unfold zlen in *. split_and!; lia.
Qed.
Definition demo_args : Args :=
  {| a_model := "m"; a_requests := 1; a_concurrency := 2; a_input_length := 8; a_seed := 42; a_api_key := "" |}.
Definition demo_path (name : string) : PathSpec := {| ps_name := name; ps_url := "http://h/" |}.
Definition demo_sample : Sample := run_one f0 (Answered 200 (fun _ => None) [{| ck_size := 3; ck_time := f1 |}] None) f1.
Definition demo_result (name : string) : res path_result := run_path (demo_path name) [demo_sample] f0 f1.
Definition answers_200 (rq : Request) (o : outcome) : Prop :=
  o = Answered 200 (fun _ => None) [{| ck_size := 3; ck_time := f1 |}] None.

Lemma run_path_spec_witness : exists p r,
  reachable (perform answers_200 demo_args (demo_path "direct")) (slots demo_args) (jobs demo_args) p /\ done_pool p /\
  run_path (demo_path "direct") (gathered p 1) f0 f1 = Ok r /\ pr_requests r = 1.
Proof.
  set (p := {| waiting := []; running := []; finished := [((0%nat, 0), demo_sample)] |}).
  assert (Hp : perform answers_200 demo_args (demo_path "direct") 0 demo_sample)
    by (eexists _, f0, f1; split; reflexivity).
  assert (Hr : reachable (perform answers_200 demo_args (demo_path "direct")) (slots demo_args) (jobs demo_args) p).
  { eapply rtc_l; [apply (Acquire _ _ (0%nat, 0) [] [] []); vm_compute; lia|].
    eapply rtc_l; [apply (Complete _ _ [] [] (0%nat, 0) [] [] _ Hp)|]. apply rtc_refl. }
  assert (Hd : done_pool p) by (split; reflexivity).
  assert (Hok : is_ok (run_path (demo_path "direct") (gathered p 1) f0 f1) = true) by (vm_compute; reflexivity).
  destruct (run_path (demo_path "direct") (gathered p 1) f0 f1) as [r|] eqn:E; [|discriminate Hok].
  exists p, r. split; [exact Hr|]. split; [exact Hd|]. split; [exact E|].
  destruct (run_path_spec answers_200 demo_args (demo_path "direct") p f0 f1 r Hr) as [_ H].
  destruct (H Hd) as [_ H']. exact (proj1 (H' E)).
Defined.
