(* ===== verification/Threshold.v ===== *)
(** * Thresholds of the hit-ratio boundary (planner/compare_baseline.py,
    scripts/plot_threshold_curve.py)

    Both scripts recommend a rate for the runs of a reuse experiment twice, with the hard
    constraints only and with a demanded hit ratio on top; the second one does it for a
    range of demanded ratios.  What both compute is here; their files and figures are in
    [Commands], [CurveScript] and [Figures]. *)

From S2P Require Import Prelude PyFloat FloatOrder PyStr PyVal WindowMetrics Policy Sweep.

Definition SCENARIOS : list string := ["low_reuse"; "high_reuse"]%string.

Definition as_dict (v : val) : res dict := match v with VDict d => Ok d | _ => Err AttributeError end.
(** [doc.get("runs", {}).get(scenario, [])], whose entries are read with [.get]. *)
Definition scenario_runs (doc : val) (scenario : string) : res (list dict) :=
  runs <-! vget doc "runs" (VDict []) ;;
  mine <-! vget runs scenario (VList []) ;;
  items <-! viter mine ;;
  res_map as_dict items.

Definition float_val_item (d : dict) (k : string) : res val := x <-! float_item d k ;; Ok (VFloat x).
(** The keys copied from a recommendation, each through its coercion. *)
Definition copied (from : dict) (fields : list (string * (dict -> string -> res val))) : res dict :=
  res_map (fun kr : string * (dict -> string -> res val) => v <-! kr.2 from kr.1 ;; Ok (kr.1, v)) fields.

Section thresholds.
Context (e2e_p95_slo_ms min_success_rate safety_factor : float).

Definition recommend (min_hit_ratio : option float) (runs : list dict) : res dict :=
  recommend_runs e2e_p95_slo_ms min_success_rate min_hit_ratio safety_factor runs.

(** ** One comparison *)

Definition compared_fields : list (string * (dict -> string -> res val)) :=
  [("num_runs", int_item); ("num_runs_missing_hit_ratio", int_item); ("num_runs_stale_metrics", int_item);
   ("num_runs_ok_metrics", int_item); ("metric_quality", str_item); ("num_runs_window_hit_ratio", int_item);
   ("num_runs_snapshot_fallback_hit_ratio", int_item); ("hit_ratio_source", str_item);
   ("ok_metric_run_fraction", float_val_item); ("hit_ratio_comparable", bool_item);
   ("num_runs_prefix_metric_strict", int_item); ("num_runs_prefix_metric_token_fallback", int_item);
   ("num_runs_prefix_metric_other", int_item); ("num_runs_prefix_metric_missing", int_item);
   ("prefix_metric_check", str_item)]%string.
Definition compare_scenario (doc : val) (min_hit_ratio : float) (scenario : string) : res dict :=
  runs <-! scenario_runs doc scenario ;;
  hard_only <-! recommend None runs ;;
  dual <-! recommend (Some min_hit_ratio) runs ;;
  hard_rps <-! float_item hard_only "recommended_rps" ;;
  dual_rps <-! float_item dual "recommended_rps" ;;
  baseline <-! round6 hard_rps ;;
  boundary <-! round6 dual_rps ;;
  delta <-! round6 (dual_rps ⊖ hard_rps) ;;
  fields <-! copied dual compared_fields ;;
  Ok ([("baseline_hard_only_recommended_rps", baseline); ("dual_boundary_recommended_rps", boundary);
       ("delta_dual_minus_baseline", delta)]%string ++ fields).
Definition compare_baseline (doc : val) (min_hit_ratio : float) : res dict :=
  scenarios <-! res_map (fun s => item <-! compare_scenario doc min_hit_ratio s ;; Ok (s, VDict item)) SCENARIOS ;;
  Ok [("schema_version", VInt 3);
      ("policy", VDict [("e2e_p95_slo_ms", VFloat e2e_p95_slo_ms); ("min_success_rate", VFloat min_success_rate);
                        ("min_hit_ratio", VFloat min_hit_ratio); ("safety_factor", VFloat safety_factor)]);
      ("scenarios", VDict scenarios)]%string.

(** ** The curve *)

(** [_frange]: [None] as long as the loop has not ended. *)
Fixpoint _frange (fuel : nat) (x limit step : float) : option (res (list float)) :=
  if x <=?. limit then
    match fuel with
    | O => None
    | S fuel' =>
        match _frange fuel' (x ⊕ step) limit step with
        | None => None
        | Some rest => Some (v <-! py_round 2 x ;; vals <-! rest ;; Ok (v :: vals))
        end
    end
  else Some (Ok []).
Definition frange (fuel : nat) (start finish step : float) : option (res (list float)) :=
  _frange fuel start (finish ⊕ dec 1 (-9)) step.

Record row := {
  tr_min_hit_ratio : float;
  tr_scenario : string;
  tr_baseline_rps : float;
  tr_dual_rps : float;
  tr_delta : float;
  tr_fields : dict
}.
Definition curve_fields : list (string * (dict -> string -> res val)) :=
  [("metric_quality", str_item); ("num_runs", int_item); ("num_runs_ok_metrics", int_item);
   ("num_runs_missing_hit_ratio", int_item); ("num_runs_stale_metrics", int_item);
   ("num_runs_window_hit_ratio", int_item); ("num_runs_snapshot_fallback_hit_ratio", int_item);
   ("hit_ratio_source", str_item); ("hit_ratio_comparable", bool_item);
   ("num_runs_prefix_metric_strict", int_item); ("num_runs_prefix_metric_token_fallback", int_item);
   ("num_runs_prefix_metric_other", int_item); ("num_runs_prefix_metric_missing", int_item);
   ("prefix_metric_check", str_item)]%string.
Definition threshold_row (doc : val) (ts : float * string) : res row :=
  runs <-! scenario_runs doc ts.2 ;;
  baseline <-! recommend None runs ;;
  dual <-! recommend (Some ts.1) runs ;;
  baseline_rps <-! float_item baseline "recommended_rps" ;;
  dual_rps <-! float_item dual "recommended_rps" ;;
  b <-! py_round 6 baseline_rps ;;
  d <-! py_round 6 dual_rps ;;
  delta <-! py_round 6 (dual_rps ⊖ baseline_rps) ;;
  fields <-! copied dual curve_fields ;;
  Ok {| tr_min_hit_ratio := ts.1; tr_scenario := ts.2; tr_baseline_rps := b; tr_dual_rps := d; tr_delta := delta;
        tr_fields := fields |}.
Definition cells (thresholds : list float) : list (float * string) :=
  mjoin (map (fun t => map (fun s => (t, s)) SCENARIOS) thresholds).
Definition threshold_rows (doc : val) (thresholds : list float) : res (list row) :=
  res_map (threshold_row doc) (cells thresholds).

Definition row_dict (r : row) : dict :=
  ([("min_hit_ratio", VFloat (tr_min_hit_ratio r)); ("scenario", VStr (tr_scenario r));
    ("baseline_rps", VFloat (tr_baseline_rps r)); ("dual_rps", VFloat (tr_dual_rps r));
    ("delta", VFloat (tr_delta r))]%string ++ tr_fields r).
Definition curve_json (rows : list row) : dict :=
  [("schema_version", VInt 3); ("rows", VList (map (fun r => VDict (row_dict r)) rows))]%string.
Definition csv_fieldnames : list string :=
  ["min_hit_ratio"; "scenario"; "baseline_rps"; "dual_rps"; "delta"]%string ++ map fst curve_fields.

(** [next(r for r in rows if r["min_hit_ratio"] == t and r["scenario"] == scenario)] *)
Definition row_at (rows : list row) (scenario : string) (t : float) : res row :=
  match List.find (fun r => (tr_min_hit_ratio r =?. t) && String.eqb (tr_scenario r) scenario) rows with
  | Some r => Ok r
  | None => Err StopIteration
  end.
(** The two plotted lines of a scenario: without and with the boundary. *)
Definition plotted (rows : list row) (thresholds : list float) (scenario : string) : res (list float * list float) :=
  picked <-! res_map (row_at rows scenario) thresholds ;;
  Ok (map tr_baseline_rps picked, map tr_dual_rps picked).
End thresholds.

Example default_range : frange 20 (dec 65 (-2)) (dec 82 (-2)) (dec 1 (-2)) =
  Some (Ok (map (fun k => dec k (-2)) (map Z.of_nat (seq 65 18)))).
Proof. vm_compute. reflexivity. Qed.

(** ** Properties *)

(** A step that is absorbed keeps the scan going for ever. *)
Lemma frange_stuck x limit step : (x <=?. limit) = true -> x ⊕ step = x -> forall fuel, _frange fuel x limit step = None.
Proof. intros Hx Hs fuel. induction fuel as [|n IH]; simpl; rewrite Hx; [done|]. by rewrite Hs, IH. Qed.
Example zero_step_hangs fuel : frange fuel (dec 65 (-2)) (dec 82 (-2)) f0 = None.
Proof. apply frange_stuck; vm_compute; reflexivity. Qed.

(** A demand [m1] that is met whenever [m2] is. *)
Definition weaker (m1 m2 : option float) : Prop :=
  match m1, m2 with
  | None, _ => True
  | Some a, Some b => fleb a b = true
  | Some _, None => False
  end.
Definition same_run (a b : Policy.row) : Prop :=
  rw_req_s a = rw_req_s b /\ rw_quality a = rw_quality b /\ rw_source a = rw_source b /\
  rw_check a = rw_check b /\ rw_evidence a = rw_evidence b.

(** The demanded ratio changes whether a run passes and nothing else about it. *)
Lemma run_row_weaker slo msr m1 m2 entry r2 : weaker m1 m2 -> run_row slo msr m2 entry = Ok r2 ->
  exists r1, run_row slo msr m1 entry = Ok r1 /\ same_run r1 r2 /\ (rw_passed r2 = true -> rw_passed r1 = true).
Proof.
  intros Hw. unfold run_row. intros H. inv_ok H.
  repeat match type of H with context [match ?p with (_, _) => _ end] => destruct p end.
  inv_ok H. subst r2.
  eexists. split; [reflexivity|]. split; [by repeat split|]. cbn. intros Hp.
  apply andb_prop in Hp as [-> Hp]. cbn. destruct m1 as [t1|]; [|done]. destruct m2 as [t2|]; [|done].
  apply andb_prop in Hp as [-> Hp]. cbn.
  match type of Hp with match ?h with _ => _ end = _ => destruct h end; [|done]. by eapply fleb_trans.
Qed.
Lemma run_rows_weaker slo msr m1 m2 runs rows2 : weaker m1 m2 -> res_map (run_row slo msr m2) runs = Ok rows2 ->
  exists rows1, res_map (run_row slo msr m1) runs = Ok rows1 /\
    Forall2 (fun r1 r2 => same_run r1 r2 /\ (rw_passed r2 = true -> rw_passed r1 = true)) rows1 rows2.
Proof.
  intros Hw. revert rows2. induction runs as [|e runs IH]; cbn [res_map]; intros rows2 H.
  - injection H as <-. exists []. by split; [|constructor].
  - inv_ok H. subst rows2. destruct (IH _ eq_refl) as (rows1 & -> & Hf).
    destruct (run_row_weaker _ _ _ _ _ _ Hw E) as (r1 & -> & Hr). exists (r1 :: rows1). split; [done|]. by constructor.
Qed.
Lemma same_labels (R : Policy.row -> Policy.row -> Prop) rows1 rows2 :
  (forall a b, R a b -> same_run a b) -> Forall2 R rows1 rows2 ->
  map rw_req_s rows1 = map rw_req_s rows2 /\ map rw_quality rows1 = map rw_quality rows2 /\
  map rw_source rows1 = map rw_source rows2 /\
  map rw_check rows1 = map rw_check rows2 /\ map rw_evidence rows1 = map rw_evidence rows2.
Proof.
  intros HR. induction 1 as [|a b l m Hab _ (? & ? & ? & ? & ?)]; [done|].
  destruct (HR _ _ Hab) as (? & ? & ? & ? & ?). simpl. split_and!; congruence.
Qed.

(** A recommendation is the rate and what the labels of the rows say. *)
Lemma recommend_shape slo msr mhr sf runs rec : recommend_runs slo msr mhr sf runs = Ok rec ->
  exists rows rps rest, res_map (run_row slo msr mhr) runs = Ok rows /\ recommended_rps sf rows = Ok rps /\
    rec = ("recommended_rps"%string, VFloat rps) :: rest /\
    forall mhr' rows' rps', res_map (run_row slo msr mhr') runs = Ok rows' -> recommended_rps sf rows' = Ok rps' ->
      map rw_quality rows' = map rw_quality rows -> map rw_source rows' = map rw_source rows ->
      map rw_check rows' = map rw_check rows -> map rw_evidence rows' = map rw_evidence rows ->
      recommend_runs slo msr mhr' sf runs = Ok (("recommended_rps"%string, VFloat rps') :: rest).
Proof.
  unfold recommend_runs at 1. intros H.
  destruct (res_map (run_row slo msr mhr) runs) as [rows|] eqn:Hrows; [|discriminate H].
  destruct (recommended_rps sf rows) as [rps|] eqn:Hrps; [|discriminate H]. cbv zeta in H.
  destruct (fraction _ _) as [fr|] eqn:Hfr; [|discriminate H]. injection H as <-.
  exists rows, rps. eexists. split; [reflexivity|]. split; [exact Hrps|]. split; [reflexivity|].
  intros mhr' rows' rps' Hrows' Hrps' Hq Hs Hc He.
  unfold recommend_runs. rewrite Hrows', Hrps'. cbv zeta. rewrite Hq, Hs, Hc, He, Hfr. reflexivity.
Qed.

Lemma recommended_ok sf rows : is_ok (recommended_rps sf rows) = true.
Proof. unfold recommended_rps. by destruct (passed rows). Qed.

(** Demanding less never loses: the rest of the recommendation is the same, and the
    rate comes from a run at least as fast. *)
Lemma recommend_weaker slo msr m1 m2 sf runs rec2 : weaker m1 m2 ->
  recommend_runs slo msr m2 sf runs = Ok rec2 ->
  exists rps1 rps2 rest, recommend_runs slo msr m1 sf runs = Ok (("recommended_rps"%string, VFloat rps1) :: rest) /\
    rec2 = ("recommended_rps"%string, VFloat rps2) :: rest /\
    (rps2 = f0 \/ exists best1 best2 rows, res_map (run_row slo msr m2) runs = Ok rows /\
       rps1 = best1 ⊗ sf /\ rps2 = best2 ⊗ sf /\ best2 ∈ map rw_req_s rows /\
       (Forall (fun r => is_nan (rw_req_s r) = false) rows -> fleb best2 best1 = true)).
Proof.
  intros Hw H2. apply recommend_shape in H2 as (rows2 & rps2 & rest & Hrows2 & Hrps2 & -> & Hsame).
  destruct (run_rows_weaker _ _ _ _ _ _ Hw Hrows2) as (rows1 & Hrows1 & Hf).
  destruct (same_labels _ _ _ (fun a b H => proj1 H) Hf) as (Hreq & Hq & Hs & Hc & He).
  pose proof (recommended_ok sf rows1) as Hok.
  destruct (recommended_rps sf rows1) as [rps1|] eqn:Hrps1; [|discriminate Hok]. clear Hok.
  exists rps1, rps2, rest. split; [by eapply Hsame|]. split; [done|].
  unfold recommended_rps in Hrps1, Hrps2.
  destruct (passed rows2) as [|x2 l2] eqn:Hp2; [left; by injection Hrps2 as <-|]. right.
  assert (Hsub : forall x, x ∈ passed rows2 -> x ∈ passed rows1).
  { intros x. rewrite !passed_elem. intros (r2 & Hin & Hp & Hx).
    apply list_elem_of_lookup in Hin as [i Hi]. destruct (Forall2_lookup_r _ _ _ _ _ Hf Hi) as (r1 & Hi1 & [Hsr Hpp]).
    exists r1. split; [by eapply list_elem_of_lookup_2|]. split; [by apply Hpp|]. destruct Hsr as [-> _]. done. }
  destruct (passed rows1) as [|x1 l1] eqn:Hp1.
  { exfalso. specialize (Hsub x2). rewrite Hp2 in Hsub. specialize (Hsub (list_elem_of_here _ _)). set_solver. }
  simpl in Hrps1, Hrps2. injection Hrps1 as <-. injection Hrps2 as <-.
  exists (fmax_from x1 l1), (fmax_from x2 l2), rows2. split_and!; [done..| |].
  - pose proof (fmax_from_elem x2 l2) as Hin. rewrite <- Hp2 in Hin. apply passed_elem in Hin as (r & Hr & _ & <-).
    by apply list_elem_of_In, in_map, list_elem_of_In.
  - intros Hnan. rewrite Forall_forall in Hnan.
    assert (Hall : forall x, x ∈ x1 :: l1 -> is_nan x = false).
    { intros x Hx. rewrite <- Hp1 in Hx. apply passed_elem in Hx as (r & Hr & _ & <-).
      assert (Hin : rw_req_s r ∈ map rw_req_s rows2) by (rewrite <- Hreq; by apply list_elem_of_In, in_map, list_elem_of_In).
      apply list_elem_of_In, in_map_iff in Hin as (r2 & <- & Hr2). apply Hnan. by apply list_elem_of_In. }
    apply fmax_from_ge; [apply Hall; by left|apply Forall_forall; intros y Hy; apply Hall; by right|].
    apply Hsub. rewrite Hp2. apply fmax_from_elem.
Qed.

Section curve_facts.
Context (slo msr sf : float) (doc : val).

Lemma threshold_row_shape t s r : threshold_row slo msr sf doc (t, s) = Ok r ->
  exists runs baseline dual rest, scenario_runs doc s = Ok runs /\
    tr_min_hit_ratio r = t /\ tr_scenario r = s /\
    recommend slo msr sf None runs = Ok (("recommended_rps"%string, VFloat baseline) :: rest) /\
    recommend slo msr sf (Some t) runs = Ok (("recommended_rps"%string, VFloat dual) :: rest) /\
    py_round 6 baseline = Ok (tr_baseline_rps r) /\ py_round 6 dual = Ok (tr_dual_rps r) /\
    copied (("recommended_rps"%string, VFloat baseline) :: rest) curve_fields = Ok (tr_fields r).
Proof.
  unfold threshold_row, recommend. cbn [fst snd]. intros H.
  destruct (scenario_runs doc s) as [runs|] eqn:Eruns; [|discriminate H].
  destruct (recommend_runs slo msr None sf runs) as [rec1|] eqn:E1; [|discriminate H].
  destruct (recommend_runs slo msr (Some t) sf runs) as [rec2|] eqn:E2; [|discriminate H].
  destruct (recommend_weaker _ _ None (Some t) _ _ _ I E2) as (b & d & rest & Hb & -> & _).
  rewrite E1 in Hb. injection Hb as ->. cbn [float_item vitem dget String.eqb] in H.
  unfold float_item in H. simpl vitem in H. simpl float_of_val in H. cbn match in H.
  inv_ok H. subst r. exists runs, b, d, rest. cbn. split_and!; try done.
  all: injection E as <-; injection E0 as <-; done.
Qed.

(** Equal thresholds demand the same of a run, and of no threshold do the copied fields
    or the baseline depend. *)
Lemma run_row_same_threshold t t' entry : (forall h, fleb t h = fleb t' h) ->
  run_row slo msr (Some t) entry = run_row slo msr (Some t') entry.
Proof. intros H. unfold run_row. repeat (case_match; try done; simplify_eq). all: by rewrite ?H. Qed.
Lemma feqb_fleb_l t t' h : feqb t t' = true -> fleb t h = fleb t' h.
Proof.
  intros He. assert (He' : feqb t' t = true).
  { destruct (fleb_not_nan _ _ (feqb_fleb _ _ He)) as [? ?]. apply feqb_spec in He; [|done..]. by apply feqb_spec. }
  apply eq_true_iff_eq. split; intros H.
  - apply (fleb_trans _ t); [by apply feqb_fleb|done].
  - apply (fleb_trans _ t'); [by apply feqb_fleb|done].
Qed.

Lemma threshold_row_same t t' s r r' : (forall h, fleb t h = fleb t' h) ->
  threshold_row slo msr sf doc (t, s) = Ok r -> threshold_row slo msr sf doc (t', s) = Ok r' ->
  tr_baseline_rps r = tr_baseline_rps r' /\ tr_dual_rps r = tr_dual_rps r'.
Proof.
  intros Ht H H'. apply threshold_row_shape in H as (runs & b & d & rest & Hr & _ & _ & Hb & Hd & Rb & Rd & _).
  apply threshold_row_shape in H' as (runs' & b' & d' & rest' & Hr' & _ & _ & Hb' & Hd' & Rb' & Rd' & _).
  assert (runs' = runs) by congruence. subst runs'. split; [congruence|].
  assert (Hrec : recommend slo msr sf (Some t) runs = recommend slo msr sf (Some t') runs); [|congruence].
  unfold recommend, recommend_runs. rewrite (res_map_ext _ (run_row slo msr (Some t'))); [done|].
  intros e _. by apply run_row_same_threshold.
Qed.

(** The rates of a scenario's runs are numbers. *)
Definition rates_are_numbers (scenario : string) : Prop := forall runs rows,
  scenario_runs doc scenario = Ok runs -> res_map (run_row slo msr None) runs = Ok rows ->
  Forall (fun r => is_nan (rw_req_s r) = false) rows.

(** Two cells of a scenario: the boundary rate of the smaller threshold is at least the
    other one's, before the safety factor and the rounding. *)
Lemma threshold_row_weaker t t' s r r' : fleb t t' = true -> rates_are_numbers s ->
  threshold_row slo msr sf doc (t, s) = Ok r -> threshold_row slo msr sf doc (t', s) = Ok r' ->
  tr_dual_rps r' = f0 \/ exists best best', fleb best' best = true /\
    py_round 6 (best ⊗ sf) = Ok (tr_dual_rps r) /\ py_round 6 (best' ⊗ sf) = Ok (tr_dual_rps r').
Proof.
  intros Ht Hnan H H'. apply threshold_row_shape in H as (runs & b & d & rest & Hr & _ & _ & _ & Hd & _ & Rd & _).
  apply threshold_row_shape in H' as (runs' & b' & d' & rest' & Hr' & _ & _ & _ & Hd' & _ & Rd' & _).
  assert (runs' = runs) by congruence. subst runs'.
  destruct (recommend_weaker slo msr (Some t) (Some t') sf runs _ Ht Hd') as (d1 & d2 & rest1 & H1 & H2 & Hbest).
  unfold recommend in Hd. rewrite Hd in H1. injection H1 as -> ->. injection H2 as -> _.
  destruct Hbest as [->|(best & best' & rows & Hrows & -> & -> & _ & Hle)].
  - left. assert (Hz : py_round 6 f0 = Ok f0) by (vm_compute; reflexivity). congruence.
  - right. exists best, best'. split_and!; [|done..]. apply Hle.
    destruct (run_rows_weaker _ _ None (Some t') _ _ I Hrows) as (rows0 & Hrows0 & Hf).
    specialize (Hnan _ _ Hr Hrows0). clear -Hf Hnan.
    induction Hf as [|r0 r1 l0 l1 [(Hq & _) _] _ IH]; [constructor|]. apply Forall_cons in Hnan as [? ?].
    constructor; [by rewrite <- Hq|by apply IH].
Qed.

Lemma copied_keys from fields d : copied from fields = Ok d -> dkeys d = map fst fields.
Proof.
  unfold copied. revert d. induction fields as [|kr fields IH]; cbn [res_map]; intros d H; [by injection H as <-|].
  inv_ok H. subst d. simpl. inv_ok E; subst. cbn. f_equal. by apply IH.
Qed.
Lemma copied_curve_rest x y rest : copied (("recommended_rps"%string, VFloat x) :: rest) curve_fields =
  copied (("recommended_rps"%string, VFloat y) :: rest) curve_fields.
Proof. reflexivity. Qed.
End curve_facts.

Lemma cells_cons t ts : cells (t :: ts) = (t, "low_reuse"%string) :: (t, "high_reuse"%string) :: cells ts.
Proof. reflexivity. Qed.

Definition of_scenario (s : string) (rows : list row) : list row := List.filter (fun r => String.eqb (tr_scenario r) s) rows.

(** The rows of a scenario are those of its cells, one per threshold. *)
Lemma rows_of_scenario slo msr sf doc thresholds rows s : threshold_rows slo msr sf doc thresholds = Ok rows ->
  s ∈ SCENARIOS -> Forall2 (fun t r => threshold_row slo msr sf doc (t, s) = Ok r) thresholds (of_scenario s rows).
Proof.
  intros H Hs. revert rows H. induction thresholds as [|t ts IH]; intros rows H.
  - injection H as <-. constructor.
  - unfold threshold_rows in H. rewrite cells_cons in H. cbn [res_map] in H. inv_ok H. subst rows.
    inv_ok E0. subst.
    pose proof (threshold_row_shape _ _ _ _ _ _ _ E) as (_ & _ & _ & _ & _ & _ & Hlow & _).
    pose proof (threshold_row_shape _ _ _ _ _ _ _ E1) as (_ & _ & _ & _ & _ & _ & Hhigh & _).
    specialize (IH _ E2). unfold of_scenario in *. cbn [List.filter]. rewrite Hlow, Hhigh.
    unfold SCENARIOS in Hs. rewrite !elem_of_cons, elem_of_nil in Hs.
    destruct Hs as [->|[->|[]]]; cbn; by constructor.
Qed.
Lemma row_at_own slo msr sf doc thresholds rows s t r : threshold_rows slo msr sf doc thresholds = Ok rows ->
  r ∈ rows -> threshold_row slo msr sf doc (t, s) = Ok r -> is_nan t = false ->
  exists r', row_at rows s t = Ok r' /\ tr_baseline_rps r' = tr_baseline_rps r /\ tr_dual_rps r' = tr_dual_rps r.
Proof.
  intros H Hin Hr Ht. pose proof (threshold_row_shape _ _ _ _ _ _ _ Hr) as (_ & _ & _ & _ & _ & Hrt & Hrs & _).
  unfold row_at. destruct (List.find _ rows) as [r'|] eqn:E.
  - exists r'. split; [done|]. apply find_some_elem in E as [Hin' Heq]. apply andb_prop in Heq as [Heq Hs'].
    apply String.eqb_eq in Hs'. apply res_map_Forall2 in H.
    apply list_elem_of_lookup in Hin' as [i Hi]. destruct (Forall2_lookup_r _ _ _ _ _ H Hi) as ([t' s'] & _ & Hr').
    pose proof (threshold_row_shape _ _ _ _ _ _ _ Hr') as (_ & _ & _ & _ & _ & Ht' & Hs'' & _).
    rewrite Hs' in Hs''. subst s'. rewrite Ht' in Heq.
    apply (threshold_row_same slo msr sf doc t' t s r' r); [|exact Hr'|exact Hr]. intros h. by apply feqb_fleb_l.
  - exfalso. apply list_elem_of_In in Hin. pose proof (find_none _ _ E _ Hin) as Hn. cbn in Hn.
    rewrite Hrt, Hrs, String.eqb_refl, feqb_refl in Hn by done. discriminate Hn.
Qed.

(** The threshold curve.  It has one row per demanded ratio and scenario, with the
    columns of the CSV file; the rows of a scenario agree on the rate without the
    boundary and on the quality of the evidence; raising the demanded ratio never helps:
    the rate with the boundary drops to zero, or is the safety factor times the rate of
    a run that is no faster; and every point of the plotted lines is the row of its own
    threshold, although it is looked up by value. *)
Theorem threshold_curve slo msr sf doc thresholds rows :
  threshold_rows slo msr sf doc thresholds = Ok rows ->
  map (fun r => (tr_min_hit_ratio r, tr_scenario r)) rows = cells thresholds /\
  Forall (fun r => dkeys (row_dict r) = csv_fieldnames) rows /\
  (forall a b, a ∈ rows -> b ∈ rows -> tr_scenario a = tr_scenario b ->
     tr_baseline_rps a = tr_baseline_rps b /\ tr_fields a = tr_fields b /\
     (fleb (tr_min_hit_ratio a) (tr_min_hit_ratio b) = true -> rates_are_numbers slo msr doc (tr_scenario a) ->
        tr_dual_rps b = f0 \/ exists best_a best_b, fleb best_b best_a = true /\
          py_round 6 (best_a ⊗ sf) = Ok (tr_dual_rps a) /\ py_round 6 (best_b ⊗ sf) = Ok (tr_dual_rps b))) /\
  (Forall (fun t => is_nan t = false) thresholds -> forall s, s ∈ SCENARIOS ->
     plotted rows thresholds s = Ok (map tr_baseline_rps (of_scenario s rows), map tr_dual_rps (of_scenario s rows))).
Proof.
  intros H. pose proof H as Hf. apply res_map_Forall2 in Hf. split_and!.
  - clear H. induction Hf as [|[t s] r l l' Hr _ IH]; [done|]. simpl. rewrite IH. f_equal.
    by apply threshold_row_shape in Hr as (_ & _ & _ & _ & _ & -> & -> & _).
  - clear H. induction Hf as [|[t s] r l l' Hr _ IH]; constructor; [|done].
    apply threshold_row_shape in Hr as (? & ? & ? & ? & _ & _ & _ & _ & _ & _ & _ & Hc).
    apply copied_keys in Hc. unfold row_dict, dkeys in *. rewrite map_app, Hc. reflexivity.
  - intros a b Ha Hb Hs. apply list_elem_of_lookup in Ha as [i Hi]. apply list_elem_of_lookup in Hb as [j Hj].
    destruct (Forall2_lookup_r _ _ _ _ _ Hf Hi) as ([t s] & _ & Hra).
    destruct (Forall2_lookup_r _ _ _ _ _ Hf Hj) as ([t' s'] & _ & Hrb).
    pose proof (threshold_row_shape _ _ _ _ _ _ _ Hra) as (runs & b1 & d1 & rest & Hr & Ht & Hsa & Hb1 & _ & Rb & _ & Hc).
    pose proof (threshold_row_shape _ _ _ _ _ _ _ Hrb) as (runs' & b2 & d2 & rest' & Hr' & Ht' & Hsb & Hb2 & _ & Rb' & _ & Hc').
    rewrite <- Hs, Hsa in Hsb. subst s'. assert (runs' = runs) by congruence. subst runs'.
    rewrite Hb1 in Hb2. injection Hb2 as <- <-. split_and!; [congruence..|].
    rewrite Ht, Ht', Hsa. intros Hle Hnan. by apply (threshold_row_weaker slo msr sf doc t t' s).
  - intros Hnan s Hs. pose proof (rows_of_scenario _ _ _ _ _ _ _ H Hs) as Hown. unfold plotted.
    assert (Hpick : exists picked, res_map (row_at rows s) thresholds = Ok picked /\
      map tr_baseline_rps picked = map tr_baseline_rps (of_scenario s rows) /\
      map tr_dual_rps picked = map tr_dual_rps (of_scenario s rows)).
    { assert (Hsub : forall r, r ∈ of_scenario s rows -> r ∈ rows) by (intros r Hr; by apply elem_of_filterb in Hr as [? _]).
      pose proof (fun t r => row_at_own _ _ _ _ _ _ s t r H) as Hat.
      revert Hsub Hnan. clear Hf H. induction Hown as [|t r ts rs Hr _ IH]; intros Hsub Hnan; [by exists []|].
      apply Forall_cons in Hnan as [Ht Hnan].
      destruct IH as (picked & Hp & Hb & Hd); [intros x Hx; apply Hsub; by right|done|].
      destruct (Hat _ _ ltac:(apply Hsub; by left) Hr Ht) as (r' & Hr' & Hb' & Hd').
      exists (r' :: picked). cbn [res_map map]. rewrite Hr', Hp. split_and!; congruence. }
    destruct Hpick as (picked & -> & <- & <-). reflexivity.
Qed.

Definition demo_doc : val :=
  VDict [("runs", VDict [("low_reuse", VList [VDict (example_run 4 900)]);
                         ("high_reuse", VList [VDict (example_run 9 900); VDict (example_run 12 2000)])])]%string.
Definition demo_thresholds : list float := [dec 4 (-1); dec 6 (-1)].
Lemma threshold_curve_witness : exists rows,
  threshold_rows (dec 1500 0) (dec 9 (-1)) (dec 8 (-1)) demo_doc demo_thresholds = Ok rows /\
  plotted rows demo_thresholds "high_reuse" = Ok ([dec 72 (-1); dec 72 (-1)], [dec 72 (-1); f0]).
Proof.
  destruct (threshold_rows (dec 1500 0) (dec 9 (-1)) (dec 8 (-1)) demo_doc demo_thresholds) as [rows|] eqn:E;
    [|vm_compute in E; discriminate E].
  exists rows. split; [reflexivity|].
  destruct (threshold_curve _ _ _ _ _ _ E) as (_ & _ & _ & Hplot).
  rewrite (Hplot ltac:(repeat constructor) "high_reuse"%string ltac:(right; left)).
  vm_compute in E. injection E as <-. vm_compute. reflexivity.
Defined.
