(* ===== verification/Figures.v ===== *)
(** * Figures and tables (scripts/run_capacity_sweep.py, scripts/plot_threshold_curve.py)

    What the two scripts hand to matplotlib, and the CSV table of the threshold curve.
    Texts are UTF-8 here: they are only passed on. *)

From S2P Require Import Prelude PyFloat PyStr PyVal PyPath Disk WindowMetrics Policy Sweep Threshold.

Definition floats (l : list float) : list val := map VFloat l.
Definition ints (l : list Z) : list val := map VInt l.

(** ** The ranking of a sweep *)

(** A single point of the ranking, marked. *)
Definition marked_point (o : option rank) (color marker : string) (size zorder : Z) (label : string) : list artist :=
  match o with
  | None => []
  | Some r => [Scatter (ints [rk_concurrency r]) (floats [rk_req_s_mean r])
      [("color", VStr color); ("marker", VStr marker); ("s", VInt size); ("label", VStr label); ("zorder", VInt zorder)]%string]
  end.
Definition ranking_axes (scenario : string) (data : series) : axes :=
  {| ax_artists :=
       Line (ints (sr_x data)) (floats (sr_y data)) ""
         [("color", VStr "#1f77b4"); ("linewidth", VFloat (dec 15 (-1))); ("marker", VStr "o"); ("label", VStr "req/s mean")]%string
       :: marked_point (sr_highest data) "#2ca02c" "s" 90 3 "highest feasible"
       ++ marked_point (sr_best_safe data) "#d62728" "*" 180 4 "best safe";
     ax_title := scenario; ax_xlabel := "concurrency"; ax_ylabel := ""; ax_xticks := Some (ints (sr_x data)); ax_legend := true |}.
(** [axes_list[0].set_ylabel(...)] *)
Definition label_first (label : string) (l : list axes) : list axes :=
  match l with
  | [] => []
  | x :: l' => {| ax_artists := ax_artists x; ax_title := ax_title x; ax_xlabel := ax_xlabel x; ax_ylabel := label;
                  ax_xticks := ax_xticks x; ax_legend := ax_legend x |} :: l'
  end.
(** There is at least one panel, and [zip(..., strict=True)] pairs the panels with the scenarios. *)
Definition capacity_figure (by_scenario : list (string * ranking)) : res figure :=
  let plotted := _build_plot_series by_scenario in
  let panels := Z.max 1 (zlen plotted) in
  raise_if negb (panels =? zlen plotted) with ValueError "zip() argument 2 is shorter than argument 1" ;;
  Ok {| fg_width := of_Z (6 * panels); fg_height := dec 48 (-1); fg_sharey := true;
        fg_axes := label_first "req/s mean" (map (fun ks : string * series => ranking_axes ks.1 ks.2) plotted);
        fg_suptitle := "Capacity Sweep Ranking: feasible vs best safe"; fg_font := "" |}.
(** [_plot_capacity_ranking] *)
Definition plot_capacity_ranking (disk : Disk) (by_scenario : list (string * ranking)) (out_png : string) : D unit :=
  f <~ st_lift (capacity_figure by_scenario) ;; make_parent disk out_png ;;; save_figure disk (path_str out_png) f.

(** ** The CSV table *)

(** The excel dialect: a field is quoted when it has to be, rows end in CR LF. *)
Definition csv_field (s : string) : string :=
  if existsb (fun c => Ascii.eqb c "," || Ascii.eqb c (chr 34) || Ascii.eqb c (chr 13) || Ascii.eqb c (chr 10)) (chars s)
  then str ([chr 34] ++ mjoin (map (fun c => if Ascii.eqb c (chr 34) then [c; c] else [c]) (chars s)) ++ [chr 34])
  else s.
Definition csv_value (v : val) : string := match v with VNone => "" | _ => py_str v end.
Definition csv_line (fields : list string) : string := join "," (map csv_field fields) +:+ str [chr 13; chr 10].
(** [DictWriter]: the header, then the values of the columns. *)
Definition csv_table (fieldnames : list string) (rows : list dict) : string :=
  join "" (csv_line fieldnames :: map (fun r => csv_line (map (fun k => csv_value (dget_or r k (VStr ""))) fieldnames)) rows).

Example csv_known : csv_table ["a"; "b"] [[("b", VStr "x,y"); ("a", VFloat (dec 5 (-1)))]; [("a", VBool true)]] =
  str (chars "a,b" ++ [chr 13; chr 10] ++ chars "0.5," ++ [chr 34] ++ chars "x,y" ++ [chr 34; chr 13; chr 10]
       ++ chars "True," ++ [chr 13; chr 10]).
Proof. vm_compute. reflexivity. Qed.

(** ** The threshold curve *)

(** The lines of a scenario: dashed without the boundary, solid with it. *)
Definition scenario_lines (thresholds : list float) (s : list float * list float) (baseline dual : string) : list artist :=
  [Line (floats thresholds) (floats s.1) "--" [("label"%string, VStr baseline)];
   Line (floats thresholds) (floats s.2) "-" [("label"%string, VStr dual)]].
Record labels := {
  lb_low_baseline : string; lb_low_dual : string; lb_high_baseline : string; lb_high_dual : string;
  lb_xlabel : string; lb_ylabel : string; lb_title : string;
  lb_baseline : string; lb_dual : string; lb_low : string; lb_high : string;
  lb_split_xlabel : string; lb_split_title : string
}.
Definition english : labels := {|
  lb_low_baseline := "low baseline"; lb_low_dual := "low dual"; lb_high_baseline := "high baseline"; lb_high_dual := "high dual";
  lb_xlabel := "min_hit_ratio"; lb_ylabel := "recommended_rps"; lb_title := "Threshold vs Recommended RPS (baseline vs dual)";
  lb_baseline := "baseline"; lb_dual := "dual"; lb_low := "Low Reuse"; lb_high := "High Reuse";
  lb_split_xlabel := "min_hit_ratio"; lb_split_title := "Threshold vs Recommended RPS (split by scenario)" |}.
Definition chinese : labels := {|
  lb_low_baseline := "低复用 基线"; lb_low_dual := "低复用 双边界"; lb_high_baseline := "高复用 基线"; lb_high_dual := "高复用 双边界";
  lb_xlabel := "最小命中率阈值（min_hit_ratio）"; lb_ylabel := "推荐 RPS"; lb_title := "阈值-推荐RPS曲线（基线 vs 双边界）";
  lb_baseline := "基线"; lb_dual := "双边界"; lb_low := "低复用场景"; lb_high := "高复用场景";
  lb_split_xlabel := "最小命中率阈值"; lb_split_title := "阈值-推荐RPS双子图" |}.

Section curve.
Context (thresholds : list float) (low high : list float * list float) (lb : labels) (font : string).
(** All lines in one panel. *)
Definition curve_figure : figure :=
  {| fg_width := of_Z 10; fg_height := of_Z 6; fg_sharey := false; fg_suptitle := ""; fg_font := font;
     fg_axes := [{| ax_artists := scenario_lines thresholds low (lb_low_baseline lb) (lb_low_dual lb)
                                  ++ scenario_lines thresholds high (lb_high_baseline lb) (lb_high_dual lb);
                    ax_title := lb_title lb; ax_xlabel := lb_xlabel lb; ax_ylabel := lb_ylabel lb; ax_xticks := None;
                    ax_legend := true |}] |}.
(** One panel per scenario. *)
Definition scenario_axes (s : list float * list float) (title : string) : axes :=
  {| ax_artists := scenario_lines thresholds s (lb_baseline lb) (lb_dual lb); ax_title := title;
     ax_xlabel := lb_split_xlabel lb; ax_ylabel := ""; ax_xticks := None; ax_legend := true |}.
Definition split_figure : figure :=
  {| fg_width := of_Z 12; fg_height := of_Z 5; fg_sharey := true; fg_suptitle := lb_split_title lb; fg_font := font;
     fg_axes := label_first (lb_ylabel lb) [scenario_axes low (lb_low lb); scenario_axes high (lb_high lb)] |}.
End curve.

(** [_set_chinese_font]: the first installed font file, or matplotlib's default. *)
Definition CJK_FONTS : list string :=
  ["/usr/share/fonts/opentype/noto/NotoSansCJK-Regular.ttc"; "/usr/share/fonts/truetype/droid/DroidSansFallbackFull.ttf";
   "/usr/share/fonts/truetype/arphic/uming.ttc"; "/usr/share/fonts/truetype/arphic/ukai.ttc"].
Definition _set_chinese_font (exists_ : string -> bool) : string := default "" (List.find exists_ CJK_FONTS).
