(* ===== verification/Artifacts.v ===== *)
(** * The documents of the planner and the benchmarks

    The records that the planner's operations and the benchmarks return, as the JSON
    objects they are written to: the operating envelope, the fitted predictor and its
    validation, the policy evaluation, the cache-fidelity ablation and the gateway matrix.
    Every document has a JSON text. *)

From S2P Require Import Prelude PyFloat FloatOrder FloatRound PyStr PyVal Digest WindowMetrics Calibrator Envelope Journal Percentile Solve Predictor.
From S2P Require TtftValidation PolicyEval CacheFidelity Stream Gateway.

Definition strs (l : list string) : val := VList (map VStr l).

(** ** The operating envelope (planner/operating_envelope.py) *)

Definition item_dict (it : item) : dict :=
  [("scenario", it_scenario it); ("concurrency", VInt (it_concurrency it));
   ("goodput_req_s_mean", opt_float (it_goodput_mean it)); ("goodput_req_s_lcb", opt_float (it_goodput_lcb it));
   ("e2e_p95_ms_mean", opt_float (it_e2e_p95 it)); ("success_rate_mean", opt_float (it_success_rate it));
   ("gpu_seconds_mean", opt_float (it_gpu_seconds it)); ("evidence_quality", it_evidence it);
   ("feasible", VBool (it_feasible it)); ("rejection_reasons", strs (it_reasons it))]%string.
(** [selected = dict(selected)] and its recommended goodput. *)
Definition selected_dict (o : option (item * float)) : val :=
  match o with
  | Some (it, g) => VDict (item_dict it ++ [("recommended_goodput_req_s", VFloat g)]%string)
  | None => VNone
  end.
Definition envelope_dict (slo msr : float) (budget : option float) (sf : float) (e : envelope) : dict :=
  [("schema_version", VStr "kavora-operating-envelope/v1");
   ("constraints", VDict [("e2e_p95_slo_ms", VFloat slo); ("min_success_rate", VFloat msr);
      ("resource_budget_gpu_seconds", opt_float budget); ("safety_factor", VFloat sf)]);
   ("points", VList (map (fun it => VDict (item_dict it)) (env_points e)));
   ("pareto_points", VList (map (fun it => VDict (item_dict it)) (env_pareto e)));
   ("recommendation", selected_dict (env_recommendation e)); ("status", VStr (env_status e));
   ("claim_boundary", VStr claim_boundary)]%string.

(** ** The predictor (planner/ttft_predictor.py) and its validation (planner/ttft_validation.py) *)

Definition fitted_boundary : string :=
  "This explainable linear predictor is fitted from realized outcomes with observed cache reuse. Validation is in-sample and must not be treated as a production generalization result.".
Definition artifact_dict (a : artifact) : dict :=
  let dims := a_dimensions a in
  [("schema_version", VStr SCHEMA_VERSION); ("predictor_version", VStr (a_predictor_version a));
   ("model", VStr (dim_model dims)); ("gpu_type", VStr (dim_gpu_type dims));
   ("backend_engine", VStr (dim_backend_engine dims)); ("backend_version", VStr (dim_backend_version dims));
   ("coefficients", VDict (combine FEATURE_NAMES (map VFloat (a_coefficients a))
                           ++ [("slo_scale_ms", VFloat (a_slo_scale_ms a))]));
   ("validation", VDict [("mae_ms", VFloat (a_mae_ms a)); ("p95_absolute_error_ms", VFloat (a_p95_absolute_error_ms a));
      ("samples", VInt (a_samples a)); ("method", VStr "in_sample_clamped_ridge")]);
   ("data_quality", VDict [("decisions", VInt (a_decisions a)); ("outcomes", VInt (a_outcomes a));
      ("used_samples", VInt (a_samples a)); ("skipped_missing_decision", VInt (a_skipped_missing_decision a));
      ("skipped_missing_observed_cache", VInt (a_skipped_missing_observed_cache a));
      ("skipped_unsuccessful", VInt (a_skipped_unsuccessful a));
      ("skipped_dimension_mismatch", VInt (a_skipped_dimension_mismatch a)); ("skipped_invalid", VInt (a_skipped_invalid a))]);
   ("claim_boundary", VStr fitted_boundary)]%string.

Definition validation_dict (v : TtftValidation.validation) : dict :=
  [("schema_version", VStr "kavora-ttft-validation/v1"); ("predictor_version", TtftValidation.v_predictor_version v);
   ("samples", VInt (TtftValidation.v_samples v)); ("skipped_samples", VInt (TtftValidation.v_skipped_samples v));
   ("mae_ms", VFloat (TtftValidation.v_mae_ms v));
   ("p95_absolute_error_ms", VFloat (TtftValidation.v_p95_absolute_error_ms v));
   ("mean_signed_error_ms", VFloat (TtftValidation.v_mean_signed_error_ms v));
   ("thresholds", VDict [("max_mae_ms", VFloat (TtftValidation.v_max_mae_ms v));
      ("max_p95_absolute_error_ms", VFloat (TtftValidation.v_max_p95_ms v))]);
   ("status", VStr (TtftValidation.v_status v)); ("claim_boundary", VStr TtftValidation.v_claim_boundary)]%string.

(** ** The policy evaluation (planner/policy_evaluation.py) *)

Section evaluation.
Import PolicyEval.

Definition arm_dict (m : arm) : dict :=
  [("requests", VInt (m_requests m)); ("successful_requests", VInt (m_successful m)); ("ttft_samples", VInt (m_ttft_samples m));
   ("ttft_mean_ms", opt_float (m_ttft_mean m)); ("ttft_p95_ms", opt_float (m_ttft_p95 m));
   ("slo_violation_rate", opt_float (m_slo_violation_rate m)); ("slo_qualified_requests", VInt (m_qualified m));
   ("slo_qualified_rate", opt_float (m_qualified_rate m)); ("goodput_req_s", opt_float (m_goodput m));
   ("goodput_definition", VStr (m_goodput_definition m));
   ("qualification_reasons", VDict (map (fun rn : string * Z => (rn.1, VInt rn.2)) (m_reasons m)));
   ("tpot_samples", VInt (m_tpot_samples m)); ("tpot_p95_ms", opt_float (m_tpot_p95 m));
   ("stream_gap_samples", VInt (m_stream_gap_samples m)); ("stream_gap_p95_ms", opt_float (m_stream_gap_p95 m));
   ("throughput_req_s", opt_float (m_throughput m)); ("error_rate", opt_float (m_error_rate m));
   ("fallback_rate", opt_float (m_fallback_rate m)); ("prediction_mae_ms", opt_float (m_prediction_mae m))]%string.
Definition stratum_dict (s : stratum) : val := VDict
  [("stratum", VStr (s_name s)); ("control_requests", VInt (s_control s)); ("treatment_requests", VInt (s_treatment s));
   ("ttft_mean_difference_ms", opt_float (s_difference s)); ("control_slo_violation_rate", opt_float (s_control_violation s));
   ("treatment_slo_violation_rate", opt_float (s_treatment_violation s))]%string.
(** [(a or 0) - (b or 0)] is the integer zero when both fall through. *)
Definition falls_through (o : option float) : bool := match o with Some f => is_zero f | None => true end.
Definition or_zero_difference (a b : option float) (difference : float) : val :=
  if falls_through a && falls_through b then VInt 0 else VFloat difference.
Definition objectives_dict (o : objectives) (measured : list (string * bool)) : dict :=
  [("ttft_ms", VFloat (o_ttft o)); ("tpot_ms", opt_float (o_tpot o)); ("stream_gap_p95_ms", opt_float (o_stream_gap o));
   ("measured_fields", VDict (map (fun kb : string * bool => (kb.1, VBool kb.2)) measured))]%string.

Definition evaluation_dict (r : evaluation) : dict :=
  let d := e_design r in
  let control := e_control r in
  let treatment := e_treatment r in
  [("schema_version", VStr "kavora-policy-evaluation/v1"); ("experiment_id", VStr (experiment_id d));
   ("control_policy", VStr (control_policy d)); ("treatment_policy", VStr (treatment_policy d));
   ("control", VDict (arm_dict control)); ("treatment", VDict (arm_dict treatment));
   ("effect", VDict
     [("ttft_mean_difference_ms", VFloat (e_difference r)); ("ttft_relative_percent", VFloat (e_relative_percent r));
      ("ci95_low_ms", VFloat (e_ci_low r)); ("ci95_high_ms", VFloat (e_ci_high r)); ("ci_method", VStr (e_ci_method r));
      ("slo_violation_delta_percentage_points",
        or_zero_difference (m_slo_violation_rate treatment) (m_slo_violation_rate control) (e_slo_violation_delta r));
      ("goodput_difference_req_s", or_zero_difference (m_goodput treatment) (m_goodput control) (e_goodput_difference r));
      ("goodput_relative_percent", opt_float (e_goodput_relative r))]);
   ("safety", VDict (map (fun kb : string * bool => (kb.1, VStr (pass_fail kb.2))) (e_safety r)));
   ("integrity", VDict
     [("assignment", VStr (pass_fail (e_assignment r))); ("warmup_excluded", VInt (e_warmup_excluded r));
      ("window_balance", VStr (pass_fail (e_window_balance r))); ("joined_outcomes", VInt (e_joined_outcomes r));
      ("contaminated_windows", strs (e_contaminated r))]);
   ("strata", VList (map stratum_dict (e_strata r))); ("promotion_eligible", VBool (e_promotion_eligible r));
   ("verdict", VStr (e_verdict r)); ("claim_boundary", VStr e_claim_boundary);
   ("slo", VDict (objectives_dict (slo d) (e_measured r)))]%string.
End evaluation.

(** ** The cache-fidelity ablation (benchmark/cache_fidelity.py) *)

Section fidelity.
Import CacheFidelity.

(** The integers that Python's arithmetic leaves integers: no lag, no confidence. *)
Definition fidelity_row_dict (r : row) : val := VDict
  [("fidelity", VStr (fi_fidelity r)); ("lag_ms", VInt (fi_lag_ms r)); ("requests", VInt (fi_requests r));
   ("routing_accuracy", VFloat (fi_routing_accuracy r)); ("cache_reuse_ratio", VFloat (fi_cache_reuse_ratio r));
   ("ttft_mean_ms", VFloat (fi_ttft_mean_ms r)); ("throughput_proxy_req_s", VFloat (fi_throughput_proxy_req_s r));
   ("controller_cpu_ns_per_decision", VFloat (fi_cpu_ns_per_decision r));
   ("controller_state_bytes", VInt (fi_state_bytes r));
   ("state_bandwidth_bytes_s", if (fi_lag_ms r =? 0)%Z then VInt 0 else VFloat (fi_state_bandwidth_bytes_s r));
   ("decision_latency_us", VFloat (fi_decision_latency_us r)); ("wrong_affinity_rate", VFloat (fi_wrong_affinity_rate r));
   ("backend_imbalance_cv", VFloat (fi_backend_imbalance_cv r));
   ("decision_reversal_rate", VFloat (fi_decision_reversal_rate r)); ("fallback_rate", VFloat (fi_fallback_rate r));
   ("mean_confidence", if String.eqb (fi_fidelity r) "none" then VInt 0 else VFloat (fi_mean_confidence r))]%string.
Definition fidelity_dict (python : string) (a : artifact) : dict :=
  [("schema_version", VStr "kavora-cache-fidelity/v1"); ("status", VStr "deterministic_trace_ablation");
   ("manifest", VDict [("requests", VInt (af_requests a)); ("backends", VInt (af_backends a)); ("seed", VInt (af_seed a));
      ("lags_ms", VList (map VInt (af_lags_ms a))); ("python", VStr python)]);
   ("results", VList (map fidelity_row_dict (af_results a))); ("claim_boundary", VStr fidelity_claim_boundary)]%string.
End fidelity.

(** ** The gateway matrix (benchmark/gateway_runner.py) *)

Section gateway.
Import Gateway.

Definition path_quantiles (q : quantiles) : val :=
  VDict [("p50", opt_float (q50 q)); ("p95", opt_float (q95 q)); ("p99", opt_float (q99 q))]%string.
Definition path_dict (p : path_result) : val := VDict
  [("path", VStr (pr_path p)); ("url", VStr (pr_url p)); ("stream", VBool (pr_stream p)); ("requests", VInt (pr_requests p));
   ("ok", VInt (pr_ok p)); ("failed", VInt (pr_failed p)); ("error_rate", VFloat (pr_error_rate p));
   ("throughput_req_s", VFloat (pr_throughput_req_s p)); ("latency_ms", path_quantiles (pr_latency_ms p));
   ("ttft_ms", path_quantiles (pr_ttft_ms p)); ("response_bytes_mean", pr_response_bytes_mean p);
   ("sample_errors", strs (pr_sample_errors p)); ("elapsed_s", VFloat (pr_elapsed_s p))]%string.
Definition matrix_dict (m : matrix) : dict :=
  let host := mx_host m in
  [("schema_version", VStr "kavora-stage1-gateway-v1"); ("config_hash", VStr (mx_config_hash m));
   ("configuration", VDict (mx_configuration m));
   ("environment", VDict [("python", VStr (h_python host)); ("platform", VStr (h_platform host)); ("pid", VInt (h_pid host))]);
   ("memory", VDict [("peak_rss_mb", VFloat (h_peak_rss_mb host)); ("semantics", VStr "runner_process_high_water_mark")]);
   ("paths", VList (map path_dict (mx_paths m))); ("phase_attribution", VDict (attribution_dict (mx_phases m)));
   ("generated_at_unix", VFloat (h_time host))]%string.
End gateway.

(** ** Every document has a text *)

Lemma jsonable_strs l : jsonable (strs l) = true.
Proof. by apply jsonable_list. Qed.
#[export] Hint Rewrite jsonable_strs : jsonable.

Lemma item_jsonable it : jsonable (it_scenario it) = true -> jsonable (it_evidence it) = true -> jsonable (VDict (item_dict it)) = true.
Proof. intros H1 H2. unfold item_dict. jsonable_doc. Qed.
Lemma jsonable_numbers names l : forallb (fun kv : string * val => jsonable kv.2) (combine names (map VFloat l)) = true.
Proof. revert l. induction names as [|n names IH]; intros [|x l]; cbn; auto. Qed.
Lemma artifact_jsonable a : jsonable (VDict (artifact_dict a)) = true.
Proof.
  unfold artifact_dict. cbv zeta. jsonable_doc. cbn [jsonable]. by rewrite forallb_app, jsonable_numbers.
Qed.
Lemma validation_jsonable v : jsonable (TtftValidation.v_predictor_version v) = true -> jsonable (VDict (validation_dict v)) = true.
Proof. intros H. unfold validation_dict. jsonable_doc. Qed.
Lemma arm_jsonable m : jsonable (VDict (arm_dict m)) = true.
Proof. unfold arm_dict. jsonable_doc. Qed.
Lemma stratum_jsonable s : jsonable (stratum_dict s) = true.
Proof. unfold stratum_dict. jsonable_doc. Qed.
Lemma or_zero_jsonable a b d : jsonable (or_zero_difference a b d) = true.
Proof. unfold or_zero_difference. by case_match. Qed.
#[export] Hint Rewrite arm_jsonable or_zero_jsonable : jsonable.
Lemma evaluation_jsonable r : jsonable (VDict (evaluation_dict r)) = true.
Proof.
  unfold evaluation_dict, objectives_dict. cbv zeta. jsonable_doc.
  apply jsonable_list. intros s _. apply stratum_jsonable.
Qed.
Lemma fidelity_jsonable python a : jsonable (VDict (fidelity_dict python a)) = true.
Proof.
  unfold fidelity_dict. jsonable_doc. apply jsonable_list. intros r _. unfold fidelity_row_dict.
  destruct (_ =? _), (String.eqb _ _); jsonable_doc.
Qed.

(** The documents that carry values of their input over need an input that is JSON. *)
Definition json_item (it : item) : Prop := jsonable (it_scenario it) = true /\ jsonable (it_evidence it) = true.
Lemma evaluate_point_jsonable slo msr budget point it : jsonable (VDict point) = true ->
  evaluate_point slo msr budget point = Ok it -> json_item it.
Proof.
  intros Hp H. assert (Ha : jsonable (dget_or point "aggregates" (VDict [])) = true) by (by apply jsonable_dget_or).
  assert (Hq : jsonable (sub_dict (dget_or point "aggregates" (VDict [])) "quality_summary") = true).
  { unfold sub_dict. destruct (dget_or point "aggregates" _); try done. by apply jsonable_dget_or. }
  unfold evaluate_point in H. destruct (_point_goodput point) as [[mean lcb]|]; [|done]. inv_ok H. subst it. split; cbn.
  - by apply jsonable_dget_or.
  - by eapply jsonable_vget; [exact Hq| |eassumption].
Qed.
Lemma points_jsonable document points : jsonable (VDict document) = true ->
  viter (dget_or document "points" (VList [])) = Ok points -> Forall (fun d => jsonable (VDict d) = true) (omap dict_of points).
Proof.
  intros Hd Hp. apply jsonable_viter in Hp; [|by apply jsonable_dget_or]. apply Forall_forall. intros d Hin.
  apply list_elem_of_omap in Hin as (v & Hv & Hdv). rewrite Forall_forall in Hp. destruct v; try done.
  injection Hdv as ->. by apply Hp.
Qed.

(** An operating envelope can be written and rendered. *)
Lemma envelope_written slo msr budget sf document e : jsonable (VDict document) = true ->
  recommend_operating_point slo msr budget sf document = Ok e ->
  jsonable (VDict (envelope_dict slo msr budget sf e)) = true /\ is_ok (render_markdown slo budget e) = true.
Proof.
  intros Hd H. destruct (viter (dget_or document "points" (VList []))) as [points|] eqn:Ep;
    [|unfold recommend_operating_point in H; by rewrite Ep in H].
  destruct (res_map (evaluate_point slo msr budget) (omap dict_of points)) as [its|] eqn:Ei;
    [|unfold recommend_operating_point in H; by rewrite Ep, Ei in H].
  destruct (recommend_unfold slo msr budget sf document points its Ep Ei) as (F & keyed & _ & _ & HgF & HF & Hrec).
  rewrite Hrec in H. injection H as <-. pose proof (feasible_elem _ _ _ _ _ _ Ei HF) as HFelem.
  assert (Hits : Forall json_item its).
  { pose proof (points_jsonable _ _ Hd Ep) as Hpts. apply res_map_Forall2 in Ei.
    apply Forall_forall. intros it [k Hk]%list_elem_of_lookup. destruct (Forall2_lookup_r _ _ _ _ _ Ei Hk) as (d & Hdk & He).
    rewrite Forall_forall in Hpts. by eapply evaluate_point_jsonable; [apply Hpts; eapply list_elem_of_lookup_2|]. }
  rewrite Forall_forall in Hits.
  assert (HFits : forall it, it ∈ F -> json_item it) by (intros it [Hin _]%HFelem; by apply Hits).
  split.
  - unfold envelope_dict. cbn [env_points env_pareto env_recommendation env_status]. jsonable_doc.
    + apply jsonable_list. intros it Hin. by apply item_jsonable; apply Hits.
    + apply jsonable_list. intros it [Hin _]%elem_of_filterb. by apply item_jsonable; apply HFits.
    + destruct F as [|it F]; [done|]. destruct (HFits it ltac:(by left)) as [H1 H2]. unfold selected_dict, item_dict.
      cbn [app]. jsonable_doc.
  - unfold render_markdown. destruct (res_map_total pareto_line
      (List.filter (fun c => negb (existsb (fun o => domb o c) F)) F)) as [lines El].
    { intros it [Hin _]%elem_of_filterb. pose proof Hin as Hc. apply HFelem in Hc as (_ & _ & (x & Hx & _) & _).
      rewrite Forall_forall in HgF. destruct (HgF it Hin) as (_ & _ & [l Hl]). unfold pareto_line, opt_fixed, need.
      rewrite Hl, Hx. by eexists. }
    cbn [env_pareto]. by rewrite El.
Qed.

Lemma candidate_jsonable c : jsonable (c_scenario c) = true -> jsonable (candidate_dict c) = true.
Proof.
  intros H. unfold candidate_dict. fold (strs (c_rejection_reasons c)).
  destruct (c_mean_rps c); cbn [app]; jsonable_doc.
Qed.
Lemma evaluated_scenario cs ws point threshold c : jsonable (VDict point) = true ->
  _evaluate_candidate cs ws point threshold = Ok c -> jsonable (c_scenario c) = true.
Proof.
  intros Hp H. unfold _evaluate_candidate in H. destruct (viter _) as [runs|]; [|done].
  destruct (res_map _ runs) as [verdicts|]; [|done]. cbv zeta in H.
  destruct (zlen _ =? 0); inv_ok H; subst c; cbn; by apply jsonable_dget_or.
Qed.
(** A calibration can be written. *)
Lemma calibration_written cs ws points thresholds c : Forall (fun d => jsonable (VDict d) = true) points ->
  calibrate cs ws points thresholds = Ok c -> jsonable (VDict (calibration_dict cs ws c)) = true.
Proof.
  intros Hp H. unfold calibrate in H. destruct (res_map _ _) as [cands|] eqn:Ec; [|done].
  assert (Hc : forall c, c ∈ cands -> jsonable (c_scenario c) = true).
  { apply res_map_Forall2 in Ec. intros x [k Hk]%list_elem_of_lookup. destruct (Forall2_lookup_r _ _ _ _ _ Ec Hk) as ([d t] & Hdk & He).
    apply list_elem_of_lookup_2, list_elem_of_join in Hdk as (l & Hd & (d' & -> & Hd')%list_elem_of_fmap).
    apply list_elem_of_fmap in Hd as (t' & [= -> ->] & _). rewrite Forall_forall in Hp.
    by eapply evaluated_scenario; [apply Hp|]. }
  assert (Hm : forall chosen x, x ∈ map (annotate cs chosen) (indexed cands) -> jsonable (candidate_dict x) = true).
  { intros chosen x ([i y] & -> & Hin)%list_elem_of_fmap. apply indexed_elem, list_elem_of_lookup_2, Hc in Hin.
    apply candidate_jsonable. unfold annotate. by repeat case_match. }
  cbv zeta in H. destruct (head (ranked cs cands)) as [[i s]|] eqn:Eh.
  - assert (Hs : jsonable (c_scenario s) = true).
    { rewrite head_lookup in Eh. apply list_elem_of_lookup_2, ranked_elem in Eh as [Hi _]. by eapply Hc, list_elem_of_lookup_2. }
    inv_ok H. subst c. unfold calibration_dict. cbn [cal_recommendation cal_reason cal_status cal_action cal_canary_steps cal_alternatives].
    unfold recommendation_dict. jsonable_doc.
    apply jsonable_list. apply Hm.
  - injection H as <-. unfold calibration_dict. cbn [cal_recommendation cal_reason cal_status cal_action cal_canary_steps cal_alternatives].
    jsonable_doc. apply jsonable_list. apply Hm.
Qed.

(** ** What the fit uses, the validation counts *)

Lemma isfinite_add x y : isfinite (x ⊕ y) = true -> isfinite x = true /\ isfinite y = true.
Proof. destruct x as [| [] | |], y as [| [] | |]; by cbn. Qed.
Lemma isfinite_mul x y : isfinite (x ⊗ y) = true -> isfinite x = true /\ isfinite y = true.
Proof. destruct x, y; by cbn. Qed.

Section agreement.
Context (a : artifact) (Hfive : length (a_coefficients a) = 5%nat).

(** The prediction from the row of a sample. *)
Definition linear (row : list float) : float :=
  match row, a_coefficients a with
  | [_; uncached; cached; queue; pressure], [intercept; u; c; q; k] =>
      intercept ⊕ uncached ⊗ u ⊕ cached ⊗ c ⊕ queue ⊗ q ⊕ pressure ⊗ k
  | _, _ => f0
  end.
Definition fitted_coefficients : val :=
  VDict (combine FEATURE_NAMES (map VFloat (a_coefficients a)) ++ [("slo_scale_ms"%string, VFloat (a_slo_scale_ms a))]).
Definition fitted_dimensions : list (string * val) :=
  let dims := a_dimensions a in
  [("model", VStr (dim_model dims)); ("gpu_type", VStr (dim_gpu_type dims));
   ("backend_engine", VStr (dim_backend_engine dims)); ("backend_version", VStr (dim_backend_version dims))]%string.
Lemma artifact_read : vitem (VDict (artifact_dict a)) "coefficients" = Ok fitted_coefficients /\
  TtftValidation.artifact_dimensions (VDict (artifact_dict a)) = Ok fitted_dimensions.
Proof. by split. Qed.

Lemma predicted_linear prompt matched uncached cached queue pressure :
  float_of_int (prompt - matched) = Ok uncached -> float_of_int matched = Ok cached ->
  TtftValidation.predicted_ms fitted_coefficients prompt matched queue pressure =
  Ok (linear [f1; uncached; cached; queue; pressure]).
Proof.
  intros Hu Hc. unfold TtftValidation.predicted_ms, TtftValidation.int_times, linear, fitted_coefficients.
  destruct (a_coefficients a) as [|i [|u [|c [|q [|k [|]]]]]]; try done.
  cbn [map combine FEATURE_NAMES app vitem dget String.eqb Ascii.eqb Bool.eqb float_of_val]. by rewrite Hu, Hc.
Qed.

(** A dimension matches in the validation exactly when it does in the fit. *)
Lemma py_eq_is_vstr v s : py_eq v (VStr s) = is_vstr v s.
Proof. destruct v; cbn; try done. apply String.eqb_sym. Qed.
Lemma dimensions_agree outcome :
  existsb (fun kv : string * val => negb (py_eq (dgetv outcome kv.1) kv.2)) fitted_dimensions
  = dimension_mismatch (a_dimensions a) outcome.
Proof. unfold fitted_dimensions, dimension_mismatch. cbn [existsb fst snd]. by rewrite !py_eq_is_vstr, orb_false_r, !orb_assoc. Qed.
Lemma truthy_get_false d k : truthy (dget_or d k (VBool false)) = truthy (dgetv d k).
Proof. unfold dgetv, dget_or. destruct (dget d k); reflexivity. Qed.

(** What the validation does with an outcome once its decision and candidate are found. *)
Definition counted (outcome candidate : dict) : res (option (float * float)) :=
  match TtftValidation.observed fitted_coefficients outcome candidate with
  | Err e => if TtftValidation.skipped_error e then Ok None else Err e
  | Ok (prompt, matched, actual, predicted) =>
      if (prompt <=? 0) || (matched <? 0) || (prompt <? matched) || (actual <=?. f0)
         || negb (isfinite actual && isfinite predicted)
      then Ok None else Ok (Some (actual, predicted))
  end.
Lemma held_out_counted (decisions : list (val * dict)) outcome (decision candidate : dict) :
  kget decisions (dgetv outcome "request_id") = Ok (Some decision) -> decision <> [] ->
  _candidate decision (py_str (dget_or outcome "actual_backend" (VStr ""))) = Ok (Some candidate) -> candidate <> [] ->
  truthy (dgetv outcome "success") = true -> dimension_mismatch (a_dimensions a) outcome = false ->
  TtftValidation.held_out fitted_coefficients fitted_dimensions decisions outcome = counted outcome candidate.
Proof.
  intros Hk Hd Hc Hne Hs Hdim. unfold TtftValidation.held_out. rewrite Hk. cbn [default from_option id]. rewrite Hc.
  destruct decision; [done|]. destruct candidate; [done|]. by rewrite Hs, dimensions_agree, Hdim.
Qed.
Lemma held_out_some (decisions : list (val * dict)) outcome target p :
  TtftValidation.held_out fitted_coefficients fitted_dimensions decisions outcome = Ok (Some (target, p)) ->
  exists decision candidate, kget decisions (dgetv outcome "request_id") = Ok (Some decision) /\
    _candidate decision (py_str (dget_or outcome "actual_backend" (VStr ""))) = Ok (Some candidate) /\
    truthy (dgetv outcome "success") = true /\ dimension_mismatch (a_dimensions a) outcome = false /\
    counted outcome candidate = Ok (Some (target, p)).
Proof.
  unfold TtftValidation.held_out. rewrite dimensions_agree. intros H.
  destruct (kget _ _) as [decision|]; [|discriminate H].
  destruct (_candidate _ _) as [candidate|] eqn:Ec; [|discriminate H].
  destruct decision as [[|kv decision]|]; [discriminate H| |discriminate H].
  destruct candidate as [[|kv' candidate]|]; [discriminate H| |discriminate H].
  destruct (truthy _) eqn:Es; [|discriminate H]. cbn [negb orb] in H.
  destruct (dimension_mismatch _ _) eqn:Ed; [discriminate H|].
  do 2 eexists. split; [reflexivity|]. split; [exact Ec|]. by split_and!.
Qed.

Lemma get_item d k v : dgetv d k = v -> v <> VNone -> vitem (VDict d) k = Ok v.
Proof. unfold dgetv, dget_or, vitem. by destruct (dget d k) as [x|] eqn:E; cbn; intros <-. Qed.
Lemma get_or_item d k x v : vitem (VDict d) k = Ok v -> dget_or d k x = v.
Proof. unfold vitem, dget_or. by destruct (dget d k); intros [= ->]. Qed.
Lemma int_or_zero d k z : int_of_val (dget_or d k (VInt 0)) = Ok z -> 0 < z ->
  exists v, vitem (VDict d) k = Ok v /\ int_of_val v = Ok z.
Proof. unfold dget_or, vitem. destruct (dget d k) as [v|]; cbn; [eauto|]. intros [= <-]. lia. Qed.
Lemma float_or_zero_item d k x : float_of_val (dget_or d k (VInt 0)) = Ok x -> fltb f0 x = true ->
  exists v, vitem (VDict d) k = Ok v /\ float_of_val v = Ok x.
Proof. unfold dget_or, vitem. destruct (dget d k) as [v|]; cbn; [eauto|]. by intros [= <-]. Qed.

Lemma observed_coerced outcome candidate prompt matched target queue pressure uncached cached :
  coerced outcome candidate (dgetv outcome "observed_matched_tokens") = Ok (prompt, matched, target, queue, pressure) ->
  0 < prompt -> fltb f0 target = true -> float_of_int (prompt - matched) = Ok uncached -> float_of_int matched = Ok cached ->
  TtftValidation.observed fitted_coefficients outcome candidate =
  Ok (prompt, matched, target, linear [f1; uncached; cached; queue; pressure]).
Proof.
  unfold coerced. intros H Hp Ht Hu Hc. inv_ok H. simplify_eq.
  destruct (int_or_zero _ _ _ E Hp) as (vp & Hvp & Hip). destruct (float_or_zero_item _ _ _ E1 Ht) as (vt & Hvt & Hft).
  assert (Hvm : vitem (VDict outcome) "observed_matched_tokens" = Ok (dgetv outcome "observed_matched_tokens")).
  { apply get_item; [done|]. intros Hn. by rewrite Hn in E0. }
  unfold TtftValidation.observed. rewrite Hvp, Hip, Hvm, E0, Hvt, Hft, E2, E3. by rewrite (predicted_linear _ _ _ _ _ _ Hu Hc).
Qed.

Lemma used_counted dims decisions outcome row target decision candidate prompt matched uncached cached queue pressure :
  reading dims decisions outcome row target decision candidate prompt matched uncached cached queue pressure ->
  counted outcome candidate = Ok (if isfinite (linear row) then Some (target, linear row) else None).
Proof.
  intros [_ _ _ _ Hc [Hp [Hm Hpm]] [Hf Ht] _ [Hu Hca] ->]. unfold counted.
  rewrite (observed_coerced _ _ _ _ _ _ _ _ _ Hc Hp Ht Hu Hca), Hf.
  replace (prompt <=? 0) with false by lia. replace (matched <? 0) with false by lia.
  replace (prompt <? matched) with false by lia. cbn [orb andb].
  assert (Hle : fleb target f0 = false).
  { by apply fltb_fleb_false. }
  rewrite Hle. by destruct (isfinite (linear _)).
Qed.

Lemma predicted_inv prompt matched queue pressure p :
  TtftValidation.predicted_ms fitted_coefficients prompt matched queue pressure = Ok p ->
  exists uncached cached, float_of_int (prompt - matched) = Ok uncached /\ float_of_int matched = Ok cached /\
    p = linear [f1; uncached; cached; queue; pressure].
Proof.
  intros H. pose proof H as H'. unfold TtftValidation.predicted_ms, TtftValidation.int_times in H'.
  destruct (float_of_int (prompt - matched)) as [u|] eqn:Eu; [|by inv_ok H'].
  destruct (float_of_int matched) as [c|] eqn:Ec; [|by inv_ok H'].
  exists u, c. split_and!; [done..|]. rewrite (predicted_linear _ _ _ _ _ _ Eu Ec) in H. by injection H.
Qed.
Lemma linear_finite uncached cached queue pressure : isfinite (linear [f1; uncached; cached; queue; pressure]) = true ->
  isfinite queue = true /\ isfinite pressure = true.
Proof.
  unfold linear. destruct (a_coefficients a) as [|i [|u [|c [|q [|k [|]]]]]]; try done.
  intros [H [Hk _]%isfinite_mul]%isfinite_add. apply isfinite_add in H as [_ [Hq _]%isfinite_mul]. done.
Qed.
Lemma counted_inv outcome candidate target p : counted outcome candidate = Ok (Some (target, p)) ->
  exists prompt matched uncached cached queue pressure,
    coerced outcome candidate (dgetv outcome "observed_matched_tokens") = Ok (prompt, matched, target, queue, pressure) /\
    dgetv outcome "observed_matched_tokens" <> VNone /\ 0 < prompt /\ 0 <= matched <= prompt /\ fleb target f0 = false /\
    isfinite target = true /\ isfinite queue = true /\ isfinite pressure = true /\
    float_of_int (prompt - matched) = Ok uncached /\ float_of_int matched = Ok cached /\
    p = linear [f1; uncached; cached; queue; pressure].
Proof.
  unfold counted. destruct (TtftValidation.observed _ _ _) as [[[[prompt matched] actual] pr]|e] eqn:Eo;
    [|by destruct (TtftValidation.skipped_error e)].
  destruct (_ || negb _) eqn:Eg; [done|]. intros [= <- <-]. bool_hyps.
  unfold TtftValidation.observed in Eo. inv_ok Eo. simplify_eq.
  match goal with HH : TtftValidation.predicted_ms _ _ _ _ _ = Ok _ |- _ => destruct (predicted_inv _ _ _ _ _ HH) as (u & c & Hu & Hc & ->) end.
  match goal with HH : isfinite (linear _) = true |- _ => destruct (linear_finite _ _ _ _ HH) as [Hq Hp] end.
  exists prompt, matched, u, c, a6, a7. unfold coerced.
  rewrite (get_or_item _ _ _ _ E). unfold dgetv. rewrite (get_or_item _ _ _ _ E1), (get_or_item _ _ _ _ E3).
  rewrite E0, E2, E4, E5, E6. split_and!; try done; try lia. intros Hn. by rewrite Hn in E2.
Qed.

Lemma float_of_count n x : 0 <= n -> float_of_int n = Ok x -> isfinite x = true.
Proof.
  intros Hn. unfold float_of_int. destruct (Z.eq_dec n 0) as [->|Hne]; [by intros [= <-]|].
  pose proof (of_Z_ge1 n ltac:(lia)) as H. apply fleb_not_nan in H as [_ H]. by destruct (of_Z n); intros [= <-].
Qed.
Lemma counted_classified dims decisions outcome decision candidate target p s :
  kget decisions (dgetv outcome "request_id") = Ok (Some decision) ->
  _candidate decision (py_str (dget_or outcome "actual_backend" (VStr ""))) = Ok (Some candidate) ->
  truthy (dgetv outcome "success") = true -> dimension_mismatch dims outcome = false ->
  counted outcome candidate = Ok (Some (target, p)) -> classify dims decisions outcome = Ok s ->
  exists row, s = Used row target /\ p = linear row.
Proof.
  intros Hk Hc Hs Hd H. destruct (counted_inv _ _ _ _ H) as (prompt & matched & u & c & q & k & Hco & Hn & Hp & Hm & Ht & Hft & Hfq & Hfk & Hu & Hca & ->).
  unfold classify. rewrite Hk, truthy_get_false, Hs, Hd. cbn [negb].
  intros Hs'. exists [f1; u; c; q; k]. split; [|done].
  assert (E : (infinite <-! res_existsb not_finite [float_of_int prompt; float_of_int matched; Ok target; Ok q; Ok k] ;;
               if infinite : bool then Ok Invalid else Ok (Used [f1; u; c; q; k] target)) = Ok s).
  { revert Hs'. destruct (dgetv outcome "observed_matched_tokens"); [done|..];
      rewrite Hc; cbn [default from_option id]; rewrite Hco;
      (replace (prompt <=? 0) with false by lia); (replace (matched <? 0) with false by lia);
      (replace (prompt <? matched) with false by lia); rewrite Ht, Hu, Hca; cbn [orb]; done. }
  cbn [res_existsb] in E. unfold not_finite in E.
  destruct (float_of_int prompt) as [x|] eqn:Ex; [|done]. rewrite Hca in E.
  rewrite (float_of_count prompt x ltac:(lia) Ex), (float_of_count matched c ltac:(lia) Hca), Hft, Hfq, Hfk in E. by injection E.
Qed.
End agreement.

Lemma decision_nonempty decision b c : _candidate decision b = Ok (Some c) -> decision <> [] /\ c <> [].
Proof. intros H. split; [by intros ->|]. apply candidate_backend in H. by intros ->. Qed.

(** C23: The fit and its validation agree on what a sample is.  The validation can read
    every artifact the fit writes; an outcome that the fit would use is counted by the
    validation, with its observed time and the prediction of the artifact's coefficients,
    unless that prediction is not finite; and whatever the validation counts, the fit
    would use (if it does not fail on that outcome). *)
Theorem fit_validation_agree dims json_loads decision_files outcome_files ridge a decisions outcome s :
  fit_from_journal dims json_loads decision_files outcome_files ridge = Ok a -> classify dims decisions outcome = Ok s ->
  exists coefficients dimensions, vitem (VDict (artifact_dict a)) "coefficients" = Ok coefficients /\
    TtftValidation.artifact_dimensions (VDict (artifact_dict a)) = Ok dimensions /\
    let checked := TtftValidation.held_out coefficients dimensions decisions outcome in
    (forall row target, s = Used row target ->
       checked = Ok (if isfinite (linear a row) then Some (target, linear a row) else None)) /\
    (forall target p, checked = Ok (Some (target, p)) -> exists row, s = Used row target /\ p = linear a row).
Proof.
  intros Hf Hs. destruct (fit_shape _ _ _ _ _ _ Hf) as [Hdims Hfive]. destruct (artifact_read a) as [Hc Hd].
  exists (fitted_coefficients a), (fitted_dimensions a). cbv zeta. split; [done|]. split; [done|]. split.
  - intros row target ->. destruct (classify_reading _ _ _ _ _ Hs) as (decision & candidate & prompt & matched & u & c & q & k & Hr).
    destruct (decision_nonempty _ _ _ (rg_candidate _ _ _ _ _ _ _ _ _ _ _ _ _ Hr)) as [Hd1 Hd2].
    rewrite <- (used_counted a Hfive _ _ _ _ _ _ _ _ _ _ _ _ _ Hr). destruct Hr. subst dims.
    apply (held_out_counted a _ _ decision); try done. by rewrite <- truthy_get_false.
  - intros target p H. destruct (held_out_some a _ _ _ _ H) as (decision & candidate & Hk & Hcand & Hsu & Hdim & Hcount).
    rewrite Hdims in Hdim. by apply (counted_classified a Hfive dims decisions outcome decision candidate).
Qed.

(** The first outcome of the journal is used, and held out it would be counted. *)
Lemma fit_validation_agree_witness : exists a outcome row target coefficients dimensions,
  fit_from_journal demo_dims demo_loads (demo_files "d") (demo_files "o") (dec 1 (-6)) = Ok a /\
  classify demo_dims demo_decisions outcome = Ok (Used row target) /\ isfinite (linear a row) = true /\
  TtftValidation.held_out coefficients dimensions demo_decisions outcome = Ok (Some (target, linear a row)).
Proof.
  assert (H : is_ok (fit_from_journal demo_dims demo_loads (demo_files "d") (demo_files "o") (dec 1 (-6))) = true)
    by (vm_compute; reflexivity).
  destruct (fit_from_journal demo_dims demo_loads (demo_files "d") (demo_files "o") (dec 1 (-6))) as [a|] eqn:E; [|discriminate H].
  set (outcome := default [] (head demo_outcomes)).
  destruct (classify demo_dims demo_decisions outcome) as [[| | | | |row target]|] eqn:Ec; try (vm_compute in Ec; discriminate Ec).
  destruct (fit_validation_agree demo_dims demo_loads (demo_files "d") (demo_files "o") (dec 1 (-6)) a demo_decisions outcome _ E Ec)
    as (coefficients & dimensions & _ & _ & Hused & _).
  assert (Hfin : isfinite (linear a row) = true).
  { vm_compute in E. injection E as <-. vm_compute in Ec. injection Ec as <- <-. vm_compute. reflexivity. }
  exists a, outcome, row, target, coefficients, dimensions. split; [reflexivity|]. split; [exact Ec|]. split; [exact Hfin|].
  rewrite (Hused row target eq_refl), Hfin. reflexivity.
Defined.
