(* ===== verification/SweepArtifact.v ===== *)
(** * The check of a sweep's artifact (scripts/check_capacity_sweep_artifact.py)

    A sweep leaves [summary.json], [summary.md] and a plot in a directory.  The check reads
    them back and lists what is missing or malformed.  The directory is a value: what the
    files hold and what the image library says of the plots. *)

From S2P Require Import Prelude PyFloat PyStr PyVal PyPath WindowMetrics Calibrator Policy Experiment Sweep.

(** [summary.json]: absent, unreadable or not JSON (with the exception's text), or a document. *)
Inductive summary_file : Type :=
| Absent
| Invalid (exc_text : string)
| Document (document : val).
(** An entry [*.png]: whether it is a file, its size, and the error of [Image.open(...).verify()]. *)
Record plot := { pl_is_file : bool; pl_size : Z; pl_error : option string }.
Record Artifact := {
  artifact_dir : string;
  summary : summary_file;
  report : option string;
  pngs : list (string * plot)
}.
Definition file_path (a : Artifact) (name : string) : string := path_join (artifact_dir a) name.

Definition META_KEYS : list string :=
  ["experiment_schema_version"; "run_entry_schema_version"; "scenarios"; "concurrency_values"; "repeats"]%string.
Definition POINT_KEYS : list string :=
  ["scenario"; "concurrency"; "runs"; "aggregates"; "recommendation"; "ranking"]%string.

(** ** The document *)

Definition missing_keys (prefix : string) (d : dict) (keys : list string) : list string :=
  map (fun k => prefix +:+ " missing " +:+ k) (List.filter (fun k => negb (dmem d k)) keys).
Definition meta_errors (document : dict) : list string :=
  match dgetv document "meta" with
  | VDict meta => missing_keys "summary.meta" meta META_KEYS
  | _ => ["summary.meta must be an object"%string]
  end.
Definition aggregates_errors (prefix : string) (point : dict) : list string :=
  match dgetv point "aggregates" with
  | VDict aggregates =>
      match dgetv aggregates "quality_summary" with
      | VDict _ => []
      | _ => [prefix +:+ ".aggregates.quality_summary must be an object"]
      end
  | _ => [prefix +:+ ".aggregates must be an object"]
  end.
Definition runs_errors (prefix : string) (point : dict) : list string :=
  match dgetv point "runs" with
  | VList (_ :: _) => []
  | _ => [prefix +:+ ".runs must be a non-empty array"]
  end.
Definition point_errors (index_point : nat * val) : list string :=
  let prefix := "summary.points[" +:+ str_of_Z (Z.of_nat index_point.1) +:+ "]" in
  match index_point.2 with
  | VDict point => missing_keys prefix point POINT_KEYS ++ aggregates_errors prefix point ++ runs_errors prefix point
  | _ => [prefix +:+ " must be an object"]
  end.
Definition points_errors (document : dict) : list string :=
  match dgetv document "points" with
  | VList ((_ :: _) as points) => mjoin (map point_errors (indexed points))
  | _ => ["summary.points must be a non-empty array"%string]
  end.
Definition ranking_errors (document : dict) : list string :=
  match dgetv document "ranking" with
  | VDict ranking =>
      match dgetv ranking "by_scenario" with
      | VDict _ => []
      | _ => ["summary.ranking.by_scenario must be an object"%string]
      end
  | _ => ["summary.ranking.by_scenario must be an object"%string]
  end.

(** ** The report and its plots *)

Definition endswith (suffix l : list ascii) : bool := has_prefix (rev suffix) (rev l).
(** [Path(candidate).name] of a path that ends in a file name. *)
Definition basename (l : list ascii) : list ascii := List.last (split_on "/"%char l) [].
(** The targets of the report's links: [token.split(")", 1)[0] for token in report.split("(")[1:]]. *)
Definition link_targets (text : string) : list (list ascii) :=
  map (fun token => (partition_on ")"%char token).1.1) (tail (split_on "("%char (chars text))).
Definition referenced (text : string) : list string :=
  map (fun candidate => str (basename candidate)) (List.filter (endswith (chars ".png")) (link_targets text)).

Section check.
Context (set_order : list string -> list string).   (* the order in which a set of names is iterated *)

Definition plot_errors (a : Artifact) (name : string) : list string :=
  match dget (pngs a) name with
  | Some p =>
      if negb (pl_is_file p) then ["summary.md references missing plot: " +:+ file_path a name]
      else if pl_size p =? 0 then ["plot is empty: " +:+ file_path a name]
      else match pl_error p with
           | Some exc => ["plot is not a valid image: " +:+ file_path a name +:+ " (" +:+ exc +:+ ")"]
           | None => []
           end
  | None => ["summary.md references missing plot: " +:+ file_path a name]
  end.
Definition empty_plot_errors (a : Artifact) (name : string) : list string :=
  match dget (pngs a) name with
  | Some p => if pl_size p =? 0 then ["plot is empty: " +:+ file_path a name] else []
  | None => []
  end.
Definition report_errors (a : Artifact) (text : string) : list string :=
  (if has_infix (chars "## Ranking Plot") (chars text) then [] else ["summary.md missing Ranking Plot section"%string])
  ++ (match referenced text with [] => ["summary.md does not reference a PNG plot"%string] | _ => [] end)
  ++ mjoin (map (plot_errors a) (set_order (referenced text)))
  ++ mjoin (map (empty_plot_errors a) (set_order (map fst (pngs a)))).

Definition validate_capacity_sweep_artifact (a : Artifact) : res (list string) :=
  match summary a with
  | Absent => Ok ["missing artifact: " +:+ file_path a "summary.json"]
  | Invalid exc => Ok ["invalid JSON " +:+ file_path a "summary.json" +:+ ": " +:+ exc]
  | Document (VDict document) =>
      Ok ((match report a with None => ["missing artifact: " +:+ file_path a "summary.md"] | Some _ => [] end)
          ++ meta_errors document ++ points_errors document ++ ranking_errors document
          ++ match dgetv document "meta", report a with
             | VDict _, Some text => report_errors a text
             | _, _ => []
             end)
  | Document _ => Err AttributeError
  end.
(** [main]: the exit status. *)
Definition main (a : Artifact) : res Z :=
  errors <-! validate_capacity_sweep_artifact a ;; Ok (match errors with [] => 0 | _ => 1 end).
End check.

(** A document that is not an object is not reported: the check itself fails. *)
Example array_document_crashes order dir :
  validate_capacity_sweep_artifact order
    {| artifact_dir := dir; summary := Document (VList []); report := None; pngs := [] |} = Err AttributeError.
Proof. reflexivity. Qed.

(** ** Properties *)

Lemma join_app sep l1 x l2 : exists pre post, join sep (l1 ++ x :: l2) = pre +:+ x +:+ post.
Proof.
  induction l1 as [|y l1 (pre & post & IH)].
  - exists "", (match l2 with [] => "" | _ => sep +:+ join sep l2 end). simpl.
    destruct l2; [|done]. by rewrite <- (str_chars (x +:+ "")), chars_app, app_nil_r, str_chars.
  - exists (y +:+ sep +:+ pre), post. simpl. destruct (l1 ++ x :: l2) eqn:E; [by destruct l1|]. rewrite IH.
    apply chars_inj. rewrite !chars_app. by rewrite <- !app_assoc.
Qed.
Lemma split_on_prefix c u b : c ∉ u -> exists w ws, split_on c b = w :: ws /\ split_on c (u ++ b) = (u ++ w) :: ws.
Proof.
  induction u as [|d u IH]; intros Hc.
  - cbn [app]. destruct (split_on c b) as [|w ws] eqn:E; [|by exists w, ws].
    destruct b as [|d b]; [done|]. cbn in E. destruct (Ascii.eqb d c); [done|]. by destruct (split_on c b).
  - apply not_elem_of_cons in Hc as [Hd Hc]. destruct (IH Hc) as (w & ws & Hb & Hu). exists w, ws. split; [done|].
    cbn [app split_on]. rewrite Hu. by destruct (Ascii.eqb_spec d c) as [->|].
Qed.
Lemma partition_on_stop c u b : c ∉ u -> partition_on c (u ++ c :: b) = (u, true, b).
Proof.
  induction u as [|d u IH]; intros Hc; cbn [app partition_on]; [by rewrite Ascii.eqb_refl|].
  apply not_elem_of_cons in Hc as [Hd Hc]. rewrite (IH Hc). by destruct (Ascii.eqb_spec d c) as [->|].
Qed.

(** The name of a plot as the sweep chooses it: a PNG file without path or parentheses. *)
Definition plain_png (name : string) : Prop :=
  (endswith (chars ".png") (chars name) = true) /\
  ("/"%char ∉ chars name) /\ ("("%char ∉ chars name) /\ (")"%char ∉ chars name).

Lemma linked_is_referenced pre post name : plain_png name ->
  name ∈ referenced (pre +:+ ("![capacity_sweep_ranking](" +:+ name +:+ ")") +:+ post).
Proof.
  intros (Hpng & Hslash & Hopen & Hclose). unfold referenced, link_targets.
  set (head := chars pre ++ chars "![capacity_sweep_ranking]").
  assert (Htext : chars (pre +:+ ("![capacity_sweep_ranking](" +:+ name +:+ ")") +:+ post)
                  = head ++ "("%char :: (chars name ++ ")"%char :: chars post)).
  { rewrite !chars_app. unfold head. rewrite <- !app_assoc. reflexivity. }
  rewrite Htext, split_on_app.
  destruct (split_on_prefix "("%char (chars name) (")"%char :: chars post) Hopen) as (w & ws & Hw & Hsplit).
  assert (Hw' : exists w', w = ")"%char :: w').
  { cbn in Hw. destruct (split_on "("%char (chars post)); injection Hw as <- <-; by eexists. }
  destruct Hw' as [w' ->]. rewrite Hsplit.
  assert (Hin : chars name ∈ map (fun token => (partition_on ")"%char token).1.1)
    (tail (split_on "("%char head ++ (chars name ++ ")"%char :: w') :: ws))).
  { apply list_elem_of_In, in_map_iff. exists (chars name ++ ")"%char :: w'). split; [by rewrite partition_on_stop|].
    apply list_elem_of_In. destruct (split_on_prefix "("%char [] head) as (v & vs & -> & _); [set_solver|]. cbn.
    apply elem_of_app. right. by left. }
  apply list_elem_of_In, in_map_iff. exists (chars name). split.
  - unfold basename. destruct (split_on_prefix "/"%char (chars name) [] Hslash) as (v & vs & Hv & Hn).
    injection Hv as <- <-. rewrite !app_nil_r in Hn. rewrite Hn. simpl. apply str_chars.
  - apply filter_In. split; [by apply list_elem_of_In|done].
Qed.

(** ** The artifact of a sweep *)

Lemma mjoin_nil {A B} (f : A -> list B) l : mjoin (map f l) = [] <-> forall x, x ∈ l -> f x = [].
Proof.
  induction l as [|x l IH]; cbn.
  - split; [set_solver|done].
  - change (f x ++ mjoin (map f l) = [] <-> forall y, y ∈ x :: l -> f y = []). split.
    + intros H y Hy. apply app_eq_nil in H as [Hx Hl]. apply elem_of_cons in Hy as [->|Hy]; [done|]. by apply IH.
    + intros H. rewrite (H x) by (by left). apply IH. intros y Hy. apply H. by right.
Qed.

Lemma ranked_point_valid a restart traffic env s c i p point n : 1 <= a_repeats a ->
  sweep_point a restart traffic env s c i = Ok p -> with_ranking p = Ok point -> point_errors (n, VDict point) = [].
Proof.
  intros Hrep Hp Hw. apply sweep_point_shape in Hp as (runs & agg & rec & Hruns & Hagg & ->).
  unfold with_ranking in Hw. destruct (_point_rank_record _) as [r|]; [|discriminate Hw].
  assert (Hp' : forall x : dict, Ok x = Ok point -> point = x) by congruence. apply Hp' in Hw. subst point. clear Hp'.
  destruct (wg_quality _ Hagg) as [q Hq].
  assert (Hne : exists run rest, runs = run :: rest).
  { apply res_map_length in Hruns. unfold repeats in Hruns. rewrite length_map, length_seq in Hruns.
    destruct runs; [simpl in Hruns; lia|by eexists _, _]. }
  destruct Hne as (run & rest & ->). unfold point_errors. cbn [fst snd].
  unfold aggregates_errors, runs_errors, dgetv, dget_or.
  cbn [dset dget map String.eqb Ascii.eqb Bool.eqb from_option default id].
  rewrite Hq. reflexivity.
Qed.

Lemma sweep_document a restart traffic env doc : sweep a restart traffic env = Ok doc ->
  1 <= a_repeats a -> sweep_scenarios a <> [] ->
  exists cs point points, sd_meta doc = sweep_meta a cs /\ sd_points doc = point :: points /\
    forall n p, p ∈ sd_points doc -> point_errors (n, VDict p) = [].
Proof.
  unfold sweep. intros H Hrep Hsc. destruct (_parse_csv_ints _) as [cs|] eqn:Ecs; [|done].
  destruct (res_fold _ _ _) as [[measured n]|] eqn:Ef; [|done].
  destruct (_build_sweep_ranking measured); [|done].
  destruct (res_map with_ranking measured) as [pts|] eqn:Er; [|done].
  destruct (calibrate _ _ _ _); [|done]. injection H as <-. cbn [sd_meta sd_points].
  apply sweep_fold in Ef as (new & -> & _ & Hnew). cbn [app] in Er.
  assert (Hgrid : exists k ks, grid (sweep_scenarios a) cs = k :: ks).
  { unfold _parse_csv_ints in Ecs. destruct (res_map _ _) as [[|z zs]|] in Ecs; try done. injection Ecs as <-.
    destruct (sweep_scenarios a) as [|s ss]; [done|]. by eexists _, _. }
  destruct Hgrid as (k & ks & Hgrid). rewrite Hgrid in Hnew. unfold indexed in Hnew. cbn [length seq combine] in Hnew.
  assert (Hpts : forall p, p ∈ pts -> exists s c i m, sweep_point a restart traffic env s c i = Ok m /\ with_ranking m = Ok p).
  { intros p Hp. apply res_map_Forall2 in Er. apply list_elem_of_lookup in Hp as [j Hj].
    destruct (Forall2_lookup_r _ _ _ _ _ Er Hj) as (m & Hm & Hw).
    destruct (Forall2_lookup_r _ _ _ _ _ Hnew Hm) as (cell & _ & Hcell). by eexists _, _, _, m. }
  destruct new as [|m0 ms]; [by inversion Hnew|]. cbn [res_map] in Er. inv_ok Er. subst pts.
  eexists cs, _, _. split; [reflexivity|]. split; [reflexivity|]. intros j p Hp.
  destruct (Hpts p Hp) as (s & c & i & m & Hm & Hw). by eapply ranked_point_valid.
Qed.

Definition good_plot (art : Artifact) (name : string) : Prop :=
  exists p, dget (pngs art) name = Some p /\ pl_is_file p = true /\ pl_size p <> 0 /\ pl_error p = None.

Lemma plot_errors_nil art name : plot_errors art name = [] <-> good_plot art name.
Proof.
  unfold plot_errors, good_plot. destruct (dget (pngs art) name) as [p|].
  - destruct (pl_is_file p) eqn:E1; cbn; [|split; [done|]; intros (q & [= <-] & Hq & _); congruence].
    destruct (Z.eqb_spec (pl_size p) 0) as [E2|E2]; [split; [done|]; by intros (q & [= <-] & _ & Hq & _)|].
    destruct (pl_error p) eqn:E3; [split; [done|]; intros (q & [= <-] & _ & _ & Hq); congruence|].
    split; [|done]. intros _. by exists p.
  - split; [done|]. by intros (q & Hq & _).
Qed.

(** The Markdown of a sweep has its ranking section and the link to its plot. *)
Lemma markdown_links a doc plot_name md : _to_markdown a doc plot_name = Ok md -> plain_png plot_name ->
  plot_name ∈ referenced md /\ has_infix (chars "## Ranking Plot") (chars md) = true.
Proof.
  intros Hmd Hname. unfold _to_markdown in Hmd. destruct (res_map point_row _) as [rows|]; [|done].
  assert (Hok : forall x : string, Ok x = Ok md -> md = x) by congruence. apply Hok in Hmd. rewrite Hmd. clear Hok Hmd. split.
  - match goal with |- _ ∈ referenced (join ?sep ?l) =>
      destruct (join_app sep (take 8 l) ("![capacity_sweep_ranking](" +:+ plot_name +:+ ")") (drop 9 l)) as (pre & post & H)
    end.
    cbn [take drop app] in H |- *. rewrite H. by apply linked_is_referenced.
  - match goal with |- context [join ?sep ?l] =>
      destruct (join_app sep (take 6 l) "## Ranking Plot" (drop 7 l)) as (pre & post & H)
    end.
    cbn [take drop app] in H |- *. rewrite H, !chars_app. apply has_infix_app.
Qed.
Lemma points_accepted a doc : sd_points doc <> [] -> (forall p, In p (sd_points doc) -> forall n, point_errors (n, VDict p) = []) ->
  points_errors (summary_json a doc) = [].
Proof.
  intros Hne Hgood. change (points_errors (summary_json a doc)) with
    (match map VDict (sd_points doc) with
     | [] => ["summary.points must be a non-empty array"%string]
     | _ :: _ => mjoin (map point_errors (indexed (map VDict (sd_points doc))))
     end).
  destruct (sd_points doc) as [|p0 ps]; [done|]. cbn [map]. apply mjoin_nil. intros [n v] Hv. apply indexed_elem in Hv.
  apply list_elem_of_lookup_2 in Hv. change (VDict p0 :: map VDict ps) with (map VDict (p0 :: ps)) in Hv.
  apply list_elem_of_In, in_map_iff in Hv as (p & <- & Hin). by apply Hgood.
Qed.

(** A finished sweep and the check of its artifact agree.  If the sweep measured
    anything, then the check of the directory it wrote reports nothing exactly when all
    the plots the report links to are there, not empty and valid images, and no plot is
    empty; the plot of the sweep is one of them.  So the check never rejects the
    document or the report of a sweep. *)
Theorem sweep_artifact_accepted set_order a restart traffic env doc plot_name md art :
  (forall names name, name ∈ set_order names <-> name ∈ names) ->
  sweep a restart traffic env = Ok doc -> 1 <= a_repeats a -> sweep_scenarios a <> [] ->
  _to_markdown a doc plot_name = Ok md -> plain_png plot_name ->
  summary art = Document (VDict (summary_json a doc)) -> report art = Some md ->
  plot_name ∈ referenced md /\
  (validate_capacity_sweep_artifact set_order art = Ok [] <->
   (forall name, name ∈ referenced md -> good_plot art name) /\
   (forall name p, dget (pngs art) name = Some p -> pl_size p <> 0)).
Proof.
  intros Hset Hsweep Hrep Hsc Hmd Hname Hsum Hreport.
  destruct (sweep_document _ _ _ _ _ Hsweep Hrep Hsc) as (cs & p0 & ps & Hmeta & Hpts & Hgood).
  destruct (markdown_links _ _ _ _ Hmd Hname) as [Hlink Hsection]. split; [done|].
  unfold validate_capacity_sweep_artifact. rewrite Hsum, Hreport.
  assert (Hm : meta_errors (summary_json a doc) = []) by (unfold meta_errors, summary_json; rewrite Hmeta; reflexivity).
  assert (Hp : points_errors (summary_json a doc) = []).
  { apply points_accepted; [by rewrite Hpts|]. intros p Hin n. apply Hgood. by apply list_elem_of_In. }
  rewrite Hm, Hp. cbn [app].
  change (dgetv (summary_json a doc) "meta") with (VDict (sd_meta doc)). cbn match.
  change (ranking_errors (summary_json a doc)) with (@nil string). cbn [app].
  unfold report_errors. rewrite Hsection. cbn [app].
  assert (Hne : forall e : list string, match referenced md with [] => e | _ => [] end = [])
    by (intros e; destruct (referenced md); [set_solver|done]).
  rewrite Hne. cbn [app].
  assert (Hnil : forall x y : list string, Ok (x ++ y) = Ok [] <-> x = [] /\ y = []).
  { intros x y. split; [intros [= H]; by apply app_eq_nil in H|by intros [-> ->]]. }
  rewrite Hnil, !mjoin_nil. split; intros [H1 H2]; split.
  - intros name Hin. by apply plot_errors_nil, H1, Hset.
  - intros name p Hget Hz. specialize (H2 name). rewrite Hset in H2. unfold empty_plot_errors in H2.
    rewrite Hget, Hz in H2. assert (Hin : name ∈ map fst (pngs art)); [|by specialize (H2 Hin)].
    apply dget_Some_elem in Hget. apply list_elem_of_In, in_map_iff. exists (name, p). by rewrite <- list_elem_of_In.
  - intros name Hin. rewrite Hset in Hin. by apply plot_errors_nil, H1.
  - intros name _. unfold empty_plot_errors. destruct (dget (pngs art) name) as [p|] eqn:Eget; [|done].
    specialize (H2 _ _ Eget). destruct (Z.eqb_spec (pl_size p) 0); [congruence|done].
Qed.

Definition demo_plot : string := "capacity_sweep_ranking.png".
Lemma demo_plot_plain : plain_png demo_plot.
Proof. split_and!; [reflexivity|apply (bool_decide_unpack _); vm_compute; exact I..]. Qed.
Definition demo_artifact (doc : sweep_doc) (md : string) : Artifact :=
  {| artifact_dir := "out"; summary := Document (VDict (summary_json demo_args doc)); report := Some md;
     pngs := [(demo_plot, {| pl_is_file := true; pl_size := 1024; pl_error := None |})] |}.
Lemma sweep_artifact_accepted_witness : exists doc md, demo_sweep = Ok doc /\
  _to_markdown demo_args doc demo_plot = Ok md /\
  validate_capacity_sweep_artifact id (demo_artifact doc md) = Ok [].
Proof.
  assert (H : (doc <-! demo_sweep ;; md <-! _to_markdown demo_args doc demo_plot ;; Ok (referenced md)) = Ok [demo_plot])
    by (vm_compute; reflexivity).
  destruct demo_sweep as [doc|] eqn:E; [|discriminate H].
  destruct (_to_markdown demo_args doc demo_plot) as [md|] eqn:Em; [|discriminate H]. injection H as Href.
  exists doc, md. split; [reflexivity|]. split; [exact Em|].
  destruct (sweep_artifact_accepted id demo_args no_restart demo_traffic demo_scrapes doc demo_plot md (demo_artifact doc md)
    ltac:(reflexivity) E ltac:(vm_compute; discriminate) ltac:(vm_compute; discriminate) Em
    demo_plot_plain
    eq_refl eq_refl) as [_ Hiff].
  apply Hiff. split.
  - intros name Hn. rewrite Href in Hn. apply list_elem_of_singleton in Hn as ->.
    eexists. split; [reflexivity|]. split; [reflexivity|]. split; [discriminate|reflexivity].
  - intros name p Hp. cbn in Hp. destruct (String.eqb name demo_plot); [|discriminate Hp]. injection Hp as <-. discriminate.
Defined.
