(* ===== verification/Reuse.v ===== *)
(** * The reuse experiment (scripts/run_reuse_experiment.py)

    Both reuse scenarios are measured a few times; the report holds the entries of the runs
    and their aggregates.  As in the sweep, the traffic of a run and the scrapes around it
    are the environment. *)

From S2P Require Import Prelude PyFloat FloatOrder FloatRound PyStr PyVal PromParse WindowMetrics Policy LoadRunner Experiment Sweep.
From S2P Require Import Threshold.

Record Args := {
  a_base_url : string;
  a_endpoint : string;
  a_model : string;
  a_backend_metrics_url : string;
  a_exporter_metrics_url : string;
  a_repeats : Z;
  a_num_requests : Z;
  a_concurrency : Z;
  a_input_len : Z;
  a_output_len : Z;
  a_warmup_requests : Z;
  a_timeout_s : float;
  a_base_seed : Z
}.

Section reuse.
Context (a : Args).
Context (traffic : string -> Z -> Params -> Traffic) (env : string -> Z -> Env).

Definition backend_metrics_url : string :=
  if String.eqb (a_backend_metrics_url a) "" then rstrip_char "/"%char (a_base_url a) +:+ "/metrics"
  else a_backend_metrics_url a.
Definition reuse_params (scenario : string) (r : Z) : Params :=
  let cfg := scenario_config scenario in
  {| base_url := a_base_url a; endpoint := a_endpoint a; model := a_model a; num_requests := a_num_requests a;
     concurrency := a_concurrency a; base_seed := a_base_seed a + r * 1000; input_len := a_input_len a;
     output_len := a_output_len a; shared_prefix_ratio := sc_shared_prefix_ratio cfg;
     shared_prefix_len := sc_shared_prefix_len cfg; unique_suffix_len := sc_unique_suffix_len cfg;
     warmup_requests := a_warmup_requests a |}.
Definition reuse_load (scenario : string) (r : Z) : res dict :=
  let prm := reuse_params scenario r in
  let t := traffic scenario r prm in
  run_custom_http prm (t_warmup t) (t_measured t) (t_run_started t) (t_warmup_end t) (t_run_finished t).
Definition reuse_run (scenario : string) (r : Z) : res dict :=
  run_windowed_experiment (env scenario r) r backend_metrics_url (a_exporter_metrics_url a) (reuse_load scenario r) "".
(** [range(1, args.repeats + 1)] *)
Definition repeats : list Z := map Z.of_nat (seq 1 (Z.to_nat (a_repeats a))).
Definition scenario_entries (scenario : string) : res (list dict) := res_map (reuse_run scenario) repeats.

Definition reuse_meta : dict :=
  [("experiment_schema_version", VInt EXPERIMENT_SCHEMA_VERSION); ("run_entry_schema_version", VInt RUN_ENTRY_SCHEMA_VERSION);
   ("base_url", VStr (a_base_url a)); ("endpoint", VStr (a_endpoint a)); ("model", VStr (a_model a));
   ("backend_metrics_url", VStr backend_metrics_url); ("exporter_metrics_url", VStr (a_exporter_metrics_url a));
   ("repeats", VInt (a_repeats a)); ("num_requests", VInt (a_num_requests a)); ("concurrency", VInt (a_concurrency a));
   ("input_len", VInt (a_input_len a)); ("output_len", VInt (a_output_len a));
   ("warmup_requests", VInt (a_warmup_requests a)); ("timeout_s", VFloat (a_timeout_s a))]%string.
(** [summary.json] *)
Definition reuse_experiment : res dict :=
  low <-! scenario_entries "low_reuse" ;;
  high <-! scenario_entries "high_reuse" ;;
  low_aggregate <-! aggregate_run_entries low ;;
  high_aggregate <-! aggregate_run_entries high ;;
  Ok [("meta", VDict reuse_meta);
      ("runs", VDict [("low_reuse", VList (map VDict low)); ("high_reuse", VList (map VDict high))]);
      ("aggregates", VDict [("low_reuse", VDict low_aggregate); ("high_reuse", VDict high_aggregate)])]%string.
End reuse.

(** ** The report *)

Definition int_at (v : val) (k : string) (x : val) : res Z := y <-! vget v k x ;; int_of_val y.
Definition float_at (v : val) (k : string) (x : val) : res float := y <-! vget v k x ;; float_of_val y.
Definition na_or_fixed (v : val) : res string :=
  match v with VNone => Ok "NA"%string | _ => x <-! float_of_val v ;; Ok (fmt_fixed 4 x) end.

Definition run_line (scenario : string) (item : dict) : res string :=
  s <-! vitem (VDict item) "summary" ;;
  requests <-! vitem s "requests" ;;
  o <-! vitem requests "ok" ;; ok <-! int_of_val o ;;
  t <-! vitem requests "total" ;; total <-! int_of_val t ;;
  ' (hit_ratio, metric_quality) <-! get_entry_hit_ratio_and_quality item ;;
  source <-! vget (dget_or item "quality" (VDict [])) "hit_ratio_source" (VStr "missing") ;;
  prefix_check <-! get_entry_prefix_metric_check item ;;
  repeat <-! vitem (VDict item) "repeat" ;;
  req <-! summary_number "throughput" "req_s" item ;;
  e2e <-! summary_number "latency" "e2e_latency_p95_ms" item ;;
  hidden <-! hidden_reuse item ;;
  Ok ("| " +:+ join " | " [scenario; py_str repeat; fmt_fixed 4 req; fmt_fixed 2 e2e;
        match hit_ratio with None => "NA" | Some h => fmt_fixed 4 h end;
        metric_quality +:+ "/" +:+ py_str source; prefix_check; fmt_fixed 4 hidden;
        str_of_Z ok +:+ "/" +:+ str_of_Z total] +:+ " |")%string.
Definition aggregate_line (scenario : string) (agg : val) : res string :=
  quality <-! vget agg "quality_summary" (VDict []) ;;
  hit_ratio_mean <-! vget agg "hit_ratio_mean" VNone ;;
  hit <-! na_or_fixed hit_ratio_mean ;;
  total_runs <-! int_at quality "total_runs" (VInt 0) ;;
  req <-! float_at agg "req_s_mean" (VFloat f0) ;;
  e2e <-! float_at agg "e2e_p95_ms_mean" (VFloat f0) ;;
  missing <-! int_at quality "num_runs_missing_hit_ratio" (VInt 0) ;;
  stale <-! int_at quality "num_runs_stale_metrics" (VInt 0) ;;
  prefix_check <-! vget quality "prefix_metric_check" (VStr "missing") ;;
  strict_runs <-! int_at quality "num_runs_prefix_metric_strict" (VInt 0) ;;
  token_runs <-! int_at quality "num_runs_prefix_metric_token_fallback" (VInt 0) ;;
  hidden <-! float_at agg "hidden_reuse_mean" (VFloat f0) ;;
  Ok ("| " +:+ join " | " [scenario; fmt_fixed 4 req; fmt_fixed 2 e2e; hit; str_of_Z missing; str_of_Z stale;
        py_str prefix_check; str_of_Z strict_runs +:+ "/" +:+ str_of_Z total_runs;
        str_of_Z token_runs +:+ "/" +:+ str_of_Z total_runs; fmt_fixed 4 hidden] +:+ " |")%string.

Definition scenario_lines (report : val) (scenario : string) : res (list string) :=
  runs <-! vitem report "runs" ;;
  mine <-! vitem runs scenario ;;
  items <-! viter mine ;;
  entries <-! res_map as_dict items ;;
  res_map (run_line scenario) entries.
Definition scenario_aggregate (report : val) (scenario : string) : res string :=
  aggregates <-! vitem report "aggregates" ;;
  agg <-! vitem aggregates scenario ;;
  aggregate_line scenario agg.
Definition meta_line (meta : val) (key : string) : res string :=
  v <-! vitem meta key ;; Ok ("- " +:+ key +:+ ": `" +:+ py_str v +:+ "`")%string.
Definition _to_markdown (report : val) : res string :=
  meta <-! vitem report "meta" ;;
  head <-! res_map (meta_line meta) ["base_url"; "exporter_metrics_url"; "model"; "repeats"]%string ;;
  rows <-! res_map (scenario_lines report) SCENARIOS ;;
  aggregates <-! res_map (scenario_aggregate report) SCENARIOS ;;
  Ok (join (str [chr 10])
    (["# Reuse Experiment Report"; ""]%string ++ head ++
     [""; "| Scenario | Repeat | req/s | e2e_p95_ms | hit_ratio_window | metric_quality | prefix_check | hidden_reuse | ok/total |";
      "|---|---:|---:|---:|---:|---|---|---:|---:|"]%string ++ mjoin rows ++
     [""; "## Aggregates"; "";
      "| Scenario | req/s mean | e2e_p95_ms mean | hit_ratio mean | hit missing | hit stale | prefix_check | strict runs | token fallback runs | hidden_reuse mean |";
      "|---|---:|---:|---:|---:|---:|---|---:|---:|---:|"]%string ++ aggregates ++ [""%string])).

(** ** Properties *)

(** What a load reports, as the planner reads it. *)
Record loaded (summary : dict) (total ok : Z) : Prop := {
  ld_requests : exists failed, dget summary "requests" =
    Some (VDict [("total", VInt total); ("ok", VInt ok); ("failed", VInt failed)]%string);
  ld_latency : exists p95 rest, dget summary "latency" = Some (VDict (("e2e_latency_p95_ms"%string, VFloat p95) :: rest));
  ld_throughput : exists req_s rest, dget summary "throughput" = Some (VDict (("req_s"%string, VFloat req_s) :: rest));
  ld_ok : is_ok (float_of_int ok) = true
}.
Lemma run_custom_http_loaded prm w m t1 t2 t3 summary : run_custom_http prm w m t1 t2 t3 = Ok summary ->
  loaded summary (b_total m) (b_ok m).
Proof.
  unfold run_custom_http. intros H.
  destruct (res_map _ _); [|discriminate H]. destruct (Percentile.Runner._percentile _ _); [|discriminate H].
  cbv zeta in H. match type of H with match ?c with Ok _ => _ | Err _ => _ end = _ => destruct c; [|discriminate H] end.
  destruct (float_of_int (b_ok m)) eqn:Eo; [|discriminate H]. destruct (fdiv _ _); [|discriminate H].
  assert (E : forall x : dict, Ok x = Ok summary -> summary = x) by congruence. apply E in H. subst summary.
  split; [by eexists|by eexists _, _|by eexists _, _|by rewrite Eo].
Qed.

Lemma number_or_zero_int d k z : dget d k = Some (VInt z) -> is_ok (float_of_int z) = true ->
  is_ok (number_or_zero (VDict d) k) = true.
Proof.
  intros Hd Hz. unfold number_or_zero, vget, dget_or. rewrite Hd. cbn. unfold float_or_zero, py_or.
  destruct (truthy (VInt z)); [by cbn|done].
Qed.
Lemma number_or_zero_float d k x : dget d k = Some (VFloat x) -> is_ok (number_or_zero (VDict d) k) = true.
Proof.
  intros Hd. unfold number_or_zero, vget, dget_or. rewrite Hd. cbn. unfold float_or_zero, py_or.
  by destruct (truthy (VFloat x)).
Qed.
Lemma positive_divides x y : (y >?. f0) = true -> is_ok (fdiv x y) = true.
Proof. intros H. unfold fdiv. destruct y as [s|s| |s m e]; [destruct s; discriminate H|done..]. Qed.

Lemma run_row_total slo msr mhr entry summary total ok v :
  dget entry "summary" = Some (VDict summary) -> loaded summary total ok -> is_ok (float_of_int total) = true ->
  get_entry_hit_ratio_quality_and_source entry = Ok v -> is_ok (get_entry_prefix_metric_check entry) = true ->
  is_ok (get_entry_evidence_quality entry) = true -> is_ok (run_row slo msr mhr entry) = true.
Proof.
  intros Hs [[failed Hreq] (p95 & lrest & Hlat) (req_s & trest & Hthr) Hok] Htot Hv Hc He.
  unfold run_row, dget_or. rewrite Hs. cbn [from_option default id vget].
  unfold dget_or. rewrite Hreq, Hlat, Hthr. cbn [from_option default id].
  match goal with |- context [number_or_zero ?d "total"] =>
    pose proof (number_or_zero_int [("total", VInt total); ("ok", VInt ok); ("failed", VInt failed)]%string "total" total eq_refl Htot) as H1;
    destruct (number_or_zero d "total") as [x|]; [|discriminate H1] end.
  match goal with |- context [number_or_zero ?d "ok"] =>
    pose proof (number_or_zero_int [("total", VInt total); ("ok", VInt ok); ("failed", VInt failed)]%string "ok" ok eq_refl Hok) as H2;
    destruct (number_or_zero d "ok") as [y|]; [|discriminate H2] end.
  assert (Hrate : is_ok (if x >?. f0 then fdiv y x else Ok f0) = true).
  { destruct (x >?. f0) eqn:E; [by apply positive_divides|done]. }
  destruct (if x >?. f0 then fdiv y x else Ok f0) as [rate|]; [|discriminate Hrate].
  match goal with |- context [number_or_zero ?d "e2e_latency_p95_ms"] =>
    pose proof (number_or_zero_float (("e2e_latency_p95_ms"%string, VFloat p95) :: lrest) "e2e_latency_p95_ms" p95 eq_refl) as H3;
    destruct (number_or_zero d "e2e_latency_p95_ms") as [z|]; [|discriminate H3] end.
  match goal with |- context [number_or_zero ?d "req_s"] =>
    pose proof (number_or_zero_float (("req_s"%string, VFloat req_s) :: trest) "req_s" req_s eq_refl) as H4;
    destruct (number_or_zero d "req_s") as [w|]; [|discriminate H4] end.
  rewrite Hv. destruct v as [[hit quality] source].
  destruct (get_entry_prefix_metric_check entry); [|discriminate Hc].
  by destruct (get_entry_evidence_quality entry).
Qed.

Lemma recommend_total slo msr mhr sf runs : zlen runs <= 2 ^ 1000 ->
  (forall e, e ∈ runs -> is_ok (run_row slo msr mhr e) = true) -> is_ok (recommend_runs slo msr mhr sf runs) = true.
Proof.
  intros Hn Hrows. apply res_map_ok in Hrows. unfold recommend_runs.
  destruct (res_map (run_row slo msr mhr) runs) as [rows|] eqn:E; [|done].
  pose proof (recommended_ok sf rows) as Hr. destruct (recommended_rps sf rows); [|done]. cbv zeta.
  apply res_map_length in E.
  match goal with |- context [fraction (count_rest ?w ?l) ?n] =>
    assert (Hf : is_ok (fraction (count_rest w l) n) = true) end.
  { assert (Hz : zlen rows = zlen runs) by (unfold zlen; by rewrite E).
    apply fraction_ok; [|unfold zlen in *; lia]. unfold count_rest.
    match goal with |- context [List.filter ?f ?l] => pose proof (filterb_length_le f l) as Hle end.
    rewrite length_map in Hle. unfold zlen in *. lia. }
  destruct (fraction _ _); [|discriminate Hf]. reflexivity.
Qed.

(** An aggregation that returned could read the labels of every entry. *)
Lemma aggregate_labels entries agg e : aggregate_run_entries entries = Ok agg -> e ∈ entries ->
  (exists v, get_entry_hit_ratio_quality_and_source e = Ok v) /\ is_ok (get_entry_prefix_metric_check e) = true /\
  is_ok (get_entry_evidence_quality e) = true.
Proof.
  intros H Hin. assert (Hq : exists q, summarize_runs_quality entries = Ok q).
  { unfold aggregate_run_entries in H. destruct entries as [|e0 es]; [set_solver|]. inv_ok H. by eexists. }
  destruct Hq as [q Hq]. unfold summarize_runs_quality, summarize_prefix_metric_checks, summarize_evidence_quality in Hq.
  destruct (res_map get_entry_hit_ratio_quality_and_source entries) as [rows|] eqn:E1; [|done]. cbv zeta in Hq.
  destruct (fraction _ _); [|done].
  destruct (res_map get_entry_prefix_metric_check entries) as [checks|] eqn:E2; [|done].
  destruct (fraction _ _); [|done]. destruct (fraction _ _); [|done].
  destruct (res_map get_entry_evidence_quality entries) as [es|] eqn:E3; [|done].
  split_and!; [by eapply res_map_elem_ok| |].
  - destruct (res_map_elem_ok _ _ _ _ E2 Hin) as [y ->]. done.
  - destruct (res_map_elem_ok _ _ _ _ E3 Hin) as [y ->]. done.
Qed.

Lemma recommend_fields slo msr mhr sf runs rec : recommend_runs slo msr mhr sf runs = Ok rec ->
  is_ok (copied rec compared_fields) = true /\ is_ok (copied rec curve_fields) = true /\
  exists rps, float_item rec "recommended_rps" = Ok rps.
Proof.
  unfold recommend_runs. intros H. destruct (res_map _ runs); [|discriminate H].
  destruct (recommended_rps _ _) as [rps|]; [|discriminate H]. cbv zeta in H.
  destruct (fraction _ _); [|discriminate H].
  assert (E : forall x : dict, Ok x = Ok rec -> rec = x) by congruence. apply E in H. clear E. rewrite H. clear H.
  split; [reflexivity|]. split; [reflexivity|]. exists rps. reflexivity.
Qed.
Lemma py_round_ok n x : exists r, py_round n x = Ok r.
Proof. unfold py_round. destruct (isfinite x); [|by eexists]. destruct (abs_frac x). by eexists. Qed.

Section planner_reads.
Context (slo msr sf : float) (doc : val).
Definition readable (s : string) : Prop := exists runs, scenario_runs doc s = Ok runs /\ zlen runs <= 2 ^ 1000 /\
  forall mhr e, e ∈ runs -> is_ok (run_row slo msr mhr e) = true.

Lemma compare_readable t s : readable s -> is_ok (compare_scenario slo msr sf doc t s) = true.
Proof.
  intros (runs & Hr & Hn & Hrows). unfold compare_scenario, recommend. rewrite Hr.
  pose proof (recommend_total slo msr None sf runs Hn (Hrows None)) as H1.
  pose proof (recommend_total slo msr (Some t) sf runs Hn (Hrows (Some t))) as H2.
  destruct (recommend_runs slo msr None sf runs) as [rec1|] eqn:E1; [|discriminate H1].
  destruct (recommend_runs slo msr (Some t) sf runs) as [rec2|] eqn:E2; [|discriminate H2].
  apply recommend_fields in E1 as (_ & _ & b & Hb). apply recommend_fields in E2 as (Hc & _ & d & Hd).
  rewrite Hb, Hd. unfold round6.
  destruct (py_round_ok 6 b) as [? ->]. destruct (py_round_ok 6 d) as [? ->].
  destruct (py_round_ok 6 (d ⊖ b)) as [? ->]. by destruct (copied rec2 compared_fields).
Qed.
Lemma curve_readable t s : readable s -> is_ok (threshold_row slo msr sf doc (t, s)) = true.
Proof.
  intros (runs & Hr & Hn & Hrows). unfold threshold_row, recommend. cbn [fst snd]. rewrite Hr.
  pose proof (recommend_total slo msr None sf runs Hn (Hrows None)) as H1.
  pose proof (recommend_total slo msr (Some t) sf runs Hn (Hrows (Some t))) as H2.
  destruct (recommend_runs slo msr None sf runs) as [rec1|] eqn:E1; [|discriminate H1].
  destruct (recommend_runs slo msr (Some t) sf runs) as [rec2|] eqn:E2; [|discriminate H2].
  apply recommend_fields in E1 as (_ & _ & b & Hb). apply recommend_fields in E2 as (_ & Hc & d & Hd).
  rewrite Hb, Hd.
  destruct (py_round_ok 6 b) as [? ->]. destruct (py_round_ok 6 d) as [? ->].
  destruct (py_round_ok 6 (d ⊖ b)) as [? ->]. by destruct (copied rec2 curve_fields).
Qed.
End planner_reads.

Lemma omap_as_dict l : res_map as_dict (map VDict l) = Ok l.
Proof. induction l as [|d l IH]; [done|]. cbn. cbn in IH. by rewrite IH. Qed.

(** Batches small enough to be counted. *)
Definition countable_batches (traffic : string -> Z -> Params -> Traffic) : Prop :=
  forall s r prm, 0 <= b_total (t_measured (traffic s r prm)) <= 2 ^ 1000.

Lemma scenario_readable a traffic env slo msr s entries agg doc :
  a_repeats a <= 2 ^ 1000 -> countable_batches traffic ->
  scenario_entries a traffic env s = Ok entries -> aggregate_run_entries entries = Ok agg ->
  scenario_runs doc s = Ok entries -> readable slo msr doc s.
Proof.
  intros Hrep Hb He Ha Hr. exists entries. split; [done|]. split.
  - unfold scenario_entries in He. apply res_map_zlen in He. rewrite He. unfold zlen, repeats.
    rewrite length_map, length_seq. lia.
  - intros mhr e Hin. destruct (aggregate_labels _ _ _ Ha Hin) as ([v Hv] & Hc & Hq).
    unfold scenario_entries in He. apply res_map_Forall2 in He. apply list_elem_of_lookup in Hin as [i Hi].
    destruct (Forall2_lookup_r _ _ _ _ _ He Hi) as (r & _ & Hrun). unfold reuse_run in Hrun.
    apply windowed_entry in Hrun as (summary & Hload & Hs & _). unfold reuse_load in Hload. cbv zeta in Hload.
    apply run_custom_http_loaded in Hload. eapply run_row_total; [exact Hs|exact Hload| |exact Hv|exact Hc|exact Hq].
    apply float_of_int_ok, Hb.
Qed.

(** The planner can read every reuse experiment.  Whatever the servers answered and
    whatever the scrapes returned, if the experiment finished, then the comparison with
    the baseline and the threshold curve of its report are computed for both scenarios,
    for all constraints and thresholds: no field is missing or of the wrong type and no
    division fails.  The runs of the report are the runs that were measured, in order. *)
Theorem planner_reads_reuse a traffic env report slo msr sf :
  reuse_experiment a traffic env = Ok report -> a_repeats a <= 2 ^ 1000 -> countable_batches traffic ->
  (forall s, s ∈ SCENARIOS -> exists entries, scenario_entries a traffic env s = Ok entries /\
     scenario_runs (VDict report) s = Ok entries /\ length entries = Z.to_nat (a_repeats a)) /\
  (forall t, is_ok (compare_baseline slo msr sf (VDict report) t) = true) /\
  (forall thresholds, is_ok (threshold_rows slo msr sf (VDict report) thresholds) = true).
Proof.
  unfold reuse_experiment. intros H Hrep Hb.
  destruct (scenario_entries a traffic env "low_reuse") as [low|] eqn:El; [|discriminate H].
  destruct (scenario_entries a traffic env "high_reuse") as [high|] eqn:Eh; [|discriminate H].
  destruct (aggregate_run_entries low) as [al|] eqn:Al; [|discriminate H].
  destruct (aggregate_run_entries high) as [ah|] eqn:Ah; [|discriminate H].
  assert (E : forall x : dict, Ok x = Ok report -> report = x) by congruence. apply E in H. clear E.
  assert (Rl : scenario_runs (VDict report) "low_reuse" = Ok low) by (rewrite H; apply omap_as_dict).
  assert (Rh : scenario_runs (VDict report) "high_reuse" = Ok high) by (rewrite H; apply omap_as_dict).
  clear H.
  assert (Hlen : forall s l, scenario_entries a traffic env s = Ok l -> length l = Z.to_nat (a_repeats a)).
  { intros s l Hl. unfold scenario_entries in Hl. apply res_map_length in Hl. rewrite Hl. unfold repeats.
    by rewrite length_map, length_seq. }
  assert (Hread : forall s, s ∈ SCENARIOS -> readable slo msr (VDict report) s).
  { intros s Hs. unfold SCENARIOS in Hs. rewrite !elem_of_cons, elem_of_nil in Hs.
    destruct Hs as [->|[->|[]]]; [by eapply (scenario_readable a traffic env)|by eapply (scenario_readable a traffic env)]. }
  split; [|split].
  - intros s Hs. unfold SCENARIOS in Hs. rewrite !elem_of_cons, elem_of_nil in Hs.
    destruct Hs as [->|[->|[]]]; eexists; split_and!; [exact El|exact Rl|by eapply Hlen|exact Eh|exact Rh|by eapply Hlen].
  - intros t. unfold compare_baseline.
    match goal with |- context [res_map ?f SCENARIOS] => assert (Hok : is_ok (res_map f SCENARIOS) = true) end.
    { apply res_map_ok. intros s Hs. pose proof (compare_readable slo msr sf _ t s (Hread s Hs)) as Hc.
      by destruct (compare_scenario _ _ _ _ t s). }
    by destruct (res_map _ SCENARIOS).
  - intros thresholds. unfold threshold_rows. apply res_map_ok. intros [t s] Hts. apply curve_readable, Hread.
    induction thresholds as [|t' ts IH]; [by apply elem_of_nil in Hts|]. rewrite cells_cons in Hts.
    unfold SCENARIOS. apply elem_of_cons in Hts as [[= -> ->]|Hts]; [set_solver|].
    apply elem_of_cons in Hts as [[= -> ->]|Hts]; [set_solver|by apply IH].
Qed.

Definition demo_args : Args :=
  {| a_base_url := "http://b/"; a_endpoint := "/v1/completions"; a_model := "m"; a_backend_metrics_url := "";
     a_exporter_metrics_url := "http://e/metrics"; a_repeats := 1; a_num_requests := 1; a_concurrency := 1;
     a_input_len := 8; a_output_len := 4; a_warmup_requests := 0; a_timeout_s := of_Z 30; a_base_seed := 42 |}.
Definition reuse_traffic (s : string) (r : Z) (prm : Params) : Traffic := demo_traffic r prm.
Definition reuse_scrapes (s : string) (r : Z) : Env := demo_scrapes r.
Notation "'demo_reuse'" := (reuse_experiment demo_args reuse_traffic reuse_scrapes).
Lemma planner_reads_reuse_witness : exists report, demo_reuse = Ok report /\
  is_ok (compare_baseline (of_Z 1500) (dec 99 (-2)) (dec 9 (-1)) (VDict report) (dec 5 (-2))) = true.
Proof.
  assert (H : is_ok demo_reuse = true) by (vm_compute; reflexivity).
  destruct demo_reuse as [report|] eqn:E; [|discriminate H]. exists report. split; [reflexivity|].
  destruct (planner_reads_reuse demo_args reuse_traffic reuse_scrapes report (of_Z 1500) (dec 99 (-2)) (dec 9 (-1)) E)
    as (_ & Hc & _); [vm_compute; discriminate|intros s r prm; split; vm_compute; discriminate|apply Hc].
Defined.

(** The report of this experiment. *)
Example demo_reuse_lines : (report <-! demo_reuse ;; res_map (scenario_aggregate (VDict report)) SCENARIOS) =
  Ok ["| low_reuse | 1.0000 | 1000.00 | 0.7500 | 0 | 0 | strict | 1/1 | 0/1 | 0.0000 |";
      "| high_reuse | 1.0000 | 1000.00 | 0.7500 | 0 | 0 | strict | 1/1 | 0/1 | 0.0000 |"]%string.
Proof. vm_compute. reflexivity. Qed.
