(* ===== verification/Stage2Report.v ===== *)
(** * The Stage 2 artifact and its reports (benchmark/stage2_evaluation.py,
    benchmark/stage2_report.py, benchmark/paper_report.py)

    The artifact of an evaluation as the JSON document that is written, and the two
    Markdown renderers that read it back. *)

From S2P Require Import Prelude PyFloat PyStr PyVal Digest WindowMetrics Stream Stage2Config Stage2 Stage2Run.

(** ** The artifact *)

Definition quantiles_dict (q : quantiles) : val :=
  VDict [("p50", opt_float (q50 q)); ("p95", opt_float (q95 q)); ("p99", opt_float (q99 q))]%string.
Definition counter_dict (c : counter) : val := VDict (map (fun kn : string * Z => (kn.1, VInt kn.2)) c).
Definition summary_dict (s : Summary) : dict :=
  [("requests", VInt (su_requests s)); ("ok", VInt (su_ok s)); ("failed", VInt (su_failed s));
   ("error_rate", VFloat (su_error_rate s)); ("throughput_req_s", VFloat (su_throughput_req_s s));
   ("latency_ms", quantiles_dict (su_latency_ms s)); ("ttft_ms", quantiles_dict (su_ttft_ms s));
   ("routing_distribution", counter_dict (su_routing_distribution s));
   ("route_switches", VInt (su_route_switches s)); ("fallback_count", VInt (su_fallback_count s));
   ("sample_errors", VList (map VStr (su_sample_errors s))); ("elapsed_s", VFloat (su_elapsed_s s))]%string.
Definition window_dict (w : Window) : dict :=
  [("prefix_hits_delta", opt_float (wi_prefix_hits_delta w)); ("prefix_queries_delta", opt_float (wi_prefix_queries_delta w));
   ("kv_reuse_rate", opt_float (wi_kv_reuse_rate w)); ("gpu_kv_utilization_mean", opt_float (wi_gpu_kv_utilization_mean w));
   ("queue_depth_mean", opt_float (wi_queue_depth_mean w)); ("metric_quality", VStr (wi_metric_quality w))]%string.
Definition sample_dict (s : Sample) : dict :=
  [("index", VInt (sm_index s)); ("ok", VBool (sm_ok s)); ("status", VInt (sm_status s)); ("error", VStr (sm_error s));
   ("latency_ms", VFloat (sm_latency_ms s)); ("ttft_ms", opt_float (sm_ttft_ms s));
   ("response_bytes", VInt (sm_response_bytes s)); ("backend", VStr (sm_backend s)); ("fallback", VBool (sm_fallback s));
   ("request_id", VStr (sm_request_id s))]%string.
Definition errors_dict (errors : list (string * string)) : val := VDict (map (fun ke : string * string => (ke.1, VStr ke.2)) errors).
Definition repetition_dict (r : Repetition) : dict :=
  [("repetition", VInt (rp_repetition r)); ("summary", VDict (summary_dict (rp_summary r)));
   ("backend_window", VDict (window_dict (rp_backend_window r)));
   ("metric_scrape_errors", VDict [("before", errors_dict (rp_scrape_errors r).1); ("after", errors_dict (rp_scrape_errors r).2)]);
   ("samples", VList (map (fun s => VDict (sample_dict s)) (rp_samples r)))]%string.
Definition estimate_dict (e : estimate) : val :=
  VDict [("mean", opt_float (es_mean e)); ("ci95_low", opt_float (es_low e)); ("ci95_high", opt_float (es_high e));
         ("n", VInt (es_n e))]%string.
Definition aggregate_dict (a : Aggregate) : dict :=
  [("repetitions", VInt (ag_repetitions a)); ("throughput_req_s", estimate_dict (ag_throughput_req_s a));
   ("error_rate", estimate_dict (ag_error_rate a)); ("latency_p50_ms", estimate_dict (ag_latency_p50_ms a));
   ("latency_p95_ms", estimate_dict (ag_latency_p95_ms a)); ("latency_p99_ms", estimate_dict (ag_latency_p99_ms a));
   ("ttft_p50_ms", estimate_dict (ag_ttft_p50_ms a)); ("ttft_p95_ms", estimate_dict (ag_ttft_p95_ms a));
   ("ttft_p99_ms", estimate_dict (ag_ttft_p99_ms a)); ("kv_reuse_rate", estimate_dict (ag_kv_reuse_rate a));
   ("gpu_kv_utilization_mean", estimate_dict (ag_gpu_kv_utilization_mean a));
   ("queue_depth_mean", estimate_dict (ag_queue_depth_mean a)); ("route_switches", VInt (ag_route_switches a));
   ("fallback_count", VInt (ag_fallback_count a)); ("routing_distribution", counter_dict (ag_routing_distribution a));
   ("metric_quality", VStr (ag_metric_quality a))]%string.
Definition result_dict (r : result) : dict :=
  [("strategy", VStr (rs_strategy r)); ("workload", VStr (rs_workload r));
   ("repetitions", VList (map (fun p => VDict (repetition_dict p)) (rs_repetitions r)));
   ("aggregate", VDict (aggregate_dict (rs_aggregate r)))]%string.
Definition slot_dict (s : slot) : dict :=
  [("workload", VStr (sl_workload s)); ("repetition", VInt (sl_repetition s));
   ("target_order", VList (map VStr (sl_target_order s)))]%string.
Definition comparison_dict (c : comparison) : dict :=
  [("strategy", VStr (cp_strategy c)); ("workload", VStr (cp_workload c));
   ("gateway_ttft_p95_overhead_ms", opt_float (cp_ttft_overhead_ms c));
   ("gateway_latency_p95_overhead_ms", opt_float (cp_latency_overhead_ms c))]%string.
Definition report_dict (r : report) : dict :=
  [("schema_version", VStr "kavora-stage2-evaluation/v2"); ("status", VStr "real_backend_measurement");
   ("config_hash", VStr (rt_config_hash r)); ("generated_at_unix", VFloat (rt_generated_at r));
   ("manifest", VDict (rt_manifest r)); ("results", VList (map (fun p => VDict (result_dict p)) (rt_results r)));
   ("execution_schedule", VList (map (fun s => VDict (slot_dict s)) (rt_schedule r)));
   ("comparisons", VList (map (fun c => VDict (comparison_dict c)) (rt_comparisons r)));
   ("claim_boundary", VStr stage2_claim_boundary)]%string.

(** ** The Stage 2 report *)

(** [f"{v:.nf}"]: numbers only. *)
Definition format_fixed (n : nat) (v : val) : res string :=
  match v with
  | VFloat x => Ok (fmt_fixed n x)
  | VInt z => x <-! float_of_int z ;; Ok (fmt_fixed n x)
  | VBool b => Ok (fmt_fixed n (if b then f1 else f0))
  | VStr _ => Err (ValueError "Unknown format code 'f' for object of type 'str'")
  | _ => Err TypeError
  end.
Definition _fmt (v : val) : res string := match v with VNone => Ok "n/a"%string | _ => format_fixed 2 v end.
Definition _estimate (metric : val) : res string :=
  mean <-! vget metric "mean" VNone ;;
  low <-! vget metric "ci95_low" VNone ;;
  high <-! vget metric "ci95_high" VNone ;;
  match mean, low, high with
  | VNone, _, _ => Ok "n/a"%string
  | _, VNone, _ | _, _, VNone => _fmt mean
  | _, _, _ => m <-! _fmt mean ;; l <-! _fmt low ;; h <-! _fmt high ;;
               Ok (m +:+ " [" +:+ l +:+ ", " +:+ h +:+ "]")
  end.

Definition row_of (cells : list string) : string := "| " +:+ join " | " cells +:+ " |".
Definition code_cell (v : val) : string := "`" +:+ py_str v +:+ "`".
Definition ESTIMATES : list string :=
  ["ttft_p50_ms"; "ttft_p95_ms"; "ttft_p99_ms"; "latency_p95_ms"; "throughput_req_s"; "error_rate"; "kv_reuse_rate";
   "gpu_kv_utilization_mean"; "queue_depth_mean"]%string.
Definition result_line (result : val) : res string :=
  aggregate <-! vitem result "aggregate" ;;
  strategy <-! vitem result "strategy" ;;
  workload <-! vitem result "workload" ;;
  estimates <-! res_map (fun k => m <-! vitem aggregate k ;; _estimate m) ESTIMATES ;;
  switches <-! vitem aggregate "route_switches" ;;
  fallbacks <-! vitem aggregate "fallback_count" ;;
  Ok (row_of ([code_cell strategy; code_cell workload] ++ estimates ++ [py_str switches; py_str fallbacks])).
Definition overhead_line (comparison : val) : res string :=
  strategy <-! vitem comparison "strategy" ;;
  workload <-! vitem comparison "workload" ;;
  t <-! vitem comparison "gateway_ttft_p95_overhead_ms" ;; ttft <-! _fmt t ;;
  l <-! vitem comparison "gateway_latency_p95_overhead_ms" ;; latency <-! _fmt l ;;
  Ok (row_of [code_cell strategy; code_cell workload; ttft; latency]).
Definition backend_id_of (backend : val) : res string :=
  match backend with VDict _ => v <-! vitem backend "id" ;; Ok (py_str v) | _ => Ok (py_str backend) end.
Definition labelled (label : string) (v : val) : string := "- " +:+ label +:+ ": `" +:+ py_str v +:+ "`".

Definition render (report : val) : res string :=
  manifest <-! vitem report "manifest" ;;
  backends <-! vitem manifest "backends" ;;
  backends <-! viter backends ;;
  backend_ids <-! res_map backend_id_of backends ;;
  status <-! vitem report "status" ;;
  config_hash <-! vitem report "config_hash" ;;
  model <-! vitem manifest "model" ;;
  revision <-! vitem manifest "model_revision" ;;
  version <-! vitem manifest "backend_version" ;;
  repetitions <-! vitem manifest "repetitions" ;;
  gpu <-! vitem manifest "gpu" ;;
  results <-! vitem report "results" ;;
  results <-! viter results ;;
  rows <-! res_map result_line results ;;
  comparisons <-! vget report "comparisons" (VList []) ;;
  comparisons <-! viter comparisons ;;
  overheads <-! res_map overhead_line comparisons ;;
  boundary <-! vitem report "claim_boundary" ;;
  boundary <-! (match boundary with VStr s => Ok s | _ => Err TypeError end) ;;
  Ok (join (str [chr 10])
    (["# Kavora Stage 2 Real-Backend Evaluation"; ""; labelled "Status" status; labelled "Config hash" config_hash;
      labelled "Model" model; labelled "Model revision" revision; labelled "Backend version" version;
      labelled "Repetitions" repetitions; labelled "Backends" (VStr (join ", " backend_ids)); labelled "GPU" gpu; "";
      "Values with brackets are mean and 95% confidence interval across repetitions."; "";
      "| Strategy | Workload | TTFT p50 ms | TTFT p95 ms | TTFT p99 ms | E2E p95 ms | Throughput req/s | Error rate | KV reuse | KV util | Queue | Switches | Fallbacks |";
      "|---|---|---:|---:|---:|---:|---:|---:|---:|---:|---:|---:|---:|"]%string
     ++ rows
     ++ [""; "## Gateway Overhead"; ""; "| Strategy | Workload | TTFT p95 overhead ms | E2E p95 overhead ms |"; "|---|---|---:|---:|"]%string
     ++ overheads
     ++ [""; "## Claim Boundary"; ""; boundary; "";
         "A missing KV metric is reported as `n/a`; it is never converted to zero. Shadow routing is evaluated as an observation mode, not described as enforced traffic placement."; ""]%string)).

(** ** The research report *)

(** What the host says: [command_output] of git and nvidia-smi, [platform], the clock. *)
Record PaperHost := { ph_git : string; ph_platform : string; ph_python : string; ph_gpu : string; ph_time : float }.
(** [stage2.get("manifest", {}).get("seed", stage2.get("config", {}).get("seed", 42))] *)
Definition paper_seed (stage2 : dict) : res val :=
  fallback <-! vget (dget_or stage2 "config" (VDict [])) "seed" (VInt 42) ;;
  vget (dget_or stage2 "manifest" (VDict [])) "seed" fallback.
Definition paper_manifest (stage1 stage2 : dict) (host : PaperHost) : res dict :=
  seed <-! paper_seed stage2 ;;
  Ok [("schema_version", VStr "kavora-research-manifest/v1"); ("git_revision", VStr (ph_git host));
      ("platform", VStr (ph_platform host)); ("python", VStr (ph_python host)); ("gpu", VStr (ph_gpu host));
      ("stage1_config_hash", dget_or stage1 "config_hash" (VStr "unknown"));
      ("stage2_config_hash", dget_or stage2 "config_hash" (VStr "unknown"));
      ("stage2_status", dget_or stage2 "status" (VStr "unknown")); ("seed", seed)]%string.
Definition RESEARCH_QUESTION : string :=
  "Can a governed Go/Rust inference control plane preserve OpenAI-compatible behavior while exposing KV-aware routing evidence and safe fallback?".
Definition paper_method : val :=
  VDict [("baselines", VList [VStr "direct backend"; VStr "Gateway static path"; VStr "Gateway enforced controller path"]);
         ("metrics", VList [VStr "throughput_req_s"; VStr "ttft_p95_ms"; VStr "tail_latency_p99_ms"; VStr "error_rate"]);
         ("quality_boundary", VStr "real measurements, proxy measurements, smoke evidence, and missing/stale signals are reported separately")]%string.
Definition limitations (stage2 : dict) : list val :=
  [VStr "A configured endpoint label is not evidence by itself; the raw Stage 2 artifact and service manifest must be reviewed together.";
   dget_or stage2 "claim_boundary"
     (VStr "KV-aware performance improvement is not claimed without repeated independent backends and matched workloads.");
   VStr "TTFT and latency are end-to-end measurements, not isolated Go/Rust CPU timings."].
Definition build_report (stage1 stage2 : dict) (host : PaperHost) : res dict :=
  manifest <-! paper_manifest stage1 stage2 host ;;
  encoded <-! json_dumps (VDict manifest) ;;
  Ok [("schema_version", VStr "kavora-paper-report/v1"); ("generated_at_unix", VFloat (ph_time host));
      ("manifest", VDict manifest); ("manifest_hash", VStr (sha256_hex encoded));
      ("research_question", VStr RESEARCH_QUESTION); ("method", paper_method);
      ("stage1", VDict stage1); ("stage2", VDict stage2); ("limitations", VList (limitations stage2))]%string.

Definition paper_fmt (v : val) : res string := match v with VNone => Ok "n/a"%string | _ => format_fixed 3 v end.
Definition mean_at (aggregate : val) (k : string) : res string := m <-! vitem aggregate k ;; x <-! vitem m "mean" ;; paper_fmt x.
Definition paper_result_line (result : val) : res string :=
  aggregate <-! vitem result "aggregate" ;;
  strategy <-! vitem result "strategy" ;;
  workload <-! vitem result "workload" ;;
  cells <-! res_map (mean_at aggregate) ["throughput_req_s"; "ttft_p95_ms"; "latency_p99_ms"; "error_rate"]%string ;;
  Ok (row_of (("`" +:+ py_str strategy +:+ " / " +:+ py_str workload +:+ "`") :: cells)).
Definition paper_row_line (row : val) : res string :=
  strategy <-! vitem row "strategy" ;;
  cells <-! res_map (fun k => v <-! vitem row k ;; paper_fmt v)
    ["throughput_req_s"; "ttft_p95_ms"; "tail_latency_p99_ms"; "error_rate"]%string ;;
  Ok (row_of (code_cell strategy :: cells)).
Definition paper_lines (stage2 : val) : res (list string) :=
  results <-! vget stage2 "results" VNone ;;
  if truthy results then items <-! viter results ;; res_map paper_result_line items
  else rows <-! vget stage2 "rows" (VList []) ;; items <-! viter rows ;; res_map paper_row_line items.
Definition markdown (report : val) : res string :=
  stage2 <-! vitem report "stage2" ;;
  question <-! vitem report "research_question" ;;
  question <-! (match question with VStr s => Ok s | _ => Err TypeError end) ;;
  hash <-! vitem report "manifest_hash" ;;
  manifest <-! vitem report "manifest" ;;
  git <-! vitem manifest "git_revision" ;;
  gpu <-! vitem manifest "gpu" ;;
  status <-! vget stage2 "status" (VStr "unknown") ;;
  seed <-! vitem manifest "seed" ;;
  rows <-! paper_lines stage2 ;;
  items <-! vitem report "limitations" ;;
  items <-! viter items ;;
  Ok (join (str [chr 10])
    (["# Kavora Performance Research Report"; ""; "## Abstract"; ""; question;
      "This report evaluates the implemented control plane with reproducible artifacts and keeps mechanism evidence separate from performance claims.";
      ""; "## Reproducibility Manifest"; ""; labelled "Manifest hash" hash; labelled "Git revision" git;
      labelled "Hardware" gpu; labelled "Stage 2 status" status; labelled "Seed" seed; ""; "## Method"; "";
      "| Baseline | Meaning |"; "|---|---|"; "| direct backend | vLLM OpenAI endpoint without Kavora |";
      "| Gateway static path | Go Gateway + Rust Policy + static backend candidates |";
      "| Gateway enforced path | Gateway with state-driven candidate preference and safe fallback |"; ""; "## Results"; "";
      "| Path/strategy | Throughput req/s | TTFT p95 ms | p99 ms | Error rate |"; "|---|---:|---:|---:|---:|"]%string
     ++ rows
     ++ [""; "## Interpretation"; "";
         "The experiment validates the end-to-end path and the enforced controller's safety behavior. It does not establish a causal performance advantage for KV-aware routing.";
         ""; "## Limitations"; ""]%string
     ++ map (fun item => "- " +:+ py_str item) items ++ [""%string])).

(** ** Properties *)

(** The manifest hash of the research report is a fingerprint of the host, the two
    configurations, the status and the seed; no measurement enters it. *)
Lemma paper_hash_reproducible stage1 stage1' stage2 stage2' host time :
  (forall k, k ∈ ["config_hash"]%string -> dget stage1 k = dget stage1' k) ->
  (forall k, k ∈ ["config_hash"; "status"; "manifest"; "config"]%string -> dget stage2 k = dget stage2' k) ->
  (r <-! build_report stage1 stage2 host ;; vitem (VDict r) "manifest_hash") =
  (r <-! build_report stage1' stage2' {| ph_git := ph_git host; ph_platform := ph_platform host; ph_python := ph_python host;
     ph_gpu := ph_gpu host; ph_time := time |} ;; vitem (VDict r) "manifest_hash").
Proof.
  intros H1 H2. unfold build_report, paper_manifest, paper_seed, dget_or. cbn [ph_git ph_platform ph_python ph_gpu].
  rewrite (H1 "config_hash"%string), (H2 "config_hash"%string), (H2 "status"%string), (H2 "manifest"%string),
    (H2 "config"%string) by (rewrite !elem_of_cons; auto 10).
  destruct (vget _ "seed" (VInt 42)); [|done]. destruct (vget _ "seed" _); [|done].
  by destruct (json_dumps _).
Qed.

(** ** What the Stage 2 report says of a missing number *)

Definition cell (e : estimate) : string :=
  match es_mean e, es_low e, es_high e with
  | None, _, _ => "n/a"
  | Some m, Some l, Some h => fmt_fixed 2 m +:+ " [" +:+ fmt_fixed 2 l +:+ ", " +:+ fmt_fixed 2 h +:+ "]"
  | Some m, _, _ => fmt_fixed 2 m
  end.
Definition overhead_cell (o : option float) : string := match o with None => "n/a" | Some x => fmt_fixed 2 x end.
Definition result_row (r : result) : string :=
  let a := rs_aggregate r in
  row_of (["`" +:+ rs_strategy r +:+ "`"; "`" +:+ rs_workload r +:+ "`"; cell (ag_ttft_p50_ms a); cell (ag_ttft_p95_ms a);
    cell (ag_ttft_p99_ms a); cell (ag_latency_p95_ms a); cell (ag_throughput_req_s a); cell (ag_error_rate a);
    cell (ag_kv_reuse_rate a); cell (ag_gpu_kv_utilization_mean a); cell (ag_queue_depth_mean a);
    str_of_Z (ag_route_switches a); str_of_Z (ag_fallback_count a)]).
Definition comparison_row (c : comparison) : string :=
  row_of ["`" +:+ cp_strategy c +:+ "`"; "`" +:+ cp_workload c +:+ "`"; overhead_cell (cp_ttft_overhead_ms c);
          overhead_cell (cp_latency_overhead_ms c)].

Lemma length_chars s : length (chars s) = String.length s.
Proof. unfold chars. induction s as [|c s IH]; simpl; [done|by rewrite IH]. Qed.
Lemma length_zeros n : length (chars (zeros n)) = n.
Proof. unfold zeros. by rewrite chars_str, length_replicate. Qed.
Lemma fmt_fixed_long x : isfinite x = true -> (4 <= length (chars (fmt_fixed 2 x)))%nat.
Proof.
  assert (H : forall sign s, (4 <= length (chars ((if sign : bool then "-" else "") +:+
     str (take (length (chars (pad_left 3 s)) - 2) (chars (pad_left 3 s))) +:+ "." +:+
     str (drop (length (chars (pad_left 3 s)) - 2) (chars (pad_left 3 s))))))%nat).
  { intros sign s. rewrite !chars_app, !chars_str, !length_app, length_take, length_drop.
    assert (Hp : (3 <= length (chars (pad_left 3 s)))%nat).
    { unfold pad_left. rewrite chars_app, length_app, length_zeros, length_chars. lia. }
    change (length (chars ".")) with 1%nat. lia. }
  intros Hx. unfold fmt_fixed. destruct x; try discriminate Hx; destruct (abs_frac _); apply H.
Qed.
Lemma fmt_fixed_not_na x : fmt_fixed 2 x <> "n/a"%string.
Proof.
  destruct (isfinite x) eqn:E; [|by destruct x as [|[]| |]].
  pose proof (fmt_fixed_long x E) as H. intros Hx. rewrite Hx in H. vm_compute in H. lia.
Qed.
Lemma cell_na e : cell e = "n/a"%string <-> es_mean e = None.
Proof.
  unfold cell. destruct (es_mean e) as [m|]; [|done]. split; [|done].
  destruct (es_low e) as [l|], (es_high e) as [h|]; intros H; try by apply fmt_fixed_not_na in H.
  assert (Hl : length (chars "n/a") = 3%nat) by done.
  exfalso. rewrite <- H, !chars_app, !length_app in Hl.
  change (length (chars " [")) with 2%nat in Hl. change (length (chars ", ")) with 2%nat in Hl.
  change (length (chars "]")) with 1%nat in Hl. lia.
Qed.

Lemma estimate_cell e : _estimate (estimate_dict e) = Ok (cell e).
Proof. unfold _estimate, cell. destruct e as [[m|] [l|] [h|] n]; reflexivity. Qed.
Lemma result_line_row r : result_line (VDict (result_dict r)) = Ok (result_row r).
Proof.
  unfold result_line, result_dict. cbn [vitem dget String.eqb Ascii.eqb Bool.eqb res_map ESTIMATES aggregate_dict].
  rewrite !estimate_cell. reflexivity.
Qed.
Lemma overhead_line_row c : overhead_line (VDict (comparison_dict c)) = Ok (comparison_row c).
Proof.
  unfold overhead_line, comparison_row, overhead_cell, comparison_dict. cbn [vitem dget String.eqb Ascii.eqb Bool.eqb].
  destruct (cp_ttft_overhead_ms c), (cp_latency_overhead_ms c); reflexivity.
Qed.
Lemma res_map_dicts {A} (f : val -> res string) (d : A -> dict) (g : A -> string) l :
  (forall x, f (VDict (d x)) = Ok (g x)) -> res_map f (map (fun x => VDict (d x)) l) = Ok (map g l).
Proof. intros H. induction l as [|x l IH]; [done|]. cbn [map res_map]. by rewrite H, IH. Qed.

Lemma mean_ci_none values e : _mean_ci95 values = Ok e -> (es_mean e = None <-> values = []).
Proof.
  unfold _mean_ci95. destruct values as [|x l]; [by intros [= <-]|]. intros H.
  destruct (mean (x :: l)); [|done]. destruct (zlen (x :: l) <? 2); [by injection H as <-|].
  inv_ok H. by subst e.
Qed.
Lemma aggregate_reuse reps a : aggregate_repetitions reps = Ok a ->
  _mean_ci95 (values (fun r => wi_kv_reuse_rate (rp_backend_window r)) reps) = Ok (ag_kv_reuse_rate a) /\
  _mean_ci95 (values (fun r => wi_gpu_kv_utilization_mean (rp_backend_window r)) reps) = Ok (ag_gpu_kv_utilization_mean a) /\
  _mean_ci95 (values (fun r => wi_queue_depth_mean (rp_backend_window r)) reps) = Ok (ag_queue_depth_mean a).
Proof.
  unfold aggregate_repetitions. intros H. cbv zeta in H.
  repeat match type of H with
  | match ?c with Ok _ => _ | Err _ => _ end = Ok _ => destruct c eqn:?; [|discriminate H]
  end.
  injection H as <-. by split_and!.
Qed.


Definition demo_host : Host :=
  {| h_git := "abc"; h_python := "3.12.0"; h_platform := "Linux"; h_gpu := "unknown"; h_time := f1 |}.
Notation "'demo_report'" := (run_evaluation demo_measure demo_config demo_host).
