(* ===== verification/FinalReport.v ===== *)
(** * The final report (scripts/generate_final_report.py)

    One Markdown report, in English or Chinese, from the artifacts of the reuse experiment,
    the baseline comparison, the threshold curve and the capacity sweep.  Texts are UTF-8
    here: they are only concatenated.  Reading the files and resolving paths is in [Bundle]. *)

From S2P Require Import Prelude PyFloat FloatOrder PyStr PyPath PyVal WindowMetrics Policy Calibrator LoadRunner Experiment Sweep Threshold Reuse Stage2Report.

Inductive Lang : Type := En | Zh.
Definition by_lang {A} (lang : Lang) (zh en : A) : A := match lang with Zh => zh | En => en end.

(** ** Fields *)

Definition _fmt_float (v : val) : res string := na_or_fixed v.
Definition _fmt_count_coverage (item : val) (count_key total_key : string) : res string :=
  total <-! vget item total_key VNone ;;
  count <-! vget item count_key VNone ;;
  match total, count with
  | VNone, _ | _, VNone => Ok "NA"%string
  | _, _ =>
      t <-! int_of_val total ;;
      if t <=? 0 then Ok "NA"%string
      else n <-! int_of_val count ;; Ok (str_of_Z n +:+ "/" +:+ str_of_Z t)
  end.
Definition _fmt_metric_coverage (item : val) (total_key : string) : res string :=
  _fmt_count_coverage item "num_runs_ok_metrics" total_key.
(** [_fmt_float(d.get(k))], [str(d.get(k, x))] *)
Definition float_field (d : val) (k : string) : res string := v <-! vget d k VNone ;; _fmt_float v.
Definition text_field (d : val) (k missing : string) : res string := v <-! vget d k (VStr missing) ;; Ok (py_str v).
(** [doc.get(outer, {}).get(scenario, {})] *)
Definition scenario_entry (doc : val) (outer scenario : string) : res val :=
  m <-! vget doc outer (VDict []) ;; vget m scenario (VDict []).
Definition ranking_entry (capacity_doc : val) (scenario : string) : res val :=
  ranking <-! vget capacity_doc "ranking" (VDict []) ;;
  by_scenario <-! vget ranking "by_scenario" (VDict []) ;;
  vget by_scenario scenario (VDict []).

Inductive title : Type :=
| TReport | TDecision | TContext | TSetup | TExec | TFindings | TReuse | TBaseline | TThreshold | TCapacity.
Definition _title (lang : Lang) (key : title) : string :=
  match key with
  | TReport => by_lang lang "# 最终实验汇报" "# Final Experiment Report"
  | TDecision => by_lang lang "## 决策摘要" "## Decision Summary"
  | TContext => by_lang lang "## 项目背景" "## Project Context"
  | TSetup => by_lang lang "## 实验设置" "## Experiment Setup"
  | TExec => by_lang lang "## 高层概览" "## Executive Summary"
  | TFindings => by_lang lang "## 关键发现" "## Key Findings"
  | TReuse => by_lang lang "## 复用实验摘要" "## Reuse Summary"
  | TBaseline => by_lang lang "## 基线与双边界对比" "## Baseline Compare"
  | TThreshold => by_lang lang "## 阈值扫描" "## Threshold Scan"
  | TCapacity => by_lang lang "## 容量扫描" "## Capacity Sweep"
  end.
Definition _reuse_scenario_label (lang : Lang) (scenario : string) : string :=
  match lang with
  | En => scenario
  | Zh => if String.eqb scenario "low_reuse" then "低复用"
          else if String.eqb scenario "high_reuse" then "高复用" else scenario
  end.

(** ** What the documents say *)

(** [int(point["concurrency"])] and a number of a point that may be missing. *)
Definition point_concurrency (point : val) : res string :=
  match point with
  | VNone => Ok "NA"%string
  | _ => c <-! vitem point "concurrency" ;; z <-! int_of_val c ;; Ok (str_of_Z z)
  end.
Definition point_number (point : val) (k : string) : res string :=
  match point with VNone => Ok "NA"%string | _ => float_field point k end.

(** The largest threshold of some rows whose boundary rate is positive. *)
Definition keeps_dual (row : val) : res bool :=
  v <-! vget row "dual_rps" (VFloat f0) ;; x <-! float_of_val v ;; Ok (x >?. f0).
Definition row_float (k : string) (row : val) : res float := v <-! vitem row k ;; float_of_val v.
Definition max_default (l : list float) : option float := match l with [] => None | x :: l' => Some (fmax_from x l') end.
Definition max_threshold (rows : list val) : res (option float) :=
  dual_positive <-! res_filter keeps_dual rows ;;
  thresholds <-! res_map (row_float "min_hit_ratio") dual_positive ;;
  Ok (max_default thresholds).
(** [[row for row in doc.get("rows", []) if str(row.get("scenario")) == scenario]] *)
Definition rows_for (threshold_doc : val) (scenario : string) : res (list val) :=
  rows <-! vget threshold_doc "rows" (VList []) ;;
  items <-! viter rows ;;
  res_filter (fun row => v <-! vget row "scenario" VNone ;; Ok (String.eqb (py_str v) scenario)) items.
Definition resilience (threshold_doc : val) (scenario : string) : res string :=
  rows <-! rows_for threshold_doc scenario ;;
  t <-! max_threshold rows ;;
  _fmt_float (opt_float t).

(** [lines.append(...)] for a document that may be absent. *)
Definition when (doc : option val) (lines : val -> res (list string)) : res (list string) :=
  match doc with None => Ok [] | Some d => lines d end.

(** ** The sections *)

Definition decision_baseline (lang : Lang) (baseline_doc : option val) : res (list string) :=
  match baseline_doc with
  | Some doc =>
      high <-! scenario_entry doc "scenarios" "high_reuse" ;;
      baseline <-! float_field high "baseline_hard_only_recommended_rps" ;;
      dual <-! float_field high "dual_boundary_recommended_rps" ;;
      Ok [by_lang lang
        ("- 近期建议：优先关注高复用区间。该区间 baseline 容量为 `" +:+ baseline +:+ "`，dual-boundary 容量为 `" +:+ dual +:+ "`。")
        ("- Near-term recommendation: prioritize the high_reuse operating region, where baseline capacity is `" +:+ baseline
         +:+ "` and dual-boundary capacity is `" +:+ dual +:+ "`.")]
  | None =>
      Ok [by_lang lang
        "- 近期建议：先用本报告比较 baseline 吞吐与 cache-aware 安全边界，再决定默认 serving 策略。"
        "- Near-term recommendation: use this report to compare baseline throughput and cache-aware safety margins before setting a serving default."]%string
  end.
Definition decision_capacity (lang : Lang) (doc : val) : res (list string) :=
  high_cap <-! ranking_entry doc "high_reuse" ;;
  highest <-! vget high_cap "highest_feasible_point" VNone ;;
  best_safe <-! vget high_cap "best_safe_point" VNone ;;
  highest_c <-! point_concurrency highest ;;
  best_c <-! point_concurrency best_safe ;;
  Ok [by_lang lang
    ("- 容量建议：可把并发 `" +:+ highest_c +:+ "` 视作高复用场景下的最高可行点，把并发 `" +:+ best_c +:+ "` 视作更稳妥的 best safe 点。")
    ("- Capacity decision: treat concurrency `" +:+ highest_c +:+ "` as the highest feasible target and concurrency `" +:+ best_c
     +:+ "` as the safer operating point for high_reuse.")].
Definition decision_threshold (lang : Lang) (doc : val) : res (list string) :=
  threshold <-! resilience doc "high_reuse" ;;
  Ok [by_lang lang
    ("- 策略建议：如果希望保留高复用场景下的 dual 容量，`min_hit_ratio` 最好控制在 `" +:+ threshold +:+ "` 及以下。")
    ("- Policy decision: keep `min_hit_ratio` at or below `" +:+ threshold
     +:+ "` if you want cache-aware policy constraints without collapsing dual capacity in high_reuse.")].
Definition _build_decision_summary (lang : Lang) (baseline_doc threshold_doc capacity_doc : option val) : res (list string) :=
  baseline <-! decision_baseline lang baseline_doc ;;
  capacity <-! when capacity_doc (decision_capacity lang) ;;
  threshold <-! when threshold_doc (decision_threshold lang) ;;
  Ok ([_title lang TDecision; ""%string] ++ baseline ++ capacity ++ threshold ++ [""%string]).

Definition _build_project_context (lang : Lang) (reuse_doc : val) : res (list string) :=
  meta <-! vitem reuse_doc "meta" ;;
  base_url <-! text_field meta "base_url" "unknown" ;;
  model <-! text_field meta "model" "unknown" ;;
  Ok [_title lang TContext; "";
      by_lang lang
        "- 目标：评估 KV cache 复用信号是否足够稳定，能否支持 cache-aware 的 serving 建议，而不是只比较原始吞吐。"
        "- Objective: evaluate whether KV cache reuse signals are strong enough to support cache-aware serving recommendations, not just raw throughput comparison.";
      by_lang lang
        "- 范围：基于仓库内 exporter + benchmark + planner 链路，对复用场景、阈值扫描、容量扫描做本地离线实验。"
        "- Scope: local offline experiments over reuse scenarios, threshold scans, and capacity sweep points, using the repository's exporter + benchmark + planner chain.";
      by_lang lang ("- 服务入口：`" +:+ base_url +:+ "`。") ("- Backend entrypoint: `" +:+ base_url +:+ "`.");
      by_lang lang ("- 测试模型：`" +:+ model +:+ "`。") ("- Model under test: `" +:+ model +:+ "`."); ""]%string.

(** [",".join(...) or "NA"] *)
Definition or_na (s : string) : string := if String.eqb s "" then "NA" else s.
Definition setup_capacity (lang : Lang) (doc : val) : res (list string) :=
  cap_meta <-! vget doc "meta" (VDict []) ;;
  scenarios <-! vget cap_meta "scenarios" (VList []) ;;
  names <-! viter scenarios ;;
  names <-! res_map (fun v => match v with VStr s => Ok s | _ => Err TypeError end) names ;;
  values <-! vget cap_meta "concurrency_values" (VList []) ;;
  values <-! viter values ;;
  repeats <-! text_field cap_meta "repeats" "NA" ;;
  let scenarios := or_na (join "," names) in
  let concurrency_values := or_na (join "," (map py_str values)) in
  Ok [by_lang lang
    ("- 容量扫描：场景 `" +:+ scenarios +:+ "`，并发点 `" +:+ concurrency_values +:+ "`，每个点重复 `" +:+ repeats +:+ "` 次。")
    ("- Capacity sweep: scenarios `" +:+ scenarios +:+ "`, concurrency_values `" +:+ concurrency_values +:+ "`, repeats `"
     +:+ repeats +:+ "`.")].
Definition _build_experiment_setup (lang : Lang) (reuse_doc : val) (capacity_doc : option val) : res (list string) :=
  meta <-! vget reuse_doc "meta" (VDict []) ;;
  repeats <-! text_field meta "repeats" "NA" ;;
  concurrency <-! text_field meta "concurrency" "NA" ;;
  num_requests <-! text_field meta "num_requests" "NA" ;;
  input_len <-! text_field meta "input_len" "NA" ;;
  output_len <-! text_field meta "output_len" "NA" ;;
  backend <-! text_field meta "backend_metrics_url" "unknown" ;;
  exporter <-! text_field meta "exporter_metrics_url" "unknown" ;;
  capacity <-! when capacity_doc (setup_capacity lang) ;;
  Ok ([_title lang TSetup; "";
       by_lang lang
         ("- 复用实验：重复 `" +:+ repeats +:+ "` 次，并发 `" +:+ concurrency +:+ "`，请求数 `" +:+ num_requests +:+ "`，输入长度 `"
          +:+ input_len +:+ "`，输出长度 `" +:+ output_len +:+ "`。")
         ("- Reuse experiment: repeats `" +:+ repeats +:+ "`, concurrency `" +:+ concurrency +:+ "`, num_requests `" +:+ num_requests
          +:+ "`, input_len `" +:+ input_len +:+ "`, output_len `" +:+ output_len +:+ "`.");
       by_lang lang
         ("- 指标来源：backend metrics `" +:+ backend +:+ "`，exporter metrics `" +:+ exporter +:+ "`。")
         ("- Metrics source: backend metrics `" +:+ backend +:+ "` and exporter metrics `" +:+ exporter +:+ "`.")]%string
      ++ capacity ++ [""%string]).

(** The numbers of a scenario's aggregates that the summaries quote. *)
Record headline := { hl_req : string; hl_hit : string; hl_quality : string; hl_coverage : string }.
Definition headline_of (reuse_doc : val) (scenario : string) : res headline :=
  agg <-! scenario_entry reuse_doc "aggregates" scenario ;;
  req <-! float_field agg "req_s_mean" ;;
  hit <-! float_field agg "hit_ratio_mean" ;;
  quality <-! vget agg "quality_summary" (VDict []) ;;
  mq <-! text_field quality "metric_quality" "missing" ;;
  cov <-! _fmt_metric_coverage quality "total_runs" ;;
  Ok {| hl_req := req; hl_hit := hit; hl_quality := mq; hl_coverage := cov |}.

Definition exec_baseline (lang : Lang) (doc : val) : res (list string) :=
  high <-! scenario_entry doc "scenarios" "high_reuse" ;;
  baseline <-! float_field high "baseline_hard_only_recommended_rps" ;;
  dual <-! float_field high "dual_boundary_recommended_rps" ;;
  delta <-! float_field high "delta_dual_minus_baseline" ;;
  Ok [by_lang lang
    ("- 策略结论：高复用场景 baseline 为 `" +:+ baseline +:+ "`，dual 为 `" +:+ dual +:+ "`，差值 `" +:+ delta +:+ "`。")
    ("- Policy headline: high_reuse baseline `" +:+ baseline +:+ "` vs dual `" +:+ dual +:+ "` with delta `" +:+ delta +:+ "`.")].
Definition exec_threshold (lang : Lang) (doc : val) : res (list string) :=
  threshold <-! resilience doc "high_reuse" ;;
  Ok [by_lang lang
    ("- 阈值结论：高复用场景中仍能保住 dual 容量的最高阈值约为 `" +:+ threshold +:+ "`。")
    ("- Threshold headline: the highest threshold that still preserves dual capacity in high_reuse is `" +:+ threshold +:+ "`.")].
Definition exec_capacity (lang : Lang) (doc : val) : res (list string) :=
  cap <-! ranking_entry doc "high_reuse" ;;
  highest <-! vget cap "highest_feasible_point" VNone ;;
  best_safe <-! vget cap "best_safe_point" VNone ;;
  highest_c <-! point_concurrency highest ;;
  highest_r <-! point_number highest "req_s_mean" ;;
  best_c <-! point_concurrency best_safe ;;
  best_r <-! point_number best_safe "dual_boundary_recommended_rps" ;;
  Ok [by_lang lang
    ("- 容量结论：高复用场景最高可行点是并发 `" +:+ highest_c +:+ "`、req/s 均值 `" +:+ highest_r +:+ "`；更保守的 best safe 点是并发 `"
     +:+ best_c +:+ "`、dual RPS `" +:+ best_r +:+ "`。")
    ("- Capacity headline: high_reuse highest feasible point is concurrency `" +:+ highest_c +:+ "` at req/s mean `" +:+ highest_r
     +:+ "`; best safe point is concurrency `" +:+ best_c +:+ "` at dual RPS `" +:+ best_r +:+ "`.")].
Definition _build_executive_summary (lang : Lang) (reuse_doc : val) (baseline_doc threshold_doc capacity_doc : option val)
  : res (list string) :=
  low <-! headline_of reuse_doc "low_reuse" ;;
  high <-! headline_of reuse_doc "high_reuse" ;;
  baseline <-! when baseline_doc (exec_baseline lang) ;;
  threshold <-! when threshold_doc (exec_threshold lang) ;;
  capacity <-! when capacity_doc (exec_capacity lang) ;;
  Ok ([_title lang TExec; "";
       by_lang lang
         "- 本报告汇总了复用行为、baseline vs dual 策略差异、阈值敏感性以及容量扫描建议。"
         "- This report consolidates reuse behavior, baseline-vs-dual policy comparison, threshold sensitivity, and capacity sweep recommendations.";
       by_lang lang
         ("- 复用结论：低复用 req/s 均值 `" +:+ hl_req low +:+ "`，高复用 req/s 均值 `" +:+ hl_req high +:+ "`；低复用命中率均值 `"
          +:+ hl_hit low +:+ "`（质量 `" +:+ hl_quality low +:+ "`，ok runs `" +:+ hl_coverage low +:+ "`），高复用命中率均值 `"
          +:+ hl_hit high +:+ "`（质量 `" +:+ hl_quality high +:+ "`，ok runs `" +:+ hl_coverage high +:+ "`）。")
         ("- Reuse experiment headline: low_reuse req/s mean `" +:+ hl_req low +:+ "` vs high_reuse req/s mean `" +:+ hl_req high
          +:+ "`; low_reuse hit_ratio mean `" +:+ hl_hit low +:+ "` (quality `" +:+ hl_quality low +:+ "`, ok runs `"
          +:+ hl_coverage low +:+ "`) vs high_reuse hit_ratio mean `" +:+ hl_hit high +:+ "` (quality `" +:+ hl_quality high
          +:+ "`, ok runs `" +:+ hl_coverage high +:+ "`).")]%string
      ++ baseline ++ threshold ++ capacity ++ [""%string]).

Definition finding_baseline (lang : Lang) (doc : val) (scenario : string) : res string :=
  item <-! scenario_entry doc "scenarios" scenario ;;
  baseline <-! float_field item "baseline_hard_only_recommended_rps" ;;
  dual <-! float_field item "dual_boundary_recommended_rps" ;;
  delta <-! float_field item "delta_dual_minus_baseline" ;;
  source <-! text_field item "hit_ratio_source" "missing" ;;
  let s := _reuse_scenario_label lang scenario in
  Ok (by_lang lang
    ("- " +:+ s +:+ " 策略差异：baseline `" +:+ baseline +:+ "`，dual `" +:+ dual +:+ "`，差值 `" +:+ delta +:+ "`，来源 `" +:+ source +:+ "`。")
    ("- " +:+ s +:+ " policy gap: baseline `" +:+ baseline +:+ "`, dual `" +:+ dual +:+ "`, delta `" +:+ delta +:+ "`, source `"
     +:+ source +:+ "`.")).
Definition finding_threshold (lang : Lang) (doc : val) (scenario : string) : res string :=
  threshold <-! resilience doc scenario ;;
  let s := _reuse_scenario_label lang scenario in
  Ok (by_lang lang
    ("- " +:+ s +:+ " 阈值韧性：仍能保持 dual > 0 的最高阈值为 `" +:+ threshold +:+ "`。")
    ("- " +:+ s +:+ " threshold resilience: max threshold with dual > 0 is `" +:+ threshold +:+ "`.")).
Definition finding_capacity (lang : Lang) (doc : val) (scenario : string) : res string :=
  item <-! ranking_entry doc scenario ;;
  highest <-! vget item "highest_feasible_point" VNone ;;
  best_safe <-! vget item "best_safe_point" VNone ;;
  highest_c <-! point_concurrency highest ;;
  best_c <-! point_concurrency best_safe ;;
  let s := _reuse_scenario_label lang scenario in
  Ok (by_lang lang
    ("- " +:+ s +:+ " 容量建议：最高可行并发 `" +:+ highest_c +:+ "`，best safe 并发 `" +:+ best_c +:+ "`。")
    ("- " +:+ s +:+ " capacity recommendation: highest feasible concurrency `" +:+ highest_c +:+ "`, best safe concurrency `"
     +:+ best_c +:+ "`.")).
Definition _build_key_findings (lang : Lang) (reuse_doc : val) (baseline_doc threshold_doc capacity_doc : option val)
  : res (list string) :=
  low <-! scenario_entry reuse_doc "aggregates" "low_reuse" ;;
  high <-! scenario_entry reuse_doc "aggregates" "high_reuse" ;;
  high_hit <-! float_field high "hit_ratio_mean" ;;
  low_hit <-! float_field low "hit_ratio_mean" ;;
  low_req <-! float_field low "req_s_mean" ;;
  high_req <-! float_field high "req_s_mean" ;;
  baseline <-! when baseline_doc (fun d => res_map (finding_baseline lang d) SCENARIOS) ;;
  threshold <-! when threshold_doc (fun d => res_map (finding_threshold lang d) SCENARIOS) ;;
  capacity <-! when capacity_doc (fun d => res_map (finding_capacity lang d) SCENARIOS) ;;
  Ok ([_title lang TFindings; "";
       by_lang lang
         ("- 高复用场景比低复用场景呈现出更强的缓存收益信号，命中率均值分别为 `" +:+ high_hit +:+ "` 与 `" +:+ low_hit +:+ "`。")
         ("- High reuse delivers stronger cache benefit signals than low reuse, reflected by hit_ratio mean `" +:+ high_hit
          +:+ "` vs `" +:+ low_hit +:+ "`.");
       by_lang lang
         ("- 两类复用场景的吞吐均保持稳定，低复用 req/s 均值 `" +:+ low_req +:+ "`，高复用 req/s 均值 `" +:+ high_req +:+ "`。")
         ("- Throughput stays competitive across reuse scenarios, with req/s mean `" +:+ low_req +:+ "` for low_reuse and `"
          +:+ high_req +:+ "` for high_reuse.")]%string
      ++ baseline ++ threshold ++ capacity ++ [""%string]).

(** The evidence columns of a table row: quality, coverage, prefix check, source. *)
Definition evidence_cells (item : val) (total_key : string) : res (list string) :=
  quality <-! text_field item "metric_quality" "missing" ;;
  coverage <-! _fmt_metric_coverage item total_key ;;
  prefix_check <-! text_field item "prefix_metric_check" "missing" ;;
  strict_runs <-! _fmt_count_coverage item "num_runs_prefix_metric_strict" total_key ;;
  token_runs <-! _fmt_count_coverage item "num_runs_prefix_metric_token_fallback" total_key ;;
  source <-! text_field item "hit_ratio_source" "missing" ;;
  Ok [quality; coverage; prefix_check; strict_runs; token_runs; source].

Definition reuse_row (lang : Lang) (reuse_doc : val) (scenario : string) : res string :=
  agg <-! scenario_entry reuse_doc "aggregates" scenario ;;
  quality <-! vget agg "quality_summary" (VDict []) ;;
  req <-! float_field agg "req_s_mean" ;;
  e2e <-! float_field agg "e2e_p95_ms_mean" ;;
  hit <-! float_field agg "hit_ratio_mean" ;;
  evidence <-! evidence_cells quality "total_runs" ;;
  Ok (row_of ([_reuse_scenario_label lang scenario; req; e2e; hit] ++ evidence)).
Definition _build_reuse_section (lang : Lang) (reuse_doc : val) : res (list string) :=
  meta <-! vitem reuse_doc "meta" ;;
  base_url <-! vitem meta "base_url" ;;
  model <-! vitem meta "model" ;;
  repeats <-! vitem meta "repeats" ;;
  rows <-! res_map (reuse_row lang reuse_doc) SCENARIOS ;;
  Ok ([_title lang TReuse; "";
       by_lang lang ("- 服务地址：`" +:+ py_str base_url +:+ "`") (labelled "base_url" base_url);
       by_lang lang ("- 模型：`" +:+ py_str model +:+ "`") (labelled "model" model);
       by_lang lang ("- 重复次数：`" +:+ py_str repeats +:+ "`") (labelled "repeats" repeats); "";
       by_lang lang
         "| 场景 | req/s 均值 | e2e p95 均值(ms) | 命中率均值 | 指标质量 | ok runs | prefix_check | strict runs | token fallback runs | 命中率来源 |"
         "| Scenario | req/s mean | e2e p95 mean(ms) | hit_ratio mean | metric_quality | ok runs | prefix_check | strict runs | token fallback runs | hit_ratio_source |";
       "|---|---:|---:|---:|---|---:|---|---:|---:|---|"]%string ++ rows ++ [""%string]).

Definition baseline_row (lang : Lang) (doc : val) (scenario : string) : res string :=
  item <-! scenario_entry doc "scenarios" scenario ;;
  baseline <-! float_field item "baseline_hard_only_recommended_rps" ;;
  dual <-! float_field item "dual_boundary_recommended_rps" ;;
  delta <-! float_field item "delta_dual_minus_baseline" ;;
  evidence <-! evidence_cells item "num_runs" ;;
  Ok (row_of ([_reuse_scenario_label lang scenario; baseline; dual; delta] ++ evidence)).
Definition _build_baseline_section (lang : Lang) (doc : val) : res (list string) :=
  rows <-! res_map (baseline_row lang doc) SCENARIOS ;;
  Ok ([_title lang TBaseline; "";
       by_lang lang
         "| 场景 | baseline_rps | dual_rps | 差值 | 指标质量 | ok runs | prefix_check | strict runs | token fallback runs | 命中率来源 |"
         "| Scenario | baseline_rps | dual_rps | delta | metric_quality | ok runs | prefix_check | strict runs | token fallback runs | hit_ratio_source |";
       "|---|---:|---:|---:|---|---:|---|---:|---:|---|"]%string ++ rows ++ [""%string]).

(** The rows of a scenario, grouped by [str(row["scenario"])]. *)
Definition grouped_rows (rows : list val) (scenario : string) : res (list val) :=
  res_filter (fun row => v <-! vitem row "scenario" ;; Ok (String.eqb (py_str v) scenario)) rows.
(** The columns that quote the first row of the scenario. *)
Definition first_row_cells (rows : list val) : res (string * list string) :=
  match rows with
  | [] => Ok ("NA", ["missing"; "NA"; "missing"; "NA"; "NA"; "missing"])%string
  | row :: _ =>
      baseline <-! row_float "baseline_rps" row ;;
      quality <-! vitem row "metric_quality" ;;
      source <-! vitem row "hit_ratio_source" ;;
      coverage <-! _fmt_metric_coverage row "num_runs" ;;
      prefix_check <-! text_field row "prefix_metric_check" "missing" ;;
      strict_runs <-! _fmt_count_coverage row "num_runs_prefix_metric_strict" "num_runs" ;;
      token_runs <-! _fmt_count_coverage row "num_runs_prefix_metric_token_fallback" "num_runs" ;;
      Ok (fmt_fixed 4 baseline, [py_str quality; coverage; prefix_check; strict_runs; token_runs; py_str source])
  end.
Definition threshold_line (lang : Lang) (rows : list val) (scenario : string) : res string :=
  scenario_rows <-! grouped_rows rows scenario ;;
  threshold <-! max_threshold scenario_rows ;;
  duals <-! res_map (row_float "dual_rps") scenario_rows ;;
  ' (baseline, evidence) <-! first_row_cells scenario_rows ;;
  shown <-! _fmt_float (opt_float threshold) ;;
  Ok (row_of ([_reuse_scenario_label lang scenario; baseline; fmt_fixed 4 (default f0 (max_default duals)); shown] ++ evidence)).
Definition _build_threshold_section (lang : Lang) (doc : val) (pngs : list string) : res (list string) :=
  rows <-! vget doc "rows" (VList []) ;;
  items <-! viter rows ;;
  lines <-! res_map (threshold_line lang items) SCENARIOS ;;
  Ok ([_title lang TThreshold; "";
       by_lang lang
         "| 场景 | baseline_rps | 最佳 dual_rps | dual 仍可保留的最高阈值 | 指标质量 | ok runs | prefix_check | strict runs | token fallback runs | 命中率来源 |"
         "| Scenario | baseline_rps | best_dual_rps | max_threshold_with_dual | metric_quality | ok runs | prefix_check | strict runs | token fallback runs | hit_ratio_source |";
       "|---|---:|---:|---:|---|---:|---|---:|---:|---|"]%string ++ lines ++ [""%string]
      ++ mjoin (map (fun png => ["![" +:+ stem png +:+ "](" +:+ png +:+ ")"; ""]%string) pngs)).

Definition capacity_line (lang : Lang) (doc : val) (scenario : string) : res string :=
  item <-! ranking_entry doc scenario ;;
  highest <-! vget item "highest_feasible_point" VNone ;;
  best_safe <-! vget item "best_safe_point" VNone ;;
  hc <-! point_concurrency highest ;;
  hr <-! point_number highest "req_s_mean" ;;
  bc <-! point_concurrency best_safe ;;
  bd <-! point_number best_safe "dual_boundary_recommended_rps" ;;
  Ok (row_of [_reuse_scenario_label lang scenario; hc; hr; bc; bd]).
Definition _build_capacity_section (lang : Lang) (doc : val) (png : option string) : res (list string) :=
  lines <-! res_map (capacity_line lang doc) SCENARIOS ;;
  Ok ([_title lang TCapacity; "";
       by_lang lang "| 场景 | 最高可行并发 | 最高可行 req/s | best safe 并发 | best safe dual_rps |"
         "| Scenario | highest_feasible_concurrency | highest_feasible_req/s | best_safe_concurrency | best_safe_dual_rps |";
       "|---|---:|---:|---:|---:|"]%string ++ lines ++ [""%string]
      ++ match png with
         | Some p => if String.eqb p "" then [] else ["![capacity_sweep_ranking](" +:+ p +:+ ")"; ""]%string
         | None => []
         end).

(** ** The report *)

Record Inputs := {
  reuse_doc : val;
  baseline_doc : option val;
  threshold_doc : option val;
  threshold_pngs : list string;
  capacity_doc : option val;
  capacity_png : option string
}.
Definition report_lines (i : Inputs) (lang : Lang) : res (list string) :=
  decision <-! _build_decision_summary lang (baseline_doc i) (threshold_doc i) (capacity_doc i) ;;
  context <-! _build_project_context lang (reuse_doc i) ;;
  setup <-! _build_experiment_setup lang (reuse_doc i) (capacity_doc i) ;;
  summary <-! _build_executive_summary lang (reuse_doc i) (baseline_doc i) (threshold_doc i) (capacity_doc i) ;;
  findings <-! _build_key_findings lang (reuse_doc i) (baseline_doc i) (threshold_doc i) (capacity_doc i) ;;
  reuse <-! _build_reuse_section lang (reuse_doc i) ;;
  baseline <-! when (baseline_doc i) (_build_baseline_section lang) ;;
  threshold <-! when (threshold_doc i) (fun d => _build_threshold_section lang d (threshold_pngs i)) ;;
  capacity <-! when (capacity_doc i) (fun d => _build_capacity_section lang d (capacity_png i)) ;;
  Ok ([_title lang TReport; ""%string] ++ decision ++ context ++ setup ++ summary ++ findings ++ reuse ++ baseline
      ++ threshold ++ capacity).
(** ["\n".join(lines).rstrip() + "\n"]; the last line is empty, so only line ends are cut. *)
Definition _build_report (i : Inputs) (lang : Lang) : res string :=
  lines <-! report_lines i lang ;;
  Ok (str (rstrip_with (Ascii.eqb (chr 10)) (chars (join (str [chr 10]) lines))) +:+ str [chr 10]).

(** ** The two languages say the same *)

Definition alike {A B} (R : A -> B -> Prop) (a : res A) (b : res B) : Prop :=
  match a, b with
  | Ok x, Ok y => R x y
  | Err e, Err f => e = f
  | _, _ => False
  end.
Definition same_lines (a b : res (list string)) : Prop := alike (fun l m => length l = length m) a b.

Lemma res_map_alike {A B C} (f : A -> res B) (g : A -> res C) l :
  (forall x, alike (fun _ _ => True) (f x) (g x)) -> alike (fun l m => length l = length m) (res_map f l) (res_map g l).
Proof.
  intros H. induction l as [|x l IH]; [done|]. cbn [res_map]. specialize (H x). unfold alike in *.
  destruct (f x), (g x); try done. destruct (res_map f l), (res_map g l); try done. simpl. by rewrite IH.
Qed.
Lemma when_alike doc (f g : val -> res (list string)) : (forall d, same_lines (f d) (g d)) -> same_lines (when doc f) (when doc g).
Proof. intros H. destruct doc; [apply H|done]. Qed.

(** Both sides take the same steps. *)
Ltac same_steps :=
  repeat match goal with
  | |- context [match ?c with Ok _ => _ | Err _ => _ end] => destruct c; [|done]
  | |- context [let '(_, _) := ?p in _] => destruct p
  end.

Lemma finding_baseline_alike d s : alike (fun _ _ => True) (finding_baseline En d s) (finding_baseline Zh d s).
Proof. unfold finding_baseline. by same_steps. Qed.
Lemma finding_threshold_alike d s : alike (fun _ _ => True) (finding_threshold En d s) (finding_threshold Zh d s).
Proof. unfold finding_threshold. by same_steps. Qed.
Lemma finding_capacity_alike d s : alike (fun _ _ => True) (finding_capacity En d s) (finding_capacity Zh d s).
Proof. unfold finding_capacity. by same_steps. Qed.
Lemma reuse_row_alike d s : alike (fun _ _ => True) (reuse_row En d s) (reuse_row Zh d s).
Proof. unfold reuse_row. by same_steps. Qed.
Lemma baseline_row_alike d s : alike (fun _ _ => True) (baseline_row En d s) (baseline_row Zh d s).
Proof. unfold baseline_row. by same_steps. Qed.
Lemma threshold_line_alike rows s : alike (fun _ _ => True) (threshold_line En rows s) (threshold_line Zh rows s).
Proof. unfold threshold_line. by same_steps. Qed.
Lemma capacity_line_alike d s : alike (fun _ _ => True) (capacity_line En d s) (capacity_line Zh d s).
Proof. unfold capacity_line. by same_steps. Qed.

(** Go on with results that have the same length. *)
Ltac use_alike H :=
  let Hl := fresh "Hl" in
  pose proof H as Hl; unfold same_lines, alike in Hl;
  repeat match type of Hl with match ?a with _ => _ end => destruct a end; try done.

Lemma decision_alike b t c : same_lines (_build_decision_summary En b t c) (_build_decision_summary Zh b t c).
Proof.
  unfold _build_decision_summary.
  use_alike (ltac:(unfold decision_baseline; destruct b; [by same_steps|done]) : same_lines (decision_baseline En b) (decision_baseline Zh b)).
  use_alike (when_alike c (decision_capacity En) (decision_capacity Zh) ltac:(intros d; unfold decision_capacity; by same_steps)).
  use_alike (when_alike t (decision_threshold En) (decision_threshold Zh) ltac:(intros d; unfold decision_threshold; by same_steps)).
  unfold same_lines, alike. simpl. rewrite !length_app. lia.
Qed.
Lemma context_alike d : same_lines (_build_project_context En d) (_build_project_context Zh d).
Proof. unfold _build_project_context. by same_steps. Qed.
Lemma setup_alike d c : same_lines (_build_experiment_setup En d c) (_build_experiment_setup Zh d c).
Proof.
  unfold _build_experiment_setup. do 8 (match goal with |- context [match ?c with Ok _ => _ | Err _ => _ end] => destruct c; [|done] end).
  use_alike (when_alike c (setup_capacity En) (setup_capacity Zh) ltac:(intros x; unfold setup_capacity; by same_steps)).
  unfold same_lines, alike. simpl. rewrite !length_app. lia.
Qed.
Lemma summary_alike d b t c : same_lines (_build_executive_summary En d b t c) (_build_executive_summary Zh d b t c).
Proof.
  unfold _build_executive_summary. do 2 (match goal with |- context [match ?c with Ok _ => _ | Err _ => _ end] => destruct c; [|done] end).
  use_alike (when_alike b (exec_baseline En) (exec_baseline Zh) ltac:(intros x; unfold exec_baseline; by same_steps)).
  use_alike (when_alike t (exec_threshold En) (exec_threshold Zh) ltac:(intros x; unfold exec_threshold; by same_steps)).
  use_alike (when_alike c (exec_capacity En) (exec_capacity Zh) ltac:(intros x; unfold exec_capacity; by same_steps)).
  unfold same_lines, alike. simpl. rewrite !length_app. lia.
Qed.
Lemma findings_alike d b t c : same_lines (_build_key_findings En d b t c) (_build_key_findings Zh d b t c).
Proof.
  unfold _build_key_findings. do 6 (match goal with |- context [match ?c with Ok _ => _ | Err _ => _ end] => destruct c; [|done] end).
  use_alike (when_alike b _ _ (fun x => res_map_alike _ _ SCENARIOS (finding_baseline_alike x))).
  use_alike (when_alike t _ _ (fun x => res_map_alike _ _ SCENARIOS (finding_threshold_alike x))).
  use_alike (when_alike c _ _ (fun x => res_map_alike _ _ SCENARIOS (finding_capacity_alike x))).
  unfold same_lines, alike. simpl. rewrite !length_app. lia.
Qed.
Lemma reuse_section_alike d : same_lines (_build_reuse_section En d) (_build_reuse_section Zh d).
Proof.
  unfold _build_reuse_section. do 4 (match goal with |- context [match ?c with Ok _ => _ | Err _ => _ end] => destruct c; [|done] end).
  use_alike (res_map_alike _ _ SCENARIOS (reuse_row_alike d)).
  unfold same_lines, alike. simpl. rewrite !length_app. lia.
Qed.
Lemma baseline_section_alike d : same_lines (_build_baseline_section En d) (_build_baseline_section Zh d).
Proof.
  unfold _build_baseline_section. use_alike (res_map_alike _ _ SCENARIOS (baseline_row_alike d)).
  unfold same_lines, alike. simpl. rewrite !length_app. lia.
Qed.
Lemma threshold_section_alike d pngs : same_lines (_build_threshold_section En d pngs) (_build_threshold_section Zh d pngs).
Proof.
  unfold _build_threshold_section. do 2 (match goal with |- context [match ?c with Ok _ => _ | Err _ => _ end] => destruct c; [|done] end).
  match goal with |- context [res_map (threshold_line En ?l) SCENARIOS] => use_alike (res_map_alike _ _ SCENARIOS (threshold_line_alike l)) end.
  unfold same_lines, alike. simpl. rewrite !length_app. lia.
Qed.
Lemma capacity_section_alike d png : same_lines (_build_capacity_section En d png) (_build_capacity_section Zh d png).
Proof.
  unfold _build_capacity_section. use_alike (res_map_alike _ _ SCENARIOS (capacity_line_alike d)).
  unfold same_lines, alike. simpl. rewrite !length_app. lia.
Qed.

(** The two languages.  Whatever documents the report is made from, the English and
    the Chinese report fail with the same exception or both come out, with the same
    number of lines, so that no section, table row or recommendation is missing from one
    of them. *)
Theorem bilingual_report i : same_lines (report_lines i En) (report_lines i Zh).
Proof.
  unfold report_lines.
  use_alike (decision_alike (baseline_doc i) (threshold_doc i) (capacity_doc i)).
  use_alike (context_alike (reuse_doc i)). use_alike (setup_alike (reuse_doc i) (capacity_doc i)).
  use_alike (summary_alike (reuse_doc i) (baseline_doc i) (threshold_doc i) (capacity_doc i)).
  use_alike (findings_alike (reuse_doc i) (baseline_doc i) (threshold_doc i) (capacity_doc i)).
  use_alike (reuse_section_alike (reuse_doc i)).
  use_alike (when_alike (baseline_doc i) _ _ baseline_section_alike).
  use_alike (when_alike (threshold_doc i) _ _ (fun d => threshold_section_alike d (threshold_pngs i))).
  use_alike (when_alike (capacity_doc i) _ _ (fun d => capacity_section_alike d (capacity_png i))).
  unfold same_lines, alike. simpl. rewrite !length_app. lia.
Qed.

(** ** The quoted threshold *)

Lemma max_default_spec l : (forall x, x ∈ l -> is_nan x = false) ->
  match max_default l with
  | None => l = []
  | Some m => m ∈ l /\ forall x, x ∈ l -> fleb x m = true
  end.
Proof.
  intros Hn. destruct l as [|x l]; [done|]. simpl. split; [apply fmax_from_elem|].
  intros y Hy. apply fmax_from_ge; [apply Hn; by left| |done]. apply Forall_forall. intros z Hz. apply Hn. by right.
Qed.

(** The rows of a curve, as the report finds them. *)
Lemma curve_rows_for rows s :
  rows_for (VDict (curve_json rows)) s = Ok (map (fun r => VDict (row_dict r)) (of_scenario s rows)).
Proof.
  unfold rows_for. cbn [vget curve_json dget_or dget String.eqb Ascii.eqb Bool.eqb default from_option id viter].
  rewrite (res_filter_pure _ (fun v => match v with VDict d => String.eqb (py_str (dget_or d "scenario" VNone)) s | _ => false end)).
  - f_equal. unfold of_scenario. induction rows as [|r rows IH]; [done|]. cbn [map List.filter].
    change (py_str (dget_or (row_dict r) "scenario" VNone)) with (tr_scenario r).
    destruct (String.eqb (tr_scenario r) s); cbn [map]; by rewrite IH.
  - intros v Hv. apply list_elem_of_In, in_map_iff in Hv as (r & <- & _). reflexivity.
Qed.
Lemma curve_max_threshold rows s :
  exists positive, positive = List.filter (fun r => tr_dual_rps r >?. f0) (of_scenario s rows) /\
    max_threshold (map (fun r => VDict (row_dict r)) (of_scenario s rows)) = Ok (max_default (map tr_min_hit_ratio positive)).
Proof.
  eexists. split; [reflexivity|]. unfold max_threshold. generalize (of_scenario s rows) as l. intros l.
  rewrite (res_filter_pure _ (fun v => match v with VDict d => match dget d "dual_rps" with Some (VFloat x) => x >?. f0 | _ => false end | _ => false end)).
  2: { intros v Hv. apply list_elem_of_In, in_map_iff in Hv as (r & <- & _). reflexivity. }
  assert (H : res_map (row_float "min_hit_ratio") (List.filter (fun v => match v with VDict d =>
      match dget d "dual_rps" with Some (VFloat x) => x >?. f0 | _ => false end | _ => false end)
      (map (fun r => VDict (row_dict r)) l)) = Ok (map tr_min_hit_ratio (List.filter (fun r => tr_dual_rps r >?. f0) l))).
  { induction l as [|r l IH]; [done|]. cbn [map List.filter].
    change (dget (row_dict r) "dual_rps") with (Some (VFloat (tr_dual_rps r))). cbn match.
    destruct (tr_dual_rps r >?. f0); [|done]. cbn [res_map map].
    change (row_float "min_hit_ratio" (VDict (row_dict r))) with (Ok (tr_min_hit_ratio r)). by rewrite IH. }
  by rewrite H.
Qed.

(** The quoted threshold.  From a threshold curve the report quotes, for a scenario,
    the largest scanned ratio whose rate with the boundary is positive, and NA exactly
    when there is none. *)
Theorem quoted_threshold rows s : (forall r, r ∈ rows -> is_nan (tr_min_hit_ratio r) = false) ->
  let kept r := r ∈ rows /\ tr_scenario r = s /\ fltb f0 (tr_dual_rps r) = true in
  (resilience (VDict (curve_json rows)) s = Ok "NA"%string /\ (forall r, ~ kept r)) \/
  (exists best, kept best /\ resilience (VDict (curve_json rows)) s = Ok (fmt_fixed 4 (tr_min_hit_ratio best)) /\
     forall r, kept r -> fleb (tr_min_hit_ratio r) (tr_min_hit_ratio best) = true).
Proof.
  intros Hn kept. unfold resilience. rewrite curve_rows_for.
  destruct (curve_max_threshold rows s) as (positive & Hp & ->).
  assert (Hkept : forall r, r ∈ positive <-> kept r).
  { intros r. rewrite Hp. unfold of_scenario, kept. rewrite !elem_of_filterb, String.eqb_eq. tauto. }
  pose proof (max_default_spec (map tr_min_hit_ratio positive)) as Hm.
  destruct (max_default (map tr_min_hit_ratio positive)) as [m|].
  - right. destruct Hm as [Hin Hmax].
    { intros x Hx. apply list_elem_of_In, in_map_iff in Hx as (r & <- & Hr). apply Hn.
      apply list_elem_of_In, Hkept in Hr. by destruct Hr. }
    apply list_elem_of_In, in_map_iff in Hin as (best & <- & Hbest). exists best.
    split; [apply Hkept; by apply list_elem_of_In|]. split; [reflexivity|].
    intros r Hr. apply Hmax, list_elem_of_In, in_map_iff. exists r. split; [done|]. by apply list_elem_of_In, Hkept.
  - left. split; [reflexivity|]. intros r Hr. apply Hkept in Hr.
    destruct positive; [by apply elem_of_nil in Hr|]. discriminate Hm.
    intros x Hx. apply list_elem_of_In, in_map_iff in Hx as (q & <- & Hq). apply Hn.
    apply list_elem_of_In, Hkept in Hq. by destruct Hq.
Qed.

(** ** The artifacts of the pipeline can be reported *)

Definition has_cells (item : val) (total_key : string) : Prop := is_ok (evidence_cells item total_key) = true.
Definition has_numbers (d : val) (keys : list string) : Prop := forall k, k ∈ keys -> is_ok (float_field d k) = true.

Lemma coverage_ok d ck tk n m : dget d tk = Some (VInt n) -> dget d ck = Some (VInt m) ->
  is_ok (_fmt_count_coverage (VDict d) ck tk) = true.
Proof.
  intros Hn Hm. unfold _fmt_count_coverage, vget, dget_or. rewrite Hn, Hm. cbn.
  by destruct (n <=? 0).
Qed.
Lemma cells_ok d tk n a b c : dget d tk = Some (VInt n) -> dget d "num_runs_ok_metrics" = Some (VInt a) ->
  dget d "num_runs_prefix_metric_strict" = Some (VInt b) ->
  dget d "num_runs_prefix_metric_token_fallback" = Some (VInt c) -> has_cells (VDict d) tk.
Proof.
  intros Hn Ha Hb Hc. unfold has_cells, evidence_cells, _fmt_metric_coverage. cbn [text_field vget].
  pose proof (coverage_ok _ _ _ _ _ Hn Ha) as H1. pose proof (coverage_ok _ _ _ _ _ Hn Hb) as H2.
  pose proof (coverage_ok _ _ _ _ _ Hn Hc) as H3.
  destruct (_fmt_count_coverage _ "num_runs_ok_metrics" _); [|done].
  destruct (_fmt_count_coverage _ "num_runs_prefix_metric_strict" _); [|done].
  by destruct (_fmt_count_coverage _ "num_runs_prefix_metric_token_fallback" _).
Qed.

Lemma quality_cells entries q : summarize_runs_quality entries = Ok q -> has_cells (VDict q) "total_runs".
Proof.
  unfold summarize_runs_quality, summarize_prefix_metric_checks. intros H.
  destruct (res_map get_entry_hit_ratio_quality_and_source entries); [|done]. cbv zeta in H.
  destruct (fraction _ _); [|done]. destruct (res_map get_entry_prefix_metric_check entries); [|done].
  destruct (fraction _ _); [|done]. destruct (fraction _ _); [|done]. destruct (summarize_evidence_quality entries); [|done].
  assert (E : forall x : dict, Ok x = Ok q -> q = x) by congruence. apply E in H. clear E. rewrite H. clear H.
  eapply cells_ok; reflexivity.
Qed.
Lemma aggregate_reportable entries agg : aggregate_run_entries entries = Ok agg ->
  has_numbers (VDict agg) ["req_s_mean"; "e2e_p95_ms_mean"; "hit_ratio_mean"]%string /\
  exists q, dget agg "quality_summary" = Some (VDict q) /\ has_cells (VDict q) "total_runs".
Proof.
  unfold aggregate_run_entries. intros H. destruct entries as [|e es].
  - destruct (summarize_runs_quality []) as [q|] eqn:E; [|done]. injection H as <-. split.
    + intros k Hk. rewrite !elem_of_cons, elem_of_nil in Hk. by destruct Hk as [->|[->|[->|[]]]].
    + exists q. split; [done|by eapply quality_cells].
  - repeat match type of H with match ?c with Ok _ => _ | Err _ => _ end = Ok _ => destruct c eqn:?; [|discriminate H] end.
    assert (E : forall x : dict, Ok x = Ok agg -> agg = x) by congruence. apply E in H. clear E. rewrite H. clear H.
    repeat match goal with
    | E : average _ = Ok _ |- _ => apply average_float in E as [? ->]
    | E : average_or_none _ = Ok ?v |- _ => assert (v = VNone \/ exists f, v = VFloat f)
        by (apply average_or_none_float in E; naive_solver); clear E
    end.
    split.
    + intros k Hk. rewrite !elem_of_cons, elem_of_nil in Hk. unfold float_field.
      repeat match goal with E : _ = VNone \/ _ |- _ => destruct E as [->|[? ->]] end;
        by destruct Hk as [->|[->|[->|[]]]].
    + match goal with E : summarize_runs_quality _ = Ok ?q |- _ => exists q; split; [done|by eapply quality_cells] end.
Qed.

Lemma compared_reportable slo msr sf doc t s item : compare_scenario slo msr sf doc t s = Ok item ->
  has_numbers (VDict item) ["baseline_hard_only_recommended_rps"; "dual_boundary_recommended_rps"; "delta_dual_minus_baseline"]%string /\
  has_cells (VDict item) "num_runs".
Proof.
  unfold compare_scenario, recommend, round6. intros H.
  destruct (scenario_runs doc s) as [runs|]; [|discriminate H].
  destruct (recommend_runs slo msr None sf runs) as [rec1|]; [|discriminate H].
  destruct (recommend_runs slo msr (Some t) sf runs) as [rec2|] eqn:E2; [|discriminate H].
  destruct (float_item rec1 _); [|discriminate H]. destruct (float_item rec2 _); [|discriminate H].
  destruct (py_round 6 a); [|discriminate H]. destruct (py_round 6 a0); [|discriminate H].
  destruct (py_round 6 (a0 ⊖ a)); [|discriminate H].
  unfold recommend_runs in E2. destruct (res_map _ runs); [|discriminate E2].
  destruct (recommended_rps _ _); [|discriminate E2]. cbv zeta in E2. destruct (fraction _ _); [|discriminate E2].
  assert (E : forall x : dict, Ok x = Ok rec2 -> rec2 = x) by congruence. apply E in E2. clear E. rewrite E2 in H. clear E2.
  match type of H with match ?c with _ => _ end = _ => destruct c as [fields|] eqn:Ef; [|discriminate H] end.
  cbn in Ef. injection Ef as <-.
  assert (E : forall x : dict, Ok x = Ok item -> item = x) by congruence. apply E in H. clear E. rewrite H. clear H.
  split; [|by eapply cells_ok; reflexivity].
  intros k Hk. rewrite !elem_of_cons, elem_of_nil in Hk. by destruct Hk as [->|[->|[->|[]]]].
Qed.
Lemma threshold_reportable slo msr sf doc t s r : threshold_row slo msr sf doc (t, s) = Ok r ->
  is_ok (first_row_cells [VDict (row_dict r)]) = true.
Proof.
  unfold threshold_row, recommend. cbn [fst snd]. intros H.
  destruct (scenario_runs doc s) as [runs|]; [|discriminate H].
  destruct (recommend_runs slo msr None sf runs) as [rec1|]; [|discriminate H].
  destruct (recommend_runs slo msr (Some t) sf runs) as [rec2|] eqn:E2; [|discriminate H].
  destruct (float_item rec1 _); [|discriminate H]. destruct (float_item rec2 _); [|discriminate H].
  destruct (py_round 6 a); [|discriminate H]. destruct (py_round 6 a0); [|discriminate H].
  destruct (py_round 6 (a0 ⊖ a)); [|discriminate H].
  unfold recommend_runs in E2. destruct (res_map _ runs); [|discriminate E2].
  destruct (recommended_rps _ _); [|discriminate E2]. cbv zeta in E2. destruct (fraction _ _); [|discriminate E2].
  assert (E : forall x : dict, Ok x = Ok rec2 -> rec2 = x) by congruence. apply E in E2. clear E. rewrite E2 in H. clear E2.
  match type of H with match ?c with _ => _ end = _ => destruct c as [fields|] eqn:Ef; [|discriminate H] end.
  cbn in Ef. injection Ef as <-. injection H as <-.
  match goal with |- is_ok (first_row_cells [VDict ?d]) = true => set (rd := d) end.
  cbn [first_row_cells].
  change (row_float "baseline_rps" (VDict rd)) with (Ok a1). cbn match.
  match goal with |- context [vitem (VDict rd) "metric_quality"] => cbn [vitem] end.
  pose proof (coverage_ok rd "num_runs_ok_metrics" "num_runs" _ _ eq_refl eq_refl) as H1.
  pose proof (coverage_ok rd "num_runs_prefix_metric_strict" "num_runs" _ _ eq_refl eq_refl) as H2.
  pose proof (coverage_ok rd "num_runs_prefix_metric_token_fallback" "num_runs" _ _ eq_refl eq_refl) as H3.
  unfold _fmt_metric_coverage.
  destruct (_fmt_count_coverage (VDict rd) "num_runs_ok_metrics" _); [|discriminate H1].
  destruct (_fmt_count_coverage (VDict rd) "num_runs_prefix_metric_strict" _); [|discriminate H2].
  destruct (_fmt_count_coverage (VDict rd) "num_runs_prefix_metric_token_fallback" _); [|discriminate H3].
  reflexivity.
Qed.

Lemma point_reportable o : is_ok (point_concurrency (opt_rank o)) = true /\
  is_ok (point_number (opt_rank o) "req_s_mean") = true /\
  is_ok (point_number (opt_rank o) "dual_boundary_recommended_rps") = true.
Proof. by destruct o. Qed.

(** *** What the report needs of each document *)

Record reuse_readable (d : val) : Prop := {
  rr_meta : exists m u v w, vget d "meta" (VDict []) = Ok (VDict m) /\ vitem d "meta" = Ok (VDict m) /\
    dget m "base_url" = Some u /\ dget m "model" = Some v /\ dget m "repeats" = Some w;
  rr_aggregates : forall s, s ∈ SCENARIOS -> exists agg q, scenario_entry d "aggregates" s = Ok (VDict agg) /\
    has_numbers (VDict agg) ["req_s_mean"; "e2e_p95_ms_mean"; "hit_ratio_mean"]%string /\
    dget agg "quality_summary" = Some (VDict q) /\ has_cells (VDict q) "total_runs"
}.
Definition baseline_readable (d : val) : Prop := forall s, s ∈ SCENARIOS -> exists item,
  scenario_entry d "scenarios" s = Ok (VDict item) /\
  has_numbers (VDict item) ["baseline_hard_only_recommended_rps"; "dual_boundary_recommended_rps"; "delta_dual_minus_baseline"]%string /\
  has_cells (VDict item) "num_runs".
Definition threshold_readable (d : val) : Prop := exists items, vget d "rows" (VList []) = Ok (VList items) /\
  forall s, s ∈ SCENARIOS -> is_ok (resilience d s) = true /\ exists mine t duals,
    grouped_rows items s = Ok mine /\ max_threshold mine = Ok t /\ res_map (row_float "dual_rps") mine = Ok duals /\
    is_ok (first_row_cells mine) = true.
Record capacity_readable (d : val) : Prop := {
  cr_setup : forall lang, is_ok (setup_capacity lang d) = true;
  cr_points : forall s, s ∈ SCENARIOS -> exists e h b, ranking_entry d s = Ok e /\
    vget e "highest_feasible_point" VNone = Ok (opt_rank h) /\ vget e "best_safe_point" VNone = Ok (opt_rank b)
}.

Lemma number_in d keys k : has_numbers d keys -> k ∈ keys -> exists s, float_field d k = Ok s.
Proof. intros H Hk. specialize (H k Hk). destruct (float_field d k); [by eexists|done]. Qed.
Ltac get_number H k := let s := fresh "n" in
  destruct (number_in _ _ k H ltac:(rewrite !elem_of_cons; auto)) as [s ->].

Lemma low_in : "low_reuse"%string ∈ SCENARIOS. Proof. by left. Qed.
Lemma high_in : "high_reuse"%string ∈ SCENARIOS. Proof. right. by left. Qed.

Section readable.
Context (lang : Lang).

Lemma when_ok doc (f : val -> res (list string)) : (forall d, doc = Some d -> is_ok (f d) = true) -> is_ok (when doc f) = true.
Proof. destruct doc as [d|]; [intros H; by apply H|done]. Qed.

Lemma cells_coverage q tk : has_cells q tk -> is_ok (text_field q "metric_quality" "missing") = true /\
  is_ok (_fmt_metric_coverage q tk) = true.
Proof.
  unfold has_cells, evidence_cells. destruct (text_field q "metric_quality" "missing"); [|done].
  by destruct (_fmt_metric_coverage q tk).
Qed.
Lemma headline_ok d s : reuse_readable d -> s ∈ SCENARIOS -> is_ok (headline_of d s) = true.
Proof.
  intros [_ Ha] Hs. destruct (Ha s Hs) as (agg & q & He & Hn & Hq & Hc). unfold headline_of. rewrite He.
  get_number Hn "req_s_mean"%string. get_number Hn "hit_ratio_mean"%string.
  cbn [vget]. unfold dget_or. rewrite Hq. cbn [default from_option id].
  destruct (cells_coverage _ _ Hc) as [H1 H2]. destruct (text_field _ _ _); [|done]. by destruct (_fmt_metric_coverage _ _).
Qed.
Lemma reuse_row_ok d s : reuse_readable d -> s ∈ SCENARIOS -> is_ok (reuse_row lang d s) = true.
Proof.
  intros [_ Ha] Hs. destruct (Ha s Hs) as (agg & q & He & Hn & Hq & Hc). unfold reuse_row. rewrite He.
  cbn [vget]. unfold dget_or. rewrite Hq. cbn [default from_option id].
  get_number Hn "req_s_mean"%string. get_number Hn "e2e_p95_ms_mean"%string. get_number Hn "hit_ratio_mean"%string.
  unfold has_cells in Hc. by destruct (evidence_cells _ _).
Qed.
Lemma baseline_parts_ok d s : baseline_readable d -> s ∈ SCENARIOS ->
  is_ok (finding_baseline lang d s) = true /\ is_ok (baseline_row lang d s) = true.
Proof.
  intros Hb Hs. destruct (Hb s Hs) as (item & He & Hn & Hc). unfold finding_baseline, baseline_row. rewrite He.
  get_number Hn "baseline_hard_only_recommended_rps"%string. get_number Hn "dual_boundary_recommended_rps"%string.
  get_number Hn "delta_dual_minus_baseline"%string. unfold has_cells in Hc. split; [done|by destruct (evidence_cells _ _)].
Qed.
Lemma baseline_lines_ok doc : (forall d, doc = Some d -> baseline_readable d) ->
  is_ok (decision_baseline lang doc) = true /\ is_ok (when doc (exec_baseline lang)) = true.
Proof.
  intros Hb. destruct doc as [d|]; [|done]. destruct (Hb d eq_refl _ high_in) as (item & He & Hn & _).
  cbn [when]. unfold decision_baseline, exec_baseline. rewrite He.
  get_number Hn "baseline_hard_only_recommended_rps"%string. get_number Hn "dual_boundary_recommended_rps"%string.
  by get_number Hn "delta_dual_minus_baseline"%string.
Qed.
Lemma threshold_parts_ok d : threshold_readable d ->
  (forall s, s ∈ SCENARIOS -> is_ok (finding_threshold lang d s) = true) /\
  is_ok (decision_threshold lang d) = true /\ is_ok (exec_threshold lang d) = true /\
  forall pngs, is_ok (_build_threshold_section lang d pngs) = true.
Proof.
  intros (items & Hi & Ht). destruct (Ht _ high_in) as [Hr _].
  unfold decision_threshold, exec_threshold. destruct (resilience d "high_reuse"); [|done]. split_and!; [|done..|].
  - intros s Hs. destruct (Ht s Hs) as [H _]. unfold finding_threshold. by destruct (resilience d s).
  - intros pngs. unfold _build_threshold_section. rewrite Hi. cbn [viter].
    assert (Hl : is_ok (res_map (threshold_line lang items) SCENARIOS) = true).
    { apply res_map_ok. intros s Hs. destruct (Ht s Hs) as (_ & mine & t & duals & Hg & Hm & Hd & Hf).
      unfold threshold_line. rewrite Hg, Hm, Hd. destruct (first_row_cells mine) as [[b e]|]; [|done].
      by destruct t. }
    by destruct (res_map (threshold_line lang items) SCENARIOS).
Qed.
Lemma capacity_parts_ok d s : capacity_readable d -> s ∈ SCENARIOS ->
  is_ok (finding_capacity lang d s) = true /\ is_ok (capacity_line lang d s) = true.
Proof.
  intros [_ Hp] Hs. destruct (Hp s Hs) as (e & h & b & He & Hh & Hb). unfold finding_capacity, capacity_line.
  rewrite He, Hh, Hb. destruct (point_reportable h) as (H1 & H2 & _). destruct (point_reportable b) as (H3 & _ & H4).
  destruct (point_concurrency (opt_rank h)); [|done]. destruct (point_concurrency (opt_rank b)); [|done].
  destruct (point_number (opt_rank h) _); [|done]. by destruct (point_number (opt_rank b) _).
Qed.
Lemma capacity_lines_ok d : capacity_readable d ->
  is_ok (decision_capacity lang d) = true /\ is_ok (exec_capacity lang d) = true.
Proof.
  intros [_ Hp]. destruct (Hp _ high_in) as (e & h & b & He & Hh & Hb). unfold decision_capacity, exec_capacity.
  rewrite He, Hh, Hb. destruct (point_reportable h) as (H1 & H2 & _). destruct (point_reportable b) as (H3 & _ & H4).
  destruct (point_concurrency (opt_rank h)); [|done]. destruct (point_concurrency (opt_rank b)); [|done].
  destruct (point_number (opt_rank h) _); [|done]. by destruct (point_number (opt_rank b) _).
Qed.
End readable.

(** Go on after a step that is known to return. *)
Ltac ok_step H :=
  let Hok := fresh "Hok" in
  pose proof H as Hok; match type of Hok with is_ok ?c = true => destruct c; [|discriminate Hok] end; clear Hok.

Lemma report_total i lang : reuse_readable (reuse_doc i) ->
  (forall d, baseline_doc i = Some d -> baseline_readable d) ->
  (forall d, threshold_doc i = Some d -> threshold_readable d) ->
  (forall d, capacity_doc i = Some d -> capacity_readable d) -> is_ok (_build_report i lang) = true.
Proof.
  intros Hr Hb Ht Hc. unfold _build_report.
  cut (is_ok (report_lines i lang) = true); [by destruct (report_lines i lang)|].
  destruct (baseline_lines_ok lang _ Hb) as [Hb1 Hb2].
  destruct (rr_meta _ Hr) as (m & u & v & w & Hm1 & Hm2 & Hu & Hv & Hw).
  unfold report_lines.
  unfold _build_decision_summary. ok_step Hb1.
  ok_step (when_ok (capacity_doc i) (decision_capacity lang) ltac:(intros d Hd; by apply capacity_lines_ok, Hc)).
  ok_step (when_ok (threshold_doc i) (decision_threshold lang) ltac:(intros d Hd; by apply threshold_parts_ok, Ht)).
  unfold _build_project_context. rewrite Hm2. cbn [text_field vget].
  unfold _build_experiment_setup. rewrite Hm1. cbn [text_field vget].
  ok_step (when_ok (capacity_doc i) (setup_capacity lang) ltac:(intros d Hd; by apply cr_setup, Hc)).
  unfold _build_executive_summary. ok_step (headline_ok _ _ Hr low_in). ok_step (headline_ok _ _ Hr high_in).
  ok_step Hb2.
  ok_step (when_ok (threshold_doc i) (exec_threshold lang) ltac:(intros d Hd; by apply threshold_parts_ok, Ht)).
  ok_step (when_ok (capacity_doc i) (exec_capacity lang) ltac:(intros d Hd; by apply capacity_lines_ok, Hc)).
  unfold _build_key_findings.
  destruct (rr_aggregates _ Hr _ low_in) as (al & ql & -> & Hnl & _).
  destruct (rr_aggregates _ Hr _ high_in) as (ah & qh & -> & Hnh & _).
  get_number Hnh "hit_ratio_mean"%string. get_number Hnl "hit_ratio_mean"%string.
  get_number Hnl "req_s_mean"%string. get_number Hnh "req_s_mean"%string.
  ok_step (when_ok (baseline_doc i) (fun d => res_map (finding_baseline lang d) SCENARIOS)
    ltac:(intros d Hd; apply res_map_ok; intros s Hs; by apply baseline_parts_ok; [apply Hb|])).
  ok_step (when_ok (threshold_doc i) (fun d => res_map (finding_threshold lang d) SCENARIOS)
    ltac:(intros d Hd; apply res_map_ok; intros s Hs; by apply threshold_parts_ok; [apply Ht|])).
  ok_step (when_ok (capacity_doc i) (fun d => res_map (finding_capacity lang d) SCENARIOS)
    ltac:(intros d Hd; apply res_map_ok; intros s Hs; by apply capacity_parts_ok; [apply Hc|])).
  unfold _build_reuse_section. rewrite Hm2. cbn [vitem]. rewrite Hu, Hv, Hw.
  ok_step (res_map_ok (reuse_row lang (reuse_doc i)) SCENARIOS (fun s Hs => reuse_row_ok lang _ s Hr Hs)).
  ok_step (when_ok (baseline_doc i) (_build_baseline_section lang)
    ltac:(intros d Hd; unfold _build_baseline_section;
          ok_step (res_map_ok (baseline_row lang d) SCENARIOS (fun s Hs => proj2 (baseline_parts_ok lang d s (Hb d Hd) Hs))); done)).
  ok_step (when_ok (threshold_doc i) (fun d => _build_threshold_section lang d (threshold_pngs i))
    ltac:(intros d Hd; by apply threshold_parts_ok, Ht)).
  ok_step (when_ok (capacity_doc i) (fun d => _build_capacity_section lang d (capacity_png i))
    ltac:(intros d Hd; unfold _build_capacity_section;
          ok_step (res_map_ok (capacity_line lang d) SCENARIOS (fun s Hs => proj2 (capacity_parts_ok lang d s (Hc d Hd) Hs))); done)).
  done.
Qed.

(** *** The artifacts meet it *)

Lemma reuse_is_readable a traffic env report : reuse_experiment a traffic env = Ok report -> reuse_readable (VDict report).
Proof.
  unfold reuse_experiment. intros H.
  destruct (scenario_entries a traffic env "low_reuse") as [low|]; [|discriminate H].
  destruct (scenario_entries a traffic env "high_reuse") as [high|]; [|discriminate H].
  destruct (aggregate_run_entries low) as [al|] eqn:Al; [|discriminate H].
  destruct (aggregate_run_entries high) as [ah|] eqn:Ah; [|discriminate H].
  assert (E : forall x : dict, Ok x = Ok report -> report = x) by congruence. apply E in H. clear E. rewrite H. clear H.
  split; [by eexists _, _, _, _; split_and!|].
  intros s Hs. unfold SCENARIOS in Hs. rewrite !elem_of_cons, elem_of_nil in Hs.
  destruct Hs as [->|[->|[]]].
  - destruct (aggregate_reportable _ _ Al) as (Hn & q & Hq & Hc). by exists al, q.
  - destruct (aggregate_reportable _ _ Ah) as (Hn & q & Hq & Hc). by exists ah, q.
Qed.
Lemma compared_is_readable slo msr sf doc t base : compare_baseline slo msr sf doc t = Ok base -> baseline_readable (VDict base).
Proof.
  unfold compare_baseline. intros H. destruct (res_map _ SCENARIOS) as [items|] eqn:Ei; [|discriminate H].
  injection H as <-. unfold SCENARIOS in Ei. cbn [res_map] in Ei.
  destruct (compare_scenario slo msr sf doc t "low_reuse") as [low|] eqn:El; [|discriminate Ei].
  destruct (compare_scenario slo msr sf doc t "high_reuse") as [high|] eqn:Eh; [|discriminate Ei]. injection Ei as <-.
  intros s Hs. unfold SCENARIOS in Hs. rewrite !elem_of_cons, elem_of_nil in Hs.
  destruct Hs as [->|[->|[]]]; [exists low|exists high]; (split; [reflexivity|]); by eapply compared_reportable.
Qed.
Lemma curve_is_readable slo msr sf doc thresholds rows : threshold_rows slo msr sf doc thresholds = Ok rows ->
  threshold_readable (VDict (curve_json rows)).
Proof.
  intros H. exists (map (fun r => VDict (row_dict r)) rows). split; [reflexivity|]. intros s Hs.
  destruct (curve_max_threshold rows s) as (positive & _ & Hm). split.
  - unfold resilience. rewrite curve_rows_for, Hm. by destruct (max_default _).
  - assert (Hg : grouped_rows (map (fun r => VDict (row_dict r)) rows) s = Ok (map (fun r => VDict (row_dict r)) (of_scenario s rows))).
    { unfold grouped_rows. clear. unfold of_scenario. induction rows as [|r rows IH]; [done|]. cbn [map res_filter List.filter].
      change (vitem (VDict (row_dict r)) "scenario") with (Ok (VStr (tr_scenario r))). cbn match. rewrite IH.
      change (py_str (VStr (tr_scenario r))) with (tr_scenario r). by destruct (String.eqb (tr_scenario r) s). }
    assert (Hd : exists duals, res_map (row_float "dual_rps") (map (fun r => VDict (row_dict r)) (of_scenario s rows)) = Ok duals).
    { exists (map tr_dual_rps (of_scenario s rows)). generalize (of_scenario s rows) as l. induction l as [|r l IH]; [done|].
      cbn [map res_map]. change (row_float "dual_rps" (VDict (row_dict r))) with (Ok (tr_dual_rps r)). by rewrite IH. }
    destruct Hd as [duals Hd]. do 3 eexists. split_and!; [exact Hg|exact Hm|exact Hd|].
    pose proof (rows_of_scenario _ _ _ _ _ _ _ H Hs) as Hown.
    destruct Hown as [|t r ts rs Hr _]; [done|]. cbn [map].
    change (is_ok (first_row_cells [VDict (row_dict r)]) = true). by eapply threshold_reportable.
Qed.
Lemma sweep_is_readable a restart traffic env doc : sweep a restart traffic env = Ok doc ->
  capacity_readable (VDict (summary_json a doc)).
Proof.
  unfold sweep. intros H. destruct (_parse_csv_ints _) as [cs|]; [|done].
  destruct (res_fold _ _ _) as [[measured n]|]; [|done]. destruct (_build_sweep_ranking measured) as [by_scenario|]; [|done].
  destruct (res_map with_ranking measured); [|done]. destruct (calibrate _ _ _ _); [|done]. injection H as <-. split.
  - intros lang. unfold setup_capacity.
    cbn [vget summary_json sd_meta sweep_meta dget_or dget String.eqb Ascii.eqb Bool.eqb default from_option id viter].
    assert (Hn : res_map (fun v => match v with VStr s => Ok s | _ => Err TypeError end) (map VStr (sweep_scenarios a)) = Ok (sweep_scenarios a)).
    { generalize (sweep_scenarios a) as l. induction l as [|x l IH]; [done|]. cbn [map res_map]. by rewrite IH. }
    rewrite Hn. reflexivity.
  - intros s _. unfold ranking_entry.
    cbn [vget summary_json sd_ranking ranking_dict dget_or dget String.eqb Ascii.eqb Bool.eqb default from_option id].
    unfold dget_or. match goal with |- context [dget ?l s] => set (entries := l) end.
    assert (He : dget entries s = None \/ exists r, dget entries s = Some (VDict
      [("ranked_points", VList (map (fun x => VDict (rank_dict x)) (ranked_points r)));
       ("feasible_points", VList (map (fun x => VDict (rank_dict x)) (feasible_points r)));
       ("best_safe_point", opt_rank (best_safe_point r)); ("highest_feasible_point", opt_rank (highest_feasible_point r))]%string)).
    { unfold entries. induction by_scenario as [|[s' r] l IH]; [by left|]. cbn [map dget fst snd].
      destruct (String.eqb s s'); [right; by exists r|exact IH]. }
    destruct He as [->|[r ->]].
    + by exists (VDict []), None, None.
    + eexists _, (highest_feasible_point r), (best_safe_point r). split_and!; reflexivity.
Qed.

(** The pipeline can always be reported.  The report of a reuse experiment, its
    comparison with the baseline and its threshold curve, and the summary of a capacity
    sweep are whatever the servers and the scrapes made of them: if the scripts that
    write them finished, the final report is made from them in both languages, with or
    without the optional documents. *)
Theorem pipeline_reported ra rtraffic renv report slo msr sf doc t base thresholds rows sa restart straffic senv sweep_document
  pngs png : reuse_experiment ra rtraffic renv = Ok report ->
  compare_baseline slo msr sf doc t = Ok base -> threshold_rows slo msr sf doc thresholds = Ok rows ->
  sweep sa restart straffic senv = Ok sweep_document ->
  forall with_baseline with_threshold with_capacity lang,
  is_ok (_build_report
    {| reuse_doc := VDict report;
       baseline_doc := if with_baseline : bool then Some (VDict base) else None;
       threshold_doc := if with_threshold : bool then Some (VDict (curve_json rows)) else None;
       threshold_pngs := pngs;
       capacity_doc := if with_capacity : bool then Some (VDict (summary_json sa sweep_document)) else None;
       capacity_png := png |} lang) = true.
Proof.
  intros Hr Hb Ht Hs wb wt wc lang. apply report_total; cbn.
  - by eapply reuse_is_readable.
  - intros d Hd. destruct wb; [|done]. injection Hd as <-. by eapply compared_is_readable.
  - intros d Hd. destruct wt; [|done]. injection Hd as <-. by eapply curve_is_readable.
  - intros d Hd. destruct wc; [|done]. injection Hd as <-. by eapply sweep_is_readable.
Qed.

Definition demo_row (t dual : Z) : Threshold.row :=
  {| tr_min_hit_ratio := dec t (-2); tr_scenario := "high_reuse"; tr_baseline_rps := of_Z 4; tr_dual_rps := of_Z dual;
     tr_delta := of_Z (dual - 4); tr_fields := [] |}.
Definition demo_rows : list Threshold.row := [demo_row 65 4; demo_row 66 3; demo_row 67 0].
Lemma quoted_threshold_witness : (forall r, r ∈ demo_rows -> is_nan (tr_min_hit_ratio r) = false) /\
  resilience (VDict (curve_json demo_rows)) "high_reuse" = Ok "0.6600"%string.
Proof.
  assert (Hn : forall r, r ∈ demo_rows -> is_nan (tr_min_hit_ratio r) = false).
  { intros r Hr. unfold demo_rows in Hr. rewrite !elem_of_cons, elem_of_nil in Hr. by destruct Hr as [->|[->|[->|[]]]]. }
  split; [exact Hn|].
  destruct (quoted_threshold demo_rows "high_reuse" Hn) as [[_ Hno]|(best & (Hb & _ & Hpos) & -> & Hmax)].
  - exfalso. apply (Hno (demo_row 66 3)). split_and!; [right; by left|done|vm_compute; reflexivity].
  - assert (Hge : fleb (tr_min_hit_ratio (demo_row 66 3)) (tr_min_hit_ratio best) = true)
      by (apply Hmax; split_and!; [right; by left|done|vm_compute; reflexivity]).
    unfold demo_rows in Hb. rewrite !elem_of_cons, elem_of_nil in Hb.
    destruct Hb as [->|[->|[->|[]]]]; [vm_compute in Hge; discriminate|vm_compute; reflexivity|vm_compute in Hpos; discriminate].
Defined.

Notation "'demo_compared'" := (compare_baseline (of_Z 1500) (dec 99 (-2)) (dec 9 (-1))).
Notation "'demo_curve'" := (threshold_rows (of_Z 1500) (dec 99 (-2)) (dec 9 (-1))).
Lemma pipeline_reported_witness : exists report base rows swept,
  demo_reuse = Ok report /\ demo_compared (VDict report) (dec 5 (-2)) = Ok base /\
  demo_curve (VDict report) [dec 65 (-2)] = Ok rows /\ demo_sweep = Ok swept /\
  is_ok (_build_report {| reuse_doc := VDict report; baseline_doc := Some (VDict base);
    threshold_doc := Some (VDict (curve_json rows)); threshold_pngs := ["curve.png"%string];
    capacity_doc := Some (VDict (summary_json Sweep.demo_args swept)); capacity_png := None |} Zh) = true.
Proof.
  assert (H : (report <-! demo_reuse ;; base <-! demo_compared (VDict report) (dec 5 (-2)) ;;
    rows <-! demo_curve (VDict report) [dec 65 (-2)] ;; swept <-! demo_sweep ;; Ok true) = Ok true) by (vm_compute; reflexivity).
  destruct demo_reuse as [report|] eqn:Er; [|discriminate H].
  destruct (demo_compared (VDict report) (dec 5 (-2))) as [base|] eqn:Eb; [|discriminate H].
  destruct (demo_curve (VDict report) [dec 65 (-2)]) as [rows|] eqn:Et; [|discriminate H].
  destruct demo_sweep as [swept|] eqn:Es; [|discriminate H].
  exists report, base, rows, swept. split; [reflexivity|]. split; [exact Eb|]. split; [exact Et|]. split; [reflexivity|].
  exact (pipeline_reported _ _ _ _ _ _ _ _ _ _ _ _ _ _ _ _ _ ["curve.png"%string] None Er Eb Et Es true true true Zh).
Defined.

(** The first finding is printed whatever the numbers are. *)
Definition reversed_reuse : val :=
  VDict [("aggregates", VDict [("low_reuse", VDict [("hit_ratio_mean", VFloat (dec 9 (-1)))]);
                               ("high_reuse", VDict [("hit_ratio_mean", VFloat (dec 1 (-1)))])])]%string.
Example headline_ignores_data : (lines <-! _build_key_findings En reversed_reuse None None None ;; Ok (nth 2 lines "")) =
  Ok "- High reuse delivers stronger cache benefit signals than low reuse, reflected by hit_ratio mean `0.1000` vs `0.9000`."%string.
Proof. vm_compute. reflexivity. Qed.
