(* ===== verification/Bundle.v ===== *)
(** * Writing the final report (scripts/generate_final_report.py, scripts/generate_report_bundle.py)

    The two entry points: they resolve paths, copy the plots next to the report and write
    it.  The disk is the environment; what is left of a run is the list of the operations
    that succeeded, also when it ends in an exception. *)

From S2P Require Import Prelude PyFloat PyStr PyVal PyPath Disk Policy Experiment Sweep Threshold Reuse FinalReport.

Section scripts.
Context (disk : Disk).

(** ** The final report *)

(** [target.resolve().relative_to(base.resolve()).as_posix()] *)
Definition relative_to (target base : string) : res string :=
  let tail := drop (length (path_parts base)) (path_parts target) in
  if String.eqb (path_root target) (path_root base)
     && bool_decide (take (length (path_parts base)) (path_parts target) = path_parts base)
  then Ok (match tail with [] => "." | _ => join "/" (map str tail) end)
  else Err (ValueError "not in the subpath").
Definition is_absolute (path : string) : bool := negb (String.eqb (path_root path) "").
Definition _relpath (target base_dir : string) : res string :=
  if is_absolute target && has_prefix (chars (resolve disk base_dir)) (chars (resolve disk target))
  then relative_to (resolve disk target) (resolve disk base_dir)
  else Ok (str (path_name target)).

Record ReportArgs := {
  ra_reuse_summary : string;
  ra_baseline_compare : string;
  ra_threshold_json : string;
  ra_threshold_png : list string;
  ra_capacity_summary : string;
  ra_capacity_png : string;
  ra_out_md : string;
  ra_lang : Lang
}.
(** An option left at its default is the empty string. *)
Definition given (s : string) : option string := if String.eqb s "" then None else Some s.

Definition report_main (a : ReportArgs) : D unit :=
  let out_md := path_str (ra_out_md a) in
  let out_dir := path_parent (ra_out_md a) in
  perform (mkdir disk out_dir) (OMkdir out_dir) ;;;
  reuse <~ _read_json disk (ra_reuse_summary a) ;;
  baseline <~ if_given (given (ra_baseline_compare a)) (_read_json disk) ;;
  threshold <~ if_given (given (ra_threshold_json a)) (_read_json disk) ;;
  capacity <~ if_given (given (ra_capacity_summary a)) (_read_json disk) ;;
  pngs <~ st_lift (res_map (fun path => _relpath (path_str path) out_dir) (ra_threshold_png a)) ;;
  png <~ if_given (given (ra_capacity_png a)) (fun path => st_lift (_relpath (path_str path) out_dir)) ;;
  report <~ st_lift (_build_report {| reuse_doc := reuse; baseline_doc := baseline; threshold_doc := threshold;
    threshold_pngs := pngs; capacity_doc := capacity; capacity_png := png |} (ra_lang a)) ;;
  perform (write_text disk out_md report) (OWrite out_md report).

(** ** The bundle *)

Definition _optional (path : string) : option string := if is_file disk path then Some path else None.
Definition _copy_plot (source : option string) (output_dir name : string) : D (option string) :=
  if_given source (fun source =>
    let destination := path_join output_dir name in
    perform (copy2 disk source destination) (OCopy source destination) ;;;
    st_lift (Ok destination)).
(** [[path for path in l if path is not None]] *)
Definition not_none {A} (l : list (option A)) : list A := omap id l.

Fixpoint copy_plots (paths : list string) (output_dir : string) : D (list (option string)) :=
  match paths with
  | [] => st_lift (Ok [])
  | path :: rest =>
      c <~ _copy_plot (Some path) output_dir (str (path_name path)) ;;
      cs <~ copy_plots rest output_dir ;;
      st_lift (Ok (c :: cs))
  end.

Definition threshold_plots (experiment_dir : string) : list string :=
  not_none [_optional (path_join experiment_dir "threshold_recommended_rps_curve.png");
            _optional (path_join experiment_dir "threshold_recommended_rps_curve_split.png")].

Definition _build_one_report (experiment_dir : string) (capacity_dir : option string) (output_dir : string)
  (language : Lang) (output_name : string) : D string :=
  let reuse_summary := path_join experiment_dir "summary.json" in
  if negb (is_file disk reuse_summary) then st_lift (Err OSError) else
  let baseline := _optional (path_join experiment_dir "baseline_compare.json") in
  let threshold_json := _optional (path_join experiment_dir "threshold_recommended_rps_curve.json") in
  let capacity_summary := match capacity_dir with Some d => _optional (path_join d "summary.json") | None => None end in
  let capacity_png := match capacity_dir with
                      | Some d => _optional (path_join d "capacity_sweep_ranking.png") | None => None end in
  perform (mkdir disk output_dir) (OMkdir output_dir) ;;;
  copied <~ copy_plots (threshold_plots experiment_dir) output_dir ;;
  copied_capacity_png <~ _copy_plot capacity_png output_dir "capacity_sweep_ranking.png" ;;
  reuse_doc <~ _read_json disk reuse_summary ;;
  baseline_doc <~ if_given baseline (_read_json disk) ;;
  threshold_doc <~ if_given threshold_json (_read_json disk) ;;
  capacity_doc <~ if_given capacity_summary (_read_json disk) ;;
  report <~ st_lift (_build_report {| reuse_doc := reuse_doc; baseline_doc := baseline_doc; threshold_doc := threshold_doc;
    threshold_pngs := map (fun path => str (path_name path)) (not_none copied); capacity_doc := capacity_doc;
    capacity_png := (fun path => str (path_name path)) <$> copied_capacity_png |} language) ;;
  let output_path := path_join output_dir output_name in
  perform (write_text disk output_path report) (OWrite output_path report) ;;;
  st_lift (Ok output_path).

Record BundleArgs := {
  ba_experiment_dir : string;
  ba_capacity_dir : option string;
  ba_out_dir : option string;
  ba_language : option Lang        (* [None] is [both] *)
}.
Definition languages (a : BundleArgs) : list Lang := match ba_language a with None => [En; Zh] | Some l => [l] end.
Definition output_name (language : Lang) : string :=
  match language with En => "final_report.md" | Zh => "final_report_zh.md" end.

Definition bundle_main (a : BundleArgs) : D unit :=
  let experiment_dir := resolve disk (ba_experiment_dir a) in
  let capacity_dir := resolve disk <$> ba_capacity_dir a in
  let output_dir := resolve disk (default experiment_dir (ba_out_dir a)) in
  st_for (fun language =>
    _ <~ _build_one_report experiment_dir capacity_dir output_dir language (output_name language) ;; st_lift (Ok tt))
    (languages a).
End scripts.

(** ** Links *)

(** A link that is relative to the report leads to the plot. *)
Lemma relative_to_leads target base link : relative_to target base = Ok link ->
  path_parts (path_join base link) = path_parts target.
Proof.
  unfold relative_to. intros H. destruct (String.eqb _ _ && bool_decide _) eqn:E; [|done]. injection H as <-.
  apply andb_prop in E as [_ Hp]. apply bool_decide_eq_true in Hp.
  set (tail := drop _ _).
  assert (Hd : path_parts base ++ tail = path_parts target) by (rewrite <- Hp at 1; apply take_drop).
  assert (Hpl : Forall plain_name tail) by (apply Forall_drop, path_parts_plain).
  rewrite <- Hd. destruct tail as [|p l] eqn:Et; [by rewrite path_parts_join|].
  rewrite path_parts_join by (by apply slash_first_join). f_equal. by apply parts_of_join.
Qed.


(** ** A run of the bundle *)

(** The document of an optional file, if there is one. *)
Definition reads (disk : Disk) (o : option string) (d : option val) : Prop :=
  match o, d with
  | None, None => True
  | Some path, Some v => read_json disk (path_str path) = Ok v
  | _, _ => False
  end.
Lemma read_given disk o d ops : reads disk o d -> if_given o (_read_json disk) ops = (ops, Ok d).
Proof.
  destruct o as [path|], d as [v|]; try done. intros H. unfold if_given, _read_json. by rewrite (run_lift _ _ _ _ H).
Qed.

(** The files a copy of [source] in [output_dir] involves. *)
Definition copied_to (output_dir source : string) : string := path_join output_dir (str (path_name source)).
Definition copies (output_dir : string) (sources : list string) : list disk_op :=
  map (fun source => OCopy source (copied_to output_dir source)) sources.
Definition copyable (disk : Disk) (output_dir source : string) : Prop :=
  copy2 disk source (copied_to output_dir source) = Ok tt.

Lemma copy_plots_ok disk output_dir sources ops : Forall (copyable disk output_dir) sources ->
  copy_plots disk sources output_dir ops =
  (ops ++ copies output_dir sources, Ok (map (fun source => Some (copied_to output_dir source)) sources)).
Proof.
  intros H. revert ops. induction H as [|source sources Hs _ IH]; intros ops; cbn [copy_plots copies map].
  - by rewrite app_nil_r.
  - unfold _copy_plot, if_given.
    rewrite (run_bind _ _ ops (ops ++ [OCopy source (copied_to output_dir source)]) (Some (copied_to output_dir source))).
    + rewrite (run_bind _ _ _ _ _ (IH _)). unfold st_lift. by rewrite <- app_assoc.
    + unfold copyable in Hs. rewrite (run_bind _ _ ops (ops ++ [OCopy source (copied_to output_dir source)]) (copied_to output_dir source)); [done|].
      rewrite (run_bind _ _ _ _ _ (perform_ok _ _ _ Hs)). done.
Qed.

(** The documents of an experiment directory and a capacity directory. *)
Record Documents := {
  do_reuse : val;
  do_baseline : option val;
  do_threshold : option val;
  do_capacity : option val
}.
Section one_report.
Context (disk : Disk) (experiment_dir : string) (capacity_dir : option string) (output_dir : string).

Definition capacity_file (name : string) : option string :=
  match capacity_dir with Some d => _optional disk (path_join d name) | None => None end.
(** The plots of a report: the curves of the thresholds, then the sweep. *)
Definition plots : list string :=
  threshold_plots disk experiment_dir ++ option_list (capacity_file "capacity_sweep_ranking.png").
Definition documents (d : Documents) : Prop :=
  is_file disk (path_join experiment_dir "summary.json") = true /\
  reads disk (Some (path_join experiment_dir "summary.json")) (Some (do_reuse d)) /\
  reads disk (_optional disk (path_join experiment_dir "baseline_compare.json")) (do_baseline d) /\
  reads disk (_optional disk (path_join experiment_dir "threshold_recommended_rps_curve.json")) (do_threshold d) /\
  reads disk (capacity_file "summary.json") (do_capacity d).

Definition inputs (d : Documents) : Inputs := {|
  reuse_doc := do_reuse d; baseline_doc := do_baseline d; threshold_doc := do_threshold d;
  threshold_pngs := map (fun path => str (path_name path)) (threshold_plots disk experiment_dir);
  capacity_doc := do_capacity d;
  capacity_png := (fun path => str (path_name path)) <$> capacity_file "capacity_sweep_ranking.png" |}.
(** What one report leaves on the disk. *)
Definition report_ops (name text : string) : list disk_op :=
  OMkdir output_dir :: copies output_dir plots ++ [OWrite (path_join output_dir name) text].

Lemma name_kept source : plain_name (path_name source) -> str (path_name (copied_to output_dir source)) = str (path_name source).
Proof. intros H. unfold copied_to. apply path_name_join. by rewrite chars_str. Qed.
Lemma plots_plain : Forall (fun path => plain_name (path_name path)) plots.
Proof.
  assert (Hj : forall d name, plain_name (chars name) ->
    Forall (fun path => plain_name (path_name path)) (option_list (_optional disk (path_join d name)))).
  { intros d name Hn. unfold _optional. case_match; constructor; [|constructor].
    pose proof (path_name_join d name Hn) as E. apply (f_equal chars) in E. rewrite chars_str in E. by rewrite E. }
  unfold plots, threshold_plots, not_none, capacity_file. apply Forall_app. split.
  - pose proof (Hj experiment_dir "threshold_recommended_rps_curve.png" ltac:(apply (bool_decide_unpack _); vm_compute; exact I)) as H1.
    pose proof (Hj experiment_dir "threshold_recommended_rps_curve_split.png" ltac:(apply (bool_decide_unpack _); vm_compute; exact I)) as H2.
    cbn [omap list_omap]. unfold id. repeat case_match; cbn in *; inversion H1; inversion H2; subst; repeat first [apply Forall_nil_2 | apply Forall_cons_2; [done|]].
  - destruct capacity_dir as [d|]; [|constructor]. apply Hj. apply (bool_decide_unpack _); vm_compute; exact I.
Qed.

Lemma capacity_copied ops : Forall (copyable disk output_dir) (option_list (capacity_file "capacity_sweep_ranking.png")) ->
  _copy_plot disk (capacity_file "capacity_sweep_ranking.png") output_dir "capacity_sweep_ranking.png" ops =
  (ops ++ copies output_dir (option_list (capacity_file "capacity_sweep_ranking.png")),
   Ok (copied_to output_dir <$> capacity_file "capacity_sweep_ranking.png")).
Proof.
  unfold capacity_file. destruct capacity_dir as [d|]; [|intros _; cbn; by rewrite app_nil_r].
  unfold _optional. destruct (is_file _ _); [|intros _; cbn; by rewrite app_nil_r].
  intros H. apply Forall_inv in H. unfold copyable, copied_to in *. cbn [option_list copies map fmap option_fmap option_map].
  unfold copied_to. rewrite path_name_join in * by (apply (bool_decide_unpack _); vm_compute; exact I).
  unfold _copy_plot, if_given.
  rewrite (run_bind _ _ ops (ops ++ [OCopy (path_join d "capacity_sweep_ranking.png")
                                       (path_join output_dir "capacity_sweep_ranking.png")])
             (path_join output_dir "capacity_sweep_ranking.png"));
    change (option_list (Some ?x)) with [x]; unfold copies, copied_to; cbn [map]; cbv zeta.
  - by rewrite path_name_join by (apply (bool_decide_unpack _); vm_compute; exact I).
  - by rewrite (run_bind _ _ _ _ _ (perform_ok _ _ _ H)).
Qed.
End one_report.

Section runs.
Context (disk : Disk) (experiment_dir : string) (capacity_dir : option string) (output_dir : string) (docs : Documents).
Context (Hdocs : documents disk experiment_dir capacity_dir docs).
Context (Hmkdir : mkdir disk output_dir = Ok tt) (Hwrite : forall path text, write_text disk path text = Ok tt).
Context (Hcopy : Forall (copyable disk output_dir) (plots disk experiment_dir capacity_dir)).
#[local] Abbreviation the_inputs := (inputs disk experiment_dir capacity_dir docs).
#[local] Abbreviation the_ops := (report_ops disk experiment_dir capacity_dir output_dir).

Lemma copied_names :
  map (fun path => str (path_name path))
    (not_none (map (fun source => Some (copied_to output_dir source)) (threshold_plots disk experiment_dir)))
  = threshold_pngs the_inputs /\
  (fun path => str (path_name path)) <$> (copied_to output_dir <$> capacity_file disk capacity_dir "capacity_sweep_ranking.png")
  = capacity_png the_inputs.
Proof.
  pose proof (plots_plain disk experiment_dir capacity_dir) as H. apply Forall_app in H as [Ht Hc].
  cbn [threshold_pngs capacity_png inputs]. split.
  - induction Ht as [|p l Hp _ IH]; [done|]. unfold not_none in *. cbn [map omap list_omap id].
    by rewrite (name_kept _ _ Hp), IH.
  - destruct (capacity_file _ _ _) as [p|]; [|done]. apply Forall_inv in Hc. cbn. by rewrite (name_kept _ _ Hc).
Qed.

Lemma one_report_ok language name text ops : _build_report the_inputs language = Ok text ->
  _build_one_report disk experiment_dir capacity_dir output_dir language name ops =
  (ops ++ the_ops name text, Ok (path_join output_dir name)).
Proof.
  intros Htext. destruct Hdocs as (Hfile & Hreuse & Hbase & Hthr & Hcap).
  unfold plots in Hcopy. apply Forall_app in Hcopy as [Hct Hcc].
  unfold _build_one_report. rewrite Hfile. cbn [negb].
  rewrite (run_bind _ _ _ _ _ (perform_ok _ _ _ Hmkdir)).
  rewrite (run_bind _ _ _ _ _ (copy_plots_ok _ _ _ _ Hct)).
  rewrite (run_bind _ _ _ _ _ (capacity_copied _ _ _ _ Hcc)).
  unfold _read_json at 1. rewrite (run_lift _ _ _ _ Hreuse).
  rewrite (run_bind _ _ _ _ _ (read_given _ _ _ _ Hbase)).
  rewrite (run_bind _ _ _ _ _ (read_given _ _ _ _ Hthr)).
  rewrite (run_bind _ _ _ _ _ (read_given _ _ _ _ Hcap)).
  destruct copied_names as [-> ->].
  rewrite (run_lift _ _ _ text Htext).
  rewrite (run_bind _ _ _ _ _ (perform_ok _ _ _ (Hwrite _ _))).
  unfold st_lift, report_ops, copies, plots. rewrite map_app, <- !app_assoc. done.
Qed.

Lemma reports_ok ls ops : (forall l, l ∈ ls -> is_ok (_build_report the_inputs l) = true) ->
  exists texts, Forall2 (fun l text => _build_report the_inputs l = Ok text) ls texts /\
    st_for (fun l => _ <~ _build_one_report disk experiment_dir capacity_dir output_dir l (output_name l) ;; st_lift (Ok tt)) ls ops =
    (ops ++ mjoin (zip_with (fun l text => the_ops (output_name l) text) ls texts), Ok tt).
Proof.
  revert ops. induction ls as [|l ls IH]; intros ops H.
  - exists []. split; [constructor|]. cbn. by rewrite app_nil_r.
  - pose proof (H l ltac:(by left)) as Hl. destruct (_build_report the_inputs l) as [text|] eqn:Et; [|done].
    destruct (IH (ops ++ the_ops (output_name l) text)) as (texts & Hf & Hr); [intros; apply H; by right|].
    exists (text :: texts). split; [by constructor|]. cbn [st_for zip_with].
    rewrite (run_bind _ _ ops (ops ++ the_ops (output_name l) text) tt).
    + rewrite Hr. cbn. by rewrite <- app_assoc.
    + by rewrite (run_bind _ _ _ _ _ (one_report_ok _ _ _ _ Et)).
Qed.
End runs.

Lemma optional_elem disk path o : o ∈ option_list (_optional disk path) -> o = path /\ is_file disk path = true.
Proof. unfold _optional. case_match; [|by intros ?%elem_of_nil]. by intros ->%list_elem_of_singleton. Qed.
Lemma plots_elem disk e c p : p ∈ plots disk e c ->
  is_file disk p = true /\ exists d name, (d = e \/ c = Some d) /\ p = path_join d name /\ plain_name (chars name).
Proof.
  assert (Hthree : forall name, name ∈ ["threshold_recommended_rps_curve.png"; "threshold_recommended_rps_curve_split.png";
    "capacity_sweep_ranking.png"]%string -> plain_name (chars name)).
  { intros name Hn. apply list_elem_of_In in Hn. cbn in Hn. destruct Hn as [<-|[<-|[<-|[]]]];
      apply (bool_decide_unpack _); vm_compute; exact I. }
  unfold plots, threshold_plots, not_none, capacity_file. intros [H|H]%elem_of_app.
  - rewrite list_elem_of_omap in H. destruct H as (o & Ho & Hp). unfold id in Hp. subst o.
    rewrite !elem_of_cons, elem_of_nil in Ho. destruct Ho as [Ho|[Ho|[]]]; symmetry in Ho;
      (assert (Hp : p ∈ option_list (Some p)) by (by left)); rewrite <- Ho in Hp; apply optional_elem in Hp as [-> Hf];
      (split; [done|]); do 2 eexists; (split; [by left|]); (split; [reflexivity|]); apply Hthree; [by left|right; by left].
  - destruct c as [d|]; [|by apply elem_of_nil in H]. apply optional_elem in H as [-> Hf]. split; [done|].
    do 2 eexists. split; [by right|]. split; [reflexivity|]. apply Hthree. right; right; by left.
Qed.
Lemma plots_copyable disk e c out : working disk -> path_parts out <> path_parts e ->
  (forall d, c = Some d -> path_parts out <> path_parts d) -> Forall (copyable disk out) (plots disk e c).
Proof.
  intros Hw He Hc. apply Forall_forall. intros p Hp. destruct (plots_elem _ _ _ _ Hp) as (Hf & d & name & Hd & -> & Hn).
  apply (wo_copy _ Hw); [done|]. unfold copied_to. rewrite (path_name_join _ _ Hn). intros E.
  apply (f_equal path_parts) in E. rewrite !path_parts_join in E by (by apply plain_name_first).
  apply app_inv_tail in E. destruct Hd as [->| ->]; [by apply He|by apply (Hc d)].
Qed.

Lemma in_place_fails disk e c ls : working disk -> is_file disk (path_join e "summary.json") = true -> ls <> [] ->
  threshold_plots disk e <> [] ->
  st_for (fun l => _ <~ _build_one_report disk e c e l (output_name l) ;; st_lift (Ok tt)) ls [] = ([OMkdir e], Err OSError).
Proof.
  intros Hw Hf Hls Hp. destruct ls as [|l ls]; [done|]. cbn [st_for].
  destruct (threshold_plots disk e) as [|p ps] eqn:E; [done|].
  assert (Hin : p ∈ plots disk e None) by (unfold plots; rewrite E; by left).
  destruct (plots_elem _ _ _ _ Hin) as (_ & d & name & [->|?] & -> & Hn); [|done].
  apply run_bind_err, run_bind_err. unfold _build_one_report. rewrite Hf. cbn [negb].
  rewrite (run_bind _ _ _ _ _ (perform_ok _ _ _ (wo_mkdir _ Hw e))). rewrite E. cbn [copy_plots].
  apply run_bind_err, run_bind_err. unfold _copy_plot, if_given. apply run_bind_err. cbv zeta. apply run_bind_err.
  rewrite (path_name_join _ _ Hn). apply perform_err, (wo_same _ Hw).
Qed.

Lemma links_copied disk e c docs out name :
  name ∈ threshold_pngs (inputs disk e c docs) ++ option_list (capacity_png (inputs disk e c docs)) ->
  exists source, is_file disk source = true /\ OCopy source (path_join out name) ∈ copies out (plots disk e c).
Proof.
  intros H.
  assert (Hp : exists p, p ∈ plots disk e c /\ name = str (path_name p)).
  { unfold plots. cbn [inputs threshold_pngs capacity_png] in H. apply elem_of_app in H as [H|H].
    - apply list_elem_of_fmap in H as (p & -> & Hp). exists p. split; [apply elem_of_app; by left|done].
    - destruct (capacity_file _ _ _) as [p|]; [|by apply elem_of_nil in H]. apply list_elem_of_singleton in H as ->.
      exists p. split; [apply elem_of_app; right; by left|done]. }
  destruct Hp as (p & Hp & ->). destruct (plots_elem _ _ _ _ Hp) as (Hf & _). exists p. split; [done|].
  unfold copies. apply list_elem_of_fmap. by exists p.
Qed.


(** ** A disk *)

Notation "'demo_compared'" := (compare_baseline (of_Z 1500) (dec 99 (-2)) (dec 9 (-1))).
Notation "'demo_curve'" := (threshold_rows (of_Z 1500) (dec 99 (-2)) (dec 9 (-1))).
(** An experiment with its comparison, its curve and both plots; no sweep. *)
Definition demo_disk (report base curve : val) : Disk := {|
  is_file path := negb (has_prefix (chars "/reports") (chars path));
  resolve := path_str;
  read_json path :=
    if String.eqb path "/e/x/summary.json" then Ok report
    else if String.eqb path "/e/x/baseline_compare.json" then Ok base
    else if String.eqb path "/e/x/threshold_recommended_rps_curve.json" then Ok curve else Err OSError;
  mkdir _ := Ok tt;
  copy2 a b := if String.eqb a b then Err OSError else Ok tt;
  write_text _ _ := Ok tt;
  savefig _ _ := Ok tt |}.
Definition demo_args (out_dir : option string) : BundleArgs :=
  {| ba_experiment_dir := "/e/x/"; ba_capacity_dir := None; ba_out_dir := out_dir; ba_language := None |}.
Lemma demo_working report base curve : working (demo_disk report base curve).
Proof.
  split; try done; cbn.
  - intros a b _ Hab. by destruct (String.eqb_spec a b).
  - intros a. by rewrite String.eqb_refl.
Qed.

(** A plot in a directory whose name only extends the report's passes the textual test
    and then has no relative path. *)
Example sibling_plot_crashes :
  _relpath (demo_disk VNone VNone VNone) "/out/report2/curve.png" "/out/report" = Err (ValueError "not in the subpath").
Proof. vm_compute. reflexivity. Qed.
