(* ===== verification/Scripts.v ===== *)
(** * The small scripts (scripts/run_capacity_sweep.py's restart of the serving stack,
    planner/build_frontier.py, planner/aggregate_hard_vs_hot.py,
    scripts/lib/write_run_metadata.py, scripts/download_hf_model.py)

    What they compute; processes, files and downloads are arguments, and the [main]s that
    write the documents are in [Commands]. *)

From S2P Require Import Prelude PyFloat PyStr PyUrl PyPath PyVal WindowMetrics.

(** ** Restarting the stack between two points of a sweep *)

Section restart.
Context (netloc_ok : string -> bool).                (* the IPv6 and NFKC checks of urllib.parse *)
Context (environ : list (string * string)).          (* os.environ *)

Definition _parse_url_host_port (raw : string) (default_port : Z) : res (string * Z) :=
  parsed <-! urlparse netloc_ok raw ;;
  let host := match hostname parsed with Some h => if String.eqb h "" then "localhost" else h | None => "localhost" end%string in
  p <-! port parsed ;;
  Ok (host, match p with Some z => if z =? 0 then default_port else z | None => default_port end).

Record Stack := {
  st_backend : string;
  st_base_url : string;
  st_exporter_metrics_url : string;
  st_results_dir : string;
  st_served_model_name : string;
  st_model_path : string
}.
Definition _build_stack_restart_env (s : Stack) : res (list (string * string)) :=
  ' (backend_host, backend_port) <-! _parse_url_host_port (st_base_url s) (if String.eqb (st_backend s) "sglang" then 30000 else 8000) ;;
  ' (exporter_host, exporter_port) <-! _parse_url_host_port (st_exporter_metrics_url s) 9108 ;;
  Ok (dupdate environ
    [("RESULTS_DIR", st_results_dir s); ("ONE_CLICK_BACKEND", st_backend s); ("START_EXPORTER", "true");
     ("SERVED_MODEL_NAME", st_served_model_name s); ("MODEL", st_model_path s); ("HOST", backend_host);
     ("PORT", str_of_Z backend_port); ("SGLANG_HOST", backend_host); ("SGLANG_PORT", str_of_Z backend_port);
     ("EXPORTER_HOST", exporter_host); ("EXPORTER_PORT", str_of_Z exporter_port)]%string).
(** [subprocess.run(..., check=True)] of the two scripts: what was run, and how it ended. *)
Definition _restart_serving_stack (run : string -> list (string * string) -> Z) (s : Stack) : list string * res unit :=
  match _build_stack_restart_env s with
  | Err e => ([], Err e)
  | Ok env =>
      if run "scripts/one_click_down.sh" env =? 0 then
        (["scripts/one_click_down.sh"; "scripts/one_click_up.sh"]%string,
         if run "scripts/one_click_up.sh" env =? 0 then Ok () else Err CalledProcessError)
      else (["scripts/one_click_down.sh"%string], Err CalledProcessError)
  end.

(** The stack is started on the host and port that the sweep will measure, whatever the
    environment said before; nothing else of the environment changes, and the stack is
    only started again after it was stopped. *)
Definition assigned : list string :=
  ["RESULTS_DIR"; "ONE_CLICK_BACKEND"; "START_EXPORTER"; "SERVED_MODEL_NAME"; "MODEL"; "HOST"; "PORT"; "SGLANG_HOST";
   "SGLANG_PORT"; "EXPORTER_HOST"; "EXPORTER_PORT"]%string.
Lemma restart_env_spec s env : _build_stack_restart_env s = Ok env ->
  (exists host p, _parse_url_host_port (st_base_url s) (if String.eqb (st_backend s) "sglang" then 30000 else 8000) = Ok (host, p) /\
     dget env "HOST" = Some host /\ dget env "PORT" = Some (str_of_Z p) /\
     dget env "SGLANG_HOST" = Some host /\ dget env "SGLANG_PORT" = Some (str_of_Z p)) /\
  dget env "MODEL" = Some (st_model_path s) /\ dget env "SERVED_MODEL_NAME" = Some (st_served_model_name s) /\
  forall k, k ∉ assigned -> dget env k = dget environ k.
Proof.
  unfold _build_stack_restart_env. intros H.
  destruct (_parse_url_host_port (st_base_url s) _) as [[host p]|]; [|discriminate H].
  destruct (_parse_url_host_port (st_exporter_metrics_url s) 9108) as [[eh ep]|]; [|discriminate H]. injection H as <-.
  unfold dupdate. cbn [foldl fst snd]. split_and!.
  - exists host, p. rewrite !dget_dset. by split_and!.
  - by rewrite !dget_dset.
  - by rewrite !dget_dset.
  - intros k Hk. unfold assigned in Hk. rewrite !not_elem_of_cons in Hk.
    rewrite !dget_dset_ne; [done|intros E; subst k; tauto..].
Qed.
Lemma restart_order run s cmds r : _restart_serving_stack run s = (cmds, r) ->
  (r = Ok () -> cmds = ["scripts/one_click_down.sh"; "scripts/one_click_up.sh"]%string) /\
  (forall env, _build_stack_restart_env s = Ok env -> run "scripts/one_click_down.sh"%string env <> 0 ->
     cmds = ["scripts/one_click_down.sh"%string] /\ r = Err CalledProcessError).
Proof.
  unfold _restart_serving_stack. destruct (_build_stack_restart_env s) as [env|e]; [|intros [= <- <-]; split; [done|]; by intros env].
  destruct (Z.eqb_spec (run "scripts/one_click_down.sh"%string env) 0) as [E|E]; intros [= <- <-].
  - split; [done|]. intros env' [= <-] Hne. by rewrite E in Hne.
  - split; [done|]. intros env' _ _. done.
Qed.
End restart.

(** ** Merging summaries *)

Section merge.
Context (read_json : string -> res val).              (* json.loads of a file's text *)

Definition frontier_labels (inputs labels : list string) : list string := labels ++ map stem (drop (length labels) inputs).
(** [zip(..., strict=True)] notices the different lengths after the pairs. *)
Definition build_frontier (inputs labels : list string) : res dict :=
  let labels' := frontier_labels inputs labels in
  entries <-! res_map (fun pl : string * string => data <-! read_json (path_str pl.1) ;;
      Ok (VDict [("label", VStr pl.2); ("source", VStr (path_str pl.1)); ("summary", data)]%string)) (combine inputs labels') ;;
  raise_if negb (Nat.eqb (length inputs) (length labels')) with ValueError "zip() argument 2 is longer than argument 1" ;;
  Ok [("kind", VStr "frontier_candidates"); ("entries", VList entries)]%string.
Definition aggregate_hard_vs_hot (hard hot : string) : res dict :=
  h <-! read_json hard ;; t <-! read_json hot ;;
  Ok [("kind", VStr "hard_vs_hot"); ("hard", h); ("hot", t)]%string.

(** Labels may be left out at the end, never given in excess. *)
Lemma frontier_pairs inputs labels d : build_frontier inputs labels = Ok d ->
  (length labels <= length inputs)%nat /\ exists entries, dget d "entries" = Some (VList entries) /\ length entries = length inputs.
Proof.
  unfold build_frontier, frontier_labels. intros H. destruct (res_map _ _) as [entries|] eqn:E; [|discriminate H].
  destruct (Nat.eqb_spec (length inputs) (length (labels ++ map stem (drop (length labels) inputs)))) as [Hl|Hl]; [|discriminate H].
  simpl in H. injection H as <-. apply res_map_length in E. rewrite length_combine, <- Hl in E.
  rewrite length_app, length_map, length_drop in Hl. split; [lia|]. exists entries. split; [done|]. lia.
Qed.
End merge.

(** ** Run metadata, model directory *)

(** [git rev-parse HEAD]: [None] when git cannot be run, otherwise exit status and output. *)
Definition _git_sha (completed : option (Z * string)) : val :=
  match completed with
  | None => VNone
  | Some (returncode, stdout) =>
      if negb (returncode =? 0) then VNone
      else let s := strip stdout in if String.eqb s "" then VNone else VStr s
  end.
Definition run_metadata (run_id backend now_compact now_iso : string) (git : option (Z * string)) : dict :=
  let id := strip run_id in
  [("run_id", VStr (if String.eqb id "" then now_compact else id)); ("backend", VStr backend);
   ("timestamp_utc", VStr now_iso); ("git_sha", _git_sha git)]%string.
(** The destination of a download: [--local-dir], or the last part of the repository's name. *)
Definition hf_destination (root repo_id local_dir : string) : string :=
  if String.eqb local_dir "" then
    path_str (root +:+ "/models/hf/" +:+ List.last (split "/"%char (rstrip_char "/"%char repo_id)) "")
  else path_str local_dir.
Example hf_known : hf_destination "/repo" "Qwen/Qwen2.5-0.5B/" "" = "/repo/models/hf/Qwen2.5-0.5B"%string.
Proof. vm_compute. reflexivity. Qed.
