(* ===== verification/Written.v ===== *)
(** * What the experiments write is JSON

    The documents of the load runner, the windowed experiments, the capacity sweep, the
    reuse experiment and the threshold scripts are built from numbers, texts and each
    other, so [json.dumps] accepts them all: a measurement that finished is not lost when
    it is written. *)

From S2P Require Import Prelude PyFloat PyStr PyVal Digest PromParse WindowMetrics Policy Calibrator Envelope LoadRunner Experiment Sweep Threshold Artifacts.
From S2P Require Reuse Gateway Stage2Config Stage2 Stage2Run Stage2Report.

Abbreviation is_json d := (jsonable (VDict d) = true).

Lemma jsonable_dicts l : Forall (fun d => is_json d) l -> jsonable (VList (map VDict l)) = true.
Proof. rewrite Forall_forall. intros H. by apply jsonable_list. Qed.
#[export] Hint Resolve jsonable_dicts jsonable_dset jsonable_dupdate : jsonable_db.

(** ** Runs *)

Lemma metric_snapshot_json m ts error now s : make_metric_snapshot m ts error now = Ok s -> is_json s.
Proof.
  unfold make_metric_snapshot. destruct (res_map _ m) as [ms|] eqn:E; [|done]. intros [= <-].
  jsonable_doc. apply res_map_Forall2 in E. cbn [jsonable].
  induction E as [|kv kv' m ms Hk _ IH]; [done|]. cbn [forallb]. rewrite IH, andb_true_r. by inv_ok Hk; subst kv'.
Qed.
Lemma fetched_json env get url filt now s : fetch_metrics_snapshot env get url filt now = Ok s -> is_json s.
Proof. unfold fetch_metrics_snapshot. destruct (get url); [|done]. apply metric_snapshot_json. Qed.
Lemma snapshot_or_error_json env get url filt now now' s e :
  snapshot_or_error env (fetch_metrics_snapshot env get url filt now) now' = Ok (s, e) -> is_json s.
Proof.
  unfold snapshot_or_error. destruct (fetch_metrics_snapshot _ _ _ _ _) as [s'|] eqn:E.
  - intros [= <- <-]. by apply fetched_json in E.
  - destruct (make_metric_snapshot _ _ _ _) eqn:Em; [|done]. intros [= <- <-]. by apply metric_snapshot_json in Em.
Qed.
Lemma set_ts_json w k ts : is_json w -> is_json (set_ts w k ts).
Proof. destruct ts; [|done]. intros H. by apply jsonable_dset. Qed.
Lemma run_entry_json repeat summary metrics t1 t2 t3 source : is_json summary -> is_json metrics ->
  is_json (make_run_entry repeat summary metrics t1 t2 t3 source).
Proof.
  intros Hs Hm. unfold make_run_entry. cbv zeta. jsonable_doc. repeat apply set_ts_json. reflexivity.
Qed.
Lemma set_in_json d outer inner v : is_json d -> jsonable v = true -> is_json (set_in d outer inner v).
Proof.
  intros Hd Hv. unfold set_in, dgetv. destruct (dget_or d outer VNone) eqn:E; try done.
  apply jsonable_dset; [done|]. apply jsonable_dset; [|done]. rewrite <- E. by apply jsonable_dget_or.
Qed.
Lemma window_metrics_json before after hk qk source w : derive_window_metrics before after hk qk source = Ok w -> is_json w.
Proof.
  unfold derive_window_metrics. intros H. do 4 (destruct (pick_from _ _) as [[? ?]|]; [|discriminate H]).
  destruct (zero_if_new _ _ _); [|discriminate H]. destruct (zero_if_new _ _ _); [|discriminate H].
  destruct (compute_hit_ratio_from_deltas _ _); [|discriminate H]. injection H as <-.
  cbn [dset empty_derived_window_metrics String.eqb Ascii.eqb Bool.eqb]. jsonable_doc.
Qed.
Lemma entry_quality_json entry q : summarize_entry_quality entry = Ok q -> is_json q.
Proof.
  unfold summarize_entry_quality. intros H. destruct (get_entry_hit_ratio_quality_and_source _) as [[[h mq] src]|]; [|discriminate H].
  inv_ok H. subst q. jsonable_doc.
Qed.

Lemma load_json prm w m t1 t2 t3 s : run_custom_http prm w m t1 t2 t3 = Ok s -> is_json s.
Proof.
  unfold run_custom_http. intros H. destruct (res_map _ _); [|discriminate H].
  destruct (Percentile.Runner._percentile _ _); [|discriminate H]. cbv zeta in H.
  match type of H with match ?c with Ok _ => _ | Err _ => _ end = _ => destruct c; [|discriminate H] end.
  destruct (float_of_int _); [|discriminate H]. destruct (fdiv _ _); [|discriminate H].
  assert (E : forall x : dict, Ok x = Ok s -> s = x) by congruence. apply E in H. by subst s.
Qed.
Lemma windowed_json env repeat burl eurl load label e : run_windowed_experiment env repeat burl eurl load label = Ok e ->
  (forall s, load = Ok s -> is_json s) -> is_json e.
Proof.
  intros H Hl. unfold run_windowed_experiment in H.
  destruct (snapshot_or_error _ _ _) as [[bb be]|] eqn:E1; [|discriminate H].
  destruct (snapshot_or_error _ _ (now_exporter_before env)) as [[eb ee]|] eqn:E2; [|discriminate H].
  destruct load as [summary|]; [|discriminate H]. specialize (Hl _ eq_refl). cbv zeta in H.
  destruct (vget _ "warmup_end_ts" _); [|discriminate H]. destruct (vget _ "run_finished_ts" _); [|discriminate H].
  destruct (float_of_val _); [|discriminate H].
  destruct (snapshot_or_error _ _ (now_backend_after env)) as [[ba ae]|] eqn:E3; [|discriminate H].
  destruct (snapshot_or_error _ _ (now_exporter_after env)) as [[ea eae]|] eqn:E4; [|discriminate H].
  match type of H with match ?c with Ok _ => _ | Err _ => _ end = _ => destruct c; [|discriminate H] end.
  destruct (derive_window_metrics _ _ _ _ _) as [wm|] eqn:Ew; [|discriminate H].
  destruct (summarize_entry_quality _) as [q|] eqn:Eq; [|discriminate H].
  assert (Hok : forall x : dict, Ok x = Ok e -> e = x) by congruence. apply Hok in H. subst e. clear Hok.
  apply snapshot_or_error_json in E1, E2, E3, E4. apply window_metrics_json in Ew. apply entry_quality_json in Eq.
  assert (Hm : is_json (match fetch_metrics_snapshot env (get_exporter_after env) eurl None (now_exporter_after env) with
                        | Ok s => match dgetv s "metrics" with VDict m => m | _ => [] end | Err _ => [] end)).
  { destruct (fetch_metrics_snapshot _ _ _ _ _) as [snap|] eqn:Ef; [|done]. apply fetched_json in Ef. unfold dgetv.
    destruct (dget_or snap "metrics" VNone) eqn:Eg; try done. rewrite <- Eg. by apply jsonable_dget_or. }
  assert (Hwm : forall x y, is_json (dset (dset wm "metrics_missing" (VBool x)) "metrics_stale" (VBool y)))
    by (intros x y; apply jsonable_dset; [by apply jsonable_dset|done]).
  set (entry := make_run_entry _ _ _ _ _ _ _).
  assert (He : is_json (if String.eqb label "" then dset entry "schema_version" (VInt RUN_ENTRY_SCHEMA_VERSION)
                        else dset (dset entry "schema_version" (VInt RUN_ENTRY_SCHEMA_VERSION)) "point_label" (VStr label))).
  { assert (H1 : is_json (dset entry "schema_version" (VInt RUN_ENTRY_SCHEMA_VERSION)))
      by (apply jsonable_dset; [by apply run_entry_json|done]).
    destruct (String.eqb label ""); [exact H1|]. by apply jsonable_dset. }
  apply jsonable_dset; [|done]. apply jsonable_dset; [|apply Hwm]. by repeat (apply set_in_json; [|done]).
Qed.

(** ** Groups of runs *)

Lemma runs_quality_json entries q : summarize_runs_quality entries = Ok q -> is_json q.
Proof.
  unfold summarize_runs_quality, summarize_prefix_metric_checks. intros H. inv_ok H. subst q. cbv zeta.
  apply jsonable_dset; [apply jsonable_dupdate|]; reflexivity || (inv_ok E1; subst; reflexivity).
Qed.
Lemma average_json l v : average l = Ok v -> jsonable v = true.
Proof. unfold average. intros H. inv_ok H. by subst v. Qed.
Lemma average_or_none_json l v : average_or_none l = Ok v -> jsonable v = true.
Proof. destruct l; [by intros [= <-]|]. intros H. unfold average_or_none in H. inv_ok H. by subst v. Qed.
Lemma aggregate_json entries a : aggregate_run_entries entries = Ok a -> is_json a.
Proof.
  unfold aggregate_run_entries. intros H. destruct entries as [|e entries].
  - inv_ok H. subst a. apply runs_quality_json in E. jsonable_doc.
  - inv_ok H. subst a.
    repeat match goal with
           | E : average _ = Ok _ |- _ => apply average_json in E
           | E : average_or_none _ = Ok _ |- _ => apply average_or_none_json in E
           | E : summarize_runs_quality _ = Ok _ |- _ => apply runs_quality_json in E
           end.
    jsonable_doc.
Qed.

(** The items copied from a recommendation are numbers and texts. *)
Lemma item_json (read : dict -> string -> res val) d k v :
  read = int_item \/ read = str_item \/ read = bool_item \/ read = float_val_item -> read d k = Ok v -> jsonable v = true.
Proof.
  intros [->|[->|[->| ->]]]; unfold int_item, str_item, bool_item, float_val_item, float_item; intros H; inv_ok H; by subst v.
Qed.
Lemma round6_json x v : round6 x = Ok v -> jsonable v = true.
Proof. unfold round6. intros H. inv_ok H. by subst v. Qed.
Lemma point_recommendation_json slo msr mhr sf runs r : _build_point_recommendation slo msr mhr sf runs = Ok r -> is_json r.
Proof.
  unfold _build_point_recommendation. intros H. inv_ok H. subst r.
  repeat match goal with
         | E : round6 _ = Ok _ |- _ => apply round6_json in E
         | E : str_item _ _ = Ok _ |- _ => apply (item_json str_item) in E; [|tauto]
         | E : int_item _ _ = Ok _ |- _ => apply (item_json int_item) in E; [|tauto]
         | E : bool_item _ _ = Ok _ |- _ => apply (item_json bool_item) in E; [|tauto]
         end.
  jsonable_doc.
Qed.

(** ** The sweep *)

Section sweep.
Context (a : Sweep.Args) (restart : Z -> res unit) (traffic : Z -> Params -> Traffic) (env : Z -> Env).

(** What a finished sweep is made of. *)
Record swept (doc : sweep_doc) (cs : list Z) (measured : list dict) : Prop := {
  sw_values : _parse_csv_ints (a_concurrency_values a) = Ok cs;
  sw_meta : sd_meta doc = sweep_meta a cs;
  sw_measured : Forall2 (fun k p => exists i, sweep_point a restart traffic env k.2.1 k.2.2 i = Ok p)
    (indexed (grid (sweep_scenarios a) cs)) measured;
  sw_ranking : _build_sweep_ranking measured = Ok (sd_ranking doc);
  sw_points : res_map with_ranking measured = Ok (sd_points doc);
  sw_calibration : calibrate (sweep_constraints a) (sweep_weights a) (sd_points doc) DEFAULT_THRESHOLDS = Ok (sd_calibration doc)
}.
Lemma sweep_swept doc : sweep a restart traffic env = Ok doc -> exists cs measured, swept doc cs measured.
Proof.
  unfold sweep. intros H. destruct (_parse_csv_ints _) as [cs|] eqn:Ecs; [|discriminate H].
  destruct (res_fold _ _ _) as [[measured n]|] eqn:Ef; [|discriminate H].
  destruct (_build_sweep_ranking measured) eqn:Eb; [|discriminate H].
  destruct (res_map with_ranking measured) eqn:Er; [|discriminate H].
  destruct (calibrate _ _ _ _) eqn:Ec; [|discriminate H]. injection H as <-.
  apply sweep_fold in Ef as (new & -> & _ & Hnew). cbn [app] in *.
  exists cs, new. constructor; try done. eapply Forall2_impl; [exact Hnew|]. intros k p Hk. eexists. exact Hk.
Qed.

Lemma sweep_run_json s c r i e : sweep_run a traffic env s c r i = Ok e -> is_json e.
Proof.
  unfold sweep_run. intros H. eapply windowed_json; [exact H|]. intros summary. unfold sweep_load. apply load_json.
Qed.
Lemma sweep_point_json s c i p : sweep_point a restart traffic env s c i = Ok p -> is_json p.
Proof.
  unfold sweep_point. intros H. destruct (if a_restart a then _ else _); [|discriminate H].
  destruct (res_map _ (repeats a)) as [runs|] eqn:Er; [|discriminate H].
  destruct (aggregate_run_entries runs) as [agg|] eqn:Ea; [|discriminate H].
  destruct (_build_point_recommendation _ _ _ _ runs) as [rec|] eqn:Erec; [|discriminate H]. injection H as <-.
  apply aggregate_json in Ea. apply point_recommendation_json in Erec. jsonable_doc. apply jsonable_dicts.
  apply Forall_forall. intros e He. destruct (res_map_elem _ _ _ _ Er He) as (r & _ & Hr). by apply sweep_run_json in Hr.
Qed.

Definition json_rank (r : rank) : Prop := jsonable (rk_scenario r) = true /\ jsonable (rk_hit_ratio_mean r) = true.
Lemma rank_record_json point r : is_json point -> _point_rank_record point = Ok r -> json_rank r.
Proof.
  intros Hp H. unfold _point_rank_record in H.
  destruct (vitem (VDict point) "aggregates") as [agg|] eqn:Ea; [|discriminate H].
  assert (Hagg : jsonable agg = true) by exact (jsonable_vitem _ _ _ Hp Ea). inv_ok H. subst r. split.
  - match goal with E : vitem _ "scenario" = Ok _ |- _ => by apply (jsonable_vitem _ _ _ Hp) in E end.
  - match goal with E : vget _ "hit_ratio_mean" _ = Ok _ |- _ => by apply (jsonable_vget _ _ _ _ Hagg) in E end.
Qed.
Lemma rank_json r : json_rank r -> is_json (rank_dict r).
Proof. intros [H1 H2]. unfold rank_dict. jsonable_doc. Qed.
Lemma ranking_json measured by_scenario : Forall (fun p => is_json p) measured ->
  _build_sweep_ranking measured = Ok by_scenario -> is_json (ranking_dict by_scenario).
Proof.
  intros Hm H. unfold _build_sweep_ranking in H. destruct (scenario_names measured) as [names|]; [|discriminate H].
  unfold ranking_dict. jsonable_doc. apply jsonable_pairs. intros [s r] Hin. cbn [snd].
  destruct (res_map_elem _ _ _ _ H Hin) as (s' & _ & Hr). clear H Hin.
  destruct (rank_scenario measured s') as [r'|] eqn:Er; [|discriminate Hr]. injection Hr as <- <-.
  unfold rank_scenario in Er. destruct (res_filter _ _) as [mine|] eqn:Ef; [|discriminate Er].
  destruct (res_map _point_rank_record mine) as [records|] eqn:Erec; [|discriminate Er]. injection Er as <-.
  assert (Hmine : forall p, p ∈ mine -> is_json p)
    by (rewrite Forall_forall in Hm; intros p Hp; apply Hm; by eapply res_filter_elem).
  assert (Hrec : forall x, x ∈ records -> json_rank x).
  { intros x Hx. destruct (res_map_elem _ _ _ _ Erec Hx) as (p & Hp & Hr). eapply rank_record_json; [|exact Hr]. by apply Hmine. }
  assert (Hrk : forall x, x ∈ PySort.py_sort_reverse rank_ltb records -> is_json (rank_dict x)).
  { intros x Hx. apply rank_json, Hrec. by rewrite PySort.py_sort_reverse_perm in Hx. }
  assert (Hopt : forall f, jsonable (opt_rank (head (List.filter f (PySort.py_sort_reverse rank_ltb records)))) = true).
  { intros f. destruct (head _) as [x|] eqn:Eh; [|done]. cbn [opt_rank]. apply Hrk. rewrite head_lookup in Eh.
    apply list_elem_of_lookup_2 in Eh. by apply elem_of_filterb in Eh as [Eh _]. }
  unfold rank_points. cbn [ranked_points feasible_points best_safe_point highest_feasible_point]. jsonable_doc.
  all: apply jsonable_list; intros x Hx; apply Hrk; try exact Hx; by apply elem_of_filterb in Hx as [Hx _].
Qed.

(** The summary of every finished sweep can be written. *)
Lemma sweep_json doc : sweep a restart traffic env = Ok doc -> is_json (summary_json a doc).
Proof.
  intros (cs & measured & [_ Hmeta Hm Hr Hp Hc])%sweep_swept.
  assert (Hj : Forall (fun p => is_json p) measured).
  { apply Forall_forall. intros p [k Hk]%list_elem_of_lookup. destruct (Forall2_lookup_r _ _ _ _ _ Hm Hk) as (cell & _ & i & Hi).
    by apply sweep_point_json in Hi. }
  assert (Hpts : Forall (fun p => is_json p) (sd_points doc)).
  { rewrite Forall_forall in Hj. apply Forall_forall. intros p Hin.
    destruct (res_map_elem _ _ _ _ Hp Hin) as (q & Hq & Hw). apply Hj in Hq.
    unfold with_ranking in Hw. destruct (_point_rank_record q) eqn:Eq; [|discriminate Hw].
    assert (Hok : forall x : dict, Ok x = Ok p -> p = x) by congruence. apply Hok in Hw. subst p.
    apply jsonable_dset; [done|]. apply rank_json. by eapply rank_record_json. }
  unfold summary_json. rewrite Hmeta. jsonable_doc.
  - unfold sweep_meta. jsonable_doc; by apply jsonable_list.
  - exact (ranking_json _ _ Hj Hr).
  - exact (calibration_written _ _ _ _ _ Hpts Hc).
Qed.
End sweep.

(** ** The reuse experiment *)

Lemma reuse_json a traffic env d : Reuse.reuse_experiment a traffic env = Ok d -> is_json d.
Proof.
  unfold Reuse.reuse_experiment. intros H.
  destruct (Reuse.scenario_entries _ _ _ "low_reuse") as [low|] eqn:El; [|discriminate H].
  destruct (Reuse.scenario_entries _ _ _ "high_reuse") as [high|] eqn:Eh; [|discriminate H].
  destruct (aggregate_run_entries low) as [la|] eqn:Ea; [|discriminate H].
  destruct (aggregate_run_entries high) as [ha|] eqn:Eb; [|discriminate H]. injection H as <-.
  apply aggregate_json in Ea, Eb.
  assert (Hentries : forall s entries, Reuse.scenario_entries a traffic env s = Ok entries -> Forall (fun e => is_json e) entries).
  { intros s entries He. apply Forall_forall. intros e Hin. destruct (res_map_elem _ _ _ _ He Hin) as (r & _ & Hr).
    eapply windowed_json; [exact Hr|]. intros summary. apply load_json. }
  apply Hentries in El, Eh. unfold Reuse.reuse_meta. jsonable_doc; by apply jsonable_dicts.
Qed.

(** ** The threshold scripts *)

Lemma item_read_json read d k v : read ∈ [int_item; str_item; bool_item; float_val_item] -> read d k = Ok v -> jsonable v = true.
Proof. intros H. apply item_json. rewrite !elem_of_cons, elem_of_nil in H. tauto. Qed.
Lemma copied_json from fields d : Forall (fun kr => kr.2 ∈ [int_item; str_item; bool_item; float_val_item]) fields ->
  copied from fields = Ok d -> is_json d.
Proof.
  unfold copied. intros Hf H. cbn [jsonable]. apply forallb_elem. intros kv Hin.
  destruct (res_map_elem _ _ _ _ H Hin) as (kr & Hk & Hr). inv_ok Hr. subst kv. rewrite Forall_forall in Hf.
  by eapply item_read_json; [apply (Hf _ Hk)|].
Qed.
Ltac copied_fields := unfold compared_fields, curve_fields; repeat constructor.
Lemma jsonable_app d e : is_json d -> is_json e -> is_json (d ++ e).
Proof. cbn [jsonable]. rewrite forallb_app. by intros -> ->. Qed.

Lemma compare_json slo msr sf doc mhr d : compare_baseline slo msr sf doc mhr = Ok d -> is_json d.
Proof.
  unfold compare_baseline. intros H. destruct (res_map _ SCENARIOS) as [items|] eqn:E; [|discriminate H]. injection H as <-.
  jsonable_doc. cbn [jsonable]. apply forallb_elem. intros kv Hin. destruct (res_map_elem _ _ _ _ E Hin) as (s & _ & Hs).
  destruct (compare_scenario _ _ _ _ _ s) as [item|] eqn:Ei; [|discriminate Hs]. injection Hs as <-.
  unfold compare_scenario in Ei. inv_ok Ei. subst item.
  repeat match goal with E : round6 _ = Ok _ |- _ => apply round6_json in E end.
  match goal with E : copied _ _ = Ok _ |- _ => apply copied_json in E; [|copied_fields] end.
  cbn [snd]. apply (jsonable_app [_; _; _]); [jsonable_doc|done].
Qed.
Lemma curve_rows_json slo msr sf doc thresholds rows : threshold_rows slo msr sf doc thresholds = Ok rows ->
  is_json (curve_json rows).
Proof.
  unfold threshold_rows, curve_json. intros H. jsonable_doc. apply jsonable_list. intros r Hin.
  destruct (res_map_elem _ _ _ _ H Hin) as (ts & _ & Hr). unfold threshold_row in Hr. inv_ok Hr. subst r.
  match goal with E : copied _ _ = Ok _ |- _ => apply copied_json in E; [|copied_fields] end.
  unfold row_dict. cbn [tr_min_hit_ratio tr_scenario tr_baseline_rps tr_dual_rps tr_delta tr_fields].
  apply jsonable_app; [jsonable_doc|done].
Qed.

(** ** The gateway matrix and the Stage 2 artifact *)

Lemma jsonable_path_quantiles q : jsonable (path_quantiles q) = true.
Proof. unfold path_quantiles. jsonable_doc. Qed.
Lemma attribution_json m : is_json (Gateway.attribution_dict m).
Proof. destruct m; unfold Gateway.attribution_dict; jsonable_doc. Qed.
#[export] Hint Rewrite jsonable_path_quantiles attribution_json : jsonable.
Lemma path_json path samples t0 t1 r : Gateway.run_path path samples t0 t1 = Ok r -> jsonable (path_dict r) = true.
Proof.
  unfold Gateway.run_path. cbv zeta. intros H. inv_ok H. subst r. unfold path_dict.
  cbn [Gateway.pr_path Gateway.pr_url Gateway.pr_stream Gateway.pr_requests Gateway.pr_ok Gateway.pr_failed Gateway.pr_error_rate
       Gateway.pr_throughput_req_s Gateway.pr_latency_ms Gateway.pr_ttft_ms Gateway.pr_response_bytes_mean
       Gateway.pr_sample_errors Gateway.pr_elapsed_s].
  match goal with E : match List.filter _ _ with _ => _ end = Ok ?v |- _ =>
    assert (jsonable v = true) by
      (destruct (List.filter _ _); [by injection E as <-|]; unfold Gateway.mean_int in E; revert E;
       repeat case_match; intros [= <-]; done) end.
  jsonable_doc.
Qed.
Lemma matrix_json measure values args host m : Gateway.run_matrix measure values args host = Ok m -> is_json (matrix_dict m).
Proof.
  unfold Gateway.run_matrix. intros H. destruct (Gateway.parse_paths values) as [paths|]; [|discriminate H].
  destruct (res_map _ paths) as [results|] eqn:E; [|discriminate H].
  destruct (Gateway.config_hash _); [|discriminate H]. injection H as <-. unfold matrix_dict, Gateway.configuration.
  cbn [Gateway.mx_config_hash Gateway.mx_configuration Gateway.mx_host Gateway.mx_paths Gateway.mx_phases]. jsonable_doc.
  apply jsonable_list. intros r Hin. destruct (res_map_elem _ _ _ _ E Hin) as (p & _ & Hr).
  destruct (measure p) as [[samples t0] t1]. by eapply path_json.
Qed.

Section stage2.
Import Stage2 Stage2Run Stage2Report.

Lemma jsonable_counter c : jsonable (counter_dict c) = true.
Proof. by apply jsonable_pairs. Qed.
Lemma jsonable_quantiles q : jsonable (quantiles_dict q) = true.
Proof. unfold quantiles_dict. jsonable_doc. Qed.
Lemma jsonable_errors l : jsonable (errors_dict l) = true.
Proof. by apply jsonable_pairs. Qed.
Lemma jsonable_estimate e : jsonable (estimate_dict e) = true.
Proof. unfold estimate_dict. jsonable_doc. Qed.
Hint Rewrite jsonable_counter jsonable_quantiles jsonable_errors jsonable_estimate : jsonable.
Lemma stage2_summary_json s : is_json (summary_dict s).
Proof. unfold summary_dict. jsonable_doc. Qed.
Lemma window_json w : is_json (window_dict w).
Proof. unfold window_dict. jsonable_doc. Qed.
Lemma sample_json s : is_json (sample_dict s).
Proof. unfold sample_dict. jsonable_doc. Qed.
Lemma stage2_aggregate_json a : is_json (aggregate_dict a).
Proof. unfold aggregate_dict. jsonable_doc. Qed.
Lemma comparison_json c : is_json (comparison_dict c).
Proof. unfold comparison_dict. jsonable_doc. Qed.
Lemma slot_json s : is_json (slot_dict s).
Proof. unfold slot_dict. jsonable_doc. Qed.
Lemma repetition_json r : is_json (repetition_dict r).
Proof.
  unfold repetition_dict. pose proof (stage2_summary_json (rp_summary r)). pose proof (window_json (rp_backend_window r)).
  jsonable_doc. apply jsonable_list. intros s _. apply sample_json.
Qed.
Lemma result_json r : is_json (result_dict r).
Proof.
  unfold result_dict. pose proof (stage2_aggregate_json (rs_aggregate r)). jsonable_doc.
  apply jsonable_list. intros p _. apply repetition_json.
Qed.
(** Whatever an evaluation measured can be written. *)
Lemma stage2_json measure config host r : run_evaluation measure config host = Ok r -> is_json (report_dict r).
Proof.
  unfold run_evaluation. intros H. destruct (run_cases measure config) as [results|]; [|discriminate H].
  destruct (Stage2Config._config_hash _); [|discriminate H]. injection H as <-. unfold report_dict, manifest.
  cbn [rt_config_hash rt_generated_at rt_manifest rt_results rt_schedule rt_comparisons]. jsonable_doc.
  all: apply jsonable_list; intros x _; (apply result_json || apply slot_json || apply comparison_json || done).
Qed.
End stage2.
