(* ===== verification/Commands.v ===== *)
(** * The commands of the planner and the benchmarks

    The [main] of each module of [planner/] and [benchmark/] over a disk: what it reads,
    computes and writes, in the order of the source.  [deliver] says what a command is
    for, a list of documents or an exception, and [command_delivers] that the command
    does exactly this: an exception leaves no file and no directory behind.

    The options are the values given on the command line.  Measurements, journals, the
    clock and the host are arguments; what a command prints is not modelled. *)

From S2P Require Import Prelude PyFloat PyStr PyVal PyPath Digest Disk WindowMetrics.
From S2P Require Journal Calibrator Envelope Predictor TtftValidation PolicyEval CacheFidelity LoadRunner Gateway Stage2Config Stage2 Stage2Run Stage2Report Threshold Scripts Artifacts Written.

Definition newline : string := str [chr 10].
(** [json.dumps(d, indent=2, sort_keys=True)] and [json.dumps(d, ensure_ascii=False, indent=2)] *)
Definition dumped (d : dict) : res string := json_text (indented true) 0 (VDict d).
Definition dumped_unescaped (d : dict) : res string := json_text unescaped 0 (VDict d).
Definition line (text : res string) : res string := t <-! text ;; Ok (t +:+ newline).
(** An option left at its default is the empty string. *)
Definition given (s : string) : option string := if String.eqb s "" then None else Some s.

(** The journals of a directory: the files of each pattern, sorted, with their texts. *)
Record Journals := {
  decision_files : string -> list (string * string);
  outcome_files : string -> list (string * string);
  json_loads : string -> res val
}.

Section commands.
Context (disk : Disk) (journals : Journals).

(** [output.parent.mkdir(parents=True, exist_ok=True)], then [output.write_text(...)] *)
Definition put (out : string) (text : res string) : D unit :=
  make_parent disk out ;;; write_file disk (path_str out) text.

(** ** planner/auto_calibrator.py *)

Record CalibrateArgs := {
  ca_input : string; ca_out : string; ca_report : string;
  ca_constraints : Calibrator.CalibrationConstraints
}.
(** The points are read one by one: one that is not an object raises when its turn comes. *)
Definition calibrate_values (cs : Calibrator.CalibrationConstraints) (ws : Calibrator.CalibrationWeights) (points : list val)
  : res Calibrator.calibration :=
  _ <-! res_map (fun pt : val * float => point <-! Calibrator.as_dict pt.1 ;; Calibrator._evaluate_candidate cs ws point pt.2)
          (mjoin (map (fun point => map (fun t => (point, t)) Calibrator.DEFAULT_THRESHOLDS) points)) ;;
  dicts <-! res_map Calibrator.as_dict points ;;
  Calibrator.calibrate cs ws dicts Calibrator.DEFAULT_THRESHOLDS.
Definition calibrate_document (cs : Calibrator.CalibrationConstraints) (source : val) : res Calibrator.calibration :=
  points <-! vget source "points" (VList []) ;;
  points <-! viter points ;;
  calibrate_values cs Calibrator.default_weights points.
Definition calibrate_main (a : CalibrateArgs) : D unit :=
  source <~ _read_json disk (ca_input a) ;;
  result <~ st_lift (calibrate_document (ca_constraints a) source) ;;
  put (ca_out a) (dumped (Calibrator.calibration_dict (ca_constraints a) Calibrator.default_weights result)) ;;;
  match given (ca_report a) with
  | Some report => put report (Ok (Calibrator.render result))
  | None => st_lift (Ok tt)
  end.

(** ** planner/operating_envelope.py *)

Record EnvelopeArgs := {
  ea_input : string; ea_out : string; ea_report : string;
  ea_slo : float; ea_min_success_rate : float; ea_budget : option float; ea_safety_factor : float
}.
Definition envelope_document (a : EnvelopeArgs) (document : val) : res Envelope.envelope :=
  document <-! Calibrator.as_dict document ;;
  Envelope.recommend_operating_point (ea_slo a) (ea_min_success_rate a) (ea_budget a) (ea_safety_factor a) document.
Definition envelope_main (a : EnvelopeArgs) : D unit :=
  document <~ _read_json disk (ea_input a) ;;
  result <~ st_lift (envelope_document a document) ;;
  make_parent disk (ea_out a) ;;;
  make_parent disk (ea_report a) ;;;
  write_file disk (path_str (ea_out a))
    (dumped (Artifacts.envelope_dict (ea_slo a) (ea_min_success_rate a) (ea_budget a) (ea_safety_factor a) result)) ;;;
  write_file disk (path_str (ea_report a)) (Envelope.render_markdown (ea_slo a) (ea_budget a) result).

(** ** planner/ttft_predictor.py and planner/ttft_validation.py *)

Record FitArgs := { fa_input : string; fa_out : string; fa_dimensions : Predictor.Dimensions; fa_ridge : float }.
Definition fit (a : FitArgs) : res Predictor.artifact :=
  Predictor.fit_from_journal (fa_dimensions a) (json_loads journals) (decision_files journals (fa_input a))
    (outcome_files journals (fa_input a)) (fa_ridge a).
Definition fit_main (a : FitArgs) : D unit :=
  result <~ st_lift (fit a) ;;
  put (fa_out a) (line (dumped (Artifacts.artifact_dict result))).

Record ValidateArgs := {
  va_input : string; va_artifact : string; va_max_mae_ms : float; va_max_p95_ms : float; va_out : string; va_report : string
}.
Definition validate (a : ValidateArgs) (artifact : val) : res TtftValidation.validation :=
  TtftValidation.validate_predictor (json_loads journals) (decision_files journals (va_input a))
    (outcome_files journals (va_input a)) artifact (va_max_mae_ms a) (va_max_p95_ms a).
Definition validate_main (a : ValidateArgs) : D unit :=
  artifact <~ _read_json disk (va_artifact a) ;;
  result <~ st_lift (validate a artifact) ;;
  put (va_out a) (line (dumped (Artifacts.validation_dict result))) ;;;
  put (va_report a) (Ok (TtftValidation.render_markdown result)).

(** ** planner/policy_evaluation.py *)

Record EvaluateArgs := { pa_input : string; pa_design : PolicyEval.design; pa_out : string; pa_report : string }.
Context (timestamp : string -> res float).
Definition evaluate (a : EvaluateArgs) : res PolicyEval.evaluation :=
  PolicyEval.evaluate_experiment timestamp (json_loads journals) (decision_files journals (pa_input a))
    (outcome_files journals (pa_input a)) (pa_design a).
Definition evaluate_main (a : EvaluateArgs) : D unit :=
  result <~ st_lift (evaluate a) ;;
  put (pa_out a) (line (dumped (Artifacts.evaluation_dict result))) ;;;
  put (pa_report a) (Ok (PolicyEval.render_markdown result)).

(** ** planner/compare_baseline.py *)

Record CompareArgs := {
  cb_input : string; cb_out : string; cb_slo : float; cb_min_success_rate : float; cb_min_hit_ratio : float; cb_safety_factor : float
}.
Definition compare (a : CompareArgs) (doc : val) : res dict :=
  Threshold.compare_baseline (cb_slo a) (cb_min_success_rate a) (cb_safety_factor a) doc (cb_min_hit_ratio a).
Definition compare_main (a : CompareArgs) : D unit :=
  doc <~ _read_json disk (cb_input a) ;;
  result <~ st_lift (compare a doc) ;;
  put (cb_out a) (dumped_unescaped result).

(** ** planner/build_frontier.py and planner/aggregate_hard_vs_hot.py *)

Definition frontier_main (inputs labels : list string) (out : string) : D unit :=
  doc <~ st_lift (Scripts.build_frontier (read_json disk) inputs labels) ;;
  put out (line (dumped_unescaped doc)).
Definition hard_vs_hot_main (hard hot out : string) : D unit :=
  doc <~ st_lift (Scripts.aggregate_hard_vs_hot (fun path => read_json disk (path_str path)) hard hot) ;;
  put out (line (dumped_unescaped doc)).

(** ** scripts/lib/write_run_metadata.py and scripts/download_hf_model.py *)

Definition metadata_main (run_id backend now_compact now_iso : string) (git : option (Z * string)) (out : string) : D unit :=
  put out (line (dumped_unescaped (Scripts.run_metadata run_id backend now_compact now_iso git))).
(** [snapshot]: the download itself; [None] when the package is not installed. *)
Definition download_main (snapshot : option (string -> string -> res unit)) (root repo_id local_dir : string) : D unit :=
  match snapshot with
  | None => st_lift (Err (SystemExit 1))
  | Some snapshot_download =>
      let dest := Scripts.hf_destination root repo_id local_dir in
      make_dir disk dest ;;;
      st_lift (snapshot_download repo_id dest)
  end.

(** ** benchmark/cache_fidelity.py *)

Record FidelityArgs := {
  ba_out : string; ba_report : string; ba_requests : Z; ba_backends : Z; ba_seed : Z
}.
Context (math_exp : float -> float) (elapsed_ns : string -> Z -> Z) (python : string).
Definition fidelity (a : FidelityArgs) : res CacheFidelity.artifact :=
  CacheFidelity.run math_exp (ba_requests a) (ba_backends a) (ba_seed a) CacheFidelity.DEFAULT_LAGS_MS elapsed_ns.
Definition fidelity_main (a : FidelityArgs) : D unit :=
  artifact <~ st_lift (fidelity a) ;;
  put (ba_out a) (dumped (Artifacts.fidelity_dict python artifact)) ;;;
  put (ba_report a) (Ok (CacheFidelity.render artifact)).

(** ** benchmark/runner.py *)

Definition runner_main (load : res dict) (output : string) : D unit :=
  summary <~ st_lift load ;; put output (dumped_unescaped summary).

(** ** benchmark/gateway_runner.py *)

(** [parser.error] *)
Definition usage_error {A} : res A := Err (SystemExit 2).
(** [os.path.dirname] *)
Definition dirname (path : string) : string :=
  let head := join "/" (removelast (split "/"%char path) ++ [""%string]) in
  if forallb (Ascii.eqb "/") (chars head) then head else rstrip_char "/"%char head.
Context (abspath : string -> string).                    (* os.path.abspath *)
Record GatewayArgs := { ga_paths : list string; ga_out : string; ga_args : Gateway.Args }.
Context (measure_path : Gateway.PathSpec -> list Gateway.Sample * float * float) (gateway_host : Gateway.Host).
Definition gateway (a : GatewayArgs) : res Gateway.matrix :=
  if (Gateway.a_requests (ga_args a) <=? 0) || (Gateway.a_concurrency (ga_args a) <=? 0) then usage_error
  else match Gateway.run_matrix measure_path (ga_paths a) (ga_args a) gateway_host with
       | Err (ValueError _) => usage_error
       | r => r
       end.
Definition gateway_main (a : GatewayArgs) : D unit :=
  result <~ st_lift (gateway a) ;;
  let output := abspath (ga_out a) in
  make_dir disk (dirname output) ;;;
  write_file disk output (line (dumped (Artifacts.matrix_dict result))).

(** ** benchmark/stage2_evaluation.py, benchmark/stage2_report.py, benchmark/paper_report.py *)

Record Stage2Args := { sa_config : string; sa_out : string; sa_validate_only : bool }.
Context (load_yaml : string -> res val)                  (* yaml.safe_load of the file's text *)
  (measure_call : nat -> Stage2Run.call -> res Stage2.Repetition) (stage2_host : Stage2Run.Host) (netloc_ok : string -> bool)
  (environ : string -> option string).
(** [except (OSError, ValueError, yaml.YAMLError)] *)
Definition config_error (e : exn) : bool := match e with OSError | ValueError _ | DecodeError => true | _ => false end.
Definition stage2_config (path : string) : res Stage2Config.EvaluationConfig :=
  match (document <-! load_yaml (path_str path) ;; Stage2Config.load_config netloc_ok environ document) with
  | Err e => if config_error e then usage_error else Err e
  | r => r
  end.
Definition stage2_main (a : Stage2Args) : D unit :=
  config <~ st_lift (stage2_config (sa_config a)) ;;
  if sa_validate_only a then st_lift (Ok tt)
  else
    report <~ st_lift (Stage2Run.run_evaluation measure_call config stage2_host) ;;
    put (sa_out a) (line (dumped (Stage2Report.report_dict report))).

Definition stage2_report_main (input out : string) : D unit :=
  report <~ _read_json disk input ;;
  put out (Stage2Report.render report).

Context (paper_host : Stage2Report.PaperHost).
Definition paper_main (stage1 stage2 out_dir : string) : D unit :=
  stage1 <~ _read_json disk stage1 ;;
  stage2 <~ _read_json disk stage2 ;;
  report <~ st_lift (one <-! Calibrator.as_dict stage1 ;; two <-! Calibrator.as_dict stage2 ;;
                     Stage2Report.build_report one two paper_host) ;;
  let out := path_str out_dir in
  make_dir disk out ;;;
  write_file disk (path_join out "research_report.json") (line (dumped report)) ;;;
  write_file disk (path_join out "research_report.md") (Stage2Report.markdown (VDict report)) ;;;
  write_file disk (path_join out "reproduction_manifest.json")
    (manifest <-! vitem (VDict report) "manifest" ;; line (json_text (indented true) 0 manifest)).

(** ** What a command delivers *)

Inductive body : Type := Json (d : dict) (ending : string) | Unescaped (d : dict) (ending : string) | Markdown (text : string).
Inductive action : Type := Directory (path : string) | Document (path : string) (b : body).
Definition parent_and (out : string) (b : body) : list action := [Directory (path_parent out); Document (path_str out) b].

(** The commands that compute everything before they touch the disk. *)
Inductive command : Type :=
| Calibrate (a : CalibrateArgs)
| RecommendEnvelope (a : EnvelopeArgs)
| Fit (a : FitArgs)
| Validate (a : ValidateArgs)
| Evaluate (a : EvaluateArgs)
| Compare (a : CompareArgs)
| Frontier (inputs labels : list string) (out : string)
| HardVsHot (hard hot out : string)
| Metadata (run_id backend now_compact now_iso : string) (git : option (Z * string)) (out : string)
| CacheFidelity (a : FidelityArgs)
| GatewayMatrix (a : GatewayArgs)
| Stage2Evaluation (a : Stage2Args).
Definition main (c : command) : D unit :=
  match c with
  | Calibrate a => calibrate_main a
  | RecommendEnvelope a => envelope_main a
  | Fit a => fit_main a
  | Validate a => validate_main a
  | Evaluate a => evaluate_main a
  | Compare a => compare_main a
  | Frontier inputs labels out => frontier_main inputs labels out
  | HardVsHot hard hot out => hard_vs_hot_main hard hot out
  | Metadata run_id backend now_compact now_iso git out => metadata_main run_id backend now_compact now_iso git out
  | CacheFidelity a => fidelity_main a
  | GatewayMatrix a => gateway_main a
  | Stage2Evaluation a => stage2_main a
  end.

Definition read (path : string) : res val := read_json disk (path_str path).
Definition deliver (c : command) : res (list action) :=
  match c with
  | Calibrate a =>
      source <-! read (ca_input a) ;;
      result <-! calibrate_document (ca_constraints a) source ;;
      Ok (parent_and (ca_out a) (Json (Calibrator.calibration_dict (ca_constraints a) Calibrator.default_weights result) "")
          ++ match given (ca_report a) with
             | Some report => parent_and report (Markdown (Calibrator.render result)) | None => [] end)
  | RecommendEnvelope a =>
      document <-! read (ea_input a) ;;
      result <-! envelope_document a document ;;
      text <-! Envelope.render_markdown (ea_slo a) (ea_budget a) result ;;
      Ok [Directory (path_parent (ea_out a)); Directory (path_parent (ea_report a));
          Document (path_str (ea_out a))
            (Json (Artifacts.envelope_dict (ea_slo a) (ea_min_success_rate a) (ea_budget a) (ea_safety_factor a) result) "");
          Document (path_str (ea_report a)) (Markdown text)]
  | Fit a => result <-! fit a ;; Ok (parent_and (fa_out a) (Json (Artifacts.artifact_dict result) newline))
  | Validate a =>
      artifact <-! read (va_artifact a) ;;
      result <-! validate a artifact ;;
      Ok (parent_and (va_out a) (Json (Artifacts.validation_dict result) newline)
          ++ parent_and (va_report a) (Markdown (TtftValidation.render_markdown result)))
  | Evaluate a =>
      result <-! evaluate a ;;
      Ok (parent_and (pa_out a) (Json (Artifacts.evaluation_dict result) newline)
          ++ parent_and (pa_report a) (Markdown (PolicyEval.render_markdown result)))
  | Compare a =>
      doc <-! read (cb_input a) ;; result <-! compare a doc ;; Ok (parent_and (cb_out a) (Unescaped result ""))
  | Frontier inputs labels out =>
      doc <-! Scripts.build_frontier (read_json disk) inputs labels ;; Ok (parent_and out (Unescaped doc newline))
  | HardVsHot hard hot out =>
      doc <-! Scripts.aggregate_hard_vs_hot read hard hot ;; Ok (parent_and out (Unescaped doc newline))
  | Metadata run_id backend now_compact now_iso git out =>
      Ok (parent_and out (Unescaped (Scripts.run_metadata run_id backend now_compact now_iso git) newline))
  | CacheFidelity a =>
      result <-! fidelity a ;;
      Ok (parent_and (ba_out a) (Json (Artifacts.fidelity_dict python result) "")
          ++ parent_and (ba_report a) (Markdown (CacheFidelity.render result)))
  | GatewayMatrix a =>
      result <-! gateway a ;;
      Ok [Directory (dirname (abspath (ga_out a))); Document (abspath (ga_out a)) (Json (Artifacts.matrix_dict result) newline)]
  | Stage2Evaluation a =>
      config <-! stage2_config (sa_config a) ;;
      if sa_validate_only a then Ok []
      else report <-! Stage2Run.run_evaluation measure_call config stage2_host ;;
           Ok (parent_and (sa_out a) (Json (Stage2Report.report_dict report) newline))
  end.

(** The operation that performs an action. *)
Inductive performed : action -> disk_op -> Prop :=
| PDirectory path : performed (Directory path) (OMkdir path)
| PJson path d ending text : dumped d = Ok text -> performed (Document path (Json d ending)) (OWrite path (text +:+ ending))
| PUnescaped path d ending text : dumped_unescaped d = Ok text ->
    performed (Document path (Unescaped d ending)) (OWrite path (text +:+ ending))
| PMarkdown path text : performed (Document path (Markdown text)) (OWrite path text).
End commands.

(** ** Reasoning about commands *)

Section delivery.
Context (disk : Disk) (Hw : working disk).

(** [m] raises before it did anything, or performs the actions in order. *)
Definition delivers (m : D unit) (spec : res (list action)) : Prop := forall ops,
  match spec with
  | Err e => m ops = (ops, Err e)
  | Ok actions => exists done, Forall2 performed actions done /\ m ops = (ops ++ done, Ok tt)
  end.

Lemma delivers_none : delivers (st_lift (Ok tt)) (Ok []).
Proof. intros ops. exists []. by rewrite app_nil_r. Qed.
Lemma delivers_lift {A} (r : res A) (k : A -> D unit) spec :
  (forall x, r = Ok x -> delivers (k x) (spec x)) -> delivers (x <~ st_lift r ;; k x) (x <-! r ;; spec x).
Proof. intros H. destruct r as [x|e]; [exact (H x eq_refl)|done]. Qed.
Lemma delivers_seq (m k : D unit) a1 a2 : delivers m (Ok a1) -> delivers k (Ok a2) -> delivers (m ;;; k) (Ok (a1 ++ a2)).
Proof.
  intros Hm Hk ops. destruct (Hm ops) as (d1 & H1 & E1). destruct (Hk (ops ++ d1)) as (d2 & H2 & E2).
  exists (d1 ++ d2). split; [by apply Forall2_app|]. by rewrite (run_bind _ _ _ _ _ E1), app_assoc.
Qed.
Lemma delivers_dir path : delivers (make_dir disk path) (Ok [Directory path]).
Proof.
  intros ops. exists [OMkdir path]. split; [constructor; [constructor|done]|]. apply perform_ok, (wo_mkdir _ Hw).
Qed.
Lemma delivers_file path text content b : text = Ok content -> performed (Document path b) (OWrite path content) ->
  delivers (write_file disk path text) (Ok [Document path b]).
Proof. intros Ht Hb ops. exists [OWrite path content]. split; [by constructor|]. by apply write_file_ok. Qed.
Lemma delivers_put out text content b : text = Ok content -> performed (Document (path_str out) b) (OWrite (path_str out) content) ->
  delivers (put disk out text) (Ok (parent_and out b)).
Proof. intros Ht Hb. apply (delivers_seq _ _ [_] [_]); [apply delivers_dir|by eapply delivers_file]. Qed.

(** A JSON document always has a text. *)
Lemma dumped_ok d : jsonable (VDict d) = true -> exists text, dumped d = Ok text.
Proof. apply json_text_ok. Qed.
Lemma dumped_unescaped_ok d : jsonable (VDict d) = true -> exists text, dumped_unescaped d = Ok text.
Proof. apply json_text_ok. Qed.
Lemma app_empty (s : string) : s +:+ "" = s.
Proof. induction s as [|c s IH]; [done|]. change (String c (s +:+ "") = String c s). by rewrite IH. Qed.

Lemma delivers_json out d : jsonable (VDict d) = true ->
  delivers (put disk out (dumped d)) (Ok (parent_and out (Json d ""))) /\
  delivers (put disk out (line (dumped d))) (Ok (parent_and out (Json d newline))).
Proof.
  intros [text H]%dumped_ok. split; (eapply delivers_put; [|by constructor]); [by rewrite app_empty|by rewrite H].
Qed.
Lemma delivers_unescaped out d : jsonable (VDict d) = true ->
  delivers (put disk out (dumped_unescaped d)) (Ok (parent_and out (Unescaped d ""))) /\
  delivers (put disk out (line (dumped_unescaped d))) (Ok (parent_and out (Unescaped d newline))).
Proof.
  intros [text H]%dumped_unescaped_ok. split; (eapply delivers_put; [|by constructor]); [by rewrite app_empty|by rewrite H].
Qed.
Lemma delivers_markdown out text : delivers (put disk out (Ok text)) (Ok (parent_and out (Markdown text))).
Proof. eapply delivers_put; [done|constructor]. Qed.

Context (Hj : json_disk disk).

Lemma frontier_json inputs labels d : Scripts.build_frontier (read_json disk) inputs labels = Ok d -> jsonable (VDict d) = true.
Proof.
  unfold Scripts.build_frontier. intros H. destruct (res_map _ _) as [entries|] eqn:E; [|discriminate H].
  destruct (negb _); [discriminate H|]. injection H as <-. jsonable_doc. cbn [jsonable]. apply forallb_elem. intros v Hin.
  destruct (res_map_elem _ _ _ _ E Hin) as (pl & _ & Hp). inv_ok Hp. subst v. apply Hj in E0. jsonable_doc.
Qed.
Lemma hard_vs_hot_json hard hot d : Scripts.aggregate_hard_vs_hot (read disk) hard hot = Ok d -> jsonable (VDict d) = true.
Proof.
  unfold Scripts.aggregate_hard_vs_hot, read. intros H. inv_ok H. subst d. apply Hj in E, E0. jsonable_doc.
Qed.
Lemma metadata_json run_id backend now_compact now_iso git :
  jsonable (VDict (Scripts.run_metadata run_id backend now_compact now_iso git)) = true.
Proof.
  unfold Scripts.run_metadata, Scripts._git_sha. jsonable_doc. destruct git as [[code out]|]; [|done].
  destruct (code =? 0); [|done]. cbn [negb]. by destruct (String.eqb _ _).
Qed.
Lemma calibrate_json cs source c : jsonable source = true -> calibrate_document cs source = Ok c ->
  jsonable (VDict (Calibrator.calibration_dict cs Calibrator.default_weights c)) = true.
Proof.
  intros Hs H. unfold calibrate_document, calibrate_values in H.
  destruct (vget source "points" (VList [])) as [points|] eqn:Ep; [|discriminate H].
  destruct (viter points) as [items|] eqn:Ei; [|discriminate H]. destruct (res_map _ (mjoin _)); [|discriminate H].
  destruct (res_map Calibrator.as_dict items) as [dicts|] eqn:Ed; [|discriminate H].
  eapply Artifacts.calibration_written; [|exact H]. apply (jsonable_vget _ _ _ _ Hs) in Ep; [|done].
  apply (jsonable_viter _ _ Ep) in Ei. rewrite Forall_forall in Ei. apply Forall_forall. intros d Hin.
  destruct (res_map_elem _ _ _ _ Ed Hin) as (v & Hv & Hd). destruct v; try discriminate Hd. injection Hd as ->. by apply Ei.
Qed.
Lemma validated_json j a artifact v : jsonable artifact = true -> validate j a artifact = Ok v ->
  jsonable (VDict (Artifacts.validation_dict v)) = true.
Proof.
  intros Ha H. apply Artifacts.validation_jsonable. unfold validate, TtftValidation.validate_predictor in H.
  cbv zeta in H. inv_ok H. subst v. cbn [TtftValidation.v_predictor_version].
  match goal with E : vitem artifact "predictor_version" = Ok _ |- _ => by apply (jsonable_vitem _ _ _ Ha) in E end.
Qed.

Section environment.
Context (journals : Journals) (timestamp : string -> res float) (math_exp : float -> float) (elapsed_ns : string -> Z -> Z)
  (python : string) (abspath : string -> string) (measure_path : Gateway.PathSpec -> list Gateway.Sample * float * float)
  (gateway_host : Gateway.Host) (load_yaml : string -> res val) (measure_call : nat -> Stage2Run.call -> res Stage2.Repetition)
  (stage2_host : Stage2Run.Host) (netloc_ok : string -> bool) (environ : string -> option string).
Definition run_command : command -> D unit :=
  main disk journals timestamp math_exp elapsed_ns python abspath measure_path gateway_host load_yaml
    measure_call stage2_host netloc_ok environ.
Definition delivered : command -> res (list action) :=
  deliver disk journals timestamp math_exp elapsed_ns python abspath measure_path gateway_host load_yaml
    measure_call stage2_host netloc_ok environ.

Lemma main_delivers c : delivers (run_command c) (delivered c).
Proof.
  unfold run_command, delivered. destruct c as [a|a|a|a|a|a|inputs labels out|hard hot out|run_id backend nc ni git out|a|a|a]; cbn [main deliver].
  - apply delivers_lift. intros source Hs%Hj. apply delivers_lift. intros result Hr.
    apply delivers_seq; [by apply delivers_json, (calibrate_json _ source)|].
    destruct (given _); [apply delivers_markdown|apply delivers_none].
  - apply delivers_lift. intros document Hd%Hj. apply delivers_lift. intros result Hr.
    destruct document as [| | | | | | |document]; try discriminate Hr.
    destruct (Artifacts.envelope_written _ _ _ _ _ _ Hd Hr) as [[text Ht]%dumped_ok Hm].
    destruct (Envelope.render_markdown _ _ _) as [md|] eqn:Em; [|discriminate Hm].
    apply (delivers_seq _ _ [_]); [apply delivers_dir|]. apply (delivers_seq _ _ [_]); [apply delivers_dir|].
    apply (delivers_seq _ _ [_]); (eapply delivers_file; [done|]); [rewrite <- (app_empty text); by constructor|constructor].
  - apply delivers_lift. intros result _. by apply delivers_json, Artifacts.artifact_jsonable.
  - apply delivers_lift. intros artifact Ha%Hj. apply delivers_lift. intros result Hr.
    apply delivers_seq; [by eapply delivers_json, validated_json|apply delivers_markdown].
  - apply delivers_lift. intros result _.
    apply delivers_seq; [by apply delivers_json, Artifacts.evaluation_jsonable|apply delivers_markdown].
  - apply delivers_lift. intros doc _. apply delivers_lift. intros result Hr. by eapply delivers_unescaped, Written.compare_json.
  - apply delivers_lift. intros doc Hd. by eapply delivers_unescaped, frontier_json.
  - apply delivers_lift. intros doc Hd. by eapply delivers_unescaped, hard_vs_hot_json.
  - apply delivers_unescaped, metadata_json.
  - apply delivers_lift. intros result _.
    apply delivers_seq; [by apply delivers_json, Artifacts.fidelity_jsonable|apply delivers_markdown].
  - apply delivers_lift. intros result Hr.
    assert (Hm : jsonable (VDict (Artifacts.matrix_dict result)) = true).
    { unfold gateway in Hr. destruct (_ || _); [discriminate Hr|].
      destruct (Gateway.run_matrix _ _ _ _) as [m|[]] eqn:E; try discriminate Hr. injection Hr as ->.
      by eapply Written.matrix_json. }
    apply dumped_ok in Hm as [text Ht]. apply (delivers_seq _ _ [_]); [apply delivers_dir|].
    eapply delivers_file; [by rewrite Ht|by constructor].
  - apply delivers_lift. intros config _. destruct (sa_validate_only a); [apply delivers_none|].
    apply delivers_lift. intros report Hr. by eapply delivers_json, Written.stage2_json.
Qed.

End environment.
End delivery.

Example dirname_known : map dirname ["/a/b/c.json"; "/x"; "x"; "//x"; "/a//b"]%string = ["/a/b"; "/"; ""; "//"; "/a"]%string.
Proof. vm_compute. reflexivity. Qed.

(** ** A disk that works *)

(** Every path can be read, and holds the same document. *)
Definition disk_of (document : val) : Disk := {|
  is_file := fun _ => true; resolve := fun path => path; read_json := fun _ => Ok document; mkdir := fun _ => Ok tt;
  copy2 := fun a b => if String.eqb a b then Err OSError else Ok tt; write_text := fun _ _ => Ok tt;
  savefig := fun _ _ => Ok tt |}.
Lemma disk_of_works document : working (disk_of document).
Proof.
  split; try done; cbn.
  - intros a b _ Hab. by apply String.eqb_neq in Hab as ->.
  - intros a. by rewrite String.eqb_refl.
Qed.
Lemma disk_of_json document : jsonable document = true -> json_disk (disk_of document).
Proof. by intros H path v [= <-]. Qed.

Definition no_journals : Journals :=
  {| decision_files := fun _ => []; outcome_files := fun _ => []; json_loads := fun _ => Err (ValueError "") |}.
Definition demo_host : Gateway.Host :=
  {| Gateway.h_python := "3.12"; Gateway.h_platform := "linux"; Gateway.h_pid := 1; Gateway.h_peak_rss_mb := f1; Gateway.h_time := f0 |}.
Definition demo_stage2_host : Stage2Run.Host :=
  {| Stage2Run.h_git := "g"; Stage2Run.h_python := "3.12"; Stage2Run.h_platform := "linux"; Stage2Run.h_gpu := "none"; Stage2Run.h_time := f0 |}.
Abbreviation demo_run document c :=
  (run_command (disk_of document) no_journals (fun _ => Ok f0) (fun x => x) (fun _ _ => 0) "3.12" (fun path => path)
     (fun _ => ([], f0, f1)) demo_host (fun _ => Ok VNone) (fun _ _ => Err OSError) demo_stage2_host (fun _ => true) (fun _ => None) c []).

