(* ===== verification/SweepScript.v ===== *)
(** * The capacity sweep as a command (scripts/run_capacity_sweep.py)

    Its [main] over a disk, with the measurements of [Sweep] and the figure of [Figures].
    A finished sweep is carried on to the check of its directory, to the calibrator and to
    the operating envelope. *)

From S2P Require Import Prelude PyFloat PyStr PyVal PySort PyPath Digest Disk Regex WindowMetrics Policy Calibrator Envelope LoadRunner Experiment Sweep Threshold Figures Artifacts SweepArtifact Written Commands.
From S2P Require Reuse Scripts.

(** ** The capacity sweep *)

Record SweepArgs := {
  sw_args : Sweep.Args;
  sw_out_dir : string;
  sw_out_png : string;
  sw_stack_backend : string;              (* "", or one of the choices vllm and sglang *)
  sw_stack_results_dir : string;
  sw_stack_served_model_name : string;
  sw_stack_model_path : string
}.
Definition str_or_else (s other : string) : string := if String.eqb s "" then other else s.

Section sweep.
Context (disk : Disk).
Context (netloc_ok : string -> bool) (environ : list (string * string)) (root : string).   (* [str(ROOT / "results")] *)
(** How a command of the restart before a point ends. *)
Context (run : Z -> string -> list (string * string) -> Z).
Context (traffic : Z -> Params -> Traffic) (env : Z -> Env).

Definition stack_of (a : SweepArgs) : Scripts.Stack := {|
  Scripts.st_backend := sw_stack_backend a; Scripts.st_base_url := a_base_url (sw_args a);
  Scripts.st_exporter_metrics_url := a_exporter_metrics_url (sw_args a);
  Scripts.st_results_dir := str_or_else (sw_stack_results_dir a) (default root (dget environ "RESULTS_DIR"));
  Scripts.st_served_model_name := str_or_else (sw_stack_served_model_name a) (a_model (sw_args a));
  Scripts.st_model_path := sw_stack_model_path a |}.
Definition restart_of (a : SweepArgs) (point_index : Z) : res unit :=
  (Scripts._restart_serving_stack netloc_ok environ (run point_index) (stack_of a)).2.
Definition measured_sweep (a : SweepArgs) : res sweep_doc := sweep (sw_args a) (restart_of a) traffic env.

Definition sweep_dir (a : SweepArgs) : string := path_str (sw_out_dir a).
Definition sweep_png (a : SweepArgs) : string :=
  match given (sw_out_png a) with Some p => path_str p | None => path_join (sweep_dir a) "capacity_sweep_ranking.png" end.
Definition plot_name (a : SweepArgs) : string := str (path_name (sweep_png a)).
Definition sweep_main (a : SweepArgs) : D unit :=
  if a_restart (sw_args a) && String.eqb (sw_stack_backend a) "" then st_lift usage_error
  else
    make_dir disk (sweep_dir a) ;;;
    doc <~ st_lift (measured_sweep a) ;;
    plot_capacity_ranking disk (sd_ranking doc) (sweep_png a) ;;;
    write_file disk (path_join (sweep_dir a) "summary.json") (dumped_unescaped (summary_json (sw_args a) doc)) ;;;
    write_file disk (path_join (sweep_dir a) "summary.md") (_to_markdown (sw_args a) doc (plot_name a)).
End sweep.

(** ** A sweep that finished measuring *)

Section sweep_facts.
Context (a : Args) (restart : Z -> res unit) (traffic : Z -> Params -> Traffic) (env : Z -> Env).

(** The mean hit ratio of at least one run is there: a number, or [None]. *)
Lemma aggregate_hit_ratio entries agg : entries <> [] -> aggregate_run_entries entries = Ok agg ->
  exists v, dget agg "hit_ratio_mean" = Some v /\ (v = VNone \/ exists f, v = VFloat f).
Proof.
  intros Hne H. destruct entries as [|e entries]; [done|]. unfold aggregate_run_entries in H. inv_ok H. subst agg.
  eexists. split; [reflexivity|].
  match goal with E : average_or_none (omap id ?h) = Ok ?v |- ?v = _ \/ _ => apply average_or_none_float in E as [[-> _]|[f ->]] end; eauto.
Qed.
Lemma repeats_nonempty {A} (f : Z -> res A) runs : 1 <= a_repeats a -> res_map f (repeats a) = Ok runs -> runs <> [].
Proof.
  intros Hrep Hruns ->. apply res_map_length in Hruns. unfold repeats in Hruns. rewrite length_map, length_seq in Hruns.
  simpl in Hruns. lia.
Qed.

(** Every point has its row. *)
Lemma point_row_total s c i p point : 1 <= a_repeats a -> sweep_point a restart traffic env s c i = Ok p ->
  with_ranking p = Ok point -> is_ok (point_row point) = true.
Proof.
  intros Hrep Hp Hw. unfold sweep_point in Hp. destruct (if a_restart a then _ else _); [|discriminate Hp].
  destruct (res_map _ (repeats a)) as [runs|] eqn:Er; [|discriminate Hp].
  destruct (aggregate_run_entries runs) as [agg|] eqn:Ea; [|discriminate Hp].
  destruct (_build_point_recommendation _ _ _ _ runs) as [rec|]; [|discriminate Hp]. injection Hp as <-.
  destruct (aggregate_hit_ratio _ _ (repeats_nonempty _ _ Hrep Er) Ea) as (hit & Hhit & Hv). clear Ea Er.
  unfold with_ranking, _point_rank_record in Hw.
  cbn [vitem dget String.eqb Ascii.eqb Bool.eqb int_of_val] in Hw.
  match type of Hw with match ?c with Ok _ => _ | Err _ => _ end = _ => destruct c as [r|] eqn:Erank; [|discriminate Hw] end.
  assert (Hok : forall x : dict, Ok x = Ok point -> point = x) by congruence. apply Hok in Hw. subst point. clear Hok.
  unfold point_row, dset. cbn [vitem dget String.eqb Ascii.eqb Bool.eqb int_of_val rank_dict].
  inv_ok Erank. rewrite Hhit. clear Erank.
  repeat match goal with E : _ = Ok _ |- _ => rewrite E; clear E end.
  destruct Hv as [->|[f ->]]; reflexivity.
Qed.

Lemma sweep_rows doc name : sweep a restart traffic env = Ok doc -> 1 <= a_repeats a -> is_ok (_to_markdown a doc name) = true.
Proof.
  intros (cs & measured & [_ _ Hm _ Hp _])%sweep_swept Hrep. unfold _to_markdown.
  assert (Hrows : is_ok (res_map point_row (sd_points doc)) = true).
  { apply res_map_ok. intros point Hin. destruct (res_map_elem _ _ _ _ Hp Hin) as (p & Hpin & Hw).
    apply list_elem_of_lookup in Hpin as [k Hk]. destruct (Forall2_lookup_r _ _ _ _ _ Hm Hk) as (cell & _ & i & Hi).
    by eapply point_row_total. }
  by destruct (res_map point_row (sd_points doc)).
Qed.

(** There is a panel for every scenario, and an empty sweep has none. *)
Lemma capacity_figure_ok by_scenario : by_scenario <> [] ->
  exists f, capacity_figure by_scenario = Ok f /\ map ax_title (fg_axes f) = map fst by_scenario.
Proof.
  intros Hne. unfold capacity_figure. cbv zeta.
  assert (Hz : zlen (_build_plot_series by_scenario) = zlen by_scenario) by (unfold zlen, _build_plot_series; by rewrite length_map).
  assert (Hpos : 1 <= zlen by_scenario) by (destruct by_scenario; [done|rewrite zlen_cons; unfold zlen; lia]).
  rewrite Hz, Z.max_r, Z.eqb_refl by lia. cbn [negb]. eexists. split; [reflexivity|]. cbn [fg_axes].
  unfold _build_plot_series. destruct by_scenario as [|x l]; [done|]. cbn [map label_first ax_title ranking_axes fst]. f_equal.
  rewrite !map_map. done.
Qed.
Lemma sweep_scenarios_ranked doc : sweep a restart traffic env = Ok doc ->
  (sweep_scenarios a = [] -> sd_ranking doc = []) /\ (sweep_scenarios a <> [] -> sd_ranking doc <> []).
Proof.
  intros (cs & measured & [Hcs _ Hm Hr _ _])%sweep_swept. split.
  - intros Hsc. rewrite Hsc in Hm. apply Forall2_length in Hm. destruct measured; [by injection Hr as <-|discriminate Hm].
  - intros Hsc Hnil. rewrite Hnil in Hr. destruct (sweep_scenarios a) as [|s ss]; [done|].
    unfold _parse_csv_ints in Hcs. destruct (res_map _ _) as [[|z zs]|] in Hcs; try done. injection Hcs as <-.
    apply Forall2_length in Hm. unfold _build_sweep_ranking in Hr.
    destruct (scenario_names measured) as [names|] eqn:En; [|discriminate Hr]. apply res_map_length in Hr.
    destruct names; [|discriminate Hr]. unfold scenario_names in En. destruct measured as [|p ps]; [discriminate Hm|].
    cbn [res_map] in En. inv_ok En. inv_ok E. subst a0.
    match goal with E : PySort.strsorted (remove_dups (?x :: ?l)) = [] |- _ => assert (Hin : x ∈ PySort.strsorted (remove_dups (x :: l)))
      by (unfold PySort.strsorted; rewrite PySort.py_sort_perm, elem_of_remove_dups; by left); rewrite E in Hin; by apply elem_of_nil in Hin end.
Qed.
End sweep_facts.

Lemma sweep_text a restart traffic env doc : sweep a restart traffic env = Ok doc ->
  exists text, dumped_unescaped (summary_json a doc) = Ok text.
Proof. intros H. by apply dumped_unescaped_ok, (sweep_json _ _ _ _ _ H). Qed.

(** The operations of a sweep that measured something. *)
Definition sweep_ops (a : SweepArgs) (f : figure) (text md : string) : list disk_op :=
  [OMkdir (sweep_dir a); OMkdir (path_parent (sweep_png a)); OFigure (path_str (sweep_png a)) f;
   OWrite (path_join (sweep_dir a) "summary.json") text; OWrite (path_join (sweep_dir a) "summary.md") md].


Definition demo_sweep_args : SweepArgs :=
  {| sw_args := demo_args; sw_out_dir := "results/sweep/"; sw_out_png := ""; sw_stack_backend := ""; sw_stack_results_dir := "";
     sw_stack_served_model_name := ""; sw_stack_model_path := "" |}.
Abbreviation demo_measured := (measured_sweep (fun _ => true) [] "/r/results" (fun _ _ _ => 0) demo_traffic demo_scrapes demo_sweep_args).

(** A sweep of no repetitions measures nothing and fails between its two documents. *)
Definition unrepeated : SweepArgs :=
  {| sw_args :=
       {| a_base_url := "http://b/"; a_endpoint := "/v1/completions"; a_model := "m"; a_backend_metrics_url := "";
          a_exporter_metrics_url := "http://e/metrics"; a_scenarios := "low_reuse"; a_concurrency_values := "1"; a_repeats := 0;
          a_num_requests := 1; a_input_len := 8; a_output_len := 4; a_warmup_requests := 0; a_timeout_s := of_Z 30;
          a_base_seed := 42; a_e2e_p95_slo_ms := of_Z 1500; a_min_success_rate := dec 99 (-2); a_min_hit_ratio := dec 5 (-2);
          a_safety_factor := dec 9 (-1); a_restart := false |};
     sw_out_dir := "out"; sw_out_png := ""; sw_stack_backend := ""; sw_stack_results_dir := "";
     sw_stack_served_model_name := ""; sw_stack_model_path := "" |}.
Example unrepeated_sweep_half_written :
  let '(ops, r) := sweep_main (disk_of VNone) (fun _ => true) [] "/r/results" (fun _ _ _ => 0) demo_traffic demo_scrapes unrepeated [] in
  (omap (fun op => match op with OWrite path _ => Some path | _ => None end) ops, r) =
  (["out/summary.json"%string], Err (KeyError "hit_ratio_mean")).
Proof. vm_compute. reflexivity. Qed.

(** ** From a sweep to a plan *)

Lemma bind_twice {A B} (r r' : res A) (k : A -> res B) : r = r' ->
  (_ <-! r ;; x <-! r' ;; k x) = (x <-! r' ;; k x).
Proof. intros ->. by destruct r'. Qed.
Lemma calibrate_values_dicts cs ws points :
  calibrate_values cs ws (map VDict points) = calibrate cs ws points DEFAULT_THRESHOLDS.
Proof.
  unfold calibrate_values, calibrate. generalize DEFAULT_THRESHOLDS as ts. intros ts.
  assert (Hpairs : res_map (fun pt : val * float => point <-! Calibrator.as_dict pt.1 ;; _evaluate_candidate cs ws point pt.2)
      (mjoin (map (fun point => map (fun t => (point, t)) ts) (map VDict points)))
    = res_map (fun pt => _evaluate_candidate cs ws pt.1 pt.2) (mjoin (map (fun point : dict => map (fun t => (point, t)) ts) points))).
  { induction points as [|p points IH]; [done|].
    change (mjoin (map ?f (map VDict (p :: points)))) with (f (VDict p) ++ mjoin (map f (map VDict points))).
    change (mjoin (map ?f (p :: points))) with (f p ++ mjoin (map f points)). rewrite !res_map_app, IH. clear IH.
    assert (Ht : forall l, res_map (fun pt : val * float => point <-! Calibrator.as_dict pt.1 ;; _evaluate_candidate cs ws point pt.2)
        (map (fun t => (VDict p, t)) l) = res_map (fun pt => _evaluate_candidate cs ws pt.1 pt.2) (map (fun t => (p, t)) l)).
    { induction l as [|t l IHt]; [done|]. cbn [map res_map fst snd Calibrator.as_dict]. by rewrite IHt. }
    by rewrite Ht. }
  rewrite Hpairs.
  assert (Hd : res_map Calibrator.as_dict (map VDict points) = Ok points) by exact (Reuse.omap_as_dict points).
  rewrite Hd. apply (bind_twice _ _ _ eq_refl).
Qed.

Section plan.
Context (disk : Disk) (Hw : working disk) (Hj : json_disk disk).
Context (journals : Journals) (timestamp : string -> res float) (math_exp : float -> float) (elapsed_ns : string -> Z -> Z)
  (python : string) (abspath : string -> string) (measure_path : Gateway.PathSpec -> list Gateway.Sample * float * float)
  (gateway_host : Gateway.Host) (load_yaml : string -> res val) (measure_call : nat -> Stage2Run.call -> res Stage2.Repetition)
  (stage2_host : Stage2Run.Host) (netloc_ok : string -> bool) (environ : string -> option string).
#[local] Abbreviation command_run := (run_command disk journals timestamp math_exp elapsed_ns python abspath measure_path
  gateway_host load_yaml measure_call stage2_host netloc_ok environ).

(** C24: What the planner makes of a finished sweep.  When its summary is read back and
    calibrated with the constraints of the sweep and the default safety factor, the
    calibrator writes the calibration that is already in the summary.  The operating
    envelope of the same summary is always written and is always blocked: whatever the
    servers answered, it recommends nothing and lists the missing goodput against every
    point, because no summary of the load runner has a goodput. *)
Theorem sweep_to_plan a restart traffic env doc ca ea ops : sweep a restart traffic env = Ok doc ->
  read_json disk (path_str (ca_input ca)) = Ok (VDict (summary_json a doc)) -> ca_input ca = ea_input ea ->
  ca_constraints ca = sweep_constraints a -> a_safety_factor a = dec 9 (-1) -> ca_report ca = ""%string ->
  (exists d text, dget (summary_json a doc) "calibration" = Some (VDict d) /\ dumped d = Ok text /\
     command_run (Calibrate ca) ops = (ops ++ [OMkdir (path_parent (ca_out ca)); OWrite (path_str (ca_out ca)) text], Ok tt)) /\
  (exists e text md, envelope_document ea (VDict (summary_json a doc)) = Ok e /\
     dumped (envelope_dict (ea_slo ea) (ea_min_success_rate ea) (ea_budget ea) (ea_safety_factor ea) e) = Ok text /\
     command_run (RecommendEnvelope ea) ops = (ops ++ [OMkdir (path_parent (ea_out ea)); OMkdir (path_parent (ea_report ea));
       OWrite (path_str (ea_out ea)) text; OWrite (path_str (ea_report ea)) md], Ok tt) /\
     env_status e = "blocked"%string /\ env_recommendation e = None /\ length (env_points e) = length (sd_points doc) /\
     Forall (fun it => "goodput_missing"%string ∈ it_reasons it) (env_points e)).
Proof.
  intros Hs Hread Hin Hcs Hsf Hrep. split.
  - destruct (sweep_swept _ _ _ _ _ Hs) as (cs & measured & [_ _ _ _ _ Hcal]).
    assert (Hweights : sweep_weights a = default_weights) by (unfold sweep_weights; by rewrite Hsf).
    rewrite Hweights in Hcal.
    assert (Hdoc : calibrate_document (ca_constraints ca) (VDict (summary_json a doc)) = Ok (sd_calibration doc)).
    { rewrite Hcs, <- Hcal. apply calibrate_values_dicts. }
    pose proof (main_delivers disk Hw Hj journals timestamp math_exp elapsed_ns python abspath measure_path gateway_host load_yaml
      measure_call stage2_host netloc_ok environ (Calibrate ca) ops) as H.
    unfold delivered in H. cbn [deliver] in H. unfold read in H. rewrite Hread, Hdoc, Hrep in H.
    destruct H as (performed_ops & Hp & Hr). cbn [given String.eqb app parent_and] in Hp.
    inversion Hp as [|x1 y1 l1 m1 P1 Hp1 E1]; subst. inversion Hp1 as [|x2 y2 l2 m2 P2 Hp2]; subst. inversion Hp2; subst.
    inversion P1; subst. inversion P2; subst.
    eexists _, _. split; [unfold summary_json; rewrite Hweights, <- Hcs; reflexivity|]. split; [eassumption|].
    rewrite app_empty in Hr. exact Hr.
  - destruct (sweep_blocks_envelope a restart traffic env doc (ea_slo ea) (ea_min_success_rate ea) (ea_budget ea) (ea_safety_factor ea) Hs)
      as (e & He & H1 & H2 & _ & H3 & H4).
    pose proof (main_delivers disk Hw Hj journals timestamp math_exp elapsed_ns python abspath measure_path gateway_host load_yaml
      measure_call stage2_host netloc_ok environ (RecommendEnvelope ea) ops) as H.
    unfold delivered in H. cbn [deliver] in H. unfold read in H. rewrite <- Hin, Hread in H.
    cbn [envelope_document Calibrator.as_dict] in H. unfold envelope_document in H. cbn [Calibrator.as_dict] in H. rewrite He in H.
    destruct (envelope_written _ _ _ _ _ _ (sweep_json a restart traffic env doc Hs) He) as [[text Ht]%dumped_ok Hmd].
    destruct (Envelope.render_markdown _ _ e) as [md|]; [|discriminate Hmd].
    destruct H as (performed_ops & Hp & Hr).
    exists e, text, md. split; [exact He|]. split; [exact Ht|]. split_and!; try done.
    + inversion Hp as [|x1 y1 l1 m1 P1 Hp1 E1]; subst. inversion Hp1 as [|x2 y2 l2 m2 P2 Hp2]; subst.
      inversion Hp2 as [|x3 y3 l3 m3 P3 Hp3]; subst. inversion Hp3 as [|x4 y4 l4 m4 P4 Hp4]; subst. inversion Hp4; subst.
      inversion P1; subst. inversion P2; subst. inversion P3; subst. inversion P4; subst. rewrite app_empty in Hr.
      assert (text0 = text) by congruence. subst. exact Hr.
    + eapply Forall_impl; [exact H4|]. by intros it [? _].
Qed.
End plan.

Definition demo_calibrate : CalibrateArgs :=
  {| ca_input := "results/sweep/summary.json"; ca_out := "out/calibration.json"; ca_report := "";
     ca_constraints := sweep_constraints demo_args |}.
Definition demo_envelope : EnvelopeArgs :=
  {| ea_input := "results/sweep/summary.json"; ea_out := "out/envelope.json"; ea_report := "out/envelope.md";
     ea_slo := of_Z 1500; ea_min_success_rate := dec 99 (-2); ea_budget := None; ea_safety_factor := dec 9 (-1) |}.
Lemma sweep_to_plan_witness : exists doc d text e, demo_sweep = Ok doc /\
  dget (summary_json demo_args doc) "calibration" = Some (VDict d) /\
  demo_run (VDict (summary_json demo_args doc)) (Calibrate demo_calibrate) = ([OMkdir "out"; OWrite "out/calibration.json" text], Ok tt) /\
  envelope_document demo_envelope (VDict (summary_json demo_args doc)) = Ok e /\ env_status e = "blocked"%string.
Proof.
  assert (H : is_ok demo_sweep = true) by (vm_compute; reflexivity).
  destruct demo_sweep as [doc|] eqn:E; [|discriminate H]. clear H.
  destruct (sweep_to_plan (disk_of (VDict (summary_json demo_args doc))) (disk_of_works _)
    (disk_of_json _ (sweep_json _ _ _ _ _ E)) no_journals (fun _ => Ok f0) (fun x => x) (fun _ _ => 0) "3.12" (fun path => path)
    (fun _ => ([], f0, f1)) demo_host (fun _ => Ok VNone) (fun _ _ => Err OSError) demo_stage2_host (fun _ => true) (fun _ => None)
    demo_args no_restart demo_traffic demo_scrapes doc demo_calibrate demo_envelope [] E eq_refl eq_refl eq_refl eq_refl eq_refl)
    as ((d & text & Hd & _ & Hr) & e & _ & _ & He & _ & _ & Hb & _).
  exists doc, d, text, e. split_and!; [reflexivity|exact Hd|exact Hr|exact He|exact Hb].
Defined.
