(* ===== verification/CurveScript.v ===== *)
(** * The reuse experiment and the threshold curve as commands
    (scripts/run_reuse_experiment.py, scripts/plot_threshold_curve.py)

    Their [main]s over a disk, with the measurements of [Reuse], the rows of [Threshold]
    and the table and figures of [Figures].  A finished experiment is carried on to the
    comparison with the baseline and to the curve. *)

From S2P Require Import Prelude PyFloat FloatOrder FloatRound PyStr PyVal PyPath Digest Disk WindowMetrics Policy LoadRunner Experiment Sweep Threshold Figures Reuse Written Commands.

(** ** The reuse experiment *)

Section reuse.
Context (disk : Disk) (traffic : string -> Z -> Params -> Traffic) (env : string -> Z -> Env).

Definition reuse_main (a : Reuse.Args) (out_dir : string) : D unit :=
  let out_dir := path_str out_dir in
  make_dir disk out_dir ;;;
  report <~ st_lift (Reuse.reuse_experiment a traffic env) ;;
  write_file disk (path_join out_dir "summary.json") (dumped_unescaped report) ;;;
  write_file disk (path_join out_dir "summary.md") (Reuse._to_markdown (VDict report)).
End reuse.

(** ** The threshold curve *)

Record CurveArgs := {
  cv_input : string;
  cv_out_csv : string;
  cv_out_json : string;
  cv_out_png : string;
  cv_out_split_png : string;
  cv_out_zh_png : string;
  cv_out_zh_split_png : string;
  cv_start : float;
  cv_end : float;
  cv_step : float;
  cv_e2e_p95_slo_ms : float;
  cv_min_success_rate : float;
  cv_safety_factor : float
}.

Section curve.
Context (disk : Disk) (file_exists : string -> bool).

Definition curve_rows (a : CurveArgs) (doc : val) (thresholds : list float) : res (list Threshold.row) :=
  threshold_rows (cv_e2e_p95_slo_ms a) (cv_min_success_rate a) (cv_safety_factor a) doc thresholds.
(** [Path(path) if path else out_png.with_name(out_png.stem + tag + out_png.suffix)] *)
Definition sibling (path out_png tag : string) : res string :=
  match given path with
  | Some p => Ok (path_str p)
  | None => with_name out_png (stem out_png +:+ tag +:+ suffix out_png)
  end.
(** A figure in the directory of its path. *)
Definition draw (path : string) (f : figure) : D unit := make_parent disk path ;;; save_figure disk path f.
Definition draw_all (a : CurveArgs) (thresholds : list float) (low high : list float * list float) : D unit :=
  let out_png := path_str (cv_out_png a) in
  draw out_png (curve_figure thresholds low high english "") ;;;
  split_png <~ st_lift (sibling (cv_out_split_png a) out_png "_split") ;;
  draw split_png (split_figure thresholds low high english "") ;;;
  let font := _set_chinese_font file_exists in
  zh_png <~ st_lift (sibling (cv_out_zh_png a) out_png "_zh") ;;
  draw zh_png (curve_figure thresholds low high chinese font) ;;;
  zh_split_png <~ st_lift (sibling (cv_out_zh_split_png a) out_png "_split_zh") ;;
  draw zh_split_png (split_figure thresholds low high chinese font).
Definition curve_body (a : CurveArgs) (doc : val) (range : res (list float)) : D unit :=
  thresholds <~ st_lift range ;;
  rows <~ st_lift (curve_rows a doc thresholds) ;;
  put disk (cv_out_csv a) (Ok (csv_table csv_fieldnames (map row_dict rows))) ;;;
  put disk (cv_out_json a) (dumped_unescaped (curve_json rows)) ;;;
  lines <~ st_lift (low <-! plotted rows thresholds "low_reuse" ;; high <-! plotted rows thresholds "high_reuse" ;; Ok (low, high)) ;;
  draw_all a thresholds lines.1 lines.2.
(** [None] as long as [_frange] has not ended. *)
Definition curve_main (fuel : nat) (a : CurveArgs) : option (D unit) :=
  match read_json disk (path_str (cv_input a)) with
  | Err e => Some (st_lift (Err e))
  | Ok doc => curve_body a doc <$> frange fuel (cv_start a) (cv_end a) (cv_step a)
  end.
End curve.

(** ** The report of a reuse experiment *)

(** What the report reads of an entry. *)
Record reported (entry : dict) : Prop := {
  re_repeat : exists n, dget entry "repeat" = Some (VInt n);
  re_quality : exists q, dget entry "quality" = Some (VDict q);
  re_summary : exists summary total ok, dget entry "summary" = Some (VDict summary) /\ loaded summary total ok;
  re_labels : (exists v, get_entry_hit_ratio_quality_and_source entry = Ok v) /\ is_ok (get_entry_prefix_metric_check entry) = true;
  re_req_s : is_ok (summary_number "throughput" "req_s" entry) = true;
  re_e2e : is_ok (summary_number "latency" "e2e_latency_p95_ms" entry) = true;
  re_hidden : is_ok (hidden_reuse entry) = true
}.
Lemma run_line_total s entry : reported entry -> is_ok (run_line s entry) = true.
Proof.
  intros [[n Hn] [q Hq] (summary & total & ok & Hs & [[failed Hreq] _ _ _]) [[[[h mq] src] Hv] Hc] Hr He Hh].
  unfold run_line, get_entry_hit_ratio_and_quality, vitem. rewrite Hs. cbn [vitem]. rewrite Hreq.
  cbn [dget String.eqb Ascii.eqb Bool.eqb int_of_val]. rewrite Hv. unfold dget_or. rewrite Hq, Hn. cbn [from_option default id vget].
  destruct (get_entry_prefix_metric_check entry); [|discriminate Hc]. destruct (summary_number "throughput" _ _); [|discriminate Hr].
  destruct (summary_number "latency" _ _); [|discriminate He]. by destruct (hidden_reuse entry).
Qed.

Lemma res_map_is_ok {A B} (f : A -> res B) l ys x : res_map f l = Ok ys -> x ∈ l -> is_ok (f x) = true.
Proof. intros H Hx. by destruct (res_map_elem_ok _ _ _ _ H Hx) as [y ->]. Qed.

Section reuse_report.
Context (a : Reuse.Args) (traffic : string -> Z -> Params -> Traffic) (env : string -> Z -> Env).

Lemma entry_reported s entries agg e : scenario_entries a traffic env s = Ok entries -> aggregate_run_entries entries = Ok agg ->
  e ∈ entries -> reported e.
Proof.
  intros He Ha Hin. destruct (aggregate_labels _ _ _ Ha Hin) as (Hv & Hc & _).
  destruct (res_map_elem _ _ _ _ He Hin) as (r & _ & Hrun). unfold reuse_run in Hrun.
  destruct (windowed_shape _ _ _ _ _ _ _ Hrun) as (summary & quality & Hload & Hs & _ & Hr & Hq).
  unfold reuse_load in Hload. cbv zeta in Hload. apply run_custom_http_loaded in Hload.
  assert (Hagg : is_ok (summary_number "throughput" "req_s" e) = true /\ is_ok (summary_number "latency" "e2e_latency_p95_ms" e) = true
                 /\ is_ok (hidden_reuse e) = true).
  { unfold aggregate_run_entries in Ha. destruct entries as [|e0 es]; [by apply elem_of_nil in Hin|].
    destruct (res_map (summary_number "throughput" "req_s") _) eqn:E1; [|discriminate Ha].
    destruct (res_map (summary_number "latency" "e2e_latency_p95_ms") _) eqn:E2; [|discriminate Ha].
    destruct (res_map ok_hit_ratio _); [|discriminate Ha]. destruct (res_map hidden_reuse _) eqn:E3; [|discriminate Ha].
    split_and!; by eapply res_map_is_ok. }
  destruct Hagg as (H1 & H2 & H3). split; eauto 6.
Qed.

(** The quality of a group counts its runs. *)
Lemma entry_quality_counts entries q : summarize_runs_quality entries = Ok q ->
  Forall (fun k => exists n, dget q k = Some (VInt n))
    ["total_runs"; "num_runs_missing_hit_ratio"; "num_runs_stale_metrics"; "num_runs_prefix_metric_strict";
     "num_runs_prefix_metric_token_fallback"]%string.
Proof.
  unfold summarize_runs_quality, summarize_prefix_metric_checks. intros H. inv_ok H. inv_ok E1. subst. repeat constructor; by eexists.
Qed.
Lemma aggregate_line_total s entries agg : aggregate_run_entries entries = Ok agg -> is_ok (aggregate_line s (VDict agg)) = true.
Proof.
  unfold aggregate_run_entries. intros H. destruct entries as [|e es].
  - destruct (summarize_runs_quality []) as [q|] eqn:Eq; [|discriminate H]. injection H as <-.
    vm_compute in Eq. injection Eq as <-. vm_compute. reflexivity.
  - inv_ok H. subst agg.
    repeat match goal with E : average _ = Ok _ |- _ => apply average_float in E as [? ->] end.
    repeat match goal with E : average_or_none _ = Ok _ |- _ => apply average_or_none_float in E end.
    match goal with E : summarize_runs_quality _ = Ok ?q |- _ => pose proof (entry_quality_counts _ _ E) as Hq end.
    rewrite !Forall_cons in Hq. destruct Hq as ([n1 H1] & [n2 H2] & [n3 H3] & [n4 H4] & [n5 H5] & _).
    unfold aggregate_line, int_at, float_at, vget, dget_or. cbn [dget String.eqb Ascii.eqb Bool.eqb from_option default id].
    rewrite H1, H2, H3, H4, H5. cbn [from_option default id int_of_val float_of_val].
    match goal with E : ?v = VNone /\ _ \/ _ |- context [na_or_fixed ?v] => destruct E as [[-> _]|[f ->]] end; reflexivity.
Qed.

(** A finished reuse experiment is written and reported. *)
Lemma reuse_rows report : reuse_experiment a traffic env = Ok report -> is_ok (Reuse._to_markdown (VDict report)) = true.
Proof.
  unfold reuse_experiment. intros H.
  destruct (scenario_entries a traffic env "low_reuse") as [low|] eqn:El; [|discriminate H].
  destruct (scenario_entries a traffic env "high_reuse") as [high|] eqn:Eh; [|discriminate H].
  destruct (aggregate_run_entries low) as [al|] eqn:Al; [|discriminate H].
  destruct (aggregate_run_entries high) as [ah|] eqn:Ah; [|discriminate H].
  assert (E : forall x : dict, Ok x = Ok report -> report = x) by congruence. apply E in H. clear E. subst report.
  assert (Hrows : forall s l agg, scenario_entries a traffic env s = Ok l -> aggregate_run_entries l = Ok agg ->
            is_ok (res_map (run_line s) l) = true).
  { intros s l agg Hl Hagg. apply res_map_ok. intros e He. by eapply run_line_total, entry_reported. }
  pose proof (Hrows _ _ _ El Al) as Rl. pose proof (Hrows _ _ _ Eh Ah) as Rh.
  pose proof (aggregate_line_total "low_reuse" _ _ Al) as Tl. pose proof (aggregate_line_total "high_reuse" _ _ Ah) as Th.
  unfold Reuse._to_markdown, SCENARIOS, scenario_aggregate, Reuse.scenario_lines. unfold reuse_meta.
  cbn [vitem dget String.eqb Ascii.eqb Bool.eqb res_map viter meta_line]. rewrite !omap_as_dict.
  destruct (res_map (run_line "low_reuse") low); [|discriminate Rl]. destruct (res_map (run_line "high_reuse") high); [|discriminate Rh].
  destruct (aggregate_line "low_reuse" _); [|discriminate Tl]. by destruct (aggregate_line "high_reuse" _).
Qed.
End reuse_report.

(** ** The thresholds *)

Lemma py_round_not_nan n x r : py_round n x = Ok r -> is_nan x = false -> is_nan r = false.
Proof.
  unfold py_round. destruct (isfinite x); [|by intros [= <-]]. destruct (abs_frac x) as [num den].
  match goal with |- context [ratio ?q ?d] => pose proof (ratio_not_nan q d) as H; generalize dependent (ratio q d) end.
  intros y Hy [= <-] _. destruct (sign_of x); [|done]. by destruct y.
Qed.
(** The thresholds of a range that ends are numbers. *)
Lemma frange_numbers fuel x limit step l : Threshold._frange fuel x limit step = Some l ->
  exists ts, l = Ok ts /\ Forall (fun t => is_nan t = false) ts.
Proof.
  revert x l. induction fuel as [|fuel IH]; intros x l H; cbn [Threshold._frange] in H;
    destruct (x <=?. limit) eqn:Ex; try done; try (injection H as <-; by exists []).
  destruct (Threshold._frange fuel _ _ _) as [rest|] eqn:Er; [|done].
  destruct (IH _ _ Er) as (ts & -> & Hts). destruct (py_round_ok 2 x) as [v Hv]. rewrite Hv in H. injection H as <-.
  exists (v :: ts). split; [done|]. constructor; [|done]. apply (py_round_not_nan _ _ _ Hv). by apply fleb_not_nan in Ex as [? _].
Qed.

(** ** The curve of an experiment *)

(** The files of a curve. *)
Definition curve_ops (a : CurveArgs) (split zh zh_split json : string) (rows : list Threshold.row)
  (main_figure split_fig zh_figure zh_split_figure : figure) : list disk_op :=
  let saved path f := [OMkdir (path_parent path); OFigure path f] in
  [OMkdir (path_parent (cv_out_csv a)); OWrite (path_str (cv_out_csv a)) (csv_table csv_fieldnames (map row_dict rows));
   OMkdir (path_parent (cv_out_json a)); OWrite (path_str (cv_out_json a)) json]
  ++ saved (path_str (cv_out_png a)) main_figure ++ saved split split_fig ++ saved zh zh_figure ++ saved zh_split zh_split_figure.

Lemma sibling_ok path out_png tag : path_name out_png <> [] -> exists p, sibling path out_png tag = Ok p.
Proof.
  intros H. unfold sibling. destruct (given path); [by eexists|]. unfold with_name. by destruct (path_name out_png); [|eexists].
Qed.

Section curve_facts.
Context (disk : Disk) (Hw : working disk) (file_exists : string -> bool) (a : CurveArgs).

Lemma draw_ok path f ops : draw disk path f ops = (ops ++ [OMkdir (path_parent path); OFigure path f], Ok tt).
Proof.
  unfold draw. rewrite (run_make_parent _ Hw). unfold save_figure. rewrite (perform_ok _ _ _ (wo_figure _ Hw path f)).
  by rewrite <- app_assoc.
Qed.
Lemma run_draw {B} path f (k : unit -> D B) ops :
  st_bind (draw disk path f) k ops = k tt (ops ++ [OMkdir (path_parent path); OFigure path f]).
Proof. apply run_bind, draw_ok. Qed.
Lemma run_put {B} path text content (k : unit -> D B) ops : text = Ok content ->
  st_bind (put disk path text) k ops = k tt (ops ++ [OMkdir (path_parent path); OWrite (path_str path) content]).
Proof.
  intros H. apply run_bind. unfold put. rewrite (run_make_parent _ Hw), (write_file_ok _ Hw _ _ _ _ H). by rewrite <- app_assoc.
Qed.

(** Once the rows and the lines are computed, nothing is left out. *)
Lemma curve_complete doc thresholds rows low high ops : path_name (cv_out_png a) <> [] ->
  curve_rows a doc thresholds = Ok rows -> plotted rows thresholds "low_reuse" = Ok low -> plotted rows thresholds "high_reuse" = Ok high ->
  exists split zh zh_split json, dumped_unescaped (curve_json rows) = Ok json /\
    curve_body disk file_exists a doc (Ok thresholds) ops =
      (ops ++ curve_ops a split zh zh_split json rows (curve_figure thresholds low high english "")
                (split_figure thresholds low high english "")
                (curve_figure thresholds low high chinese (_set_chinese_font file_exists))
                (split_figure thresholds low high chinese (_set_chinese_font file_exists)), Ok tt).
Proof.
  intros Hname Hrows Hlow Hhigh.
  assert (Hname' : path_name (path_str (cv_out_png a)) <> []) by (unfold path_name; by rewrite path_parts_str).
  destruct (dumped_unescaped_ok _ (curve_rows_json _ _ _ _ _ _ Hrows)) as [json Hjson].
  destruct (sibling_ok (cv_out_split_png a) _ "_split" Hname') as [split Hsplit].
  destruct (sibling_ok (cv_out_zh_png a) _ "_zh" Hname') as [zh Hzh].
  destruct (sibling_ok (cv_out_zh_split_png a) _ "_split_zh" Hname') as [zh_split Hzs].
  exists split, zh, zh_split, json. split; [done|]. unfold curve_body. rewrite (run_lift _ _ _ thresholds eq_refl).
  rewrite (run_lift _ _ _ _ Hrows). rewrite (run_put _ _ _ _ _ eq_refl), (run_put _ _ _ _ _ Hjson), Hlow, Hhigh.
  rewrite (run_lift _ _ _ (low, high) eq_refl). unfold draw_all. cbn [fst snd].
  rewrite run_draw, (run_lift _ _ _ _ Hsplit), run_draw. cbv zeta.
  rewrite (run_lift _ _ _ _ Hzh), run_draw, (run_lift _ _ _ _ Hzs), draw_ok. unfold curve_ops. cbv zeta. by rewrite <- !app_assoc.
Qed.
End curve_facts.


Definition demo_curve : CurveArgs :=
  {| cv_input := "reuse/summary.json"; cv_out_csv := "out/curve.csv"; cv_out_json := "out/curve.json"; cv_out_png := "out/curve.png";
     cv_out_split_png := ""; cv_out_zh_png := ""; cv_out_zh_split_png := ""; cv_start := dec 65 (-2); cv_end := dec 82 (-2);
     cv_step := dec 1 (-2); cv_e2e_p95_slo_ms := of_Z 1500; cv_min_success_rate := dec 99 (-2); cv_safety_factor := dec 9 (-1) |}.
