(* ===== verification/Replay.v ===== *)
(** * Replaying failed requests (scripts/replay_failed_requests.py)

    The rows of a JSONL file are posted again, one by one.  The module never imports
    [Path], and [main] needs it first: [main_raises].  What comes after is modelled as it
    is written, for the names a module has bound. *)

From S2P Require Import Prelude PyFloat PyStr PyVal Digest WindowMetrics.

(** The names of the module: its imports and [main]. *)
Definition module_names : list string := ["annotations"; "argparse"; "json"; "sys"; "Any"; "httpx"; "main"]%string.
Definition lookup_name (bound : list string) (name : string) : res unit :=
  if existsb (String.eqb name) bound then Ok tt else Err (NameError name).

(** What a line led to. *)
Inductive replayed : Type :=
| SkippedLine (line_no : Z)
| PostedLine (line_no status : Z) (url : val).
Definition R (A : Type) := stateful (list replayed) A.
Definition report (r : replayed) : R unit := st_mod (fun done => done ++ [r]).

Section replay.
Context (json_loads : string -> res val) (post : val -> val -> option dict -> res Z).

(** [row.get("url") or row.get("request_url")], or the base and the path. *)
Definition url_of (row : dict) : res val :=
  let url := py_or (dgetv row "url") (dgetv row "request_url") in
  if truthy url then Ok url
  else
    base <-! (match dget_or row "base_url" (VStr "") with VStr s => Ok (rstrip_char "/"%char s) | VBytes _ => Err TypeError | _ => Err AttributeError end) ;;
    let path := dget_or row "path" (VStr "") in
    Ok (VStr (if String.eqb base "" then "" else base +:+ py_str path)).
Definition body_of (row : dict) : val := if dmem row "json" then dgetv row "json" else dgetv row "body".
Definition headers_of (row : dict) : option dict := match dgetv row "headers" with VDict d => Some d | _ => None end.

Definition replay_line (nl : Z * string) : R unit :=
  let line := strip nl.2 in
  if String.eqb line "" then st_lift (Ok tt)
  else
    row <~ st_lift (v <-! json_loads line ;; match v with VDict d => Ok d | _ => Err AttributeError end) ;;
    url <~ st_lift (url_of row) ;;
    if negb (truthy url) then report (SkippedLine nl.1)
    else
      status <~ st_lift (post url (body_of row) (headers_of row)) ;;
      report (PostedLine nl.1 status url).
Definition numbered (lines : list string) : list (Z * string) :=
  map (fun kl : nat * string => (Z.of_nat (S kl.1), kl.2)) (indexed lines).

(** [open_lines]: [None] when there is no such file. *)
Definition replay_main (bound : list string) (open_lines : option (list string)) : R unit :=
  st_lift (lookup_name bound "Path") ;;;
  match open_lines with
  | None => st_lift (Err (SystemExit 1))
  | Some lines => st_for replay_line (numbered lines)
  end.

(** The script as it is raises before it reads its arguments. *)
Lemma main_raises open_lines done : replay_main module_names open_lines done = (done, Err (NameError "Path")).
Proof. reflexivity. Qed.

(** The outcome of a line, when nothing raises. *)
Definition outcome_of (nl : Z * string) : res (option replayed) :=
  let line := strip nl.2 in
  if String.eqb line "" then Ok None
  else
    row <-! (v <-! json_loads line ;; match v with VDict d => Ok d | _ => Err AttributeError end) ;;
    url <-! url_of row ;;
    if negb (truthy url) then Ok (Some (SkippedLine nl.1))
    else status <-! post url (body_of row) (headers_of row) ;; Ok (Some (PostedLine nl.1 status url)).
Lemma replay_line_outcome nl done : replay_line nl done =
  match outcome_of nl with Ok o => (done ++ option_list o, Ok tt) | Err e => (done, Err e) end.
Proof.
  unfold replay_line, outcome_of. destruct (String.eqb _ _); [by rewrite app_nil_r|].
  unfold st_bind, st_lift, report, st_mod. destruct (json_loads _) as [[| | | | | | |row]|]; try done.
  destruct (url_of row) as [url|]; [|done]. destruct (negb _); [done|]. by destruct (post _ _ _).
Qed.

(** With [Path] bound, every line is replayed once, in order, up to the first that
    raises: what was posted before stays posted. *)
Lemma replay_in_order lines done : exists k,
  (k <= length lines)%nat /\ exists outcomes, Forall2 (fun nl o => outcome_of nl = Ok o) (take k (numbered lines)) outcomes /\
  let '(done', r) := replay_main ("Path"%string :: module_names) (Some lines) done in
  done' = done ++ mjoin (map option_list outcomes) /\
  match r with
  | Ok _ => k = length lines
  | Err e => exists nl, numbered lines !! k = Some nl /\ outcome_of nl = Err e
  end.
Proof.
  assert (H : forall l d, exists k, (k <= length l)%nat /\ exists outcomes, Forall2 (fun nl o => outcome_of nl = Ok o) (take k l) outcomes /\
    let '(d', r) := st_for replay_line l d in
    d' = d ++ mjoin (map option_list outcomes) /\
    match r with Ok _ => k = length l | Err e => exists nl, l !! k = Some nl /\ outcome_of nl = Err e end).
  { induction l as [|nl l IH]; intros d; [exists 0%nat; split; [done|]; exists []; split; [constructor|]; cbn; by rewrite app_nil_r|].
    cbn [st_for]. unfold st_bind. rewrite replay_line_outcome. destruct (outcome_of nl) as [o|e] eqn:Eo.
    - destruct (IH (d ++ option_list o)) as (k & Hk & outcomes & Hf & Hr). exists (S k). split; [cbn; lia|].
      exists (o :: outcomes). split; [by constructor|]. destruct (st_for replay_line l _) as [d' r]. destruct Hr as [-> Hr].
      split; [cbn; by rewrite <- app_assoc|]. destruct r; [cbn; by rewrite Hr|exact Hr].
    - exists 0%nat. split; [lia|]. exists []. split; [constructor|]. split; [cbn; by rewrite app_nil_r|]. by exists nl. }
  destruct (H (numbered lines) done) as (k & Hk & outcomes & Hf & Hr).
  assert (Hlen : length (numbered lines) = length lines) by (unfold numbered, indexed; by rewrite length_map, length_combine, length_seq, Nat.min_id).
  rewrite Hlen in Hk. exists k. split; [done|]. exists outcomes. split; [done|]. unfold replay_main.
  change (st_bind (st_lift (lookup_name ("Path"%string :: module_names) "Path")) ?k done) with (k tt done). cbv beta.
  destruct (st_for _ _ _) as [d' r]. by rewrite Hlen in Hr.
Qed.
End replay.
