(* ===== verification/GatewayReport.v ===== *)
(** * The gateway report as a command (benchmark/gateway_report.py)

    [render] of [Gateway] is the report of a matrix; the command renders any JSON document
    that it reads.  Of the document of a matrix both are the same text. *)

From S2P Require Import Prelude PyFloat PyStr PyVal PyPath Digest Disk.
From S2P Require Gateway Stage2Report Artifacts.
Import Stage2Report (format_fixed, _fmt, row_of).

(** ** The report of a document *)

(** [f"{v}"] of an entry *)
Definition shown (d : val) (k : string) : res string := v <-! vitem d k ;; Ok (py_str v).
Definition cell (d : val) (k : string) (format : val -> res string) : res string := v <-! vitem d k ;; format v.
Definition document_line (report path : val) : res string :=
  latency <-! vitem path "latency_ms" ;;
  ttft <-! vitem path "ttft_ms" ;;
  name <-! shown path "path" ;;
  ok <-! shown path "ok" ;; requests <-! shown path "requests" ;;
  error_rate <-! cell path "error_rate" (format_fixed 3) ;;
  p50 <-! cell latency "p50" _fmt ;; p95 <-! cell latency "p95" _fmt ;; p99 <-! cell latency "p99" _fmt ;;
  ttft_p95 <-! cell ttft "p95" _fmt ;;
  throughput <-! cell path "throughput_req_s" (format_fixed 3) ;;
  memory <-! vitem report "memory" ;; rss <-! cell memory "peak_rss_mb" (format_fixed 2) ;;
  Ok (row_of ["`" +:+ name +:+ "`"; ok +:+ "/" +:+ requests; error_rate; p50; p95; p99; ttft_p95; throughput; rss]).
Definition render_document (report : val) : res string :=
  schema <-! shown report "schema_version" ;;
  hash <-! shown report "config_hash" ;;
  environment <-! vitem report "environment" ;;
  platform <-! shown environment "platform" ;; python <-! shown environment "python" ;;
  paths <-! vitem report "paths" ;;
  paths <-! viter paths ;;
  lines <-! res_map (document_line report) paths ;;
  phases <-! vitem report "phase_attribution" ;;
  phases <-! json_text (indented true) 0 phases ;;
  Ok (join (str [chr 10])
    (["# Kavora Stage 1 Gateway Benchmark"; ""; "- Schema: `" +:+ schema +:+ "`"; "- Config hash: `" +:+ hash +:+ "`";
      "- Environment: `" +:+ platform +:+ "` / Python `" +:+ python +:+ "`"; "";
      "| Path | OK | Error rate | p50 ms | p95 ms | p99 ms | TTFT p95 ms | req/s | peak RSS MB |";
      "|---|---:|---:|---:|---:|---:|---:|---:|---:|"]%string
     ++ lines
     ++ [""; "## Phase Attribution"; ""; "```json"; phases; "```"; "";
         "The phase deltas are end-to-end proxy measurements. They must not be described as isolated Go, RPC, or Rust CPU timings.";
         ""]%string)).

(** The text is computed when the directory has been made. *)
Definition gateway_report_main (disk : Disk) (input out : string) : D unit :=
  report <~ _read_json disk input ;;
  make_parent disk out ;;;
  write_file disk (path_str out) (render_document report).

(** ** The document of a matrix *)

Lemma fmt_opt o : _fmt (opt_float o) = Ok (Gateway.fmt o).
Proof. by destruct o. Qed.
Lemma document_line_of m p :
  document_line (VDict (Artifacts.matrix_dict m)) (Artifacts.path_dict p) = Ok (Gateway.path_line (Gateway.mx_host m) p).
Proof.
  unfold document_line, shown, cell, Artifacts.path_dict, Artifacts.path_quantiles, Artifacts.matrix_dict.
  cbn -[fmt_fixed _fmt]. by rewrite !fmt_opt.
Qed.

Lemma document_lines_of m ps :
  res_map (document_line (VDict (Artifacts.matrix_dict m))) (map Artifacts.path_dict ps) =
  Ok (map (Gateway.path_line (Gateway.mx_host m)) ps).
Proof. induction ps as [|p ps IH]; [done|]. cbn [map res_map]. by rewrite document_line_of, IH. Qed.

(** The report of a matrix is the report of its document. *)
Lemma render_document_of m : render_document (VDict (Artifacts.matrix_dict m)) = Gateway.render m.
Proof.
  unfold render_document, shown.
  change (vitem (VDict (Artifacts.matrix_dict m)) "paths"%string) with (Ok (VList (map Artifacts.path_dict (Gateway.mx_paths m)))).
  cbn [viter]. rewrite document_lines_of. reflexivity.
Qed.

(** On a disk that works, the command renders what a gateway run measured. *)
Lemma gateway_reported disk m input out ops : working disk ->
  read_json disk (path_str input) = Ok (VDict (Artifacts.matrix_dict m)) ->
  exists text, Gateway.render m = Ok text /\
    gateway_report_main disk input out ops = (ops ++ [OMkdir (path_parent out); OWrite (path_str out) text], Ok tt).
Proof.
  intros Hw Hread. destruct (json_text_ok (indented true) (VDict (Gateway.attribution_dict (Gateway.mx_phases m))) 0) as [phases Hp].
  { unfold Gateway.attribution_dict. destruct (Gateway.mx_phases m) as [|go rust present]; [done|]. by destruct go, rust. }
  assert (Ht : exists text, Gateway.render m = Ok text) by (unfold Gateway.render; rewrite Hp; by eexists).
  destruct Ht as [text Ht]. exists text. split; [done|]. unfold gateway_report_main, _read_json. rewrite Hread.
  change (st_bind (st_lift (Ok ?v)) ?k ops) with (k v ops). cbv beta. rewrite run_make_parent by done.
  erewrite write_file_ok; [|done|by rewrite render_document_of]. by rewrite <- app_assoc.
Qed.
